(* ===== verification/_CoqProject ===== *)
-Q . S2P
Prelude.v
PyStr.v
PyVal.v
Json.v
Paths.v
Dates.v
World.v
Demo.v
Graph.v
Finmars.v
Models.v
Manager.v
System.v
Builder.v
Launch.v
Tasks.v
Export.v
Engine.v
Fixture.v
Completion.v
Nested.v
Chains.v
Flow.v
Refine.v
Spawning.v
Isolation.v
Sync.v
Registry.v
Views.v
Lifecycle.v
Runs.v
Joins.v
Middleware.v
Rows.v
Scheduler.v
Monitoring.v
Auth.v
Errors.v
Schemas.v
OpenApi.v
Documented.v
EnumHook.v
Storage.v
LocalFiles.v
Archives.v
Utils.v
Sessions.v
Health.v
Serializers.v
Editing.v
Edited.v
References.v
Migrations.v
Evolution.v
Filters.v
Listing.v
Withdrawn.v
Logging.v
Bootstrap.v
Endpoints.v
Serving.v
