(* ===== verification/Prelude.v ===== *)
(** * finmars-workflow: a verified model

    finmars-workflow is a multi-tenant Django application that runs users'
    workflows on celery workers.  One PostgreSQL schema holds the tables of one
    tenant (a "space"); a request, a message or a command first points the
    connection's [search_path] at a schema.  A workflow of version 1 is a list
    of tasks that becomes one celery chain; a workflow of version 2 is a graph
    of nodes, and every task that succeeds sends a message for each of its
    successors.  This library translates the sources (paths are below src/) into
    Rocq functions and proves what makes them correct, or shows where they are
    not.

    ** How code is modelled

    - A Python function is a function of the same name.  One that touches
      anything outside its local variables is in the monad [M A = ST world A]
      (this file, World.v): it maps the state [world] to an outcome, [Ok] with a
      value or [Raise] with an exception [exn], and the new state.  The state is
      kept when an exception is raised, as the program has no transaction around
      its requests and tasks.  [try_except], [when], [for_each] are the
      statements of the same names.
    - [world] (World.v) holds the tables of every schema, the catalogue of the
      schemas, the search path, the clock, the uuid counter, the broker (the
      messages published and not yet taken), the revoked tasks, the requests
      sent, the registry of workflow configurations, and the local files.  A row
      is a record; a [Table] keeps its rows in the order of their creation and
      the next identifier.  [Model] is the type class of the row types, with the
      ORM's operations on it ([objects_filter], [objects_get], [insert_row],
      [save_row]); [save_row] writes the whole row, so a stale row that is saved
      undoes what was written in between, as in Django.
    - Payloads, results and configurations are the values of [pyval] (PyVal.v),
      JSON-shaped Python values whose dictionaries keep the order of insertion;
      reading them ([getitem], [get], [as_str], [truthy]) raises what Python
      raises.  The columns that hold JSON text go through the codec of Json.v.
    - Integers of Python and of the database columns are [Z]; the program does
      no machine-width arithmetic.  Strings are [string]s (PyStr.v), one
      character for a code point below 256; paths are in Paths.v.
    - What is not in the repository is a parameter with the behaviour the
      code relies on as the laws of a type class: [Platform] (HTTP peers, JWT
      signing, uuids), [UserCode] (the code users write), [Celery], [Backend]
      (storage, YAML), [AuthPlatform] (jwt.decode, Keycloak), [Beat]
      (django-celery-beat), and those named in the other files.  Demo.v and
      Fixture.v hold the concrete instances the witnesses evaluate.

    ** The files

    - Support: Prelude (outcomes, the state monad, the predicate [Keeps] and its
      tactics), PyStr, PyVal, Json, Paths, Dates (Python's own types and
      libraries), World (state and ORM, the schema functions of
      workflow/utils.py), Demo, Fixture.
    - Graphs of version 2 workflows, workflow/utils.py and the comprehensions of
      the engine: Graph ([get_connections], [start_nodes],
      [get_next_node_by_condition], ...).
    - Rows and their behaviour, workflow/models.py: Models ([save_workflow],
      [cancel_workflow], [handle_task_success], [save_schedule], the JSON
      properties); the climb through parent workflows is in Completion and
      Nested.
    - The platform's client, workflow/finmars.py: Finmars (tokens, calls,
      polling), Storage (the Storage facade and the backends of
      workflow/storage.py), Utils (Utils and Vault).  LocalFiles is a tree of
      local directories with the functions of os, shutil and zipfile that
      workflow/storage.py calls, Archives its downloads.
    - The workflow manager, workflow/system.py: Manager states as the classes
      [Manager], [UserCode], [Celery] what the tasks, the builder and the views
      use of it, and their laws; System implements it; Sync proves what the copy
      of the remote storage leaves and that a lookup finds it, Registry what the
      registry holds.  The engine is proved against the interface and
      [system_manager] instantiates it.
    - Version 1 workflows, workflow/builder.py and workflow/workflows.py: Builder
      ([build], [build_and_run]) and Launch ([execute_workflow]).  Chains runs
      the chain the builder sends: [chain_step] is the relation of its events,
      in the orders celery allows.
    - Tasks and the version 2 engine, workflow/tasks/: Tasks ([BaseTask] and the
      celery signals, the hooks, [are_inputs_ready], the periodic tasks) and
      Engine ([execute_workflow_step], [execute_workflow_v2],
      [process_next_node], and [run_message], what a worker does with one
      message).  [deliver] takes any waiting message, so that every theorem on
      it holds for every order of delivery.
    - Flow is the abstract engine: which nodes have run, which are to be
      delivered, the status.  Refine shows that the tables and the broker
      implement it, Runs lifts this to whole runs, Joins adds the liveness of
      graphs whose joins are leaves.  Spawning is the start of a node that is a
      workflow itself, whose end is in Nested.
    - Isolation (messages) and Middleware (workflow/middleware.py and
      workflow_app/urls.py: requests) show that a tenant's work writes that
      tenant's schema only; Bootstrap (workflow/apps.py and
      workflow/management/commands) establishes the fact they start from.  Rows
      is the invariant of the task rows under deliveries and requests.
    - Views and Lifecycle, workflow/views.py: actions on workflows, schedules and
      definitions; pausing, resuming, cancelling.  Serializers: what saving a
      template writes.  Editing: the model view sets and their serializers, that is
      what a client can create, change and delete; Edited and References are their
      theorems.  Filters and Listing, workflow/filters.py and
      workflow/pagination.py: the lists.  Withdrawn is the engine on the messages
      of what the API has deleted.  Endpoints: the other endpoints.  Serving puts the
      authenticators and the permissions in front of the view sets.
    - Migrations and Evolution, the migrations of the three applications: those
      that carry code, and all of them against models.py.
    - Scheduler (workflow/schedulers.py), Monitoring (workflow/monitoring.py),
      Auth (workflow/authentication.py, workflow/keycloak.py), Errors
      (finmars_standardized_errors/), Sessions (workflow/user_sessions.py),
      Health (healthcheck/), Export (the export of historical records), Logging
      (logstash/, workflow_app/utils.py, workflow/context_processors.py).
    - The OpenAPI document, finmars_standardized_errors/: Schemas
      (openapi_utils.py: the fields, formsets and error codes of a request),
      OpenApi (openapi.py, openapi_serializers.py, settings.py and
      workflow_app/openapi.py: the responses of a view, the components, the
      tenant paths), Documented (what the API answers is what it documents),
      EnumHook (openapi_hooks.py: the components of the enumerations).

    ** What the theorems show

    - The version 2 engine: reading a document gives the graph it describes
      ([reads_document]); the branch behind a condition node
      ([condition_branches]); a node runs when its inputs succeeded
      ([inputs_ready_iff]); runs refine the abstract engine ([engine_refines]);
      forests and graphs whose joins are leaves run to their end in every order
      ([forest_workflow_completes], [joins_last_complete]); and where it does
      not: [double_run_blocks], [cancelled_workflow_succeeds],
      [pause_keeps_one_node].
    - Launching, completing, cancelling: [execute_workflow_v2_launches],
      [flat_workflow_chain], [flat_workflow_runs], [cancel_workflow_cancels], [failure_hooks_never_run];
      nested workflows complete their parents ([nested_completion]), or fail
      with them ([nested_failure]), and the climb ends
      ([completion_terminates]); a node that is a workflow starts it
      ([nested_node_starts]).
    - Editing: what is written is read ([update_then_get]); no request breaks a
      reference ([edits_keep_references]) or writes more than its resource
      ([edits_confined]); what goes with a deleted row ([destroy_cascades]), and that
      its waiting messages do nothing ([deleted_workflow_inert]).
    - The schema: the migrations build the declared models
      ([migrations_build_models]) and make user codes unique
      ([duplicates_removed]); [export_scheduled].
    - Tenant isolation: [run_isolated], [request_isolated],
      [migrate_all_schemes_ready], [authenticated_is_user]; and its gaps:
      [anonymous_served], [space_name_escapes], [sessions_by_user_id], [foreign_definition_runs].
    - Configurations: [sync_mirrors], [lookup_finds_remote], [load_then_find],
      [registry_typed], and the whole way from the editor to the engine,
      [created_template_found].
    - Data: [tasks_settled], [json_properties], [save_schedule_stores], [storage_save_read],
      [archive_complete], [bot_token_accepted].
    - Services: schedules of every tenant ([all_as_schedule_complete]), errors
      ([errors_recorded], [flatten_errors_paths]) and their documentation
      ([errors_documented], [responses_documented], [enum_choices_kept]), list filters
      ([search_keeps_days]) and pages ([light_pages_cover]), monitoring, dates, health.

    ** Recursion and fuel

    Most recursion is structural.  Fuel stands in four places, and running out of
    it raises [RecursionError], as Python's own limit does.
    [handle_task_success] and [on_failure] climb from a workflow to its parent;
    a parent is created before its children, so fuel above the workflow's number
    is enough, and more gives the same result ([completion_terminates]).
    [wait_task_to_complete] has a counter that the code compares with [retries];
    its fuel is the number of retries left ([wait_task_terminates]).  The JSON
    parser takes the length of the text, which [loads_dumps] shows to be enough.
    The version 2 engine as a whole is a relation, not a function; its
    termination is a bound on the number of deliveries.

    ** Not modelled

    - Interleaving inside a handler: a delivery or a request is one step.  Races
      between two workers on the same rows are outside of the model; the order
      of deliveries is not.
    - Floating point numbers and code points above 255; times are microseconds.
    - The code of Django and the REST framework: validation, the framework's own
      filters and paginator, the SQL of migrations are parameters with their
      documented laws.  A table without an order is read in the order of creation,
      which PostgreSQL does not promise.  Admin pages, HTML templates and most of
      the settings are left out; a setting the code depends on is a parameter.
    - The page of the OpenAPI document, socket and process
      I/O (the logstash handler, gunicorn, the SDKs of the object stores), logging, and the front
      end.

    ** What is left

    Joins that are not leaves, with the hypotheses under which they run exactly
    once; whole runs of nested workflows (the child's run between [nested_node_starts]
    and [nested_completion]);
    chains with hooks and groups; the schema of a configuration (the document
    workflow/utils.py validates against). *)
From stdpp Require Import base list strings gmap relations.

(** * Outcomes of Python code

    A Python computation either returns a value or raises.  [exn] lists the
    exception classes the modelled code raises or catches by class. *)
Inductive exn : Type :=
  | KeyError (key : string)
  | IndexError
  | TypeError
  | ValueError
  | AttributeError
  | UnicodeError
  | NotImplementedError
  | DoesNotExist (model : string)
  | MultipleObjectsReturned (model : string)
  | IntegrityError
  | DatabaseError
  | InterfaceError
  | RequestError
  | PyException (msg : string)
  | WorkflowNotFound (user_code : string)
  | WorkflowSyntaxError
  | AuthenticationFailed (msg : string)
  | ValidationError (msg : string)
  | TimeLimitExceeded
  | SoftTimeLimitExceeded
  | HealthCheckException (message_type msg : string)
  | Http404
  | RecursionError.

#[export] Instance exn_eq_dec : EqDecision exn.
Proof. solve_decision. Defined.

(** [res A]: what a call gives back, a value or an exception. *)
Inductive res (A : Type) : Type :=
  | Ok (a : A)
  | Raise (e : exn).
Arguments Ok {A} a.
Arguments Raise {A} e.

#[export] Instance res_eq_dec {A} `{EqDecision A} : EqDecision (res A).
Proof. solve_decision. Defined.

#[export] Instance res_ret : MRet res := λ A a, Ok a.
#[export] Instance res_bind : MBind res := λ A B f m,
  match m with Ok a => f a | Raise e => Raise e end.

Definition is_ok {A} (r : res A) : bool :=
  match r with Ok _ => true | Raise _ => false end.

(** [ST S A]: code that reads and writes a state [S], returns an [A] or raises.
    The state reached when an exception is raised is kept, as in Python: the
    writes made before the exception are not undone. *)
Definition ST (S A : Type) : Type := S → res A * S.

#[export] Instance ST_ret {S} : MRet (ST S) := λ A a s, (Ok a, s).
#[export] Instance ST_bind {S} : MBind (ST S) := λ A B f m s,
  match m s with
  | (Ok a, s') => f a s'
  | (Raise e, s') => (Raise e, s')
  end.

Section Combinators.
Context {S : Type}.

(** [raise e] *)
Definition raise {A} (e : exn) : ST S A := λ s, (Raise e, s).
(** A pure computation that may raise, run in the state monad. *)
Definition lift {A} (r : res A) : ST S A := λ s, (r, s).
Definition gets {A} (f : S → A) : ST S A := λ s, (Ok (f s), s).
Definition modify (f : S → S) : ST S unit := λ s, (Ok tt, f s).
(** [try: m except Exception as e: h e] *)
Definition try_except {A} (m : ST S A) (h : exn → ST S A) : ST S A := λ s,
  match m s with
  | (Ok a, s') => (Ok a, s')
  | (Raise e, s') => h e s'
  end.
(** [try: m finally: f] for a [f] that does not raise *)
Definition try_finally {A} (m : ST S A) (f : S → S) : ST S A := λ s,
  let '(r, s') := m s in (r, f s').
(** [for x in l: body x] *)
Fixpoint for_each {A} (l : list A) (body : A → ST S unit) : ST S unit :=
  match l with
  | [] => mret tt
  | x :: l' => _ ← body x; for_each l' body
  end.
(** [[body x for x in l]] *)
Fixpoint map_each {A B} (l : list A) (body : A → ST S B) : ST S (list B) :=
  match l with
  | [] => mret []
  | x :: l' => y ← body x; ys ← map_each l' body; mret (y :: ys)
  end.
(** [if b: m] *)
Definition when (b : bool) (m : ST S unit) : ST S unit :=
  if b then m else mret tt.
End Combinators.

(** Comprehensions over a [res] body: the first exception wins. *)
Fixpoint map_res {A B} (l : list A) (f : A → res B) : res (list B) :=
  match l with
  | [] => Ok []
  | x :: l' => y ← f x; ys ← map_res l' f; Ok (y :: ys)
  end.

Fixpoint fold_res {A B} (f : B → A → res B) (l : list A) (acc : B) : res B :=
  match l with
  | [] => Ok acc
  | x :: l' => acc' ← f acc x; fold_res f l' acc'
  end.

(** * Invariants of computations

    [Keeps I m φ]: run from a state satisfying [I], the computation [m] leaves a
    state satisfying [I], whether it returns or raises, and a value it returns
    satisfies [φ].  Frame facts, tenant isolation and data invariants of whole
    handlers are put together from this one predicate: take for [I] the
    invariant, or [λ s, R s0 s] for a relation to the starting state. *)
Definition Keeps {S A : Type} (I : S → Prop) (m : ST S A) (φ : A → Prop) : Prop :=
  ∀ s, I s → I (m s).2 ∧ ∀ a, (m s).1 = Ok a → φ a.

Definition anything {A : Type} (_ : A) : Prop := True.

Section Keeps.
Context {S : Type} (I : S → Prop).

Lemma keeps_ret {A} (a : A) (φ : A → Prop) : φ a → Keeps I (mret a) φ.
Proof. intros H s HI. split; [done|]. by intros ? [= <-]. Qed.
Lemma keeps_raise {A} e (φ : A → Prop) : Keeps I (raise e) φ.
Proof. intros s HI. by split. Qed.
Lemma keeps_lift {A} (r : res A) (φ : A → Prop) :
  (∀ a, r = Ok a → φ a) → Keeps I (lift r) φ.
Proof. intros H s HI. by split. Qed.
Lemma keeps_gets {A} (f : S → A) (φ : A → Prop) :
  (∀ s, I s → φ (f s)) → Keeps I (gets f) φ.
Proof. intros H s HI. split; [done|]. intros a [= <-]. by apply H. Qed.
Lemma keeps_modify (f : S → S) (φ : unit → Prop) :
  (∀ s, I s → I (f s)) → φ tt → Keeps I (modify f) φ.
Proof. intros H Hφ s HI. split; [by apply H|]. by intros [] _. Qed.
Lemma keeps_post {A} (m : ST S A) (φ ψ : A → Prop) :
  Keeps I m φ → (∀ a, φ a → ψ a) → Keeps I m ψ.
Proof. intros H Hφ s HI. destruct (H s HI) as [? Ha]. eauto. Qed.
Lemma keeps_any {A} (m : ST S A) (φ : A → Prop) : Keeps I m φ → Keeps I m anything.
Proof. intros H. by eapply keeps_post. Qed.
Lemma keeps_bind {A B} (m : ST S A) (f : A → ST S B) (φ : A → Prop) (ψ : B → Prop) :
  Keeps I m φ → (∀ a, φ a → Keeps I (f a) ψ) → Keeps I (m ≫= f) ψ.
Proof.
  intros Hm Hf s HI. destruct (Hm s HI) as [HI' Ha]. unfold mbind, ST_bind.
  destruct (m s) as [[a|e] s']; simpl in *; [|by split].
  by apply Hf; [apply Ha|].
Qed.
Lemma keeps_try {A} (m : ST S A) (h : exn → ST S A) (φ : A → Prop) :
  Keeps I m φ → (∀ e, Keeps I (h e) φ) → Keeps I (try_except m h) φ.
Proof.
  intros Hm Hh s HI. destruct (Hm s HI) as [HI' Ha]. unfold try_except.
  destruct (m s) as [[a|e] s']; simpl in *; [|by apply Hh].
  split; [done|]. intros ? [= <-]. by apply Ha.
Qed.
Lemma keeps_for_each {A} (l : list A) (body : A → ST S unit) :
  (∀ x, x ∈ l → Keeps I (body x) anything) → Keeps I (for_each l body) anything.
Proof.
  induction l as [|x l IH]; intros Hb; simpl; [by apply keeps_ret|].
  eapply keeps_bind; [apply Hb; left|]. intros _ _. apply IH.
  intros y Hy. apply Hb. by right.
Qed.
Lemma keeps_map_each {A B} (l : list A) (body : A → ST S B) :
  (∀ x, x ∈ l → Keeps I (body x) anything) → Keeps I (map_each l body) anything.
Proof.
  induction l as [|x l IH]; intros Hb; simpl; [by apply keeps_ret|].
  eapply keeps_bind; [apply Hb; left|]. intros y _.
  eapply keeps_bind; [apply IH; intros z Hz; apply Hb; by right|].
  intros ys _. by apply keeps_ret.
Qed.
Lemma keeps_map_each_post {A B} (l : list A) (body : A → ST S B) (φ : B → Prop) :
  (∀ x, x ∈ l → Keeps I (body x) φ) → Keeps I (map_each l body) (Forall φ).
Proof.
  induction l as [|x l IH]; intros Hb; simpl; [by apply keeps_ret|].
  eapply keeps_bind; [apply Hb; left|]. intros y Hy.
  eapply keeps_bind; [apply IH; intros z Hz; apply Hb; by right|].
  intros ys Hys. apply keeps_ret. by constructor.
Qed.
Lemma keeps_when (b : bool) (m : ST S unit) :
  Keeps I m anything → Keeps I (when b m) anything.
Proof. intros H. destruct b; [done|]. by apply keeps_ret. Qed.
End Keeps.

(** [Leads P m Q]: from a state in [P], the computation ends, normally or not,
    in a state in [Q]; for handlers that leave the invariant at their end. *)
Definition Leads {S A : Type} (P : S → Prop) (m : ST S A) (Q : S → Prop) : Prop :=
  ∀ s, P s → Q (m s).2.

Section Leads.
Context {S : Type} (I Q : S → Prop) (HIQ : ∀ s, I s → Q s).

Lemma leads_keeps {A} (m : ST S A) φ : Keeps I m φ → Leads I m Q.
Proof using HIQ. intros Hm s HI. apply HIQ. by apply Hm. Qed.
Lemma leads_bind {A B} (m : ST S A) (f : A → ST S B) (φ : A → Prop) :
  Keeps I m φ → (∀ a, φ a → Leads I (f a) Q) → Leads I (m ≫= f) Q.
Proof using HIQ.
  intros Hm Hf s HI. destruct (Hm s HI) as [HI' Ha]. unfold mbind, ST_bind.
  destruct (m s) as [[a|e] s']; simpl in *; [|by apply HIQ].
  by apply Hf; [apply Ha|].
Qed.
Lemma leads_try {A} (m : ST S A) (h : exn → ST S A) :
  Leads I m Q → (∀ e, Leads Q (h e) Q) → Leads I (try_except m h) Q.
Proof using.
  intros Hm Hh s HI. specialize (Hm s HI). unfold try_except.
  destruct (m s) as [[a|e] s']; simpl in *; [done|]. by apply Hh.
Qed.
End Leads.

Create HintDb keeps.

(** [solve_keeps] follows the structure of a handler: calls are discharged by
    the lemmas of the database [keeps], with the postcondition the lemma gives;
    matches and conditionals are split. *)
Ltac keeps_step :=
  match goal with
  | |- ∀ _, _ => intros ?
  | |- Keeps _ (mret _) _ => apply keeps_ret
  | |- Keeps _ (raise _) _ => apply keeps_raise
  | |- Keeps _ (lift _) _ => apply keeps_lift; intros ? ?
  | |- Keeps _ (for_each _ _) _ => apply keeps_for_each; intros ? ?
  | |- Keeps _ (map_each _ _) _ => apply keeps_map_each; intros ? ?
  | |- Keeps _ (when _ _) _ => apply keeps_when
  | |- Keeps _ (_ ≫= _) _ =>
      first [ eapply keeps_bind; [solve [eauto 3 with keeps nocore] | intros ? ?]
            | apply keeps_bind with (φ := anything); [ | intros ? _] ]
  | |- Keeps _ (try_except _ _) _ => apply keeps_try; [ | intros ?]
  | |- Keeps _ (match ?x with _ => _ end) _ => destruct x eqn:?
  | |- Keeps _ (let '_ := ?x in _) _ => destruct x eqn:?
  | |- anything _ => exact Logic.I
  end.
Ltac solve_keeps :=
  repeat first [ solve [eauto 3 with keeps nocore]
               | solve [eapply keeps_any; eauto 3 with keeps nocore]
               | keeps_step ].

(** * Running computations in proofs *)

Lemma bind_ok {S A B} (m : ST S A) (f : A → ST S B) s a s' :
  m s = (Ok a, s') → (m ≫= f) s = f a s'.
Proof. intros H. unfold mbind, ST_bind. by rewrite H. Qed.

Lemma bind_raise {S A B} (m : ST S A) (f : A → ST S B) s e s' :
  m s = (Raise e, s') → (m ≫= f) s = (Raise e, s').
Proof. intros H. unfold mbind, ST_bind. by rewrite H. Qed.

Lemma bind_inv {S A B} (m : ST S A) (f : A → ST S B) s b s'' :
  (m ≫= f) s = (Ok b, s'') → ∃ a s', m s = (Ok a, s') ∧ f a s' = (Ok b, s'').
Proof.
  unfold mbind, ST_bind. destruct (m s) as [[a|e] s']; [|done]. eauto.
Qed.

Lemma try_ok {S A} (m : ST S A) h s a s' :
  m s = (Ok a, s') → try_except m h s = (Ok a, s').
Proof. intros H. unfold try_except. by rewrite H. Qed.

Lemma try_raise {S A} (m : ST S A) h s e s' :
  m s = (Raise e, s') → try_except m h s = h e s'.
Proof. intros H. unfold try_except. by rewrite H. Qed.

Lemma try_inv {S A} (m : ST S A) h s a s' : try_except m h s = (Ok a, s') →
  m s = (Ok a, s') ∨ ∃ e s1, m s = (Raise e, s1) ∧ h e s1 = (Ok a, s').
Proof. unfold try_except. destruct (m s) as [[x|e] s1]; [by left|]. right. eauto. Qed.

Lemma map_res_ok {A B} (l : list A) (f : A → res B) (g : A → B) :
  (∀ x, x ∈ l → f x = Ok (g x)) → map_res l f = Ok (g <$> l).
Proof.
  induction l as [|x l IH]; intros H; simpl; [done|].
  rewrite H by set_solver. simpl. rewrite IH; [done|]. set_solver.
Qed.

Lemma map_res_length {A B} (l : list A) (f : A → res B) ys :
  map_res l f = Ok ys → length ys = length l.
Proof.
  revert ys. induction l as [|x l IH]; intros ys H; simpl in *.
  - by injection H as <-.
  - destruct (f x); simpl in H; [|done].
    destruct (map_res l f) eqn:E; simpl in H; [|done].
    injection H as <-. simpl. f_equal. by apply IH.
Qed.

Lemma Forall2_compose {A B C} (P : A → B → Prop) (Q : B → C → Prop) (R : A → C → Prop) l k m :
  (∀ x y z, P x y → Q y z → R x z) → Forall2 P l k → Forall2 Q k m → Forall2 R l m.
Proof.
  intros HR HP. revert m. induction HP as [|x y l k Hxy _ IH]; intros m HQ;
    inversion HQ; subst; constructor; eauto.
Qed.
