(* ===== verification/PyStr.v ===== *)
(** * Python strings

    A Python [str] is a [string] whose characters stand for the code points
    below 256.  This file gives the string operations the sources use
    ([split], [rsplit], [join], [replace], [lower], slices, [in], ...) and
    their laws. *)
From stdpp Require Import base list strings numbers pretty sets.
From Stdlib Require Import Ascii String.
From S2P Require Import Prelude.
Local Open Scope string_scope.
Local Open Scope nat_scope.
Local Open Scope list_scope.

#[global] Arguments String.append !_ _ / : simpl nomatch.

(** [ord] / [chr] *)
Definition ord (c : ascii) : nat := nat_of_ascii c.
Definition chr (n : nat) : ascii := ascii_of_nat n.

(** [str(z)] for an int *)
Definition str_of_Z (z : Z) : string := pretty z.
Definition str_of_nat (n : nat) : string := pretty n.

(** Character classes *)
Definition is_upper (c : ascii) : bool :=
  ((65 <=? ord c) && (ord c <=? 90)) ||
  ((192 <=? ord c) && (ord c <=? 222) && negb (ord c =? 215)).
Definition is_digit (c : ascii) : bool := (48 <=? ord c) && (ord c <=? 57).
Definition is_ascii_char (c : ascii) : bool := ord c <? 128.
Definition lower_char (c : ascii) : ascii :=
  if is_upper c then chr (ord c + 32) else c.

Fixpoint str_map (f : ascii → ascii) (s : string) : string :=
  match s with
  | EmptyString => EmptyString
  | String c s' => String (f c) (str_map f s')
  end.
Fixpoint str_forallb (p : ascii → bool) (s : string) : bool :=
  match s with
  | EmptyString => true
  | String c s' => p c && str_forallb p s'
  end.

(** [s.lower()] *)
Definition lower (s : string) : string := str_map lower_char s.

(** [s.isdigit()] on the code points below 128 *)
Definition isdigit (s : string) : bool :=
  negb (s =? "")%string && str_forallb is_digit s.

(** [s.startswith(p)] *)
Definition startswith (s p : string) : bool := String.prefix p s.

(** [s.endswith(t)] *)
Fixpoint endswith (s t : string) : bool :=
  (s =? t)%string ||
  match s with EmptyString => false | String _ s' => endswith s' t end.

(** [sub in s] *)
Fixpoint contains (s sub : string) : bool :=
  String.prefix sub s ||
  match s with EmptyString => false | String _ s' => contains s' sub end.

(** [c in s] for a single character *)
Fixpoint has_char (c : ascii) (s : string) : bool :=
  match s with
  | EmptyString => false
  | String d s' => Ascii.eqb c d || has_char c s'
  end.

(** [s.replace(old, new)] for a non-empty [old]: left to right, without
    overlaps; [skip] counts the characters of a match still to be dropped. *)
Fixpoint replace_go (old new : string) (skip : nat) (s : string) : string :=
  match s with
  | EmptyString => EmptyString
  | String c s' =>
      match skip with
      | S k => replace_go old new k s'
      | O => if String.prefix old s
             then new +:+ replace_go old new (String.length old - 1) s'
             else String c (replace_go old new 0 s')
      end
  end.
Definition replace (s old new : string) : string := replace_go old new 0 s.

(** [s.split(c)] for a one-character separator; never empty. *)
Fixpoint split (c : ascii) (s : string) : list string :=
  match s with
  | EmptyString => [""]
  | String d s' =>
      if Ascii.eqb c d then "" :: split c s'
      else match split c s' with
           | [] => [String d ""]
           | x :: l => String d x :: l
           end
  end.

(** [sep.join(l)] *)
Definition join (sep : string) (l : list string) : string := String.concat sep l.

(** [s.split()] : pieces separated by runs of whitespace, no empty piece *)
Definition is_space (c : ascii) : bool :=
  (ord c =? 32) || ((9 <=? ord c) && (ord c <=? 13)) || (ord c =? 11).
Fixpoint split_ws (s : string) : list string :=
  match s with
  | EmptyString => []
  | String d s' =>
      if is_space d then split_ws s'
      else match s' with
           | EmptyString => [String d ""]
           | String e _ =>
               if is_space e then String d "" :: split_ws s'
               else match split_ws s' with
                    | [] => [String d ""]
                    | x :: l => String d x :: l
                    end
           end
  end.

(** [s[n:]] and [s[:n]] *)
Fixpoint drop_str (n : nat) (s : string) : string :=
  match n, s with
  | O, _ => s
  | S n', String _ s' => drop_str n' s'
  | S _, EmptyString => EmptyString
  end.
Fixpoint take_str (n : nat) (s : string) : string :=
  match n, s with
  | O, _ => EmptyString
  | S n', String c s' => String c (take_str n' s')
  | S _, EmptyString => EmptyString
  end.
(** [s[:-n]] *)
Definition drop_last_str (n : nat) (s : string) : string :=
  take_str (String.length s - n) s.

(** [s.rsplit(c, maxsplit=1)]: one or two pieces *)
Fixpoint rsplit1 (c : ascii) (s : string) : list string :=
  match s with
  | EmptyString => [""]
  | String d s' =>
      match rsplit1 c s' with
      | [x; y] => [String d x; y]
      | _ => if Ascii.eqb c d then [""; s'] else [s]
      end
  end.

(** [s.lstrip(c)] *)
Fixpoint lstrip (c : ascii) (s : string) : string :=
  match s with
  | String d s' => if Ascii.eqb c d then lstrip c s' else s
  | EmptyString => EmptyString
  end.

(** [s[0]], raising IndexError on the empty string *)
Definition first_char (s : string) : res ascii :=
  match s with String c _ => Ok c | EmptyString => Raise IndexError end.

(** Separators used by the sources *)
Definition c_slash : ascii := "/"%char.
Definition c_dot : ascii := "."%char.
Definition c_colon : ascii := ":"%char.
Definition c_space : ascii := " "%char.
Definition c_comma : ascii := ","%char.
Definition c_at : ascii := "@"%char.

(** * Laws *)

Lemma str_app_nil_r (s : string) : s +:+ "" = s.
Proof. induction s; simpl; congruence. Qed.

Lemma str_app_assoc (a b c : string) : a +:+ (b +:+ c) = (a +:+ b) +:+ c.
Proof. induction a; simpl; congruence. Qed.

Lemma str_app_cons c (s : string) : String c s = String c "" +:+ s.
Proof. done. Qed.

Lemma length_str_app (a b : string) :
  String.length (a +:+ b) = String.length a + String.length b.
Proof. induction a; simpl; congruence. Qed.

Lemma prefix_app (p s : string) : String.prefix p (p +:+ s) = true.
Proof.
  induction p as [|c p IH]; simpl; [by destruct s|].
  destruct (ascii_dec c c); done.
Qed.

Lemma prefix_iff (p s : string) : String.prefix p s = true ↔ ∃ t, s = p +:+ t.
Proof.
  split.
  - revert s. induction p as [|c p IH]; intros s H; [by exists s|].
    destruct s as [|d s]; [done|]. simpl in H.
    destruct (ascii_dec c d) as [<-|]; [|done].
    destruct (IH _ H) as [t ->]. by exists t.
  - intros [t ->]. apply prefix_app.
Qed.

Lemma startswith_iff (s p : string) : startswith s p = true ↔ ∃ t, s = p +:+ t.
Proof. apply prefix_iff. Qed.

Lemma endswith_iff (s t : string) : endswith s t = true ↔ ∃ u, s = u +:+ t.
Proof.
  split.
  - induction s as [|c s IH]; intros H; cbn [endswith] in H.
    + rewrite orb_false_r in H. apply String.eqb_eq in H as <-. by exists "".
    + apply orb_true_iff in H as [H|H].
      * apply String.eqb_eq in H as <-. by exists "".
      * destruct (IH H) as [u ->]. by exists (String c u).
  - intros [u ->]. induction u as [|c u IH].
    + change ("" +:+ t) with t. destruct t; cbn [endswith]; by rewrite String.eqb_refl.
    + change (String c u +:+ t) with (String c (u +:+ t)). cbn [endswith].
      rewrite IH. by rewrite orb_true_r.
Qed.

Lemma contains_iff (s sub : string) :
  contains s sub = true ↔ ∃ u v, s = u +:+ sub +:+ v.
Proof.
  split.
  - induction s as [|c s IH]; intros H; cbn [contains] in H.
    + rewrite orb_false_r in H. apply prefix_iff in H as [t Ht]. by exists "", t.
    + apply orb_true_iff in H as [H|H].
      * apply prefix_iff in H as [t Ht]. by exists "", t.
      * destruct (IH H) as (u & v & ->). by exists (String c u), v.
  - intros (u & v & ->). induction u as [|c u IH].
    + change ("" +:+ sub +:+ v) with (sub +:+ v).
      assert (String.prefix sub (sub +:+ v) = true) as H by apply prefix_app.
      destruct (sub +:+ v); cbn [contains]; by rewrite H.
    + change (String c u +:+ sub +:+ v) with (String c (u +:+ sub +:+ v)). cbn [contains].
      rewrite IH. by rewrite orb_true_r.
Qed.

Lemma has_char_app c (a b : string) : has_char c (a +:+ b) = has_char c a || has_char c b.
Proof. induction a as [|d a IH]; simpl; [done|]. by rewrite IH, orb_assoc. Qed.

Lemma split_nonempty c s : split c s ≠ [].
Proof.
  destruct s as [|d s]; simpl; [done|].
  destruct (Ascii.eqb c d); [done|]. by destruct (split c s).
Qed.

(** The pieces hold no separator and joining them gives the string back. *)
Lemma join_split c s : join (String c "") (split c s) = s.
Proof.
  induction s as [|d s IH]; [done|]. simpl.
  destruct (Ascii.eqb_spec c d) as [<-|Hne].
  - destruct (split c s) as [|x l] eqn:E; [by apply split_nonempty in E|].
    unfold join in *. simpl in *. by rewrite IH.
  - destruct (split c s) as [|x l] eqn:E; [by apply split_nonempty in E|].
    unfold join in *. simpl in *. destruct l; simpl in *; by rewrite <- IH.
Qed.

Lemma split_no_sep c s x : x ∈ split c s → has_char c x = false.
Proof.
  revert x. induction s as [|d s IH]; intros x Hx; simpl in Hx.
  - apply list_elem_of_singleton in Hx as ->. done.
  - destruct (Ascii.eqb c d) eqn:E.
    + apply elem_of_cons in Hx as [->|Hx]; [done|]. by apply IH.
    + destruct (split c s) as [|y l] eqn:Es; [by apply split_nonempty in Es|].
      apply elem_of_cons in Hx as [->|Hx].
      * simpl. rewrite E. simpl. apply IH. set_solver.
      * apply IH. set_solver.
Qed.

Lemma split_piece c s : has_char c s = false → split c s = [s].
Proof.
  induction s as [|d s IH]; simpl; [done|]. intros H.
  apply orb_false_iff in H as [-> H]. by rewrite IH.
Qed.

Lemma split_app_sep c (a b : string) :
  has_char c a = false → split c (a +:+ String c b) = a :: split c b.
Proof.
  induction a as [|d a IH]; intros H; simpl.
  - by rewrite Ascii.eqb_refl.
  - simpl in H. apply orb_false_iff in H as [H1 H2]. rewrite H1. by rewrite IH.
Qed.

Lemma split_snoc_sep c (a b : string) :
  has_char c b = false → split c (a +:+ String c b) = split c a ++ [b].
Proof.
  intros Hb. induction a as [|d a IH].
  - change (split c (String c b) = [""; b]). cbn [split]. by rewrite Ascii.eqb_refl, split_piece.
  - change (String d a +:+ String c b) with (String d (a +:+ String c b)). cbn [split].
    rewrite IH. destruct (Ascii.eqb c d); [done|].
    destruct (split c a) as [|x l] eqn:E; [by apply split_nonempty in E|done].
Qed.

(** Two keys ["a<c>b"] are equal when their parts are, if [c] is not in the first. *)
Lemma app_sep_inj c (a b a' b' : string) : has_char c a = false → has_char c a' = false →
  a +:+ String c b = a' +:+ String c b' → a = a' ∧ b = b'.
Proof.
  intros Ha Ha' E. revert a' Ha' E. induction a as [|d a IH]; intros [|d' a'] Ha' E; simpl in *.
  - by injection E as ->.
  - injection E as -> _. by rewrite Ascii.eqb_refl in Ha'.
  - injection E as -> _. by rewrite Ascii.eqb_refl in Ha.
  - injection E as -> E. apply orb_false_iff in Ha as [_ Ha], Ha' as [_ Ha'].
    destruct (IH Ha a' Ha' E) as [-> ->]. done.
Qed.

Lemma split_join c (l : list string) :
  l ≠ [] → Forall (λ x, has_char c x = false) l →
  split c (join (String c "") l) = l.
Proof.
  induction l as [|x l IH]; intros Hne Hl; [done|].
  apply Forall_cons in Hl as [Hx Hl].
  destruct l as [|y l]; [by apply split_piece|].
  change (join (String c "") (x :: y :: l))
    with (x +:+ String c (join (String c "") (y :: l))).
  rewrite split_app_sep by done. by rewrite IH.
Qed.

Lemma drop_str_app (a b : string) : drop_str (String.length a) (a +:+ b) = b.
Proof. induction a; simpl; [by destruct b|done]. Qed.

Lemma take_str_app (a b : string) : take_str (String.length a) (a +:+ b) = a.
Proof. induction a; simpl; [by destruct b | by f_equal]. Qed.

Lemma drop_last_str_app (a b : string) : drop_last_str (String.length b) (a +:+ b) = a.
Proof.
  unfold drop_last_str. rewrite length_str_app.
  replace (String.length a + String.length b - String.length b) with (String.length a) by lia.
  apply take_str_app.
Qed.

Lemma rsplit1_none c s : has_char c s = false → rsplit1 c s = [s].
Proof.
  induction s as [|d s IH]; simpl; [done|]. intros H.
  apply orb_false_iff in H as [E H]. rewrite IH by done. by rewrite E.
Qed.

Lemma rsplit1_app c (a b : string) :
  has_char c b = false → rsplit1 c (a +:+ String c b) = [a; b].
Proof.
  intros Hb. induction a as [|d a IH]; simpl.
  - rewrite rsplit1_none by done. by rewrite Ascii.eqb_refl.
  - by rewrite IH.
Qed.

Lemma has_char_split c s : has_char c s = true →
  ∃ a b, s = a +:+ String c b ∧ has_char c b = false.
Proof.
  induction s as [|d s IH]; simpl; [done|]. intros H.
  destruct (has_char c s) eqn:E.
  - destruct (IH eq_refl) as (a & b & -> & Hb). by exists (String d a), b.
  - rewrite orb_false_r in H. apply Ascii.eqb_eq in H as <-. by exists "", s.
Qed.

Lemma lower_app (a b : string) : lower (a +:+ b) = lower a +:+ lower b.
Proof. unfold lower. induction a; simpl; congruence. Qed.

Lemma lower_char_idem c : lower_char (lower_char c) = lower_char c.
Proof. destruct c as [[] [] [] [] [] [] [] []]; reflexivity. Qed.

Lemma lower_idem s : lower (lower s) = lower s.
Proof.
  unfold lower. induction s as [|c s IH]; simpl; [done|].
  by rewrite lower_char_idem, IH.
Qed.

Lemma replace_char_app (c : ascii) (new a b : string) :
  replace (a +:+ b) (String c "") new
  = replace a (String c "") new +:+ replace b (String c "") new.
Proof.
  unfold replace. induction a as [|d a IH]; [done|].
  change (String d a +:+ b) with (String d (a +:+ b)).
  cbn -[String.prefix]. 
  assert (Hp : ∀ t, String.prefix (String c "") (String d t) = String.prefix (String c "") (String d "")).
  { intros t. simpl. destruct (ascii_dec c d); [by destruct t|done]. }
  rewrite (Hp (a +:+ b)), (Hp a). destruct (String.prefix _ _).
  - simpl. by rewrite IH, str_app_assoc.
  - simpl. by rewrite IH.
Qed.

(** Replacing one character by another leaves the length. *)
Lemma prefix_cons_neq c d (p s : string) : c ≠ d → String.prefix (String c p) (String d s) = false.
Proof. intros Hne. simpl. by destruct (ascii_dec c d). Qed.
(** Replacing a text whose first character does not occur *)
Lemma replace_absent c (old new s : string) : has_char c s = false → replace s (String c old) new = s.
Proof.
  unfold replace. induction s as [|d s IH]; [done|]. simpl has_char.
  intros [Hne Hs]%orb_false_iff. cbn [replace_go]. rewrite prefix_cons_neq.
  - by rewrite IH.
  - intros ->. by rewrite Ascii.eqb_refl in Hne.
Qed.
Lemma replace_char_no_char (c d : ascii) (s : string) :
  c ≠ d → has_char c (replace s (String c "") (String d "")) = false.
Proof.
  intros Hne. unfold replace. induction s as [|e s IH]; [done|].
  cbn -[String.prefix]. simpl.
  destruct (ascii_dec c e) as [<-|Hce]; simpl.
  - assert (String.prefix "" s = true) as -> by by destruct s.
    simpl. rewrite IH. apply Ascii.eqb_neq in Hne. by rewrite Hne.
  - rewrite IH. apply Ascii.eqb_neq in Hce. by rewrite Hce.
Qed.

(** [str(n)] has at least one digit. *)
Lemma pretty_N_go_nonempty x s : s ≠ "" → pretty_N_go x s ≠ "".
Proof.
  revert s. induction (N.lt_wf_0 x) as [x _ IH]; intros s Hs.
  destruct (decide (0 < x)%N) as [Hx|Hx].
  - rewrite pretty_N_go_step by done. apply IH; [by apply N.div_lt|done].
  - replace x with 0%N by lia. by rewrite pretty_N_go_0.
Qed.
Lemma str_of_Z_nonempty n : str_of_Z n ≠ "".
Proof.
  assert (∀ p, pretty (N.pos p) ≠ "") as Hp.
  { intros p. unfold pretty, pretty_N. case_decide; [done|].
    rewrite pretty_N_go_step by done. by apply pretty_N_go_nonempty. }
  destruct n; [done|apply Hp|done].
Qed.

(** * UTF-8 *)

Local Open Scope Z_scope.

(** [bytes.decode()] onto the characters of the model, the code points below
    256: a byte below 128, or C2/C3 and a continuation byte. *)
Fixpoint decode (s : string) : res string :=
  match s with
  | EmptyString => Ok ""
  | String c s' =>
      let n := Z.of_nat (ord c) in
      if n <? 128 then r ← decode s'; Ok (String c r)
      else match s' with
           | String d s'' =>
               let m := Z.of_nat (ord d) in
               if ((n =? 194) || (n =? 195)) && (128 <=? m) && (m <? 192)
               then r ← decode s''; Ok (String (chr (Z.to_nat ((n - 192) * 64 + (m - 128)))) r)
               else Raise UnicodeError
           | EmptyString => Raise UnicodeError
           end
  end.

(** [str.encode()] *)
Fixpoint encode (s : string) : string :=
  match s with
  | EmptyString => ""
  | String c s' =>
      let n := Z.of_nat (ord c) in
      if n <? 128 then String c (encode s')
      else String (chr (Z.to_nat (192 + n / 64))) (String (chr (Z.to_nat (128 + n mod 64))) (encode s'))
  end.

Lemma decode_two (c : ascii) s : 128 ≤ Z.of_nat (ord c) →
  decode (encode (String c s)) = (r ← decode (encode s); Ok (String c r)).
Proof.
  intros Hc. destruct c as [[] [] [] [] [] [] [] []]; try (vm_compute in Hc; by destruct Hc); reflexivity.
Qed.
Lemma decode_encode s : decode (encode s) = Ok s.
Proof.
  induction s as [|c s IH]; [done|].
  destruct (Z.ltb_spec (Z.of_nat (ord c)) 128) as [Hc|Hc].
  - simpl. rewrite (proj2 (Z.ltb_lt _ _)) by done. simpl.
    rewrite (proj2 (Z.ltb_lt _ _)) by done. by rewrite IH.
  - by rewrite decode_two, IH.
Qed.
Lemma decode_ascii s : str_forallb is_ascii_char s = true → decode s = Ok s.
Proof.
  induction s as [|c s IH]; simpl; [done|]. intros [Hc Hs]%andb_true_iff.
  unfold is_ascii_char in Hc. apply Nat.ltb_lt in Hc.
  rewrite (proj2 (Z.ltb_lt _ _)) by lia. by rewrite IH.
Qed.
