(* ===== verification/PyVal.v ===== *)
(** * Python values that travel through the program

    Payloads, task results, workflow configurations, celery contexts and
    connections are JSON-shaped Python values: [None], booleans, integers,
    strings, lists and dictionaries with string keys.  A [dict] is the list of
    its items in insertion order. *)
From stdpp Require Import base list strings numbers sets.
From Stdlib Require Import String.
From S2P Require Import Prelude PyStr.
Local Open Scope string_scope.
Local Open Scope Z_scope.
Local Open Scope list_scope.

Inductive pyval : Type :=
  | PNone
  | PBool (b : bool)
  | PInt (z : Z)
  | PStr (s : string)
  | PList (l : list pyval)
  | PDict (d : list (string * pyval)).

Section pyval_ind.
Variable P : pyval → Prop.
Hypothesis HNone : P PNone.
Hypothesis HBool : ∀ b, P (PBool b).
Hypothesis HInt : ∀ z, P (PInt z).
Hypothesis HStr : ∀ s, P (PStr s).
Hypothesis HList : ∀ l, Forall P l → P (PList l).
Hypothesis HDict : ∀ d, Forall (λ kv, P kv.2) d → P (PDict d).

Fixpoint pyval_ind' (v : pyval) : P v :=
  match v with
  | PNone => HNone
  | PBool b => HBool b
  | PInt z => HInt z
  | PStr s => HStr s
  | PList l => HList l
      ((fix go l : Forall P l :=
          match l with
          | [] => Forall_nil_2 P
          | x :: l' => Forall_cons_2 P x l' (pyval_ind' x) (go l')
          end) l)
  | PDict d => HDict d
      ((fix go d : Forall (λ kv, P kv.2) d :=
          match d with
          | [] => Forall_nil_2 _
          | kv :: d' => Forall_cons_2 (λ kv, P kv.2) kv d' (pyval_ind' kv.2) (go d')
          end) d)
  end.
End pyval_ind.

(** * Dictionaries *)

(** [d.get(k)] *)
Fixpoint dict_get {V} (d : list (string * V)) (k : string) : option V :=
  match d with
  | [] => None
  | (k', v) :: d' => if decide (k = k') then Some v else dict_get d' k
  end.
(** [d[k] = v]: in place when the key is there, appended otherwise *)
Fixpoint dict_set {V} (d : list (string * V)) (k : string) (v : V) : list (string * V) :=
  match d with
  | [] => [(k, v)]
  | (k', v') :: d' =>
      if decide (k = k') then (k', v) :: d' else (k', v') :: dict_set d' k v
  end.
(** [del d[k]] *)
Fixpoint dict_del {V} (d : list (string * V)) (k : string) : list (string * V) :=
  match d with
  | [] => []
  | (k', v') :: d' => if decide (k = k') then d' else (k', v') :: dict_del d' k
  end.
Definition dict_keys {V} (d : list (string * V)) : list string := d.*1.
Definition dict_has {V} (d : list (string * V)) (k : string) : bool :=
  match dict_get d k with Some _ => true | None => false end.
(** [d.update(e)] *)
Definition dict_update {V} (d e : list (string * V)) : list (string * V) :=
  fold_left (λ acc kv, dict_set acc kv.1 kv.2) e d.
(** [{k: v for (k, v) in items}] *)
Definition dict_of {V} (items : list (string * V)) : list (string * V) :=
  dict_update [] items.

Section Dict.
Context {V : Type}.
Implicit Types d e : list (string * V).

Lemma dict_get_set d k v k' :
  dict_get (dict_set d k v) k' = if decide (k' = k) then Some v else dict_get d k'.
Proof.
  induction d as [|[k0 v0] d IH]; simpl.
  - by destruct (decide (k' = k)).
  - destruct (decide (k = k0)) as [->|]; simpl.
    + by destruct (decide (k' = k0)).
    + destruct (decide (k' = k0)) as [->|]; [by rewrite decide_False by done|]. done.
Qed.
Lemma dict_get_set_eq d k v : dict_get (dict_set d k v) k = Some v.
Proof. rewrite dict_get_set. by rewrite decide_True. Qed.
Lemma dict_get_set_ne d k v k' : k' ≠ k → dict_get (dict_set d k v) k' = dict_get d k'.
Proof. intros. rewrite dict_get_set. by rewrite decide_False. Qed.

Lemma dict_get_None d k : dict_get d k = None ↔ k ∉ dict_keys d.
Proof.
  unfold dict_keys. induction d as [|[k0 v0] d IH]; simpl; [set_solver|].
  destruct (decide (k = k0)) as [->|]; [set_solver|]. rewrite IH. set_solver.
Qed.
Lemma dict_keys_get d k : k ∈ dict_keys d → ∃ v, dict_get d k = Some v.
Proof.
  intros Hk. destruct (dict_get d k) as [v|] eqn:E; [eauto|].
  by apply dict_get_None in E.
Qed.
Lemma dict_get_Some_keys d k v : dict_get d k = Some v → k ∈ dict_keys d.
Proof.
  intros H. destruct (decide (k ∈ dict_keys d)); [done|].
  by rewrite (proj2 (dict_get_None d k)) in H.
Qed.
Lemma dict_get_elem d k v : dict_get d k = Some v → (k, v) ∈ d.
Proof.
  induction d as [|[k0 v0] d IH]; simpl; [done|].
  destruct (decide (k = k0)) as [->|]; [intros [= ->]; set_solver|].
  intros H. apply IH in H. set_solver.
Qed.
Lemma dict_elem_get d k v : NoDup (dict_keys d) → (k, v) ∈ d → dict_get d k = Some v.
Proof.
  unfold dict_keys. induction d as [|[k0 v0] d IH]; simpl; [set_solver|].
  intros [Hk Hnd]%NoDup_cons [[= -> ->]|H]%elem_of_cons; [by rewrite decide_True|].
  rewrite decide_False; [by apply IH|].
  intros ->. apply Hk. apply list_elem_of_fmap. by exists (k0, v).
Qed.

Lemma dict_set_fresh d k v : k ∉ dict_keys d → dict_set d k v = d ++ [(k, v)].
Proof.
  unfold dict_keys. induction d as [|[k0 v0] d IH]; simpl; [done|]. intros H.
  rewrite decide_False by set_solver. rewrite IH; set_solver.
Qed.
Lemma dict_keys_set_in d k v : k ∈ dict_keys d → dict_keys (dict_set d k v) = dict_keys d.
Proof.
  unfold dict_keys. induction d as [|[k0 v0] d IH]; [set_solver|]. intros H.
  cbn [dict_set]. destruct (decide (k = k0)) as [->|]; [done|].
  change ((k0 :: (dict_set d k v).*1) = k0 :: d.*1). rewrite IH; set_solver.
Qed.
Lemma dict_keys_set d k v :
  dict_keys (dict_set d k v) = if decide (k ∈ dict_keys d) then dict_keys d else dict_keys d ++ [k].
Proof.
  destruct (decide (k ∈ dict_keys d)) as [H|H]; [by apply dict_keys_set_in|].
  rewrite dict_set_fresh by done. unfold dict_keys. by rewrite fmap_app.
Qed.
Lemma dict_set_NoDup d k v : NoDup (dict_keys d) → NoDup (dict_keys (dict_set d k v)).
Proof.
  intros Hd. rewrite dict_keys_set. destruct (decide _); [done|].
  apply NoDup_app. split_and!; [done|set_solver|apply NoDup_singleton].
Qed.
Lemma dict_update_NoDup d e : NoDup (dict_keys d) → NoDup (dict_keys (dict_update d e)).
Proof.
  unfold dict_update. revert d. induction e as [|[k v] e IH]; intros d Hd; simpl; [done|].
  apply IH. by apply dict_set_NoDup.
Qed.
Lemma dict_of_NoDup (items : list (string * V)) : NoDup (dict_keys (dict_of items)).
Proof. apply dict_update_NoDup. constructor. Qed.
Lemma dict_update_app d e :
  NoDup (dict_keys d ++ dict_keys e) → dict_update d e = d ++ e.
Proof.
  unfold dict_update. revert d. induction e as [|[k v] e IH]; intros d Hd; simpl.
  - by rewrite app_nil_r.
  - simpl in Hd. apply NoDup_app in Hd as (Hd & Hde & He).
    rewrite dict_set_fresh by set_solver.
    apply NoDup_cons in He as [Hk He].
    rewrite IH; [by rewrite <- app_assoc|].
    unfold dict_keys in *. rewrite fmap_app. simpl.
    apply NoDup_app. split_and!; [|set_solver|done].
    apply NoDup_app. split_and!; [done|set_solver|apply NoDup_singleton].
Qed.
Lemma dict_of_id d : NoDup (dict_keys d) → dict_of d = d.
Proof. intros H. unfold dict_of. by rewrite dict_update_app. Qed.
Lemma dict_get_update d e k :
  dict_get (dict_update d e) k =
  match dict_get (rev e) k with Some v => Some v | None => dict_get d k end.
Proof.
  unfold dict_update. revert d. induction e as [|[k0 v0] e IH]; intros d; [done|].
  simpl. rewrite IH. clear IH.
  assert (∀ l1 l2 : list (string * V), dict_get (l1 ++ l2) k =
    match dict_get l1 k with Some v => Some v | None => dict_get l2 k end) as Happ.
  { intros l1 l2. induction l1 as [|[k1 v1] l1 IH]; simpl; [done|].
    by destruct (decide (k = k1)). }
  rewrite Happ. simpl. destruct (dict_get (rev e) k); [done|].
  rewrite dict_get_set. by destruct (decide (k = k0)).
Qed.
End Dict.

(** * Operations on values *)

(** [bool(v)] *)
Definition truthy (v : pyval) : bool :=
  match v with
  | PNone => false
  | PBool b => b
  | PInt z => negb (z =? 0)
  | PStr s => negb (s =? "")%string
  | PList l => negb (bool_decide (l = []))
  | PDict d => negb (bool_decide (d = []))
  end.

(** [a == b] *)
Definition num_of (v : pyval) : option Z :=
  match v with PInt z => Some z | PBool b => Some (Z.b2z b) | _ => None end.
Fixpoint py_eqb (a b : pyval) : bool :=
  match a, b with
  | PNone, PNone => true
  | PStr x, PStr y => (x =? y)%string
  | PList l, PList m =>
      (fix go l m := match l, m with
                     | [], [] => true
                     | x :: l', y :: m' => py_eqb x y && go l' m'
                     | _, _ => false
                     end) l m
  | PDict d, PDict e =>
      Nat.eqb (List.length d) (List.length e) &&
      (fix go d := match d with
                   | [] => true
                   | (k, v) :: d' =>
                       match dict_get e k with Some w => py_eqb v w | None => false end
                       && go d'
                   end) d
  | _, _ => match num_of a, num_of b with
            | Some x, Some y => x =? y
            | _, _ => false
            end
  end.

(** [v[k]] for a string key [k] *)
Definition getitem (v : pyval) (k : string) : res pyval :=
  match v with
  | PDict d => match dict_get d k with Some x => Ok x | None => Raise (KeyError k) end
  | _ => Raise TypeError
  end.
(** [v.get(k, default)] *)
Definition get_default (v : pyval) (k : string) (default : pyval) : res pyval :=
  match v with
  | PDict d => Ok (from_option id default (dict_get d k))
  | _ => Raise AttributeError
  end.
(** [v.get(k)] *)
Definition get (v : pyval) (k : string) : res pyval := get_default v k PNone.
(** [k in v] for a string [k] *)
Definition py_in (k : string) (v : pyval) : res bool :=
  match v with
  | PDict d => Ok (dict_has d k)
  | PList l => Ok (existsb (λ x, py_eqb x (PStr k)) l)
  | PStr s => Ok (contains s k)
  | _ => Raise TypeError
  end.
(** [for x in v] *)
Fixpoint chars_of (s : string) : list pyval :=
  match s with
  | EmptyString => []
  | String c s' => PStr (String c "") :: chars_of s'
  end.
Definition py_iter (v : pyval) : res (list pyval) :=
  match v with
  | PList l => Ok l
  | PDict d => Ok (PStr <$> dict_keys d)
  | PStr s => Ok (chars_of s)
  | _ => Raise TypeError
  end.
(** A value used where the model needs a string (dictionary keys, node ids);
    the modelled configurations use strings there. *)
Definition as_str (v : pyval) : res string :=
  match v with PStr s => Ok s | _ => Raise TypeError end.

Definition opt_str (o : option string) : pyval :=
  match o with Some s => PStr s | None => PNone end.
Definition opt_int (o : option Z) : pyval :=
  match o with Some z => PInt z | None => PNone end.

(** * Laws *)

Lemma py_eqb_str (a b : string) : py_eqb (PStr a) (PStr b) = bool_decide (a = b).
Proof. simpl. destruct (String.eqb_spec a b); by case_bool_decide. Qed.

Lemma py_eqb_str_l (s : string) v : py_eqb v (PStr s) = true ↔ v = PStr s.
Proof.
  split; [|intros ->; apply String.eqb_refl].
  destruct v; simpl; try done. by intros ->%String.eqb_eq.
Qed.

Lemma getitem_ok d k v : dict_get d k = Some v → getitem (PDict d) k = Ok v.
Proof. simpl. by intros ->. Qed.
