(* ===== verification/Json.v ===== *)
(** * The JSON codec of the Python standard library

    [dumps] is [json.dumps] (ASCII output; [sort_keys] and [indent] as the
    sources pass them) and [loads] is [json.loads], on the values of [PyVal].
    Numbers are integers: a text with a fractional or exponent part is refused
    here, where Python would give a [float].  [loads_dumps] is the round trip
    that the payload, result, progress and schedule columns rely on. *)
From stdpp Require Import base list strings numbers sets.
From Stdlib Require Import Ascii String Decimal DecimalString DecimalN DecimalZ.
From S2P Require Import Prelude PyStr PyVal.
Local Open Scope string_scope.
Local Open Scope nat_scope.
Local Open Scope list_scope.

(** ** Printing *)

Definition quote : ascii := chr 34.
Definition backslash : ascii := chr 92.
Definition newline : ascii := chr 10.

Definition hex_digit (n : nat) : ascii :=
  if n <? 10 then chr (48 + n) else chr (87 + n).
Definition hex_value (c : ascii) : option nat :=
  if is_digit c then Some (ord c - 48)
  else if (97 <=? ord c) && (ord c <=? 102) then Some (ord c - 87)
  else if (65 <=? ord c) && (ord c <=? 70) then Some (ord c - 55)
  else None.

(** The escape of one character *)
Definition esc_char (c : ascii) : string :=
  let bs d := String backslash (String d "") in
  match ord c with
  | 34 => bs quote
  | 92 => bs backslash
  | 10 => bs "n"%char
  | 13 => bs "r"%char
  | 9 => bs "t"%char
  | 12 => bs "f"%char
  | 8 => bs "b"%char
  | n => if (32 <=? n) && (n <=? 126) then String c ""
         else String backslash (String "u"%char (String "0"%char (String "0"%char
                (String (hex_digit (n / 16)) (String (hex_digit (n mod 16)) "")))))
  end.
Fixpoint esc_chars (s : string) : string :=
  match s with
  | EmptyString => EmptyString
  | String c s' => esc_char c +:+ esc_chars s'
  end.
Definition dump_str (s : string) : string :=
  String quote (esc_chars s +:+ String quote "").
Definition dump_int (z : Z) : string := NilZero.string_of_int (Z.to_int z).

(** ** [repr] and [str] *)

(** A character inside a literal quoted with [q]; strings hold the characters
    below 256. *)
Definition repr_char (q c : ascii) : string :=
  let bs d := String backslash (String d "") in
  if Ascii.eqb c q then bs q else
  match ord c with
  | 92 => bs backslash
  | 10 => bs "n"%char
  | 13 => bs "r"%char
  | 9 => bs "t"%char
  | n => if (n <? 32) || ((127 <=? n) && (n <=? 160)) || (n =? 173)
         then String backslash (String "x"%char
                (String (hex_digit (n / 16)) (String (hex_digit (n mod 16)) "")))
         else String c ""
  end.
Fixpoint repr_chars (q : ascii) (s : string) : string :=
  match s with
  | EmptyString => EmptyString
  | String c s' => repr_char q c +:+ repr_chars q s'
  end.
Definition repr_str (s : string) : string :=
  let q := if has_char "'"%char s && negb (has_char quote s) then quote else "'"%char in
  String q (repr_chars q s +:+ String q "").
Fixpoint py_repr (v : pyval) : string :=
  match v with
  | PNone => "None"
  | PBool b => if b then "True" else "False"
  | PInt z => str_of_Z z
  | PStr s => repr_str s
  | PList l => "[" +:+ join ", " (py_repr <$> l) +:+ "]"
  | PDict d => "{" +:+ join ", " ((λ kv, repr_str kv.1 +:+ ": " +:+ py_repr kv.2) <$> d) +:+ "}"
  end.
(** [str(v)] *)
Definition py_str (v : pyval) : string :=
  match v with PStr s => s | _ => py_repr v end.

(** [sort_keys]: the items of every dictionary in increasing key order *)
Fixpoint insert_item {V} (kv : string * V) (d : list (string * V)) : list (string * V) :=
  match d with
  | [] => [kv]
  | kv' :: d' => if String.leb kv.1 kv'.1 then kv :: d else kv' :: insert_item kv d'
  end.
Definition sort_items {V} (d : list (string * V)) : list (string * V) :=
  foldr insert_item [] d.
Fixpoint sort_val (v : pyval) : pyval :=
  match v with
  | PList l => PList (map sort_val l)
  | PDict d => PDict (sort_items (map (λ kv, (kv.1, sort_val kv.2)) d))
  | _ => v
  end.

Fixpoint spaces (n : nat) : string :=
  match n with O => "" | S n' => String c_space (spaces n') end.
(** What is printed before the first item, and between items, at a level *)
Definition nl (indent : option nat) (level : nat) : string :=
  match indent with
  | None => ""
  | Some n => String newline (spaces (n * level))
  end.
Definition item_sep (indent : option nat) (level : nat) : string :=
  match indent with
  | None => ", "
  | Some _ => String c_comma (nl indent level)
  end.

Fixpoint dump (indent : option nat) (level : nat) (v : pyval) : string :=
  match v with
  | PNone => "null"
  | PBool true => "true"
  | PBool false => "false"
  | PInt z => dump_int z
  | PStr s => dump_str s
  | PList [] => "[]"
  | PList l =>
      "[" +:+ nl indent (S level)
      +:+ join (item_sep indent (S level)) (map (dump indent (S level)) l)
      +:+ nl indent level +:+ "]"
  | PDict [] => "{}"
  | PDict d =>
      "{" +:+ nl indent (S level)
      +:+ join (item_sep indent (S level))
            (map (λ kv, dump_str kv.1 +:+ ": " +:+ dump indent (S level) kv.2) d)
      +:+ nl indent level +:+ "}"
  end.

(** [json.dumps(v, sort_keys=sort_keys, indent=indent)] *)
Definition dumps (sort_keys : bool) (indent : option nat) (v : pyval) : string :=
  dump indent 0 (if sort_keys then sort_val v else v).

(** ** Parsing *)

Definition is_json_ws (c : ascii) : bool :=
  match ord c with 32 | 9 | 10 | 13 => true | _ => false end.
Fixpoint skip_ws (s : string) : string :=
  match s with
  | String c s' => if is_json_ws c then skip_ws s' else s
  | EmptyString => s
  end.

Definition unescape (c : ascii) : option ascii :=
  match ord c with
  | 34 => Some quote
  | 92 => Some backslash
  | 47 => Some c_slash
  | 98 => Some (chr 8)
  | 102 => Some (chr 12)
  | 110 => Some newline
  | 114 => Some (chr 13)
  | 116 => Some (chr 9)
  | _ => None
  end.
Definition cons_char (c : ascii) (r : option (string * string)) : option (string * string) :=
  match r with Some (t, rest) => Some (String c t, rest) | None => None end.
Definition hex4 (a b c d : ascii) : option nat :=
  match hex_value a, hex_value b, hex_value c, hex_value d with
  | Some a, Some b, Some c, Some d => Some (((a * 16 + b) * 16 + c) * 16 + d)
  | _, _, _, _ => None
  end.

(** The rest of a string literal, after its opening quote *)
Fixpoint parse_chars (s : string) : option (string * string) :=
  match s with
  | EmptyString => None
  | String c s' =>
      if Ascii.eqb c quote then Some ("", s')
      else if Ascii.eqb c backslash then
        match s' with
        | EmptyString => None
        | String e s1 =>
            match unescape e with
            | Some d => cons_char d (parse_chars s1)
            | None =>
                if Ascii.eqb e "u"%char then
                  match s1 with
                  | String h1 (String h2 (String h3 (String h4 s2))) =>
                      match hex4 h1 h2 h3 h4 with
                      | Some n => if n <? 256 then cons_char (chr n) (parse_chars s2) else None
                      | None => None
                      end
                  | _ => None
                  end
                else None
            end
        end
      else if ord c <? 32 then None
      else cons_char c (parse_chars s')
  end.

(** The longest prefix of digits *)
Definition digit_cons (c : ascii) (d : Decimal.uint) : option Decimal.uint :=
  match ord c with
  | 48 => Some (D0 d) | 49 => Some (D1 d) | 50 => Some (D2 d) | 51 => Some (D3 d)
  | 52 => Some (D4 d) | 53 => Some (D5 d) | 54 => Some (D6 d) | 55 => Some (D7 d)
  | 56 => Some (D8 d) | 57 => Some (D9 d) | _ => None
  end.
Fixpoint read_digits (s : string) : Decimal.uint * string :=
  match s with
  | EmptyString => (Nil, s)
  | String c s' =>
      let '(d, rest) := read_digits s' in
      match digit_cons c d with Some d' => (d', rest) | None => (Nil, s) end
  end.
(** A digit sequence of JSON: a lone zero, or no leading zero *)
Definition read_uint (s : string) : option (Decimal.uint * string) :=
  match s with
  | String c s' =>
      if ord c =? 48 then Some (D0 Nil, s')
      else match read_digits s with
           | (Nil, _) => None
           | (d, rest) => Some (d, rest)
           end
  | EmptyString => None
  end.
(** A number token that goes on as a float is outside the model. *)
Definition no_float (s : string) : bool :=
  match s with
  | String c _ => match ord c with 46 | 69 | 101 => false | _ => true end
  | EmptyString => true
  end.
Definition parse_int (s : string) : option (pyval * string) :=
  let finish mk s :=
    match read_uint s with
    | Some (d, rest) => if no_float rest then Some (PInt (Z.of_int (mk d)), rest) else None
    | None => None
    end in
  match s with
  | String c s' => if ord c =? 45 then finish Neg s' else finish Pos s
  | EmptyString => None
  end.

Fixpoint strip_prefix (p s : string) : option string :=
  match p with
  | EmptyString => Some s
  | String a p' =>
      match s with
      | String b s' => if Ascii.eqb a b then strip_prefix p' s' else None
      | EmptyString => None
      end
  end.
Definition parse_lit (lit : string) (v : pyval) (s : string) : option (pyval * string) :=
  match strip_prefix lit s with Some rest => Some (v, rest) | None => None end.

(** The scanner.  [parse_items] reads the items of an array from the first
    one, [parse_members] the members of an object from the first key. *)
Fixpoint parse_value (fuel : nat) (s : string) : option (pyval * string) :=
  match fuel with
  | O => None
  | S fuel =>
      match s with
      | EmptyString => None
      | String c s' =>
          match ord c with
          | 34 => match parse_chars s' with
                  | Some (t, rest) => Some (PStr t, rest)
                  | None => None
                  end
          | 123 => match skip_ws s' with
                   | String d rest =>
                       if ord d =? 125 then Some (PDict [], rest)
                       else match parse_members fuel (String d rest) with
                            | Some (kvs, rest') => Some (PDict (dict_of kvs), rest')
                            | None => None
                            end
                   | EmptyString => None
                   end
          | 91 => match skip_ws s' with
                  | String d rest =>
                      if ord d =? 93 then Some (PList [], rest)
                      else match parse_items fuel (String d rest) with
                           | Some (vs, rest') => Some (PList vs, rest')
                           | None => None
                           end
                  | EmptyString => None
                  end
          | 110 => parse_lit "null" PNone s
          | 116 => parse_lit "true" (PBool true) s
          | 102 => parse_lit "false" (PBool false) s
          | _ => parse_int s
          end
      end
  end
with parse_items (fuel : nat) (s : string) : option (list pyval * string) :=
  match fuel with
  | O => None
  | S fuel =>
      match parse_value fuel s with
      | Some (v, rest) =>
          match skip_ws rest with
          | String c rest' =>
              match ord c with
              | 93 => Some ([v], rest')
              | 44 => match parse_items fuel (skip_ws rest') with
                      | Some (vs, rest'') => Some (v :: vs, rest'')
                      | None => None
                      end
              | _ => None
              end
          | EmptyString => None
          end
      | None => None
      end
  end
with parse_members (fuel : nat) (s : string) : option (list (string * pyval) * string) :=
  match fuel with
  | O => None
  | S fuel =>
      match s with
      | String q s1 =>
          if ord q =? 34 then
            match parse_chars s1 with
            | Some (k, s2) =>
                match skip_ws s2 with
                | String co s3 =>
                    if ord co =? 58 then
                      match parse_value fuel (skip_ws s3) with
                      | Some (v, rest) =>
                          match skip_ws rest with
                          | String c rest' =>
                              match ord c with
                              | 125 => Some ([(k, v)], rest')
                              | 44 => match parse_members fuel (skip_ws rest') with
                                      | Some (kvs, rest'') => Some ((k, v) :: kvs, rest'')
                                      | None => None
                                      end
                              | _ => None
                              end
                          | EmptyString => None
                          end
                      | None => None
                      end
                    else None
                | EmptyString => None
                end
            | None => None
            end
          else None
      | EmptyString => None
      end
  end.

(** [json.loads(s)]: [JSONDecodeError] is a [ValueError].  Every step of the
    scanner consumes a character, so the length of the text is enough fuel. *)
Definition loads (s : string) : res pyval :=
  match parse_value (S (String.length s)) (skip_ws s) with
  | Some (v, rest) => match skip_ws rest with
                      | EmptyString => Ok v
                      | _ => Raise ValueError
                      end
  | None => Raise ValueError
  end.

(** ** Round trip *)

(** Keys are unique in every dictionary: the shape of a Python [dict]. *)
Fixpoint wf_val (v : pyval) : bool :=
  match v with
  | PList l => forallb wf_val l
  | PDict d => bool_decide (NoDup (dict_keys d)) && forallb (λ kv, wf_val kv.2) d
  | _ => true
  end.

Lemma parse_esc_char c s :
  parse_chars (esc_char c +:+ s) = cons_char c (parse_chars s).
Proof. destruct c as [[] [] [] [] [] [] [] []]; reflexivity. Qed.

Lemma parse_esc_chars t s :
  parse_chars (esc_chars t +:+ String quote s) = Some (t, s).
Proof.
  induction t as [|c t IH]; simpl; [done|].
  rewrite <- str_app_assoc, parse_esc_char, IH. done.
Qed.

Lemma dump_str_app t s :
  dump_str t +:+ s = String quote (esc_chars t +:+ String quote s).
Proof. unfold dump_str. simpl. by rewrite <- str_app_assoc. Qed.

(** What may follow a number: nothing that would extend it *)
Definition stop (s : string) : bool :=
  match s with
  | EmptyString => true
  | String c _ => match ord c with 10 | 44 | 93 | 125 => true | _ => false end
  end.

Lemma stop_no_digit c s : stop (String c s) = true → ∀ d, digit_cons c d = None.
Proof. destruct c as [[] [] [] [] [] [] [] []]; try discriminate; intros _ d; reflexivity. Qed.
Lemma stop_no_float s : stop s = true → no_float s = true.
Proof.
  destruct s as [|c s]; [done|].
  destruct c as [[] [] [] [] [] [] [] []]; try discriminate; reflexivity.
Qed.

Lemma read_digits_stop s : stop s = true → read_digits s = (Nil, s).
Proof.
  destruct s as [|c s]; [done|]. intros H. simpl.
  destruct (read_digits s). by rewrite (stop_no_digit _ _ H).
Qed.

Lemma read_digits_print d s : stop s = true →
  read_digits (NilEmpty.string_of_uint d +:+ s) = (d, s).
Proof.
  intros H. induction d; simpl; [by apply read_digits_stop|..]; by rewrite IHd.
Qed.

(** The digits of a positive number have no leading zero. *)
Definition no_lead (d : Decimal.uint) : Prop :=
  d = D0 Nil ∨ (d ≠ Nil ∧ nzhead d = d).

Lemma to_uint_no_lead n : no_lead (N.to_uint n).
Proof.
  assert (unorm (N.to_uint n) = N.to_uint n) as H.
  { rewrite <- DecimalN.Unsigned.to_of. by rewrite DecimalN.Unsigned.of_to. }
  unfold no_lead, unorm in *. destruct (nzhead (N.to_uint n)) eqn:E; rewrite <- H; auto;
    right; (split; [discriminate|]); rewrite <- E; by rewrite DecimalFacts.nzhead_involutive.
Qed.

Lemma read_uint_print d s : no_lead d → stop s = true →
  read_uint (NilEmpty.string_of_uint d +:+ s) = Some (d, s).
Proof.
  intros [->|[Hne Hnz]] H.
  - done.
  - destruct d; simpl in Hnz; try done.
    { exfalso. assert (∀ d, nb_digits (nzhead d) ≤ nb_digits d) as Hle.
      { intros d'. induction d'; simpl; lia. }
      specialize (Hle d). rewrite Hnz in Hle. simpl in Hle. lia. }
    all: match goal with
    | |- read_uint (NilEmpty.string_of_uint ?d' +:+ _) = _ =>
        pose proof (read_digits_print d' s H) as E
    end; simpl in E |- *; by rewrite E.
Qed.

Lemma parse_int_uint mk d s :
  no_lead d → stop s = true →
  match read_uint (NilEmpty.string_of_uint d +:+ s) with
  | Some (d, rest) => if no_float rest then Some (PInt (Z.of_int (mk d)), rest) else None
  | None => None
  end = Some (PInt (Z.of_int (mk d)), s).
Proof. intros Hd Hs. by rewrite read_uint_print, stop_no_float. Qed.

(** A number starts with a digit or a minus sign. *)
Definition num_head (c : ascii) : bool := is_digit c || (ord c =? 45).

Lemma uint_head d s : d ≠ Nil →
  ∃ c t, NilEmpty.string_of_uint d +:+ s = String c t ∧ is_digit c = true ∧ (ord c =? 45) = false.
Proof. destruct d; intros H; [done|..]; simpl; eauto. Qed.

Lemma no_lead_not_Nil d : no_lead d → d ≠ Nil.
Proof. intros [->|[? _]]; done. Qed.

Lemma nilzero_uint d : d ≠ Nil → NilZero.string_of_uint d = NilEmpty.string_of_uint d.
Proof. by destruct d. Qed.

Lemma dump_int_cases z : ∃ d, no_lead d ∧
  (Z.to_int z = Pos d ∧ dump_int z = NilEmpty.string_of_uint d ∨
   Z.to_int z = Neg d ∧ dump_int z = String "-"%char (NilEmpty.string_of_uint d)).
Proof.
  unfold dump_int. destruct z as [|p|p]; simpl.
  - exists (D0 Nil). split; [by left|by left].
  - exists (N.to_uint (Npos p)). split; [apply to_uint_no_lead|left]. split; [done|].
    apply nilzero_uint, no_lead_not_Nil, (to_uint_no_lead (Npos p)).
  - exists (N.to_uint (Npos p)). split; [apply to_uint_no_lead|right]. split; [done|].
    f_equal. apply nilzero_uint, no_lead_not_Nil, (to_uint_no_lead (Npos p)).
Qed.

Lemma parse_int_dump z s : stop s = true →
  parse_int (dump_int z +:+ s) = Some (PInt z, s).
Proof.
  intros Hs. destruct (dump_int_cases z) as (d & Hd & [[Hz ->]|[Hz ->]]).
  - destruct (uint_head d s) as (c & t & E & Hc & Hm); [by apply no_lead_not_Nil|].
    unfold parse_int. rewrite E, Hm, <- E. rewrite (parse_int_uint Pos) by done.
    by rewrite <- Hz, DecimalZ.of_to.
  - unfold parse_int. simpl. rewrite (parse_int_uint Neg) by done.
    by rewrite <- Hz, DecimalZ.of_to.
Qed.

Lemma num_head_dispatch c t fuel : num_head c = true →
  parse_value (S fuel) (String c t) = parse_int (String c t).
Proof. destruct c as [[] [] [] [] [] [] [] []]; try discriminate; reflexivity. Qed.

(** The first character of a printed value *)
Definition value_head (c : ascii) : bool :=
  negb (is_json_ws c) && negb (ord c =? 93) && negb (ord c =? 125).

Lemma dump_int_head z s : ∃ c t, dump_int z +:+ s = String c t ∧ num_head c = true.
Proof.
  destruct (dump_int_cases z) as (d & Hd & [[_ ->]|[_ ->]]).
  - destruct (uint_head d s) as (c & t & E & Hc & _); [by apply no_lead_not_Nil|].
    exists c, t. split; [done|]. unfold num_head. by rewrite Hc.
  - simpl. eauto.
Qed.

Lemma num_value_head c : num_head c = true → value_head c = true.
Proof. destruct c as [[] [] [] [] [] [] [] []]; try discriminate; reflexivity. Qed.

Lemma dump_head indent level v s :
  ∃ c t, dump indent level v +:+ s = String c t ∧ value_head c = true.
Proof.
  destruct v as [|[]|z|t|[|x l]|[|kv d]]; try (simpl; by eauto).
  destruct (dump_int_head z s) as (c & t & E & Hc). eauto using num_value_head.
Qed.

Lemma skip_ws_head c t : is_json_ws c = false → skip_ws (String c t) = String c t.
Proof. intros H. simpl. by rewrite H. Qed.
Lemma value_head_ws c : value_head c = true → is_json_ws c = false.
Proof. unfold value_head. by destruct (is_json_ws c). Qed.

Lemma skip_ws_spaces n s : skip_ws (spaces n +:+ s) = skip_ws s.
Proof. induction n; simpl; done. Qed.
Lemma skip_ws_nl indent level s : skip_ws (nl indent level +:+ s) = skip_ws s.
Proof. destruct indent as [n|]; [|done]. simpl. apply skip_ws_spaces. Qed.

Lemma skip_ws_dump indent level v s :
  skip_ws (dump indent level v +:+ s) = dump indent level v +:+ s.
Proof.
  destruct (dump_head indent level v s) as (c & t & -> & H).
  by apply skip_ws_head, value_head_ws.
Qed.

Lemma stop_nl indent level c s : stop (String c s) = true →
  stop (nl indent level +:+ String c s) = true.
Proof. by destruct indent. Qed.

(** After a separator the scanner is at the next item. *)
Lemma item_sep_spec indent level :
  ∃ w, item_sep indent level = String c_comma w ∧ ∀ s, skip_ws (w +:+ s) = skip_ws s.
Proof.
  destruct indent as [n|]; simpl.
  - eexists. split; [done|]. intros s. apply (skip_ws_nl (Some n)).
  - by exists " ".
Qed.

Lemma join_cons2 sep x y (l : list string) :
  join sep (x :: y :: l) = x +:+ sep +:+ join sep (y :: l).
Proof. done. Qed.

Ltac str_len := repeat (rewrite length_str_app in * || cbn [String.length String.append] in *).

Section Containers.
Context (indent : option nat) (level : nat).
Abbreviation sep := (item_sep indent level).

(** One printed value, in front of any stopping text, reads as [v'] *)
Definition reads (v v' : pyval) : Prop := ∀ n s, stop s = true →
  String.length (dump indent level v) < n →
  parse_value n (dump indent level v +:+ s) = Some (v', s).

Lemma skip_ws_join y l r :
  skip_ws (join sep (map (dump indent level) (y :: l)) +:+ r)
  = join sep (map (dump indent level) (y :: l)) +:+ r.
Proof.
  destruct l as [|z l]; [apply skip_ws_dump|].
  cbn [map]. rewrite join_cons2, <- !str_app_assoc. apply skip_ws_dump.
Qed.

Lemma parse_items_dump level' x l n s (f : pyval → pyval) :
  Forall (λ v, reads v (f v)) (x :: l) →
  String.length (join sep (map (dump indent level) (x :: l)) +:+ nl indent level' +:+ "]") < n →
  parse_items n (join sep (map (dump indent level) (x :: l))
                 +:+ nl indent level' +:+ "]" +:+ s) = Some (map f (x :: l), s).
Proof.
  revert x n. induction l as [|y l IH]; intros x n [Hx Hr]%Forall_cons Hn;
    destruct n as [|n]; try lia; cbn [parse_items].
  - change (join sep (map (dump indent level) [x])) with (dump indent level x) in *.
    rewrite !length_str_app in Hn. simpl in Hn.
    rewrite Hx; [|by apply stop_nl|lia].
    rewrite skip_ws_nl. done.
  - specialize (IH y n Hr). pose proof (skip_ws_join y l) as Hj.
    cbn [map] in *. rewrite join_cons2 in *.
    set (J := join sep _) in *. clearbody J.
    destruct (item_sep_spec indent level) as (w & Esep & Hw). rewrite Esep in Hn |- *.
    rewrite <- !str_app_assoc in *. str_len.
    rewrite Hx; [|done|lia]. simpl. rewrite Hw, Hj, IH by lia. done.
Qed.

Abbreviation dump_member := (λ kv, dump_str kv.1 +:+ ": " +:+ dump indent level kv.2).

Lemma skip_ws_join_members kv d r :
  skip_ws (join sep (map dump_member (kv :: d)) +:+ r)
  = join sep (map dump_member (kv :: d)) +:+ r.
Proof.
  destruct d as [|kv' d]; [done|]. cbn [map]. by rewrite join_cons2, <- !str_app_assoc.
Qed.

Lemma parse_members_dump level' kv d n s (f : pyval → pyval) :
  Forall (λ kv, reads kv.2 (f kv.2)) (kv :: d) →
  String.length (join sep (map dump_member (kv :: d)) +:+ nl indent level' +:+ "}") < n →
  parse_members n (join sep (map dump_member (kv :: d))
                   +:+ nl indent level' +:+ "}" +:+ s)
  = Some (map (λ kv, (kv.1, f kv.2)) (kv :: d), s).
Proof.
  revert kv n. induction d as [|kv' d IH]; intros [k v] n [Hx Hr]%Forall_cons Hn;
    destruct n as [|n]; try lia; simpl in Hx.
  - change (join sep (map dump_member [(k, v)]))
      with (dump_str k +:+ ": " +:+ dump indent level v) in *.
    rewrite <- !str_app_assoc in *. str_len.
    rewrite dump_str_app. cbn [parse_members]. rewrite parse_esc_chars. simpl.
    rewrite skip_ws_dump, Hx; [|by apply stop_nl|lia].
    rewrite skip_ws_nl. done.
  - specialize (IH kv' n Hr). pose proof (skip_ws_join_members kv' d) as Hj.
    cbn [map] in *. rewrite join_cons2 in *. simpl fst in *; simpl snd in *.
    set (J := join sep _) in *. clearbody J.
    destruct (item_sep_spec indent level) as (w & Esep & Hw). rewrite Esep in Hn |- *.
    rewrite <- !str_app_assoc in *. str_len.
    rewrite dump_str_app. cbn [parse_members]. rewrite parse_esc_chars. simpl.
    rewrite skip_ws_dump, Hx; [|done|lia]. simpl.
    rewrite Hw, Hj, IH by lia. done.
Qed.
End Containers.

Lemma forallb_Forall_elem {A} (p : A → bool) (l : list A) :
  forallb p l = true → Forall (λ x, p x = true) l.
Proof. intros H. apply Forall_forall. intros x Hx. rewrite forallb_forall in H. by apply H, list_elem_of_In. Qed.

Lemma join_head {A} sep (f : A → string) (x : A) l r c t :
  (∀ r, ∃ t', f x +:+ r = String c t') →
  join sep (map f (x :: l)) +:+ r = t → ∃ t', t = String c t'.
Proof.
  intros Hx <-. destruct l as [|y l]; [apply Hx|].
  cbn [map]. rewrite join_cons2, <- str_app_assoc. apply Hx.
Qed.

Lemma parse_array n t u c r : skip_ws t = u → u = String c r → (ord c =? 93) = false →
  parse_value (S n) (String "["%char t)
  = match parse_items n u with Some (vs, rest) => Some (PList vs, rest) | None => None end.
Proof. intros Ht -> Hc. cbn -[skip_ws parse_items]. by rewrite Ht, Hc. Qed.

Lemma parse_object n t u c r : skip_ws t = u → u = String c r → (ord c =? 125) = false →
  parse_value (S n) (String "{"%char t)
  = match parse_members n u with
    | Some (kvs, rest) => Some (PDict (dict_of kvs), rest) | None => None end.
Proof. intros Ht -> Hc. cbn -[skip_ws parse_members]. by rewrite Ht, Hc. Qed.

Lemma value_head_close c : value_head c = true → (ord c =? 93) = false ∧ (ord c =? 125) = false.
Proof. unfold value_head. by destruct (is_json_ws c), (ord c =? 93), (ord c =? 125). Qed.

Lemma dump_head_const indent level v : ∃ c, value_head c = true ∧
  ∀ s, ∃ t, dump indent level v +:+ s = String c t.
Proof.
  destruct (dump_head indent level v "") as (c & t & E & Hc).
  exists c. split; [done|]. intros s. rewrite str_app_nil_r in E. rewrite E. by exists (t +:+ s).
Qed.

(** What is read back: of the items of a dictionary with the same key, the
    last one *)
Fixpoint clean (v : pyval) : pyval :=
  match v with
  | PList l => PList (map clean l)
  | PDict d => PDict (dict_of (map (λ kv, (kv.1, clean kv.2)) d))
  | _ => v
  end.
Lemma clean_id v : wf_val v = true → clean v = v.
Proof.
  induction v as [|b|z|t|l IH|d IH] using pyval_ind'; simpl; intros Hwf; try done.
  - f_equal. rewrite <- (map_id l) at 2. apply map_ext_in. intros x Hx.
    rewrite Forall_forall in IH. rewrite forallb_forall in Hwf.
    apply IH; [by apply list_elem_of_In|by apply Hwf].
  - apply andb_true_iff in Hwf as [Hnd Hwf]. apply bool_decide_eq_true in Hnd.
    replace (map (λ kv, (kv.1, clean kv.2)) d) with d; [by rewrite dict_of_id|].
    rewrite <- (map_id d) at 1. apply map_ext_in. intros [k x] Hx. simpl. f_equal.
    rewrite Forall_forall in IH. rewrite forallb_forall in Hwf. symmetry.
    apply (IH (k, x)); [by apply list_elem_of_In|by apply (Hwf (k, x))].
Qed.

Theorem parse_dump v indent level : reads indent level v (clean v).
Proof.
  revert level. induction v as [|b|z|t|l IH|d IH] using pyval_ind'; intros level n s Hs Hn;
    destruct n as [|n]; try lia.
  - reflexivity.
  - destruct b; reflexivity.
  - destruct (dump_int_head z s) as (c & t & E & Hc). cbn [dump].
    rewrite E, num_head_dispatch, <- E by done. by apply parse_int_dump.
  - cbn [dump]. rewrite dump_str_app. cbn -[parse_chars]. by rewrite parse_esc_chars.
  - destruct l as [|x l]; [reflexivity|].
    assert (Forall (λ v, reads indent (S level) v (clean v)) (x :: l)) as Hr
      by (rewrite Forall_forall in IH |- *; eauto).
    destruct (dump_head_const indent (S level) x) as (c & Hc & Hx).
    apply value_head_close in Hc as [Hc _].
    cbn [dump] in *. rewrite <- !str_app_assoc.
    rewrite length_str_app in Hn. change (String.length "[") with 1 in Hn.
    assert (Hn' := Hn). rewrite length_str_app in Hn'.
    pose proof (parse_items_dump indent (S level) level x l n s clean Hr ltac:(lia)) as Hp.
    destruct (join_head (item_sep indent (S level)) (dump indent (S level)) x l
                (nl indent level +:+ "]" +:+ s) c _ Hx eq_refl) as [r Er].
    etrans; [eapply parse_array; [etrans; [apply skip_ws_nl|apply skip_ws_join]|exact Er|done]|].
    by rewrite Hp.
  - destruct d as [|kv d]; [reflexivity|].
    assert (Forall (λ kv, reads indent (S level) kv.2 (clean kv.2)) (kv :: d)) as Hr
      by (rewrite Forall_forall in IH |- *; eauto).
    cbn [dump] in *. rewrite <- !str_app_assoc.
    rewrite length_str_app in Hn. change (String.length "{") with 1 in Hn.
    assert (Hn' := Hn). rewrite length_str_app in Hn'.
    pose proof (parse_members_dump indent (S level) level kv d n s clean Hr ltac:(lia)) as Hp.
    destruct (join_head (item_sep indent (S level))
                (λ kv, dump_str kv.1 +:+ ": " +:+ dump indent (S level) kv.2) kv d
                (nl indent level +:+ "}" +:+ s) quote _ ltac:(intros; simpl; eauto) eq_refl) as [r Er].
    etrans; [eapply parse_object;
      [etrans; [apply skip_ws_nl|apply skip_ws_join_members]|exact Er|done]|].
    by rewrite Hp.
Qed.

(** ** The codec on whole texts *)

Lemma sort_items_keys {V} (d : list (string * V)) : Permutation (sort_items d) d.
Proof.
  induction d as [|kv d IH]; simpl; [done|].
  assert (∀ l : list (string * V), Permutation (insert_item kv l) (kv :: l)) as Hins.
  { intros l. induction l as [|kv' l IHl]; simpl; [done|].
    destruct (String.leb kv.1 kv'.1); [done|]. rewrite IHl. apply Permutation_swap. }
  rewrite Hins. by rewrite IH.
Qed.

Lemma wf_sort_val v : wf_val v = true → wf_val (sort_val v) = true.
Proof.
  induction v as [|b|z|t|l IH|d IH] using pyval_ind'; simpl; intros Hwf; try done.
  - rewrite forallb_forall in *. intros x (y & <- & Hy)%in_map_iff.
    rewrite Forall_forall in IH. apply IH; [by apply list_elem_of_In|]. by apply Hwf.
  - apply andb_true_iff in Hwf as [Hnd Hwf]. apply bool_decide_eq_true in Hnd.
    set (d' := map (λ kv, (kv.1, sort_val kv.2)) d).
    assert (dict_keys d' = dict_keys d) as Hk.
    { unfold d', dict_keys. change (map ?f d) with (f <$> d). by rewrite <- list_fmap_compose. }
    apply andb_true_iff. split.
    + apply bool_decide_eq_true. unfold dict_keys.
      rewrite (fmap_Permutation fst _ _ (sort_items_keys d')). fold (dict_keys d'). by rewrite Hk.
    + rewrite forallb_forall in *. intros x Hx%list_elem_of_In.
      rewrite (sort_items_keys d') in Hx. apply list_elem_of_In in Hx.
      apply in_map_iff in Hx as (kv & <- & Hkv). simpl.
      rewrite Forall_forall in IH. apply IH; [by apply list_elem_of_In|]. by apply Hwf.
Qed.

(** What [json.dumps] prints, [json.loads] reads. *)
Theorem loads_dumps_clean sort indent v :
  loads (dumps sort indent v) = Ok (clean (if sort then sort_val v else v)).
Proof.
  unfold loads, dumps. set (v' := if sort then sort_val v else v).
  pose proof (skip_ws_dump indent 0 v' "") as Hws. rewrite str_app_nil_r in Hws.
  pose proof (parse_dump v' indent 0 (S (String.length (dump indent 0 v'))) "" eq_refl) as Hp.
  rewrite str_app_nil_r in Hp. rewrite Hws, Hp by lia. done.
Qed.
(** [json.loads(json.dumps(v, ...))] gives [v] back, with its dictionaries in
    the order they were printed. *)
Theorem loads_dumps sort indent v : wf_val v = true →
  loads (dumps sort indent v) = Ok (if sort then sort_val v else v).
Proof.
  intros Hwf. rewrite loads_dumps_clean, clean_id; [done|].
  destruct sort; [by apply wf_sort_val|done].
Qed.
