(* ===== verification/Paths.v ===== *)
(** * Paths and file names

    [os.path.join], [dirname], [normpath], [splitext], [relpath] of a path
    below its start, and [fnmatch.fnmatch], on POSIX. *)
From Stdlib Require Import Ascii String.
From stdpp Require Import base list strings numbers.
From S2P Require Import Prelude PyStr.
Local Open Scope string_scope.
Local Open Scope list_scope.

(** [os.path.join(a, b)] *)
Definition join2 (a b : string) : string :=
  if startswith b "/" then b
  else if String.eqb a "" || endswith a "/" then a +:+ b
  else a +:+ "/" +:+ b.
(** [construct_path]: [os.path.join] of all its arguments *)
Definition construct_path (args : list string) : string :=
  match args with
  | [] => ""
  | a :: l => fold_left join2 l a
  end.

(** [os.path.split]: directory and last component *)
Fixpoint rstrip_slash (l : list ascii) : list ascii :=
  match l with
  | c :: l' => if Ascii.eqb c c_slash then rstrip_slash l' else l
  | [] => []
  end.
Definition rstrip (s : string) : string :=
  String.string_of_list_ascii (rev (rstrip_slash (rev (String.list_ascii_of_string s)))).
Definition path_split (p : string) : string * string :=
  match rsplit1 c_slash p with
  | [d; f] => ((let d' := rstrip d in if String.eqb d' "" then "/" else d'), f)
  | _ => ("", p)
  end.
Definition dirname (p : string) : string := (path_split p).1.
Definition basename (p : string) : string := (path_split p).2.

(** [os.path.normpath]: [acc] holds the components kept, last first *)
Fixpoint norm_comps (absolute : bool) (comps acc : list string) : list string :=
  match comps with
  | [] => rev acc
  | c :: comps' =>
      if String.eqb c "" || String.eqb c "." then norm_comps absolute comps' acc
      else if String.eqb c ".." then
        match acc with
        | [] => norm_comps absolute comps' (if absolute then [] else [c])
        | d :: acc' =>
            if String.eqb d ".." then norm_comps absolute comps' (c :: acc)
            else norm_comps absolute comps' acc'
        end
      else norm_comps absolute comps' (c :: acc)
  end.
Definition normpath (p : string) : string :=
  let absolute := startswith p "/" in
  let r := join "/" (norm_comps absolute (split c_slash p) []) in
  let lead := if absolute
              then if startswith p "//" && negb (startswith p "///") then "//" else "/"
              else "" in
  let r := lead +:+ r in
  if String.eqb r "" then "." else r.

(** [pathlib]: suffix and stem of a file name *)
Definition suffix (name : string) : string :=
  match rsplit1 c_dot name with
  | [a; b] => if String.eqb a "" || String.eqb b "" then "" else "." +:+ b
  | _ => ""
  end.
Definition stem (name : string) : string :=
  drop_last_str (String.length (suffix name)) name.

(** [os.path.relpath(p, start)] of a path below [start] *)
Definition relpath (p start : string) : string :=
  drop_str (String.length start + 1) p.

(** [os.path.relpath(p, start)] of two paths of the same kind, both relative or
    both absolute: up from [start] to the common directory, then down to [p] *)
Definition path_comps (p : string) : list string :=
  List.filter (λ c, negb (String.eqb c "" || String.eqb c ".")) (split c_slash (normpath p)).
Fixpoint drop_common (a b : list string) : list string * list string :=
  match a, b with
  | x :: a', y :: b' => if String.eqb x y then drop_common a' b' else (a, b)
  | _, _ => (a, b)
  end.
Definition os_relpath (p start : string) : string :=
  let '(a, b) := drop_common (path_comps start) (path_comps p) in
  match (replicate (length a) ".." ++ b)%list with [] => "." | l => join "/" l end.

(** ** [fnmatch] *)

(** The members of a bracket expression: [a-b] is a range *)
Fixpoint in_set (c : ascii) (set : list ascii) : bool :=
  match set with
  | a :: ((m :: b :: set') as rest) =>
      if Ascii.eqb m "-"%char
      then ((ord a <=? ord c) && (ord c <=? ord b))%nat || in_set c set'
      else Ascii.eqb a c || in_set c rest
  | a :: rest => Ascii.eqb a c || in_set c rest
  | [] => false
  end.
(** The text up to the closing bracket; a bracket in first place is a member. *)
Fixpoint take_set (first : bool) (l : list ascii) : option (list ascii * list ascii) :=
  match l with
  | [] => None
  | c :: l' =>
      if Ascii.eqb c "]"%char && negb first then Some ([], l')
      else match take_set (first && Ascii.eqb c "!"%char) l' with
           | Some (s, r) => Some (c :: s, r)
           | None => None
           end
  end.
Inductive pat : Type := PStar | PAny | PChar (c : ascii) | PSet (neg : bool) (s : list ascii).
Fixpoint parse_pat (fuel : nat) (l : list ascii) : list pat :=
  match fuel, l with
  | S fuel, c :: l' =>
      if Ascii.eqb c "*"%char then PStar :: parse_pat fuel l'
      else if Ascii.eqb c "?"%char then PAny :: parse_pat fuel l'
      else if Ascii.eqb c "["%char then
        match take_set true l' with
        | Some ("!"%char :: s, r) => PSet true s :: parse_pat fuel r
        | Some (s, r) => PSet false s :: parse_pat fuel r
        | None => PChar c :: parse_pat fuel l'
        end
      else PChar c :: parse_pat fuel l'
  | _, _ => []
  end.
Fixpoint match_pat (p : list pat) : list ascii → bool :=
  match p with
  | [] => λ s, match s with [] => true | _ => false end
  | PStar :: p' =>
      fix any (s : list ascii) : bool :=
        match_pat p' s || match s with [] => false | _ :: s' => any s' end
  | x :: p' => λ s,
      match s with
      | [] => false
      | c :: s' =>
          match x with
          | PChar d => Ascii.eqb d c
          | PSet neg set => xorb neg (in_set c set)
          | _ => true
          end && match_pat p' s'
      end
  end.
Definition fnmatch (name pattern : string) : bool :=
  match_pat (parse_pat (String.length pattern) (String.list_ascii_of_string pattern))
            (String.list_ascii_of_string name).

Example fnmatch_yaml : fnmatch "workflow.yaml" "*.yaml" = true.
Proof. reflexivity. Qed.
Example normpath_up : normpath "com/finmars/pkg/wf/../lib" = "com/finmars/pkg/lib".
Proof. reflexivity. Qed.

(** ** Laws *)

Lemma endswith_refl s : endswith s s = true.
Proof. apply endswith_iff. by exists "". Qed.

Lemma join2_rel a b :
  startswith b "/" = false → startswith (join2 a b) a = true.
Proof.
  intros Hb. unfold join2. rewrite Hb. apply startswith_iff.
  destruct (_ || _); eauto.
Qed.

(** A path joined from relative components stays below its first one. *)
Lemma construct_path_below a l :
  Forall (λ c, startswith c "/" = false) l → startswith (construct_path (a :: l)) a = true.
Proof.
  intros Hl. simpl. revert a. induction Hl as [|c l Hc Hl IH]; intros a; simpl.
  - apply startswith_iff. exists "". by rewrite str_app_nil_r.
  - apply startswith_iff.
    destruct (proj1 (startswith_iff _ _) (IH (join2 a c))) as [t ->].
    destruct (proj1 (startswith_iff _ _) (join2_rel a c Hc)) as [u ->].
    exists (u +:+ t). by rewrite str_app_assoc.
Qed.

Lemma startswith_char c d (s : string) : startswith (String d s) (String c "") = Ascii.eqb c d.
Proof.
  unfold startswith. simpl. destruct (ascii_dec c d) as [->|Hne].
  - rewrite Ascii.eqb_refl. by destruct s.
  - symmetry. by apply Ascii.eqb_neq.
Qed.
Lemma lstrip_other c (s : string) : startswith s (String c "") = false → lstrip c s = s.
Proof. destruct s as [|d s]; [done|]. rewrite startswith_char. simpl. by intros ->. Qed.
(** The end of a text does not depend on what stands before it. *)
Lemma endswith_char_app c d (u t : string) :
  endswith (u +:+ String d t) (String c "") = endswith (String d t) (String c "").
Proof.
  induction u as [|e u IH]; [done|].
  change (String e u +:+ String d t) with (String e (u +:+ String d t)). cbn [endswith].
  rewrite IH. replace (String.eqb (String e (u +:+ String d t)) (String c "")) with false; [done|].
  symmetry. apply String.eqb_neq. intros [= _ E]. by destruct u.
Qed.
(** Joining below a directory whose name ends with some other character *)
Lemma join2_below (a b : string) : startswith b "/" = false → a ≠ "" → endswith a "/" = false →
  join2 a b = a +:+ "/" +:+ b.
Proof.
  intros Hb Ha He. unfold join2. rewrite Hb, He. by rewrite (proj2 (String.eqb_neq a "") Ha).
Qed.
Lemma join2_last (a : string) c b : startswith (String c b) "/" = false →
  join2 a (String c b) ≠ "" ∧ endswith (join2 a (String c b)) "/" = endswith (String c b) "/".
Proof.
  intros Hb. unfold join2. rewrite Hb. destruct (_ || _).
  - split; [by destruct a|apply endswith_char_app].
  - split; [by destruct a|]. by rewrite str_app_assoc, endswith_char_app.
Qed.
