(* ===== verification/Dates.v ===== *)
(** * Calendar dates (the datetime module of Python)

    [date] with its ordinal, [strptime] and [str] in the format "%Y-%m-%d", and
    their laws.  The conversions are those of CPython's [_ymd2ord] and
    [_ord2ymd]. *)
From Stdlib Require Import Ascii String.
From stdpp Require Import base list strings numbers.
From S2P Require Import Prelude PyStr.
Local Open Scope string_scope.
Local Open Scope Z_scope.
Local Open Scope list_scope.

(** [datetime.date] *)
Record date : Type := Date { d_year : Z; d_month : Z; d_day : Z }.
#[export] Instance date_eq_dec : EqDecision date.
Proof. solve_decision. Defined.

Definition is_leap (y : Z) : bool :=
  (y mod 4 =? 0) && (negb (y mod 100 =? 0) || (y mod 400 =? 0)).
(** A month's length and the days before it, in a leap year or not *)
Definition month_length (leap : bool) (m : Z) : Z :=
  if (m =? 2) && leap then 29
  else nth (Z.to_nat m) [0; 31; 28; 31; 30; 31; 30; 31; 31; 30; 31; 30; 31] 0.
Definition month_start (leap : bool) (m : Z) : Z :=
  nth (Z.to_nat m) [0; 0; 31; 59; 90; 120; 151; 181; 212; 243; 273; 304; 334] 0
  + (if (2 <? m) && leap then 1 else 0).
Definition days_in_month (y m : Z) : Z := month_length (is_leap y) m.
Definition days_before_month (y m : Z) : Z := month_start (is_leap y) m.
Definition days_before_year (y : Z) : Z :=
  let y := y - 1 in y * 365 + y / 4 - y / 100 + y / 400.

(** [date.toordinal()] and [date.fromordinal()] *)
Definition toordinal (d : date) : Z :=
  days_before_year (d_year d) + days_before_month (d_year d) (d_month d) + d_day d.
(** The month and day of the [n]-th day of a year, from 0 *)
Definition month_day (leapyear : bool) (n : Z) : Z * Z :=
  let month := Z.shiftr (n + 50) 5 in
  let '(month, preceding) :=
    if n <? month_start leapyear month then (month - 1, month_start leapyear (month - 1))
    else (month, month_start leapyear month) in
  (month, n - preceding + 1).
Definition fromordinal (n : Z) : date :=
  let n := n - 1 in
  let n400 := n / 146097 in let n := n mod 146097 in
  let n100 := n / 36524 in let n := n mod 36524 in
  let n4 := n / 1461 in let n := n mod 1461 in
  let n1 := n / 365 in let n := n mod 365 in
  let year := n400 * 400 + 1 + n100 * 100 + n4 * 4 + n1 in
  if (n1 =? 4) || (n100 =? 4) then Date (year - 1) 12 31
  else
    let leapyear := (n1 =? 3) && (negb (n4 =? 24) || (n100 =? 3)) in
    let '(month, day) := month_day leapyear n in
    Date year month day.

(** What the constructor accepts, and the range of [timedelta] arithmetic *)
Definition valid_date (d : date) : bool :=
  (1 <=? d_year d) && (d_year d <=? 9999) && (1 <=? d_month d) && (d_month d <=? 12)
  && (1 <=? d_day d) && (d_day d <=? days_in_month (d_year d) (d_month d)).
Definition max_ordinal : Z := 3652059.
(** [date + timedelta(days=n)] *)
Definition add_days (d : date) (n : Z) : res date :=
  let o := toordinal d + n in
  if (1 <=? o) && (o <=? max_ordinal) then Ok (fromordinal o) else Raise (PyException "date value out of range").

(** Times are microseconds since 1970-01-01, in UTC. *)
Definition day_us : Z := 86400 * 1000000.
Definition epoch_ordinal : Z := 719163.
(** The ordinal of the day of a time *)
Definition ordinal_of_time (us : Z) : Z := us / day_us + epoch_ordinal.

(** ** Ordinals are days *)

(** The year [400 a + 100 b + 4 c + e + 1] *)
Lemma year_parts a b c e : 0 ≤ b ≤ 3 → 0 ≤ c ≤ 24 → 0 ≤ e ≤ 3 →
  let y := a * 400 + 1 + b * 100 + c * 4 + e in
  days_before_year y = 146097 * a + 36524 * b + 1461 * c + 365 * e ∧
  is_leap y = (e =? 3) && (negb (c =? 24) || (b =? 3)).
Proof.
  intros Hb Hc He y. split.
  - unfold days_before_year. subst y.
    replace ((a * 400 + 1 + b * 100 + c * 4 + e - 1) / 4) with (100 * a + 25 * b + c)
      by (Z.to_euclidean_division_equations; lia).
    replace ((a * 400 + 1 + b * 100 + c * 4 + e - 1) / 100) with (4 * a + b)
      by (Z.to_euclidean_division_equations; lia).
    replace ((a * 400 + 1 + b * 100 + c * 4 + e - 1) / 400) with a
      by (Z.to_euclidean_division_equations; lia).
    lia.
  - unfold is_leap. subst y. apply Bool.eq_iff_eq_true.
    rewrite !andb_true_iff, !orb_true_iff, !negb_true_iff, !Z.eqb_eq, !Z.eqb_neq.
    Z.to_euclidean_division_equations. lia.
Qed.

(** Days within a year, checked one by one *)
Definition month_day_ok (leap : bool) (n : Z) : bool :=
  let '(m, d) := month_day leap n in
  (1 <=? m) && (m <=? 12) && (1 <=? d) && (d <=? month_length leap m) && (month_start leap m + d =? n + 1).
Lemma month_day_spec (leap : bool) n : 0 ≤ n < (if leap then 366 else 365) → month_day_ok leap n = true.
Proof.
  intros Hn.
  assert (∀ (l : bool) k, forallb (month_day_ok l) (seqZ 0 k) = true → 0 ≤ n < k → month_day_ok l n = true) as Hall.
  { intros l k Hf Hk. rewrite forallb_forall in Hf. apply Hf, list_elem_of_In, elem_of_seqZ. lia. }
  destruct leap; [apply (Hall true 366)|apply (Hall false 365)]; done || reflexivity.
Qed.

(** Every ordinal from 1 is the ordinal of its date, whose month and day exist. *)
Lemma fromordinal_ok n : 1 ≤ n →
  let d := fromordinal n in
  toordinal d = n ∧ 1 ≤ d_year d ∧ 1 ≤ d_month d ≤ 12 ∧ 1 ≤ d_day d ≤ days_in_month (d_year d) (d_month d)
  ∧ d_year d ≤ 400 * ((n - 1) / 146097) + 400.
Proof.
  intros Hn. unfold fromordinal. cbv zeta.
  set (a := (n - 1) / 146097). set (ra := (n - 1) mod 146097).
  set (b := ra / 36524). set (rb := ra mod 36524).
  set (c := rb / 1461). set (rc := rb mod 1461).
  set (e := rc / 365). set (r := rc mod 365).
  assert (n = 1 + 146097 * a + 36524 * b + 1461 * c + 365 * e + r ∧ 0 ≤ a ∧ 0 ≤ ra < 146097 ∧
    0 ≤ rb < 36524 ∧ 0 ≤ rc < 1461 ∧ 0 ≤ r < 365 ∧ ra = 36524 * b + rb ∧ rb = 1461 * c + rc ∧
    rc = 365 * e + r ∧ 0 ≤ b ≤ 4 ∧ 0 ≤ c ≤ 24 ∧ 0 ≤ e ≤ 4) as
    (Hsum & Ha & Hra & Hrb & Hrc & Hr & Eb & Ec & Ee & Hb & Hc & He).
  { subst r e rc c rb b ra a. Z.to_euclidean_division_equations. lia. }
  clearbody a b c e r ra rb rc. destruct (Z.eqb_spec e 4) as [->|He4]; cbn [orb].
  { destruct (year_parts a b c 3) as [Hdy Hly]; [lia..|]. cbv zeta in Hdy, Hly.
    unfold toordinal, days_before_month, days_in_month. cbn [d_year d_month d_day].
    replace (a * 400 + 1 + b * 100 + c * 4 + 4 - 1) with (a * 400 + 1 + b * 100 + c * 4 + 3) by lia.
    rewrite Hdy, Hly. replace (c =? 24) with false by (symmetry; apply Z.eqb_neq; lia).
    change ((3 =? 3) && (negb false || (b =? 3))) with true.
    change (month_start true 12) with 335. change (month_length true 12) with 31. lia. }
  destruct (Z.eqb_spec b 4) as [->|Hb4].
  { assert (c = 0 ∧ e = 0 ∧ r = 0) as (-> & -> & ->) by lia.
    destruct (year_parts a 3 24 3) as [Hdy Hly]; [lia..|]. cbv zeta in Hdy, Hly.
    unfold toordinal, days_before_month, days_in_month. cbn [d_year d_month d_day].
    replace (a * 400 + 1 + 4 * 100 + 0 * 4 + 0 - 1) with (a * 400 + 1 + 3 * 100 + 24 * 4 + 3) by lia.
    rewrite Hdy, Hly. change ((3 =? 3) && (negb (24 =? 24) || (3 =? 3))) with true.
    change (month_start true 12) with 335. change (month_length true 12) with 31. lia. }
  destruct (year_parts a b c e) as [Hdy Hly]; [lia..|]. cbv zeta in Hdy, Hly. rewrite <- Hly.
  set (y := a * 400 + 1 + b * 100 + c * 4 + e) in *.
  assert (0 ≤ r < (if is_leap y then 366 else 365)) as Hr' by (destruct (is_leap y); lia).
  pose proof (month_day_spec (is_leap y) r Hr') as Hok. unfold month_day_ok in Hok.
  destruct (month_day (is_leap y) r) as [m d].
  rewrite !andb_true_iff, !Z.leb_le, Z.eqb_eq in Hok.
  unfold toordinal, days_before_month, days_in_month. cbn [d_year d_month d_day].
  rewrite Hdy. subst y. split_and!; lia.
Qed.

(** ** Dates are ordinals *)

Lemma next_year y : days_before_year (y + 1) = days_before_year y + (if is_leap y then 366 else 365).
Proof.
  unfold days_before_year, is_leap.
  destruct (Z.eqb_spec (y mod 4) 0), (Z.eqb_spec (y mod 100) 0), (Z.eqb_spec (y mod 400) 0);
    cbn [negb andb orb]; Z.to_euclidean_division_equations; lia.
Qed.
Lemma years_grow y y' : y < y' → days_before_year (y + 1) ≤ days_before_year y'.
Proof. intros Hy. unfold days_before_year. Z.to_euclidean_division_equations. lia. Qed.

(** The months cut the year into intervals. *)
Lemma month_cases (P : Z → Prop) m : 1 ≤ m ≤ 12 →
  P 1 → P 2 → P 3 → P 4 → P 5 → P 6 → P 7 → P 8 → P 9 → P 10 → P 11 → P 12 → P m.
Proof.
  intros Hm. intros. assert (m = 1 ∨ m = 2 ∨ m = 3 ∨ m = 4 ∨ m = 5 ∨ m = 6 ∨ m = 7 ∨ m = 8 ∨ m = 9 ∨
    m = 10 ∨ m = 11 ∨ m = 12) as Hcases by lia. by repeat (destruct Hcases as [->|Hcases]; [done|]); subst.
Qed.
Lemma month_length_max leap m : 1 ≤ m ≤ 12 → month_length leap m ≤ 31.
Proof. intros Hm. pattern m. apply month_cases; [done|..]; by destruct leap. Qed.
Lemma months_tile leap m : 1 ≤ m ≤ 12 →
  month_start leap m + month_length leap m
  = if m =? 12 then (if leap : bool then 366 else 365) else month_start leap (m + 1).
Proof. intros Hm. pattern m. apply month_cases; [done|..]; by destruct leap. Qed.
Lemma months_grow leap m m' : 1 ≤ m → m < m' → m' ≤ 12 →
  month_start leap m + month_length leap m ≤ month_start leap m'.
Proof.
  intros H1 Hlt H12. rewrite months_tile by lia.
  replace (m =? 12) with false by (symmetry; apply Z.eqb_neq; lia).
  assert (∀ k : nat, m + 1 + Z.of_nat k ≤ 12 →
    month_start leap (m + 1) ≤ month_start leap (m + 1 + Z.of_nat k)) as Hk.
  { induction k as [|k IH]; intros Hk; [by rewrite Z.add_0_r|].
    pose proof (months_tile leap (m + 1 + Z.of_nat k) ltac:(lia)) as Ht.
    replace (m + 1 + Z.of_nat k =? 12) with false in Ht by (symmetry; apply Z.eqb_neq; lia).
    replace (m + 1 + Z.of_nat (S k)) with (m + 1 + Z.of_nat k + 1) by lia. rewrite <- Ht.
    assert (0 ≤ month_length leap (m + 1 + Z.of_nat k)).
    { pattern (m + 1 + Z.of_nat k). apply month_cases; [lia|..]; by destruct leap. }
    specialize (IH ltac:(lia)). lia. }
  specialize (Hk (Z.to_nat (m' - m - 1)) ltac:(lia)).
  by replace (m + 1 + Z.of_nat (Z.to_nat (m' - m - 1))) with m' in Hk by lia.
Qed.

(** A date whose month and day exist *)
Definition exists_date (d : date) : Prop :=
  1 ≤ d_month d ≤ 12 ∧ 1 ≤ d_day d ≤ days_in_month (d_year d) (d_month d).
Lemma valid_date_iff d : valid_date d = true ↔ 1 ≤ d_year d ≤ 9999 ∧ exists_date d.
Proof. unfold valid_date, exists_date. rewrite !andb_true_iff, !Z.leb_le. lia. Qed.

Lemma toordinal_year d : exists_date d →
  days_before_year (d_year d) < toordinal d ≤ days_before_year (d_year d + 1).
Proof.
  intros [Hm Hd]. unfold toordinal, days_before_month, days_in_month in *. rewrite next_year.
  set (l := is_leap (d_year d)) in *.
  assert (0 ≤ month_start l (d_month d) ∧
    month_start l (d_month d) + month_length l (d_month d) ≤ if l then 366 else 365) as Hs.
  { clearbody l. clear Hd. revert Hm. generalize (d_month d). intros m Hm. pattern m.
    apply month_cases; [done|..]; destruct l; by split. }
  lia.
Qed.
Lemma toordinal_inj d d' : exists_date d → exists_date d' → toordinal d = toordinal d' → d = d'.
Proof.
  intros Hd Hd' E. pose proof (toordinal_year d Hd) as Hy. pose proof (toordinal_year d' Hd') as Hy'.
  assert (d_year d = d_year d') as Ey.
  { destruct (Z.lt_trichotomy (d_year d) (d_year d')) as [Hlt|[?|Hlt]]; [|done|];
      pose proof (years_grow _ _ Hlt); lia. }
  destruct Hd as [Hm Hd], Hd' as [Hm' Hd'].
  unfold toordinal, days_before_month, days_in_month in *. rewrite <- Ey in *.
  set (l := is_leap (d_year d)) in *.
  assert (d_month d = d_month d') as Em.
  { destruct (Z.lt_trichotomy (d_month d) (d_month d')) as [Hlt|[?|Hlt]]; [|done|].
    - pose proof (months_grow l (d_month d) (d_month d') ltac:(lia) Hlt ltac:(lia)). lia.
    - pose proof (months_grow l (d_month d') (d_month d) ltac:(lia) Hlt ltac:(lia)). lia. }
  destruct d, d'; simpl in *. subst. f_equal. lia.
Qed.

Lemma fromordinal_exists n : 1 ≤ n → exists_date (fromordinal n).
Proof. intros Hn. destruct (fromordinal_ok n Hn) as (_ & _ & ? & ? & _). by split. Qed.
Lemma fromordinal_toordinal d : exists_date d → 1 ≤ d_year d → fromordinal (toordinal d) = d.
Proof.
  intros Hd Hy.
  assert (1 ≤ toordinal d) as Hn.
  { pose proof (toordinal_year d Hd). assert (0 ≤ days_before_year (d_year d)); [|lia].
    unfold days_before_year. Z.to_euclidean_division_equations. lia. }
  apply toordinal_inj; [by apply fromordinal_exists|done|]. by apply fromordinal_ok.
Qed.
Lemma valid_ordinal d : valid_date d = true → 1 ≤ toordinal d ≤ max_ordinal.
Proof.
  intros [Hy Hd]%valid_date_iff. pose proof (toordinal_year d Hd) as Ho.
  assert (0 ≤ days_before_year (d_year d) ∧ days_before_year (d_year d + 1) ≤ max_ordinal); [|lia].
  unfold days_before_year, max_ordinal. Z.to_euclidean_division_equations. lia.
Qed.
Lemma ordinal_valid n : 1 ≤ n ≤ max_ordinal → valid_date (fromordinal n) = true.
Proof.
  intros Hn. apply valid_date_iff. pose proof (fromordinal_exists n ltac:(lia)) as Hd.
  split; [|done]. destruct (fromordinal_ok n ltac:(lia)) as (Ho & Hy & _).
  pose proof (toordinal_year _ Hd) as Hyear. rewrite Ho in Hyear.
  split; [done|]. destruct (Z.le_gt_cases (d_year (fromordinal n)) 9999) as [|Hgt]; [done|].
  assert (max_ordinal ≤ days_before_year (d_year (fromordinal n))); [|lia].
  unfold days_before_year, max_ordinal. Z.to_euclidean_division_equations. lia.
Qed.
Lemma add_days_ok d n : valid_date d = true → 1 ≤ toordinal d + n ≤ max_ordinal →
  add_days d n = Ok (fromordinal (toordinal d + n)).
Proof. intros Hd Hn. unfold add_days. by rewrite !(proj2 (Z.leb_le _ _)) by lia. Qed.

(** ** The format "%Y-%m-%d" *)

Definition digit (n : Z) : ascii := chr (Z.to_nat (48 + n)).
Definition two_digits (n : Z) : string := String (digit (n / 10)) (String (digit (n mod 10)) "").
Definition four_digits (n : Z) : string := two_digits (n / 100) +:+ two_digits (n mod 100).
(** [str(date)] *)
Definition str_of_date (d : date) : string :=
  four_digits (d_year d) +:+ "-" +:+ two_digits (d_month d) +:+ "-" +:+ two_digits (d_day d).

(** The number a string of digits stands for *)
Fixpoint read_number (s : string) (acc : Z) : option Z :=
  match s with
  | EmptyString => Some acc
  | String c s => if is_digit c then read_number s (10 * acc + (Z.of_nat (ord c) - 48)) else None
  end.
(** The fields of the format: four digits for the year; one or two for the month
    and the day, where the day may have a space before its one digit *)
Definition year_field (s : string) : option Z :=
  if (String.length s =? 4)%nat then read_number s 0 else None.
Definition short_field (bound : Z) (s : string) : option Z :=
  if (String.length s =? 1)%nat || (String.length s =? 2)%nat then
    n ← read_number s 0; if (1 <=? n) && (n <=? bound) then Some n else None
  else None.
Definition day_field (s : string) : option Z :=
  match s with
  | String " "%char (String c "") => short_field 31 (String c "")
  | _ => short_field 31 s
  end.
(** [datetime.datetime.strptime(s, "%Y-%m-%d").date()] *)
Definition strptime (s : string) : res date :=
  match split "-"%char s with
  | [y; m; d] =>
      match year_field y, short_field 12 m, day_field d with
      | Some y, Some m, Some d =>
          let date := Date y m d in
          if valid_date date then Ok date else Raise ValueError
      | _, _, _ => Raise ValueError
      end
  | _ => Raise ValueError
  end.

Lemma two_digits_cases (P : string → Z → Prop) n : 0 ≤ n < 100 →
  (∀ k, (k < 100)%nat → P (two_digits (Z.of_nat k)) (Z.of_nat k)) → P (two_digits n) n.
Proof. intros Hn HP. specialize (HP (Z.to_nat n) ltac:(lia)). by rewrite Z2Nat.id in HP by lia. Qed.
(** What holds of all two-digit numbers, by computation *)
Definition two_digits_ok (n : Z) : bool :=
  let s := two_digits n in
  negb (has_char "-"%char s) && (String.length s =? 2)%nat && bool_decide (read_number s 0 = Some n)
  && negb (startswith s " ").
Lemma two_digits_spec n : 0 ≤ n < 100 → two_digits_ok n = true.
Proof.
  intros Hn. assert (forallb two_digits_ok (seqZ 0 100) = true) as Hall by (vm_compute; reflexivity).
  rewrite forallb_forall in Hall. apply Hall, list_elem_of_In, elem_of_seqZ. lia.
Qed.
Lemma read_number_app a b acc : read_number (a +:+ b) acc = read_number a acc ≫= read_number b.
Proof.
  revert acc. induction a as [|c a IH]; intros acc; simpl; [done|]. by destruct (is_digit c).
Qed.
Lemma read_number_acc s n acc : read_number s 0 = Some n →
  read_number s acc = Some (acc * 10 ^ Z.of_nat (String.length s) + n).
Proof.
  enough (∀ a, read_number s a = Some n → read_number s (a + acc)
    = Some (acc * 10 ^ Z.of_nat (String.length s) + n)) as H by (intros Hs; exact (H 0 Hs)).
  revert acc. induction s as [|c s IH]; intros acc a Hs; simpl in *.
  - injection Hs as <-. f_equal. lia.
  - destruct (is_digit c); [|done].
    replace (10 * (a + acc) + (Z.of_nat (ord c) - 48)) with
      (10 * a + (Z.of_nat (ord c) - 48) + 10 * acc) by lia.
    rewrite (IH (10 * acc) _ Hs). f_equal. rewrite Nat2Z.inj_succ, Z.pow_succ_r by lia. lia.
Qed.
Lemma two_digits_facts n : 0 ≤ n < 100 → has_char "-"%char (two_digits n) = false ∧
  String.length (two_digits n) = 2%nat ∧ read_number (two_digits n) 0 = Some n ∧
  startswith (two_digits n) " " = false.
Proof.
  intros Hn. pose proof (two_digits_spec n Hn) as Hok. unfold two_digits_ok in Hok.
  rewrite !andb_true_iff, !negb_true_iff, Nat.eqb_eq, bool_decide_eq_true in Hok. tauto.
Qed.
Lemma four_digits_facts n : 0 ≤ n < 10000 → has_char "-"%char (four_digits n) = false ∧
  year_field (four_digits n) = Some n.
Proof.
  intros Hn. unfold four_digits.
  destruct (two_digits_facts (n / 100)) as (H1 & H2 & H3 & _); [Z.to_euclidean_division_equations; lia|].
  destruct (two_digits_facts (n mod 100)) as (H4 & H5 & H6 & _); [Z.to_euclidean_division_equations; lia|].
  split; [by rewrite has_char_app, H1, H4|].
  unfold year_field. rewrite length_str_app, H2, H5. cbn [Nat.add Nat.eqb].
  rewrite read_number_app, H3. cbn [mbind option_bind]. rewrite (read_number_acc _ _ _ H6), H5. f_equal.
  change (10 ^ Z.of_nat 2) with 100. Z.to_euclidean_division_equations. lia.
Qed.
Lemma short_field_two n bound : 1 ≤ n ≤ bound → bound < 100 →
  short_field bound (two_digits n) = Some n.
Proof.
  intros Hn Hb. destruct (two_digits_facts n) as (_ & H2 & H3 & _); [lia|].
  unfold short_field. rewrite H2. cbn [Nat.eqb orb]. rewrite H3. cbn [mbind option_bind].
  by rewrite !(proj2 (Z.leb_le _ _)) by lia.
Qed.
Lemma day_field_two n : 1 ≤ n ≤ 31 → day_field (two_digits n) = Some n.
Proof.
  intros Hn. rewrite <- (short_field_two n 31 Hn) by lia.
  destruct (two_digits_facts n) as (_ & _ & _ & H4); [lia|].
  unfold day_field. unfold two_digits in *. destruct (digit (n / 10)) as [[] [] [] [] [] [] [] []]; done.
Qed.

(** A valid date printed and read again is the same date. *)
Lemma strptime_str_of_date d : valid_date d = true → strptime (str_of_date d) = Ok d.
Proof.
  intros Hv. pose proof Hv as [Hy [Hm Hd]]%valid_date_iff.
  assert (1 ≤ d_day d ≤ 31) as Hd31.
  { pose proof (month_length_max (is_leap (d_year d)) (d_month d) Hm).
    unfold days_in_month in Hd. lia. }
  destruct (four_digits_facts (d_year d)) as [Y1 Y2]; [lia|].
  destruct (two_digits_facts (d_month d)) as (M1 & _); [lia|].
  destruct (two_digits_facts (d_day d)) as (D1 & _); [lia|].
  unfold strptime, str_of_date.
  change (four_digits (d_year d) +:+ "-" +:+ two_digits (d_month d) +:+ "-" +:+ two_digits (d_day d))
    with (four_digits (d_year d) +:+ String "-"%char
            (two_digits (d_month d) +:+ String "-"%char (two_digits (d_day d)))).
  rewrite !split_app_sep by done. rewrite split_piece by done.
  rewrite Y2, short_field_two, day_field_two by lia.
  destruct d as [y m day]. cbn [d_year d_month d_day] in *. cbv zeta. by rewrite Hv.
Qed.
