(* ===== verification/World.v ===== *)
(** * Database, broker and network: the state the code runs against

    [world] is everything the program reads and writes outside its local
    variables: the PostgreSQL schemas (one per tenant) with their tables, the
    connection's search path, the clock, the celery broker, the requests sent,
    and the registry of workflow configurations.  The file also holds the ORM
    operations the sources use and the schema switching of workflow/utils.py.

    Code that is not in the repository (HTTP peers, JWT signing, identifier
    generation) is the class [Platform]. *)
From Stdlib Require Import Ascii String.
From stdpp Require Import base list strings numbers gmap sets.
From S2P Require Import Prelude PyStr PyVal Json.
Local Open Scope string_scope.
Local Open Scope Z_scope.
Local Open Scope list_scope.

(** ** Rows (workflow/models.py) *)

(** [Workflow.STATUS_*] *)
Inductive wf_status : Type :=
  | WInit | WProgress | WWait | WSuccess | WError | WTimeout | WCanceled.
(** [Task.STATUS_*] *)
Inductive task_status : Type :=
  | TInit | TProgress | TNestedProgress | TSuccess | TError | TTimeout | TCanceled.

#[export] Instance wf_status_eq_dec : EqDecision wf_status.
Proof. solve_decision. Defined.
#[export] Instance task_status_eq_dec : EqDecision task_status.
Proof. solve_decision. Defined.

Definition wf_status_str (s : wf_status) : string :=
  match s with
  | WInit => "init" | WProgress => "progress" | WWait => "wait" | WSuccess => "success"
  | WError => "error" | WTimeout => "timeout" | WCanceled => "canceled"
  end.
Definition task_status_str (s : task_status) : string :=
  match s with
  | TInit => "init" | TProgress => "progress" | TNestedProgress => "nested-progress"
  | TSuccess => "success" | TError => "error" | TTimeout => "timeout" | TCanceled => "canceled"
  end.

(** [Space] *)
Record space_row : Type := SpaceRow {
  sp_id : Z;
  sp_name : option string;
  sp_realm_code : option string;
  sp_space_code : string;
  sp_created_at : Z;
  sp_modified_at : Z
}.

Definition set_sp_id (v : Z) (r : space_row) : space_row :=
  SpaceRow
    v (sp_name r) (sp_realm_code r) (sp_space_code r) (sp_created_at r)
    (sp_modified_at r).
Definition set_sp_name (v : option string) (r : space_row) : space_row :=
  SpaceRow
    (sp_id r) v (sp_realm_code r) (sp_space_code r) (sp_created_at r) (sp_modified_at
    r).
Definition set_sp_realm_code (v : option string) (r : space_row) : space_row :=
  SpaceRow
    (sp_id r) (sp_name r) v (sp_space_code r) (sp_created_at r) (sp_modified_at r).
Definition set_sp_space_code (v : string) (r : space_row) : space_row :=
  SpaceRow
    (sp_id r) (sp_name r) (sp_realm_code r) v (sp_created_at r) (sp_modified_at r).
Definition set_sp_created_at (v : Z) (r : space_row) : space_row :=
  SpaceRow
    (sp_id r) (sp_name r) (sp_realm_code r) (sp_space_code r) v (sp_modified_at r).
Definition set_sp_modified_at (v : Z) (r : space_row) : space_row :=
  SpaceRow
    (sp_id r) (sp_name r) (sp_realm_code r) (sp_space_code r) (sp_created_at r) v.

(** [User]: the columns the code uses *)
Record user_row : Type := UserRow {
  us_id : Z;
  us_username : string;
  us_password : string;
  us_is_staff : bool;
  us_is_superuser : bool;
  us_is_bot : bool;
  us_json_data : option string
}.

Definition set_us_id (v : Z) (r : user_row) : user_row :=
  UserRow
    v (us_username r) (us_password r) (us_is_staff r) (us_is_superuser r) (us_is_bot
    r) (us_json_data r).
Definition set_us_json_data (v : option string) (r : user_row) : user_row :=
  UserRow
    (us_id r) (us_username r) (us_password r) (us_is_staff r) (us_is_superuser r)
    (us_is_bot r) v.

(** [WorkflowTemplate] *)
Record template_row : Type := TemplateRow {
  wt_id : Z;
  wt_name : option string;
  wt_user_code : option string;
  wt_notes : option string;
  wt_data : pyval;
  wt_space : Z;
  wt_owner : Z;
  wt_created_at : Z;
  wt_modified_at : Z
}.

Definition set_wt_id (v : Z) (r : template_row) : template_row :=
  TemplateRow
    v (wt_name r) (wt_user_code r) (wt_notes r) (wt_data r) (wt_space r) (wt_owner r)
    (wt_created_at r) (wt_modified_at r).
Definition set_wt_created_at (v : Z) (r : template_row) : template_row :=
  TemplateRow
    (wt_id r) (wt_name r) (wt_user_code r) (wt_notes r) (wt_data r) (wt_space r)
    (wt_owner r) v (wt_modified_at r).
Definition set_wt_modified_at (v : Z) (r : template_row) : template_row :=
  TemplateRow
    (wt_id r) (wt_name r) (wt_user_code r) (wt_notes r) (wt_data r) (wt_space r)
    (wt_owner r) (wt_created_at r) v.

(** [Workflow] *)
Record workflow_row : Type := WorkflowRow {
  wf_id : Z;
  wf_name : option string;
  wf_template : option Z;
  wf_current_node_id : option string;
  wf_last_task_output : pyval;
  wf_node_id : option string;
  wf_user_code : option string;
  wf_status_ : wf_status;
  wf_payload_data : option string;
  wf_periodic : bool;
  wf_is_manager : bool;
  wf_platform_task_id : option Z;
  wf_space : Z;
  wf_owner : Z;
  wf_crontab : option Z;
  wf_finished_at : option Z;
  wf_parent : option Z;
  wf_created_at : Z;
  wf_modified_at : Z
}.

Definition set_wf_id (v : Z) (r : workflow_row) : workflow_row :=
  WorkflowRow
    v (wf_name r) (wf_template r) (wf_current_node_id r) (wf_last_task_output r)
    (wf_node_id r) (wf_user_code r) (wf_status_ r) (wf_payload_data r) (wf_periodic r)
    (wf_is_manager r) (wf_platform_task_id r) (wf_space r) (wf_owner r) (wf_crontab r)
    (wf_finished_at r) (wf_parent r) (wf_created_at r) (wf_modified_at r).
Definition set_wf_current_node_id (v : option string) (r : workflow_row) : workflow_row :=
  WorkflowRow
    (wf_id r) (wf_name r) (wf_template r) v (wf_last_task_output r) (wf_node_id r)
    (wf_user_code r) (wf_status_ r) (wf_payload_data r) (wf_periodic r) (wf_is_manager
    r) (wf_platform_task_id r) (wf_space r) (wf_owner r) (wf_crontab r)
    (wf_finished_at r) (wf_parent r) (wf_created_at r) (wf_modified_at r).
Definition set_wf_last_task_output (v : pyval) (r : workflow_row) : workflow_row :=
  WorkflowRow
    (wf_id r) (wf_name r) (wf_template r) (wf_current_node_id r) v (wf_node_id r)
    (wf_user_code r) (wf_status_ r) (wf_payload_data r) (wf_periodic r) (wf_is_manager
    r) (wf_platform_task_id r) (wf_space r) (wf_owner r) (wf_crontab r)
    (wf_finished_at r) (wf_parent r) (wf_created_at r) (wf_modified_at r).
Definition set_wf_status_ (v : wf_status) (r : workflow_row) : workflow_row :=
  WorkflowRow
    (wf_id r) (wf_name r) (wf_template r) (wf_current_node_id r) (wf_last_task_output
    r) (wf_node_id r) (wf_user_code r) v (wf_payload_data r) (wf_periodic r)
    (wf_is_manager r) (wf_platform_task_id r) (wf_space r) (wf_owner r) (wf_crontab r)
    (wf_finished_at r) (wf_parent r) (wf_created_at r) (wf_modified_at r).
Definition set_wf_payload_data (v : option string) (r : workflow_row) : workflow_row :=
  WorkflowRow
    (wf_id r) (wf_name r) (wf_template r) (wf_current_node_id r) (wf_last_task_output
    r) (wf_node_id r) (wf_user_code r) (wf_status_ r) v (wf_periodic r) (wf_is_manager
    r) (wf_platform_task_id r) (wf_space r) (wf_owner r) (wf_crontab r)
    (wf_finished_at r) (wf_parent r) (wf_created_at r) (wf_modified_at r).
Definition set_wf_finished_at (v : option Z) (r : workflow_row) : workflow_row :=
  WorkflowRow
    (wf_id r) (wf_name r) (wf_template r) (wf_current_node_id r) (wf_last_task_output
    r) (wf_node_id r) (wf_user_code r) (wf_status_ r) (wf_payload_data r) (wf_periodic
    r) (wf_is_manager r) (wf_platform_task_id r) (wf_space r) (wf_owner r) (wf_crontab
    r) v (wf_parent r) (wf_created_at r) (wf_modified_at r).
Definition set_wf_parent (v : option Z) (r : workflow_row) : workflow_row :=
  WorkflowRow
    (wf_id r) (wf_name r) (wf_template r) (wf_current_node_id r) (wf_last_task_output
    r) (wf_node_id r) (wf_user_code r) (wf_status_ r) (wf_payload_data r) (wf_periodic
    r) (wf_is_manager r) (wf_platform_task_id r) (wf_space r) (wf_owner r) (wf_crontab
    r) (wf_finished_at r) v (wf_created_at r) (wf_modified_at r).
Definition set_wf_created_at (v : Z) (r : workflow_row) : workflow_row :=
  WorkflowRow
    (wf_id r) (wf_name r) (wf_template r) (wf_current_node_id r) (wf_last_task_output
    r) (wf_node_id r) (wf_user_code r) (wf_status_ r) (wf_payload_data r) (wf_periodic
    r) (wf_is_manager r) (wf_platform_task_id r) (wf_space r) (wf_owner r) (wf_crontab
    r) (wf_finished_at r) (wf_parent r) v (wf_modified_at r).
Definition set_wf_modified_at (v : Z) (r : workflow_row) : workflow_row :=
  WorkflowRow
    (wf_id r) (wf_name r) (wf_template r) (wf_current_node_id r) (wf_last_task_output
    r) (wf_node_id r) (wf_user_code r) (wf_status_ r) (wf_payload_data r) (wf_periodic
    r) (wf_is_manager r) (wf_platform_task_id r) (wf_space r) (wf_owner r) (wf_crontab
    r) (wf_finished_at r) (wf_parent r) (wf_created_at r) v.

(** [Task]; the [space] of an object that was given none is [None] *)
Record task_row : Type := TaskRow {
  tk_id : Z;
  tk_workflow : Z;
  tk_node_id : option string;
  tk_celery_task_id : option string;
  tk_name : option string;
  tk_source_code : option string;
  tk_status : task_status;
  tk_worker_name : option string;
  tk_type : option string;
  tk_payload_data : option string;
  tk_result_data : option string;
  tk_progress_data : option string;
  tk_log : option string;
  tk_notes : option string;
  tk_error_message : option string;
  tk_verbose_name : option string;
  tk_verbose_result : option string;
  tk_previous_data : option string;
  tk_is_hook : bool;
  tk_finished_at : option Z;
  tk_space : option Z;
  tk_created_at : Z;
  tk_modified_at : Z
}.

Definition set_tk_id (v : Z) (r : task_row) : task_row :=
  TaskRow
    v (tk_workflow r) (tk_node_id r) (tk_celery_task_id r) (tk_name r) (tk_source_code
    r) (tk_status r) (tk_worker_name r) (tk_type r) (tk_payload_data r)
    (tk_result_data r) (tk_progress_data r) (tk_log r) (tk_notes r) (tk_error_message
    r) (tk_verbose_name r) (tk_verbose_result r) (tk_previous_data r) (tk_is_hook r)
    (tk_finished_at r) (tk_space r) (tk_created_at r) (tk_modified_at r).
Definition set_tk_source_code (v : option string) (r : task_row) : task_row :=
  TaskRow
    (tk_id r) (tk_workflow r) (tk_node_id r) (tk_celery_task_id r) (tk_name r) v
    (tk_status r) (tk_worker_name r) (tk_type r) (tk_payload_data r) (tk_result_data
    r) (tk_progress_data r) (tk_log r) (tk_notes r) (tk_error_message r)
    (tk_verbose_name r) (tk_verbose_result r) (tk_previous_data r) (tk_is_hook r)
    (tk_finished_at r) (tk_space r) (tk_created_at r) (tk_modified_at r).
Definition set_tk_status (v : task_status) (r : task_row) : task_row :=
  TaskRow
    (tk_id r) (tk_workflow r) (tk_node_id r) (tk_celery_task_id r) (tk_name r)
    (tk_source_code r) v (tk_worker_name r) (tk_type r) (tk_payload_data r)
    (tk_result_data r) (tk_progress_data r) (tk_log r) (tk_notes r) (tk_error_message
    r) (tk_verbose_name r) (tk_verbose_result r) (tk_previous_data r) (tk_is_hook r)
    (tk_finished_at r) (tk_space r) (tk_created_at r) (tk_modified_at r).
Definition set_tk_worker_name (v : option string) (r : task_row) : task_row :=
  TaskRow
    (tk_id r) (tk_workflow r) (tk_node_id r) (tk_celery_task_id r) (tk_name r)
    (tk_source_code r) (tk_status r) v (tk_type r) (tk_payload_data r) (tk_result_data
    r) (tk_progress_data r) (tk_log r) (tk_notes r) (tk_error_message r)
    (tk_verbose_name r) (tk_verbose_result r) (tk_previous_data r) (tk_is_hook r)
    (tk_finished_at r) (tk_space r) (tk_created_at r) (tk_modified_at r).
Definition set_tk_payload_data (v : option string) (r : task_row) : task_row :=
  TaskRow
    (tk_id r) (tk_workflow r) (tk_node_id r) (tk_celery_task_id r) (tk_name r)
    (tk_source_code r) (tk_status r) (tk_worker_name r) (tk_type r) v (tk_result_data
    r) (tk_progress_data r) (tk_log r) (tk_notes r) (tk_error_message r)
    (tk_verbose_name r) (tk_verbose_result r) (tk_previous_data r) (tk_is_hook r)
    (tk_finished_at r) (tk_space r) (tk_created_at r) (tk_modified_at r).
Definition set_tk_result_data (v : option string) (r : task_row) : task_row :=
  TaskRow
    (tk_id r) (tk_workflow r) (tk_node_id r) (tk_celery_task_id r) (tk_name r)
    (tk_source_code r) (tk_status r) (tk_worker_name r) (tk_type r) (tk_payload_data
    r) v (tk_progress_data r) (tk_log r) (tk_notes r) (tk_error_message r)
    (tk_verbose_name r) (tk_verbose_result r) (tk_previous_data r) (tk_is_hook r)
    (tk_finished_at r) (tk_space r) (tk_created_at r) (tk_modified_at r).
Definition set_tk_progress_data (v : option string) (r : task_row) : task_row :=
  TaskRow
    (tk_id r) (tk_workflow r) (tk_node_id r) (tk_celery_task_id r) (tk_name r)
    (tk_source_code r) (tk_status r) (tk_worker_name r) (tk_type r) (tk_payload_data
    r) (tk_result_data r) v (tk_log r) (tk_notes r) (tk_error_message r)
    (tk_verbose_name r) (tk_verbose_result r) (tk_previous_data r) (tk_is_hook r)
    (tk_finished_at r) (tk_space r) (tk_created_at r) (tk_modified_at r).
Definition set_tk_log (v : option string) (r : task_row) : task_row :=
  TaskRow
    (tk_id r) (tk_workflow r) (tk_node_id r) (tk_celery_task_id r) (tk_name r)
    (tk_source_code r) (tk_status r) (tk_worker_name r) (tk_type r) (tk_payload_data
    r) (tk_result_data r) (tk_progress_data r) v (tk_notes r) (tk_error_message r)
    (tk_verbose_name r) (tk_verbose_result r) (tk_previous_data r) (tk_is_hook r)
    (tk_finished_at r) (tk_space r) (tk_created_at r) (tk_modified_at r).
Definition set_tk_error_message (v : option string) (r : task_row) : task_row :=
  TaskRow
    (tk_id r) (tk_workflow r) (tk_node_id r) (tk_celery_task_id r) (tk_name r)
    (tk_source_code r) (tk_status r) (tk_worker_name r) (tk_type r) (tk_payload_data
    r) (tk_result_data r) (tk_progress_data r) (tk_log r) (tk_notes r) v
    (tk_verbose_name r) (tk_verbose_result r) (tk_previous_data r) (tk_is_hook r)
    (tk_finished_at r) (tk_space r) (tk_created_at r) (tk_modified_at r).
Definition set_tk_previous_data (v : option string) (r : task_row) : task_row :=
  TaskRow
    (tk_id r) (tk_workflow r) (tk_node_id r) (tk_celery_task_id r) (tk_name r)
    (tk_source_code r) (tk_status r) (tk_worker_name r) (tk_type r) (tk_payload_data
    r) (tk_result_data r) (tk_progress_data r) (tk_log r) (tk_notes r)
    (tk_error_message r) (tk_verbose_name r) (tk_verbose_result r) v (tk_is_hook r)
    (tk_finished_at r) (tk_space r) (tk_created_at r) (tk_modified_at r).
Definition set_tk_finished_at (v : option Z) (r : task_row) : task_row :=
  TaskRow
    (tk_id r) (tk_workflow r) (tk_node_id r) (tk_celery_task_id r) (tk_name r)
    (tk_source_code r) (tk_status r) (tk_worker_name r) (tk_type r) (tk_payload_data
    r) (tk_result_data r) (tk_progress_data r) (tk_log r) (tk_notes r)
    (tk_error_message r) (tk_verbose_name r) (tk_verbose_result r) (tk_previous_data
    r) (tk_is_hook r) v (tk_space r) (tk_created_at r) (tk_modified_at r).
Definition set_tk_created_at (v : Z) (r : task_row) : task_row :=
  TaskRow
    (tk_id r) (tk_workflow r) (tk_node_id r) (tk_celery_task_id r) (tk_name r)
    (tk_source_code r) (tk_status r) (tk_worker_name r) (tk_type r) (tk_payload_data
    r) (tk_result_data r) (tk_progress_data r) (tk_log r) (tk_notes r)
    (tk_error_message r) (tk_verbose_name r) (tk_verbose_result r) (tk_previous_data
    r) (tk_is_hook r) (tk_finished_at r) (tk_space r) v (tk_modified_at r).
Definition set_tk_modified_at (v : Z) (r : task_row) : task_row :=
  TaskRow
    (tk_id r) (tk_workflow r) (tk_node_id r) (tk_celery_task_id r) (tk_name r)
    (tk_source_code r) (tk_status r) (tk_worker_name r) (tk_type r) (tk_payload_data
    r) (tk_result_data r) (tk_progress_data r) (tk_log r) (tk_notes r)
    (tk_error_message r) (tk_verbose_name r) (tk_verbose_result r) (tk_previous_data
    r) (tk_is_hook r) (tk_finished_at r) (tk_space r) (tk_created_at r) v.

(** [CrontabSchedule] of django-celery-beat *)
Record crontab_row : Type := CrontabRow {
  ct_id : Z;
  ct_minute : string;
  ct_hour : string;
  ct_day_of_month : string;
  ct_month_of_year : string;
  ct_day_of_week : string
}.

Definition set_ct_id (v : Z) (r : crontab_row) : crontab_row :=
  CrontabRow
    v (ct_minute r) (ct_hour r) (ct_day_of_month r) (ct_month_of_year r)
    (ct_day_of_week r).

(** [Schedule], with the columns it inherits from [PeriodicTask] *)
Record schedule_row : Type := ScheduleRow {
  sc_id : Z;
  sc_name : string;
  sc_user_code : string;
  sc_notes : option string;
  sc_payload : pyval;
  sc_is_manager : bool;
  sc_space : Z;
  sc_owner : Z;
  sc_workflow_user_code : string;
  sc_crontab : option Z;
  sc_enabled : bool;
  sc_queue : option string;
  sc_task : string;
  sc_args : string;
  sc_kwargs : string;
  sc_last_run_at : option Z;
  sc_created_at : Z;
  sc_modified_at : Z
}.

Definition set_sc_id (v : Z) (r : schedule_row) : schedule_row :=
  ScheduleRow
    v (sc_name r) (sc_user_code r) (sc_notes r) (sc_payload r) (sc_is_manager r)
    (sc_space r) (sc_owner r) (sc_workflow_user_code r) (sc_crontab r) (sc_enabled r)
    (sc_queue r) (sc_task r) (sc_args r) (sc_kwargs r) (sc_last_run_at r)
    (sc_created_at r) (sc_modified_at r).
Definition set_sc_name (v : string) (r : schedule_row) : schedule_row :=
  ScheduleRow
    (sc_id r) v (sc_user_code r) (sc_notes r) (sc_payload r) (sc_is_manager r)
    (sc_space r) (sc_owner r) (sc_workflow_user_code r) (sc_crontab r) (sc_enabled r)
    (sc_queue r) (sc_task r) (sc_args r) (sc_kwargs r) (sc_last_run_at r)
    (sc_created_at r) (sc_modified_at r).
Definition set_sc_crontab (v : option Z) (r : schedule_row) : schedule_row :=
  ScheduleRow
    (sc_id r) (sc_name r) (sc_user_code r) (sc_notes r) (sc_payload r) (sc_is_manager
    r) (sc_space r) (sc_owner r) (sc_workflow_user_code r) v (sc_enabled r) (sc_queue
    r) (sc_task r) (sc_args r) (sc_kwargs r) (sc_last_run_at r) (sc_created_at r)
    (sc_modified_at r).
Definition set_sc_queue (v : option string) (r : schedule_row) : schedule_row :=
  ScheduleRow
    (sc_id r) (sc_name r) (sc_user_code r) (sc_notes r) (sc_payload r) (sc_is_manager
    r) (sc_space r) (sc_owner r) (sc_workflow_user_code r) (sc_crontab r) (sc_enabled
    r) v (sc_task r) (sc_args r) (sc_kwargs r) (sc_last_run_at r) (sc_created_at r)
    (sc_modified_at r).
Definition set_sc_task (v : string) (r : schedule_row) : schedule_row :=
  ScheduleRow
    (sc_id r) (sc_name r) (sc_user_code r) (sc_notes r) (sc_payload r) (sc_is_manager
    r) (sc_space r) (sc_owner r) (sc_workflow_user_code r) (sc_crontab r) (sc_enabled
    r) (sc_queue r) v (sc_args r) (sc_kwargs r) (sc_last_run_at r) (sc_created_at r)
    (sc_modified_at r).
Definition set_sc_args (v : string) (r : schedule_row) : schedule_row :=
  ScheduleRow
    (sc_id r) (sc_name r) (sc_user_code r) (sc_notes r) (sc_payload r) (sc_is_manager
    r) (sc_space r) (sc_owner r) (sc_workflow_user_code r) (sc_crontab r) (sc_enabled
    r) (sc_queue r) (sc_task r) v (sc_kwargs r) (sc_last_run_at r) (sc_created_at r)
    (sc_modified_at r).
Definition set_sc_kwargs (v : string) (r : schedule_row) : schedule_row :=
  ScheduleRow
    (sc_id r) (sc_name r) (sc_user_code r) (sc_notes r) (sc_payload r) (sc_is_manager
    r) (sc_space r) (sc_owner r) (sc_workflow_user_code r) (sc_crontab r) (sc_enabled
    r) (sc_queue r) (sc_task r) (sc_args r) v (sc_last_run_at r) (sc_created_at r)
    (sc_modified_at r).
Definition set_sc_last_run_at (v : option Z) (r : schedule_row) : schedule_row :=
  ScheduleRow
    (sc_id r) (sc_name r) (sc_user_code r) (sc_notes r) (sc_payload r) (sc_is_manager
    r) (sc_space r) (sc_owner r) (sc_workflow_user_code r) (sc_crontab r) (sc_enabled
    r) (sc_queue r) (sc_task r) (sc_args r) (sc_kwargs r) v (sc_created_at r)
    (sc_modified_at r).
Definition set_sc_created_at (v : Z) (r : schedule_row) : schedule_row :=
  ScheduleRow
    (sc_id r) (sc_name r) (sc_user_code r) (sc_notes r) (sc_payload r) (sc_is_manager
    r) (sc_space r) (sc_owner r) (sc_workflow_user_code r) (sc_crontab r) (sc_enabled
    r) (sc_queue r) (sc_task r) (sc_args r) (sc_kwargs r) (sc_last_run_at r) v
    (sc_modified_at r).
Definition set_sc_modified_at (v : Z) (r : schedule_row) : schedule_row :=
  ScheduleRow
    (sc_id r) (sc_name r) (sc_user_code r) (sc_notes r) (sc_payload r) (sc_is_manager
    r) (sc_space r) (sc_owner r) (sc_workflow_user_code r) (sc_crontab r) (sc_enabled
    r) (sc_queue r) (sc_task r) (sc_args r) (sc_kwargs r) (sc_last_run_at r)
    (sc_created_at r) v.

(** [ErrorRecord] of finmars_standardized_errors/models.py *)
Record error_row : Type := ErrorRow {
  er_id : Z;
  er_url : string;
  er_username : string;
  er_message : string;
  er_status_code : Z;
  er_notes : string;
  er_details_data : option string;
  er_created : Z
}.

Definition set_er_id (v : Z) (r : error_row) : error_row :=
  ErrorRow
    v (er_url r) (er_username r) (er_message r) (er_status_code r) (er_notes r)
    (er_details_data r) (er_created r).
Definition set_er_details_data (v : option string) (r : error_row) : error_row :=
  ErrorRow
    (er_id r) (er_url r) (er_username r) (er_message r) (er_status_code r) (er_notes r)
    v (er_created r).
Definition set_er_created (v : Z) (r : error_row) : error_row :=
  ErrorRow
    (er_id r) (er_url r) (er_username r) (er_message r) (er_status_code r) (er_notes r)
    (er_details_data r) v.

(** ** Tables and tenants *)

(** A table: its rows in insertion order and the sequence of its primary key. *)
Record table (R : Type) : Type := Table { rows : list R; next_id : Z }.
Arguments Table {R} rows next_id.
Arguments rows {R} t.
Arguments next_id {R} t.

(** The tables of one PostgreSQL schema *)
Record tenant : Type := Tenant {
  t_spaces : table space_row;
  t_users : table user_row;
  t_templates : table template_row;
  t_workflows : table workflow_row;
  t_tasks : table task_row;
  t_schedules : table schedule_row;
  t_crontabs : table crontab_row;
  t_errors : table error_row
}.

Definition set_t_spaces (v : table space_row) (r : tenant) : tenant :=
  Tenant
    v (t_users r) (t_templates r) (t_workflows r)
    (t_tasks r) (t_schedules r) (t_crontabs r) (t_errors r).
Definition set_t_users (v : table user_row) (r : tenant) : tenant :=
  Tenant
    (t_spaces r) v (t_templates r) (t_workflows r)
    (t_tasks r) (t_schedules r) (t_crontabs r) (t_errors r).
Definition set_t_templates (v : table template_row) (r : tenant) : tenant :=
  Tenant
    (t_spaces r) (t_users r) v (t_workflows r)
    (t_tasks r) (t_schedules r) (t_crontabs r) (t_errors r).
Definition set_t_workflows (v : table workflow_row) (r : tenant) : tenant :=
  Tenant
    (t_spaces r) (t_users r) (t_templates r) v
    (t_tasks r) (t_schedules r) (t_crontabs r) (t_errors r).
Definition set_t_tasks (v : table task_row) (r : tenant) : tenant :=
  Tenant
    (t_spaces r) (t_users r) (t_templates r) (t_workflows r)
    v (t_schedules r) (t_crontabs r) (t_errors r).
Definition set_t_schedules (v : table schedule_row) (r : tenant) : tenant :=
  Tenant
    (t_spaces r) (t_users r) (t_templates r) (t_workflows r)
    (t_tasks r) v (t_crontabs r) (t_errors r).
Definition set_t_crontabs (v : table crontab_row) (r : tenant) : tenant :=
  Tenant
    (t_spaces r) (t_users r) (t_templates r) (t_workflows r)
    (t_tasks r) (t_schedules r) v (t_errors r).
Definition set_t_errors (v : table error_row) (r : tenant) : tenant :=
  Tenant
    (t_spaces r) (t_users r) (t_templates r) (t_workflows r)
    (t_tasks r) (t_schedules r) (t_crontabs r) v.

(** A message published to the broker: task name, arguments, queue *)
Record message : Type := Msg {
  msg_task : string;
  msg_args : list pyval;
  msg_kwargs : list (string * pyval);
  msg_queue : pyval
}.

(** What celery is given to run: a task with the identifier chosen for it (or
    [None]: celery draws one), a group, a chain with its [link] and
    [link_error] callbacks. *)
Inductive canvas : Type :=
  | Sig (task_id : option string) (m : message)
  | Group (l : list canvas)
  | Chain (l link link_error : list canvas).

(** The messages in a canvas *)
Fixpoint canvas_msgs (c : canvas) : list message :=
  match c with
  | Sig _ m => [m]
  | Group l => flat_map canvas_msgs l
  | Chain l k e =>
      flat_map canvas_msgs l ++ flat_map canvas_msgs k ++ flat_map canvas_msgs e
  end.


(** An HTTP request with its bearer token *)
Record request : Type := Request {
  rq_method : string;
  rq_url : string;
  rq_body : option string;
  rq_token : string
}.


(** What comes back: status code, text, and what [.json()] gives *)
Record response : Type := Response {
  rs_status : Z;
  rs_text : string;
  rs_json : res pyval
}.


(** The state outside the process.  [w_catalog] is the list of schema names of
    information_schema, [w_tenants] the tables of the tenant schemas, [w_registry]
    the dictionary [SystemWorkflowManager.workflows], [w_local] the files under the
    local storage root, [w_registered] the thread-local of workflow/api.py. *)
Record world : Type := World {
  w_tenants : gmap string tenant;
  w_catalog : list string;
  w_path : string;
  w_clock : Z;
  w_uuids : nat;
  w_broker : list canvas;
  w_revoked : list (option string);
  w_requests : list request;
  w_registry : list (string * pyval);
  w_local : list (string * string);
  w_registered : option string
}.

Definition set_w_tenants (v : gmap string tenant) (r : world) : world :=
  World
    v (w_catalog r) (w_path r) (w_clock r) (w_uuids r) (w_broker r) (w_revoked r)
    (w_requests r) (w_registry r) (w_local r) (w_registered r).
Definition set_w_path (v : string) (r : world) : world :=
  World
    (w_tenants r) (w_catalog r) v (w_clock r) (w_uuids r) (w_broker r) (w_revoked r)
    (w_requests r) (w_registry r) (w_local r) (w_registered r).
Definition set_w_clock (v : Z) (r : world) : world :=
  World
    (w_tenants r) (w_catalog r) (w_path r) v (w_uuids r) (w_broker r) (w_revoked r)
    (w_requests r) (w_registry r) (w_local r) (w_registered r).
Definition set_w_uuids (v : nat) (r : world) : world :=
  World
    (w_tenants r) (w_catalog r) (w_path r) (w_clock r) v (w_broker r) (w_revoked r)
    (w_requests r) (w_registry r) (w_local r) (w_registered r).
Definition set_w_broker (v : list canvas) (r : world) : world :=
  World
    (w_tenants r) (w_catalog r) (w_path r) (w_clock r) (w_uuids r) v (w_revoked r)
    (w_requests r) (w_registry r) (w_local r) (w_registered r).
Definition set_w_revoked (v : list (option string)) (r : world) : world :=
  World
    (w_tenants r) (w_catalog r) (w_path r) (w_clock r) (w_uuids r) (w_broker r) v
    (w_requests r) (w_registry r) (w_local r) (w_registered r).
Definition set_w_requests (v : list request) (r : world) : world :=
  World
    (w_tenants r) (w_catalog r) (w_path r) (w_clock r) (w_uuids r) (w_broker r)
    (w_revoked r) v (w_registry r) (w_local r) (w_registered r).
Definition set_w_registry (v : list (string * pyval)) (r : world) : world :=
  World
    (w_tenants r) (w_catalog r) (w_path r) (w_clock r) (w_uuids r) (w_broker r)
    (w_revoked r) (w_requests r) v (w_local r) (w_registered r).
Definition set_w_local (v : list (string * string)) (r : world) : world :=
  World
    (w_tenants r) (w_catalog r) (w_path r) (w_clock r) (w_uuids r) (w_broker r)
    (w_revoked r) (w_requests r) (w_registry r) v (w_registered r).
Definition set_w_registered (v : option string) (r : world) : world :=
  World
    (w_tenants r) (w_catalog r) (w_path r) (w_clock r) (w_uuids r) (w_broker r)
    (w_revoked r) (w_requests r) (w_registry r) (w_local r) v.

(** Effects of the code on the world *)
Abbreviation M := (ST world).

(** ** Code outside the repository *)

(** [uuid4 n]: the n-th identifier drawn by [celery.utils.uuid];
    [http n r]: what [requests] gives for [r], the n-th request sent;
    [jwt_encode]: [jwt.encode] with the secret key, HS256;
    [user_token]: the access token of [RefreshToken.for_user];
    [domain_name], [storage_root]: the DOMAIN_NAME and WORKFLOW_STORAGE_ROOT
    settings; [exn_text]: [str(exception)]. *)
Class Platform : Type := {
  uuid4 : nat → string;
  http : nat → request → res response;
  jwt_encode : pyval → string;
  user_token : user_row → string;
  domain_name : string;
  storage_root : string;
  exn_text : exn → string
}.

(** ** Models *)

(** What the ORM needs to know about a row type.  [newest_first] is the
    [Meta.ordering] of the model: ["-created_at"] against insertion order. *)
Class Model (R : Type) : Type := {
  model_name : string;
  newest_first : bool;
  row_id : R → Z;
  with_id : Z → R → R;
  created : R → Z;
  with_created : Z → R → R;
  with_modified : Z → R → R;
  get_table : tenant → table R;
  put_table : table R → tenant → tenant
}.

#[export] Instance space_model : Model space_row := {|
  model_name := "Space"; newest_first := false;
  row_id := sp_id; with_id := set_sp_id;
  created := sp_created_at; with_created := set_sp_created_at; with_modified := set_sp_modified_at;
  get_table := t_spaces; put_table := set_t_spaces |}.
#[export] Instance user_model : Model user_row := {|
  model_name := "User"; newest_first := false;
  row_id := us_id; with_id := set_us_id;
  created := us_id; with_created := λ _ r, r; with_modified := λ _ r, r;
  get_table := t_users; put_table := set_t_users |}.
#[export] Instance template_model : Model template_row := {|
  model_name := "WorkflowTemplate"; newest_first := false;
  row_id := wt_id; with_id := set_wt_id;
  created := wt_created_at; with_created := set_wt_created_at; with_modified := set_wt_modified_at;
  get_table := t_templates; put_table := set_t_templates |}.
#[export] Instance workflow_model : Model workflow_row := {|
  model_name := "Workflow"; newest_first := true;
  row_id := wf_id; with_id := set_wf_id;
  created := wf_created_at; with_created := set_wf_created_at; with_modified := set_wf_modified_at;
  get_table := t_workflows; put_table := set_t_workflows |}.
#[export] Instance task_model : Model task_row := {|
  model_name := "Task"; newest_first := true;
  row_id := tk_id; with_id := set_tk_id;
  created := tk_created_at; with_created := set_tk_created_at; with_modified := set_tk_modified_at;
  get_table := t_tasks; put_table := set_t_tasks |}.
#[export] Instance schedule_model : Model schedule_row := {|
  model_name := "Schedule"; newest_first := false;
  row_id := sc_id; with_id := set_sc_id;
  created := sc_created_at; with_created := set_sc_created_at; with_modified := set_sc_modified_at;
  get_table := t_schedules; put_table := set_t_schedules |}.
#[export] Instance crontab_model : Model crontab_row := {|
  model_name := "CrontabSchedule"; newest_first := false;
  row_id := ct_id; with_id := set_ct_id;
  created := ct_id; with_created := λ _ r, r; with_modified := λ _ r, r;
  get_table := t_crontabs; put_table := set_t_crontabs |}.
#[export] Instance error_model : Model error_row := {|
  model_name := "ErrorRecord"; newest_first := true;
  row_id := er_id; with_id := set_er_id;
  created := er_created; with_created := set_er_created; with_modified := λ _ r, r;
  get_table := t_errors; put_table := set_t_errors |}.

(** ** Primitive effects *)

(** [django.utils.timezone.now()]: the clock moves at every reading. *)
Definition now : M Z := λ w, (Ok (w_clock w), set_w_clock (w_clock w + 1) w).

(** The tables unqualified names resolve to: those of the search path. *)
Definition current_tenant : M tenant := λ w,
  match w_tenants w !! w_path w with
  | Some t => (Ok t, w)
  | None => (Raise DatabaseError, w)
  end.
Definition put_tenant (t : tenant) : M unit :=
  modify (λ w, set_w_tenants (<[w_path w := t]> (w_tenants w)) w).

Section Orm.
Context {R : Type} `{Model R}.

(** The rows in the model's default order *)
Definition ordered (l : list R) : list R := if newest_first then rev l else l.

(** [R.objects.filter(P)] (and [.all()] with a trivial [P]) *)
Definition objects_filter (P : R → bool) : M (list R) :=
  t ← current_tenant;
  mret (ordered (List.filter P (rows (get_table t)))).
(** [R.objects.get(P)] *)
Definition objects_get (P : R → bool) : M R :=
  l ← objects_filter P;
  match l with
  | [r] => mret r
  | [] => raise (DoesNotExist model_name)
  | _ => raise (MultipleObjectsReturned model_name)
  end.
Definition get_by_id (i : Z) : M R := objects_get (λ r, row_id r =? i).
(** Following a nullable foreign key *)
Definition fetch_fk (o : option Z) : M (option R) :=
  match o with
  | None => mret None
  | Some i => r ← get_by_id i; mret (Some r)
  end.

(** [.save()] of an object without a primary key *)
Definition insert_row (r : R) : M R :=
  n ← now;
  t ← current_tenant;
  let tb := get_table t in
  let r' := with_created n (with_modified n (with_id (next_id tb) r)) in
  _ ← put_tenant (put_table (Table (rows tb ++ [r']) (next_id tb + 1)) t);
  mret r'.
(** UPDATE by primary key, INSERT when no row matched *)
Definition write_row (r : R) (l : list R) : list R :=
  if existsb (λ r', row_id r' =? row_id r) l
  then map (λ r', if row_id r' =? row_id r then r else r') l
  else l ++ [r].
(** [.save()] of an object with a primary key: every column is written *)
Definition save_row (r : R) : M R :=
  n ← now;
  t ← current_tenant;
  let tb := get_table t in
  let r' := with_modified n r in
  _ ← put_tenant (put_table (Table (write_row r' (rows tb)) (next_id tb)) t);
  mret r'.
(** [.filter(P).update(f)]: columns written in place, no [modified_at] *)
Definition update_rows (P : R → bool) (f : R → R) : M unit :=
  t ← current_tenant;
  let tb := get_table t in
  put_tenant (put_table (Table (map (λ r, if P r then f r else r) (rows tb)) (next_id tb)) t).
Definition delete_rows (P : R → bool) : M unit :=
  t ← current_tenant;
  let tb := get_table t in
  put_tenant (put_table (Table (List.filter (λ r, negb (P r)) (rows tb)) (next_id tb)) t).
End Orm.

(** [qs.first()] and [qs.last()] of an ordered query set *)
Definition qs_first {R} (l : list R) : option R := head l.
Definition qs_last {R} (l : list R) : option R := last l.

(** [canvas.apply_async()] and [task.apply_async(args, kwargs, queue)] *)
Definition publish_canvas (c : canvas) : M unit :=
  modify (λ w, set_w_broker (w_broker w ++ [c]) w).
Definition publish (m : message) : M unit := publish_canvas (Sig None m).
(** [celery_app.control.revoke(task_id, terminate=True, signal="SIGKILL")] *)
Definition revoke (task_id : option string) : M unit :=
  modify (λ w, set_w_revoked (w_revoked w ++ [task_id]) w).

Section PlatformEffects.
Context `{Platform}.

(** [celery.utils.uuid()] *)
Definition uuid : M string := λ w,
  (Ok (uuid4 (w_uuids w)), set_w_uuids (S (w_uuids w)) w).
(** [requests.<method>(url, data, headers)] *)
Definition send_request (r : request) : M response := λ w,
  (http (length (w_requests w)) r, set_w_requests (w_requests w ++ [r]) w).
End PlatformEffects.

(** ** Schemas (workflow/utils.py) *)

(** [cursor.execute("SET search_path TO <name>;")]: PostgreSQL folds an
    unquoted identifier to lower case. *)
Definition set_search_path (name : string) : M unit :=
  modify (set_w_path (lower name)).

(** SQL [LIKE]: [%] any sequence, [_] any character *)
Fixpoint sql_like (p : string) : string → bool :=
  match p with
  | EmptyString => λ s, (s =? "")%string
  | String c p' =>
      if Ascii.eqb c "%"%char then
        fix any (s : string) : bool :=
          sql_like p' s || match s with EmptyString => false | String _ s' => any s' end
      else λ s, match s with
                | EmptyString => false
                | String d s' => (Ascii.eqb c "_"%char || Ascii.eqb c d) && sql_like p' s'
                end
  end.

(** [schema_exists] *)
Definition schema_exists (schema_name : string) : M bool :=
  gets (λ w, bool_decide (schema_name ∈ w_catalog w)).

(** [get_all_tenant_schemas] *)
Definition is_tenant_schema (name : string) : bool :=
  negb (bool_decide (name ∈ ["pg_catalog"; "information_schema"]))
  && negb (sql_like "pg_toast%" name)
  && negb (sql_like "pg_temp_%" name).
Definition get_all_tenant_schemas : M (list string) :=
  gets (λ w, List.filter is_tenant_schema (w_catalog w)).

(** [set_schema_from_context] *)
Definition set_schema_from_context (context : pyval) : M unit :=
  if truthy context then
    sc ← lift (get context "space_code");
    if truthy sc then
      space_code ← lift (as_str sc);
      b ← schema_exists space_code;
      if (b : bool) then set_search_path space_code
      else raise (PyException "No space_code in database schemas")
    else raise (PyException "No space_code in context")
  else raise (PyException "No context in kwargs").

(** ** Laws of the models *)

Class ModelOk (R : Type) `{Model R} : Prop := {
  get_put : ∀ tb t, get_table (put_table tb t) = tb;
  id_with_id : ∀ i r, row_id (with_id i r) = i;
  id_with_created : ∀ n r, row_id (with_created n r) = row_id r;
  id_with_modified : ∀ n r, row_id (with_modified n r) = row_id r
}.
#[export] Instance space_model_ok : ModelOk space_row. Proof. done. Qed.
#[export] Instance user_model_ok : ModelOk user_row. Proof. done. Qed.
#[export] Instance template_model_ok : ModelOk template_row. Proof. done. Qed.
#[export] Instance workflow_model_ok : ModelOk workflow_row. Proof. done. Qed.
#[export] Instance task_model_ok : ModelOk task_row. Proof. done. Qed.
#[export] Instance schedule_model_ok : ModelOk schedule_row. Proof. done. Qed.
#[export] Instance crontab_model_ok : ModelOk crontab_row. Proof. done. Qed.
#[export] Instance error_model_ok : ModelOk error_row. Proof. done. Qed.

(** Models other than [Space]: writing them leaves the spaces alone. *)
Class NotSpace (R : Type) `{Model R} : Prop :=
  spaces_put : ∀ tb t, t_spaces (put_table tb t) = t_spaces t.
#[export] Instance user_not_space : NotSpace user_row. Proof. done. Qed.
#[export] Instance template_not_space : NotSpace template_row. Proof. done. Qed.
#[export] Instance workflow_not_space : NotSpace workflow_row. Proof. done. Qed.
#[export] Instance task_not_space : NotSpace task_row. Proof. done. Qed.
#[export] Instance schedule_not_space : NotSpace schedule_row. Proof. done. Qed.
#[export] Instance crontab_not_space : NotSpace crontab_row. Proof. done. Qed.
#[export] Instance error_not_space : NotSpace error_row. Proof. done. Qed.

(** ** Tenant isolation *)

(** Every [Space] of the tenant [s] carries the code of the schema it is in:
    [create_space_if_not_exist] of workflow/apps.py sets it so. *)
Definition spaces_ok (s : string) (w : world) : Prop :=
  ∀ t, w_tenants w !! s = Some t →
  Forall (λ sp, lower (sp_space_code sp) = s) (rows (t_spaces t)).

(** A context that names the schema [s] *)
Definition names_schema (s : string) (context : pyval) : Prop :=
  ∀ c, get context "space_code" = Ok (PStr c) → lower c = s.
(** The tenant prefix of a user code: [user_code.split(".")[0]] *)
Definition space_prefix (user_code : string) : string := hd "" (split c_dot user_code).
Definition user_code_of (s user_code : string) : Prop :=
  space_prefix user_code ≠ "" ∧ lower (space_prefix user_code) = s.
(** A message of the tenant [s]: the context it carries names [s]; what a
    schedule executes is a workflow of [s]. *)
Definition msg_context (m : message) : pyval := default PNone (dict_get (msg_kwargs m) "context").
Definition executes (m : message) : option string :=
  if String.eqb (msg_task m) "workflow.tasks.workflows.execute" then
    match msg_args m with PStr user_code :: _ => Some user_code | _ => None end
  else None.
Definition msg_of (s : string) (m : message) : Prop :=
  names_schema s (msg_context m) ∧ ∀ user_code, executes m = Some user_code → user_code_of s user_code.
Lemma msg_of_intro s m : names_schema s (msg_context m) →
  (msg_task m ≠ "workflow.tasks.workflows.execute" ∨ ∀ u l, msg_args m ≠ PStr u :: l) → msg_of s m.
Proof.
  intros Hc Hm. split; [done|]. intros u. unfold executes.
  destruct (String.eqb_spec (msg_task m) "workflow.tasks.workflows.execute") as [E|]; [|done].
  destruct Hm as [Hm|Hm]; [by rewrite E in Hm|].
  destruct (msg_args m) as [|[] l]; try done. by destruct (Hm s0 l).
Qed.
Definition canvas_of (s : string) (c : canvas) : Prop := Forall (msg_of s) (canvas_msgs c).

(** [Stays s w0 w]: [w] is reached from [w0] by code that works in the
    schema [s], has touched no other schema and has published messages of [s]
    only. *)
Record Stays (s : string) (w0 w : world) : Prop := {
  stays_path : w_path w = s;
  stays_spaces : spaces_ok s w;
  stays_others : ∀ s', s' ≠ s → w_tenants w !! s' = w_tenants w0 !! s';
  stays_broker : ∃ l, w_broker w = w_broker w0 ++ l ∧ Forall (canvas_of s) l
}.


Section Stays.
Context (s : string) (w0 : world).
Abbreviation I := (Stays s w0).

Lemma stays_now : Keeps I now anything.
Proof. intros w []. by split. Qed.
Lemma stays_gets {A} (f : world → A) : Keeps I (gets f) anything.
Proof. by apply keeps_gets. Qed.
Lemma stays_publish_canvas c : canvas_of s c → Keeps I (publish_canvas c) anything.
Proof.
  intros Hc. apply keeps_modify; [|done]. intros w [? ? ? (l & Hl & Hf)]. split; [done..|].
  exists (l ++ [c]). simpl. rewrite Hl, app_assoc. split; [done|].
  apply Forall_app. split; [done|]. by apply Forall_singleton.
Qed.
Lemma stays_publish m : msg_of s m → Keeps I (publish m) anything.
Proof. intros Hm. apply stays_publish_canvas. by apply Forall_singleton. Qed.
(** A write outside the tables, the search path and the broker *)
Lemma stays_modify (f : world → world) :
  (∀ w, w_path (f w) = w_path w ∧ w_tenants (f w) = w_tenants w ∧ w_broker (f w) = w_broker w) →
  Keeps I (modify f) anything.
Proof.
  intros Hf. apply keeps_modify; [|done]. intros w []. destruct (Hf w) as (Hp & Ht & Hb).
  split; unfold spaces_ok; rewrite ?Hp, ?Ht, ?Hb; done.
Qed.
Lemma stays_revoke o : Keeps I (revoke o) anything.
Proof. by apply stays_modify. Qed.
Lemma stays_uuid `{Platform} : Keeps I uuid anything.
Proof. intros w []. by split. Qed.
Lemma stays_send `{Platform} r : Keeps I (send_request r) anything.
Proof. intros w []. by split. Qed.
Lemma stays_current_tenant :
  Keeps I current_tenant
    (λ t, Forall (λ sp, lower (sp_space_code sp) = s) (rows (t_spaces t))).
Proof.
  intros w HI. unfold current_tenant.
  destruct (w_tenants w !! w_path w) as [t|] eqn:E; simpl; [|by split].
  split; [done|]. intros ? [= <-]. apply (stays_spaces _ _ _ HI).
  by rewrite <- (stays_path _ _ _ HI).
Qed.
Lemma stays_put_tenant t :
  Forall (λ sp, lower (sp_space_code sp) = s) (rows (t_spaces t)) →
  Keeps I (put_tenant t) anything.
Proof.
  intros Ht. apply keeps_modify; [|done]. intros w [Hp Hs Ho Hb].
  split; [done| | |done]; rewrite Hp.
  - intros t'. simpl. rewrite lookup_insert_eq. by intros [= <-].
  - intros s' Hne. simpl. rewrite lookup_insert_ne by done. by apply Ho.
Qed.

Section Models.
Context {R : Type} `{Model R}.

Lemma stays_filter (P : R → bool) : Keeps I (objects_filter P) anything.
Proof.
  eapply keeps_bind; [apply stays_current_tenant|]. intros. by apply keeps_ret.
Qed.
Lemma stays_get (P : R → bool) : Keeps I (objects_get P) anything.
Proof.
  eapply keeps_bind; [apply stays_filter|]. intros [|r [|]] _;
    [apply keeps_raise|by apply keeps_ret|apply keeps_raise].
Qed.
Lemma stays_get_by_id i : Keeps I (get_by_id (R:=R) i) anything.
Proof. apply stays_get. Qed.
Lemma stays_fetch_fk o : Keeps I (fetch_fk (R:=R) o) anything.
Proof.
  destruct o; [|by apply keeps_ret].
  eapply keeps_bind; [apply stays_get_by_id|]. intros. by apply keeps_ret.
Qed.

Context `{!NotSpace R}.
Lemma stays_insert (r : R) : Keeps I (insert_row r) anything.
Proof.
  eapply keeps_bind; [apply stays_now|]. intros n _.
  eapply keeps_bind; [apply stays_current_tenant|]. intros t Ht.
  eapply keeps_bind; [apply stays_put_tenant; by rewrite spaces_put|].
  intros. by apply keeps_ret.
Qed.
Lemma stays_save (r : R) : Keeps I (save_row r) anything.
Proof.
  eapply keeps_bind; [apply stays_now|]. intros n _.
  eapply keeps_bind; [apply stays_current_tenant|]. intros t Ht.
  eapply keeps_bind; [apply stays_put_tenant; by rewrite spaces_put|].
  intros. by apply keeps_ret.
Qed.
Lemma stays_update (P : R → bool) f : Keeps I (update_rows P f) anything.
Proof.
  eapply keeps_bind; [apply stays_current_tenant|]. intros t Ht.
  apply stays_put_tenant. by rewrite spaces_put.
Qed.
Lemma stays_delete (P : R → bool) : Keeps I (delete_rows P) anything.
Proof.
  eapply keeps_bind; [apply stays_current_tenant|]. intros t Ht.
  apply stays_put_tenant. by rewrite spaces_put.
Qed.
End Models.

(** A space read in the schema [s] has the code of [s]. *)
Lemma stays_space_filter (P : space_row → bool) :
  Keeps I (objects_filter P) (Forall (λ sp, lower (sp_space_code sp) = s)).
Proof.
  eapply keeps_bind; [apply stays_current_tenant|]. intros t Ht. apply keeps_ret.
  simpl. unfold ordered. simpl. rewrite Forall_forall in *. intros x Hx. apply Ht.
  apply list_elem_of_In, filter_In in Hx as [Hx _]. by apply list_elem_of_In.
Qed.
Lemma stays_space_get (i : Z) :
  Keeps I (get_by_id (R:=space_row) i) (λ sp, lower (sp_space_code sp) = s).
Proof.
  eapply keeps_bind; [apply stays_space_filter|].
  intros [|r [|]] Hl; [apply keeps_raise| |apply keeps_raise].
  apply keeps_ret. by apply Forall_inv in Hl.
Qed.

(** Entering the schema again from a context that names it *)
Lemma stays_set_schema context :
  names_schema s context → Keeps I (set_schema_from_context context) anything.
Proof.
  intros Hc. unfold set_schema_from_context. destruct (truthy context); [|apply keeps_raise].
  eapply keeps_bind with (φ := λ v, get context "space_code" = Ok v);
    [by apply keeps_lift|]. intros v Hv.
  destruct (truthy v); [|apply keeps_raise].
  eapply keeps_bind with (φ := λ c, v = PStr c).
  { apply keeps_lift. intros c. destruct v; simpl; try done. by intros [= ->]. }
  intros c ->. eapply keeps_bind; [apply stays_gets|]. intros [] _; [|apply keeps_raise].
  apply keeps_modify; [|done]. intros w []. split; [by apply Hc|done..].
Qed.
End Stays.

#[export] Hint Resolve stays_now stays_gets stays_publish_canvas stays_publish stays_revoke stays_uuid stays_send
  stays_space_filter stays_space_get stays_fetch_fk : keeps.
#[export] Hint Resolve stays_filter stays_get stays_get_by_id | 2 : keeps.
#[export] Hint Extern 1 (Keeps _ (insert_row _) _) => eapply stays_insert; apply _ : keeps.
#[export] Hint Extern 1 (Keeps _ (save_row _) _) => eapply stays_save; apply _ : keeps.
#[export] Hint Extern 1 (Keeps _ (update_rows _ _) _) => eapply stays_update; apply _ : keeps.
#[export] Hint Extern 1 (Keeps _ (delete_rows _) _) => eapply stays_delete; apply _ : keeps.

(** Entering a schema for the first time: from then on only it is touched. *)
Lemma set_schema_enters context c w :
  get context "space_code" = Ok (PStr c) →
  (set_schema_from_context context w).1 = Ok tt →
  (set_schema_from_context context w).2 = set_w_path (lower c) w
  ∧ c ∈ w_catalog w.
Proof.
  intros Hc. unfold set_schema_from_context. destruct (truthy context); [|done].
  rewrite Hc. unfold mbind, ST_bind, lift. destruct (truthy (PStr c)); [|done].
  simpl. case_bool_decide; [|done]. simpl. done.
Qed.

(** Where the schema is entered, the context names a space. *)
Lemma set_schema_names context w : (set_schema_from_context context w).1 = Ok tt →
  ∃ c, get context "space_code" = Ok (PStr c).
Proof.
  unfold set_schema_from_context. destruct (truthy context); [|done].
  unfold mbind, ST_bind, lift. destruct (get context "space_code") as [v|]; [|done].
  destruct (truthy v); [|done]. destruct v; try done. eauto.
Qed.
(** The search path found does not matter. *)
Lemma set_schema_path_irrelevant context p w :
  set_schema_from_context context (set_w_path p w) =
  match set_schema_from_context context w with
  | (Ok u, w1) => (Ok u, w1)
  | (Raise e, w1) => (Raise e, set_w_path p w1)
  end.
Proof.
  unfold set_schema_from_context. destruct (truthy context); [|done].
  unfold mbind, ST_bind, lift. destruct (get context "space_code") as [v|]; [|done].
  destruct (truthy v); [|done]. destruct (as_str v); [|done]. simpl.
  by case_bool_decide.
Qed.
Lemma set_schema_raises context w e w' :
  set_schema_from_context context w = (Raise e, w') → w' = w.
Proof.
  unfold set_schema_from_context. destruct (truthy context); [|by intros [= _ <-]].
  unfold mbind, ST_bind, lift. destruct (get context "space_code") as [v|]; [|by intros [= _ <-]].
  destruct (truthy v); [|by intros [= _ <-]].
  destruct (as_str v); simpl; [|by intros [= _ <-]].
  case_bool_decide; simpl; [done|by intros [= _ <-]].
Qed.


(** ** Running the operations *)

(** The tenant the search path designates *)
Definition cur (w : world) : option tenant := w_tenants w !! w_path w.
Definition with_tenant (t : tenant) (w : world) : world :=
  set_w_tenants (<[w_path w := t]> (w_tenants w)) w.
Definition tick (w : world) : world := set_w_clock (w_clock w + 1) w.

Lemma cur_with_tenant t w : cur (with_tenant t w) = Some t.
Proof. apply lookup_insert_eq. Qed.
Lemma cur_tick w : cur (tick w) = cur w.
Proof. done. Qed.
Lemma with_tenant_twice t t' w : with_tenant t (with_tenant t' w) = with_tenant t w.
Proof. unfold with_tenant. simpl. by rewrite insert_insert_eq. Qed.
Lemma now_run w : now w = (Ok (w_clock w), tick w).
Proof. done. Qed.

Section OrmRuns.
Context {R : Type} `{ModelOk R}.

Lemma filter_run (P : R → bool) w t : cur w = Some t →
  objects_filter P w = (Ok (ordered (List.filter P (rows (get_table t)))), w).
Proof.
  intros Hw. unfold objects_filter, current_tenant, mbind, ST_bind.
  unfold cur in Hw. by rewrite Hw.
Qed.
Lemma get_run (P : R → bool) w t r : cur w = Some t →
  List.filter P (rows (get_table t)) = [r] → objects_get P w = (Ok r, w).
Proof.
  intros Hw Hr. unfold objects_get. rewrite (bind_ok _ _ _ _ _ (filter_run P w t Hw)), Hr.
  unfold ordered. by destruct newest_first.
Qed.
Lemma get_none (P : R → bool) w t : cur w = Some t →
  List.filter P (rows (get_table t)) = [] →
  objects_get P w = (Raise (DoesNotExist model_name), w).
Proof.
  intros Hw Hr. unfold objects_get. rewrite (bind_ok _ _ _ _ _ (filter_run P w t Hw)), Hr.
  unfold ordered. by destruct newest_first.
Qed.
Lemma get_many (P : R → bool) w t r r' l : cur w = Some t →
  List.filter P (rows (get_table t)) = r :: r' :: l →
  objects_get P w = (Raise (MultipleObjectsReturned model_name), w).
Proof.
  intros Hw Hr. unfold objects_get. rewrite (bind_ok _ _ _ _ _ (filter_run P w t Hw)), Hr.
  unfold ordered. destruct newest_first; [|done].
  simpl. destruct (rev l ++ [r']) as [|x [|y k]] eqn:E; simpl.
  - by destruct (rev l).
  - done.
  - done.
Qed.
(** A read that succeeds gives a row of the table, and writes nothing. *)
Lemma get_inv (P : R → bool) w r w' : objects_get P w = (Ok r, w') →
  w' = w ∧ ∃ t, cur w = Some t ∧ r ∈ rows (get_table t) ∧ P r = true.
Proof.
  unfold objects_get. intros E. destruct (cur w) as [t|] eqn:Hw.
  2:{ unfold objects_filter, mbind, ST_bind, current_tenant in E. unfold cur in Hw.
      by rewrite Hw in E. }
  rewrite (bind_ok _ _ _ _ _ (filter_run P w t Hw)) in E.
  destruct (ordered _) as [|r0 [|]] eqn:Ho; try done. injection E as -> ->.
  split; [done|]. exists t. split; [done|].
  assert (r ∈ List.filter P (rows (get_table t))) as Hin.
  { assert (r ∈ ordered (List.filter P (rows (get_table t)))) as Hin by (rewrite Ho; left).
    unfold ordered in Hin. destruct newest_first; [|done].
    by rewrite list_elem_of_In, <- in_rev, <- list_elem_of_In in Hin. }
  apply list_elem_of_In, filter_In in Hin as [Hin HP]. by apply list_elem_of_In in Hin.
Qed.

Lemma insert_run (r : R) w t : cur w = Some t →
  let tb := get_table t in
  let r' := with_created (w_clock w) (with_modified (w_clock w) (with_id (next_id tb) r)) in
  insert_row r w
  = (Ok r', with_tenant (put_table (Table (rows tb ++ [r']) (next_id tb + 1)) t) (tick w)).
Proof.
  intros Hw. unfold insert_row, current_tenant, put_tenant, modify, mbind, ST_bind.
  rewrite now_run. unfold cur in Hw. simpl. by rewrite Hw.
Qed.
Lemma save_run (r : R) w t : cur w = Some t →
  let tb := get_table t in
  let r' := with_modified (w_clock w) r in
  save_row r w
  = (Ok r', with_tenant (put_table (Table (write_row r' (rows tb)) (next_id tb)) t) (tick w)).
Proof.
  intros Hw. unfold save_row, current_tenant, put_tenant, modify, mbind, ST_bind.
  rewrite now_run. unfold cur in Hw. simpl. by rewrite Hw.
Qed.

Lemma update_run (P : R → bool) f w t : cur w = Some t →
  let tb := get_table t in
  update_rows P f w = (Ok tt, with_tenant
    (put_table (Table (map (λ r, if P r then f r else r) (rows tb)) (next_id tb)) t) w).
Proof.
  intros Hw. unfold update_rows, current_tenant, put_tenant, modify, mbind, ST_bind.
  unfold cur in Hw. by rewrite Hw.
Qed.

(** [r] is the only row with its key. *)
Definition the_row (r : R) (l : list R) : Prop :=
  List.filter (λ r', row_id r' =? row_id r) l = [r].

Lemma the_row_get r w t : cur w = Some t → the_row r (rows (get_table t)) →
  get_by_id (row_id r) w = (Ok r, w).
Proof. intros. by eapply get_run. Qed.
Lemma the_row_in r l : the_row r l → r ∈ l.
Proof.
  intros Hr. apply list_elem_of_In. apply (filter_In (λ r', row_id r' =? row_id r)).
  rewrite Hr. by left.
Qed.
Lemma the_row_unique r r' l : the_row r l → r' ∈ l → row_id r' = row_id r → r' = r.
Proof.
  intros Hr Hin Hid.
  assert (In r' [r]) as [->|[]]; [|done]. rewrite <- Hr. apply filter_In. split.
  - by apply list_elem_of_In.
  - by apply Z.eqb_eq.
Qed.
Lemma write_row_present r l : existsb (λ r', row_id r' =? row_id r) l = true →
  write_row r l = map (λ r', if row_id r' =? row_id r then r else r') l.
Proof. intros E. unfold write_row. by rewrite E. Qed.
Lemma the_row_exists r l : the_row r l → existsb (λ r', row_id r' =? row_id r) l = true.
Proof.
  intros Hr. apply existsb_exists. exists r. split.
  - apply list_elem_of_In, (the_row_in _ _ Hr).
  - apply Z.eqb_refl.
Qed.
Lemma filter_write_same (r : R) l :
  List.filter (λ r', row_id r' =? row_id r) (map (λ r', if row_id r' =? row_id r then r else r') l)
  = map (λ _, r) (List.filter (λ r', row_id r' =? row_id r) l).
Proof.
  induction l as [|x l IH]; [done|]. simpl. destruct (row_id x =? row_id r) eqn:E.
  - rewrite Z.eqb_refl. simpl. by rewrite IH.
  - by rewrite E.
Qed.
Lemma filter_write_other (r : R) i l : i ≠ row_id r →
  List.filter (λ r', row_id r' =? i) (map (λ r', if row_id r' =? row_id r then r else r') l)
  = List.filter (λ r', row_id r' =? i) l.
Proof.
  intros Hi. induction l as [|x l IH]; [done|]. simpl. destruct (row_id x =? row_id r) eqn:E.
  - apply Z.eqb_eq in E. rewrite E.
    rewrite (proj2 (Z.eqb_neq (row_id r) i)) by done. done.
  - destruct (row_id x =? i); by rewrite IH.
Qed.
(** Saving a row replaces it ... *)
Lemma the_row_save (r r' : R) l : row_id r' = row_id r → the_row r l →
  the_row r' (write_row r' l).
Proof.
  intros Hid Hr. unfold the_row in *. rewrite <- Hid in Hr.
  rewrite write_row_present.
  - by rewrite filter_write_same, Hr.
  - apply existsb_exists. exists r. split; [|by rewrite Hid, Z.eqb_refl].
    apply (filter_In (λ x, row_id x =? row_id r')). rewrite Hr. by left.
Qed.
(** ... and leaves the rows with other keys. *)
Lemma the_row_save_other (r r' : R) l : row_id r' ≠ row_id r →
  existsb (λ x, row_id x =? row_id r') l = true → the_row r l → the_row r (write_row r' l).
Proof.
  intros Hid He Hr. unfold the_row in *. rewrite write_row_present by done.
  by rewrite filter_write_other by done.
Qed.
Lemma the_row_insert (r r' : R) l : the_row r l → row_id r' ≠ row_id r → the_row r (l ++ [r']).
Proof.
  intros Hr Hid. unfold the_row in *. rewrite List.filter_app, Hr. simpl.
  by rewrite (proj2 (Z.eqb_neq _ _)) by done.
Qed.
End OrmRuns.

(** The instances used most *)
Lemma get_space_run sp w t : cur w = Some t → the_row sp (rows (t_spaces t)) →
  get_by_id (sp_id sp) w = (Ok sp, w).
Proof. exact (the_row_get (R:=space_row) sp w t). Qed.
Lemma get_user_run u w t : cur w = Some t → the_row u (rows (t_users t)) →
  get_by_id (us_id u) w = (Ok u, w).
Proof. exact (the_row_get (R:=user_row) u w t). Qed.
Lemma get_template_run wt w t : cur w = Some t → the_row wt (rows (t_templates t)) →
  get_by_id (wt_id wt) w = (Ok wt, w).
Proof. exact (the_row_get (R:=template_row) wt w t). Qed.
Lemma get_workflow_run wf w t : cur w = Some t → the_row wf (rows (t_workflows t)) →
  get_by_id (wf_id wf) w = (Ok wf, w).
Proof. exact (the_row_get (R:=workflow_row) wf w t). Qed.
Lemma get_task_run tk w t : cur w = Some t → the_row tk (rows (t_tasks t)) →
  get_by_id (tk_id tk) w = (Ok tk, w).
Proof. exact (the_row_get (R:=task_row) tk w t). Qed.
