(* ===== verification/Demo.v ===== *)
(** * A concrete tenant

    A platform and a tenant on which the theorems' hypotheses can be met and the
    definitions evaluated. *)
From Stdlib Require Import Ascii String.
From stdpp Require Import base list strings numbers gmap sets.
From S2P Require Import Prelude PyStr PyVal World.
Local Open Scope string_scope.
Local Open Scope Z_scope.
Local Open Scope list_scope.

#[export] Instance demo_platform : Platform := {|
  uuid4 := λ n, "uuid-" +:+ str_of_nat n;
  http := λ _ _, Ok (Response 200 "{}" (Ok (PDict [])));
  jwt_encode := λ _, "jwt";
  user_token := λ _, "token";
  domain_name := "finmars.example";
  storage_root := "/var/app/workflow";
  exn_text := λ e, match e with PyException m => m | _ => "error" end |}.

(** ** A tenant *)

Definition no_rows {R} : table R := Table [] 1.
Definition demo_space : space_row := SpaceRow 1 None (Some "realm00000") "space00000" 0 0.
Definition demo_user : user_row := UserRow 1 "admin" "x" true true false None.
Definition demo_bot : user_row := UserRow 2 "finmars_bot" "x" true true true None.

Definition demo_template (data : pyval) : template_row :=
  TemplateRow 1 None (Some "com.demo:wf") None data 1 1 0 0.
Definition demo_tenant (data : pyval) (wfs : list workflow_row) (tasks : list task_row) : tenant :=
  Tenant (Table [demo_space] 2) (Table [demo_user; demo_bot] 3)
    (Table [demo_template data] 2) (Table wfs 100) (Table tasks 100) no_rows no_rows no_rows.
Definition demo_world (t : tenant) : world :=
  World {["space00000" := t]} ["public"; "space00000"; "pg_catalog"] "public" 1000 0 [] [] []
    [] [] None.
