(* ===== verification/Graph.v ===== *)
(** * Workflow graphs (version 2 workflows)

    The template of a version 2 workflow is a JSON document
    [{"workflow": {"nodes": [...], "connections": [...]}}].  This file models
    how the code reads it (the comprehensions shared by
    workflow/tasks/workflows.py, workflow/models.py and workflow/views.py, and
    the graph functions of workflow/utils.py), with the KeyErrors a malformed
    document raises, and relates them to an abstract graph. *)
From Stdlib Require Import Ascii String.
From stdpp Require Import base list strings numbers sets.
From S2P Require Import Prelude PyStr PyVal.
Local Open Scope string_scope.
Local Open Scope list_scope.

(** [d[k]], [d.get(k)] with a key that is a Python value *)
Definition lookup_key {V} (d : list (string * V)) (k : pyval) : res (option V) :=
  match k with
  | PStr s => Ok (dict_get d s)
  | PList _ | PDict _ => Raise TypeError
  | _ => Ok None
  end.

(** [v["k1"]["k2"]...] *)
Fixpoint getpath (v : pyval) (path : list string) : res pyval :=
  match path with
  | [] => Ok v
  | k :: path' => x ← getitem v k; getpath x path'
  end.

(** [{node["id"]: node for node in workflow_data["workflow"]["nodes"]}] *)
Definition parse_nodes (workflow_data : pyval) : res (list (string * pyval)) :=
  ns ← getpath workflow_data ["workflow"; "nodes"];
  l ← py_iter ns;
  items ← map_res l (λ node,
    i ← getitem node "id"; k ← as_str i; Ok (k, node));
  Ok (dict_of items).

(** [workflow_data["workflow"]["connections"]] *)
Definition get_connections (workflow_data : pyval) : res pyval :=
  getpath workflow_data ["workflow"; "connections"].

(** [adjacency_list = {node_id: [] for node_id in nodes}], then for every
    connection [adjacency_list[connection["source"]].append(connection["target"])] *)
Definition add_connection (adj : list (string * list pyval)) (connection : pyval)
    : res (list (string * list pyval)) :=
  src ← getitem connection "source";
  k ← as_str src;
  match dict_get adj k with
  | None => Raise (KeyError k)
  | Some ts => tgt ← getitem connection "target"; Ok (dict_set adj k (ts ++ [tgt]))
  end.
Definition adjacency (nodes : list (string * pyval)) (connections : pyval)
    : res (list (string * list pyval)) :=
  l ← py_iter connections;
  fold_res add_connection l ((λ n, (n, [])) <$> dict_keys nodes).

(** [any(node_id == conn["target"] for conn in connections)] *)
Fixpoint any_target (node_id : string) (connections : list pyval) : res bool :=
  match connections with
  | [] => Ok false
  | conn :: l =>
      t ← getitem conn "target";
      if py_eqb (PStr node_id) t then Ok true else any_target node_id l
  end.
(** [[node_id for node_id in nodes if not any(...)]] *)
Fixpoint keep_roots (ids : list string) (connections : list pyval) : res (list string) :=
  match ids with
  | [] => Ok []
  | n :: ids' =>
      b ← any_target n connections;
      r ← keep_roots ids' connections;
      Ok (if (b : bool) then r else n :: r)
  end.
Definition start_nodes (nodes : list (string * pyval)) (connections : pyval) : res (list string) :=
  match nodes with
  | [] => Ok []
  | _ => l ← py_iter connections; keep_roots (dict_keys nodes) l
  end.

(** [[conn["source"] for conn in connections if conn["target"] == node_id]]
    (first comprehension of [are_inputs_ready]) *)
Fixpoint collect_sources (node_id : string) (connections : list pyval) : res (list pyval) :=
  match connections with
  | [] => Ok []
  | conn :: l =>
      t ← getitem conn "target";
      if py_eqb t (PStr node_id) then
        s ← getitem conn "source"; r ← collect_sources node_id l; Ok (s :: r)
      else collect_sources node_id l
  end.
Definition input_nodes (node_id : string) (connections : pyval) : res (list pyval) :=
  l ← py_iter connections; collect_sources node_id l.

(** [get_next_node_by_condition] *)
Fixpoint follow_output (current_node_id output : string) (connections : list pyval) : res pyval :=
  match connections with
  | [] => Ok PNone
  | connection :: l =>
      s ← getitem connection "source";
      if py_eqb s (PStr current_node_id) then
        o ← getitem connection "sourceOutput";
        if py_eqb o (PStr output) then getitem connection "target"
        else follow_output current_node_id output l
      else follow_output current_node_id output l
  end.
Definition get_next_node_by_condition
    (current_node_id : string) (condition_result connections : pyval) : res pyval :=
  b ← py_in "result" condition_result;
  if (b : bool) then
    r ← getitem condition_result "result";
    l ← py_iter connections;
    follow_output current_node_id (if truthy r then "out_true" else "out_false") l
  else Raise (PyException "Wrong condition_result").

(** The search of [process_next_node] for the node wired to an input: the
    source of the first connection whose target and targetInput match *)
Fixpoint find_source (node_id input : string) (connections : list pyval) : res pyval :=
  match connections with
  | [] => Ok PNone
  | connection :: l =>
      t ← getitem connection "target";
      if py_eqb t (PStr node_id) then
        i ← getitem connection "targetInput";
        if py_eqb i (PStr input) then getitem connection "source"
        else find_source node_id input l
      else find_source node_id input l
  end.

(** ** Abstract graphs *)

Record edge : Type := Edge {
  e_source : string; e_source_output : string;
  e_target : string; e_target_input : string
}.

(** [conn_ok c e]: the connection [c] of the document describes the edge [e]. *)
Definition conn_ok (c : pyval) (e : edge) : Prop :=
  getitem c "source" = Ok (PStr (e_source e)) ∧
  getitem c "sourceOutput" = Ok (PStr (e_source_output e)) ∧
  getitem c "target" = Ok (PStr (e_target e)) ∧
  getitem c "targetInput" = Ok (PStr (e_target_input e)).

Definition successors (es : list edge) (n : string) : list string :=
  e_target <$> filter (λ e, e_source e = n) es.
Definition predecessors (es : list edge) (n : string) : list string :=
  e_source <$> filter (λ e, e_target e = n) es.
Definition roots (ids : list string) (es : list edge) : list string :=
  filter (λ n, predecessors es n = []) ids.

Lemma dict_get_fmap {V} (f : string → V) (l : list string) k : k ∈ l →
  dict_get ((λ n, (n, f n)) <$> l) k = Some (f k).
Proof.
  induction l as [|x l IH]; intros Hk; [set_solver|]. rewrite fmap_cons. cbn [dict_get].
  destruct (decide (k = x)) as [->|]; [done|]. apply IH. set_solver.
Qed.

Lemma dict_set_fmap {V} (f : string → V) (l : list string) k v : NoDup l → k ∈ l →
  dict_set ((λ n, (n, f n)) <$> l) k v = (λ n, (n, if decide (n = k) then v else f n)) <$> l.
Proof.
  induction 1 as [|x l Hx Hl IH]; intros Hk; [set_solver|].
  rewrite !fmap_cons. cbn [dict_set]. destruct (decide (k = x)) as [->|Hne].
  - rewrite decide_True by done. f_equal. apply list_fmap_ext. intros i y Hy.
    rewrite decide_False; [done|]. intros ->. apply Hx. by eapply list_elem_of_lookup_2.
  - rewrite (decide_False (P := x = k)) by congruence. f_equal. apply IH. set_solver.
Qed.

Section Refinement.
Context (cs : list pyval) (es : list edge) (Hcs : Forall2 conn_ok cs es).

Lemma any_target_spec n : any_target n cs = Ok (bool_decide (predecessors es n ≠ [])).
Proof.
  unfold predecessors. induction Hcs as [|c e cs' es' (Hs & Ho & Ht & Hi) H IH]; [done|].
  cbn [any_target]. rewrite Ht. cbn [mbind res_bind]. rewrite py_eqb_str, filter_cons.
  destruct (decide (e_target e = n)) as [<-|Hne].
  - by rewrite bool_decide_eq_true_2, bool_decide_eq_true_2.
  - rewrite bool_decide_eq_false_2 by done. by apply IH.
Qed.

Lemma keep_roots_spec ids : keep_roots ids cs = Ok (roots ids es).
Proof.
  unfold roots. induction ids as [|n ids IH]; [done|].
  cbn [keep_roots]. rewrite any_target_spec, IH. cbn [mbind res_bind]. rewrite filter_cons.
  case_bool_decide; case_decide; try done; tauto.
Qed.

Lemma collect_sources_spec n :
  collect_sources n cs = Ok (PStr <$> predecessors es n).
Proof.
  unfold predecessors. induction Hcs as [|c e cs' es' (Hs & Ho & Ht & Hi) H IH]; [done|].
  cbn [collect_sources]. rewrite Ht. cbn [mbind res_bind]. rewrite py_eqb_str, filter_cons.
  destruct (decide (e_target e = n)) as [<-|Hne].
  - rewrite bool_decide_eq_true_2 by done. rewrite Hs. cbn [mbind res_bind]. by rewrite IH.
  - rewrite bool_decide_eq_false_2 by done. by apply IH.
Qed.

Lemma follow_output_spec n o :
  follow_output n o cs =
  Ok (match head (filter (λ e, e_source e = n ∧ e_source_output e = o) es) with
      | Some e => PStr (e_target e) | None => PNone end).
Proof.
  induction Hcs as [|c e cs' es' (Hs & Ho & Ht & Hi) H IH]; [done|].
  cbn [follow_output]. rewrite Hs. cbn [mbind res_bind]. rewrite py_eqb_str, filter_cons.
  case_bool_decide as E; [|rewrite decide_False by tauto; by apply IH].
  rewrite Ho. cbn [mbind res_bind]. rewrite py_eqb_str.
  case_bool_decide as E2; [rewrite decide_True by done; done|].
  rewrite decide_False by tauto. by apply IH.
Qed.

Lemma find_source_spec n i :
  find_source n i cs =
  Ok (match head (filter (λ e, e_target e = n ∧ e_target_input e = i) es) with
      | Some e => PStr (e_source e) | None => PNone end).
Proof.
  induction Hcs as [|c e cs' es' (Hs & Ho & Ht & Hi) H IH]; [done|].
  cbn [find_source]. rewrite Ht. cbn [mbind res_bind]. rewrite py_eqb_str, filter_cons.
  case_bool_decide as E; [|rewrite decide_False by tauto; by apply IH].
  rewrite Hi. cbn [mbind res_bind]. rewrite py_eqb_str.
  case_bool_decide as E2; [rewrite decide_True by done; done|].
  rewrite decide_False by tauto. by apply IH.
Qed.

(** The successors accumulated so far, in front of the connections still to read *)
Lemma fold_add_connection ids (f : string → list pyval) :
  NoDup ids → Forall (λ e, e_source e ∈ ids) es →
  fold_res add_connection cs ((λ n, (n, f n)) <$> ids)
  = Ok ((λ n, (n, f n ++ (PStr <$> successors es n))) <$> ids).
Proof.
  intros Hnd. revert f. unfold successors.
  induction Hcs as [|c e cs' es' (Hs & Ho & Ht & Hi) H IH]; intros f Hin.
  - simpl. f_equal. apply list_fmap_ext. intros. by rewrite app_nil_r.
  - apply Forall_cons in Hin as [He Hin]. cbn [fold_res]. unfold add_connection.
    rewrite Hs. cbn [mbind res_bind as_str].
    rewrite (dict_get_fmap f) by done.
    rewrite Ht. cbn [mbind res_bind].
    rewrite (dict_set_fmap f) by done.
    rewrite (IH H (λ n, if decide (n = e_source e) then f (e_source e) ++ [PStr (e_target e)] else f n)) by done.
    f_equal. apply list_fmap_ext. intros i n Hn. f_equal. rewrite filter_cons.
    destruct (decide (n = e_source e)) as [->|].
    + rewrite decide_True by done. simpl. by rewrite <- app_assoc.
    + by rewrite decide_False by congruence.
Qed.
End Refinement.

(** ** Documents that describe a graph *)

(** [describes data ids es]: [data] is a template document whose nodes are
    [ids] (without repetition) and whose connections are [es], every one of
    them leaving a node of the document. *)
Record describes (data : pyval) (ids : list string) (es : list edge) : Prop := {
  d_nodes : ∃ ns, getpath data ["workflow"; "nodes"] = Ok (PList ns) ∧
              Forall2 (λ n i, getitem n "id" = Ok (PStr i)) ns ids;
  d_conns : ∃ cs, getpath data ["workflow"; "connections"] = Ok (PList cs) ∧
              Forall2 conn_ok cs es;
  d_nodup : NoDup ids;
  d_sources : Forall (λ e, e_source e ∈ ids) es
}.

Lemma parse_nodes_spec data ns ids :
  getpath data ["workflow"; "nodes"] = Ok (PList ns) →
  Forall2 (λ n i, getitem n "id" = Ok (PStr i)) ns ids → NoDup ids →
  parse_nodes data = Ok (zip ids ns).
Proof.
  intros Hn H2 Hnd. unfold parse_nodes. rewrite Hn. cbn [mbind res_bind py_iter].
  assert (map_res ns (λ node, i ← getitem node "id"; k ← as_str i; Ok (k, node))
          = Ok (zip ids ns)) as ->.
  { clear Hn Hnd. induction H2 as [|n i ns ids Hi H IH]; [done|].
    cbn [map_res]. rewrite Hi. cbn [mbind res_bind as_str]. by rewrite IH. }
  cbn [mbind res_bind]. rewrite dict_of_id; [done|].
  unfold dict_keys. rewrite fst_zip; [done|].
  apply Forall2_length in H2. lia.
Qed.

Lemma zip_keys {V} (ids : list string) (ns : list V) :
  length ids = length ns → dict_keys (zip ids ns) = ids.
Proof. intros. unfold dict_keys. rewrite fst_zip; [done|lia]. Qed.

(** C11: reading a template document gives exactly the abstract graph. *)
Theorem reads_document data ids es : describes data ids es →
  ∃ nodes conns,
    parse_nodes data = Ok nodes ∧ dict_keys nodes = ids ∧
    get_connections data = Ok conns ∧
    adjacency nodes conns = Ok ((λ n, (n, PStr <$> successors es n)) <$> ids) ∧
    start_nodes nodes conns = Ok (roots ids es).
Proof.
  intros [(ns & Hn & H2) (cs & Hc & Hcs) Hnd Hsrc].
  exists (zip ids ns), (PList cs).
  pose proof (Forall2_length _ _ _ H2) as Hlen.
  assert (dict_keys (zip ids ns) = ids) as Hk by (by apply zip_keys).
  split_and!; [by apply parse_nodes_spec|done|done|..].
  - unfold adjacency. cbn [py_iter mbind res_bind]. rewrite Hk.
    by rewrite (fold_add_connection cs es Hcs ids (λ _, [])).
  - unfold start_nodes. rewrite Hk. cbn [py_iter mbind res_bind].
    rewrite (keep_roots_spec cs es Hcs). destruct ids as [|i ids]; [done|].
    by destruct ns.
Qed.

(** ** Conditions *)

(** The branch a condition takes: the first connection out of the node through
    the given output *)
Definition branch (es : list edge) (n output : string) : option string :=
  e_target <$> head (filter (λ e, e_source e = n ∧ e_source_output e = output) es).

(** C13: the branch of a condition node: its result must have the key "result",
    whose truth selects the output "out_true" or "out_false", and the node
    behind the first such connection comes next; without a connection there is
    no next node, and without the key it is an error. *)
Theorem condition_branches cs es n d : Forall2 conn_ok cs es →
  get_next_node_by_condition n (PDict d) (PList cs)
  = match dict_get d "result" with
    | Some v => Ok (opt_str (branch es n (if truthy v then "out_true" else "out_false")))
    | None => Raise (PyException "Wrong condition_result")
    end.
Proof.
  intros Hcs. unfold get_next_node_by_condition. simpl. unfold dict_has.
  destruct (dict_get d "result") as [v|]; simpl; [|done].
  rewrite (follow_output_spec cs es Hcs). unfold branch. by destruct (head _).
Qed.

(** ** A concrete document *)

(** The connection of a template document *)
Definition conn (e : edge) : pyval :=
  PDict [("source", PStr (e_source e)); ("sourceOutput", PStr (e_source_output e));
         ("target", PStr (e_target e)); ("targetInput", PStr (e_target_input e))].
(** A workflow node *)
Definition wf_node (i user_code : string) (inputs : list string) : pyval :=
  PDict [("id", PStr i); ("name", PStr i);
         ("inputs", PDict ((λ s, (s, PDict [])) <$> inputs));
         ("data", PDict [("node", PDict [("type", PStr "workflow")]);
                         ("workflow", PDict [("user_code", PStr user_code)])])].
Definition template_data (ns : list pyval) (es : list edge) : pyval :=
  PDict [("workflow", PDict [("nodes", PList ns); ("connections", PList (conn <$> es))])].

(** [a -> b], [a -> c], [b -> d], [c -> d] and a tail [d -> e] *)
Definition diamond_edges : list edge :=
  [Edge "a" "out" "b" "in"; Edge "a" "out" "c" "in"; Edge "b" "out" "d" "in";
   Edge "c" "out" "d" "in"; Edge "d" "out" "e" "in"].
Definition diamond_ids : list string := ["a"; "b"; "c"; "d"; "e"].
Definition diamond_data : pyval :=
  template_data ((λ i, wf_node i i ["in"]) <$> diamond_ids) diamond_edges.

Lemma diamond_describes : describes diamond_data diamond_ids diamond_edges.
Proof.
  split.
  - eexists. split; [reflexivity|]. repeat constructor.
  - eexists. split; [reflexivity|]. repeat constructor.
  - apply (bool_decide_unpack _). by vm_compute.
  - apply (bool_decide_unpack _). by vm_compute.
Qed.

Lemma reads_document_witness : ∃ nodes conns,
  parse_nodes diamond_data = Ok nodes ∧ dict_keys nodes = diamond_ids ∧
  get_connections diamond_data = Ok conns ∧
  adjacency nodes conns
    = Ok ((λ n, (n, PStr <$> successors diamond_edges n)) <$> diamond_ids) ∧
  start_nodes nodes conns = Ok (roots diamond_ids diamond_edges).
Proof. apply reads_document. apply diamond_describes. Defined.

Lemma condition_branches_witness :
  get_next_node_by_condition "a" (PDict [("result", PBool false)])
    (PList (conn <$> [Edge "a" "out_true" "b" "in"; Edge "a" "out_false" "c" "in"]))
  = Ok (PStr "c").
Proof.
  refine (condition_branches _ [Edge "a" "out_true" "b" "in"; Edge "a" "out_false" "c" "in"]
    "a" [("result", PBool false)] _).
  repeat constructor.
Defined.
