(* ===== verification/Finmars.v ===== *)
(** * The Finmars API client (workflow/finmars.py)

    Tokens, URLs, the calls to the Finmars backend, and the polling loops.
    Every call is recorded in [w_requests]; the peer's answers come from
    [Platform].  Times are in microseconds. *)
From Stdlib Require Import Ascii String.
From stdpp Require Import base list strings numbers gmap sets.
From S2P Require Import Prelude PyStr PyVal Json World Demo.
Local Open Scope string_scope.
Local Open Scope Z_scope.
Local Open Scope list_scope.

(** [time.sleep(seconds)] *)
Definition sleep_us (microseconds : Z) : M unit :=
  modify (λ w, set_w_clock (w_clock w + microseconds) w).
Definition sleep (seconds : Z) : M unit := sleep_us (seconds * 1000000).

(** Attribute access on what [.first()] gives: [None] has no attributes. *)
Definition require {A} (o : option A) : M A :=
  match o with Some a => mret a | None => raise AttributeError end.

(** [get_space]: [Space.objects.all().first()] *)
Definition get_space : M (option space_row) :=
  l ← objects_filter (λ _ : space_row, true);
  mret (qs_first l).
Lemma get_space_first w t : cur w = Some t → get_space w = (Ok (qs_first (rows (t_spaces t))), w).
Proof.
  intros Hw. unfold get_space. rewrite (bind_ok _ _ _ _ _ (filter_run (λ _ : space_row, true) w t Hw)).
  unfold ordered. cbn [newest_first space_model get_table].
  replace (List.filter (λ _, true) (rows (t_spaces t))) with (rows (t_spaces t)); [done|].
  clear. by induction (rows (t_spaces t)) as [|x l IH]; simpl; [|rewrite <- IH].
Qed.
Definition get_realm_code : M (option string) :=
  o ← get_space; sp ← require o; mret (sp_realm_code sp).
Definition get_space_code : M string :=
  o ← get_space; sp ← require o; mret (sp_space_code sp).

(** A nullable code is falsy when it is [None] or empty. *)
Definition truthy_str (o : option string) : option string :=
  match o with
  | Some s => if (s =? "")%string then None else Some s
  | None => None
  end.

(** What [response.raise_for_status()] does *)
Definition raise_for_status (r : response) : res unit :=
  if (400 <=? rs_status r) && (rs_status r <? 600) then Raise RequestError else Ok tt.

Section Client.
Context `{Platform}.

(** [get_refresh_token]; [get_access_token] has the same body.  The claim
    [space_code] is filled with the realm code, as in the source. *)
Definition token_claims (bot : user_row) (sp : space_row) (exp iat : Z) : pyval :=
  PDict [("username", PStr (us_username bot));
         ("realm_code", opt_str (sp_realm_code sp));
         ("space_code", opt_str (sp_realm_code sp));
         ("exp", PInt exp); ("iat", PInt iat)].
Definition get_refresh_token (ttl_minutes : Z) : M string :=
  bot ← objects_get (λ u, String.eqb (us_username u) "finmars_bot");
  n ← now;
  o ← get_space;
  sp ← require o;
  iat ← now;
  mret (jwt_encode (token_claims bot sp (n + ttl_minutes * 60 * 1000000) iat)).
Definition get_access_token (ttl_minutes : Z) : M string :=
  get_refresh_token ttl_minutes.

(** [get_base_path]: adding a [None] realm code to a string is a TypeError. *)
Definition get_base_path : M string :=
  r ← get_realm_code;
  match r with
  | None => raise TypeError
  | Some realm =>
      sc ← get_space_code;
      mret ("https://" +:+ domain_name +:+ "/" +:+ realm +:+ "/" +:+ sc)
  end.

(** The two URL shapes of the client: with and without a realm *)
Definition space_url (sp : space_row) (path : string) : string :=
  match truthy_str (sp_realm_code sp) with
  | Some realm =>
      "https://" +:+ domain_name +:+ "/" +:+ realm +:+ "/" +:+ sp_space_code sp +:+ path
  | None => "https://" +:+ domain_name +:+ "/" +:+ sp_space_code sp +:+ path
  end.

(** The shared body of the calls: token, space, request, status check *)
Definition call_api (method path : string) (data : option pyval) : M response :=
  token ← get_refresh_token 480;
  o ← get_space;
  sp ← require o;
  send_request (Request method (space_url sp path) (dumps false None <$> data) token).
Definition expect_200 (r : response) : M pyval :=
  if rs_status r =? 200 then lift (rs_json r)
  else raise (PyException (rs_text r)).
Definition post_json (path : string) (data : pyval) : M pyval :=
  r ← call_api "post" path (Some data); expect_200 r.

Definition execute_expression (expression : string) : M pyval :=
  post_json "/api/v1/utils/expression/"
    (PDict [("expression", PStr expression); ("is_eval", PBool true)]).
(** [refresh = get_access_token] is the function, not a token: reading its
    [access_token] raises before anything is sent. *)
Definition execute_expression_procedure (payload : pyval) : M pyval :=
  raise AttributeError.
Definition execute_data_procedure (payload : pyval) : M pyval :=
  post_json "/api/v1/procedures/data-procedure/execute/" payload.
Definition execute_pricing_procedure (payload : pyval) : M pyval :=
  post_json "/api/v1/procedures/pricing-procedure/execute/" payload.
Definition execute_transaction_import (payload : pyval) : M pyval :=
  post_json "/api/v1/import/transaction-import/execute/" payload.
Definition execute_simple_import (payload : pyval) : M pyval :=
  post_json "/api/v1/import/simple-import/execute/" payload.
Definition execute_task (task_name : string) (payload : option pyval) : M pyval :=
  let payload := match payload with Some p => p | None => PDict [] end in
  post_json "/api/v1/tasks/task/execute/"
    (PDict [("task_name", PStr task_name); ("payload", payload)]).
Definition get_data_procedure_instance (id : Z) : M pyval :=
  r ← call_api "get"
        ("/api/v1/procedures/data-procedure-instance/" +:+ str_of_Z id +:+ "/") None;
  expect_200 r.
Definition get_task (id : Z) : M pyval :=
  r ← call_api "get" ("/api/v1/tasks/task/" +:+ str_of_Z id +:+ "/") None;
  expect_200 r.

(** [update_task_status]: a bad status is logged, a connection error raised. *)
Definition update_task_status (platform_task_id : Z) (status : string)
    (result error : pyval) : M pyval :=
  token ← get_refresh_token 480;
  base ← get_base_path;
  r ← send_request (Request "post"
        (base +:+ "/api/v1/tasks/task/" +:+ str_of_Z platform_task_id +:+ "/update-status/")
        (Some (dumps false None
           (PDict [("status", PStr status); ("result", result); ("error", error)])))
        token);
  try_except (_ ← lift (raise_for_status r); lift (rs_json r)) (λ _, mret PNone).

(** [request_api] *)
Definition request_api (path method : string) (data : pyval) : M pyval :=
  token ← get_refresh_token 480;
  o ← get_space;
  sp ← require o;
  let url := space_url sp path in
  let body := Some (dumps false None data) in
  let m := lower method in
  r ← (if existsb (String.eqb m) ["post"; "put"; "patch"] then send_request (Request m url body token)
       else if existsb (String.eqb m) ["get"; "delete"] then send_request (Request m url None token)
       else raise AttributeError (* response is still None *));
  if negb (existsb (Z.eqb (rs_status r)) [200; 201; 204]) then raise (PyException (rs_text r))
  else if negb (rs_status r =? 204) then lift (rs_json r)
  else mret (PDict [("status", PStr "no_content")]).

(** ** Polling *)

Definition is_running (status : pyval) : bool :=
  existsb (λ s, py_eqb status (PStr s)) ["progress"; "P"; "I"].

(** [_wait_task_to_complete_recursive]; [fuel] is the recursion depth left. *)
Fixpoint wait_task_rec (fuel : nat) (task_id retries retry_interval counter : Z) : M pyval :=
  match fuel with
  | O => raise RecursionError
  | S fuel =>
      if counter =? retries then raise (PyException "Task exceeded retries %s count")
      else
        o ← try_except
              (result ← get_task task_id;
               status ← lift (getitem result "status");
               mret (if is_running status then None else Some result))
              (λ _, mret None);
        match o with
        | Some result => mret result
        | None =>
            _ ← sleep retry_interval;
            wait_task_rec fuel task_id retries retry_interval (counter + 1)
        end
  end.
Definition wait_task_to_complete (fuel : nat) (task_id retries retry_interval : Z) : M pyval :=
  wait_task_rec fuel task_id retries retry_interval 0.

(** [_wait_procedure_to_complete_recursive]: errors of the call propagate. *)
Fixpoint wait_procedure_rec (fuel : nat) (procedure_instance_id retries retry_interval counter : Z)
    : M pyval :=
  match fuel with
  | O => raise RecursionError
  | S fuel =>
      if counter =? retries then raise (PyException "Task exceeded retries %s count")
      else
        result ← get_data_procedure_instance procedure_instance_id;
        status ← lift (getitem result "status");
        if is_running status then
          _ ← sleep retry_interval;
          wait_procedure_rec fuel procedure_instance_id retries retry_interval (counter + 1)
        else mret result
  end.
Definition wait_procedure_to_complete (fuel : nat)
    (procedure_instance_id retries retry_interval : Z) : M pyval :=
  wait_procedure_rec fuel procedure_instance_id retries retry_interval 0.

(** [poll_workflow_status]: [for attempt in range(max_retries)] *)
Fixpoint poll_workflow_status (workflow_id : Z) (max_retries : nat) (wait_time : Z) : M pyval :=
  match max_retries with
  | O => mret PNone
  | S n =>
      data ← request_api ("/workflow/api/workflow/" +:+ str_of_Z workflow_id +:+ "/") "get" PNone;
      o ← (if truthy data then
             status ← lift (get data "status");
             mret (if existsb (λ s, py_eqb status (PStr s)) ["success"; "error"]
                   then Some status else None)
           else mret None);
      match o with
      | Some status => mret status
      | None => _ ← sleep wait_time; poll_workflow_status workflow_id n wait_time
      end
  end.
End Client.

(** ** Tenant isolation: calling the backend writes no table. *)
Section Stays.
Context `{Platform} (s : string) (w0 : world).
Abbreviation I := (Stays s w0).

Lemma stays_sleep_us n : Keeps I (sleep_us n) anything.
Proof. by apply stays_modify. Qed.
Lemma stays_sleep n : Keeps I (sleep n) anything.
Proof. by apply stays_modify. Qed.
Lemma stays_require {A} (o : option A) (φ : A → Prop) :
  (∀ a, o = Some a → φ a) → Keeps I (require o) φ.
Proof. destruct o; intros Ho; [apply keeps_ret; by apply Ho|apply keeps_raise]. Qed.
Lemma stays_first_space :
  Keeps I get_space (λ o, ∀ sp, o = Some sp → lower (sp_space_code sp) = s).
Proof.
  eapply keeps_bind; [apply stays_space_filter|]. intros l Hl. apply keeps_ret.
  destruct l; [done|]. intros sp [= ->]. by apply Forall_inv in Hl.
Qed.
Lemma stays_require_any {A} (o : option A) : Keeps I (require o) anything.
Proof. by apply stays_require. Qed.
End Stays.
#[export] Hint Resolve stays_sleep_us stays_sleep stays_first_space stays_require_any : keeps.

Section ClientStays.
Context `{Platform} (s : string) (w0 : world).
Abbreviation I := (Stays s w0).

Lemma stays_refresh_token n : Keeps I (get_refresh_token n) anything.
Proof. unfold get_refresh_token. solve_keeps. Qed.
Lemma stays_base_path : Keeps I get_base_path anything.
Proof. unfold get_base_path, get_realm_code, get_space_code. solve_keeps. Qed.
#[local] Hint Resolve stays_refresh_token stays_base_path : keeps.
Lemma stays_update_task_status i st r e : Keeps I (update_task_status i st r e) anything.
Proof. unfold update_task_status. solve_keeps. Qed.
Lemma stays_request_api p m d : Keeps I (request_api p m d) anything.
Proof. unfold request_api. solve_keeps. Qed.
End ClientStays.
#[export] Hint Resolve stays_refresh_token stays_base_path stays_update_task_status
  stays_request_api : keeps.

(** ** Polling ends *)

Section Polling.
Context `{Platform}.

(** At most [n] requests have been sent. *)
Definition Sent (n : nat) (w : world) : Prop := (length (w_requests w) ≤ n)%nat.
Lemma sent_mono n w : Sent n w → Sent (S n) w.
Proof. unfold Sent. lia. Qed.
Lemma sent_now n : Keeps (Sent n) now anything.
Proof. intros w Hw. by split. Qed.
Lemma sent_filter {R} `{Model R} n (P : R → bool) : Keeps (Sent n) (objects_filter P) anything.
Proof.
  unfold objects_filter. eapply keeps_bind with (φ := anything); [|intros t _; by apply keeps_ret].
  intros w Hw. unfold current_tenant. destruct (_ !! _); by split.
Qed.
Lemma sent_get {R} `{Model R} n (P : R → bool) : Keeps (Sent n) (objects_get P) anything.
Proof. unfold objects_get. eapply keeps_bind; [apply sent_filter|]. intros. solve_keeps. Qed.
Lemma sent_token n ttl : Keeps (Sent n) (get_refresh_token ttl) anything.
Proof.
  unfold get_refresh_token. eapply keeps_bind; [apply sent_get|]. intros bot _.
  eapply keeps_bind; [apply sent_now|]. intros t _. unfold get_space, require.
  eapply keeps_bind with (φ := anything).
  { eapply keeps_bind; [apply sent_filter|]. intros. by apply keeps_ret. }
  intros o _. eapply keeps_bind with (φ := anything); [solve_keeps|]. intros sp _.
  eapply keeps_bind; [apply sent_now|]. intros. by apply keeps_ret.
Qed.
Lemma sent_call n m p d : Leads (Sent n) (call_api m p d) (Sent (S n)).
Proof.
  unfold call_api. eapply leads_bind; [apply sent_mono|apply sent_token|]. intros token _.
  unfold get_space, require.
  eapply leads_bind with (φ := anything); [apply sent_mono| |].
  { eapply keeps_bind; [apply sent_filter|]. intros. by apply keeps_ret. }
  intros o _. eapply leads_bind with (φ := anything); [apply sent_mono|solve_keeps|].
  intros sp _ w Hw. unfold send_request, Sent in *. simpl. rewrite length_app. simpl. lia.
Qed.
Lemma sent_get_task n i : Leads (Sent n) (get_task i) (Sent (S n)).
Proof.
  intros w Hw. unfold get_task, mbind, ST_bind.
  pose proof (sent_call n "get" ("/api/v1/tasks/task/" +:+ str_of_Z i +:+ "/") None w Hw) as Hc.
  destruct (call_api _ _ _ w) as [[r|e] w1]; [|done]. unfold expect_200.
  destruct (_ =? _); [|done]. unfold lift. by destruct (rs_json r).
Qed.

(** The outcomes of a polling loop *)
Definition finished_task (v : pyval) : Prop := ∃ st, getitem v "status" = Ok st ∧ is_running st = false.
Definition gave_up : exn := PyException "Task exceeded retries %s count".

(** One attempt: the answer when the task is over, otherwise [None] *)
Lemma attempt_run i w n : Sent n w → ∃ o w',
  try_except
    (result ← get_task i;
     status ← lift (getitem result "status");
     mret (if is_running status then None else Some result)) (λ _, mret None) w = (Ok o, w') ∧
  Sent (S n) w' ∧ ∀ v, o = Some v → finished_task v.
Proof.
  intros Hw. pose proof (sent_get_task n i w Hw) as Hs. unfold try_except, mbind at 1, ST_bind at 1.
  destruct (get_task i w) as [[v|e] w1]; simpl in *; [|by exists None, w1].
  unfold lift, mbind, ST_bind. destruct (getitem v "status") as [st|e] eqn:E; simpl.
  - exists (if is_running st then None else Some v), w1. split; [done|]. split; [done|].
    destruct (is_running st) eqn:Er; [done|]. intros ? [= <-]. by exists st.
  - by exists None, w1.
Qed.
Lemma wait_task_run n : ∀ fuel i interval retries counter w k, (n < fuel)%nat →
  retries = counter + Z.of_nat n → Sent k w →
  ∃ r w', wait_task_rec fuel i retries interval counter w = (r, w') ∧ Sent (k + n) w' ∧
    match r with Ok v => finished_task v | Raise e => e = gave_up end.
Proof.
  induction n as [|n IH]; intros [|fuel] i interval retries counter w k Hf Hr Hw; [lia| |lia|].
  - simpl. rewrite (proj2 (Z.eqb_eq counter retries)) by lia. exists (Raise gave_up), w.
    split; [done|]. by rewrite Nat.add_0_r.
  - cbn [wait_task_rec]. rewrite (proj2 (Z.eqb_neq counter retries)) by lia.
    destruct (attempt_run i w k Hw) as (o & w1 & Ho & Hs & Hv). rewrite (bind_ok _ _ _ _ _ Ho).
    destruct o as [v|].
    + exists (Ok v), w1. split; [done|]. split; [unfold Sent in *; lia|by apply Hv].
    + rewrite (bind_ok _ _ w1 tt (set_w_clock (w_clock w1 + interval * 1000000) w1)) by done.
      destruct (IH fuel i interval retries (counter + 1)
        (set_w_clock (w_clock w1 + interval * 1000000) w1) (S k)) as (r & w2 & Hr2 & Hs2 & Hp);
        [lia..|done|].
      exists r, w2. split; [done|]. split; [unfold Sent in *; lia|done].
Qed.

(** C28: waiting for a platform task ends: with a number of retries that is not
    negative, and a recursion limit above it, the call sends at most as many
    requests as retries and either returns an answer whose status is neither
    "progress", "P" nor "I", or raises the error of exceeded retries; errors of
    single attempts are swallowed. *)
Theorem wait_task_terminates fuel i retries interval w : 0 ≤ retries →
  (Z.to_nat retries < fuel)%nat →
  ∃ r w', wait_task_to_complete fuel i retries interval w = (r, w') ∧
    (length (w_requests w') ≤ length (w_requests w) + Z.to_nat retries)%nat ∧
    match r with Ok v => finished_task v | Raise e => e = gave_up end.
Proof.
  intros Hr Hf. apply (wait_task_run (Z.to_nat retries)); [done|lia|]. unfold Sent. done.
Qed.

(** The answer of [get_task] is one of the peer's. *)
Lemma get_task_answer i w v w' : get_task i w = (Ok v, w') →
  ∃ n r resp, http n r = Ok resp ∧ rs_json resp = Ok v.
Proof.
  unfold get_task, call_api. intros E. apply bind_inv in E as (resp & w1 & Hc & He).
  apply bind_inv in Hc as (token & w2 & _ & Hc). apply bind_inv in Hc as (o & w3 & _ & Hc).
  apply bind_inv in Hc as (sp & w4 & _ & Hc). unfold send_request in Hc. injection Hc as Hh _.
  unfold expect_200 in He. destruct (_ =? _); [|done]. unfold lift in He.
  destruct (rs_json resp) as [v'|] eqn:Ej; [|done]. injection He as -> _.
  by exists (length (w_requests w4)), (Request "get" (space_url sp ("/api/v1/tasks/task/" +:+ str_of_Z i +:+ "/"))
    (dumps false None <$> None) token), resp.
Qed.

(** With a negative number of retries the wait has no end of its own while
    the platform says the task is running: whatever Python's recursion limit
    is, it is reached. *)
Theorem wait_task_negative fuel i retries interval w : retries < 0 →
  (∀ n r resp v, http n r = Ok resp → rs_json resp = Ok v → getitem v "status" = Ok (PStr "progress")) →
  ∃ w', wait_task_to_complete fuel i retries interval w = (Raise RecursionError, w').
Proof.
  intros Hr Hrun. unfold wait_task_to_complete. assert (retries < 0) as H0 by lia.
  assert (0 ≤ 0) as Hc by lia. revert Hc. generalize 0 at 2 3 as counter. revert w.
  induction fuel as [|fuel IH]; intros w counter Hc; [by eexists|].
  cbn [wait_task_rec]. rewrite (proj2 (Z.eqb_neq counter retries)) by lia.
  destruct (attempt_run i w (length (w_requests w)) (le_n _)) as (o & w1 & Ho & _).
  rewrite (bind_ok _ _ _ _ _ Ho). assert (o = None) as ->.
  { unfold try_except, mbind, ST_bind in Ho. destruct (get_task i w) as [[v|e] w2] eqn:E;
      [|by injection Ho as <- _].
    apply get_task_answer in E as (n & r & resp & Hh & Hj). unfold lift in Ho.
    rewrite (Hrun n r resp v Hh Hj) in Ho. by injection Ho as <- _. }
  rewrite (bind_ok _ _ w1 tt (set_w_clock (w_clock w1 + interval * 1000000) w1)) by done.
  apply IH. lia.
Qed.
End Polling.

Lemma wait_task_terminates_witness :
  let w := set_w_path "space00000" (demo_world (demo_tenant PNone [] [])) in
  ∃ r w', wait_task_to_complete 6 7 5 60 w = (r, w') ∧ (length (w_requests w') ≤ 5)%nat ∧
    match r with Ok v => finished_task v | Raise e => e = gave_up end.
Proof.
  intros w. refine (wait_task_terminates 6 7 5 60 w _ _); [lia|]. vm_compute. repeat constructor.
Defined.
(** A platform where the task never ends *)
Definition busy_platform : Platform := {|
  uuid4 := λ n, "uuid-" +:+ str_of_nat n;
  http := λ _ _, Ok (Response 200 "" (Ok (PDict [("status", PStr "progress")])));
  jwt_encode := λ _, "jwt";
  user_token := λ _, "token";
  domain_name := "finmars.example";
  storage_root := "/var/app/workflow";
  exn_text := λ _, "error" |}.
Lemma wait_task_negative_witness :
  let w := set_w_path "space00000" (demo_world (demo_tenant PNone [] [])) in
  ∃ w', @wait_task_to_complete busy_platform 20 7 (-1) 60 w = (Raise RecursionError, w').
Proof.
  intros w. refine (@wait_task_negative busy_platform 20 7 (-1) 60 w _ _); [lia|].
  intros n r resp v [= <-] [= <-]. reflexivity.
Defined.
