(* ===== verification/Models.v ===== *)
(** * The models and their behaviour (workflow/models.py)

    JSON properties, [Workflow.save] and [Workflow.cancel], the completion of a
    task ([Task.handle_task_success]) and [Schedule]. *)
From Stdlib Require Import Ascii String.
From stdpp Require Import base list strings numbers gmap sets.
From S2P Require Import Prelude PyStr PyVal Json World Demo Graph Finmars.
Local Open Scope string_scope.
Local Open Scope Z_scope.
Local Open Scope list_scope.

(** ** JSON properties *)

(** [User.data]: bad JSON reads as [None]. *)
Definition user_data (u : user_row) : pyval :=
  match truthy_str (us_json_data u) with
  | Some s => match loads s with Ok v => v | Raise _ => PNone end
  | None => PNone
  end.
Definition set_user_data (val : pyval) (u : user_row) : user_row :=
  set_us_json_data (if truthy val then Some (dumps true None val) else None) u.

(** [Workflow.payload]: no payload, or bad JSON, reads as [{}]. *)
Definition wf_payload (wf : workflow_row) : pyval :=
  match truthy_str (wf_payload_data wf) with
  | Some s => match loads s with Ok v => v | Raise _ => PDict [] end
  | None => PDict []
  end.
Definition set_wf_payload (val : pyval) (wf : workflow_row) : workflow_row :=
  set_wf_payload_data (if truthy val then Some (dumps true None val) else None) wf.

(** [Task.payload], [Task.result], [Task.progress], [Task.previous]: the four
    properties share these bodies, each on its own column. *)
Definition json_column (o : option string) : res pyval :=
  match o with None => Ok PNone | Some s => loads s end.
Definition to_json_column (value : pyval) : option string :=
  match value with PNone => None | _ => Some (dumps true (Some 1%nat) value) end.

Definition tk_payload (t : task_row) : res pyval := json_column (tk_payload_data t).
Definition set_tk_payload (v : pyval) (t : task_row) : task_row :=
  set_tk_payload_data (to_json_column v) t.
Definition tk_result (t : task_row) : res pyval := json_column (tk_result_data t).
Definition set_tk_result (v : pyval) (t : task_row) : task_row :=
  set_tk_result_data (to_json_column v) t.
Definition tk_progress (t : task_row) : res pyval := json_column (tk_progress_data t).
Definition set_tk_progress (v : pyval) (t : task_row) : task_row :=
  set_tk_progress_data (to_json_column v) t.
Definition tk_previous (t : task_row) : res pyval := json_column (tk_previous_data t).
Definition set_tk_previous (v : pyval) (t : task_row) : task_row :=
  set_tk_previous_data (to_json_column v) t.

(** [Workflow.to_dict] *)
Definition wf_to_dict (wf : workflow_row) (with_payload : bool) : pyval :=
  PDict ([("id", PInt (wf_id wf)); ("name", opt_str (wf_name wf));
          ("user_code", opt_str (wf_user_code wf));
          ("status", PStr (wf_status_str (wf_status_ wf)));
          ("periodic", PBool (wf_periodic wf))]
         ++ if with_payload then [("payload", wf_payload wf)] else []).

(** [Task(...)]: what the callers do not give is null. *)
Definition new_task_row (celery_task_id : string) (name : option string) (workflow_id : Z)
    (node_id : option string) (space : option Z) (is_hook : bool) : task_row :=
  TaskRow 0 workflow_id node_id (Some celery_task_id) name None TInit None None None None None
    None None None None None None is_hook None space 0 0.

(** [Workflow(...)] *)
Definition new_workflow_row (owner space : Z) (user_code node_id : option string)
    (template : option Z) (is_manager : bool) (platform_task_id crontab parent : option Z)
    : workflow_row :=
  WorkflowRow 0 None template None PNone node_id user_code WInit None false is_manager
    platform_task_id space owner crontab None parent 0 0.

(** ** Workflow *)

Definition truthy_id (o : option Z) : option Z :=
  match o with Some z => if z =? 0 then None else Some z | None => None end.

(** The statuses [Workflow.save] reports to the platform *)
Definition is_final (s : wf_status) : bool :=
  bool_decide (s ∈ [WSuccess; WError; WTimeout; WCanceled]).

(** [workflow.tasks] *)
Definition tasks_of (wf : workflow_row) : M (list task_row) :=
  objects_filter (λ t, tk_workflow t =? wf_id wf).

Definition is_error_task (t : task_row) : bool := bool_decide (tk_status t = TError).

(** The statuses [cancel] acts on *)
Definition to_cancel (t : task_row) : bool :=
  bool_decide (tk_status t ∈ [TProgress; TInit; TNestedProgress]).

(** [mark_task_as_finished] *)
Definition mark_task_as_finished (t : task_row) : M task_row :=
  n ← now; mret (set_tk_finished_at (Some n) t).

Section Models.
Context `{Platform}.

(** The report of [Workflow.save]: the newest failed task's message, or the
    result of [self.tasks.last()]. *)
Definition report_status (wf : workflow_row) (pid : Z) : M unit :=
  ts ← tasks_of wf;
  match qs_first (List.filter is_error_task ts) with
  | Some error_task =>
      _ ← update_task_status pid (wf_status_str (wf_status_ wf)) PNone
            (opt_str (tk_error_message error_task));
      mret tt
  | None =>
      match qs_last ts with
      | Some last_task =>
          result ← lift (tk_result last_task);
          _ ← update_task_status pid (wf_status_str (wf_status_ wf)) result PNone;
          mret tt
      | None => mret tt
      end
  end.
(** [Workflow.save]: the row is written, a final status is reported; a report
    that fails is logged. *)
Definition after_save (wf : workflow_row) : M workflow_row :=
  match truthy_id (wf_platform_task_id wf) with
  | Some pid =>
      if is_final (wf_status_ wf) then
        _ ← try_except (report_status wf pid) (λ _, mret tt);
        mret wf
      else mret wf
  | None => mret wf
  end.
Definition save_workflow (wf : workflow_row) : M workflow_row :=
  wf ← save_row wf; after_save wf.
(** ... and of an object without primary key *)
Definition create_workflow (wf : workflow_row) : M workflow_row :=
  wf ← insert_row wf; after_save wf.

(** One round of the loop of [Workflow.cancel] *)
Definition cancel_task (task : task_row) : M unit :=
  when (to_cancel task) (
    _ ← revoke (tk_celery_task_id task);
    task ← mark_task_as_finished (set_tk_status TCanceled task);
    _ ← save_row task;
    mret tt).
(** [Workflow.cancel] *)
Definition cancel_workflow (wf : workflow_row) : M workflow_row :=
  ts ← tasks_of wf;
  _ ← for_each ts cancel_task;
  save_workflow (set_wf_status_ WCanceled wf).

(** [Task.update_progress] *)
Definition task_update_progress (progress : pyval) (self : task_row) : M task_row :=
  save_row (set_tk_progress progress self).

(** ** Completion of a task *)

(** The context passed on to the tasks of a workflow *)
Definition context_of (sp : space_row) : pyval :=
  PDict [("realm_code", opt_str (sp_realm_code sp));
         ("space_code", PStr (sp_space_code sp))].

(** [process_next_node.apply_async(kwargs=..., queue="workflow")] *)
Definition publish_next_node (node_id : pyval) (workflow_id : Z)
    (nodes : list (string * pyval)) (adj : list (string * list pyval))
    (context connections : pyval) : M unit :=
  publish (Msg "workflow.tasks.workflows.process_next_node" []
    [("current_node_id", node_id); ("workflow_id", PInt workflow_id);
     ("nodes", PDict nodes); ("adjacency_list", PDict ((λ kv, (kv.1, PList kv.2)) <$> adj));
     ("context", context); ("connections", connections)] (PStr "workflow")).

(** [current_node["data"]["node"]["type"]] *)
Definition node_type (node : pyval) : res pyval := getpath node ["data"; "node"; "type"].

(** The choice of the next nodes in [handle_task_success] *)
Definition next_nodes (current_node_id : string) (current_node retval : pyval)
    (adj : list (string * list pyval)) (connections : pyval) : res (list pyval) :=
  ty ← node_type current_node;
  if py_eqb ty (PStr "condition") then
    next ← get_next_node_by_condition current_node_id retval connections;
    Ok (if truthy next then [next] else [])
  else Ok (default [] (dict_get adj current_node_id)).

(** The dispatch loop of [handle_task_success]: unknown nodes are skipped;
    the log line reads the name of the node. *)
Definition dispatch_next (wf : workflow_row) (nodes : list (string * pyval))
    (adj : list (string * list pyval)) (connections next : pyval) : M unit :=
  o ← lift (lookup_key nodes next);
  match o with
  | Some node =>
      if truthy node then
        _ ← lift (getitem node "name");
        sp ← get_by_id (wf_space wf);
        publish_next_node next (wf_id wf) nodes adj (context_of sp) connections
      else mret tt
  | None => mret tt
  end.

Definition no_result_message : pyval :=
  PDict [("message", PStr "Task finished successfully. No results returned")].

(** The task row [handle_task_success] saves *)
Definition succeed_task (retval : pyval) (self : task_row) : M task_row :=
  let self := set_tk_status TSuccess self in
  let self := set_tk_result (if truthy retval then retval else no_result_message) self in
  self ← mark_task_as_finished self;
  save_row self.

(** What [handle_task_success] reads from the template of the workflow *)
Definition read_template (wt : template_row)
    : res (list (string * pyval) * pyval * list (string * list pyval)) :=
  nodes ← parse_nodes (wt_data wt);
  connections ← get_connections (wt_data wt);
  adj ← adjacency nodes connections;
  Ok (nodes, connections, adj).

(** [Task.handle_task_success]; [fuel] bounds the chain of parent workflows
    it climbs ([RecursionError] stands for Python's recursion limit). *)
Fixpoint handle_task_success (fuel : nat) (retval : pyval) (self : task_row) : M unit :=
  match fuel with
  | O => raise RecursionError
  | S fuel =>
      if bool_decide (tk_status self = TNestedProgress) then mret tt
      else
        self ← succeed_task retval self;
        wf ← get_by_id (tk_workflow self);
        template ← fetch_fk (wf_template wf);
        match template with
        | None => mret tt
        | Some wt =>
            '(nodes, connections, adj) ← lift (read_template wt);
            cur ← lift (match tk_node_id self with
                        | Some n => Ok n | None => Raise (KeyError "None") end);
            current_node ← lift (getitem (PDict nodes) cur);
            let wf := set_wf_current_node_id (Some cur) (set_wf_last_task_output retval wf) in
            next ← lift (next_nodes cur current_node retval adj connections);
            match next with
            | [] =>
                _ ← get_by_id (R:=user_row) (wf_owner wf);
                n ← now;
                wf ← save_workflow (set_wf_finished_at (Some n) (set_wf_status_ WSuccess wf));
                parent ← fetch_fk (wf_parent wf);
                match parent with
                | None => mret tt
                | Some parent_workflow =>
                    sp ← get_by_id (R:=space_row) (wf_space wf);
                    parent_task ← objects_get (λ t,
                      (tk_workflow t =? wf_id parent_workflow) &&
                      bool_decide (tk_node_id t = wf_node_id wf) &&
                      bool_decide (tk_space t = Some (sp_id sp)));
                    handle_task_success fuel retval (set_tk_status TProgress parent_task)
                end
            | _ => for_each next (dispatch_next wf nodes adj connections)
            end
        end
  end.
End Models.

(** ** Schedule *)

(** [CrontabSchedule.from_schedule(schedules.crontab(...))]: celery checks the
    five fields; what it accepts is a parameter. *)
Class Cron : Type := {
  crontab_valid : string → string → string → string → string → bool;
  (** [croniter(expr, now).get_next()] *)
  croniter_next : string → Z → res Z
}.

(** A [Schedule] object: its row and the crontab object it points to, which
    may not have been saved. *)
Record schedule_obj : Type := ScheduleObj {
  so_row : schedule_row; so_crontab : option crontab_row; so_saved : bool }.

(** [crontab_line] *)
Definition crontab_line (c : option crontab_row) : option string :=
  match c with
  | Some c => Some (join " " [ct_minute c; ct_hour c; ct_day_of_month c;
                              ct_month_of_year c; ct_day_of_week c])
  | None => None
  end.
(** [crontab_line = value] *)
Definition set_crontab_line `{Cron} (value : string) (s : schedule_obj) : res schedule_obj :=
  match split c_space value with
  | [minute; hour; day; month; weekday] =>
      if crontab_valid minute hour day month weekday
      then Ok (ScheduleObj (so_row s) (Some (CrontabRow 0 minute hour day month weekday)) (so_saved s))
      else Raise ValueError
  | _ => Raise ValueError
  end.

(** [CrontabSchedule.objects.get_or_create] on the five fields *)
Definition same_crontab (c c' : crontab_row) : bool :=
  String.eqb (ct_minute c) (ct_minute c') && String.eqb (ct_hour c) (ct_hour c') &&
  String.eqb (ct_day_of_month c) (ct_day_of_month c') &&
  String.eqb (ct_month_of_year c) (ct_month_of_year c') &&
  String.eqb (ct_day_of_week c) (ct_day_of_week c').
Definition get_or_create_crontab (c : crontab_row) : M crontab_row :=
  l ← objects_filter (same_crontab c);
  match l with
  | [c'] => mret c'
  | [] => insert_row c
  | _ => raise (MultipleObjectsReturned "CrontabSchedule")
  end.

(** The positional and keyword arguments stored for [execute] *)
Definition schedule_args (space_user_code : string) (s : schedule_row) : pyval :=
  PList [PStr space_user_code; sc_payload s; PBool (sc_is_manager s)].
Definition schedule_kwargs (sp : space_row) (crontab_id schedule_id : Z) : pyval :=
  PDict [("context", PDict [("realm_code", opt_str (sp_realm_code sp));
                            ("space_code", PStr (sp_space_code sp))]);
         ("crontab_id", PInt crontab_id); ("schedule_id", PInt schedule_id)].

(** The columns [queue], [task] and [name] as [save] fills them *)
Definition named_schedule (space_user_code : string) (s : schedule_obj) : schedule_row :=
  let r := set_sc_task "workflow.tasks.workflows.execute" (set_sc_queue (Some "workflow") (so_row s)) in
  if String.eqb (sc_name r) ""
  then set_sc_name ("periodic-" +:+ space_user_code +:+ "-"
         +:+ default "None" (crontab_line (so_crontab s))) r
  else r.
(** [Schedule.save] *)
Definition save_schedule (s : schedule_obj) : M schedule_obj :=
  sp ← get_by_id (sc_space (so_row s));
  let space_user_code := sp_space_code sp +:+ "." +:+ sc_workflow_user_code (so_row s) in
  let r := named_schedule space_user_code s in
  let r := set_sc_args (dumps false None (schedule_args space_user_code r)) r in
  c ← require (so_crontab s);
  c ← get_or_create_crontab c;
  let r := set_sc_crontab (Some (ct_id c)) r in
  if so_saved s then
    let r := set_sc_kwargs (dumps false None (schedule_kwargs sp (ct_id c) (sc_id r))) r in
    r ← save_row r;
    mret (ScheduleObj r (Some c) true)
  else
    r ← insert_row r;
    let kw := dumps false None (schedule_kwargs sp (ct_id c) (sc_id r)) in
    _ ← update_rows (λ r', sc_id r' =? sc_id r) (set_sc_kwargs kw);
    mret (ScheduleObj (set_sc_kwargs kw r) (Some c) true).

(** [get_next_run_at]: any error reads as [None]. *)
Definition get_next_run_at `{Cron} (s : schedule_obj) : M (option Z) :=
  try_except
    (n ← now;
     line ← lift (match crontab_line (so_crontab s) with
                  | Some l => Ok l | None => Raise AttributeError end);
     r ← lift (croniter_next line n);
     mret (Some r))
    (λ _, mret None).


(** ** Round trips *)

Lemma dumps_not_empty sort indent v : wf_val v = true → dumps sort indent v ≠ "".
Proof. intros Hv E. pose proof (loads_dumps sort indent v Hv) as Hl. by rewrite E in Hl. Qed.
Lemma json_column_roundtrip v : wf_val v = true → json_column (to_json_column v) = Ok (sort_val v).
Proof. intros Hv. destruct v; [done|..]; apply (loads_dumps true (Some 1%nat)); exact Hv. Qed.

Lemma workflow_payload_roundtrip v wf : wf_val v = true →
  wf_payload (set_wf_payload v wf) = (if truthy v then sort_val v else PDict []).
Proof.
  intros Hv. unfold wf_payload, set_wf_payload. destruct (truthy v) eqn:Ht; [|done]. simpl.
  pose proof (dumps_not_empty true None v Hv) as Hne. unfold truthy_str.
  rewrite (proj2 (String.eqb_neq _ _) Hne). by rewrite (loads_dumps true None v Hv).
Qed.

(** What a JSON property is given it gives back, with its dictionaries
    sorted by key: the four properties of a task for every value, [None]
    included; the payload of a workflow for the true values, while every false
    one ([0], [""], [[]], [None]) reads as [{}]. *)
Theorem json_properties v t wf : wf_val v = true →
  tk_payload (set_tk_payload v t) = Ok (sort_val v) ∧
  tk_result (set_tk_result v t) = Ok (sort_val v) ∧
  tk_progress (set_tk_progress v t) = Ok (sort_val v) ∧
  tk_previous (set_tk_previous v t) = Ok (sort_val v) ∧
  wf_payload (set_wf_payload v wf) = (if truthy v then sort_val v else PDict []).
Proof.
  intros Hv. split_and!; [by apply json_column_roundtrip..|].
  by apply workflow_payload_roundtrip.
Qed.

(** ** Schedules *)

(** The crontab line: a line that is accepted reads back as it was written,
    and a crontab whose fields hold no space and that celery accepts is the one
    its own line sets. *)
Theorem crontab_line_roundtrip `{Cron} s :
  (∀ value s', set_crontab_line value s = Ok s' → crontab_line (so_crontab s') = Some value) ∧
  (∀ m h dm my dw line, Forall (λ x, has_char c_space x = false) [m; h; dm; my; dw] →
     crontab_valid m h dm my dw = true →
     crontab_line (Some (CrontabRow 0 m h dm my dw)) = Some line →
     set_crontab_line line s
     = Ok (ScheduleObj (so_row s) (Some (CrontabRow 0 m h dm my dw)) (so_saved s))).
Proof.
  split.
  - intros value s'. unfold set_crontab_line. pose proof (join_split c_space value) as Hj.
    destruct (split c_space value) as [|m [|h [|dm [|my [|dw [|]]]]]]; try done.
    destruct (crontab_valid _ _ _ _ _); [|done]. intros [= <-]. simpl. by rewrite <- Hj.
  - intros m h dm my dw line Hsp Hv [= <-]. unfold set_crontab_line.
    replace (split c_space _) with [m; h; dm; my; dw]; [by rewrite Hv|].
    symmetry. exact (split_join c_space [m; h; dm; my; dw] ltac:(done) Hsp).
Qed.

(** [get_or_create] finds the crontab or makes it, and touches no other table. *)
Lemma get_or_create_run c w t : cur w = Some t →
  (length (List.filter (same_crontab c) (rows (t_crontabs t))) ≤ 1)%nat →
  ∃ c' w1 t1, get_or_create_crontab c w = (Ok c', w1) ∧ cur w1 = Some t1 ∧
    t1 = set_t_crontabs (t_crontabs t1) t ∧ c' ∈ rows (t_crontabs t1) ∧ same_crontab c c' = true.
Proof.
  intros Hw Hl. unfold get_or_create_crontab.
  rewrite (bind_ok _ _ _ _ _ (filter_run (same_crontab c) w t Hw)). unfold ordered. simpl.
  destruct (List.filter (same_crontab c) (rows (t_crontabs t))) as [|c' [|]] eqn:E;
    [|..|simpl in Hl; lia].
  - rewrite (insert_run c w t Hw). do 3 eexists. split; [reflexivity|].
    split; [apply cur_with_tenant|]. split; [done|]. split; [simpl; set_solver|].
    unfold same_crontab. simpl. by rewrite !String.eqb_refl.
  - exists c', w, t. split; [done|]. split; [done|]. split; [by destruct t|].
    assert (c' ∈ List.filter (same_crontab c) (rows (t_crontabs t))) as Hin by (rewrite E; left).
    apply list_elem_of_In, filter_In in Hin as [Hin Hs]. by apply list_elem_of_In in Hin.
Qed.

(** What a schedule row makes [execute] run *)
Definition runs_workflow (r : schedule_row) (sp : space_row) (c : crontab_row) : Prop :=
  sc_task r = "workflow.tasks.workflows.execute" ∧ sc_queue r = Some "workflow" ∧
  sc_crontab r = Some (ct_id c) ∧
  loads (sc_args r) = Ok (PList [PStr (sp_space_code sp +:+ "." +:+ sc_workflow_user_code r);
                                 sc_payload r; PBool (sc_is_manager r)]) ∧
  loads (sc_kwargs r) = Ok (PDict [("context", context_of sp); ("crontab_id", PInt (ct_id c));
                                   ("schedule_id", PInt (sc_id r))]).

Lemma wf_schedule_args code r : wf_val (sc_payload r) = true → wf_val (schedule_args code r) = true.
Proof. intros Hp. simpl. by rewrite Hp. Qed.
Lemma wf_schedule_kwargs sp i j : wf_val (schedule_kwargs sp i j) = true.
Proof.
  unfold schedule_kwargs. cbn [wf_val forallb dict_keys fmap list_fmap fst snd].
  rewrite !bool_decide_eq_true_2.
  - by destruct (sp_realm_code sp).
  - apply (bool_decide_unpack _). by vm_compute.
  - apply (bool_decide_unpack _). by vm_compute.
Qed.

Lemma map_new (l : list schedule_row) r f i : (∀ x, x ∈ l → sc_id x < i) → sc_id r = i →
  map (λ x, if sc_id x =? i then f x else x) (l ++ [r]) = l ++ [f r].
Proof.
  intros Hl <-. rewrite map_app. simpl. rewrite Z.eqb_refl. f_equal.
  rewrite <- (map_id l) at 2. apply map_ext_in. intros x Hx%list_elem_of_In%Hl.
  by rewrite (proj2 (Z.eqb_neq _ _)) by lia.
Qed.

Lemma named_schedule_fields code s : let r := named_schedule code s in
  sc_task r = "workflow.tasks.workflows.execute" ∧ sc_queue r = Some "workflow" ∧
  sc_workflow_user_code r = sc_workflow_user_code (so_row s) ∧ sc_payload r = sc_payload (so_row s) ∧
  sc_is_manager r = sc_is_manager (so_row s) ∧ sc_name r ≠ "".
Proof.
  unfold named_schedule. simpl. destruct (sc_name (so_row s) =? "")%string eqn:E.
  - by split_and!.
  - split_and!; [done..|]. by apply String.eqb_neq.
Qed.


(** ** Tenant isolation of the operations *)

Section Stays.
Context `{Platform} (s : string) (w0 : world).
Abbreviation I := (Stays s w0).

Lemma names_context_of sp : lower (sp_space_code sp) = s → names_schema s (context_of sp).
Proof. intros Hs c. by intros [= <-]. Qed.
Lemma stays_publish_next_node n i nodes adj context conns :
  names_schema s context → Keeps I (publish_next_node n i nodes adj context conns) anything.
Proof. intros Hc. by apply stays_publish. Qed.

Lemma stays_tasks_of wf : Keeps I (tasks_of wf) anything.
Proof. unfold tasks_of. solve_keeps. Qed.
Lemma stays_mark_task t : Keeps I (mark_task_as_finished t) anything.
Proof. unfold mark_task_as_finished. solve_keeps. Qed.
#[local] Hint Resolve stays_tasks_of stays_mark_task : keeps.
Lemma stays_report_status wf i : Keeps I (report_status wf i) anything.
Proof. unfold report_status. solve_keeps. Qed.
#[local] Hint Resolve stays_report_status : keeps.
Lemma stays_after_save wf : Keeps I (after_save wf) anything.
Proof. unfold after_save. solve_keeps. Qed.
#[local] Hint Resolve stays_after_save : keeps.
Lemma stays_save_workflow wf : Keeps I (save_workflow wf) anything.
Proof. unfold save_workflow. solve_keeps. Qed.
Lemma stays_create_workflow wf : Keeps I (create_workflow wf) anything.
Proof. unfold create_workflow. solve_keeps. Qed.
#[local] Hint Resolve stays_save_workflow : keeps.
Lemma stays_cancel_task t : Keeps I (cancel_task t) anything.
Proof. unfold cancel_task. solve_keeps. Qed.
#[local] Hint Resolve stays_cancel_task : keeps.
Lemma stays_cancel_workflow wf : Keeps I (cancel_workflow wf) anything.
Proof. unfold cancel_workflow. solve_keeps. Qed.
Lemma stays_task_update_progress p t : Keeps I (task_update_progress p t) anything.
Proof. unfold task_update_progress. solve_keeps. Qed.
Lemma stays_succeed_task r t : Keeps I (succeed_task r t) anything.
Proof. unfold succeed_task. solve_keeps. Qed.
#[local] Hint Resolve stays_publish_next_node names_context_of : keeps.
Lemma stays_dispatch_next wf nodes adj conns next :
  Keeps I (dispatch_next wf nodes adj conns next) anything.
Proof. unfold dispatch_next. solve_keeps. Qed.
#[local] Hint Resolve stays_succeed_task stays_dispatch_next : keeps.
Lemma stays_handle_task_success fuel : ∀ r t, Keeps I (handle_task_success fuel r t) anything.
Proof.
  induction fuel as [|fuel IH]; intros r t; [apply keeps_raise|].
  cbn [handle_task_success]. solve_keeps.
Qed.
Lemma stays_get_or_create_crontab c : Keeps I (get_or_create_crontab c) anything.
Proof. unfold get_or_create_crontab. solve_keeps. Qed.
#[local] Hint Resolve stays_get_or_create_crontab : keeps.
Lemma stays_save_schedule o : Keeps I (save_schedule o) anything.
Proof. unfold save_schedule. solve_keeps. Qed.
End Stays.
#[export] Hint Resolve names_context_of stays_tasks_of stays_mark_task stays_save_workflow stays_create_workflow
  stays_cancel_workflow stays_task_update_progress stays_succeed_task stays_dispatch_next
  stays_publish_next_node stays_handle_task_success stays_save_schedule : keeps.


(** ** What a report touches

    [after_save] reads tables, takes time and sends requests: any property of
    the world that does not see the clock and the requests is kept. *)
Section Report.
Context `{Platform} (I : world → Prop).
Context (Htick : ∀ w, I w → I (tick w)) (Hsend : ∀ w r, I w → I (set_w_requests r w)).

Lemma frame_now : Keeps I now anything.
Proof using Htick. intros w HI. split; [by apply Htick|done]. Qed.
Lemma frame_tenant : Keeps I current_tenant anything.
Proof using. intros w HI. unfold current_tenant. by destruct (_ !! _). Qed.
Lemma frame_filter {R} `{Model R} (P : R → bool) : Keeps I (objects_filter P) anything.
Proof using. eapply keeps_bind; [apply frame_tenant|]. intros. by apply keeps_ret. Qed.
Lemma frame_get {R} `{Model R} (P : R → bool) : Keeps I (objects_get P) anything.
Proof using.
  eapply keeps_bind; [apply frame_filter|].
  intros [|r [|]] _; [apply keeps_raise|by apply keeps_ret|apply keeps_raise].
Qed.
Lemma frame_send r : Keeps I (send_request r) anything.
Proof using Hsend. intros w HI. split; [by apply Hsend|done]. Qed.
Lemma frame_require {A} (o : option A) : Keeps I (require o) anything.
Proof using. destruct o; [by apply keeps_ret|apply keeps_raise]. Qed.
#[local] Hint Resolve frame_now frame_filter frame_get frame_send frame_require : keeps.
Lemma frame_update_task_status i st r e : Keeps I (update_task_status i st r e) anything.
Proof using Htick Hsend.
  unfold update_task_status, get_refresh_token, get_base_path, get_realm_code, get_space_code,
    get_space. solve_keeps.
Qed.
#[local] Hint Resolve frame_update_task_status : keeps.
Lemma frame_report wf i : Keeps I (report_status wf i) anything.
Proof using Htick Hsend. unfold report_status, tasks_of. solve_keeps. Qed.
Lemma frame_after_save wf : Keeps I (after_save wf) (λ wf', wf' = wf).
Proof using Htick Hsend.
  unfold after_save. destruct (truthy_id _); [|by apply keeps_ret].
  destruct (is_final _); [|by apply keeps_ret].
  apply keeps_bind with (φ := anything); [|intros; by apply keeps_ret].
  apply keeps_try; [apply frame_report|]. intros. by apply keeps_ret.
Qed.
End Report.

(** [after_save] always returns the workflow. *)
Lemma after_save_ok `{Platform} wf w : ∃ w', after_save wf w = (Ok wf, w').
Proof.
  unfold after_save. destruct (truthy_id _) as [i|]; [|by eexists].
  destruct (is_final _); [|by eexists]. unfold mbind, ST_bind, try_except.
  destruct (report_status wf i w) as [[[]|] w']; by eexists.
Qed.

(** Saving a workflow, whatever is reported *)
Lemma save_workflow_spec `{Platform} wf w t : cur w = Some t →
  let wf1 := set_wf_modified_at (w_clock w) wf in
  let tb := t_workflows t in
  let t1 := set_t_workflows (Table (write_row wf1 (rows tb)) (next_id tb)) t in
  ∃ w', save_workflow wf w = (Ok wf1, w') ∧ cur w' = Some t1 ∧ w_path w' = w_path w ∧
    w_broker w' = w_broker w ∧ w_revoked w' = w_revoked w ∧ w_catalog w' = w_catalog w ∧
    (∀ s, s ≠ w_path w → w_tenants w' !! s = w_tenants w !! s).
Proof.
  intros Hw wf1 tb t1. unfold save_workflow.
  rewrite (bind_ok _ _ _ _ _ (save_run wf w t Hw)). fold wf1.
  set (w1 := with_tenant _ (tick w)). destruct (after_save_ok wf1 w1) as [w' Hs].
  exists w'. split; [exact Hs|].
  set (I := λ w', cur w' = Some t1 ∧ w_path w' = w_path w ∧ w_broker w' = w_broker w ∧
    w_revoked w' = w_revoked w ∧ w_catalog w' = w_catalog w ∧
    (∀ s, s ≠ w_path w → w_tenants w' !! s = w_tenants w !! s)).
  assert (I w1) as HI.
  { split; [apply cur_with_tenant|]. split_and!; [done..|]. intros s Hne. subst w1. simpl.
    by rewrite lookup_insert_ne. }
  destruct (frame_after_save I (λ w H, H) (λ w r H, H) wf1 w1 HI) as [HI' _].
  by rewrite Hs in HI'.
Qed.

(** ** Concrete values *)

Definition demo_value : pyval := PDict [("b", PList [PInt 1; PNone]); ("a", PStr "x")].
Lemma json_properties_witness :
  let t := new_task_row "c" None 1 None None false in
  tk_result (set_tk_result demo_value t) = Ok (PDict [("a", PStr "x"); ("b", PList [PInt 1; PNone])]) ∧
  wf_payload (set_wf_payload (PList []) (new_workflow_row 1 1 None None None false None None None))
    = PDict [].
Proof.
  set (wf := new_workflow_row 1 1 None None None false None None None).
  intros t. split.
  - exact (proj1 (proj2 (json_properties demo_value t wf eq_refl))).
  - exact (proj2 (proj2 (proj2 (proj2 (json_properties (PList []) t wf eq_refl))))).
Defined.

#[export] Instance demo_cron : Cron := {|
  crontab_valid := λ m h dm my dw, negb (existsb (String.eqb "") [m; h; dm; my; dw]);
  croniter_next := λ _ n, Ok (n + 60000000) |}.
Definition demo_schedule : schedule_row :=
  ScheduleRow 0 "" "com.demo:nightly" None (PDict [("n", PInt 3)]) false 1 1 "com.demo:wf" None true
    None "" "" "" None 0 0.
Definition demo_crontab : crontab_row := CrontabRow 0 "0" "5" "*" "*" "1".
Lemma crontab_line_roundtrip_witness :
  set_crontab_line "0 5 * * 1" (ScheduleObj demo_schedule None false)
  = Ok (ScheduleObj demo_schedule (Some demo_crontab) false).
Proof.
  refine (proj2 (crontab_line_roundtrip (ScheduleObj demo_schedule None false))
    "0" "5" "*" "*" "1" "0 5 * * 1" _ eq_refl eq_refl).
  repeat constructor.
Defined.
