(* ===== verification/Manager.v ===== *)
(** * Interfaces of the engine

    What the tasks, the builder and the views use of the workflow manager
    ([Manager], implemented by SystemWorkflowManager in System.v), of the code
    users write ([UserCode]), of celery ([Celery]) and the laws each promises.
    The getters of workflow/system.py that only read a configuration are
    defined here on top of the interface. *)
From Stdlib Require Import Ascii String.
From stdpp Require Import base list strings numbers gmap sets.
From S2P Require Import Prelude PyStr PyVal World.
Local Open Scope string_scope.
Local Open Scope list_scope.

(** ** The workflow manager *)
Class Manager : Type := {
  (** [get_by_user_code(user_code, sync_remote)] *)
  get_by_user_code : string → bool → M pyval;
  (** [sync_remote_storage_to_local_storage_for_schema(module_path, patterns)] *)
  sync_for_schema : string → list string → M unit;
  (** [import_user_tasks(workflow_path, raise_exception)] *)
  import_user_tasks : string → bool → M unit
}.

(** The patterns synced by default *)
Definition default_patterns : list string := ["*.yaml"; "*.yml"; "*.json"; "*.py"].

(** What the manager promises: it stays in the tenant [s], when it is asked to
    sync, for the user codes with the prefix of [s]. *)
Class ManagerOk (s : string) `{Manager} : Prop := {
  stays_get_by_user_code w0 user_code sync_remote :
    (sync_remote = true → user_code_of s user_code) →
    Keeps (Stays s w0) (get_by_user_code user_code sync_remote) anything;
  stays_sync_for_schema w0 module_path patterns :
    Keeps (Stays s w0) (sync_for_schema module_path patterns) anything;
  stays_import_user_tasks w0 path b :
    Keeps (Stays s w0) (import_user_tasks path b) anything
}.

Section Getters.
Context `{Manager}.

Definition get_workflow_config (user_code : string) : M pyval :=
  d ← get_by_user_code user_code false; lift (getitem d "workflow").
Definition get_tasks (user_code : string) : M pyval :=
  c ← get_workflow_config user_code; lift (get_default c "tasks" (PList [])).
Definition get_hook_task (user_code hook_name : string) : M pyval :=
  c ← get_workflow_config user_code;
  b ← lift (py_in "hooks" c);
  if (b : bool) then
    c ← get_workflow_config user_code;
    h ← lift (getitem c "hooks");
    b ← lift (py_in hook_name h);
    if (b : bool) then
      c ← get_workflow_config user_code;
      lift (h ← getitem c "hooks"; getitem h hook_name)
    else mret PNone
  else mret PNone.
Definition get_failure_hook_task (name : string) : M pyval := get_hook_task name "failure".
Definition get_success_hook_task (name : string) : M pyval := get_hook_task name "success".
Definition get_before_start_hook_task (name : string) : M pyval :=
  get_hook_task name "before_start".
(** A missing key anywhere on the way is the default queue. *)
Definition get_queue (user_code : string) : M pyval :=
  try_except
    (c ← get_workflow_config user_code; lift (getitem c "queue"))
    (λ e, match e with KeyError _ => mret (PStr "workflow") | _ => raise e end).
Definition get_imports (user_code : string) : M pyval :=
  c ← get_workflow_config user_code; lift (get c "imports").
End Getters.

Section GettersStay.
Context (s : string) `{ManagerOk s} (w0 : world) (user_code : string).
Abbreviation I := (Stays s w0).

Lemma stays_workflow_config : Keeps I (get_workflow_config user_code) anything.
Proof.
  unfold get_workflow_config. eapply keeps_bind; [by apply stays_get_by_user_code|].
  solve_keeps.
Qed.
#[local] Hint Resolve stays_workflow_config : keeps.
Lemma stays_get_tasks : Keeps I (get_tasks user_code) anything.
Proof. unfold get_tasks. solve_keeps. Qed.
Lemma stays_get_hook_task h : Keeps I (get_hook_task user_code h) anything.
Proof. unfold get_hook_task. solve_keeps. Qed.
Lemma stays_get_queue : Keeps I (get_queue user_code) anything.
Proof. unfold get_queue. solve_keeps. Qed.
Lemma stays_get_imports : Keeps I (get_imports user_code) anything.
Proof. unfold get_imports. solve_keeps. Qed.
End GettersStay.
#[export] Hint Resolve stays_get_tasks stays_get_hook_task stays_get_queue stays_get_imports : keeps.

(** ** Code written by users *)

(** User code is arbitrary Python: it runs with the task row it is given as
    [self.task], its arguments, and the whole world. *)
Class UserCode : Type := {
  (** [exec(source_code, scope)]: whether the scope then has a [main] *)
  exec_source : string → task_row → list pyval → list (string * pyval) → M bool;
  (** [scope["main"](self, *args, **kwargs)] *)
  call_main : string → task_row → list pyval → list (string * pyval) → M pyval;
  (** [spec.loader.exec_module(module)] on a file's content: its [@task]
      decorators register functions *)
  exec_module : string → string → M unit;
  (** calling the registered function *)
  call_function : string → task_row → list pyval → list (string * pyval) → M pyval
}.
(** User code that stays in its tenant *)
Class UserCodeOk (s : string) `{UserCode} : Prop := {
  stays_exec_source w0 c t args kw : Keeps (Stays s w0) (exec_source c t args kw) anything;
  stays_call_main w0 c t args kw : Keeps (Stays s w0) (call_main c t args kw) anything;
  stays_exec_module w0 n c : Keeps (Stays s w0) (exec_module n c) anything;
  stays_call_function w0 f t args kw : Keeps (Stays s w0) (call_function f t args kw) anything
}.

(** ** Celery *)

(** [signature.apply()]: celery runs the task's [before_start], its body, then
    [on_success] with the value or the failure handlers with the exception, and
    last the [task_postrun] receivers. *)
Class Celery : Type := {
  apply_task : M task_row → (task_row → M pyval) → (pyval → M unit) → (exn → M unit) →
               M unit → M unit;
  (** [self.request.hostname] *)
  hostname : string;
  (** the tasks celery registers itself, next to those of the application *)
  celery_builtin : string → bool;
  (** [result.ready()] of the [n]-th canvas sent *)
  result_ready : nat → bool;
  (** [einfo.traceback] *)
  traceback : exn → string
}.
(** [apply] runs the handlers it is given and nothing else on the world. *)
Class CeleryFrame `{Celery} : Prop := {
  apply_frame (I Q : world → Prop) (φ : task_row → Prop) before body success failure postrun :
    (∀ w, I w → Q w) →
    Keeps I before φ → (∀ t, φ t → Keeps I (body t) anything) →
    (∀ v, Keeps I (success v) anything) → (∀ e, Keeps I (failure e) anything) →
    Leads I postrun Q →
    Leads I (apply_task before body success failure postrun) Q
}.

(** The order in which celery's documentation says the handlers run, for the
    executions the engine's theorems are about *)
Class CeleryOk `{Celery} : Prop := {
  apply_success before body success failure postrun w t w1 v w2 w3 w4 :
    before w = (Ok t, w1) → body t w1 = (Ok v, w2) → success v w2 = (Ok tt, w3) →
    postrun w3 = (Ok tt, w4) →
    apply_task before body success failure postrun w = (Ok tt, w4);
  apply_failure before body success failure postrun w t w1 e w2 w3 w4 :
    before w = (Ok t, w1) → body t w1 = (Raise e, w2) → failure e w2 = (Ok tt, w3) →
    postrun w3 = (Ok tt, w4) →
    apply_task before body success failure postrun w = (Ok tt, w4)
}.

(** A tracer with that order: an exception of a handler goes to the failure
    handlers, an exception there is dropped. *)
Definition eager_trace (before : M task_row) (body : task_row → M pyval)
    (success : pyval → M unit) (failure : exn → M unit) (postrun : M unit) : M unit :=
  _ ← try_except
        (t ← before; v ← body t; success v)
        (λ e, try_except (failure e) (λ _, mret tt));
  postrun.
Definition eager_celery : Celery := {|
  apply_task := eager_trace; hostname := "celery@worker"; celery_builtin := λ _, false;
  result_ready := λ _, false;
  traceback := λ _, "Traceback" |}.
Lemma eager_celery_ok : @CeleryOk eager_celery.
Proof.
  split; intros * Hb Hr Hs Hp; simpl; unfold eager_trace;
    unfold mbind, ST_bind, try_except; rewrite Hb, Hr, Hs; simpl; by rewrite Hp.
Qed.
Lemma eager_celery_frame : @CeleryFrame eager_celery.
Proof.
  split. intros I Q φ before body success failure postrun HIQ Hb Hr Hs Hf Hp. simpl.
  apply leads_bind with (φ := anything); [done| |done].
  apply keeps_try.
  - eapply keeps_bind; [apply Hb|]. intros t Ht. eapply keeps_bind; [by apply Hr|]. intros v _.
    apply Hs.
  - intros e. apply keeps_try; [apply Hf|]. intros. by apply keeps_ret.
Qed.

(** A registry with one configuration, and no storage *)
Definition demo_manager (config : pyval) : Manager := {|
  get_by_user_code := λ _ _, mret config;
  sync_for_schema := λ _ _, mret tt;
  import_user_tasks := λ _ _, modify (set_w_registered (Some "f")) |}.
Lemma demo_manager_ok s c : ManagerOk s (H := demo_manager c).
Proof. split; intros; simpl; [by apply keeps_ret..|by apply stays_modify]. Qed.
