(* ===== verification/System.v ===== *)
(** * The workflow manager (workflow/system.py, workflow/utils.py)

    The registry of workflow configurations, the copy of a tenant's files from
    the remote storage, the loading of user modules, the periodic schedule and
    the cancellation of a worker's tasks. *)
From Stdlib Require Import Ascii String.
From stdpp Require Import base list strings numbers gmap sets.
From S2P Require Import Prelude PyStr PyVal Json Paths World Demo Graph Finmars Models Manager.
Local Open Scope string_scope.
Local Open Scope Z_scope.
Local Open Scope list_scope.

(** The storage backend and the YAML parser, which are not in the repository *)
Class Backend : Type := {
  (** [storage.listdir(path)]: directories and files *)
  remote_listdir : string → res (list string * list string);
  (** [storage.open(path).read()] *)
  remote_read : string → res string;
  (** [yaml.load(f, Loader=yaml.SafeLoader)] *)
  yaml_load : string → res pyval
}.

(** ** The local file system *)

(** [p] is the directory [dir] or lies below it. *)
Definition dir_prefix (dir : string) : string := if endswith dir "/" then dir else dir +:+ "/".
Definition below (dir p : string) : bool := startswith p (dir_prefix dir).
(** [os.path.exists] *)
Definition local_exists (path : string) : M bool :=
  gets (λ w, existsb (λ f, String.eqb f.1 path || below path f.1) (w_local w)).
(** [shutil.rmtree]: an error on a plain file, which the caller logs *)
Definition rmtree (path : string) : M unit := λ w,
  if existsb (λ f, String.eqb f.1 path) (w_local w) then (Raise (PyException "Not a directory"), w)
  else (Ok tt, set_w_local (List.filter (λ f, negb (below path f.1)) (w_local w)) w).
(** [open(path, "wb").write(content)] *)
Definition write_local (path content : string) : M unit :=
  modify (λ w, set_w_local (dict_set (w_local w) path content) w).

(** [v[k] = x] on a dictionary *)
Definition setitem (v : pyval) (k : string) (x : pyval) : res pyval :=
  match v with PDict d => Ok (PDict (dict_set d k x)) | _ => Raise TypeError end.

(** ** Loading configurations *)

(** [config["workflow"]["realm_code"] = ...; config["workflow"]["space_code"] = ...] *)
Definition annotate_config (config : pyval) (sp : space_row) : res pyval :=
  wf ← getitem config "workflow";
  wf ← setitem wf "realm_code" (opt_str (sp_realm_code sp));
  wf ← setitem wf "space_code" (PStr (sp_space_code sp));
  setitem config "workflow" wf.
(** [self.workflows[user_code] = config] *)
Definition register (user_code : string) (config : pyval) : M unit :=
  modify (λ w, set_w_registry (dict_set (w_registry w) user_code config) w).
Definition lookup_workflow (user_code : string) : M pyval :=
  gets (λ w, default PNone (dict_get (w_registry w) user_code)).

(** The files [root_path.glob("**/workflow.*")] yields *)
Definition workflow_files (root : string) : M (list (string * string)) :=
  gets (λ w, List.filter (λ f, below root f.1 && fnmatch (basename f.1) "workflow.*") (w_local w)).

Section System.
Context `{Platform} `{Backend} `{UserCode}.

(** The body of the loop of [load_workflows_for_schema] for one file *)
Definition load_workflow_file (sp : space_row) (f : string * string) : M unit :=
  let ext := suffix (basename f.1) in
  when (bool_decide (ext ∈ [".yaml"; ".yml"; ".json"])) (
    try_except
      (config ← lift (if String.eqb ext ".json" then loads f.2 else yaml_load f.2);
       uc ← lift (wf ← getitem config "workflow"; getitem wf "user_code");
       config ← lift (annotate_config config sp);
       user_code ← lift (as_str uc);
       register (sp_space_code sp +:+ "." +:+ user_code) config)
      (λ _, mret tt)).

(** [load_workflows_for_schema]: every error is logged. *)
Definition load_workflows_for_schema (schema : string) : M unit :=
  try_except
    (o ← get_space;
     sp ← require o;
     files ← workflow_files (construct_path [storage_root; "local"; sp_space_code sp; "workflows"]);
     for_each files (load_workflow_file sp))
    (λ _, mret tt).

(** [register_workflows] *)
Definition schemas_for (space_code : option string) : M (list string) :=
  schemas ← get_all_tenant_schemas;
  match truthy_str space_code with
  | Some c =>
      if bool_decide (lower c ∈ schemas) then mret [c]
      else raise (PyException ("Schema '" +:+ c +:+ "' does not exist"))
  | None => mret schemas
  end.
Definition register_schema (schema : string) : M unit :=
  if String.eqb schema "public" then mret tt
  else _ ← set_search_path schema; load_workflows_for_schema schema.
Definition register_workflows (space_code : option string) : M unit :=
  schemas ← schemas_for space_code;
  _ ← for_each schemas register_schema;
  match truthy_str space_code with
  | Some _ => mret tt
  | None => set_search_path "public"
  end.

(** ** Copying the remote storage *)

(** [len(components) > i and directory != components[i]] skips a directory. *)
Definition selected (components : list string) (i : nat) (directory : string) : bool :=
  match components !! i with Some c => String.eqb directory c | None => true end.

(** One file of the inner loop: errors are logged. *)
Definition sync_file (folder : string) (patterns : list string) (filename : string) : M unit :=
  try_except
    (let filepath := folder +:+ "/" +:+ filename in
     when (existsb (fnmatch filename) patterns) (
       content ← lift (remote_read filepath);
       write_local (construct_path [storage_root; "local"; lstrip c_slash filepath]) content))
    (λ _, mret tt).

(** The directories of [path], filtered by the [i]-th component *)
Definition for_dirs (components : list string) (i : nat) (path : string)
    (body : string → M unit) : M unit :=
  l ← lift (remote_listdir path);
  for_each l.1 (λ d, when (selected components i d) (body d)).

(** The removal of the local directory: a failure is logged. *)
Definition clear_local (path : string) : M unit :=
  b ← local_exists path;
  when b (try_except (rmtree path) (λ _, mret tt)).

(** [sync_remote_storage_to_local_storage_for_schema] *)
Definition sync_schema (module_path : string) (patterns : list string) : M unit :=
  o ← get_space;
  sp ← require o;
  let remote := construct_path [sp_space_code sp; "workflows"] in
  _ ← clear_local (construct_path [storage_root; "local"; sp_space_code sp; "workflows"; module_path]);
  let comps := if String.eqb module_path "" then [] else split c_slash module_path in
  for_dirs comps 0 remote (λ configuration,
    let organization_path := construct_path [remote; configuration] in
    for_dirs comps 1 organization_path (λ organization,
      let module_folder := construct_path [organization_path; organization] in
      for_dirs comps 2 module_folder (λ module,
        let workflow_folder := construct_path [module_folder; module] in
        for_dirs comps 3 workflow_folder (λ workflow,
          l ← lift (remote_listdir (construct_path [workflow_folder; workflow]));
          for_each l.2 (sync_file (remote +:+ "/" +:+ configuration +:+ "/" +:+ organization
                                   +:+ "/" +:+ module +:+ "/" +:+ workflow) patterns))))).

(** [sync_remote_storage_to_local_storage] *)
Definition sync_remote_storage (space_code : option string) : M unit :=
  schemas ← schemas_for space_code;
  for_each schemas (λ schema,
    _ ← set_search_path schema;
    _ ← sync_schema "" default_patterns;
    set_search_path "public").

(** ** Lookup *)

(** The module path in a user code: [path.rsplit("/", maxsplit=1)] must give
    two pieces. *)
Definition module_path_of (user_code : string) : res string :=
  let space_code := space_prefix user_code in
  let path := replace (replace (drop_str (String.length space_code + 1) user_code) "." "/") ":" "/" in
  match rsplit1 c_slash path with
  | [module_path; _] => Ok module_path
  | _ => Raise ValueError
  end.
(** [SystemWorkflowManager.get_by_user_code] *)
Definition find_by_user_code (user_code : string) (sync_remote : bool) : M pyval :=
  workflow ← lookup_workflow user_code;
  workflow ← (if negb (truthy workflow) && sync_remote then
                module_path ← lift (module_path_of user_code);
                _ ← sync_schema module_path default_patterns;
                _ ← register_workflows (Some (space_prefix user_code));
                lookup_workflow user_code
              else mret workflow);
  if truthy workflow then mret workflow
  else raise (WorkflowNotFound user_code).

(** ** User modules *)

(** [str(task.relative_to(folder)).replace("/", ".").rsplit(".", 1)[0]] *)
Definition module_name_of (folder path : string) : string :=
  hd "" (rsplit1 c_dot (replace (relpath path folder) "/" ".")).
(** [Path(folder).glob(f"{workflow_path}/*.py")]: ["**"] is any depth, another
    path is a directory. *)
Definition task_files (folder workflow_path : string) : M (list (string * string)) :=
  gets (λ w, List.filter (λ f,
    below folder f.1 && endswith (basename f.1) ".py" &&
    (String.eqb workflow_path "**"
     || String.eqb (dirname f.1) (construct_path [folder; workflow_path]))) (w_local w)).
(** [import_user_tasks] *)
Definition import_tasks (workflow_path : string) (raise_exception : bool) : M unit :=
  o ← get_space;
  sp ← require o;
  let folder := construct_path [storage_root; "local"; sp_space_code sp; "workflows"] in
  tasks ← task_files folder workflow_path;
  for_each tasks (λ f,
    if String.eqb (stem (basename f.1)) "__init__" then mret tt
    else try_except (exec_module (module_name_of folder f.1) f.2)
           (λ e, if raise_exception then raise e else mret tt)).

#[export] Instance system_manager : Manager := {|
  get_by_user_code := find_by_user_code;
  sync_for_schema := sync_schema;
  import_user_tasks := import_tasks |}.

(** ** Cancelling the tasks of a worker *)

Definition worker_tasks (statuses : list task_status) (worker_name : string) : M (list task_row) :=
  objects_filter (λ t, bool_decide (tk_status t ∈ statuses)
                       && bool_decide (tk_worker_name t = Some worker_name)).
(** One round of the second loop of [cancel_all_existing_tasks] *)
Definition cancel_orphan (task : task_row) : M unit :=
  let task := set_tk_status TCanceled task in
  _ ← match truthy_str (tk_celery_task_id task) with
      | Some i => revoke (Some i)
      | None => mret tt
      end;
  task ← mark_task_as_finished task;
  _ ← save_row task;
  mret tt.
(** [cancel_all_existing_tasks] *)
Definition cancel_all_existing_tasks (worker_name : string) : M unit :=
  tasks ← worker_tasks [TProgress; TInit] worker_name;
  let workflow_ids := tk_workflow <$> tasks in
  workflows ← objects_filter (λ wf, bool_decide (wf_status_ wf ∈ [WProgress; WInit])
                                    && bool_decide (wf_id wf ∈ workflow_ids));
  _ ← for_each workflows (λ wf, _ ← cancel_workflow wf; mret tt);
  tasks ← worker_tasks [TProgress; TInit; TNestedProgress] worker_name;
  for_each tasks cancel_orphan.
End System.

(** ** Periodic schedule *)

(** [float(s)] accepts [s]: sign, digits with an optional point, exponent, or
    the names of the non-finite values; no digit separators. *)
Fixpoint take_digits (l : list ascii) : nat * list ascii :=
  match l with
  | c :: l' => if is_digit c then let '(n, r) := take_digits l' in (S n, r) else (O, l)
  | [] => (O, [])
  end.
Definition skip_sign (l : list ascii) : list ascii :=
  match l with
  | c :: l' => if Ascii.eqb c "+"%char || Ascii.eqb c "-"%char then l' else l
  | [] => []
  end.
Definition float_exponent (l : list ascii) : bool :=
  match l with
  | [] => true
  | c :: l' =>
      (Ascii.eqb c "e"%char || Ascii.eqb c "E"%char) &&
      let '(n, r) := take_digits (skip_sign l') in
      negb (n =? 0)%nat && match r with [] => true | _ => false end
  end.
Definition float_number (l : list ascii) : bool :=
  let '(n, r) := take_digits l in
  match r with
  | c :: r' =>
      if Ascii.eqb c c_dot then
        let '(m, r'') := take_digits r' in negb (n + m =? 0)%nat && float_exponent r''
      else negb (n =? 0)%nat && float_exponent r
  | [] => negb (n =? 0)%nat
  end.
Definition is_float (s : string) : bool :=
  match split_ws s with
  | [t] =>
      let l := skip_sign (String.list_ascii_of_string t) in
      float_number l
      || bool_decide (lower (String.string_of_list_ascii l) ∈ ["inf"; "infinity"; "nan"])
  | _ => false
  end.

(** A beat schedule: a number of seconds, kept as it was written, or the five
    fields of a crontab: minute, hour, day of month, month, day of week *)
Inductive beat_schedule : Type :=
  | Seconds (source : pyval)
  | Crontab (minute hour day_of_month month_of_year day_of_week : string).

Section Periodic.
Context `{Cron}.

Definition py_float (v : pyval) : res beat_schedule :=
  match v with
  | PInt _ | PBool _ => Ok (Seconds v)
  | PStr s => if is_float s then Ok (Seconds v) else Raise ValueError
  | _ => Raise TypeError
  end.
Definition mk_crontab (m h dm my dw : string) : res beat_schedule :=
  if crontab_valid m h dm my dw then Ok (Crontab m h dm my dw) else Raise ValueError.
(** [_handle_crontab] *)
Definition handle_crontab (ct : pyval) : res beat_schedule :=
  match ct with
  | PStr s =>
      match split c_space s with
      | [m; h; dm; my; dw] => mk_crontab m h dm my dw
      | _ => Raise ValueError
      end
  | _ => Raise AttributeError
  end.
(** [_handle_schedule]: a number, or the legacy order of the fields: minute,
    hour, day of week, day of month, month *)
Definition handle_schedule (schedule : pyval) : res beat_schedule :=
  match py_float schedule with
  | Raise ValueError =>
      match schedule with
      | PStr s =>
          match split c_space s with
          | [m; h; dw; dm; my] => mk_crontab m h dm my dw
          | _ => Raise ValueError
          end
      | _ => Raise AttributeError
      end
  | r => r
  end.
Definition schedule_function (key : string) : option (pyval → res beat_schedule) :=
  if String.eqb key "schedule" then Some handle_schedule
  else if String.eqb key "crontab" then Some handle_crontab
  else if String.eqb key "interval" then Some py_float
  else None.
(** [build_celery_schedule] *)
Definition build_celery_schedule (data : list (string * pyval)) : res (string * beat_schedule) :=
  match List.filter (λ kv, negb (String.eqb kv.1 "payload")) data with
  | [(key, schedule_input)] =>
      match schedule_function key with
      | Some f =>
          match f schedule_input with
          | Ok v => Ok (py_str schedule_input, v)
          | Raise _ => Raise WorkflowSyntaxError
          end
      | None => Raise WorkflowSyntaxError
      end
  | _ => Raise WorkflowSyntaxError
  end.

(** An entry of [celery_app.conf.beat_schedule] *)
Record beat_entry : Type := BeatEntry {
  be_task : string; be_schedule : beat_schedule;
  be_args : list pyval; be_context : pyval; be_queue : string }.
(** One round of the loop of [init_periodic_tasks]: workflows without a
    [periodic] section are passed over. *)
Definition periodic_entry (user_code : string) (config : pyval)
    : res (option (string * beat_entry)) :=
  workflow ← getitem config "workflow";
  is_manager ← get_default workflow "is_manager" (PBool false);
  b ← py_in "periodic" workflow;
  if (b : bool) then
    periodic_conf ← get workflow "periodic";
    payload ← get_default periodic_conf "payload" (PStr "{}");
    data ← (match periodic_conf with PDict d => Ok d | _ => Raise AttributeError end);
    '(schedule_str, schedule_value) ← build_celery_schedule data;
    text ← as_str payload;
    payload ← loads text;
    realm_code ← getitem workflow "realm_code";
    space_code ← getitem workflow "space_code";
    Ok (Some ("periodic-" +:+ user_code +:+ "-" +:+ schedule_str,
              BeatEntry "workflow.tasks.workflows.execute" schedule_value
                [PStr user_code; payload; is_manager]
                (PDict [("realm_code", realm_code); ("space_code", space_code)]) "workflow"))
  else Ok None.
(** [init_periodic_tasks] *)
Definition init_periodic_tasks (workflows : list (string * pyval))
    (beat : list (string * beat_entry)) : res (list (string * beat_entry)) :=
  fold_res (λ beat kv,
    o ← periodic_entry kv.1 kv.2;
    Ok (match o with Some (k, e) => dict_set beat k e | None => beat end)) workflows beat.
End Periodic.

(** ** The manager stays in its tenant *)

Section Stays.
Context `{Platform} `{Backend} (s : string) `{UserCodeOk s} (w0 : world).
Abbreviation I := (Stays s w0).

Lemma stays_local_exists p : Keeps I (local_exists p) anything.
Proof. unfold local_exists. solve_keeps. Qed.
Lemma stays_rmtree p : Keeps I (rmtree p) anything.
Proof.
  intros w HI. unfold rmtree. destruct (existsb _ _); [by split|].
  split; [|done]. destruct HI. by split.
Qed.
Lemma stays_write_local p c : Keeps I (write_local p c) anything.
Proof. by apply stays_modify. Qed.
Lemma stays_register u c : Keeps I (register u c) anything.
Proof. by apply stays_modify. Qed.
#[local] Hint Resolve stays_local_exists stays_rmtree stays_write_local stays_register : keeps.
Lemma stays_load_workflows schema : Keeps I (load_workflows_for_schema schema) anything.
Proof. unfold load_workflows_for_schema, workflow_files, load_workflow_file. solve_keeps. Qed.
#[local] Hint Resolve stays_load_workflows : keeps.
Lemma stays_clear_local p : Keeps I (clear_local p) anything.
Proof. unfold clear_local. solve_keeps. Qed.
Lemma stays_sync_file folder ps f : Keeps I (sync_file folder ps f) anything.
Proof. unfold sync_file. solve_keeps. Qed.
#[local] Hint Resolve stays_clear_local stays_sync_file : keeps.
Lemma stays_for_dirs comps i path body :
  (∀ d, Keeps I (body d) anything) → Keeps I (for_dirs comps i path body) anything.
Proof.
  intros Hb. unfold for_dirs. eapply keeps_bind with (φ := anything); [solve_keeps|].
  intros l _. apply keeps_for_each. intros d _. by apply keeps_when.
Qed.
Lemma stays_sync_schema module_path ps : Keeps I (sync_schema module_path ps) anything.
Proof. unfold sync_schema. solve_keeps. do 4 (apply stays_for_dirs; intros ?). solve_keeps. Qed.
(** Entering a schema whose name folds to [s] *)
Lemma stays_search_path c : lower c = s → Keeps I (set_search_path c) anything.
Proof. intros Hc. apply keeps_modify; [|done]. intros w []. by split. Qed.
Lemma stays_register_workflows c :
  c ≠ "" → lower c = s → Keeps I (register_workflows (Some c)) anything.
Proof.
  intros Hne Hc. unfold register_workflows, schemas_for. simpl.
  rewrite (proj2 (String.eqb_neq c "")) by done. cbn [truthy_str].
  eapply keeps_bind with (φ := λ l, l = [c]).
  { eapply keeps_bind with (φ := anything); [apply stays_gets|]. intros l _.
    case_bool_decide; [by apply keeps_ret|apply keeps_raise]. }
  intros l ->. eapply keeps_bind with (φ := anything); [|solve_keeps].
  apply keeps_for_each. intros x ->%list_elem_of_singleton. unfold register_schema.
  destruct (String.eqb c "public"); [by apply keeps_ret|].
  eapply keeps_bind; [by apply stays_search_path|]. solve_keeps.
Qed.
Lemma stays_find_by_user_code user_code b :
  (b = true → user_code_of s user_code) →
  Keeps I (find_by_user_code user_code b) anything.
Proof.
  intros Hb.
  unfold find_by_user_code, lookup_workflow.
  eapply keeps_bind; [apply stays_gets|]. intros v _.
  eapply keeps_bind with (φ := anything); [|solve_keeps].
  destruct b; [|rewrite andb_false_r; by apply keeps_ret].
  destruct (_ && _); [|by apply keeps_ret].
  destruct (Hb eq_refl) as [Hne Hs]. pose proof (stays_register_workflows _ Hne Hs) as Hreg.
  eapply keeps_bind with (φ := anything); [by apply keeps_lift|]. intros m _.
  eapply keeps_bind; [apply stays_sync_schema|]. intros _ _.
  eapply keeps_bind; [apply Hreg|]. intros _ _. apply stays_gets.
Qed.
Lemma stays_import_tasks path b : Keeps I (import_tasks path b) anything.
Proof.
  unfold import_tasks, task_files. solve_keeps. apply stays_exec_module.
Qed.
Lemma stays_cancel_all worker : Keeps I (cancel_all_existing_tasks worker) anything.
Proof. unfold cancel_all_existing_tasks, worker_tasks, cancel_orphan. solve_keeps. Qed.
End Stays.

#[export] Instance system_manager_ok `{Platform} `{Backend} s `{UserCodeOk s} :
  ManagerOk s (H := system_manager).
Proof.
  split; intros.
  - by apply stays_find_by_user_code.
  - apply stays_sync_schema.
  - by apply stays_import_tasks.
Qed.

(** ** Registering and finding a configuration *)

Section Registry.
Context `{Platform} `{Backend}.

Lemma find_registered user_code b v w : dict_get (w_registry w) user_code = Some v →
  truthy v = true → find_by_user_code user_code b w = (Ok v, w).
Proof.
  intros Hv Ht. unfold find_by_user_code.
  rewrite (bind_ok _ _ w v w) by (unfold lookup_workflow, gets; by rewrite Hv).
  rewrite Ht. cbn [negb andb]. rewrite (bind_ok _ _ w v w) by done. by rewrite Ht.
Qed.

(** The registry: loading a workflow file of the space [sp], whose JSON text
    is a configuration with a user code, never fails, changes only the
    registry, and only the entry of that user code behind the space code; from
    then on the lookup finds there the configuration of the file, with the
    codes of the space put in and every other key as it was. A file with any
    other extension, or a text that cannot be read, leaves everything as it
    was. *)
Theorem load_then_find sp path content w :
  match loads content with
  | Ok (PDict d) =>
      ∀ wd uc, suffix (basename path) = ".json" →
      dict_get d "workflow" = Some (PDict wd) → dict_get wd "user_code" = Some (PStr uc) →
      let code := sp_space_code sp +:+ "." +:+ uc in
      ∃ config w', load_workflow_file sp (path, content) w = (Ok tt, w') ∧
        w' = set_w_registry (dict_set (w_registry w) code config) w ∧
        (∀ b, find_by_user_code code b w' = (Ok config, w')) ∧
        (∀ code', code' ≠ code → dict_get (w_registry w') code' = dict_get (w_registry w) code') ∧
        ∀ k, getpath config ["workflow"; k]
             = (if String.eqb k "space_code" then Ok (PStr (sp_space_code sp))
                else if String.eqb k "realm_code" then Ok (opt_str (sp_realm_code sp))
                else getitem (PDict wd) k)
  | Ok _ => True
  | Raise _ => suffix (basename path) = ".json" → load_workflow_file sp (path, content) w = (Ok tt, w)
  end ∧
  (suffix (basename path) ∉ [".json"; ".yaml"; ".yml"] →
   load_workflow_file sp (path, content) w = (Ok tt, w)).
Proof.
  assert (∀ e, loads content = Raise e → suffix (basename path) = ".json" →
    load_workflow_file sp (path, content) w = (Ok tt, w)) as Hbad.
  { intros e He Hs. unfold load_workflow_file. simpl. rewrite Hs. cbn.
    unfold try_except, mbind, ST_bind, lift. by rewrite He. }
  split.
  2:{ intros Hs. unfold load_workflow_file. simpl. rewrite bool_decide_eq_false_2; [done|]. set_solver. }
  destruct (loads content) as [[| | | | |d]|e] eqn:Hc; try done; [|by apply (Hbad e)].
  intros wd uc Hs Hwf Huc code.
  set (wd' := dict_set (dict_set wd "realm_code" (opt_str (sp_realm_code sp))) "space_code"
                (PStr (sp_space_code sp))).
  set (config := PDict (dict_set d "workflow" (PDict wd'))).
  exists config, (set_w_registry (dict_set (w_registry w) code config) w).
  assert (annotate_config (PDict d) sp = Ok config) as Ha.
  { unfold annotate_config. rewrite (getitem_ok _ _ _ Hwf). done. }
  split_and!; [|done| | |].
  - unfold load_workflow_file. cbn [fst snd]. rewrite Hs. cbn -[loads].
    apply try_ok. unfold mbind, ST_bind, lift. rewrite Hc, (getitem_ok _ _ _ Hwf).
    cbn [mbind res_bind]. rewrite (getitem_ok _ _ _ Huc). by rewrite Ha.
  - intros b. apply find_registered; [simpl; by rewrite dict_get_set_eq|].
    subst config. simpl. rewrite bool_decide_eq_false_2; [done|].
    intros E. assert (dict_get (dict_set d "workflow" (PDict wd')) "workflow" = Some (PDict wd')) as Hg
      by apply dict_get_set_eq. by rewrite E in Hg.
  - intros code' Hne. simpl. by rewrite dict_get_set_ne by done.
  - intros k. subst config. cbn [getpath]. rewrite (getitem_ok _ _ (PDict wd')) by apply dict_get_set_eq.
    cbn [mbind res_bind getpath]. subst wd'. unfold getitem.
    destruct (String.eqb_spec k "space_code") as [->|H1]; [by rewrite dict_get_set_eq|].
    rewrite dict_get_set_ne by done.
    destruct (String.eqb_spec k "realm_code") as [->|H2]; [by rewrite dict_get_set_eq|].
    rewrite dict_get_set_ne by done. by destruct (dict_get wd k).
Qed.
End Registry.

(** ** The periodic section *)

Section Schedules.
Context `{Cron}.

(** A periodic section is read or refused with [WorkflowSyntaxError], and
    with no other error, whatever its value is: read only when its one key
    beside "payload" is "schedule", "crontab" or "interval" and the reader of
    that key accepts the value. *)
Theorem periodic_section data :
  match build_celery_schedule data with
  | Ok (text, v) => ∃ key input f,
      List.filter (λ kv, negb (String.eqb kv.1 "payload")) data = [(key, input)] ∧
      key ∈ ["schedule"; "crontab"; "interval"] ∧ schedule_function key = Some f ∧
      f input = Ok v ∧ text = py_str input
  | Raise e => e = WorkflowSyntaxError
  end.
Proof.
  unfold build_celery_schedule. destruct (List.filter _ data) as [|[key input] [|]]; try done.
  destruct (schedule_function key) as [f|] eqn:Ef; [|done].
  destruct (f input) as [v|e] eqn:Ev; [|done]. exists key, input, f. split_and!; try done.
  unfold schedule_function in Ef. repeat (case_match; simplify_eq);
    repeat match goal with E : (_ =? _)%string = true |- _ => apply String.eqb_eq in E as -> end;
    set_solver.
Qed.

Lemma split_five a b c d e : Forall (λ x, has_char c_space x = false) [a; b; c; d; e] →
  split c_space (join " " [a; b; c; d; e]) = [a; b; c; d; e].
Proof. intros Hs. exact (split_join c_space [a; b; c; d; e] ltac:(done) Hs). Qed.

(** The schedule alone, without its text *)
Definition schedule_of (data : list (string * pyval)) : res beat_schedule :=
  p ← build_celery_schedule data; Ok p.2.

(** The two spellings of a crontab: under "schedule" the day of the week
    comes third, under "crontab" last, and both are read as the same schedule,
    or both refused. *)
Theorem legacy_schedule_order m h dm my dw :
  Forall (λ x, has_char c_space x = false) [m; h; dm; my; dw] →
  is_float (join " " [m; h; dw; dm; my]) = false →
  ∀ r, r = (if crontab_valid m h dm my dw then Ok (Crontab m h dm my dw) else Raise WorkflowSyntaxError) →
  schedule_of [("schedule", PStr (join " " [m; h; dw; dm; my]))] = r ∧
  schedule_of [("crontab", PStr (join " " [m; h; dm; my; dw]))] = r.
Proof.
  intros Hs Hf r ->.
  assert (Forall (λ x, has_char c_space x = false) [m; h; dw; dm; my]) as Hs'
    by (rewrite !Forall_cons in *; tauto).
  unfold schedule_of, build_celery_schedule. cbn -[join handle_schedule handle_crontab].
  unfold handle_schedule, handle_crontab, py_float. rewrite Hf, !split_five by done.
  unfold mk_crontab. by destruct (crontab_valid _ _ _ _ _).
Qed.
End Schedules.

(** ** Concrete files *)

#[export] Instance demo_backend : Backend := {|
  remote_listdir := λ _, Ok ([], []); remote_read := λ _, Raise (PyException "no file");
  yaml_load := λ _, Raise ValueError |}.
Definition demo_path : string :=
  "/var/app/workflow/local/space00000/workflows/com/demo/wf/workflow.json".
Definition demo_text : string :=
  dumps false None (PDict [("workflow", PDict [("user_code", PStr "com.demo:wf")])]).
Lemma load_then_find_witness :
  ∃ config w', load_workflow_file demo_space (demo_path, demo_text) (demo_world (demo_tenant PNone [] []))
      = (Ok tt, w') ∧
    (∀ b, find_by_user_code "space00000.com.demo:wf" b w' = (Ok config, w')) ∧
    getpath config ["workflow"; "space_code"] = Ok (PStr "space00000").
Proof.
  pose proof (proj1 (load_then_find demo_space demo_path demo_text
    (demo_world (demo_tenant PNone [] [])))) as L.
  destruct (L [("user_code", PStr "com.demo:wf")] "com.demo:wf" eq_refl eq_refl eq_refl)
    as (config & w' & H1 & _ & H2 & _ & H3).
  exists config, w'. split; [exact H1|]. split; [exact H2|exact (H3 "space_code")].
Defined.
Lemma legacy_schedule_order_witness :
  schedule_of [("schedule", PStr "0 5 1 * *")] = Ok (Crontab "0" "5" "*" "*" "1") ∧
  schedule_of [("crontab", PStr "0 5 * * 1")] = Ok (Crontab "0" "5" "*" "*" "1").
Proof.
  refine (legacy_schedule_order "0" "5" "*" "*" "1" _ eq_refl (Ok (Crontab "0" "5" "*" "*" "1")) eq_refl).
  repeat constructor.
Defined.
