(* ===== verification/Builder.v ===== *)
(** * The builder of version 1 workflows (workflow/builder.py)

    A configuration's flat list of tasks becomes a celery chain
    [start; before-start hook; tasks...; end], with a [Task] row for every
    signature, and the failure and success hooks as callbacks. *)
From Stdlib Require Import Ascii String.
From stdpp Require Import base list strings numbers gmap sets.
From S2P Require Import Prelude PyStr PyVal Json World Demo Finmars Models Manager.
Local Open Scope string_scope.
Local Open Scope Z_scope.
Local Open Scope list_scope.

(** The attributes of a [WorkflowBuilder] that [build] fixes before it parses
    tasks; [self.workflow] and its space are read once and cached. *)
Record builder : Type := Builder {
  b_workflow : workflow_row;
  b_space : space_row;
  b_queue : string;
  b_custom_queues : list (string * pyval);
  b_imports : pyval
}.

(** [parse_queues] *)
Definition parse_queues (queue : pyval) : res (string * list (string * pyval)) :=
  '(queue, custom_queues) ←
    (match queue with
     | PDict d => Ok (from_option id (PStr "celery") (dict_get d "default"),
                      from_option id (PDict []) (dict_get d "customs"))
     | _ => Ok (queue, PDict [])
     end : res (pyval * pyval));
  match queue, custom_queues with
  | PStr q, PDict c => Ok (q, c)
  | _, _ => Raise WorkflowSyntaxError
  end.

(** [signature.set(queue=...)] of a task *)
Definition set_queue (q : string) (c : canvas) : canvas :=
  match c with
  | Sig i m => Sig i (Msg (msg_task m) (msg_args m) (msg_kwargs m) (PStr q))
  | _ => c
  end.

Section Builder.
Context `{Platform} `{Manager}.

(** [new_task]: the signature with its identifier, and the new value of
    [self.previous] *)
Definition step_signature (b : builder) (task_id name : string) : canvas :=
  let prefixed_name := sp_space_code (b_space b) +:+ "." +:+ name in
  Sig (Some task_id)
    (Msg "workflow.tasks.workflows.execute_workflow_step" []
       [("workflow_id", PInt (wf_id (b_workflow b)));
        ("payload", wf_payload (b_workflow b));
        ("context", context_of (b_space b));
        ("imports", b_imports b)]
       (default (PStr (b_queue b)) (dict_get (b_custom_queues b) prefixed_name))).
Definition new_task (b : builder) (is_hook single : bool) (previous task_name : pyval)
    : M (canvas * string * pyval) :=
  task_id ← uuid;
  name ← lift (as_str task_name);
  _ ← insert_row (set_tk_previous previous
        (new_task_row task_id (Some name) (wf_id (b_workflow b)) None
           (Some (sp_id (b_space b))) is_hook));
  mret (step_signature b task_id name, task_id, if single then PList [PStr task_id] else previous).

(** The group of tasks under a name *)
Definition new_group (b : builder) (is_hook : bool) (previous body : pyval)
    : M (canvas * pyval) :=
  has_type ← lift (py_in "type" body);
  _ ← lift (if negb has_type then
              ty ← getitem body "type";
              if py_eqb ty (PStr "group") then Ok tt else Raise WorkflowSyntaxError
            else Ok tt);
  names ← lift (l ← getitem body "tasks"; py_iter l);
  sigs ← map_each names (new_task b is_hook false previous);
  _ ← uuid;
  mret (Group ((λ x, x.1.1) <$> sigs), PList ((λ x, PStr x.1.2) <$> sigs)).

(** [parse_flat_tasks]: the canvas and the new value of [self.previous] *)
Fixpoint parse_tasks (b : builder) (is_hook : bool) (tasks : list pyval) (previous : pyval)
    : M (list canvas * pyval) :=
  match tasks with
  | [] => mret ([], previous)
  | task :: tasks' =>
      '(c, previous) ←
        match task with
        | PStr _ => x ← new_task b is_hook true previous task; mret (x.1.1, x.2)
        | PDict [] => raise IndexError
        | PDict ((_, body) :: _) => new_group b is_hook previous body
        | _ => raise WorkflowSyntaxError
        end;
      '(cs, previous) ← parse_tasks b is_hook tasks' previous;
      mret (c :: cs, previous)
  end.
(** [self.parse_flat_tasks([hook], True)[0]] *)
Definition parse_hook (b : builder) (hook previous : pyval) : M canvas :=
  x ← parse_tasks b true [hook] previous;
  match x.1 with c :: _ => mret c | [] => raise IndexError end.

(** [start.si(...)], [end.si(...)] *)
Definition boundary (b : builder) (task : string) : canvas :=
  Sig None (Msg task [PInt (wf_id (b_workflow b))] [("context", context_of (b_space b))]
              (PStr (b_queue b))).

(** What [build] leaves in the builder *)
Record built : Type := Built {
  bt_builder : builder;
  bt_canvas : list canvas;
  bt_previous : pyval;
  bt_failure_hook : pyval;
  bt_success_hook : pyval
}.

(** [build] *)
Definition build (workflow_id : Z) : M built :=
  wf ← get_by_id (R:=workflow_row) workflow_id;
  let name := default "None" (wf_user_code wf) in
  queue ← get_queue name;
  tasks ← get_tasks name;
  failure_hook ← get_failure_hook_task name;
  success_hook ← get_success_hook_task name;
  before_start_hook ← get_before_start_hook_task name;
  '(queue, custom_queues) ← lift (parse_queues queue);
  imports ← get_imports name;
  sp ← get_by_id (R:=space_row) (wf_space wf);
  let b := Builder wf sp queue custom_queues imports in
  tasks ← lift (py_iter tasks);
  '(canvas, previous) ← parse_tasks b false tasks (PList []);
  canvas ← (if truthy before_start_hook then
              c ← parse_hook b before_start_hook PNone;
              mret (set_queue queue c :: canvas)
            else mret canvas);
  mret (Built b (boundary b "workflow.tasks.workflows.start" :: canvas
                 ++ [boundary b "workflow.tasks.workflows.end"])
          previous failure_hook success_hook).

(** [build_hooks]: the failure and the success callbacks *)
Definition failure_launcher (b : builder) (failure_hook : pyval) : canvas :=
  Sig None (Msg "workflow.tasks.workflows.failure_hooks_launcher"
    [PInt (wf_id (b_workflow b)); PStr (b_queue b); PList [failure_hook]; wf_payload (b_workflow b)]
    [("context", context_of (b_space b))] (PStr (b_queue b))).
Definition build_hooks (t : built) : M (list canvas * list canvas) :=
  let b := bt_builder t in
  let '(failure, previous) :=
    if truthy (bt_failure_hook t) then ([failure_launcher b (bt_failure_hook t)], PNone)
    else ([], bt_previous t) in
  success ← (if truthy (bt_success_hook t) then
               c ← parse_hook b (bt_success_hook t) previous; mret [c]
             else mret []);
  mret (failure, success).

(** [build] then [run]: the chain is sent to celery. *)
Definition build_and_run (workflow_id : Z) : M unit :=
  t ← build workflow_id;
  _ ← uuid;
  '(failure, success) ← build_hooks t;
  publish_canvas (Chain (bt_canvas t) success failure).

(** [WorkflowBuilder.cancel]: the loop is over the related manager
    [self.workflow.tasks] itself, which cannot be iterated. *)
Definition builder_cancel (workflow_id : Z) : M unit :=
  _ ← get_by_id (R:=workflow_row) workflow_id;
  raise TypeError.
End Builder.

(** ** Tenant isolation *)

Section Stays.
Context `{Platform} (s : string) `{ManagerOk s} (w0 : world).
Abbreviation I := (Stays s w0).
Context (b : builder) (Hb : lower (sp_space_code (b_space b)) = s).

Lemma context_names : names_schema s (context_of (b_space b)).
Proof using Hb. by apply names_context_of. Qed.
Lemma step_signature_of i n : canvas_of s (step_signature b i n).
Proof using Hb.
  apply Forall_singleton, msg_of_intro; [by intros c [= <-]|right; by intros ? ?].
Qed.
Lemma set_queue_of q c : canvas_of s c → canvas_of s (set_queue q c).
Proof using. destruct c; [|done..]. unfold canvas_of. simpl. by rewrite !Forall_singleton. Qed.
Lemma boundary_of n : canvas_of s (boundary b n).
Proof using Hb.
  apply Forall_singleton, msg_of_intro; [by intros c [= <-]|right; by intros ? ?].
Qed.
Lemma group_of l : Forall (canvas_of s) l → canvas_of s (Group l).
Proof using.
  unfold canvas_of. simpl. induction 1; simpl; [constructor|]. by apply Forall_app.
Qed.

Lemma stays_new_task is_hook single previous name :
  Keeps I (new_task b is_hook single previous name) (λ x, canvas_of s x.1.1).
Proof using Hb.
  unfold new_task. solve_keeps. apply step_signature_of.
Qed.
Lemma stays_new_group is_hook previous body :
  Keeps I (new_group b is_hook previous body) (λ x, canvas_of s x.1).
Proof using Hb.
  unfold new_group. do 3 (apply keeps_bind with (φ := anything); [by apply keeps_lift|intros ? _]).
  eapply keeps_bind with (φ := Forall (λ x, canvas_of s x.1.1)).
  { apply keeps_map_each_post. intros. apply stays_new_task. }
  intros l Hl. eapply keeps_bind; [apply stays_uuid|]. intros ? _. apply keeps_ret.
  apply group_of. by apply Forall_fmap.
Qed.
Lemma stays_parse_tasks is_hook tasks : ∀ previous,
  Keeps I (parse_tasks b is_hook tasks previous) (λ x, Forall (canvas_of s) x.1).
Proof using Hb.
  induction tasks as [|t tasks IH]; intros previous; cbn [parse_tasks].
  - apply keeps_ret. constructor.
  - eapply keeps_bind with (φ := λ x, canvas_of s x.1).
    + destruct t as [|?|?|n|?|[|[? ?] ?]];
        [apply keeps_raise..| |apply keeps_raise|apply keeps_raise|apply stays_new_group].
      eapply keeps_bind; [apply stays_new_task|]. intros x Hx. by apply keeps_ret.
    + intros [c p] Hc. eapply keeps_bind; [apply IH|]. intros [cs p'] Hcs.
      apply keeps_ret. by constructor.
Qed.
Lemma stays_parse_hook hook previous :
  Keeps I (parse_hook b hook previous) (canvas_of s).
Proof using Hb.
  unfold parse_hook. eapply keeps_bind; [apply stays_parse_tasks|].
  intros [[|c l] p] Hx; [apply keeps_raise|]. apply keeps_ret. by apply Forall_inv in Hx.
Qed.
Lemma stays_build_hooks t : bt_builder t = b →
  Keeps I (build_hooks t) (λ x, Forall (canvas_of s) x.1 ∧ Forall (canvas_of s) x.2).
Proof using All.
  intros Ht. unfold build_hooks. rewrite Ht. destruct (if truthy _ then _ else _) as [f p] eqn:E.
  assert (Forall (canvas_of s) f) as Hf.
  { destruct (truthy _); simplify_eq; [|constructor]. constructor; [|constructor].
    apply Forall_singleton, msg_of_intro; [by intros c [= <-]|by left]. }
  eapply keeps_bind with (φ := Forall (canvas_of s)).
  - destruct (truthy (bt_success_hook t)); [|by apply keeps_ret].
    eapply keeps_bind; [apply stays_parse_hook|]. intros c Hc. apply keeps_ret. by constructor.
  - intros l Hl. by apply keeps_ret.
Qed.
End Stays.

Section StaysBuild.
Context `{Platform} (s : string) `{ManagerOk s} (w0 : world).
Abbreviation I := (Stays s w0).

Lemma stays_build i :
  Keeps I (build i) (λ t, lower (sp_space_code (b_space (bt_builder t))) = s
                          ∧ Forall (canvas_of s) (bt_canvas t)).
Proof.
  unfold build, get_failure_hook_task, get_success_hook_task, get_before_start_hook_task.
  eapply keeps_bind; [apply stays_get_by_id|]. intros wf _.
  do 5 (eapply keeps_bind; [solve [eauto with keeps]|]; intros ? _).
  eapply keeps_bind with (φ := anything); [by apply keeps_lift|]. intros [q c] _.
  eapply keeps_bind; [solve [eauto with keeps]|]. intros imports _.
  eapply keeps_bind; [apply stays_space_get|]. intros sp Hsp.
  eapply keeps_bind with (φ := anything); [by apply keeps_lift|]. intros tasks _.
  eapply keeps_bind; [by apply stays_parse_tasks|]. intros [canvas previous] Hc.
  eapply keeps_bind with (φ := Forall (canvas_of s)).
  - destruct (truthy _); [|by apply keeps_ret].
    eapply keeps_bind; [by apply stays_parse_hook|]. intros h Hh. apply keeps_ret.
    constructor; [|done]. by apply set_queue_of.
  - intros l Hl. apply keeps_ret. simpl. split; [done|].
    constructor; [by apply boundary_of|]. apply Forall_app. split; [done|].
    apply Forall_singleton. by apply boundary_of.
Qed.
Lemma canvas_of_chain l k e :
  Forall (canvas_of s) l → Forall (canvas_of s) k → Forall (canvas_of s) e →
  canvas_of s (Chain l k e).
Proof.
  intros Hl Hk He. unfold canvas_of. simpl.
  rewrite !Forall_app. split_and!; by apply (group_of s).
Qed.
Lemma stays_build_and_run i : Keeps I (build_and_run i) anything.
Proof.
  unfold build_and_run. eapply keeps_bind; [apply stays_build|]. intros t [Hsp Hl].
  eapply keeps_bind; [apply stays_uuid|]. intros ? _.
  eapply keeps_bind; [by eapply (stays_build_hooks s w0 (bt_builder t))|].
  intros [f k] [Hf Hk]. apply stays_publish_canvas. by apply canvas_of_chain.
Qed.
End StaysBuild.

(** ** The chain of a version 1 workflow *)

Section Chain.
Context `{Platform} `{Manager}.

(** The task row made for a name, with its signature *)
Definition row_of (b : builder) (h : bool) (n : string) (cx : canvas * task_row) : Prop :=
  let '(c, x) := cx in
  ∃ i, tk_celery_task_id x = Some i ∧ c = step_signature b i n ∧ tk_name x = Some n ∧
    tk_status x = TInit ∧ tk_workflow x = wf_id (b_workflow b) ∧
    tk_space x = Some (sp_id (b_space b)) ∧ tk_is_hook x = h.
(** Each row records the identifier of the one before it. *)
Fixpoint linked (previous : pyval) (l : list task_row) : Prop :=
  match l with
  | [] => True
  | x :: l' => tk_previous x = Ok (sort_val previous) ∧
               linked (PList [opt_str (tk_celery_task_id x)]) l'
  end.

Lemma new_task_run b h previous n w t : cur w = Some t → wf_val previous = true →
  ∃ i x w' t', new_task b h true previous (PStr n) w
      = (Ok (step_signature b i n, i, PList [PStr i]), w') ∧
    cur w' = Some t' ∧ rows (t_tasks t') = rows (t_tasks t) ++ [x] ∧
    row_of b h n (step_signature b i n, x) ∧ tk_celery_task_id x = Some i ∧
    tk_previous x = Ok (sort_val previous) ∧ w_broker w' = w_broker w.
Proof.
  intros Hw Hp. unfold new_task. set (w1 := set_w_uuids (S (w_uuids w)) w).
  rewrite (bind_ok _ _ w (uuid4 (w_uuids w)) w1) by done.
  rewrite (bind_ok _ _ w1 n w1) by done.
  rewrite (bind_ok _ _ _ _ _ (insert_run _ w1 t Hw)). set (r := with_created _ _).
  exists (uuid4 (w_uuids w)), r. do 2 eexists. split; [reflexivity|].
  split; [apply cur_with_tenant|]. split; [done|].
  split; [by exists (uuid4 (w_uuids w))|]. split; [done|].
  split; [by apply json_column_roundtrip|done].
Qed.
Lemma flat_tasks_run b h names : ∀ previous w t, cur w = Some t → wf_val previous = true →
  ∃ l last w' t', parse_tasks b h (PStr <$> names) previous w = (Ok (l.*1, last), w') ∧
    cur w' = Some t' ∧ rows (t_tasks t') = rows (t_tasks t) ++ l.*2 ∧
    Forall2 (row_of b h) names l ∧ linked previous l.*2 ∧ w_broker w' = w_broker w.
Proof.
  induction names as [|n names IH]; intros previous w t Hw Hp.
  { exists [], previous, w, t. split; [done|]. split; [done|]. by rewrite app_nil_r. }
  destruct (new_task_run b h previous n w t Hw Hp)
    as (i & x & w1 & t1 & Hn & Hw1 & Ht1 & Hr & Hi & Hpr & Hb).
  destruct (IH (PList [PStr i]) w1 t1 Hw1 eq_refl) as (l & last & w2 & t2 & Hl & Hw2 & Ht2 & Hf & Hk & Hb2).
  exists ((step_signature b i n, x) :: l), last, w2, t2. rewrite !fmap_cons. cbn [parse_tasks].
  rewrite (bind_ok _ _ w (step_signature b i n, PList [PStr i]) w1)
    by (by rewrite (bind_ok _ _ _ _ _ Hn)).
  rewrite (bind_ok _ _ _ _ _ Hl). split; [done|]. split; [done|].
  split; [by rewrite Ht2, Ht1, <- app_assoc|]. split; [by constructor|].
  split; [|by rewrite Hb2]. simpl. by rewrite Hi.
Qed.

(** A flat version 1 configuration, without hooks and queue *)
Definition flat_config (names : list string) : pyval :=
  PDict [("workflow", PDict [("tasks", PList (PStr <$> names))])].

(** C27: running a flat version 1 workflow sends one chain: the start message,
    one step per task in the order of the configuration, the end message, and
    no callbacks; for every step a waiting task row is created, in the same
    order, which carries the step's identifier and records that of the step
    before it. *)
Theorem flat_workflow_chain wf sp names w t : cur w = Some t →
  the_row wf (rows (t_workflows t)) → the_row sp (rows (t_spaces t)) → wf_space wf = sp_id sp →
  get_by_user_code (default "None" (wf_user_code wf)) false w = (Ok (flat_config names), w) →
  let b := Builder wf sp "workflow" [] PNone in
  ∃ l w' t', build_and_run (wf_id wf) w = (Ok tt, w') ∧ cur w' = Some t' ∧
    rows (t_tasks t') = rows (t_tasks t) ++ l.*2 ∧
    Forall2 (row_of b false) names l ∧ linked (PList []) l.*2 ∧
    w_broker w' = w_broker w ++
      [Chain (boundary b "workflow.tasks.workflows.start" :: l.*1
              ++ [boundary b "workflow.tasks.workflows.end"]) [] []].
Proof.
  intros Hw Hwf Hsp Hspace Hg b. unfold build_and_run.
  destruct (flat_tasks_run b false names (PList []) w t Hw eq_refl)
    as (l & last & w1 & t1 & Hl & Hw1 & Ht1 & Hf & Hk & Hb).
  set (name := default "None" (wf_user_code wf)) in *.
  assert (get_workflow_config name w = (Ok (PDict [("tasks", PList (PStr <$> names))]), w)) as Hc
    by (unfold get_workflow_config; by rewrite (bind_ok _ _ _ _ _ Hg)).
  assert (∀ hook, get_hook_task name hook w = (Ok PNone, w)) as Hh
    by (intros hook; unfold get_hook_task; by rewrite (bind_ok _ _ _ _ _ Hc)).
  assert (build (wf_id wf) w = (Ok (Built b (boundary b "workflow.tasks.workflows.start" :: l.*1
              ++ [boundary b "workflow.tasks.workflows.end"]) last PNone PNone), w1)) as Hbuild.
  { unfold build, get_failure_hook_task, get_success_hook_task, get_before_start_hook_task.
    rewrite (bind_ok _ _ _ _ _ (get_workflow_run wf w t Hw Hwf)). fold name.
    rewrite (bind_ok _ _ w (PStr "workflow") w)
      by (unfold get_queue; rewrite (try_raise _ _ w (KeyError "queue") w);
          [done|by rewrite (bind_ok _ _ _ _ _ Hc)]).
    rewrite (bind_ok _ _ w (PList (PStr <$> names)) w)
      by (unfold get_tasks; by rewrite (bind_ok _ _ _ _ _ Hc)).
    do 3 rewrite (bind_ok _ _ _ _ _ (Hh _)).
    rewrite (bind_ok _ _ w ("workflow", []) w) by done.
    rewrite (bind_ok _ _ w PNone w) by (unfold get_imports; by rewrite (bind_ok _ _ _ _ _ Hc)).
    rewrite Hspace. rewrite (bind_ok _ _ _ _ _ (get_space_run sp w t Hw Hsp)). fold b.
    rewrite (bind_ok _ _ w (PStr <$> names) w) by done.
    rewrite (bind_ok _ _ _ _ _ Hl). by rewrite (bind_ok _ _ w1 l.*1 w1). }
  rewrite (bind_ok _ _ _ _ _ Hbuild).
  set (w2 := set_w_uuids (S (w_uuids w1)) w1). rewrite (bind_ok _ _ w1 (uuid4 (w_uuids w1)) w2) by done.
  rewrite (bind_ok _ _ w2 ([], []) w2) by done. do 3 eexists. split; [reflexivity|].
  split; [exact Hw1|]. split; [done|]. split; [done|]. split; [done|]. simpl. by rewrite Hb.
Qed.
End Chain.

Definition chain_wf : workflow_row :=
  set_wf_id 1 (new_workflow_row 1 1 (Some "space00000.com.demo:wf") None None false None None None).
Lemma flat_workflow_chain_witness :
  let w := set_w_path "space00000" (demo_world (demo_tenant PNone [chain_wf] [])) in
  ∃ (l : list (canvas * task_row)) w' t', @build_and_run _ (demo_manager (flat_config ["load"; "report"])) 1 w = (Ok tt, w') ∧
    cur w' = Some t' ∧ rows (t_tasks t') = l.*2 ∧ length l = 2%nat ∧ linked (PList []) l.*2.
Proof.
  intros w. destruct (@flat_workflow_chain _ (demo_manager (flat_config ["load"; "report"])) chain_wf
    demo_space ["load"; "report"] w (demo_tenant PNone [chain_wf] []) eq_refl eq_refl eq_refl eq_refl
    eq_refl) as (l & w' & t' & H1 & H2 & H3 & H4 & H5 & _).
  exists l, w', t'. split; [exact H1|]. split; [exact H2|]. split; [exact H3|].
  split; [exact (eq_sym (Forall2_length _ _ _ H4))|exact H5].
Defined.
