(* ===== verification/Launch.v ===== *)
(** * Starting a workflow (workflow/workflows.py, Workflow.run_new_workflow) *)
From Stdlib Require Import Ascii String.
From stdpp Require Import base list strings numbers gmap sets.
From S2P Require Import Prelude PyStr PyVal Json World Demo Finmars Models Manager Builder.
Local Open Scope string_scope.
Local Open Scope Z_scope.
Local Open Scope list_scope.

(** What a [BooleanField] accepts *)
Definition bool_field (v : pyval) : res bool :=
  match v with
  | PBool b => Ok b
  | PInt 0 => Ok false
  | PInt 1 => Ok true
  | PStr s => if bool_decide (s ∈ ["t"; "True"; "1"]) then Ok true
              else if bool_decide (s ∈ ["f"; "False"; "0"]) then Ok false
              else Raise (ValidationError "boolean")
  | _ => Raise (ValidationError "boolean")
  end.

(** [".".join(user_code.split(".")[1:])] *)
Definition space_less (user_code : string) : string := join "." (tl (split c_dot user_code)).

(** [WorkflowTemplate.objects.get(user_code=..., space=...)] *)
Definition get_template (user_code : string) (space : Z) : M template_row :=
  objects_get (λ wt, bool_decide (wt_user_code wt = Some user_code) && (wt_space wt =? space)).
(** ... with [except WorkflowTemplate.DoesNotExist: pass] *)
Definition find_template (user_code : string) (space : Z) : M (option template_row) :=
  try_except (wt ← get_template user_code space; mret (Some wt))
    (λ e, match e with
          | DoesNotExist m => if String.eqb m "WorkflowTemplate" then mret None else raise e
          | _ => raise e
          end).

Definition get_user (username : string) : M user_row :=
  objects_get (λ u, String.eqb (us_username u) username).
Definition get_space_by_code (space_code : string) : M space_row :=
  objects_get (λ sp, String.eqb (sp_space_code sp) space_code).

(** [execute_workflow_v2.apply_async(kwargs=..., queue="workflow")] *)
Definition publish_v2 (workflow_id : Z) (space_code realm_code : pyval) : M unit :=
  publish (Msg "workflow.tasks.workflows.execute_workflow_v2" []
    [("workflow_id", PInt workflow_id);
     ("context", PDict [("space_code", space_code); ("realm_code", realm_code)])]
    (PStr "workflow")).

Section Launch.
Context `{Platform} `{Manager}.

(** [execute_workflow] *)
Definition execute_workflow (username user_code : string) (payload : pyval)
    (realm_code : option string) (space_code : string)
    (platform_task_id crontab_id : option Z) : M pyval :=
  let payload := match payload with PNone => PDict [] | _ => payload end in
  user ← get_user username;
  wf ← get_by_user_code user_code true;
  space ← get_space_by_code space_code;
  template ← find_template (space_less user_code) (sp_id space);
  is_manager ← lift (c ← getitem wf "workflow";
                     b ← get_default c "is_manager" (PBool false); bool_field b);
  obj ← create_workflow (set_wf_payload payload
          (new_workflow_row (us_id user) (sp_id space) (Some user_code) None (wt_id <$> template)
             is_manager platform_task_id crontab_id None));
  version ← lift (get wf "version");
  _ ← (if py_eqb version (PStr "2")
       then publish_v2 (wf_id obj) (PStr space_code) (opt_str realm_code)
       else build_and_run (wf_id obj));
  mret (wf_to_dict obj true).

(** [Workflow.run_new_workflow] *)
Definition run_new_workflow (self : workflow_row) (user_code : option string) (payload : pyval)
    : M pyval :=
  let payload := match payload with PNone => PDict [] | _ => payload end in
  match truthy_str user_code with
  | None => raise (PyException "User code is required.")
  | Some user_code =>
      if negb (wf_is_manager self)
      then raise (PyException "Workflow is not manager. Can't run new workflow.")
      else
        sp ← get_by_id (R:=space_row) (wf_space self);
        let user_code := sp_space_code sp +:+ "." +:+ user_code in
        new_workflow ← get_by_user_code user_code true;
        is_manager ← lift (c ← getitem new_workflow "workflow";
                           get_default c "is_manager" (PBool false));
        if truthy is_manager
        then raise (PyException "New Workflow is manager. Manager can't execute another manager")
        else
          owner ← get_by_id (R:=user_row) (wf_owner self);
          execute_workflow (us_username owner) user_code payload
            (sp_realm_code sp) (sp_space_code sp) None None
  end.
End Launch.

(** ** Tenant isolation *)

(** A code of the tenant [s] has no dot: [SET search_path] would not accept it. *)
Lemma has_dot_lower c : has_char c_dot c = has_char c_dot (lower c).
Proof.
  induction c as [|a c IH]; [done|]. unfold lower in *. simpl. rewrite IH. f_equal.
  destruct a as [[] [] [] [] [] [] [] []]; reflexivity.
Qed.
Lemma user_code_of_prefixed s code uc :
  lower code = s → s ≠ "" → has_char c_dot s = false → user_code_of s (code +:+ "." +:+ uc).
Proof.
  intros Hc Hne Hd. unfold user_code_of, space_prefix.
  change ("." +:+ uc) with (String c_dot uc).
  rewrite split_app_sep by (by rewrite has_dot_lower, Hc). simpl. split; [|done].
  intros ->. by subst.
Qed.

Section Stays.
Context `{Platform} (s : string) `{ManagerOk s} (w0 : world).
Abbreviation I := (Stays s w0).

Lemma stays_space_by_code c :
  Keeps I (get_space_by_code c) (λ sp, sp_space_code sp = c ∧ lower c = s).
Proof.
  eapply keeps_bind with (φ := Forall (λ sp, sp_space_code sp = c ∧ lower c = s)).
  { eapply keeps_bind; [apply stays_current_tenant|]. intros t Ht. apply keeps_ret.
    unfold ordered. simpl. rewrite Forall_forall in *. intros x Hx.
    apply list_elem_of_In, filter_In in Hx as [Hx Hc]. apply String.eqb_eq in Hc as <-.
    split; [done|]. apply Ht. by apply list_elem_of_In. }
  intros [|sp [|]] Hl; [apply keeps_raise| |apply keeps_raise].
  apply keeps_ret. by apply Forall_inv in Hl.
Qed.
Lemma stays_publish_v2 i c r : lower c = s → Keeps I (publish_v2 i (PStr c) r) anything.
Proof. intros Hc. apply stays_publish, msg_of_intro; [by intros ? [= <-]|by left]. Qed.
Lemma stays_find_template uc i : Keeps I (find_template uc i) anything.
Proof. unfold find_template, get_template. solve_keeps. Qed.
Lemma stays_execute_workflow username uc payload realm code ptid ctid :
  user_code_of s uc → Keeps I (execute_workflow username uc payload realm code ptid ctid) anything.
Proof.
  intros Huc. unfold execute_workflow.
  eapply keeps_bind; [apply stays_get|]. intros user _.
  eapply keeps_bind; [by apply stays_get_by_user_code|]. intros wf _.
  eapply keeps_bind; [apply stays_space_by_code|]. intros sp [Hsp Hc].
  eapply keeps_bind; [apply stays_find_template|]. intros template _.
  eapply keeps_bind with (φ := anything); [by apply keeps_lift|]. intros b _.
  eapply keeps_bind; [apply stays_create_workflow|]. intros obj _.
  eapply keeps_bind with (φ := anything); [by apply keeps_lift|]. intros v _.
  eapply keeps_bind with (φ := anything); [|intros; by apply keeps_ret].
  destruct (py_eqb _ _); [by apply stays_publish_v2|by apply stays_build_and_run].
Qed.
Lemma stays_run_new_workflow self uc payload :
  s ≠ "" → has_char c_dot s = false → Keeps I (run_new_workflow self uc payload) anything.
Proof.
  intros Hne Hd. unfold run_new_workflow. destruct (truthy_str uc) as [u|]; [|apply keeps_raise].
  destruct (negb _); [apply keeps_raise|].
  eapply keeps_bind; [apply stays_space_get|]. intros sp Hsp.
  pose proof (user_code_of_prefixed s _ u Hsp Hne Hd) as Huc.
  eapply keeps_bind; [by apply stays_get_by_user_code|]. intros c _.
  eapply keeps_bind with (φ := anything); [by apply keeps_lift|]. intros b _.
  destruct (truthy b); [apply keeps_raise|].
  eapply keeps_bind; [apply stays_get_by_id|]. intros owner _.
  by apply stays_execute_workflow.
Qed.
End Stays.

(** ** What a launch leaves behind *)

Section Launched.
Context `{Platform} `{Manager}.

Lemma create_workflow_run wf w t : cur w = Some t → is_final (wf_status_ wf) = false →
  ∃ wf' w' t', create_workflow wf w = (Ok wf', w') ∧ cur w' = Some t' ∧
    t' = set_t_workflows (Table (rows (t_workflows t) ++ [wf']) (next_id (t_workflows t) + 1)) t ∧
    wf' = set_wf_created_at (w_clock w) (set_wf_modified_at (w_clock w)
            (set_wf_id (next_id (t_workflows t)) wf)) ∧ w_broker w' = w_broker w.
Proof.
  intros Hw Hf. unfold create_workflow. rewrite (bind_ok _ _ _ _ _ (insert_run wf w t Hw)).
  unfold after_save. simpl. rewrite Hf. do 3 eexists.
  split; [by destruct (truthy_id _)|]. split; [apply cur_with_tenant|]. done.
Qed.

(** C10: launching a version 2 workflow: with one user of that name, one space of
    that code and at most one template, a configuration with version "2" gives
    one new workflow row, waiting in status INIT, with its owner, space, user
    code, payload and template, and one start message that names the row and
    the space; the answer describes the row. *)
Theorem execute_workflow_v2_launches user sp template username uc payload realm code pid cid c d w t :
  cur w = Some t →
  List.filter (λ u, String.eqb (us_username u) username) (rows (t_users t)) = [user] →
  List.filter (λ s, String.eqb (sp_space_code s) code) (rows (t_spaces t)) = [sp] →
  List.filter (λ wt, bool_decide (wt_user_code wt = Some (space_less uc)) && (wt_space wt =? sp_id sp))
    (rows (t_templates t)) = option_list template →
  get_by_user_code uc true w = (Ok (PDict c), w) →
  dict_get c "workflow" = Some (PDict d) → dict_get c "version" = Some (PStr "2") →
  from_option id (PBool false) (dict_get d "is_manager") = PBool false → wf_val payload = true →
  ∃ obj w' t', execute_workflow username uc payload realm code pid cid w
      = (Ok (wf_to_dict obj true), w') ∧
    cur w' = Some t' ∧ rows (t_workflows t') = rows (t_workflows t) ++ [obj] ∧
    wf_id obj = next_id (t_workflows t) ∧ wf_status_ obj = WInit ∧ wf_owner obj = us_id user ∧
    wf_space obj = sp_id sp ∧ wf_user_code obj = Some uc ∧ wf_template obj = wt_id <$> template ∧
    wf_parent obj = None ∧ wf_platform_task_id obj = pid ∧
    wf_payload obj = (if truthy payload then sort_val payload else PDict []) ∧
    w_broker w' = w_broker w ++
      [Sig None (Msg "workflow.tasks.workflows.execute_workflow_v2" []
         [("workflow_id", PInt (wf_id obj));
          ("context", PDict [("space_code", PStr code); ("realm_code", opt_str realm)])]
         (PStr "workflow"))].
Proof.
  intros Hw Hu Hs Ht Hg Hc Hv Hm Hp. unfold execute_workflow.
  set (payload' := match payload with PNone => PDict [] | _ => payload end).
  rewrite (bind_ok _ _ w user w) by (by apply (get_run _ w t)).
  rewrite (bind_ok _ _ _ _ _ Hg).
  rewrite (bind_ok _ _ w sp w) by (by apply (get_run _ w t)).
  rewrite (bind_ok _ _ w template w).
  2:{ unfold find_template, get_template. destruct template as [wt|].
      - apply try_ok. by rewrite (bind_ok _ _ w wt w) by (by apply (get_run _ w t)).
      - erewrite try_raise; [|apply bind_raise; by apply (get_none _ w t)]. done. }
  rewrite (bind_ok _ _ w false w).
  2:{ unfold lift. rewrite (getitem_ok _ _ _ Hc). cbn [mbind res_bind get_default]. by rewrite Hm. }
  match goal with |- context [create_workflow ?x] => set (new := x) end.
  destruct (create_workflow_run new w t Hw eq_refl) as (obj & w1 & t1 & Hcr & Hw1 & Ht1 & Hobj & Hb).
  rewrite (bind_ok _ _ _ _ _ Hcr).
  rewrite (bind_ok _ _ w1 (PStr "2") w1) by (unfold lift, get, get_default; by rewrite Hv).
  cbn [py_eqb String.eqb]. cbn. rewrite (bind_ok _ _ w1 tt _) by reflexivity.
  exists obj. do 2 eexists. split; [reflexivity|]. split; [exact Hw1|]. rewrite Ht1.
  split; [done|]. subst obj. split_and!; try done.
  - subst new payload'. change (wf_payload _) with (wf_payload (set_wf_payload
      (match payload with PNone => PDict [] | _ => payload end) 
      (new_workflow_row (us_id user) (sp_id sp) (Some uc) None (wt_id <$> template) false pid cid None))).
    destruct payload; [done|..]; apply workflow_payload_roundtrip; exact Hp.
  - simpl. by rewrite Hb.
Qed.
End Launched.

Lemma execute_workflow_v2_launches_witness :
  let t := demo_tenant PNone [] [] in
  let w := set_w_path "space00000" (demo_world t) in
  let config := PDict [("workflow", PDict [("user_code", PStr "com.demo:wf")]); ("version", PStr "2")] in
  ∃ obj w' t', @execute_workflow _ (demo_manager config) "admin" "space00000.com.demo:wf" PNone
      (Some "realm00000") "space00000" None None w = (Ok (wf_to_dict obj true), w') ∧
    cur w' = Some t' ∧ rows (t_workflows t') = [obj] ∧ wf_status_ obj = WInit ∧
    wf_template obj = Some 1 ∧ length (w_broker w') = 1%nat.
Proof.
  intros t w config. destruct (@execute_workflow_v2_launches _ (demo_manager config) demo_user demo_space
    (Some (demo_template PNone)) "admin" "space00000.com.demo:wf" PNone (Some "realm00000")
    "space00000" None None [("workflow", PDict [("user_code", PStr "com.demo:wf")]); ("version", PStr "2")]
    [("user_code", PStr "com.demo:wf")] w t eq_refl eq_refl eq_refl eq_refl eq_refl eq_refl eq_refl
    eq_refl eq_refl)
    as (obj & w' & t' & H1 & H2 & H3 & _ & H4 & _ & _ & _ & H5 & _ & _ & _ & H6).
  exists obj, w', t'. split; [exact H1|]. split; [exact H2|]. split; [exact H3|]. split; [exact H4|].
  split; [exact H5|]. rewrite H6. reflexivity.
Defined.
