(* ===== verification/Tasks.v ===== *)
(** * The celery tasks (workflow/tasks/base.py, workflow/tasks/workflows.py)

    The life of a task row ([BaseTask]), the failure handlers, and the tasks
    the workers run, with [process_next_node] at the centre of the version 2
    engine.  [fuel] bounds the chain of parent workflows climbed. *)
From Stdlib Require Import Ascii String.
From stdpp Require Import base list strings numbers gmap sets.
From S2P Require Import Prelude PyStr PyVal Json Paths World Demo Graph Finmars Models Manager.
From S2P Require Import Builder Launch.
Local Open Scope string_scope.
Local Open Scope Z_scope.
Local Open Scope list_scope.

(** Keyword arguments of a task: [kwargs.get(k)] *)
Definition kwget (kw : list (string * pyval)) (k : string) : pyval :=
  default PNone (dict_get kw k).

(** [Task.objects.get(celery_task_id=task_id)] *)
Definition get_task_by_celery_id (task_id : option string) : M task_row :=
  objects_get (λ t, bool_decide (tk_celery_task_id t = task_id)).

(** [cleanup], the receiver of [task_postrun] *)
Definition cleanup : M unit := set_search_path "public".

(** [Task.objects.get(workflow=..., node_id=...)] where the node id comes from
    a document: [None] is matched by IS NULL. *)
Definition node_is (v : pyval) (o : option string) : bool :=
  match v with
  | PNone => bool_decide (o = None)
  | PStr s => bool_decide (o = Some s)
  | PInt z => bool_decide (o = Some (str_of_Z z))
  | _ => false
  end.

(** [are_inputs_ready] *)
Definition input_ready (wf : workflow_row) (input_node : pyval) : M bool :=
  try_except
    (t ← objects_get (λ t, (tk_workflow t =? wf_id wf) && node_is input_node (tk_node_id t));
     mret (bool_decide (tk_status t = TSuccess)))
    (λ _, mret false).
Fixpoint all_ready (wf : workflow_row) (l : list pyval) : M bool :=
  match l with
  | [] => mret true
  | n :: l' => b ← input_ready wf n; if (b : bool) then all_ready wf l' else mret false
  end.
Definition are_inputs_ready (wf : workflow_row) (node_id : string) (connections : pyval) : M bool :=
  l ← lift (input_nodes node_id connections); all_ready wf l.

(** ** BaseTask *)

(** [update_progress]: a fresh copy of the row is changed. *)
Definition base_update_progress (self_task : task_row) (progress : pyval) : M unit :=
  task ← get_by_id (R:=task_row) (tk_id self_task);
  _ ← save_row (set_tk_progress progress task);
  mret tt.
(** [log]: the copy held by the task object is changed and saved. *)
Definition base_log (self_task : task_row) (message : string) : M task_row :=
  let old := default "" (truthy_str (tk_log self_task)) in
  save_row (set_tk_log (Some (old +:+ message +:+ String (chr 10) "")) self_task).
(** [is_workflow_already_running] *)
Definition is_workflow_already_running (self_task : task_row) (user_code : string) : M bool :=
  l ← objects_filter (λ wf, negb (wf_id wf =? tk_workflow self_task)
        && bool_decide (wf_user_code wf = Some user_code)
        && bool_decide (wf_status_ wf = WProgress));
  mret (match l with [] => false | _ => true end).

Section Tasks.
Context `{Platform} `{Manager} `{UserCode} `{Celery}.

(** [before_start] *)
Definition before_start (task_id : option string) (kw : list (string * pyval)) : M task_row :=
  _ ← set_schema_from_context (kwget kw "context");
  task ← get_task_by_celery_id task_id;
  task ← save_row (set_tk_worker_name (Some hostname) (set_tk_status TProgress task));
  _ ← get_by_id (R:=workflow_row) (tk_workflow task);
  mret task.
(** [on_success] *)
Definition on_success (fuel : nat) (task_id : option string) (kw : list (string * pyval))
    (retval : pyval) : M unit :=
  _ ← set_schema_from_context (kwget kw "context");
  task ← get_task_by_celery_id task_id;
  handle_task_success fuel retval task.

(** [send_alert]: an error is logged. *)
Definition alert_body (wf : workflow_row) : pyval :=
  PDict [("expression", PStr ("send_system_message(type='error', title='Workflow Failed. "
            +:+ default "None" (wf_user_code wf) +:+ " (" +:+ str_of_Z (wf_id wf)
            +:+ ")', description='Something Went Wrong. See Task for the details', action_status='required')"));
         ("is_eval", PBool true)].
Definition send_alert (wf : workflow_row) : M unit :=
  if bool_decide (wf_status_ wf = WError) then
    try_except
      (bot ← get_user "finmars_bot";
       _ ← tasks_of wf;
       sp ← get_by_id (R:=space_row) (wf_space wf);
       _ ← send_request (Request "post" (space_url sp "/api/v1/utils/expression/")
             (Some (dumps false None (alert_body wf))) (user_token bot));
       mret tt)
      (λ _, mret tt)
  else mret tt.

(** The statuses [on_failure] writes *)
Definition is_time_limit (e : exn) : bool :=
  match e with TimeLimitExceeded | SoftTimeLimitExceeded => true | _ => false end.
Definition fail_task (e : exn) (task : task_row) : M task_row :=
  let task := set_tk_status (if is_time_limit e then TTimeout else TError) task in
  let task := set_tk_result (PDict [("exception", PStr (exn_text e));
                                    ("traceback", PStr (traceback e))]) task in
  mark_task_as_finished (set_tk_error_message (Some (exn_text e)) task).
Definition fail_workflow (e : exn) (wf : workflow_row) : workflow_row :=
  set_wf_status_ (if is_time_limit e then WTimeout else WError) wf.

(** [on_failure] *)
Fixpoint on_failure (fuel : nat) (kw : list (string * pyval)) (task_id : option string) (e : exn)
    : M unit :=
  match fuel with
  | O => raise RecursionError
  | S fuel =>
      _ ← set_schema_from_context (kwget kw "context");
      task ← get_task_by_celery_id task_id;
      workflow ← get_by_id (R:=workflow_row) (tk_workflow task);
      task ← fail_task e task;
      task ← save_row task;
      workflow ← save_workflow (fail_workflow e workflow);
      own ← get_by_id (R:=workflow_row) (tk_workflow task);
      parent ← fetch_fk (R:=workflow_row) (wf_parent own);
      _ ← match parent with
          | Some parent_workflow =>
              sp ← get_by_id (R:=space_row) (wf_space own);
              parent_task ← objects_get (λ t,
                (tk_workflow t =? wf_id parent_workflow) &&
                bool_decide (tk_node_id t = wf_node_id own) &&
                bool_decide (tk_space t = Some (sp_id sp)));
              on_failure fuel kw (tk_celery_task_id parent_task) e
          | None => mret tt
          end;
      send_alert workflow
  end.

(** ** Version 1: the ends of a chain and the hooks *)

Definition start (workflow_id : Z) (kw : list (string * pyval)) : M unit :=
  _ ← set_schema_from_context (kwget kw "context");
  workflow ← get_by_id (R:=workflow_row) workflow_id;
  _ ← save_workflow (set_wf_status_ WProgress workflow);
  mret tt.
Definition end_ (workflow_id : Z) (kw : list (string * pyval)) : M unit :=
  _ ← sleep_us 500000;
  _ ← set_schema_from_context (kwget kw "context");
  workflow ← get_by_id (R:=workflow_row) workflow_id;
  if bool_decide (wf_status_ workflow = WError) then mret tt
  else _ ← save_workflow (set_wf_status_ WSuccess workflow); mret tt.
Definition mark_as_canceled_init_tasks (workflow_id : Z) (kw : list (string * pyval)) : M unit :=
  _ ← set_schema_from_context (kwget kw "context");
  tasks ← objects_filter (λ t, (tk_workflow t =? workflow_id) && bool_decide (tk_status t = TInit));
  for_each tasks (λ task,
    task ← mark_task_as_finished (set_tk_status TCanceled task);
    _ ← save_row task;
    mret tt).

(** The tasks [celery_app.tasks] knows: those of this file, and celery's own *)
Definition app_tasks : list string :=
  (λ n, "workflow.tasks.workflows." +:+ n) <$>
  ["ping"; "start"; "end"; "mark_as_canceled_init_tasks"; "failure_hooks_launcher"; "execute";
   "execute_workflow_step"; "execute_workflow_v2"; "process_next_node"].
Definition is_registered (name : string) : bool :=
  bool_decide (name ∈ app_tasks) || celery_builtin name.

(** [task.save()] of a new task: the column [space_id] is NOT NULL. *)
Definition insert_task (t : task_row) : M task_row :=
  match tk_space t with Some _ => insert_row t | None => raise IntegrityError end.

Definition launch_hook (workflow_id : Z) (payload context name : pyval) : M canvas :=
  task_id ← uuid;
  n ← lift (as_str name);
  if is_registered n then
    _ ← insert_task (new_task_row task_id (Some n) workflow_id None None true);
    mret (Sig (Some task_id) (Msg n []
      [("workflow_id", PInt workflow_id); ("payload", payload); ("context", context)]
      (PStr "workflow")))
  else raise AttributeError.
(** [failure_hooks_launcher]; a chain of nothing gives no result object. *)
Definition failure_hooks_launcher (workflow_id : Z) (tasks_names : list pyval) (payload : pyval)
    (kw : list (string * pyval)) : M unit :=
  let context := kwget kw "context" in
  _ ← set_schema_from_context context;
  canvas ← map_each tasks_names (launch_hook workflow_id payload context);
  _ ← uuid;
  match canvas with
  | [] => raise AttributeError
  | _ =>
      _ ← publish_canvas (Chain canvas [] []);
      task_id ← uuid;
      publish_canvas (Sig (Some task_id)
        (Msg "workflow.tasks.workflows.mark_as_canceled_init_tasks" []
           [("workflow_id", PInt workflow_id)] (PStr "workflow")))
  end.

(** [execute]: what a schedule runs; every error is logged. *)
Definition id_is (v : pyval) (i : Z) : bool :=
  match v with PInt z => z =? i | _ => false end.
Definition opt_id (v : pyval) : option Z := match v with PInt z => Some z | _ => None end.
Definition execute (user_code : string) (payload : pyval) (kw : list (string * pyval)) : M pyval :=
  try_except
    (let context := kwget kw "context" in
     _ ← set_schema_from_context context;
     let schedule_id := kwget kw "schedule_id" in
     n ← now;
     _ ← update_rows (λ s, id_is schedule_id (sc_id s)) (set_sc_last_run_at (Some n));
     schedule ← objects_get (λ s : schedule_row, id_is schedule_id (sc_id s));
     username ← (o ← get_by_id (R:=user_row) (sc_owner schedule); mret (us_username o));
     owner ← get_user username;
     code ← lift (c ← get context "space_code"; as_str c);
     space ← get_space_by_code code;
     execute_workflow (us_username owner) user_code payload (sp_realm_code space)
       (sp_space_code space) None (opt_id (kwget kw "crontab_id")))
    (λ _, mret PNone).
End Tasks.

(** ** What the tasks promise *)

Section Promises.
Context `{Platform}.

(** The tasks of a workflow at a node *)
Definition tasks_at (wf : workflow_row) (n : string) (t : tenant) : list task_row :=
  List.filter (λ x, (tk_workflow x =? wf_id wf) && bool_decide (tk_node_id x = Some n))
    (rows (t_tasks t)).
Definition input_done (wf : workflow_row) (t : tenant) (n : string) : bool :=
  match tasks_at wf n t with [x] => bool_decide (tk_status x = TSuccess) | _ => false end.

Lemma input_ready_spec wf n w t : cur w = Some t →
  input_ready wf (PStr n) w = (Ok (input_done wf t n), w).
Proof.
  intros Hw. unfold input_ready, input_done.
  assert (List.filter (λ x, (tk_workflow x =? wf_id wf) && node_is (PStr n) (tk_node_id x))
            (rows (get_table t)) = tasks_at wf n t) as E by done.
  destruct (tasks_at wf n t) as [|x [|y l]].
  - erewrite try_raise; [reflexivity|]. apply bind_raise. by eapply get_none.
  - apply try_ok. by rewrite (bind_ok _ _ w x w) by (by eapply get_run).
  - erewrite try_raise; [reflexivity|]. apply bind_raise. by eapply get_many.
Qed.
Lemma all_ready_spec wf l w t : cur w = Some t →
  all_ready wf (PStr <$> l) w = (Ok (forallb (input_done wf t) l), w).
Proof.
  intros Hw. induction l as [|n l IH]; [done|]. rewrite fmap_cons. cbn [all_ready forallb].
  rewrite (bind_ok _ _ _ _ _ (input_ready_spec wf n w t Hw)). by destruct (input_done wf t n).
Qed.

(** C12: a node is ready exactly when every node it is wired to has one task in
    the workflow, neither none nor several, and that task succeeded; the check
    changes nothing. *)
Theorem inputs_ready_iff wf n conns l w t : cur w = Some t →
  input_nodes n conns = Ok (PStr <$> l) →
  ∃ b, are_inputs_ready wf n conns w = (Ok b, w) ∧
    (b = true ↔ ∀ p, p ∈ l → ∃ x, tasks_at wf p t = [x] ∧ tk_status x = TSuccess).
Proof.
  intros Hw Hl. exists (forallb (input_done wf t) l). unfold are_inputs_ready.
  rewrite (bind_ok _ _ w (PStr <$> l) w) by (unfold lift; by rewrite Hl).
  split; [by apply all_ready_spec|]. rewrite forallb_forall. unfold input_done. split.
  - intros Hall p Hp%list_elem_of_In. specialize (Hall p Hp).
    destruct (tasks_at wf p t) as [|x [|]]; try done. exists x.
    by apply bool_decide_eq_true in Hall.
  - intros Hall p Hp%list_elem_of_In. destruct (Hall p Hp) as (x & -> & Hs).
    by apply bool_decide_eq_true.
Qed.

(** [BaseTask.log] saves the copy of the row taken when the task started: a
    progress written by [update_progress] meanwhile is lost, while the log
    itself gains the line. *)
Theorem log_discards_progress x p msg w t : cur w = Some t → the_row x (rows (t_tasks t)) →
  ∃ w1 x1 w2 t2, base_update_progress x p w = (Ok tt, w1) ∧
    base_log x msg w1 = (Ok x1, w2) ∧ cur w2 = Some t2 ∧ the_row x1 (rows (t_tasks t2)) ∧
    tk_id x1 = tk_id x ∧ tk_progress_data x1 = tk_progress_data x ∧
    tk_log x1 = Some (default "" (tk_log x) +:+ msg +:+ String (chr 10) "").
Proof.
  intros Hw Hx. unfold base_update_progress.
  rewrite (bind_ok _ _ _ _ _ (get_task_run x w t Hw Hx)).
  rewrite (bind_ok _ _ _ _ _ (save_run _ w t Hw)). set (tb := Table _ _).
  set (w1 := with_tenant _ (tick w)). assert (cur w1 = Some (set_t_tasks tb t)) as Hw1
    by apply cur_with_tenant.
  exists w1. unfold base_log. eexists. eexists. eexists. split; [reflexivity|].
  split; [exact (save_run _ w1 _ Hw1)|]. split; [apply cur_with_tenant|]. simpl.
  split_and!; [|done..|].
  - refine (the_row_save _ _ _ _ (the_row_save x _ _ _ Hx)); done.
  - unfold truthy_str. destruct (tk_log x) as [[|c l]|]; done.
Qed.

Context `{UserCode} `{Celery}.
(** The failure hooks of a version 1 workflow never run. The launcher fails
    for every list of hooks: its task rows have no space, which the database
    refuses, and nothing is published. *)
Theorem failure_hooks_never_run i names payload kw w :
  ∃ e w', failure_hooks_launcher i names payload kw w = (Raise e, w') ∧ w_broker w' = w_broker w.
Proof.
  unfold failure_hooks_launcher. pose proof (set_schema_raises (kwget kw "context") w) as Hs.
  destruct (set_schema_from_context (kwget kw "context") w) as [[[]|e] w1] eqn:E.
  2:{ exists e, w1. rewrite (bind_raise _ _ _ _ _ E). split; [done|]. by rewrite (Hs e w1 eq_refl). }
  rewrite (bind_ok _ _ _ _ _ E).
  assert (w_broker w1 = w_broker w) as Hb.
  { clear Hs. unfold set_schema_from_context in E. repeat case_match; try done.
    unfold mbind, ST_bind, lift, schema_exists, gets, set_search_path, modify, raise in E.
    repeat case_match; simplify_eq; done. }
  rewrite <- Hb. clear E Hs Hb. destruct names as [|name names].
  { eexists _, _. split; [reflexivity|done]. }
  simpl. set (w2 := set_w_uuids (S (w_uuids w1)) w1).
  assert (∃ e, launch_hook i payload (kwget kw "context") name w1 = (Raise e, w2)) as [e He].
  { unfold launch_hook. rewrite (bind_ok _ _ w1 (uuid4 (w_uuids w1)) w2) by done.
    destruct name; try by eexists. rewrite (bind_ok _ _ w2 s w2) by done.
    destruct (is_registered s); by eexists. }
  exists e, w2. split; [|done]. do 2 apply bind_raise. exact He.
Qed.
End Promises.

(** ** Concrete tasks *)

Definition ready_wf : workflow_row := set_wf_id 1 (new_workflow_row 1 1 None None None false None None None).
Definition ready_task (i : Z) (n : string) (st : task_status) : task_row :=
  set_tk_id i (set_tk_status st (new_task_row "c" None 1 (Some n) (Some 1) false)).
(** "d" waits for "a", which is done, and "b", which has two tasks. *)
Definition ready_tenant : tenant := demo_tenant PNone [ready_wf]
  [ready_task 1 "a" TSuccess; ready_task 2 "b" TSuccess; ready_task 3 "b" TSuccess].
Definition ready_world : world := set_w_path "space00000" (demo_world ready_tenant).
Definition ready_conns : pyval := PList (conn <$> [Edge "a" "out" "d" "in"; Edge "b" "out" "d" "in"]).
Lemma inputs_ready_iff_witness : ∃ b,
  are_inputs_ready ready_wf "d" ready_conns ready_world = (Ok b, ready_world) ∧
  (b = true ↔ ∀ p, p ∈ ["a"; "b"] → ∃ x, tasks_at ready_wf p ready_tenant = [x] ∧
                                         tk_status x = TSuccess).
Proof.
  exact (inputs_ready_iff ready_wf "d" ready_conns ["a"; "b"] ready_world ready_tenant
    eq_refl eq_refl).
Defined.
Lemma log_discards_progress_witness :
  let x := ready_task 1 "a" TProgress in
  let w := set_w_path "space00000" (demo_world (demo_tenant PNone [ready_wf] [x])) in
  ∃ w1 x1 w2, base_update_progress x (PInt 20) w = (Ok tt, w1) ∧
    base_log x "hello" w1 = (Ok x1, w2) ∧ tk_progress_data x1 = None.
Proof.
  intros x w. destruct (log_discards_progress x (PInt 20) "hello" w
    (demo_tenant PNone [ready_wf] [x]) eq_refl eq_refl)
    as (w1 & x1 & w2 & t2 & H1 & H2 & _ & _ & _ & H3 & _).
  exists w1, x1, w2. split; [exact H1|]. split; [exact H2|exact H3].
Defined.
