(* ===== verification/Export.v ===== *)
(** * The export of historical records (workflow/tasks/export_backend_historical_records.py)

    A periodic task that asks the backend to export its history.  It takes no
    context: it runs on whatever schema the connection points at. *)
From Stdlib Require Import Ascii String.
From stdpp Require Import base list strings numbers gmap sets.
From S2P Require Import Prelude PyStr PyVal Json Dates World Finmars.
Local Open Scope string_scope.
Local Open Scope Z_scope.
Local Open Scope list_scope.

Section HistoricalRecords.
Context `{Platform}.

(** [timedelta(days=days)] *)
Definition days_arg (v : pyval) : res Z :=
  match v with PInt n => Ok n | PBool b => Ok (Z.b2z b) | _ => Raise TypeError end.
(** [(datetime.now() - timedelta(days=days)).strftime("%Y-%m-%d")] *)
Definition days_ago (days : pyval) : M string :=
  n ← now;
  d ← lift (days_arg days);
  date ← lift (add_days (fromordinal (ordinal_of_time n)) (- d));
  mret (str_of_date date).
(** [call_export_backend_historical_records] *)
Definition call_export_backend_historical_records (kw : list (string * pyval)) : M unit :=
  let days := default (PInt 90) (dict_get kw "days") in
  token ← get_refresh_token 480;
  o ← get_space;
  date_to ← days_ago days;
  sp ← require o;
  response ← send_request (Request "post" (space_url sp "/api/v1/history/historical-record/export/")
    (Some (dumps false None (PDict [("date_to", PStr date_to)]))) token);
  if rs_status response =? 200 then mret tt else raise (PyException (rs_text response)).

(** The task changes nothing but the clock and the list of requests. *)
Definition Reads (w w' : world) : Prop :=
  ∃ k l, w' = set_w_requests l (set_w_clock k w).
Lemma reads_refl w : Reads w w.
Proof. exists (w_clock w), (w_requests w). by destruct w. Qed.
Lemma reads_now w0 : Keeps (Reads w0) now anything.
Proof. intros w (k & l & ->). split; [by eexists _, _|done]. Qed.
Lemma reads_send w0 r : Keeps (Reads w0) (send_request r) anything.
Proof. intros w (k & l & ->). split; [by eexists _, _|done]. Qed.
Lemma reads_filter {R} `{Model R} w0 (P : R → bool) : Keeps (Reads w0) (objects_filter P) anything.
Proof.
  intros w Hw. split; [|done]. unfold objects_filter, mbind, ST_bind, current_tenant.
  by destruct (w_tenants w !! w_path w).
Qed.
#[local] Hint Resolve reads_now reads_send : keeps.
#[local] Hint Extern 1 (Keeps _ (objects_filter _) _) => apply reads_filter : keeps.
Lemma export_reads w0 kw : Keeps (Reads w0) (call_export_backend_historical_records kw) anything.
Proof.
  unfold call_export_backend_historical_records, get_refresh_token, get_space, objects_get, require, days_ago.
  solve_keeps.
Qed.
End HistoricalRecords.
