(* ===== verification/Engine.v ===== *)
(** * The version 2 engine (workflow/tasks/workflows.py)

    [execute_workflow_step], [execute_workflow_v2], [process_next_node], and the
    delivery of messages to them. *)
From Stdlib Require Import Ascii String.
From stdpp Require Import base list strings numbers gmap sets.
From S2P Require Import Prelude PyStr PyVal Json Paths World Graph Finmars Models Manager Builder Export.
From S2P Require Import Launch Tasks.
Local Open Scope string_scope.
Local Open Scope Z_scope.
Local Open Scope list_scope.

(** [int(v)] *)
Fixpoint digits_value (acc : Z) (s : string) : option Z :=
  match s with
  | EmptyString => Some acc
  | String c s' =>
      if is_digit c then digits_value (acc * 10 + (Z.of_nat (ord c) - 48)) s' else None
  end.
Definition int_of_str (s : string) : res Z :=
  match split_ws s with
  | [t] =>
      let '(sign, digits) :=
        match t with
        | String c t' => if Ascii.eqb c "-"%char then (-1, t')
                         else if Ascii.eqb c "+"%char then (1, t') else (1, t)
        | EmptyString => (1, t)
        end in
      match digits with
      | EmptyString => Raise ValueError
      | _ => match digits_value 0 digits with Some n => Ok (sign * n) | None => Raise ValueError end
      end
  | _ => Raise ValueError
  end.
Definition py_int (v : pyval) : res Z :=
  match v with
  | PInt z => Ok z
  | PBool b => Ok (Z.b2z b)
  | PStr s => int_of_str s
  | _ => Raise TypeError
  end.

(** A value stored in a character column: [None], or [str(v)] *)
Definition char_field (v : pyval) : option string :=
  match v with PNone => None | _ => Some (py_str v) end.

(** [name[:-5]] when the name ends with [".task"] *)
Definition strip_task (name : string) : string :=
  if endswith name ".task" then drop_last_str 5 name else name.
Definition module_path (name : string) : string :=
  replace (replace (strip_task name) "." "/") ":" "/".

(** The directory and the pattern an import asks for: a wildcard in the last
    segment is the pattern, else the path is a directory. *)
Definition import_target (module_path extra_path : string) : res (string * string) :=
  let extra_path := normpath (join2 module_path extra_path) in
  let last_segment := List.last (split c_slash extra_path) "" in
  if has_char "*"%char last_segment || has_char "?"%char last_segment then
    match rsplit1 c_slash extra_path with
    | [dir; pattern] => Ok (dir, pattern)
    | _ => Raise ValueError
    end
  else Ok (extra_path, "*.*").
(** [imports]: a list, or the list under ["dirs"] *)
Definition import_list (imports : pyval) : list pyval :=
  let imports := match imports with
                 | PDict d => default PNone (dict_get d "dirs")
                 | _ => imports
                 end in
  match imports with PList l => l | _ => [] end.

Section Engine.
Context `{Platform} `{Manager} `{UserCode} `{Celery}.

(** A task with source code: [main] is called when the source defines it. *)
Definition run_source (self_task : task_row) (source : string) (args : list pyval)
    (kw : list (string * pyval))
    : M pyval :=
  has_main ← exec_source source self_task args kw;
  if (has_main : bool) then call_main source self_task args kw else mret PNone.

(** A task that names a version 2 workflow starts it as a child. *)
Definition start_child (workflow : workflow_row) (self_task : task_row) (target : string)
    (kw : list (string * pyval)) (context : pyval) : M pyval :=
  template ← try_except (get_template target (wf_space workflow))
               (λ e, raise (PyException (exn_text e)));
  child ← create_workflow (set_wf_payload (kwget kw "payload")
            (new_workflow_row (wf_owner workflow) (wf_space workflow) (Some target)
               (tk_node_id self_task) (Some (wt_id template)) false None None
               (Some (wf_id workflow))));
  space_code ← lift (get context "space_code");
  realm_code ← lift (get context "realm_code");
  _ ← publish_v2 (wf_id child) space_code realm_code;
  _ ← save_row (set_tk_status TNestedProgress self_task);
  mret PNone.

(** A task whose code is in the storage: its files are copied, its module is
    loaded, and the function it registers is called. *)
Definition sync_import (path : string) (extra_path : pyval) : M unit :=
  p ← lift (as_str extra_path);
  '(dir, pattern) ← lift (import_target path p);
  sync_for_schema dir [pattern].
Definition run_module (self_task : task_row) (name : string) (args : list pyval)
    (kw : list (string * pyval))
    : M pyval :=
  let path := module_path name in
  _ ← sync_for_schema path default_patterns;
  _ ← for_each (import_list (kwget kw "imports")) (sync_import path);
  _ ← import_user_tasks path true;
  func ← gets w_registered;
  match func with
  | Some f => call_function f self_task args kw
  | None => raise (PyException ("no function to execute for " +:+ name))
  end.

(** [f"{context.get('space_code')}.{target_workflow_user_code}"] *)
Definition target_user_code (space_code : pyval) (target : string) : string :=
  py_str space_code +:+ "." +:+ target.

(** [execute_workflow_step]: [clear_registered_task] comes before the schema *)
Definition step_body (args : list pyval) (kw : list (string * pyval)) (self_task : task_row) : M pyval :=
  let context := kwget kw "context" in
  _ ← set_schema_from_context context;
  workflow ← get_by_id (R:=workflow_row) (tk_workflow self_task);
  match truthy_str (tk_source_code self_task) with
  | Some source => run_source self_task source args kw
  | None =>
      name ← (match tk_name self_task with Some n => mret n | None => raise AttributeError end);
      let target := strip_task name in
      space_code ← lift (get context "space_code");
      target_wf ← get_by_user_code (target_user_code space_code target) true;
      version ← lift (v ← get_default target_wf "version" (PInt 1); py_int v);
      if version =? 2 then start_child workflow self_task target kw context
      else run_module self_task name args kw
  end.
Definition execute_workflow_step (args : list pyval) (kw : list (string * pyval))
    (self_task : task_row) : M pyval :=
  _ ← modify (set_w_registered None);
  step_body args kw self_task.

(** [execute_workflow_v2] *)
Definition execute_workflow_v2 (workflow_id : Z) (kw : list (string * pyval)) : M unit :=
  let context := kwget kw "context" in
  _ ← set_schema_from_context context;
  workflow ← get_by_id (R:=workflow_row) workflow_id;
  workflow ← save_workflow (set_wf_status_ WProgress workflow);
  template ← fetch_fk (R:=template_row) (wf_template workflow);
  wt ← require template;
  '(nodes, connections, adj) ← lift (read_template wt);
  starts ← lift (start_nodes nodes connections);
  for_each starts (λ start_node,
    publish_next_node (PStr start_node) workflow_id nodes adj context connections).

(** The newest task of the node wired to an input of [current_node_id] *)
Definition source_task (wf : workflow_row) (current_node_id input : string)
    (current_node connections : pyval) : M (option task_row) :=
  b ← lift (inputs ← getitem current_node "inputs"; py_in input inputs);
  if (b : bool) then
    src ← lift (l ← py_iter connections; find_source current_node_id input l);
    if truthy src then
      l ← objects_filter (λ t, (tk_workflow t =? wf_id wf) && node_is src (tk_node_id t));
      mret (qs_first l)
    else mret None
  else mret None.
(** The name of the task of a node *)
Definition workflow_user_code (current_node ty : pyval) : res pyval :=
  if py_eqb ty (PStr "source_code") then Ok (PStr "custom_code")
  else if py_eqb ty (PStr "condition") then Ok (PStr "condition")
  else getpath current_node ["data"; "workflow"; "user_code"].
Definition node_source_code (current_node ty : pyval) : res (option string) :=
  if py_eqb ty (PStr "source_code") || py_eqb ty (PStr "condition")
  then v ← getpath current_node ["data"; "source_code"]; Ok (char_field v)
  else Ok None.

(** The step a ready node runs: its task row, and the step's arguments *)
Definition step_kwargs (wf : workflow_row) (payload : pyval) (sp : space_row)
    (previous_output : pyval) : list (string * pyval) :=
  [("workflow_id", PInt (wf_id wf)); ("payload", payload); ("context", context_of sp);
   ("imports", PNone); ("previous_output", previous_output)].
Definition run_step (fuel : nat) (task_id : string) (args : list pyval)
    (kw : list (string * pyval)) : M unit :=
  apply_task (before_start (Some task_id) kw) (execute_workflow_step args kw)
    (on_success fuel (Some task_id) kw) (on_failure fuel kw (Some task_id)) cleanup.
Definition create_step_task (wf : workflow_row) (sp : space_row) (task_id node_id : string)
    (name source : option string) (payload : pyval) : M task_row :=
  insert_task (set_tk_payload payload (set_tk_source_code source
    (new_task_row task_id name (wf_id wf) (Some node_id) (Some (sp_id sp)) false))).

(** What [process_next_node] does for a node whose inputs are ready *)
Definition execute_node (fuel : nat) (wf : workflow_row) (current_node_id : string)
    (current_node connections : pyval) : M unit :=
  ty ← lift (node_type current_node);
  user_code ← lift (workflow_user_code current_node ty);
  prev ← source_task wf current_node_id "in" current_node connections;
  previous_output ← lift (match prev with Some t => tk_result t | None => Ok PNone end);
  gen ← source_task wf current_node_id "payload_input" current_node connections;
  payload ← lift (match gen with Some t => tk_result t | None => Ok (wf_payload wf) end);
  task_id ← uuid;
  sp ← get_by_id (R:=space_row) (wf_space wf);
  let name := char_field user_code in
  source ← lift (node_source_code current_node ty);
  _ ← create_step_task wf sp task_id current_node_id name source payload;
  run_step fuel task_id [] (step_kwargs wf payload sp previous_output).

(** [process_next_node]: after the schema is set, every error is logged. *)
Definition process_node (fuel : nat) (current_node_id : string) (workflow_id : Z)
    (nodes connections : pyval) : M unit :=
  workflow ← get_by_id (R:=workflow_row) workflow_id;
  current_node ← lift (getitem nodes current_node_id);
  if bool_decide (wf_status_ workflow = WWait) then
    _ ← save_workflow (set_wf_current_node_id (Some current_node_id) workflow);
    mret tt
  else
    ready ← are_inputs_ready workflow current_node_id connections;
    if (ready : bool) then execute_node fuel workflow current_node_id current_node connections
    else mret tt.
Definition process_next_node (fuel : nat) (current_node_id : string) (workflow_id : Z)
    (nodes : pyval) (kw : list (string * pyval)) : M unit :=
  _ ← set_schema_from_context (kwget kw "context");
  try_except (process_node fuel current_node_id workflow_id nodes (kwget kw "connections"))
    (λ _, mret tt).

(** ** Messages *)

Definition kwint (kw : list (string * pyval)) (k : string) : res Z :=
  match kwget kw k with PInt z => Ok z | _ => Raise TypeError end.
Definition kwstr (kw : list (string * pyval)) (k : string) : res string := as_str (kwget kw k).
(** The workflow id of the version 1 tasks is positional, or a keyword. *)
Definition workflow_arg (m : message) : res Z :=
  match msg_args m with
  | PInt z :: _ => Ok z
  | [] => kwint (msg_kwargs m) "workflow_id"
  | _ => Raise TypeError
  end.

(** The body of the task a message names; an unknown name is discarded. *)
Definition task_body (fuel : nat) (m : message) : M unit :=
  let kw := msg_kwargs m in
  let named n := String.eqb (msg_task m) ("workflow.tasks.workflows." +:+ n) in
  if named "process_next_node" then
    node ← lift (kwstr kw "current_node_id");
    i ← lift (kwint kw "workflow_id");
    process_next_node fuel node i (kwget kw "nodes") kw
  else if named "execute_workflow_v2" then
    i ← lift (kwint kw "workflow_id"); execute_workflow_v2 i kw
  else if named "start" then i ← lift (workflow_arg m); start i kw
  else if named "end" then i ← lift (workflow_arg m); end_ i kw
  else if named "mark_as_canceled_init_tasks" then
    i ← lift (workflow_arg m); mark_as_canceled_init_tasks i kw
  else if named "failure_hooks_launcher" then
    match msg_args m with
    | [PInt i; _; PList names; payload] => failure_hooks_launcher i names payload kw
    | _ => raise TypeError
    end
  else if named "execute" then
    match msg_args m with
    | PStr user_code :: payload :: _ => _ ← execute user_code payload kw; mret tt
    | _ => raise TypeError
    end
  else if String.eqb (msg_task m) ("workflow.tasks.export_backend_historical_records."
                                   +:+ "call_export_backend_historical_records")
  then call_export_backend_historical_records kw
  else mret tt.

(** A worker runs a message: steps through their [BaseTask] handlers, the other
    tasks with the failure receivers, whose own errors celery logs; [cleanup]
    comes last. *)
Definition run_message (fuel : nat) (task_id : string) (m : message) : M unit :=
  let kw := msg_kwargs m in
  if String.eqb (msg_task m) "workflow.tasks.workflows.execute_workflow_step"
  then run_step fuel task_id (msg_args m) kw
  else
    _ ← try_except (task_body fuel m)
          (λ e, try_except (on_failure fuel kw (Some task_id) e) (λ _, mret tt));
    cleanup.

Lemma task_body_node fuel m :
  msg_task m = "workflow.tasks.workflows.process_next_node" →
  task_body fuel m =
    (node ← lift (kwstr (msg_kwargs m) "current_node_id");
     i ← lift (kwint (msg_kwargs m) "workflow_id");
     process_next_node fuel node i (kwget (msg_kwargs m) "nodes") (msg_kwargs m)).
Proof. intros E. unfold task_body. by rewrite E. Qed.

(** A worker takes a message from the broker, any of those waiting, and runs it
    to its end; [task_id] is the identifier the message has, or the one celery
    draws.  A chain or a group stays with celery, which sends its messages one
    by one; nothing is assumed of the order. *)
Definition is_sig (c : canvas) : bool := match c with Sig _ _ => true | _ => false end.
Inductive deliver (fuel : nat) : world → world → Prop :=
  | deliver_one w l1 o m l2 task_id :
      w_broker w = l1 ++ Sig o m :: l2 → (∀ i, o = Some i → i = task_id) →
      deliver fuel w (run_message fuel task_id m (set_w_broker (l1 ++ l2) w)).2
  | deliver_part w c m task_id :
      c ∈ w_broker w → is_sig c = false → m ∈ canvas_msgs c →
      deliver fuel w (run_message fuel task_id m w).2.
End Engine.
