(* ===== verification/Fixture.v ===== *)
(** * Concrete code, configurations and runs

    User code, celery and a registry on which the theorems' hypotheses can be
    met, documents of source-code nodes, and a worker that takes the messages
    in order. *)
From Stdlib Require Import Ascii String.
From stdpp Require Import base list strings numbers gmap sets relations.
From S2P Require Import Prelude PyStr PyVal Json World Demo Graph Models Manager Tasks Engine.
Local Open Scope string_scope.
Local Open Scope Z_scope.
Local Open Scope list_scope.

(** Sources define a [main] that returns a true result; a source "boom" raises;
    modules register the function "f". *)
Definition demo_result : pyval := PDict [("result", PBool true)].
#[export] Instance demo_user_code : UserCode := {|
  exec_source := λ src _ _ _,
    if String.eqb src "boom" then raise (PyException "boom") else mret true;
  call_main := λ _ _ _ _, mret demo_result;
  exec_module := λ _ _, modify (set_w_registered (Some "f"));
  call_function := λ _ _ _ _, mret demo_result |}.
#[export] Instance demo_celery : Celery := eager_celery.

(** Sources that all return *)
Definition calm_user_code : UserCode := {|
  exec_source := λ _ _ _ _, mret true;
  call_main := λ _ _ _ _, mret demo_result;
  exec_module := λ _ _, modify (set_w_registered (Some "f"));
  call_function := λ _ _ _ _, mret demo_result |}.

Lemma demo_user_code_ok s : UserCodeOk s.
Proof.
  split; intros; simpl.
  - destruct (_ =? _)%string; [apply keeps_raise|by apply keeps_ret].
  - by apply keeps_ret.
  - by apply stays_modify.
  - by apply keeps_ret.
Qed.

(** ** Documents *)

(** A source-code node *)
Definition code_node (i : string) (inputs : list string) : pyval :=
  PDict [("id", PStr i); ("name", PStr i);
         ("inputs", PDict ((λ s, (s, PDict [])) <$> inputs));
         ("data", PDict [("node", PDict [("type", PStr "source_code")]);
                         ("source_code", PStr "def main(self): ...")])].
Definition demo_data (ids : list string) (es : list edge) : pyval :=
  template_data ((λ i, code_node i ["in"]) <$> ids) es.
Definition demo_workflow (st : wf_status) : workflow_row :=
  set_wf_id 1 (set_wf_status_ st
    (new_workflow_row 1 1 (Some "space00000.com.demo:wf") None (Some 1) false None None None)).
Definition demo_context : pyval := context_of demo_space.

(** The start message of the workflow, waiting in the broker *)
Definition demo_start : canvas :=
  Sig (Some "start") (Msg "workflow.tasks.workflows.execute_workflow_v2" []
    [("workflow_id", PInt 1); ("context", demo_context)] (PStr "workflow")).
Definition launch_world (ids : list string) (es : list edge) : world :=
  set_w_broker [demo_start]
    (demo_world (demo_tenant (demo_data ids es) [demo_workflow WInit] [])).

(** One worker that takes the messages in order *)
Section Fifo.
Context `{Platform} `{Manager} `{UserCode} `{Celery}.

Definition fifo_step (fuel : nat) (w : world) : world :=
  match w_broker w with
  | Sig o m :: l => (run_message fuel (default "drawn" o) m (set_w_broker l w)).2
  | _ => w
  end.
Definition head_is_sig (w : world) : bool :=
  match w_broker w with Sig _ _ :: _ => true | _ => false end.
Fixpoint fifo (fuel n : nat) (w : world) : world :=
  match n with O => w | S n => fifo fuel n (fifo_step fuel w) end.
Fixpoint fifo_ok (fuel n : nat) (w : world) : bool :=
  match n with O => true | S n => head_is_sig w && fifo_ok fuel n (fifo_step fuel w) end.

Lemma fifo_step_deliver fuel w : head_is_sig w = true → deliver fuel w (fifo_step fuel w).
Proof.
  unfold head_is_sig, fifo_step. destruct (w_broker w) as [|[o m| |] l] eqn:E; try done.
  intros _. apply (deliver_one fuel w [] o m l); [done|]. by intros i ->.
Qed.
Lemma fifo_nsteps fuel n w : fifo_ok fuel n w = true → nsteps (deliver fuel) n w (fifo fuel n w).
Proof.
  revert w. induction n as [|n IH]; intros w; [constructor|]. simpl.
  intros [Hh Hok]%andb_true_iff. econstructor; [by apply fifo_step_deliver|by apply IH].
Qed.
End Fifo.

