(* ===== verification/Completion.v ===== *)
(** * The completion of tasks and the chain of parent workflows

    [handle_task_success] and [on_failure] climb from a child workflow to the
    task of its parent that started it. *)
From Stdlib Require Import Ascii String.
From stdpp Require Import base list strings numbers gmap sets.
From S2P Require Import Prelude PyStr PyVal Json World Demo Graph Finmars Models Manager Launch.
From S2P Require Import Tasks Engine Fixture.
Local Open Scope string_scope.
Local Open Scope Z_scope.
Local Open Scope list_scope.

(** ** Agreement of computations *)

Lemma bind_agree {S A B} (m : ST S A) (f g : A → ST S B) w :
  (∀ a w', m w = (Ok a, w') → f a w' = g a w') → (m ≫= f) w = (m ≫= g) w.
Proof. intros Hfg. unfold mbind, ST_bind. destruct (m w) as [[a|e] w'] eqn:E; [by apply Hfg|done]. Qed.

Lemma fetch_inv {R} `{ModelOk R} o w (r : option R) w' : fetch_fk o w = (Ok r, w') →
  w' = w ∧ match r with
           | Some x => ∃ t, cur w = Some t ∧ x ∈ rows (get_table t) ∧ o = Some (row_id x)
           | None => o = None
           end.
Proof.
  unfold fetch_fk. destruct o as [i|]; [|by intros [= <- <-]].
  intros E. apply bind_inv in E as (x & w1 & Hg & [= <- <-]).
  apply get_inv in Hg as (-> & t & Ht & Hin & Hid%Z.eqb_eq). split; [done|].
  exists t. by rewrite Hid.
Qed.
Lemma lift_inv {S A} (r : res A) w (a : A) (w' : S) : lift r w = (Ok a, w') → w' = w ∧ r = Ok a.
Proof. unfold lift. destruct r; [by intros [= <- <-]|done]. Qed.

Section Completion.
Context `{Platform}.

(** A child workflow is created after its parent: its primary key is larger. *)
Definition parents_older (l : list workflow_row) : Prop :=
  ∀ wf p, wf ∈ l → wf_parent wf = Some p → 0 ≤ p < wf_id wf.
Definition Older (w : world) : Prop := ∀ t, cur w = Some t → parents_older (rows (t_workflows t)).

Lemma older_tick w : Older w → Older (tick w).
Proof. done. Qed.
Lemma older_now : Keeps Older now anything.
Proof. intros w Hw. by split. Qed.
Lemma older_save_task (x : task_row) :
  Keeps Older (save_row x) (λ x', tk_workflow x' = tk_workflow x).
Proof.
  intros w Hw. destruct (cur w) as [t|] eqn:E.
  - rewrite (save_run x w t E). cbn [fst snd]. split; [|by intros ? [= <-]].
    intros t'. rewrite cur_with_tenant. intros [= <-]. exact (Hw t E).
  - unfold save_row. rewrite (bind_ok _ _ _ _ _ (now_run w)).
    unfold mbind, ST_bind, current_tenant. simpl. unfold cur in E.
    change (w_tenants (tick w)) with (w_tenants w). change (w_path (tick w)) with (w_path w).
    rewrite E. simpl. by split.
Qed.
Lemma older_succeed retval self :
  Keeps Older (succeed_task retval self) (λ self', tk_workflow self' = tk_workflow self).
Proof.
  unfold succeed_task. eapply keeps_bind.
  { unfold mark_task_as_finished. eapply keeps_bind; [apply older_now|]. intros n _.
    by apply keeps_ret with (φ := λ x, tk_workflow x = tk_workflow self). }
  intros x Hx. eapply keeps_post; [apply older_save_task|]. intros y Hy. congruence.
Qed.
(** Saving a workflow that keeps its key and its parent *)
Lemma older_save_workflow wf wf' w t r w' : Older w → cur w = Some t →
  wf ∈ rows (t_workflows t) → wf_id wf' = wf_id wf → wf_parent wf' = wf_parent wf →
  save_workflow wf' w = (r, w') → Older w'.
Proof.
  intros Ho Hw Hin Hid Hpar Hs. destruct (save_workflow_spec wf' w t Hw) as (w1 & Hs1 & Hw1 & _).
  rewrite Hs1 in Hs. injection Hs as <- <-. intros t1 Ht1. rewrite Hw1 in Ht1.
  injection Ht1 as <-. simpl. intros x p Hx Hp.
  assert (x ∈ rows (t_workflows t) ∨ x = set_wf_modified_at (w_clock w) wf') as [Hx'| ->].
  { unfold write_row in Hx. destruct (existsb _ _).
    - apply list_elem_of_In, in_map_iff in Hx as (y & <- & Hy%list_elem_of_In).
      destruct (_ =? _); auto.
    - apply elem_of_app in Hx as [Hx|Hx%list_elem_of_singleton]; auto. }
  - by apply (Ho t Hw x).
  - simpl in *. rewrite Hid. apply (Ho t Hw wf); [done|congruence].
Qed.

Lemma save_workflow_inv wf w t wf1 w' : cur w = Some t → save_workflow wf w = (Ok wf1, w') →
  wf1 = set_wf_modified_at (w_clock w) wf.
Proof.
  intros Hw Hs. destruct (save_workflow_spec wf w t Hw) as (w1 & Hs1 & _). congruence.
Qed.

(** The result of [handle_task_success] does not depend on the fuel, once it is
    larger than the number of the task's workflow. *)
Lemma handle_fuel_agree f1 : ∀ f2 retval self w, Older w →
  (Z.to_nat (tk_workflow self) < f1)%nat → (Z.to_nat (tk_workflow self) < f2)%nat →
  handle_task_success f1 retval self w = handle_task_success f2 retval self w.
Proof.
  induction f1 as [|f1 IH]; intros [|f2] retval self w Ho H1 H2; [lia..|]. simpl.
  case_bool_decide; [done|]. apply bind_agree. intros self' w1 Hs.
  destruct (older_succeed retval self w Ho) as [Ho1 Hwf]. rewrite Hs in Ho1, Hwf.
  specialize (Hwf self' eq_refl). simpl in Ho1. 
  apply bind_agree. intros wf w2 Hg. apply get_inv in Hg as (-> & t & Ht & Hin & Hid).
  apply Z.eqb_eq in Hid. simpl in Hid.
  apply bind_agree. intros [wt|] w2 Hf; [|done]. apply fetch_inv in Hf as (-> & _).
  apply bind_agree. intros [[nodes conns] adj] w2 Hl. apply lift_inv in Hl as (-> & _).
  apply bind_agree. intros n w2 Hl. apply lift_inv in Hl as (-> & _).
  apply bind_agree. intros node w2 Hl. apply lift_inv in Hl as (-> & _).
  apply bind_agree. intros [|] w2 Hl; [|done]. apply lift_inv in Hl as (-> & _).
  apply bind_agree. intros owner w2 Hu. apply get_inv in Hu as (-> & _).
  apply bind_agree. intros c w2 [= <- <-].
  apply bind_agree. intros wf1 w2 Hsave.
  assert (Older w2) as Ho2.
  { by refine (older_save_workflow wf _ (tick w1) t _ w2 (older_tick _ Ho1) Ht Hin _ _ Hsave). }
  apply (save_workflow_inv _ (tick w1) t) in Hsave as ->; [|done].
  apply bind_agree. intros [parent|] w3 Hf; [|done].
  apply fetch_inv in Hf as (-> & t2 & Ht2 & Hpin & Hp). simpl in Hp.
  apply bind_agree. intros sp w3 Hg. apply get_inv in Hg as (-> & _).
  apply bind_agree. intros parent_task w3 Hg. apply get_inv in Hg as (-> & _ & _ & _ & Hpt).
  apply andb_true_iff in Hpt as [[Hpt%Z.eqb_eq _]%andb_true_iff _].
  pose proof (Ho1 t Ht wf _ Hin Hp) as Hlt. simpl in Hlt.
  apply IH; [done|simpl; lia..].
Qed.

(** C14: the climb of [handle_task_success] through the parents ends: in a
    tenant where every child workflow is newer than its parent, the result is
    the same for every bound larger than the number of the task's workflow, so
    the bound of the model stands for no recursion limit that is ever met. *)
Theorem completion_terminates fuel retval self w : Older w →
  (Z.to_nat (tk_workflow self) < fuel)%nat →
  ∀ fuel', (fuel ≤ fuel')%nat →
    handle_task_success fuel' retval self w = handle_task_success fuel retval self w.
Proof. intros Ho Hf fuel' Hle. apply handle_fuel_agree; [done|lia..]. Qed.
End Completion.

(** ** A concrete climb *)

(** Workflow 2 is a child of workflow 1, started by the node "n"; its one task
    completes. *)
Definition nested_data : pyval := demo_data ["n"] [].
Definition nested_child : workflow_row :=
  set_wf_id 2 (set_wf_status_ WProgress
    (new_workflow_row 1 1 (Some "com.demo:wf") (Some "n") (Some 1) false None None (Some 1))).
Definition nested_task (i wf : Z) (st : task_status) : task_row :=
  set_tk_id i (set_tk_status st (new_task_row "c" (Some "custom_code") wf (Some "n") (Some 1) false)).
Definition nested_world : world :=
  set_w_path "space00000" (demo_world (demo_tenant nested_data
    [demo_workflow WProgress; nested_child]
    [nested_task 1 1 TNestedProgress; nested_task 2 2 TProgress])).
Lemma nested_older : Older nested_world.
Proof.
  intros t [= <-] wf p Hin Hp. apply elem_of_cons in Hin as [->|Hin]; [done|].
  apply list_elem_of_singleton in Hin as ->. injection Hp as <-. simpl. lia.
Qed.
Lemma completion_terminates_witness :
  let w' := (handle_task_success 3 demo_result (nested_task 2 2 TProgress) nested_world).2 in
  handle_task_success 100 demo_result (nested_task 2 2 TProgress) nested_world
  = handle_task_success 3 demo_result (nested_task 2 2 TProgress) nested_world ∧
  (wf_status_ <$> default [] (rows ∘ t_workflows <$> cur w')) = [WSuccess; WSuccess] ∧
  (tk_status <$> default [] (rows ∘ t_tasks <$> cur w')) = [TSuccess; TSuccess].
Proof.
  split; [|split; vm_compute; reflexivity].
  apply (completion_terminates 3 demo_result (nested_task 2 2 TProgress) nested_world nested_older);
    [vm_compute; repeat constructor|repeat constructor].
Defined.
