(* ===== verification/Nested.v ===== *)
(** * Nested workflows

    A node can start a child workflow; its task waits until the last task of
    the child completes.  [handle_task_success] then climbs: it completes the
    child, takes the waiting task of the parent, completes it with the same
    result, and goes on, through as many parents as there are.  The theorem
    follows the whole climb over the rows of the tenant. *)
From Stdlib Require Import Ascii String.
From stdpp Require Import base list strings numbers gmap sets.
From S2P Require Import Prelude PyStr PyVal Json World Demo Graph Finmars Models Manager Launch.
From S2P Require Import Tasks Engine Fixture Completion.
Local Open Scope string_scope.
Local Open Scope Z_scope.
Local Open Scope list_scope.

(** ** Saving a row that a query does not select *)

Lemma filter_write {R} `{Model R} (P : R → bool) (r : R) l :
  existsb (λ x, row_id x =? row_id r) l = true → P r = false →
  (∀ x, x ∈ l → row_id x = row_id r → P x = false) →
  List.filter P (write_row r l) = List.filter P l.
Proof.
  intros He Hr Hl. rewrite write_row_present by done. clear He.
  induction l as [|x l IH]; [done|]. simpl. destruct (row_id x =? row_id r) eqn:E.
  - rewrite Hr, (Hl x) by (try left; by apply Z.eqb_eq). apply IH. intros y Hy. apply Hl. by right.
  - rewrite IH; [done|]. intros y Hy. apply Hl. by right.
Qed.
Lemma the_row_other {R} `{Model R} (a b c : R) l : row_id c = row_id b → row_id a ≠ row_id b →
  the_row b l → the_row a l → the_row a (write_row c l).
Proof.
  intros Hc Hne Hb Ha. apply the_row_save_other; [congruence| |done].
  rewrite Hc. by apply the_row_exists.
Qed.

Lemma fetch_run {R} `{ModelOk R} (r : R) w t : cur w = Some t → the_row r (rows (get_table t)) →
  fetch_fk (Some (row_id r)) w = (Ok (Some r), w).
Proof. intros Hw Hr. unfold fetch_fk. by rewrite (bind_ok _ _ _ _ _ (the_row_get r w t Hw Hr)). Qed.

Section Nested.
Context `{Platform}.
Context (sp : space_row) (retval : pyval).

(** One level of the climb: a task, its workflow, and what the template says
    of the task's node. *)
Record level : Type := Level {
  lv_task : task_row;
  lv_wf : workflow_row;
  lv_node : string;
  lv_nodes : list (string * pyval);
  lv_conns : pyval;
  lv_adj : list (string * list pyval);
  lv_next : list string
}.
(** A node the dispatch loop can send *)
Definition known (nodes : list (string * pyval)) (n : string) : Prop :=
  ∃ v nm, dict_get nodes n = Some v ∧ truthy v = true ∧ getitem v "name" = Ok nm.

Record level_ok (t : tenant) (l : level) : Prop := {
  lo_task : the_row (lv_task l) (rows (t_tasks t));
  lo_wf : the_row (lv_wf l) (rows (t_workflows t));
  lo_of : tk_workflow (lv_task l) = wf_id (lv_wf l);
  lo_node : tk_node_id (lv_task l) = Some (lv_node l);
  lo_template : ∃ wt, the_row wt (rows (t_templates t)) ∧
    wf_template (lv_wf l) = Some (wt_id wt) ∧
    read_template wt = Ok (lv_nodes l, lv_conns l, lv_adj l);
  lo_current : ∃ v, dict_get (lv_nodes l) (lv_node l) = Some v ∧
    next_nodes (lv_node l) v retval (lv_adj l) (lv_conns l) = Ok (PStr <$> lv_next l);
  lo_known : Forall (known (lv_nodes l)) (lv_next l);
  lo_owner : ∃ u, the_row u (rows (t_users t)) ∧ us_id u = wf_owner (lv_wf l);
  lo_space : wf_space (lv_wf l) = sp_id sp
}.
(** The task of the parent that waits for the workflow [wf] *)
Definition waits_for (wf : workflow_row) (p : Z) (x : task_row) : bool :=
  (tk_workflow x =? p) && bool_decide (tk_node_id x = wf_node_id wf) &&
  bool_decide (tk_space x = Some (sp_id sp)).
Definition has_celery_id (c : option string) (x : task_row) : bool :=
  bool_decide (tk_celery_task_id x = c).
Record child_of (t : tenant) (l p : level) : Prop := {
  ch_parent : wf_parent (lv_wf l) = Some (wf_id (lv_wf p));
  ch_older : wf_id (lv_wf p) < wf_id (lv_wf l);
  ch_task : List.filter (waits_for (lv_wf l) (wf_id (lv_wf p))) (rows (t_tasks t)) = [lv_task p]
}.
(** The levels of a climb, from the task that completes: every level but the
    last ends its workflow; the last has successors, or no parent. *)
Inductive climb (t : tenant) : list level → Prop :=
  | climb_last l : level_ok t l → (lv_next l = [] → wf_parent (lv_wf l) = None) → climb t [l]
  | climb_up l p ls : level_ok t l → lv_next l = [] → child_of t l p → climb t (p :: ls) →
      climb t (l :: p :: ls).

(** ** What a climb leaves *)

Definition final_result : pyval := if truthy retval then retval else no_result_message.
Definition next_message (l : level) (n : string) : canvas :=
  Sig None (Msg "workflow.tasks.workflows.process_next_node" []
    [("current_node_id", PStr n); ("workflow_id", PInt (wf_id (lv_wf l)));
     ("nodes", PDict (lv_nodes l));
     ("adjacency_list", PDict ((λ kv, (kv.1, PList kv.2)) <$> lv_adj l));
     ("context", context_of sp); ("connections", lv_conns l)] (PStr "workflow")).
Definition sent (ls : list level) : list canvas := ls ≫= λ l, next_message l <$> lv_next l.

(** The task of the level has succeeded with the result. *)
Definition task_done (t : tenant) (l : level) : Prop :=
  ∃ x, the_row x (rows (t_tasks t)) ∧ tk_id x = tk_id (lv_task l) ∧ tk_status x = TSuccess ∧
       tk_result x = Ok (sort_val final_result) ∧ tk_finished_at x ≠ None.
(** The workflow of a level without successors has succeeded; the row of one
    that goes on is as it was. *)
Definition workflow_done (t : tenant) (l : level) : Prop :=
  match lv_next l with
  | [] => ∃ wf, the_row wf (rows (t_workflows t)) ∧ wf_id wf = wf_id (lv_wf l) ∧
            wf_status_ wf = WSuccess ∧ wf_finished_at wf ≠ None ∧
            wf_last_task_output wf = retval ∧ wf_current_node_id wf = Some (lv_node l)
  | _ => the_row (lv_wf l) (rows (t_workflows t))
  end.
Record climbed (w w' : world) (t t' : tenant) (ls : list level) : Prop := {
  cl_cur : cur w' = Some t';
  cl_tasks : Forall (task_done t') ls;
  cl_workflows : Forall (workflow_done t') ls;
  cl_broker : w_broker w' = w_broker w ++ sent ls;
  cl_other_tasks : ∀ x, the_row x (rows (t_tasks t)) →
    Forall (λ l, tk_id x ≠ tk_id (lv_task l)) ls → the_row x (rows (t_tasks t'));
  cl_other_workflows : ∀ wf, the_row wf (rows (t_workflows t)) →
    Forall (λ l, wf_id wf ≠ wf_id (lv_wf l)) ls → the_row wf (rows (t_workflows t'))
}.

(** ** Climbs over other tables *)

(** [t'] is [t] but for rows of a younger workflow. *)
Record keeps_older (i : Z) (t t' : tenant) : Prop := {
  ko_spaces : t_spaces t' = t_spaces t;
  ko_users : t_users t' = t_users t;
  ko_templates : t_templates t' = t_templates t;
  ko_task : ∀ x, tk_workflow x < i → the_row x (rows (t_tasks t)) → the_row x (rows (t_tasks t'));
  ko_wf : ∀ wf, wf_id wf < i → the_row wf (rows (t_workflows t)) → the_row wf (rows (t_workflows t'));
  ko_waits : ∀ wf p, p < i →
    List.filter (waits_for wf p) (rows (t_tasks t')) = List.filter (waits_for wf p) (rows (t_tasks t));
  ko_celery : ∀ c y, tk_workflow y < i → List.filter (has_celery_id c) (rows (t_tasks t)) = [y] →
    List.filter (has_celery_id c) (rows (t_tasks t')) = [y]
}.
Lemma level_ok_keeps i t t' l : keeps_older i t t' → wf_id (lv_wf l) < i →
  level_ok t l → level_ok t' l.
Proof.
  intros K Hi [Ht Hw Ho Hn Hte Hc Hk Hu Hs]. split; try done.
  - apply (ko_task _ _ _ K); [by rewrite Ho|done].
  - by apply (ko_wf _ _ _ K).
  - by rewrite (ko_templates _ _ _ K).
  - by rewrite (ko_users _ _ _ K).
Qed.
Lemma climb_keeps i t t' ls : keeps_older i t t' → climb t ls →
  Forall (λ l, wf_id (lv_wf l) < i) ls → climb t' ls.
Proof.
  intros K C. induction C as [l L Hp|l p ls L Hn [Hp Ho Hf] C IH]; intros Hi;
    apply Forall_cons in Hi as [Hl Hi]; constructor; eauto using level_ok_keeps.
  split; [done..|]. rewrite (ko_waits _ _ _ K); [done|]. lia.
Qed.
Lemma climb_head t l ls : climb t (l :: ls) → level_ok t l.
Proof. by inversion 1. Qed.
(** The workflows of a climb grow older. *)
Lemma climb_older t l ls : climb t (l :: ls) → Forall (λ p, wf_id (lv_wf p) < wf_id (lv_wf l)) ls.
Proof.
  revert l. induction ls as [|p ls IH]; intros l C; [constructor|].
  inversion C as [|? ? ? L Hn [Hp Ho Hf] C']; subst. constructor; [done|].
  eapply Forall_impl; [by apply IH|]. simpl. lia.
Qed.
Lemma climb_tasks t ls : climb t ls → Forall (λ l, tk_workflow (lv_task l) = wf_id (lv_wf l)) ls.
Proof. induction 1 as [l L|l p ls L Hn Hc C IH]; constructor; try done; apply L. Qed.

(** Saving a task and its workflow *)
Lemma keeps_save t (x0 x : task_row) (wf0 wf : workflow_row) :
  the_row x0 (rows (t_tasks t)) → the_row wf0 (rows (t_workflows t)) → tk_workflow x0 = wf_id wf0 →
  tk_id x = tk_id x0 → tk_workflow x = wf_id wf0 → tk_celery_task_id x = tk_celery_task_id x0 →
  wf_id wf = wf_id wf0 →
  keeps_older (wf_id wf0) t
    (set_t_workflows (Table (write_row wf (rows (t_workflows t))) (next_id (t_workflows t)))
      (set_t_tasks (Table (write_row x (rows (t_tasks t))) (next_id (t_tasks t))) t)).
Proof.
  intros Ht Hwf0 Hof Hx Hxw Hxc Hwf. split; [done..| | | |]; simpl.
  - intros y Hy Hry. eapply (the_row_other y x0); [done| |done|done]. intros E.
    simpl in E. apply (the_row_unique y x0) in Hry as <-; [|by apply the_row_in|done]. lia.
  - intros y Hy Hry. eapply (the_row_other y wf0); [done| |done|done]. simpl. lia.
  - intros wf' p Hp. apply filter_write.
    + change (row_id x) with (tk_id x). rewrite Hx. apply (the_row_exists _ _ Ht).
    + unfold waits_for. by rewrite Hxw, (proj2 (Z.eqb_neq _ _)) by lia.
    + intros y Hy Hid. rewrite (the_row_unique _ _ _ Ht Hy) by (simpl in *; congruence).
      unfold waits_for. by rewrite Hof, (proj2 (Z.eqb_neq _ _)) by lia.
  - intros c y Hy Hf. assert (has_celery_id c x0 = false) as Hx0.
    { destruct (has_celery_id c x0) eqn:E; [|done]. exfalso.
      assert (x0 ∈ List.filter (has_celery_id c) (rows (t_tasks t))) as Hin.
      { apply list_elem_of_In, filter_In. split; [|done]. by apply list_elem_of_In, the_row_in. }
      rewrite Hf in Hin. apply list_elem_of_singleton in Hin as <-. lia. }
    rewrite filter_write; [done| | |].
    + change (row_id x) with (tk_id x). rewrite Hx. apply (the_row_exists _ _ Ht).
    + unfold has_celery_id in *. by rewrite Hxc.
    + intros z Hz Hid. by rewrite (the_row_unique _ _ _ Ht Hz) by (simpl in *; congruence).
Qed.

(** ** The steps of a level *)

(** The object the success of a level's task is handled for *)
Record handles (self : task_row) (l : level) : Prop := {
  ha_id : tk_id self = tk_id (lv_task l);
  ha_workflow : tk_workflow self = tk_workflow (lv_task l);
  ha_celery : tk_celery_task_id self = tk_celery_task_id (lv_task l);
  ha_node : tk_node_id self = tk_node_id (lv_task l);
  ha_status : tk_status self ≠ TNestedProgress
}.
Definition with_tasks (t : tenant) (x : task_row) : tenant :=
  set_t_tasks (Table (write_row x (rows (t_tasks t))) (next_id (t_tasks t))) t.
Definition with_workflows (t : tenant) (wf : workflow_row) : tenant :=
  set_t_workflows (Table (write_row wf (rows (t_workflows t))) (next_id (t_workflows t))) t.

Lemma succeed_spec self w t : wf_val retval = true → cur w = Some t →
  ∃ x w', succeed_task retval self w = (Ok x, w') ∧ cur w' = Some (with_tasks t x) ∧
    w_broker w' = w_broker w ∧ tk_id x = tk_id self ∧ tk_workflow x = tk_workflow self ∧
    tk_celery_task_id x = tk_celery_task_id self ∧
    tk_node_id x = tk_node_id self ∧ tk_status x = TSuccess ∧
    tk_result x = Ok (sort_val final_result) ∧ tk_finished_at x ≠ None.
Proof.
  intros Hv Hw. unfold succeed_task, mark_task_as_finished.
  rewrite (bind_ok _ _ w _ (tick w)) by done.
  rewrite (save_run (R:=task_row) _ (tick w) t Hw). eexists _, _. split; [reflexivity|].
  split_and!; [apply cur_with_tenant|done..| |done].
  refine (json_column_roundtrip final_result _). unfold final_result. by destruct (truthy retval).
Qed.
Lemma dispatch_known wf l n w t : cur w = Some t → the_row sp (rows (t_spaces t)) →
  wf_id wf = wf_id (lv_wf l) → wf_space wf = sp_id sp → known (lv_nodes l) n →
  dispatch_next wf (lv_nodes l) (lv_adj l) (lv_conns l) (PStr n) w
  = (Ok tt, set_w_broker (w_broker w ++ [next_message l n]) w).
Proof.
  intros Hw Hsp Hid Hspace (v & nm & Hv & Ht & Hn). unfold dispatch_next.
  rewrite (bind_ok _ _ w (Some v) w) by (unfold lift; simpl; by rewrite Hv). rewrite Ht.
  rewrite (bind_ok _ _ w nm w) by (unfold lift; by rewrite Hn).
  rewrite Hspace, (bind_ok _ _ w sp w) by (by eapply get_space_run).
  unfold next_message. by rewrite <- Hid.
Qed.
Lemma dispatch_all wf l ns w t : cur w = Some t → the_row sp (rows (t_spaces t)) →
  wf_id wf = wf_id (lv_wf l) → wf_space wf = sp_id sp → Forall (known (lv_nodes l)) ns →
  for_each (PStr <$> ns) (dispatch_next wf (lv_nodes l) (lv_adj l) (lv_conns l)) w
  = (Ok tt, set_w_broker (w_broker w ++ (next_message l <$> ns)) w).
Proof.
  intros Hw Hsp Hid Hspace Hns. revert w Hw. induction Hns as [|n ns Hn Hns IH]; intros w Hw.
  - simpl. rewrite app_nil_r. by destruct w.
  - rewrite !fmap_cons. cbn [for_each].
    rewrite (bind_ok _ _ _ _ _ (dispatch_known wf l n w t Hw Hsp Hid Hspace Hn)).
    rewrite IH by done. simpl. by rewrite <- app_assoc.
Qed.

(** The workflow object once the output of the task is known *)
Definition with_output (l : level) : workflow_row :=
  set_wf_current_node_id (Some (lv_node l)) (set_wf_last_task_output retval (lv_wf l)).

(** What is left to do once the completed workflow is saved ... *)
Definition to_parent (fuel : nat) (wf : workflow_row) : M unit :=
  parent ← fetch_fk (wf_parent wf);
  match parent with
  | None => mret tt
  | Some p =>
      sp ← get_by_id (R:=space_row) (wf_space wf);
      parent_task ← objects_get (λ t, (tk_workflow t =? wf_id p) &&
        bool_decide (tk_node_id t = wf_node_id wf) && bool_decide (tk_space t = Some (sp_id sp)));
      handle_task_success fuel retval (set_tk_status TProgress parent_task)
  end.
(** ... and once the template has been read *)
Definition after_output (fuel : nat) (l : level) : M unit :=
  match PStr <$> lv_next l with
  | [] =>
      _ ← get_by_id (R:=user_row) (wf_owner (with_output l));
      n ← now;
      wf ← save_workflow (set_wf_finished_at (Some n) (set_wf_status_ WSuccess (with_output l)));
      to_parent fuel wf
  | _ => for_each (PStr <$> lv_next l) (dispatch_next (with_output l) (lv_nodes l) (lv_adj l) (lv_conns l))
  end.
Lemma handle_reads fuel self w t l : wf_val retval = true → cur w = Some t → level_ok t l →
  handles self l →
  ∃ x w1, cur w1 = Some (with_tasks t x) ∧ w_broker w1 = w_broker w ∧
    tk_id x = tk_id (lv_task l) ∧ tk_workflow x = wf_id (lv_wf l) ∧
    tk_celery_task_id x = tk_celery_task_id (lv_task l) ∧ tk_status x = TSuccess ∧
    tk_result x = Ok (sort_val final_result) ∧ tk_finished_at x ≠ None ∧
    handle_task_success (S fuel) retval self w = after_output fuel l w1.
Proof.
  intros Hv Hw L [Hi Hwf Hc Hn Hst].
  destruct (succeed_spec self w t Hv Hw) as (x & w1 & Hs & Hw1 & Hb & Hxi & Hxw & Hxc & Hxn & Hrest).
  destruct Hrest as (? & ? & ?).
  exists x, w1. split_and!; [done|done|congruence|by rewrite Hxw, Hwf, (lo_of _ _ L)|congruence|done..|].
  cbn [handle_task_success]. rewrite bool_decide_eq_false_2 by done.
  rewrite (bind_ok _ _ _ _ _ Hs). rewrite Hxw, Hwf, (lo_of _ _ L).
  rewrite (bind_ok _ _ w1 (lv_wf l) w1) by (eapply get_workflow_run; [done|apply L]).
  destruct (lo_template _ _ L) as (wt & Hwt & Hwt' & Hread).
  rewrite Hwt', (bind_ok _ _ w1 (Some wt) w1) by (exact (fetch_run wt w1 _ Hw1 Hwt)).
  rewrite (bind_ok _ _ w1 (lv_nodes l, lv_conns l, lv_adj l) w1) by (unfold lift; by rewrite Hread).
  cbn beta iota. rewrite Hxn, Hn, (lo_node _ _ L).
  rewrite (bind_ok _ _ w1 (lv_node l) w1) by done.
  destruct (lo_current _ _ L) as (v & Hcur & Hnext).
  rewrite (bind_ok _ _ w1 v w1) by (unfold lift; by rewrite (getitem_ok _ _ _ Hcur)).
  rewrite (bind_ok _ _ w1 (PStr <$> lv_next l) w1) by (unfold lift; by rewrite Hnext).
  reflexivity.
Qed.

(** A level with successors sends them and ends the climb. *)
Lemma level_goes_on fuel self w t l : wf_val retval = true → cur w = Some t →
  the_row sp (rows (t_spaces t)) → level_ok t l → handles self l → lv_next l ≠ [] →
  ∃ w' t', handle_task_success (S fuel) retval self w = (Ok tt, w') ∧ climbed w w' t t' [l].
Proof.
  intros Hv Hw Hsp L Hh Hne.
  destruct (handle_reads fuel self w t l Hv Hw L Hh) as (x & w1 & Hw1 & Hb & Hi & Hxw & Hxc & Hs & Hr & Hf & ->).
  assert (after_output fuel l w1 = for_each (PStr <$> lv_next l)
    (dispatch_next (with_output l) (lv_nodes l) (lv_adj l) (lv_conns l)) w1) as ->.
  { unfold after_output. by destruct (lv_next l). }
  rewrite (dispatch_all (with_output l) l (lv_next l) w1 (with_tasks t x)); try done;
    [|apply L|apply (lo_known _ _ L)].
  eexists _, _. split; [reflexivity|]. pose proof (lo_task _ _ L) as Hrow. split.
  - exact Hw1.
  - apply Forall_singleton. exists x. split_and!; try done. by apply (the_row_save (lv_task l)).
  - apply Forall_singleton. unfold workflow_done. destruct (lv_next l); [done|]. apply L.
  - simpl. unfold sent. simpl. by rewrite app_nil_r, Hb.
  - intros y Hy [Hne' _]%Forall_cons. exact (the_row_other y _ x _ Hi Hne' Hrow Hy).
  - done.
Qed.

(** A level without successors ends its workflow. *)
Lemma level_ends fuel self w t l : wf_val retval = true → cur w = Some t → level_ok t l →
  handles self l → lv_next l = [] →
  ∃ x wf w2, let t2 := with_workflows (with_tasks t x) wf in
    cur w2 = Some t2 ∧ w_broker w2 = w_broker w ∧ keeps_older (wf_id (lv_wf l)) t t2 ∧
    task_done t2 l ∧ workflow_done t2 l ∧ tk_id x = tk_id (lv_task l) ∧
    wf_id wf = wf_id (lv_wf l) ∧ wf_parent wf = wf_parent (lv_wf l) ∧
    wf_node_id wf = wf_node_id (lv_wf l) ∧ wf_space wf = sp_id sp ∧
    handle_task_success (S fuel) retval self w = to_parent fuel wf w2.
Proof.
  intros Hv Hw L Hh Hnil.
  destruct (handle_reads fuel self w t l Hv Hw L Hh) as (x & w1 & Hw1 & Hb & Hi & Hxw & Hxc & Hs & Hr & Hf & ->).
  unfold after_output. rewrite Hnil. cbn [fmap list_fmap].
  destruct (lo_owner _ _ L) as (u & Hu & Hown). change (wf_owner (with_output l)) with (wf_owner (lv_wf l)).
  rewrite <- Hown, (bind_ok _ _ w1 u w1) by (by eapply get_user_run).
  rewrite (bind_ok _ _ w1 (w_clock w1) (tick w1)) by done. set (wf0 := set_wf_finished_at _ _).
  destruct (save_workflow_spec wf0 (tick w1) _ Hw1) as (w2 & Hsave & Hw2 & _ & Hb2 & _).
  rewrite (bind_ok _ _ _ _ _ Hsave). eexists x, _, w2. pose proof (lo_task _ _ L) as Hrow.
  split_and!; [exact Hw2|by rewrite Hb2| | | |done..|apply (lo_space _ _ L)|done].
  - by apply (keeps_save t (lv_task l) x); [..|apply (lo_wf _ _ L)|apply (lo_of _ _ L)| | | |].
  - exists x. split_and!; try done. by apply (the_row_save (lv_task l)).
  - unfold workflow_done. rewrite Hnil. exists (set_wf_modified_at (w_clock (tick w1)) wf0).
    split; [|done].
    exact (the_row_save (lv_wf l) (set_wf_modified_at (w_clock (tick w1)) wf0) _ eq_refl (lo_wf _ _ L)).
Qed.

Lemma task_done_later t t' l ls : task_done t l →
  (∀ x, the_row x (rows (t_tasks t)) → Forall (λ l, tk_id x ≠ tk_id (lv_task l)) ls →
    the_row x (rows (t_tasks t'))) →
  Forall (λ p, tk_id (lv_task l) ≠ tk_id (lv_task p)) ls → task_done t' l.
Proof.
  intros (x & Hx & Hid & Hrest) Hk Hl. exists x. split; [|done]. apply Hk; [done|]. by rewrite Hid.
Qed.
Lemma workflow_done_later t t' l ls : lv_next l = [] → workflow_done t l →
  (∀ wf, the_row wf (rows (t_workflows t)) → Forall (λ l, wf_id wf ≠ wf_id (lv_wf l)) ls →
    the_row wf (rows (t_workflows t'))) →
  Forall (λ p, wf_id (lv_wf l) ≠ wf_id (lv_wf p)) ls → workflow_done t' l.
Proof.
  unfold workflow_done. intros -> (x & Hx & Hid & Hrest) Hk Hl.
  exists x. split; [|done]. apply Hk; [done|]. by rewrite Hid.
Qed.
(** The tasks of a climb are distinct. *)
Lemma climb_tasks_differ t l ls : climb t (l :: ls) →
  Forall (λ p, tk_id (lv_task l) ≠ tk_id (lv_task p)) ls.
Proof.
  intros C. pose proof (climb_older _ _ _ C) as Ho. pose proof (climb_head _ _ _ C) as L.
  assert (Forall (level_ok t) (l :: ls)) as Hall.
  { clear -C. induction C; by constructor. }
  apply Forall_cons in Hall as [_ Hall]. rewrite Forall_forall in Ho, Hall |- *.
  intros p Hp E. specialize (Ho p Hp). pose proof (Hall p Hp) as P. simpl in Ho.
  assert (lv_task l = lv_task p) as Et.
  { apply (the_row_unique _ _ _ (lo_task _ _ P)); [|done]. by apply the_row_in, (lo_task _ _ L). }
  pose proof (lo_of _ _ L) as H1. pose proof (lo_of _ _ P) as H2. rewrite Et in H1. lia.
Qed.

(** C3: the completion of nested workflows.  Over every chain of workflows,
    each a child of the next, whose tasks wait for each other, the completion of
    the innermost task returns normally, and then: every task of the chain has
    succeeded with the same result; every workflow whose node has no successor
    has succeeded, with that output; the last level, when it has successors,
    keeps its row and sends exactly their messages, and nothing else is sent;
    every other task and workflow of the tenant is as it was. *)
Theorem nested_completion fuel ls : ∀ self w t l, (length ls < fuel)%nat → wf_val retval = true →
  cur w = Some t → the_row sp (rows (t_spaces t)) → climb t (l :: ls) → handles self l →
  ∃ w' t', handle_task_success fuel retval self w = (Ok tt, w') ∧ climbed w w' t t' (l :: ls).
Proof.
  revert fuel. induction ls as [|p ls IH]; intros [|fuel] self w t l Hf Hv Hw Hsp C Hh;
    [simpl in Hf; lia| |simpl in Hf; lia|].
  - inversion C as [? L Hp|]; subst. destruct (decide (lv_next l = [])) as [E|E].
    + destruct (level_ends fuel self w t l Hv Hw L Hh E)
        as (x & wf & w2 & Hw2 & Hb & K & Ht & Hd & Hx & Hwf & Hpar & _ & _ & ->).
      eexists w2, _. split; [unfold to_parent; by rewrite Hpar, (Hp E)|].
      split; [exact Hw2|by apply Forall_singleton|by apply Forall_singleton| | |].
      * unfold sent. simpl. by rewrite E, Hb, app_nil_r.
      * intros y Hy [Hne _]%Forall_cons. exact (the_row_other y _ x _ Hx Hne (lo_task _ _ L) Hy).
      * intros y Hy [Hne _]%Forall_cons. exact (the_row_other y _ wf _ Hwf Hne (lo_wf _ _ L) Hy).
    + by apply level_goes_on.
  - inversion C as [|? ? ? L E Hc C']; subst.
    destruct (level_ends fuel self w t l Hv Hw L Hh E)
      as (x & wf & w2 & Hw2 & Hb & K & Ht & Hd & Hx & Hwf & Hpar & Hnode & Hspace & ->).
    set (t2 := with_workflows _ _) in *.
    pose proof (climb_older _ _ _ C) as Hold. pose proof (climb_tasks_differ _ _ _ C) as Hdiff.
    assert (climb t2 (p :: ls)) as C2 by (by eapply climb_keeps).
    pose proof (climb_head _ _ _ C2) as P2.
    destruct (IH fuel (set_tk_status TProgress (lv_task p)) w2 t2 p) as (w' & t' & Hrun & R);
      [simpl in Hf |- *; lia|done..|by split|].
    exists w', t'. split.
    + unfold to_parent. rewrite Hpar, (ch_parent _ _ _ Hc).
      rewrite (bind_ok _ _ w2 (Some (lv_wf p)) w2) by (exact (fetch_run (lv_wf p) w2 _ Hw2 (lo_wf _ _ P2))).
      rewrite Hspace, (bind_ok _ _ w2 sp w2) by (by eapply get_space_run).
      rewrite (bind_ok _ _ w2 (lv_task p) w2); [exact Hrun|].
      eapply get_run; [exact Hw2|]. rewrite Hnode.
      etransitivity; [|apply (ch_task _ _ _ Hc)]. apply (ko_waits _ _ _ K).
      apply (ch_older _ _ _ Hc).
    + destruct R as [Rc Rt Rw Rb Ro Rp]. split; [done|..].
      * constructor; [by eapply task_done_later|done].
      * constructor; [|done]. eapply workflow_done_later; [done..|].
        eapply Forall_impl; [exact Hold|]. simpl. lia.
      * rewrite Rb, Hb. unfold sent. simpl. by rewrite E.
      * intros y Hy [Hne Hnes]%Forall_cons. apply Ro; [|done].
        exact (the_row_other y _ x _ Hx Hne (lo_task _ _ L) Hy).
      * intros y Hy [Hne Hnes]%Forall_cons. apply Rp; [|done].
        exact (the_row_other y _ wf _ Hwf Hne (lo_wf _ _ L) Hy).
Qed.
End Nested.

(** ** Failure *)

(** The failure of a task goes the same way: [on_failure] marks the task and
    its workflow and calls itself for the waiting task of the parent. *)
Section Failure.
Context `{Platform} `{Celery}.
Context (s : string) (sp : space_row) (e : exn) (kw : list (string * pyval)).
Context (Hkw : get (kwget kw "context") "space_code" = Ok (PStr (sp_space_code sp)))
  (Hcode : lower (sp_space_code sp) = s) (Hne : sp_space_code sp ≠ "").

(** A task and its workflow *)
Record failing : Type := Failing { fa_task : task_row; fa_wf : workflow_row }.
Record failing_ok (t : tenant) (l : failing) : Prop := {
  fo_task : the_row (fa_task l) (rows (t_tasks t));
  fo_wf : the_row (fa_wf l) (rows (t_workflows t));
  fo_of : tk_workflow (fa_task l) = wf_id (fa_wf l);
  fo_celery : List.filter (has_celery_id (tk_celery_task_id (fa_task l))) (rows (t_tasks t)) = [fa_task l];
  fo_space : wf_space (fa_wf l) = sp_id sp
}.
(** The failing task, the task that waits for its workflow, and so on up to a
    workflow without a parent *)
Inductive failures (t : tenant) : list failing → Prop :=
  | failures_last l : failing_ok t l → wf_parent (fa_wf l) = None → failures t [l]
  | failures_up l p ls : failing_ok t l → wf_parent (fa_wf l) = Some (wf_id (fa_wf p)) →
      wf_id (fa_wf p) < wf_id (fa_wf l) →
      List.filter (waits_for sp (fa_wf l) (wf_id (fa_wf p))) (rows (t_tasks t)) = [fa_task p] →
      failures t (p :: ls) → failures t (l :: p :: ls).

(** The task and the workflow of [l] have failed with the exception. *)
Definition failed (t : tenant) (l : failing) : Prop :=
  (∃ x, the_row x (rows (t_tasks t)) ∧ tk_id x = tk_id (fa_task l) ∧
     tk_status x = (if is_time_limit e then TTimeout else TError) ∧
     tk_error_message x = Some (exn_text e) ∧ tk_finished_at x ≠ None) ∧
  ∃ wf, the_row wf (rows (t_workflows t)) ∧ wf_id wf = wf_id (fa_wf l) ∧
     wf_status_ wf = (if is_time_limit e then WTimeout else WError).
Record left_alone (w w' : world) (t t' : tenant) (ls : list failing) : Prop := {
  la_tenant : w_tenants w' !! s = Some t';
  la_others : ∀ s', s' ≠ s → w_tenants w' !! s' = w_tenants w !! s';
  la_catalog : w_catalog w' = w_catalog w;
  la_broker : w_broker w' = w_broker w;
  la_tasks : ∀ x, the_row x (rows (t_tasks t)) →
    Forall (λ l, tk_id x ≠ tk_id (fa_task l)) ls → the_row x (rows (t_tasks t'));
  la_workflows : ∀ wf, the_row wf (rows (t_workflows t)) →
    Forall (λ l, wf_id wf ≠ wf_id (fa_wf l)) ls → the_row wf (rows (t_workflows t'))
}.

Lemma failing_keeps i t t' l : keeps_older sp i t t' → wf_id (fa_wf l) < i → failing_ok t l → failing_ok t' l.
Proof.
  intros K Hi [Ht Hw Ho Hc Hs]. split; try done.
  - apply (ko_task _ _ _ _ K); [by rewrite Ho|done].
  - by apply (ko_wf _ _ _ _ K).
  - apply (ko_celery _ _ _ _ K); [by rewrite Ho|done].
Qed.
Lemma failures_keeps i t t' ls : keeps_older sp i t t' → failures t ls →
  Forall (λ l, wf_id (fa_wf l) < i) ls → failures t' ls.
Proof.
  intros K C. induction C as [l L Hp|l p ls L Hp Ho Hf C IH]; intros Hi;
    apply Forall_cons in Hi as [Hl Hi].
  - apply failures_last; [by eapply failing_keeps|done].
  - apply failures_up; [by eapply failing_keeps|done..| |by apply IH].
    rewrite (ko_waits _ _ _ _ K); [done|]. lia.
Qed.
Lemma failures_head t l ls : failures t (l :: ls) → failing_ok t l.
Proof. by inversion 1. Qed.
Lemma failures_older t l ls : failures t (l :: ls) → Forall (λ p, wf_id (fa_wf p) < wf_id (fa_wf l)) ls.
Proof.
  revert l. induction ls as [|p ls IH]; intros l C; [constructor|].
  inversion C as [|? ? ? L Hp Ho Hf C']; subst. constructor; [done|].
  eapply Forall_impl; [by apply IH|]. simpl. lia.
Qed.
Lemma failures_tasks_differ t l ls : failures t (l :: ls) →
  Forall (λ p, tk_id (fa_task l) ≠ tk_id (fa_task p)) ls.
Proof.
  intros C. pose proof (failures_older _ _ _ C) as Ho. pose proof (failures_head _ _ _ C) as L.
  assert (Forall (failing_ok t) (l :: ls)) as Hall by (clear -C; induction C; by constructor).
  apply Forall_cons in Hall as [_ Hall]. rewrite Forall_forall in Ho, Hall |- *.
  intros p Hp E. specialize (Ho p Hp). pose proof (Hall p Hp) as P. simpl in Ho.
  assert (fa_task l = fa_task p) as Et.
  { apply (the_row_unique _ _ _ (fo_task _ _ P)); [|done]. by apply the_row_in, (fo_task _ _ L). }
  pose proof (fo_of _ _ L) as H1. pose proof (fo_of _ _ P) as H2. rewrite Et in H1. lia.
Qed.

(** The alert reads tables and sends a request. *)
Lemma send_alert_keeps (I : world → Prop) wf : (∀ w r, I w → I (set_w_requests r w)) →
  Keeps I (send_alert wf) anything.
Proof.
  intros Hr. unfold send_alert. destruct (bool_decide _); [|by apply keeps_ret].
  apply keeps_try; [|intros; by apply keeps_ret].
  eapply keeps_bind; [apply frame_get|]. intros bot _.
  eapply keeps_bind; [apply frame_filter|]. intros ts _.
  eapply keeps_bind; [apply frame_get|]. intros sp' _.
  eapply keeps_bind; [by apply frame_send|]. intros r _. by apply keeps_ret.
Qed.
Lemma send_alert_ok wf w : ∃ w', send_alert wf w = (Ok tt, w') ∧ w_tenants w' = w_tenants w ∧
  w_catalog w' = w_catalog w ∧ w_broker w' = w_broker w.
Proof.
  assert (∃ w', send_alert wf w = (Ok tt, w')) as [w' Hw'].
  { unfold send_alert. destruct (bool_decide _); [|by eexists]. unfold try_except.
    match goal with |- ∃ w', match ?m with _ => _ end = _ => destruct m as [[[]|] w'] end; by eexists. }
  exists w'. split; [done|].
  destruct (send_alert_keeps (λ w', w_tenants w' = w_tenants w ∧ w_catalog w' = w_catalog w ∧
    w_broker w' = w_broker w) wf ltac:(done) w) as [Hk _]; [done|]. by rewrite Hw' in Hk.
Qed.
Lemma enters w : sp_space_code sp ∈ w_catalog w →
  set_schema_from_context (kwget kw "context") w = (Ok tt, set_w_path s w).
Proof using Hkw Hcode Hne.
  intros Hw. unfold set_schema_from_context.
  assert (truthy (kwget kw "context") = true) as -> by (by destruct (kwget kw "context") as [| | | | |[|]]).
  assert (truthy (PStr (sp_space_code sp)) = true) as Ht by (by apply negb_true_iff, String.eqb_neq).
  unfold mbind, ST_bind, lift. rewrite Hkw, Ht. simpl.
  rewrite bool_decide_eq_true_2 by done. unfold set_search_path, modify. by rewrite Hcode.
Qed.

(** The rest of a level's [on_failure], once its rows are saved *)
Definition fail_parent (fuel : nat) (own : workflow_row) : M unit :=
  parent ← fetch_fk (R:=workflow_row) (wf_parent own);
  _ ← match parent with
      | Some parent_workflow =>
          sp ← get_by_id (R:=space_row) (wf_space own);
          parent_task ← objects_get (λ t,
            (tk_workflow t =? wf_id parent_workflow) &&
            bool_decide (tk_node_id t = wf_node_id own) && bool_decide (tk_space t = Some (sp_id sp)));
          on_failure fuel kw (tk_celery_task_id parent_task) e
      | None => mret tt
      end;
  send_alert own.
(** The rows saved are those of the level, with another outcome. *)
Record saved_failure (x0 x : task_row) (wf0 wf : workflow_row) : Prop := {
  sf_id : tk_id x = tk_id x0;
  sf_celery : tk_celery_task_id x = tk_celery_task_id x0;
  sf_name : tk_name x = tk_name x0;
  sf_workflow : tk_workflow x = tk_workflow x0;
  sf_source : tk_source_code x = tk_source_code x0;
  sf_wf_id : wf_id wf = wf_id wf0;
  sf_template : wf_template wf = wf_template wf0;
  sf_status : tk_status x = (if is_time_limit e then TTimeout else TError);
  sf_error : tk_error_message x = Some (exn_text e);
  sf_finished : tk_finished_at x ≠ None;
  sf_wf_status : wf_status_ wf = (if is_time_limit e then WTimeout else WError)
}.
Lemma level_fails fuel w t l : w_tenants w !! s = Some t → sp_space_code sp ∈ w_catalog w → failing_ok t l →
  ∃ x wf w2, let t2 := with_workflows (with_tasks t x) wf in
    w_path w2 = s ∧ left_alone w w2 t t2 [l] ∧ keeps_older sp (wf_id (fa_wf l)) t t2 ∧ failed t2 l ∧
    wf_parent wf = wf_parent (fa_wf l) ∧ wf_node_id wf = wf_node_id (fa_wf l) ∧ wf_space wf = sp_id sp ∧
    saved_failure (fa_task l) x (fa_wf l) wf ∧
    on_failure (S fuel) kw (tk_celery_task_id (fa_task l)) e w = fail_parent fuel wf w2.
Proof using Hkw Hcode Hne.
  intros Hw Hc L. cbn [on_failure]. rewrite (bind_ok _ _ _ _ _ (enters w Hc)).
  set (w0 := set_w_path s w). assert (cur w0 = Some t) as Hw0 by exact Hw.
  rewrite (bind_ok _ _ w0 (fa_task l) w0) by (eapply get_run; [exact Hw0|exact (fo_celery _ _ L)]).
  rewrite (fo_of _ _ L), (bind_ok _ _ w0 (fa_wf l) w0) by (eapply get_workflow_run; [done|apply L]).
  unfold fail_task at 1, mark_task_as_finished. set (x0 := set_tk_error_message _ _).
  rewrite (bind_ok _ _ w0 (set_tk_finished_at (Some (w_clock w0)) x0) (tick w0)) by done.
  set (x1 := set_tk_finished_at _ x0). set (x := set_tk_modified_at (w_clock (tick w0)) x1).
  rewrite (bind_ok _ _ _ _ _ (save_run (R:=task_row) x1 (tick w0) t Hw0)).
  set (w1 := with_tenant _ (tick (tick w0))). assert (cur w1 = Some (with_tasks t x)) as Hw1 by apply cur_with_tenant.
  destruct (save_workflow_spec (fail_workflow e (fa_wf l)) w1 _ Hw1)
    as (w2 & Hs & Hw2 & Hp2 & Hb2 & _ & Hc2 & Ho2).
  set (wf := set_wf_modified_at (w_clock w1) (fail_workflow e (fa_wf l))) in *.
  rewrite (bind_ok _ _ _ _ _ Hs).
  pose proof (fo_task _ _ L) as Ht. pose proof (fo_wf _ _ L) as Hwf.
  assert (the_row wf (rows (t_workflows (with_workflows (with_tasks t x) wf)))) as Hwf2
    by exact (the_row_save (fa_wf l) wf _ eq_refl Hwf).
  assert (get_by_id (R:=workflow_row) (tk_workflow x) w2 = (Ok wf, w2)) as Hown.
  { change (tk_workflow x) with (tk_workflow (fa_task l)). rewrite (fo_of _ _ L).
    exact (get_workflow_run wf w2 _ Hw2 Hwf2). }
  rewrite (bind_ok _ _ w2 wf w2) by exact Hown.
  exists x, wf, w2. split_and!; [by rewrite Hp2| | | |done|done|apply (fo_space _ _ L)|by split|done].
  - split.
    + unfold cur in Hw2. by rewrite Hp2 in Hw2.
    + intros s' Hs'. rewrite Ho2 by done. apply lookup_insert_ne. done.
    + by rewrite Hc2.
    + by rewrite Hb2.
    + intros y Hy [Hy' _]%Forall_cons. exact (the_row_other y (fa_task l) x _ eq_refl Hy' Ht Hy).
    + intros y Hy [Hy' _]%Forall_cons. exact (the_row_other y (fa_wf l) wf _ eq_refl Hy' Hwf Hy).
  - apply (keeps_save sp t (fa_task l) x (fa_wf l) wf); try done; apply (fo_of _ _ L).
  - split.
    + exists x. split_and!; [|done..]. exact (the_row_save (fa_task l) x _ eq_refl Ht).
    + exists wf. split_and!; done.
Qed.

Lemma failed_later t t' l ls : failed t l →
  (∀ x, the_row x (rows (t_tasks t)) → Forall (λ l, tk_id x ≠ tk_id (fa_task l)) ls →
    the_row x (rows (t_tasks t'))) →
  (∀ wf, the_row wf (rows (t_workflows t)) → Forall (λ l, wf_id wf ≠ wf_id (fa_wf l)) ls →
    the_row wf (rows (t_workflows t'))) →
  Forall (λ p, tk_id (fa_task l) ≠ tk_id (fa_task p)) ls →
  Forall (λ p, wf_id (fa_wf l) ≠ wf_id (fa_wf p)) ls → failed t' l.
Proof.
  intros [(x & Hx & Hid & Hrest) (wf & Hwf & Hwid & Hst)] Kt Kw Ht Hw. split.
  - exists x. split; [|done]. apply Kt; [done|]. by rewrite Hid.
  - exists wf. split; [|done]. apply Kw; [done|]. by rewrite Hwid.
Qed.

(** C4: the failure of nested workflows.  When a task fails and its workflow
    is the innermost of a chain of workflows, each a child of the next, the
    failure handler returns normally, and then every task of the chain has
    failed with the exception's message (or timed out), and so has every
    workflow; nothing is sent to the workers, and no other task, workflow or
    tenant is touched. *)
Theorem nested_failure fuel ls : ∀ w t l, (length ls < fuel)%nat → w_tenants w !! s = Some t →
  sp_space_code sp ∈ w_catalog w → the_row sp (rows (t_spaces t)) → failures t (l :: ls) →
  ∃ w' t', on_failure fuel kw (tk_celery_task_id (fa_task l)) e w = (Ok tt, w') ∧
    left_alone w w' t t' (l :: ls) ∧ Forall (failed t') (l :: ls).
Proof using Hkw Hcode Hne.
  revert fuel. induction ls as [|p ls IH]; intros [|fuel] w t l Hf Hw Hc Hsp C;
    [simpl in Hf; lia| |simpl in Hf; lia|].
  - inversion C as [? L Hp|]; subst.
    destruct (level_fails fuel w t l Hw Hc L) as (x & wf & w2 & _ & A & K & F & Hpar & _ & _ & _ & ->).
    destruct (send_alert_ok wf w2) as (w' & Ha & E1 & E2 & E3).
    eexists w', _. split; [unfold fail_parent; rewrite Hpar, Hp; exact Ha|].
    split; [|by apply Forall_singleton]. destruct A as [A1 A2 A3 A4 A5 A6].
    split; rewrite ?E1, ?E2, ?E3; done.
  - inversion C as [|? ? ? L Hp Hlt Hfi C']; subst.
    destruct (level_fails fuel w t l Hw Hc L) as (x & wf & w2 & Hp2 & A & K & F & Hpar & Hnode & Hspace & _ & ->).
    set (t2 := with_workflows _ _) in *. destruct A as [A1 A2 A3 A4 A5 A6].
    pose proof (failures_older _ _ _ C) as Hold. pose proof (failures_tasks_differ _ _ _ C) as Hdiff.
    assert (failures t2 (p :: ls)) as C2 by (by eapply failures_keeps).
    pose proof (failures_head _ _ _ C2) as P2.
    assert (cur w2 = Some t2) as Hw2 by (unfold cur; by rewrite Hp2).
    destruct (IH fuel w2 t2 p) as (w3 & t3 & Hrun & B & Fs); [simpl in Hf |- *; lia|done|by rewrite A3|done..|].
    destruct (send_alert_ok wf w3) as (w' & Ha & E1 & E2 & E3).
    exists w', t3. split.
    + unfold fail_parent. rewrite Hpar, Hp.
      rewrite (bind_ok _ _ w2 (Some (fa_wf p)) w2) by (exact (fetch_run (fa_wf p) w2 _ Hw2 (fo_wf _ _ P2))).
      rewrite (bind_ok _ _ w2 tt w3); [exact Ha|].
      rewrite Hspace, (bind_ok _ _ w2 sp w2) by (by eapply get_space_run).
      rewrite (bind_ok _ _ w2 (fa_task p) w2); [exact Hrun|].
      eapply get_run; [exact Hw2|]. rewrite Hnode. etransitivity; [|exact Hfi].
      apply (ko_waits _ _ _ _ K). done.
    + destruct B as [B1 B2 B3 B4 B5 B6]. split.
      * split; rewrite ?E1, ?E2, ?E3; [done| |congruence|congruence|..].
        -- intros s' Hs'. by rewrite B2, A2.
        -- intros y Hy [Hy1 Hy2]%Forall_cons. apply B5; [|done]. apply A5; [done|by apply Forall_singleton].
        -- intros y Hy [Hy1 Hy2]%Forall_cons. apply B6; [|done]. apply A6; [done|by apply Forall_singleton].
      * constructor; [|done]. eapply failed_later; [done..|].
        eapply Forall_impl; [exact Hold|]. simpl. lia.
Qed.
End Failure.

(** ** A concrete chain *)

(** Workflow 3 is a child of workflow 2, a child of workflow 1; the node "m"
    of workflow 2 and the node "n" of workflow 1 wait.  "m" follows "n". *)
Definition chain_data : pyval := demo_data ["n"; "m"] [Edge "n" "out" "m" "in"].
Definition chain_wf (i : Z) (node : option string) (parent : option Z) : workflow_row :=
  set_wf_id i (set_wf_status_ WProgress
    (new_workflow_row 1 1 (Some "com.demo:wf") node (Some 1) false None None parent)).
Definition chain_task (i : Z) (node : string) (st : task_status) : task_row :=
  set_tk_id i (set_tk_status st (new_task_row node (Some "source_code") i (Some node) (Some 1) false)).
Definition chain_tenant : tenant := demo_tenant chain_data
  [chain_wf 1 None None; chain_wf 2 (Some "n") (Some 1); chain_wf 3 (Some "m") (Some 2)]
  [chain_task 1 "n" TNestedProgress; chain_task 2 "m" TNestedProgress; chain_task 3 "m" TProgress].
Definition chain_world : world := set_w_path "space00000" (demo_world chain_tenant).
Definition chain_level (wf : workflow_row) (task : task_row) (node : string) (next : list string) : level :=
  let '(nodes, conns, adj) :=
    match read_template (demo_template chain_data) with Ok r => r | Raise _ => ([], PNone, []) end in
  Level task wf node nodes conns adj next.
Definition level1 : level := chain_level (chain_wf 1 None None) (chain_task 1 "n" TNestedProgress) "n" ["m"].
Definition level2 : level := chain_level (chain_wf 2 (Some "n") (Some 1)) (chain_task 2 "m" TNestedProgress) "m" [].
Definition level3 : level := chain_level (chain_wf 3 (Some "m") (Some 2)) (chain_task 3 "m" TProgress) "m" [].

Ltac solve_level := split;
  [vm_compute; reflexivity..
  |exists (demo_template chain_data); split_and!; vm_compute; reflexivity
  |eexists; split; vm_compute; reflexivity
  |repeat (apply Forall_cons; split); [do 2 eexists; split_and!; vm_compute; reflexivity..|constructor]
  |exists demo_user; split; vm_compute; reflexivity
  |vm_compute; reflexivity].
Lemma chain_climbs : climb demo_space demo_result chain_tenant [level3; level2; level1].
Proof.
  apply climb_up; [solve_level|reflexivity|split; vm_compute; reflexivity|].
  apply climb_up; [solve_level|reflexivity|split; vm_compute; reflexivity|].
  apply climb_last; [solve_level|done].
Qed.
Lemma nested_completion_witness :
  ∃ w' t', handle_task_success 3 demo_result (chain_task 3 "m" TProgress) chain_world = (Ok tt, w') ∧
    climbed demo_space demo_result chain_world w' chain_tenant t' [level3; level2; level1].
Proof.
  apply (nested_completion demo_space demo_result 3 [level2; level1]).
  - simpl. lia.
  - reflexivity.
  - reflexivity.
  - reflexivity.
  - exact chain_climbs.
  - split; [reflexivity..|discriminate].
Defined.
(** The message for "m" of workflow 1, and the statuses *)
Example chain_left :
  let w' := (handle_task_success 3 demo_result (chain_task 3 "m" TProgress) chain_world).2 in
  w_broker w' = [next_message demo_space level1 "m"] ∧
  (wf_status_ <$> default [] (rows ∘ t_workflows <$> cur w')) = [WProgress; WSuccess; WSuccess] ∧
  (tk_status <$> default [] (rows ∘ t_tasks <$> cur w')) = [TSuccess; TSuccess; TSuccess].
Proof. split_and!; vm_compute; reflexivity. Qed.

(** The same chain, its tasks with distinct celery identifiers; the innermost
    task fails. *)
Definition failing_task (i : Z) (celery_id node : string) (st : task_status) : task_row :=
  set_tk_id i (set_tk_status st
    (new_task_row celery_id (Some "source_code") i (Some node) (Some 1) false)).
Definition failing_tenant : tenant := demo_tenant chain_data
  [chain_wf 1 None None; chain_wf 2 (Some "n") (Some 1); chain_wf 3 (Some "m") (Some 2)]
  [failing_task 1 "c1" "n" TNestedProgress; failing_task 2 "c2" "m" TNestedProgress;
   failing_task 3 "c3" "m" TProgress].
Definition failing_world : world := set_w_path "space00000" (demo_world failing_tenant).
Definition failing1 : failing := Failing (failing_task 1 "c1" "n" TNestedProgress) (chain_wf 1 None None).
Definition failing2 : failing := Failing (failing_task 2 "c2" "m" TNestedProgress) (chain_wf 2 (Some "n") (Some 1)).
Definition failing3 : failing := Failing (failing_task 3 "c3" "m" TProgress) (chain_wf 3 (Some "m") (Some 2)).
Definition failing_kw : list (string * pyval) := [("context", context_of demo_space)].
Lemma chain_fails : failures demo_space failing_tenant [failing3; failing2; failing1].
Proof.
  apply failures_up; [split; vm_compute; reflexivity|reflexivity|reflexivity|vm_compute; reflexivity|].
  apply failures_up; [split; vm_compute; reflexivity|reflexivity|reflexivity|vm_compute; reflexivity|].
  apply failures_last; [split; vm_compute; reflexivity|done].
Qed.
Lemma nested_failure_witness : ∃ w' t',
  on_failure 3 failing_kw (Some "c3") SoftTimeLimitExceeded failing_world = (Ok tt, w') ∧
  left_alone "space00000" failing_world w' failing_tenant t' [failing3; failing2; failing1] ∧
  Forall (failed SoftTimeLimitExceeded t') [failing3; failing2; failing1].
Proof.
  apply (nested_failure "space00000" demo_space SoftTimeLimitExceeded failing_kw) with (fuel := 3%nat)
    (ls := [failing2; failing1]) (l := failing3).
  - vm_compute. reflexivity.
  - reflexivity.
  - discriminate.
  - simpl. lia.
  - reflexivity.
  - vm_compute. right; by left.
  - vm_compute. reflexivity.
  - exact chain_fails.
Defined.
