(* ===== verification/Chains.v ===== *)
(** * Running version 1 workflows

    A version 1 workflow is one celery chain: start, its steps in order, end
    (Builder.v).  Celery sends the message of a step when the body of the one
    before has returned, with what it returned in front of the arguments; the
    success handler of a step runs after that, beside whatever comes next in the
    chain.  A step that raises ends the chain.  The theorem follows the rows of
    the workflow through every order of these events, with the work of other
    tenants between any two. *)
From Stdlib Require Import Ascii String.
From stdpp Require Import base list strings numbers gmap sets relations.
From S2P Require Import Prelude PyStr PyVal Json World Demo Graph Finmars Models Manager Builder Launch.
From S2P Require Import Tasks Engine Fixture Completion Nested.
Local Open Scope string_scope.
Local Open Scope Z_scope.
Local Open Scope list_scope.

(** ** The chain *)

(** A step: the key and the celery identifier of its row, and its name *)
Record step_info : Type := StepInfo { si_key : Z; si_celery : string; si_name : string }.
(** Where a step is: its message has not run, its body has returned, its success
    has been handled, it has raised. *)
Inductive step_state : Type :=
  | Waits
  | Runs (v : pyval)
  | Succeeded (v : pyval)
  | Broke (e : exn).
Definition returned (st : step_state) : option pyval :=
  match st with Runs v | Succeeded v => Some v | _ => None end.
Definition has_returned (st : step_state) : Prop := is_Some (returned st).
Record progress : Type := Progress { pr_opened : bool; pr_steps : list step_state; pr_closed : bool }.

(** What celery puts in front of the arguments of a step: the result of the one
    before; [start] returns [None]. *)
Definition previous_result (l : list step_state) : pyval :=
  match last l with Some st => default PNone (returned st) | None => PNone end.

Section Chains.
Context `{Platform} `{Manager} `{UserCode} `{Celery}.
Context (fuel : nat) (s : string) (b : builder) (infos : list step_info).

Definition message_of (c : canvas) : message :=
  match c with Sig _ m => m | _ => Msg "" [] [] PNone end.
Definition start_message : message := message_of (boundary b "workflow.tasks.workflows.start").
Definition end_message : message := message_of (boundary b "workflow.tasks.workflows.end").
Definition step_kw (i : step_info) : list (string * pyval) :=
  msg_kwargs (message_of (step_signature b (si_celery i) (si_name i))).

(** The events of a chain; [cleanup] comes after each task. *)
Inductive chain_step : world * progress → world * progress → Prop :=
  | chain_start w w' l :
      task_body fuel start_message w = (Ok tt, w') →
      chain_step (w, Progress false l false) (set_w_path "public" w', Progress true l false)
  | chain_returns w w1 w2 pre post i t v : Forall has_returned pre → infos !! length pre = Some i →
      before_start (Some (si_celery i)) (step_kw i) w = (Ok t, w1) →
      execute_workflow_step [previous_result pre] (step_kw i) t w1 = (Ok v, w2) →
      chain_step (w, Progress true (pre ++ Waits :: post) false) (w2, Progress true (pre ++ Runs v :: post) false)
  | chain_raises w w1 w2 w3 pre post i t e : Forall has_returned pre → infos !! length pre = Some i →
      before_start (Some (si_celery i)) (step_kw i) w = (Ok t, w1) →
      execute_workflow_step [previous_result pre] (step_kw i) t w1 = (Raise e, w2) →
      on_failure fuel (step_kw i) (Some (si_celery i)) e w2 = (Ok tt, w3) →
      chain_step (w, Progress true (pre ++ Waits :: post) false)
        (set_w_path "public" w3, Progress true (pre ++ Broke e :: post) false)
  | chain_succeeds w w' pre post i v closed : infos !! length pre = Some i →
      on_success fuel (Some (si_celery i)) (step_kw i) v w = (Ok tt, w') →
      chain_step (w, Progress true (pre ++ Runs v :: post) closed)
        (set_w_path "public" w', Progress true (pre ++ Succeeded v :: post) closed)
  | chain_end w w' l : Forall has_returned l →
      task_body fuel end_message w = (Ok tt, w') →
      chain_step (w, Progress true l false) (set_w_path "public" w', Progress true l true)
  | chain_elsewhere w w' p :
      w_tenants w' !! s = w_tenants w !! s → w_catalog w' = w_catalog w →
      chain_step (w, p) (w', p).

(** How many events are left *)
Definition left_of (st : step_state) : nat :=
  match st with Waits => 2 | Runs _ => 1 | Succeeded _ | Broke _ => 0 end.
Definition events_left (p : progress) : nat :=
  ((if pr_opened p then 0 else 1) + sum_list_with left_of (pr_steps p) + (if pr_closed p then 0 else 1))%nat.

(** ** What the rows say *)

(** The row of a step in a state *)
Definition own_row (i : step_info) (x : task_row) : Prop :=
  tk_id x = si_key i ∧ tk_celery_task_id x = Some (si_celery i) ∧ tk_name x = Some (si_name i) ∧
  tk_workflow x = wf_id (b_workflow b) ∧ truthy_str (tk_source_code x) = None.
Definition row_state (st : step_state) (x : task_row) : Prop :=
  match st with
  | Waits => tk_status x = TInit
  | Runs _ => tk_status x = TProgress
  | Succeeded v => tk_status x = TSuccess ∧ tk_result x = Ok (sort_val (final_result v)) ∧ tk_finished_at x ≠ None
  | Broke e => tk_status x = (if is_time_limit e then TTimeout else TError) ∧
      tk_error_message x = Some (exn_text e) ∧ tk_finished_at x ≠ None
  end.
Definition has_row (t : tenant) (i : step_info) (x : task_row) : Prop :=
  the_row x (rows (t_tasks t)) ∧
  List.filter (has_celery_id (Some (si_celery i))) (rows (t_tasks t)) = [x] ∧ own_row i x.
Definition step_rep (t : tenant) (i : step_info) (st : step_state) : Prop :=
  ∃ x, has_row t i x ∧ row_state st x.

(** The status of the workflow; [Waits] is no exception. *)
Fixpoint broken (l : list step_state) : option exn :=
  match l with
  | [] => None
  | Broke e :: _ => Some e
  | _ :: l => broken l
  end.
Definition chain_status (initial : wf_status) (p : progress) : wf_status :=
  match broken (pr_steps p) with
  | Some e => if is_time_limit e then WTimeout else WError
  | None => if pr_closed p then WSuccess else if pr_opened p then WProgress else initial
  end.
Record workflow_is (t : tenant) (st : wf_status) (wf : workflow_row) : Prop := {
  wi_row : the_row wf (rows (t_workflows t));
  wi_id : wf_id wf = wf_id (b_workflow b);
  wi_template : wf_template wf = None;
  wi_parent : wf_parent wf = None;
  wi_space : wf_space wf = sp_id (b_space b);
  wi_status : wf_status_ wf = st
}.
Record chain_rep (initial : wf_status) (w : world) (p : progress) (t : tenant) : Prop := {
  cr_tenant : w_tenants w !! s = Some t;
  cr_catalog : sp_space_code (b_space b) ∈ w_catalog w;
  cr_wf : ∃ wf, workflow_is t (chain_status initial p) wf;
  cr_steps : Forall2 (step_rep t) infos (pr_steps p)
}.
(** The states a chain can be in: steps return one after the other, until one
    raises. *)
Fixpoint in_order (l : list step_state) : Prop :=
  match l with
  | [] => True
  | (Runs _ | Succeeded _) :: l => in_order l
  | (Waits | Broke _) :: l => Forall (eq Waits) l
  end.
Record shape (p : progress) : Prop := {
  sh_order : in_order (pr_steps p);
  sh_values : Forall (λ st, ∀ v, returned st = Some v → wf_val v = true) (pr_steps p);
  sh_opened : pr_opened p = false → Forall (eq Waits) (pr_steps p) ∧ pr_closed p = false;
  sh_closed : pr_closed p = true → Forall has_returned (pr_steps p)
}.
(** A chain that is over: every step has succeeded, or those before the one that
    raised, after which none has run. *)
Inductive settled : progress → Prop :=
  | settled_all vs : settled (Progress true (Succeeded <$> vs) true)
  | settled_broken vs e n : settled (Progress true ((Succeeded <$> vs) ++ Broke e :: replicate n Waits) false).
End Chains.

(** ** Rows of one step *)

Lemma filter_map_commute {A} (P : A → bool) (f : A → A) l : (∀ x, x ∈ l → P (f x) = P x) →
  List.filter P (map f l) = map f (List.filter P l).
Proof.
  induction l as [|x l IH]; intros Hf; [done|]. simpl. rewrite Hf by left.
  destruct (P x); simpl; [f_equal|]; apply IH; intros y Hy; apply Hf; by right.
Qed.
(** Saving the only row with a property that the new row has too *)
Lemma filter_save {R} `{Model R} (P : R → bool) (r r' : R) l : row_id r' = row_id r → the_row r l →
  List.filter P l = [r] → P r' = true → List.filter P (write_row r' l) = [r'].
Proof.
  intros Hid Hr Hf Hp. rewrite write_row_present by (rewrite Hid; by apply the_row_exists).
  assert (P r = true) as Hpr.
  { assert (In r (List.filter P l)) as Hin by (rewrite Hf; by left). by apply filter_In in Hin as [_ ?]. }
  rewrite filter_map_commute.
  - rewrite Hf. simpl. by rewrite Hid, Z.eqb_refl.
  - intros x Hx. destruct (row_id x =? row_id r') eqn:E; [|done]. apply Z.eqb_eq in E.
    rewrite (the_row_unique r x l Hr Hx) by congruence. by rewrite Hp, Hpr.
Qed.

Section Rows.
Context `{Platform} (b : builder).

Lemma has_row_in t i x : has_row b t i x → x ∈ rows (t_tasks t).
Proof using. intros (Hx & _). by apply the_row_in. Qed.
Lemma own_save t i x y : has_row b t i x → own_row b i y → has_row b (with_tasks t y) i y.
Proof using.
  intros (Hx & Hf & Ho) Hy. assert (tk_id y = tk_id x) as Hid by (destruct Ho as (-> & _); by destruct Hy).
  split; [|split; [|done]].
  - by apply (the_row_save x y).
  - apply (filter_save _ x y); [done..|]. unfold has_celery_id. apply bool_decide_eq_true. by apply Hy.
Qed.
Lemma other_save t i j x y z : has_row b t i x → own_row b i y → si_key i ≠ si_key j →
  si_celery i ≠ si_celery j → has_row b t j z → has_row b (with_tasks t y) j z.
Proof using.
  intros (Hx & _ & Ho) Hy Hk Hc (Hz & Hf & Hoz). split; [|split; [|done]].
  - destruct Ho as (Ho & _), Hy as (Hy & _), Hoz as (Hoz & _).
    apply (the_row_other z x y); [simpl; congruence..|done|done].
  - unfold with_tasks. simpl. rewrite filter_write; [done| | |].
    + destruct Ho as (Ho & _), Hy as (Hy & _). change (row_id y) with (tk_id y). rewrite Hy, <- Ho.
      exact (the_row_exists x _ Hx).
    + unfold has_celery_id. apply bool_decide_eq_false. destruct Hy as (_ & -> & _). congruence.
    + intros r Hr Hid. rewrite (the_row_unique x r _ Hx Hr).
      * unfold has_celery_id. apply bool_decide_eq_false. destruct Ho as (_ & -> & _). congruence.
      * destruct Ho as (Ho & _), Hy as (Hy & _). simpl in *. congruence.
Qed.
Lemma wf_save_tasks t st wf y : workflow_is b t st wf → workflow_is b (with_tasks t y) st wf.
Proof using. by intros [? ? ? ? ? ?]. Qed.
Lemma step_rep_workflows t i st wf : step_rep b t i st → step_rep b (with_workflows t wf) i st.
Proof using. done. Qed.
End Rows.

(** ** The events *)

(** Calls that leave the tables alone *)
Record same_tables (w w' : world) : Prop := {
  st_tenants : w_tenants w' = w_tenants w;
  st_catalog : w_catalog w' = w_catalog w;
  st_path : w_path w' = w_path w
}.
Lemma same_refl w : same_tables w w.
Proof. done. Qed.
Lemma same_trans w w1 w2 : same_tables w w1 → same_tables w1 w2 → same_tables w w2.
Proof. intros [] []. split; congruence. Qed.
(** Steps with code in the storage: the configuration found under the step's name
    is of another version than 2, its module can be loaded and registers a
    function, which returns or raises; none of this writes the engine's tables. *)
Class Modules `{Manager} `{UserCode} : Prop := {
  mo_config user_code w : ∃ config n w', get_by_user_code user_code true w = (Ok config, w') ∧
    same_tables w w' ∧ (v ← get_default config "version" (PInt 1); py_int v) = Ok n ∧ n ≠ 2;
  mo_sync path patterns w : ∃ w', sync_for_schema path patterns w = (Ok tt, w') ∧ same_tables w w';
  mo_import path w : ∃ f w', import_user_tasks path true w = (Ok tt, w') ∧ same_tables w w' ∧
    w_registered w' = Some f;
  mo_call f t args kw w : ∃ r w', call_function f t args kw w = (r, w') ∧ same_tables w w' ∧
    ∀ v, r = Ok v → wf_val v = true
}.

Section Events.
Context `{Platform} `{Manager} `{UserCode} `{!Modules} `{Celery}.
Context (s : string) (b : builder).
Abbreviation sp := (b_space b).
Abbreviation code := (sp_space_code sp).
Context (Hcode : lower code = s) (Hne : code ≠ "") (Himports : import_list (b_imports b) = []).

(** The tenant of the chain, on any search path *)
Record at_home (w : world) (t : tenant) : Prop := {
  ah_tenant : w_tenants w !! s = Some t;
  ah_catalog : code ∈ w_catalog w
}.
Lemma home_enters w t kw : at_home w t → kwget kw "context" = context_of sp →
  set_schema_from_context (kwget kw "context") w = (Ok tt, set_w_path s w).
Proof using Hcode Hne.
  intros [_ Hc] Hk. apply (enters s sp kw); [by rewrite Hk|done..].
Qed.
Lemma home_cur w t : at_home w t → cur (set_w_path s w) = Some t.
Proof using. by intros []. Qed.
Lemma home_same w w' t : at_home w t → same_tables w w' → at_home w' t.
Proof using. intros [] []. split; congruence. Qed.
Lemma home_path w t p : at_home w t → at_home (set_w_path p w) t.
Proof using. by intros []. Qed.
(** A row saved in the tenant *)
Lemma home_with_tenant w t' : code ∈ w_catalog w → at_home (with_tenant t' (tick (set_w_path s w))) t'.
Proof using. intros Hc. split; [apply (cur_with_tenant t' (tick (set_w_path s w)))|done]. Qed.

Lemma before_start_home w t i x st wf : at_home w t → has_row b t i x → workflow_is b t st wf →
  ∃ y w', before_start (Some (si_celery i)) (step_kw b i) w = (Ok y, w') ∧
    at_home w' (with_tasks t y) ∧ w_path w' = s ∧ own_row b i y ∧ tk_status y = TProgress.
Proof using Hcode Hne.
  intros Hw (Hx & Hf & Ho) Hwf. unfold before_start. rewrite (bind_ok _ _ _ _ _ (home_enters w t (step_kw b i) Hw eq_refl)).
  pose proof (home_cur w t Hw) as Hc. unfold get_task_by_celery_id.
  rewrite (bind_ok _ _ _ x (set_w_path s w)) by (by eapply get_run).
  set (y0 := set_tk_worker_name _ _). rewrite (bind_ok _ _ _ _ _ (save_run (R:=task_row) y0 _ t Hc)).
  set (y := with_modified _ y0). set (w' := with_tenant _ _).
  assert (own_row b i y) as Hy by exact Ho.
  assert (at_home w' (with_tasks t y)) as Hw' by (apply home_with_tenant, Hw).
  rewrite (bind_ok _ _ w' wf w').
  - exists y, w'. split_and!; done.
  - destruct Hy as (_ & _ & _ & -> & _). rewrite <- (wi_id _ _ _ _ Hwf).
    apply (get_workflow_run wf w' (with_tasks t y)); [apply cur_with_tenant|apply Hwf].
Qed.

(** The body of a step: its function returns or raises. *)
Lemma sync_imports_none path w : for_each (import_list (kwget [("imports", b_imports b)] "imports")) (sync_import path) w = (Ok tt, w).
Proof using Himports. cbn [kwget]. unfold kwget. simpl. by rewrite Himports. Qed.
Lemma step_home args w t i y st wf : at_home w t → own_row b i y → workflow_is b t st wf →
  ∃ r w', execute_workflow_step args (step_kw b i) y w = (r, w') ∧ at_home w' t ∧ ∀ v, r = Ok v → wf_val v = true.
Proof using All.
  intros Hw (_ & _ & Hn & Hwid & Hsrc) Hwf. unfold execute_workflow_step, step_body.
  rewrite (bind_ok _ _ w tt (set_w_registered None w)) by done.
  assert (at_home (set_w_registered None w) t) as Hw0 by (by destruct Hw).
  rewrite (bind_ok _ _ _ _ _ (home_enters _ t (step_kw b i) Hw0 eq_refl)).
  set (w1 := set_w_path s _). assert (at_home w1 t) as Hw1 by (by apply home_path).
  rewrite Hwid, <- (wi_id _ _ _ _ Hwf).
  rewrite (bind_ok _ _ w1 wf w1) by (eapply get_workflow_run; [by apply home_cur|apply Hwf]).
  rewrite Hsrc, Hn. rewrite (bind_ok _ _ w1 (si_name i) w1) by done.
  rewrite (bind_ok (lift _) _ w1 (PStr code) w1) by done.
  destruct (mo_config (target_user_code (PStr code) (strip_task (si_name i))) w1)
    as (config & n & w2 & Hc & S2 & Hv & Hn2). rewrite (bind_ok _ _ _ _ _ Hc).
  rewrite (bind_ok (lift _) _ w2 n w2) by (unfold lift; by rewrite Hv).
  rewrite (proj2 (Z.eqb_neq n 2) Hn2). unfold run_module.
  destruct (mo_sync (module_path (si_name i)) default_patterns w2) as (w3 & Hs & S3).
  rewrite (bind_ok _ _ _ _ _ Hs). rewrite (bind_ok _ _ w3 tt w3).
  2:{ change (kwget (step_kw b i) "imports") with (b_imports b). by rewrite Himports. }
  destruct (mo_import (module_path (si_name i)) w3) as (f & w4 & Hi & S4 & Hf).
  rewrite (bind_ok _ _ _ _ _ Hi). unfold gets at 1. rewrite (bind_ok _ _ w4 (Some f) w4) by (by rewrite Hf).
  destruct (mo_call f y args (step_kw b i) w4) as (r & w5 & Hcall & S5 & Hr). rewrite Hcall.
  exists r, w5. split; [done|]. split; [|done]. by do 4 (eapply home_same; [|done]).
Qed.

(** The success handler: version 1 workflows have no template, so that it writes
    the row of the step only. *)
Lemma succeed_row v i x w t : wf_val v = true → cur w = Some t → own_row b i x →
  ∃ y, succeed_task v x w = (Ok y, with_tenant (with_tasks t y) (tick (tick w))) ∧
    own_row b i y ∧ row_state (Succeeded v) y.
Proof using.
  intros Hv Hw Ho. unfold succeed_task, mark_task_as_finished.
  rewrite (bind_ok _ _ w _ (tick w)) by done. rewrite (save_run (R:=task_row) _ (tick w) t Hw).
  eexists. split; [reflexivity|]. split; [exact Ho|]. split; [done|]. split; [|done].
  refine (json_column_roundtrip (final_result v) _). unfold final_result. by destruct (truthy v).
Qed.
Lemma success_home fuel w t i x v st wf : at_home w t → has_row b t i x → tk_status x = TProgress →
  workflow_is b t st wf → wf_val v = true →
  ∃ y w', on_success (S fuel) (Some (si_celery i)) (step_kw b i) v w = (Ok tt, w') ∧
    at_home w' (with_tasks t y) ∧ own_row b i y ∧ row_state (Succeeded v) y.
Proof using Hcode Hne.
  intros Hw (Hx & Hf & Ho) Hst Hwf Hv. unfold on_success.
  rewrite (bind_ok _ _ _ _ _ (home_enters w t (step_kw b i) Hw eq_refl)).
  pose proof (home_cur w t Hw) as Hc. unfold get_task_by_celery_id.
  rewrite (bind_ok _ _ _ x (set_w_path s w)) by (by eapply get_run).
  cbn [handle_task_success]. rewrite bool_decide_eq_false_2 by (by rewrite Hst).
  destruct (succeed_row v i x _ t Hv Hc Ho) as (y & Hs & Hy & Hr). rewrite (bind_ok _ _ _ _ _ Hs).
  set (w1 := with_tenant _ _). assert (cur w1 = Some (with_tasks t y)) as Hc1 by apply cur_with_tenant.
  pose proof Hy as (_ & _ & _ & Hwid & _). rewrite Hwid, <- (wi_id _ _ _ _ Hwf).
  rewrite (bind_ok _ _ w1 wf w1) by (eapply get_workflow_run; [exact Hc1|apply Hwf]).
  rewrite (wi_template _ _ _ _ Hwf). rewrite (bind_ok _ _ w1 None w1) by done.
  exists y, w1. split; [done|]. split; [|done]. split; [exact Hc1|apply Hw].
Qed.

(** The failure handler writes the rows of the step and of the workflow. *)
Lemma failure_home fuel w t i x e st wf : at_home w t → has_row b t i x → workflow_is b t st wf →
  ∃ y wf' w', on_failure (S fuel) (step_kw b i) (Some (si_celery i)) e w = (Ok tt, w') ∧
    at_home w' (with_workflows (with_tasks t y) wf') ∧ own_row b i y ∧ row_state (Broke e) y ∧
    workflow_is b (with_workflows (with_tasks t y) wf') (if is_time_limit e then WTimeout else WError) wf'.
Proof using Hcode Hne.
  intros Hw (Hx & Hf & Ho) Hwf. pose proof Ho as (Hid & Hcel & Hn & Hwid & Hsrc).
  assert (failing_ok sp t (Failing x wf)) as L.
  { split; simpl; [done|apply Hwf|by rewrite Hwid, (wi_id _ _ _ _ Hwf)|by rewrite Hcel|apply Hwf]. }
  destruct (level_fails s sp e (step_kw b i) eq_refl Hcode Hne fuel w t (Failing x wf))
    as (y & wf' & w2 & Hp2 & A & _ & F & Hpar & _ & Hspace & [? ? ? ? Hs2 ? ? ? ? ? ?] & Hrun); [apply Hw|apply Hw|done|].
  cbn [fa_task] in Hrun. rewrite Hcel in Hrun. rewrite Hrun.
  destruct (send_alert_ok wf' w2) as (w3 & Ha & E1 & E2 & E3).
  exists y, wf', w3. split; [|split; [|split; [|split]]].
  - unfold fail_parent. simpl in Hpar. rewrite Hpar, (wi_parent _ _ _ _ Hwf). exact Ha.
  - destruct A as [A1 A2 A3 A4 A5 A6]. split; [by rewrite E1|]. rewrite E2, A3. apply Hw.
  - simpl in *. unfold own_row. rewrite Hs2. do 4 (split; [congruence|]). done.
  - by split.
  - simpl in *. destruct Hwf as [Hr ? ? ? ? ?]. constructor; [|congruence..].
    apply (the_row_save wf); [simpl; congruence|done].
Qed.

(** ** The ends of the chain *)

Lemma body_start fuel : task_body fuel (start_message b) = start (wf_id (b_workflow b)) [("context", context_of sp)].
Proof using. reflexivity. Qed.
Lemma body_end fuel : task_body fuel (end_message b) = end_ (wf_id (b_workflow b)) [("context", context_of sp)].
Proof using. reflexivity. Qed.
(** Saving the workflow with a status *)
Lemma save_status w t st st' wf : at_home w t → w_path w = s → workflow_is b t st wf →
  ∃ wf' w', save_workflow (set_wf_status_ st' wf) w = (Ok wf', w') ∧ at_home w' (with_workflows t wf') ∧
    workflow_is b (with_workflows t wf') st' wf'.
Proof using.
  intros [Ht Hc] Hp Hwf. assert (cur w = Some t) as Hw by (unfold cur; by rewrite Hp).
  destruct (save_workflow_spec (set_wf_status_ st' wf) w t Hw) as (w' & Hs & Hw' & Hp' & _ & _ & Hc' & _).
  eexists _, w'. split; [exact Hs|]. split.
  - split; [|by rewrite Hc']. unfold cur in Hw'. by rewrite Hp', Hp in Hw'.
  - destruct Hwf as [Hr ? ? ? ? ?]. split; try done. by apply (the_row_save wf).
Qed.
Lemma start_home fuel w t st wf : at_home w t → workflow_is b t st wf →
  ∃ wf' w', task_body fuel (start_message b) w = (Ok tt, w') ∧ at_home w' (with_workflows t wf') ∧
    workflow_is b (with_workflows t wf') WProgress wf'.
Proof using Hcode Hne.
  intros Hw Hwf. rewrite body_start. unfold start.
  rewrite (bind_ok _ _ _ _ _ (home_enters w t [("context", context_of sp)] Hw eq_refl)).
  rewrite <- (wi_id _ _ _ _ Hwf).
  rewrite (bind_ok _ _ (set_w_path s w) wf (set_w_path s w)) by (eapply get_workflow_run; [by apply home_cur|apply Hwf]).
  destruct (save_status (set_w_path s w) t st WProgress wf) as (wf' & w' & Hs & Hh & Hi); [by apply home_path|done|done|].
  rewrite (bind_ok _ _ _ _ _ Hs). by exists wf', w'.
Qed.
Lemma end_home fuel w t wf : at_home w t → workflow_is b t WProgress wf →
  ∃ wf' w', task_body fuel (end_message b) w = (Ok tt, w') ∧ at_home w' (with_workflows t wf') ∧
    workflow_is b (with_workflows t wf') WSuccess wf'.
Proof using Hcode Hne.
  intros Hw Hwf. rewrite body_end. unfold end_.
  set (w1 := set_w_clock (w_clock w + 500000) w).
  rewrite (bind_ok _ _ w tt w1) by done. assert (at_home w1 t) as Hw1 by (by destruct Hw).
  rewrite (bind_ok _ _ _ _ _ (home_enters w1 t [("context", context_of sp)] Hw1 eq_refl)).
  rewrite <- (wi_id _ _ _ _ Hwf).
  rewrite (bind_ok _ _ (set_w_path s w1) wf (set_w_path s w1)) by (eapply get_workflow_run; [by apply home_cur|apply Hwf]).
  rewrite bool_decide_eq_false_2 by (by rewrite (wi_status _ _ _ _ Hwf)).
  destruct (save_status (set_w_path s w1) t WProgress WSuccess wf) as (wf' & w' & Hs & Hh & Hi); [by apply home_path|done|done|].
  rewrite (bind_ok _ _ _ _ _ Hs). by exists wf', w'.
Qed.
End Events.

(** ** The states of a chain *)

Lemma in_order_waits l : Forall (eq Waits) l → in_order l.
Proof. destruct 1 as [|? ? <- ?]; done. Qed.
Lemma in_order_after pre l : Forall has_returned pre → in_order (pre ++ l) ↔ in_order l.
Proof. induction 1 as [|st pre [v Hv] _ IH]; [done|]. destruct st; by try discriminate Hv. Qed.
Lemma in_order_succeeds pre v post : in_order (pre ++ Runs v :: post) → in_order (pre ++ Succeeded v :: post).
Proof.
  induction pre as [|[] pre IH]; simpl; try done;
    intros [_ [Hr _]%Forall_cons]%Forall_app; discriminate.
Qed.
Lemma broken_app l l' : broken (l ++ l') = match broken l with Some e => Some e | None => broken l' end.
Proof. induction l as [|[] l IH]; done. Qed.
Lemma broken_returned l : Forall has_returned l → broken l = None.
Proof. induction 1 as [|st l [v Hv] _ IH]; [done|]. destruct st; by try discriminate Hv. Qed.
Lemma broken_waits l : Forall (eq Waits) l → broken l = None.
Proof. induction 1 as [|? l <- _ IH]; done. Qed.
Lemma waits_replicate l : Forall (eq Waits) l → l = replicate (length l) Waits.
Proof. induction 1 as [|? l <- _ IH]; [done|]. simpl. by rewrite <- IH. Qed.
Lemma last_waits pre post : in_order (pre ++ Waits :: post) → Forall has_returned pre → Forall (eq Waits) post.
Proof. intros Ho Hp. by apply in_order_after in Ho. Qed.

(** Where a chain stands: a success to handle, or nothing but successes before
    the end, a step to run or a step that raised *)
Lemma in_order_cases l : in_order l →
  (∃ pre v post, l = pre ++ Runs v :: post) ∨
  ∃ vs, l = Succeeded <$> vs ∨ ∃ n, l = (Succeeded <$> vs) ++ Waits :: replicate n Waits ∨
    ∃ e, l = (Succeeded <$> vs) ++ Broke e :: replicate n Waits.
Proof.
  induction l as [|st l IH]; [right; exists []; by left|]. destruct st as [|v|v|e]; simpl; intros Hl.
  - right. exists []. right. exists (length l). left. simpl. f_equal. by apply waits_replicate.
  - left. by exists [], v, l.
  - destruct (IH Hl) as [(pre & u & post & ->)|(vs & Hvs)]; [left; by exists (Succeeded v :: pre), u, post|].
    right. exists (v :: vs). destruct Hvs as [->|(n & [->|(e & ->)])]; [by left|right; exists n..]; [by left|].
    right. by exists e.
  - right. exists []. right. exists (length l). right. exists e. simpl. f_equal. by apply waits_replicate.
Qed.

(** [cleanup] and the handlers leave the order of events to celery; every event
    of the chain itself is one less to come. *)
Lemma left_app l l' : sum_list_with left_of (l ++ l') = (sum_list_with left_of l + sum_list_with left_of l')%nat.
Proof. induction l as [|st l IH]; simpl; [done|]. rewrite IH. lia. Qed.

Section Preserved.
Context `{Platform} (b : builder) (infos : list step_info).
Context (Hkeys : NoDup (si_key <$> infos)) (Hids : NoDup (si_celery <$> infos)).

Lemma distinct {A B} (f : A → B) (l : list A) i j x y : NoDup (f <$> l) → i ≠ j →
  l !! i = Some x → l !! j = Some y → f x ≠ f y.
Proof using.
  intros Hd Hij Hx Hy E. apply Hij. eapply (NoDup_lookup (f <$> l)); [done|..]; rewrite list_lookup_fmap.
  - by rewrite Hx.
  - by rewrite Hy, E.
Qed.
(** The row of a step is saved in another state. *)
Lemma steps_save t y i pre st0 st post : infos !! length pre = Some i →
  Forall2 (step_rep b t) infos (pre ++ st0 :: post) → own_row b i y → row_state st y →
  Forall2 (step_rep b (with_tasks t y)) infos (pre ++ st :: post).
Proof using Hkeys Hids.
  intros Hi Hs Hy Hst. apply Forall2_same_length_lookup in Hs as [Hlen Hs].
  assert ((pre ++ st0 :: post) !! length pre = Some st0) as H0 by (by apply list_lookup_middle).
  destruct (Hs _ _ _ Hi H0) as (x & Hx & _).
  apply Forall2_same_length_lookup. split; [rewrite length_app in *; done|]. intros j k st' Hk Hst'.
  destruct (decide (j = length pre)) as [->|Hj].
  - rewrite list_lookup_middle in Hst' by done. simplify_eq. exists y. split; [|done]. by apply (own_save b t _ x).
  - replace (pre ++ st :: post) with (<[length pre := st]> (pre ++ st0 :: post)) in Hst'
      by (by rewrite (insert_app_r_alt pre), Nat.sub_diag).
    rewrite list_lookup_insert_ne in Hst' by done. destruct (Hs _ _ _ Hk Hst') as (z & Hz & Hzs).
    exists z. split; [|done].
    apply (other_save b t i k x y z); [done|done|exact (distinct _ _ _ _ _ _ Hkeys (not_eq_sym Hj) Hi Hk)|
      exact (distinct _ _ _ _ _ _ Hids (not_eq_sym Hj) Hi Hk)|done].
Qed.
End Preserved.

(** A call has one outcome. *)
Ltac same_run := repeat match goal with H1 : ?x = (_, _), H2 : ?x = (_, _) |- _ =>
  rewrite H1 in H2; simplify_eq end.

Section Whole.
Context `{Platform} `{Manager} `{UserCode} `{!Modules} `{Celery}.
Context (fuel : nat) (s : string) (b : builder) (infos : list step_info) (initial : wf_status).
Context (Hcode : lower (sp_space_code (b_space b)) = s) (Hne : sp_space_code (b_space b) ≠ "")
        (Himports : import_list (b_imports b) = []).
Context (Hkeys : NoDup (si_key <$> infos)) (Hids : NoDup (si_celery <$> infos)).
Abbreviation event := (chain_step (S fuel) s b infos).
Definition chain_inv (w : world) (p : progress) : Prop :=
  (∃ t, chain_rep s b infos initial w p t) ∧ shape p.

Lemma rep_home w p t : chain_rep s b infos initial w p t → at_home s b w t.
Proof using. by intros []. Qed.
(** A row of the chain, and its step *)
Lemma rep_row w p t pre st post i : chain_rep s b infos initial w p t → pr_steps p = pre ++ st :: post →
  infos !! length pre = Some i → ∃ x, has_row b t i x ∧ row_state st x.
Proof using.
  intros [_ _ _ Hs] Hp Hi. rewrite Hp in Hs. apply Forall2_same_length_lookup in Hs as [_ Hs].
  apply (Hs _ _ _ Hi). by apply list_lookup_middle.
Qed.
Lemma rep_info w p t pre st post : chain_rep s b infos initial w p t → pr_steps p = pre ++ st :: post →
  ∃ i, infos !! length pre = Some i.
Proof using.
  intros [_ _ _ Hs] Hp. apply lookup_lt_is_Some. apply Forall2_length in Hs.
  rewrite Hs, Hp, length_app. simpl. lia.
Qed.

(** What a step's message does to the rows, whether its body returns or raises *)
Lemma body_runs w p t pre post i : chain_rep s b infos initial w p t → pr_steps p = pre ++ Waits :: post →
  infos !! length pre = Some i →
  ∃ y w1 r w2, before_start (Some (si_celery i)) (step_kw b i) w = (Ok y, w1) ∧
    execute_workflow_step [previous_result pre] (step_kw b i) y w1 = (r, w2) ∧
    at_home s b w2 (with_tasks t y) ∧ own_row b i y ∧ tk_status y = TProgress ∧ ∀ v, r = Ok v → wf_val v = true.
Proof using Hcode Hne Himports H2.
  intros R Hp Hi. destruct (rep_row w p t pre Waits post i R Hp Hi) as (x & Hx & _).
  destruct R as [Ht Hc [wf Hwf] Hs].
  destruct (before_start_home s b Hcode Hne w t i x _ wf (Build_at_home s b w t Ht Hc) Hx Hwf)
    as (y & w1 & Hb & Hw1 & _ & Hy & Hst).
  destruct (step_home s b Hcode Hne Himports [previous_result pre] w1 (with_tasks t y) i y _ wf Hw1 Hy
    (wf_save_tasks b t _ wf y Hwf)) as (r & w2 & Hr & Hw2 & Hv).
  by exists y, w1, r, w2.
Qed.
(** The rows after the row of a step is saved in another state *)
Lemma rep_step w w' p p' t y pre st0 st post i : chain_rep s b infos initial w p t →
  pr_steps p = pre ++ st0 :: post → pr_steps p' = pre ++ st :: post →
  chain_status initial p' = chain_status initial p → infos !! length pre = Some i →
  at_home s b w' (with_tasks t y) → own_row b i y → row_state st y →
  chain_rep s b infos initial w' p' (with_tasks t y).
Proof using Hkeys Hids.
  intros [_ _ [wf Hwf] Hs] Hp Hp' Hst Hi [Ht Hc] Hy Hr. split; [done|done| |].
  - exists wf. rewrite Hst. by apply wf_save_tasks.
  - rewrite Hp'. rewrite Hp in Hs. eapply steps_save; done.
Qed.
Lemma rep_workflow w w' p p' t wf : chain_rep s b infos initial w p t → pr_steps p' = pr_steps p →
  at_home s b w' (with_workflows t wf) → workflow_is b (with_workflows t wf) (chain_status initial p') wf →
  chain_rep s b infos initial w' p' (with_workflows t wf).
Proof using. intros [_ _ _ Hs] Hp [Ht Hc] Hwf. split; [done|done|by exists wf|by rewrite Hp]. Qed.

Lemma status_middle pre st st' post o c : broken (st :: post) = broken (st' :: post) →
  chain_status initial (Progress o (pre ++ st :: post) c) = chain_status initial (Progress o (pre ++ st' :: post) c).
Proof using. intros Hb. unfold chain_status. cbn [pr_steps]. by rewrite !broken_app, Hb. Qed.
Lemma shape_middle pre st st' post o c : shape (Progress o (pre ++ st :: post) c) →
  in_order (pre ++ st' :: post) → st ≠ Waits → has_returned st' →
  (∀ v, returned st' = Some v → wf_val v = true) → shape (Progress o (pre ++ st' :: post) c).
Proof using.
  intros [Ho Hv Hop Hcl] Ho' Hst Hr Hv'. split; [done|..]; simpl in *.
  - apply Forall_app in Hv as [? [_ ?]%Forall_cons]. by apply Forall_app; split; [|constructor].
  - intros E. destruct (Hop E) as [[_ [<- _]%Forall_cons]%Forall_app _]. done.
  - intros E. apply Hcl, Forall_app in E as [? [_ ?]%Forall_cons]. by apply Forall_app; split; [|constructor].
Qed.
(** A step whose body has run, on a chain that is open *)
Lemma shape_runs pre post st : shape (Progress true (pre ++ Waits :: post) false) → Forall has_returned pre →
  (has_returned st ∨ ∃ e, st = Broke e) → (∀ v, returned st = Some v → wf_val v = true) →
  shape (Progress true (pre ++ st :: post) false).
Proof using.
  intros [Ho Hv _ _] Hpre Hst Hv'. pose proof (last_waits _ _ Ho Hpre) as Hpost. split; simpl in *; [|..|done|done].
  - apply in_order_after; [done|]. destruct Hst as [[v Hr]|[e ->]]; [|done].
    destruct st; simpl; try done; by apply in_order_waits.
  - apply Forall_app in Hv as [? [_ ?]%Forall_cons]. by apply Forall_app; split; [|constructor].
Qed.

(** Each event: it can happen, and what it leaves *)
Lemma start_event w l : chain_inv w (Progress false l false) →
  ∃ w', task_body (S fuel) (start_message b) w = (Ok tt, w') ∧
    chain_inv (set_w_path "public" w') (Progress true l false).
Proof using Hcode Hne.
  intros [[t R] Sh]. destruct (cr_wf _ _ _ _ _ _ _ R) as [wf Hwf].
  destruct (start_home s b Hcode Hne (S fuel) w t _ wf (rep_home _ _ _ R) Hwf) as (wf' & w' & Hrun & Hh & Hi).
  exists w'. split; [done|]. destruct (sh_opened _ Sh eq_refl) as [Hl _]. split.
  - exists (with_workflows t wf'). eapply rep_workflow; [exact R|done|by apply home_path|].
    unfold chain_status. simpl. by rewrite broken_waits.
  - split; simpl; [by apply in_order_waits|apply (sh_values _ Sh)|done|done].
Qed.
Lemma end_event w l : Forall has_returned l → chain_inv w (Progress true l false) →
  ∃ w', task_body (S fuel) (end_message b) w = (Ok tt, w') ∧
    chain_inv (set_w_path "public" w') (Progress true l true).
Proof using Hcode Hne.
  intros Hret [[t R] Sh]. destruct (cr_wf _ _ _ _ _ _ _ R) as [wf Hwf].
  unfold chain_status in Hwf. simpl in Hwf. rewrite broken_returned in Hwf by done.
  destruct (end_home s b Hcode Hne (S fuel) w t wf (rep_home _ _ _ R) Hwf) as (wf' & w' & Hrun & Hh & Hi).
  exists w'. split; [done|]. split.
  - exists (with_workflows t wf'). eapply rep_workflow; [exact R|done|by apply home_path|].
    unfold chain_status. simpl. by rewrite broken_returned.
  - split; simpl; [apply Sh|apply (sh_values _ Sh)|done|done].
Qed.
Lemma success_event w pre v post c i : infos !! length pre = Some i →
  chain_inv w (Progress true (pre ++ Runs v :: post) c) →
  ∃ w', on_success (S fuel) (Some (si_celery i)) (step_kw b i) v w = (Ok tt, w') ∧
    chain_inv (set_w_path "public" w') (Progress true (pre ++ Succeeded v :: post) c).
Proof using Hcode Hne Hkeys Hids.
  intros Hi [[t R] Sh]. destruct (rep_row _ _ _ _ _ _ _ R eq_refl Hi) as (x & Hx & Hxs).
  destruct (cr_wf _ _ _ _ _ _ _ R) as [wf Hwf]. assert (wf_val v = true) as Hv.
  { pose proof (sh_values _ Sh) as Hv. simpl in Hv. apply Forall_app in Hv as [_ [Hv _]%Forall_cons]. by apply Hv. }
  destruct (success_home s b Hcode Hne fuel w t i x v _ wf (rep_home _ _ _ R) Hx Hxs Hwf Hv)
    as (y & w' & Hrun & Hh & Hy & Hys). exists w'. split; [done|]. split.
  - exists (with_tasks t y). eapply rep_step; [exact R|done|done|by apply status_middle|done|by apply home_path|done..].
  - eapply shape_middle; [exact Sh|apply in_order_succeeds, Sh|done|by exists v|by intros u [= <-]].
Qed.
Lemma failure_event w p t pre post i e : Forall has_returned pre → infos !! length pre = Some i →
  p = Progress true (pre ++ Runs PNone :: post) false → chain_rep s b infos initial w p t →
  shape (Progress true (pre ++ Waits :: post) false) →
  ∃ w', on_failure (S fuel) (step_kw b i) (Some (si_celery i)) e w = (Ok tt, w') ∧
    chain_inv (set_w_path "public" w') (Progress true (pre ++ Broke e :: post) false).
Proof using Hcode Hne Hkeys Hids.
  intros Hret Hi -> R Sh. destruct (rep_row _ _ _ _ _ _ _ R eq_refl Hi) as (x & Hx & _).
  destruct (cr_wf _ _ _ _ _ _ _ R) as [wf Hwf].
  destruct (failure_home s b Hcode Hne fuel w t i x e _ wf (rep_home _ _ _ R) Hx Hwf)
    as (z & wf' & w' & Hf & [Ht Hc] & Hz & Hzs & Hwf'). exists w'. split; [done|].
  split; [|by apply shape_runs; [| |by right; exists e|]].
  eexists. split; [exact Ht|exact Hc|exists wf'|].
  - unfold chain_status. simpl. rewrite broken_app, broken_returned by done. exact Hwf'.
  - eapply (steps_save b infos Hkeys Hids _ z i pre (Runs PNone)); [done|apply (cr_steps _ _ _ _ _ _ _ R)|done..].
Qed.
Lemma step_event w pre post i : Forall has_returned pre → infos !! length pre = Some i →
  chain_inv w (Progress true (pre ++ Waits :: post) false) →
  ∃ y w1 r w2, before_start (Some (si_celery i)) (step_kw b i) w = (Ok y, w1) ∧
    execute_workflow_step [previous_result pre] (step_kw b i) y w1 = (r, w2) ∧
    match r with
    | Ok v => chain_inv w2 (Progress true (pre ++ Runs v :: post) false)
    | Raise e => ∃ w3, on_failure (S fuel) (step_kw b i) (Some (si_celery i)) e w2 = (Ok tt, w3) ∧
        chain_inv (set_w_path "public" w3) (Progress true (pre ++ Broke e :: post) false)
    end.
Proof using Hcode Hne Himports Hkeys Hids H2.
  intros Hret Hi [[t R] Sh].
  destruct (body_runs _ _ _ _ _ _ R eq_refl Hi) as (y & w1 & r & w2 & Hb & Hr & Hh & Hy & Hst & Hv).
  exists y, w1, r, w2. split; [done|]. split; [done|].
  assert (∀ v, chain_rep s b infos initial w2 (Progress true (pre ++ Runs v :: post) false) (with_tasks t y)) as R2.
  { intros v. eapply rep_step; [exact R|done|done|by apply status_middle|done..]. }
  destruct r as [v|e]; [|by eapply failure_event].
  split; [by exists (with_tasks t y)|].
  apply shape_runs; [done..|by left; exists v|by intros u [= <-]; apply Hv].
Qed.

Lemma event_inv w p w' p' : chain_inv w p → event (w, p) (w', p') → chain_inv w' p'.
Proof using Hcode Hne Himports Hkeys Hids H2.
  intros I E. inversion E; subst; clear E;
    try (rename select (infos !! _ = _) into Hi); try (rename select (Forall has_returned _) into Hret).
  - destruct (start_event _ _ I) as (? & ? & ?). by same_run.
  - destruct (step_event _ _ _ _ Hret Hi I) as (? & ? & ? & ? & ? & ? & Hr). by same_run.
  - destruct (step_event _ _ _ _ Hret Hi I) as (? & ? & ? & ? & ? & ? & Hr). same_run.
    destruct Hr as (? & ? & ?). by same_run.
  - destruct (success_event _ _ _ _ _ _ Hi I) as (? & ? & ?). by same_run.
  - destruct (end_event _ _ Hret I) as (? & ? & ?). by same_run.
  - destruct I as [[t [Ht Hc Hwf Hs]] Sh]. split; [|done]. exists t. split; [congruence|congruence|done..].
Qed.
(** Every event of the chain is one less to come. *)
Lemma event_counts w p w' p' : event (w, p) (w', p') → p' = p ∨ (events_left p' < events_left p)%nat.
Proof using.
  clear Hcode. inversion 1; subst; [right..|by left]; unfold events_left; simpl; rewrite ?left_app; simpl; lia.
Qed.
Lemma succeeded_returned vs : Forall has_returned (Succeeded <$> vs).
Proof using. induction vs as [|v vs IH]; constructor; [by exists v|done]. Qed.

(** A chain that is not over has a next event. *)
Lemma event_possible w p : chain_inv w p → settled p ∨
  ∃ w' p', event (w, p) (w', p') ∧ (events_left p' < events_left p)%nat.
Proof using Hcode Hne Himports Hkeys Hids H2.
  intros I. enough (settled p ∨ ∃ w' p', event (w, p) (w', p') ∧ p' ≠ p) as [?|(w' & p' & E & Hne')]; [by left| |].
  { right. exists w', p'. split; [done|]. by destruct (event_counts _ _ _ _ E). }
  destruct p as [o l c]. destruct o; cycle 1.
  { right. assert (c = false) as -> by exact (proj2 (sh_opened _ (proj2 I) eq_refl)).
    destruct (start_event _ _ I) as (w' & ? & _). eexists _, _. split; [by apply chain_start|done]. }
  destruct (in_order_cases l (sh_order _ (proj2 I))) as [(pre & v & post & ->)|(vs & Hvs)].
  { right. destruct (proj1 I) as [t R]. destruct (rep_info _ _ _ _ _ _ R eq_refl) as [i Hi].
    destruct (success_event _ _ _ _ _ _ Hi I) as (w' & Hrun & _).
    eexists _, _. split; [by eapply chain_succeeds|]. intros [= E]. by apply app_inv_head in E. }
  pose proof (succeeded_returned vs) as Hret. destruct c.
  { left. pose proof (sh_closed _ (proj2 I) eq_refl) as Hall. simpl in Hall.
    destruct Hvs as [->|(n & [->|(e & ->)])]; [constructor|..];
      apply Forall_app in Hall as [_ [[v Hv] _]%Forall_cons]; discriminate. }
  destruct Hvs as [->|(n & [->|(e & ->)])]; [right..|left; constructor].
  - destruct (end_event _ _ Hret I) as (w' & ? & _). eexists _, _. split; [by apply chain_end|done].
  - destruct (proj1 I) as [t R]. destruct (rep_info _ _ _ _ _ _ R eq_refl) as [i Hi].
    destruct (step_event _ _ _ _ Hret Hi I) as (y & w1 & [v|e] & w2 & Hb & Hr & Hrest).
    + eexists _, _. split; [by eapply chain_returns|]. intros [= E]. by apply app_inv_head in E.
    + destruct Hrest as (w3 & Hf & _). eexists _, _. split; [by eapply chain_raises|].
      intros [= E]. by apply app_inv_head in E.
Qed.

(** A chain none of whose events has happened *)
Definition fresh : progress := Progress false (replicate (length infos) Waits) false.
Lemma fresh_shape : shape fresh.
Proof using.
  assert (Forall (eq Waits) (replicate (length infos) Waits)) as Hw by by apply Forall_replicate.
  split; simpl; [by apply in_order_waits| |done..]. eapply Forall_impl; [exact Hw|]. by intros ? <-.
Qed.

(** C6: version 1 workflows run to their end.  From the rows the builder
    leaves, and whatever the order of the chain's events and the work of other
    tenants between them: at any point, the row of each step says where the
    step is (waiting, running, succeeded with its value, failed or timed out
    with the exception's message) and the row of the workflow where the chain
    is (as it was, in progress, success once [end] has run, error or timeout
    once a step has raised); and either all is over, with every step succeeded,
    or with the steps before the one that raised succeeded and those after it
    waiting, or a further event is possible, and every event of the chain
    brings its end nearer. *)
Theorem flat_workflow_runs w t w' p : chain_rep s b infos initial w fresh t → rtc event (w, fresh) (w', p) →
  (∃ t', chain_rep s b infos initial w' p t') ∧
  (settled p ∨ ∃ w2 p2, event (w', p) (w2, p2) ∧ (events_left p2 < events_left p)%nat) ∧
  (∀ w2 p2, event (w', p) (w2, p2) → p2 = p ∨ (events_left p2 < events_left p)%nat).
Proof using Hcode Hne Himports Hkeys Hids H2.
  intros R Hrun. assert (chain_inv w' p) as I.
  { assert (chain_inv w fresh) as I0 by (split; [by exists t|apply fresh_shape]). clear R. revert I0.
    change (chain_inv w fresh) with (chain_inv (w, fresh).1 (w, fresh).2).
    change (chain_inv w' p) with (chain_inv (w', p).1 (w', p).2).
    induction Hrun as [|[] [] z E _ IH]; [done|]. intros I0. apply IH. exact (event_inv _ _ _ _ I0 E). }
  split; [apply I|]. split; [by apply event_possible|apply event_counts].
Qed.
End Whole.

(** ** A concrete run *)

(** The chain that the builder makes of two tasks, the second of which raises *)
Definition frail_user_code : UserCode := {|
  exec_source := λ _ _ _ _, mret true;
  call_main := λ _ _ _ _, mret demo_result;
  exec_module := λ _ _, modify (set_w_registered (Some "f"));
  call_function := λ _ x _ _,
    if bool_decide (tk_name x = Some "report") then raise (PyException "boom") else mret demo_result |}.
Definition flat_manager : Manager := demo_manager (flat_config ["load"; "report"]).
Definition built_world : world := (@build_and_run _ flat_manager 1
  (set_w_path "space00000" (demo_world (demo_tenant PNone [Builder.chain_wf] [])))).2.
Definition built_tenant : tenant := default (demo_tenant PNone [] []) (cur built_world).
Definition flat_builder : builder := Builder Builder.chain_wf demo_space "workflow" [] PNone.
Definition flat_infos : list step_info := [StepInfo 100 "uuid-0" "load"; StepInfo 101 "uuid-1" "report"].
Definition built_row (n : nat) : task_row :=
  default (new_task_row "" None 1 None None false) (rows (t_tasks built_tenant) !! n).
Lemma flat_modules : @Modules flat_manager frail_user_code.
Proof.
  split; intros; simpl.
  - eexists _, _, _. split; [reflexivity|]. split; [done|]. by split.
  - by eexists.
  - eexists _, _. split; [reflexivity|]. by split.
  - case_bool_decide; eexists _, _; (split; [reflexivity|]; split; [done|]); [done|]. by intros v [= <-].
Qed.
Lemma flat_rep : chain_rep "space00000" flat_builder flat_infos WInit built_world (fresh flat_infos) built_tenant.
Proof.
  split.
  - vm_compute. reflexivity.
  - vm_compute. right. by left.
  - exists Builder.chain_wf. split; vm_compute; reflexivity.
  - simpl. apply Forall2_cons. split; [exists (built_row 0)|apply Forall2_cons; split; [exists (built_row 1)|done]];
      unfold has_row, own_row; split_and!; vm_compute; reflexivity.
Qed.

(** [start] has run, the first step has returned and its success is still to be
    handled, the second has raised. *)
#[local] Existing Instance flat_manager.
#[local] Existing Instance frail_user_code.
#[local] Existing Instance flat_modules.
Definition flat_info (n : nat) : step_info := default (StepInfo 0 "" "") (flat_infos !! n).
Definition flat_before (n : nat) (w : world) : res task_row * world :=
  before_start (Some (si_celery (flat_info n))) (step_kw flat_builder (flat_info n)) w.
Definition flat_row (n : nat) (w : world) : task_row :=
  match (flat_before n w).1 with Ok x => x | Raise _ => built_row n end.
Definition flat_body (n : nat) (pre : list step_state) (w : world) : res pyval * world :=
  execute_workflow_step [previous_result pre] (step_kw flat_builder (flat_info n)) (flat_row n w) (flat_before n w).2.
Definition flat_failure (w : world) : res unit * world :=
  on_failure 1 (step_kw flat_builder (flat_info 1)) (Some (si_celery (flat_info 1))) (PyException "boom") w.
Definition flat_start : res unit * world := task_body 1 (start_message flat_builder) built_world.
Definition flat_started : world := set_w_path "public" flat_start.2.
Definition flat_loaded : world := (flat_body 0 [] flat_started).2.
Definition flat_called : world := (flat_body 1 [Runs demo_result] flat_loaded).2.
Definition flat_raised : world := set_w_path "public" (flat_failure flat_called).2.
Definition flat_progress : progress := Progress true [Runs demo_result; Broke (PyException "boom")] false.

Lemma pair_run {A B} (p : A * B) (a : A) : p.1 = a → p = (a, p.2).
Proof. by destruct p; intros <-. Qed.
Lemma flat_run : rtc (chain_step 1 "space00000" flat_builder flat_infos)
  (built_world, fresh flat_infos) (flat_raised, flat_progress).
Proof.
  assert (flat_start.1 = Ok tt) as E1 by (vm_compute; reflexivity).
  assert ((flat_before 0 flat_started).1 = Ok (flat_row 0 flat_started)) as E2 by (vm_compute; reflexivity).
  assert ((flat_body 0 [] flat_started).1 = Ok demo_result) as E3 by (vm_compute; reflexivity).
  assert ((flat_before 1 flat_loaded).1 = Ok (flat_row 1 flat_loaded)) as E4 by (vm_compute; reflexivity).
  assert ((flat_body 1 [Runs demo_result] flat_loaded).1 = Raise (PyException "boom")) as E5 by (vm_compute; reflexivity).
  assert ((flat_failure flat_called).1 = Ok tt) as E6 by (vm_compute; reflexivity).
  apply rtc_l with (flat_started, Progress true [Waits; Waits] false).
  { exact (chain_start 1 "space00000" flat_builder flat_infos built_world _ [Waits; Waits] (pair_run _ _ E1)). }
  apply rtc_l with (flat_loaded, Progress true [Runs demo_result; Waits] false).
  { exact (chain_returns 1 "space00000" flat_builder flat_infos flat_started _ _ [] [Waits] (flat_info 0) _ _ (Forall_nil_2 _) eq_refl
      (pair_run _ _ E2) (pair_run _ _ E3)). }
  apply rtc_once.
  exact (chain_raises 1 "space00000" flat_builder flat_infos flat_loaded _ _ _ [Runs demo_result] [] (flat_info 1) _ _
    ltac:(by repeat econstructor) eq_refl (pair_run _ _ E4) (pair_run _ _ E5) (pair_run _ _ E6)).
Qed.
Lemma flat_workflow_runs_witness :
  (∃ t', chain_rep "space00000" flat_builder flat_infos WInit flat_raised flat_progress t') ∧
  ∃ w2 p2, chain_step 1 "space00000" flat_builder flat_infos (flat_raised, flat_progress) (w2, p2) ∧
    (events_left p2 < events_left flat_progress)%nat.
Proof.
  destruct (flat_workflow_runs 0 "space00000" flat_builder flat_infos WInit eq_refl ltac:(done) eq_refl
    ltac:(by apply (bool_decide_unpack _); vm_compute) ltac:(by apply (bool_decide_unpack _); vm_compute)
    built_world built_tenant flat_raised flat_progress flat_rep flat_run) as (H1 & [H2|H2] & _);
    [exfalso|exact (conj H1 H2)].
  inversion H2 as [vs Hvs|vs e n Hvs]; destruct vs; discriminate.
Defined.
