(* ===== verification/Flow.v ===== *)
(** * The abstract engine

    What the version 2 engine promises, without tables and messages: which
    nodes have run, which are to be delivered, the status of the workflow.
    Refine.v shows that the concrete handlers implement this system. *)
From Stdlib Require Import Ascii String.
From stdpp Require Import base list strings numbers sets relations.
From S2P Require Import Prelude PyStr PyVal World Graph.
Local Open Scope string_scope.
Local Open Scope nat_scope.
Local Open Scope list_scope.

Record flow : Type := Flow {
  f_runs : list string;
  f_queue : list string;
  f_status : wf_status;
  f_parked : option string
}.

Section Flow.
Context (ids : list string) (es : list edge).

(** Every input has run exactly once. *)
Definition count (n : string) (l : list string) : nat := length (filter (λ m, m = n) l).
Definition ready (runs : list string) (n : string) : bool :=
  forallb (λ p, Nat.eqb (count p runs) 1) (predecessors es n).

(** The delivery of the node [n] when the rest of the queue is [q] *)
Definition exec (σ : flow) (q : list string) (n : string) : flow :=
  if bool_decide (f_status σ = WWait) then Flow (f_runs σ) q WWait (Some n)
  else if ready (f_runs σ) n then
    Flow (f_runs σ ++ [n]) (q ++ successors es n)
      (if bool_decide (successors es n = []) then WSuccess else f_status σ)
      (if bool_decide (successors es n = []) then Some n else f_parked σ)
  else Flow (f_runs σ) q (f_status σ) (f_parked σ).

(** Messages are delivered in any order. *)
Inductive fstep : flow → flow → Prop :=
  | fstep_deliver σ l1 n l2 : f_queue σ = l1 ++ n :: l2 → fstep σ (exec σ (l1 ++ l2) n).

(** The state [execute_workflow_v2] sets up *)
Definition initial : flow := Flow [] (roots ids es) WProgress None.

(** ** Forests: no node has two incoming connections, and there is no cycle *)
Record forest : Prop := {
  fo_nodup : NoDup ids;
  fo_ends : ∀ e, e ∈ es → e_source e ∈ ids ∧ e_target e ∈ ids;
  fo_one : ∀ n, length (predecessors es n) ≤ 1;
  fo_rank : ∃ rank : string → nat, ∀ e, e ∈ es → rank (e_source e) < rank (e_target e)
}.

Lemma elem_of_predecessors p n :
  p ∈ predecessors es n ↔ ∃ e, e ∈ es ∧ e_source e = p ∧ e_target e = n.
Proof.
  unfold predecessors. rewrite list_elem_of_fmap. setoid_rewrite list_elem_of_filter.
  split; [intros (e & -> & ? & ?)|intros (e & ? & <- & ?)]; eauto.
Qed.
Lemma elem_of_successors m n :
  m ∈ successors es n ↔ ∃ e, e ∈ es ∧ e_source e = n ∧ e_target e = m.
Proof.
  unfold successors. rewrite list_elem_of_fmap. setoid_rewrite list_elem_of_filter.
  split; [intros (e & -> & ? & ?)|intros (e & ? & ? & <-)]; eauto.
Qed.
Lemma succ_pred m n : m ∈ successors es n ↔ n ∈ predecessors es m.
Proof. rewrite elem_of_successors, elem_of_predecessors. firstorder. Qed.

Lemma count_NoDup n l : NoDup l → n ∈ l → count n l = 1.
Proof.
  unfold count. induction 1 as [|x l Hx Hl IH]; intros Hn; [by apply not_elem_of_nil in Hn|].
  rewrite filter_cons. destruct (decide (x = n)) as [->|Hne].
  - simpl. f_equal. destruct (filter _ l) as [|y k] eqn:E; [done|]. exfalso. apply Hx.
    assert (y ∈ filter (λ m, m = n) l) as Hy by (rewrite E; left).
    apply list_elem_of_filter in Hy as [-> Hy]. done.
  - apply IH. set_solver.
Qed.

Lemma length_filter_map {A B} (g : A → B) (P : B → Prop) `{∀ x, Decision (P x)} (l : list A) :
  length (filter P (g <$> l)) = length (filter (λ x, P (g x)) l).
Proof.
  induction l as [|x l IH]; [done|]. rewrite fmap_cons, !filter_cons.
  destruct (decide (P (g x))); simpl; by rewrite IH.
Qed.

(** In a forest the connections out of a node have distinct targets. *)
Lemma NoDup_targets (l : list edge) n :
  (∀ m, length (filter (λ e, e_target e = m) l) ≤ 1) →
  NoDup (e_target <$> filter (λ e, e_source e = n) l).
Proof.
  induction l as [|e l IH]; intros H1; [constructor|]. rewrite filter_cons.
  assert (∀ m, length (filter (λ e, e_target e = m) l) ≤ 1) as H1'.
  { intros m. specialize (H1 m). rewrite filter_cons in H1.
    destruct (decide (e_target e = m)); simpl in H1; lia. }
  destruct (decide (e_source e = n)) as [He|He]; [|by apply IH].
  rewrite fmap_cons. constructor; [|by apply IH].
  intros (e' & Ht & Hin)%list_elem_of_fmap. apply list_elem_of_filter in Hin as [_ Hin].
  specialize (H1 (e_target e)). rewrite filter_cons, decide_True in H1 by done. simpl in H1.
  destruct (filter (λ e0, e_target e0 = e_target e) l) as [|x k] eqn:E; [|simpl in H1; lia].
  apply (not_elem_of_nil e'). rewrite <- E. by apply list_elem_of_filter.
Qed.
Lemma forest_successors_NoDup n : forest → NoDup (successors es n).
Proof.
  intros F. apply NoDup_targets. intros m.
  pose proof (fo_one F m) as H1. unfold predecessors in H1. by rewrite length_fmap in H1.
Qed.
Lemma forest_pred_unique n p q : forest → p ∈ predecessors es n → q ∈ predecessors es n → p = q.
Proof.
  intros F Hp Hq. pose proof (fo_one F n) as H1.
  destruct (predecessors es n) as [|x [|y l]]; simpl in H1; [|set_solver|lia].
  by apply not_elem_of_nil in Hp.
Qed.

(** The invariant of the executions of a forest *)
Record inv (σ : flow) : Prop := {
  i_nodup : NoDup (f_runs σ ++ f_queue σ);
  i_ids : ∀ n, n ∈ f_runs σ ++ f_queue σ → n ∈ ids;
  i_preds : ∀ n p, n ∈ f_runs σ ++ f_queue σ → p ∈ predecessors es n → p ∈ f_runs σ;
  i_roots : ∀ n, n ∈ roots ids es → n ∈ f_runs σ ++ f_queue σ;
  i_succs : ∀ n m, n ∈ f_runs σ → m ∈ successors es n → m ∈ f_runs σ ++ f_queue σ;
  i_status : f_status σ = WProgress ∨ f_status σ = WSuccess;
  i_done : f_queue σ = [] → f_runs σ = [] ∨ f_status σ = WSuccess
}.

Lemma inv_ready σ n : inv σ → n ∈ f_queue σ → ready (f_runs σ) n = true.
Proof.
  intros I Hn. apply forallb_forall. intros p Hp%list_elem_of_In.
  apply Nat.eqb_eq, count_NoDup.
  - pose proof (i_nodup _ I) as Hnd. by apply NoDup_app in Hnd as (? & _ & _).
  - apply (i_preds _ I n); set_solver.
Qed.

(** One delivery in a forest: the node runs. *)
Lemma inv_exec σ q n : inv σ → f_queue σ ≡ₚ n :: q →
  exec σ q n = Flow (f_runs σ ++ [n]) (q ++ successors es n)
    (if bool_decide (successors es n = []) then WSuccess else f_status σ)
    (if bool_decide (successors es n = []) then Some n else f_parked σ).
Proof.
  intros I Hq. unfold exec.
  rewrite (bool_decide_eq_false_2 (f_status σ = WWait))
    by (destruct (i_status _ I) as [->| ->]; done).
  rewrite inv_ready; [done|done|]. rewrite Hq. left.
Qed.

Lemma inv_step σ q n : forest → inv σ → f_queue σ ≡ₚ n :: q → inv (exec σ q n).
Proof.
  intros F I Hq. rewrite (inv_exec σ q n I Hq).
  assert (Hrq : ∀ m, m ∈ f_runs σ ++ f_queue σ ↔ m ∈ f_runs σ ∨ m = n ∨ m ∈ q).
  { intros m. rewrite elem_of_app, Hq. set_solver. }
  assert (Hnd : NoDup (f_runs σ ++ n :: q)).
  { pose proof (i_nodup _ I) as Hnd. by rewrite Hq in Hnd. }
  assert (Hn : n ∉ f_runs σ).
  { apply NoDup_app in Hnd as (_ & Hnd & _). intros Hn. apply (Hnd n Hn). left. }
  assert (Hnew : ∀ m, m ∈ successors es n → m ∉ f_runs σ ++ f_queue σ).
  { intros m Hm Hin. apply Hn, (i_preds _ I m); [done|]. by apply succ_pred. }
  split; simpl.
  - rewrite app_assoc. apply NoDup_app. split_and!.
    + by rewrite <- app_assoc.
    + intros m Hm Hs. apply (Hnew m Hs). apply Hrq. set_solver.
    + by apply forest_successors_NoDup.
  - intros m Hm. rewrite !elem_of_app in Hm.
    destruct Hm as [[Hm|Hm]|[Hm|Hm]]; [..|apply elem_of_successors in Hm as (e & He & _ & <-)].
    1-3: apply (i_ids _ I), Hrq; set_solver.
    by apply (fo_ends F).
  - intros m p Hm Hp. rewrite !elem_of_app in Hm. apply elem_of_app.
    destruct Hm as [[Hm|Hm]|[Hm|Hm]].
    1-3: left; apply (i_preds _ I m); [apply Hrq; set_solver|done].
    right. apply succ_pred in Hm. rewrite (forest_pred_unique m p n F Hp Hm). set_solver.
  - intros m Hm%(i_roots _ I). apply Hrq in Hm. set_solver.
  - intros k m Hk Hm. apply elem_of_app in Hk as [Hk|Hk].
    + pose proof (i_succs _ I k m Hk Hm) as Hm'. apply Hrq in Hm'. set_solver.
    + apply list_elem_of_singleton in Hk as ->. set_solver.
  - destruct (i_status _ I) as [->| ->]; case_bool_decide; auto.
  - intros [_ ->]%app_eq_nil. rewrite bool_decide_eq_true_2 by done. auto.
Qed.

Lemma inv_fstep σ σ' : forest → inv σ → fstep σ σ' → inv σ'.
Proof.
  intros F I Hs. inversion Hs as [? l1 n l2 Hq]; subst.
  apply inv_step; [done..|]. rewrite Hq. by rewrite Permutation_middle.
Qed.
Lemma inv_initial : forest → inv initial.
Proof.
  intros F. split; simpl; try set_solver.
  - apply NoDup_filter, (fo_nodup F).
  - intros n Hn. by apply list_elem_of_filter in Hn as [_ Hn].
  - intros n p Hn Hp. apply list_elem_of_filter in Hn as [Hn _]. by rewrite Hn in Hp; set_solver.
Qed.

(** A set of nodes with the roots, closed under successors, is everything. *)
Lemma closed_all (runs : list string) : forest →
  (∀ n, n ∈ roots ids es → n ∈ runs) →
  (∀ n m, n ∈ runs → m ∈ successors es n → m ∈ runs) →
  ∀ n, n ∈ ids → n ∈ runs.
Proof.
  intros F Hroots Hsucc. destruct (fo_rank F) as [rank Hrank].
  intros n. induction n as [n IH] using (well_founded_ind (well_founded_ltof _ rank)).
  intros Hn. destruct (predecessors es n) as [|p l] eqn:E.
  - apply Hroots. by apply list_elem_of_filter.
  - assert (p ∈ predecessors es n) as Hp by (rewrite E; left).
    apply (Hsucc p); [|by apply succ_pred].
    apply elem_of_predecessors in Hp as (e & He & <- & <-).
    apply IH; [by apply Hrank|]. by apply (fo_ends F).
Qed.
(** When nothing is left to deliver every node has run. *)
Lemma inv_complete σ : forest → inv σ → f_queue σ = [] → f_runs σ ≡ₚ ids.
Proof.
  intros F I Hq.
  assert (∀ n, n ∈ f_runs σ ++ f_queue σ ↔ n ∈ f_runs σ) as Hr
    by (rewrite Hq, app_nil_r; done).
  apply NoDup_Permutation.
  - pose proof (i_nodup _ I) as Hnd. by rewrite Hq, app_nil_r in Hnd.
  - apply (fo_nodup F).
  - intros n. split; [intros Hn; by apply (i_ids _ I), Hr|]. apply (closed_all _ F).
    + intros m Hm. by apply Hr, (i_roots _ I).
    + intros k m Hk Hm. apply Hr. by apply (i_succs _ I k).
Qed.
(** Every delivery runs a node that had not run: there are at most [length ids]. *)
Lemma inv_bound σ : inv σ → length (f_runs σ) + length (f_queue σ) ≤ length ids.
Proof.
  intros I. rewrite <- length_app. apply submseteq_length, NoDup_submseteq.
  { apply (i_nodup _ I). }
  apply (i_ids _ I).
Qed.
Lemma fstep_runs σ σ' : inv σ → fstep σ σ' → length (f_runs σ') = S (length (f_runs σ)).
Proof.
  intros I Hs. inversion Hs as [? l1 n l2 Hq]; subst. rewrite (inv_exec σ _ n I).
  - simpl. rewrite length_app. simpl. lia.
  - rewrite Hq. by rewrite Permutation_middle.
Qed.
End Flow.
