(* ===== verification/Refine.v ===== *)
(** * The engine implements the abstract one

    For workflows of source-code nodes whose code returns, the delivery of a
    [process_next_node] message to a worker takes the tables and the broker
    from a representation of an abstract state (Flow.v) to a representation of
    its [exec]. *)
From Stdlib Require Import Ascii String.
From stdpp Require Import base list strings numbers gmap sets relations pretty.
From S2P Require Import Prelude PyStr PyVal Json World Demo Graph Finmars Models Manager Builder.
From S2P Require Import Launch Tasks Engine Fixture Flow.
Local Open Scope string_scope.
Local Open Scope Z_scope.
Local Open Scope list_scope.

(** A node with source code, as the templates hold it *)
Record code_node (n : pyval) : Prop := {
  cn_type : node_type n = Ok (PStr "source_code");
  cn_source : ∃ c, getpath n ["data"; "source_code"] = Ok (PStr c) ∧ c ≠ "";
  cn_name : ∃ v, getitem n "name" = Ok v;
  cn_inputs : ∃ d, getitem n "inputs" = Ok (PDict d)
}.

(** Two worlds with the same tables, broker and identifiers drawn *)
Record same_db (w w' : world) : Prop := {
  sd_tenants : w_tenants w' = w_tenants w;
  sd_path : w_path w' = w_path w;
  sd_catalog : w_catalog w' = w_catalog w;
  sd_broker : w_broker w' = w_broker w;
  sd_uuids : w_uuids w' = w_uuids w
}.

(** User code that defines [main], returns a value, and leaves the engine's
    tables and messages alone; it may send requests, take time, write files. *)
Class CodeReturns `{UserCode} : Prop := {
  exec_returns c t args kw w : ∃ w', exec_source c t args kw w = (Ok true, w') ∧ same_db w w';
  main_returns c t args kw w :
    ∃ v w', call_main c t args kw w = (Ok v, w') ∧ same_db w w' ∧ wf_val v = true
}.
(** [celery.utils.uuid] never gives the same identifier twice. *)
Class FreshIds `{Platform} : Prop := uuid_inj : ∀ i j, uuid4 i = uuid4 j → i = j.

Section Refine.
Context `{Platform} {FI : FreshIds} `{Manager} `{UserCode} {CR : CodeReturns}
  `{Celery} {CO : CeleryOk}.
Context (s : string) (sp : space_row) (owner : user_row) (wt : template_row) (wfid : Z)
  (ids : list string) (es : list edge) (nodes : list (string * pyval)) (cs : list pyval).
Abbreviation code := (sp_space_code sp).
Abbreviation adj := ((λ n, (n, PStr <$> successors es n)) <$> ids).

(** The space is that of the schema; the template is read as the graph. *)
Record setup : Prop := {
  su_code : lower code = s;
  su_code_ne : code ≠ "";
  su_read : read_template wt = Ok (nodes, PList cs, adj);
  su_keys : dict_keys nodes = ids;
  su_conns : Forall2 conn_ok cs es;
  su_targets : Forall (λ e, e_target e ∈ ids) es;
  su_nodes : ∀ i v, dict_get nodes i = Some v → code_node v
}.

(** The message that delivers the node [n] *)
Definition node_msg (context : pyval) (n : string) : message :=
  Msg "workflow.tasks.workflows.process_next_node" []
    [("current_node_id", PStr n); ("workflow_id", PInt wfid); ("nodes", PDict nodes);
     ("adjacency_list", PDict ((λ kv, (kv.1, PList kv.2)) <$> adj));
     ("context", context); ("connections", PList cs)] (PStr "workflow").
(** ... up to the order of the keyword arguments *)
Record node_message (n : string) (m : message) : Prop := {
  nm_task : msg_task m = "workflow.tasks.workflows.process_next_node";
  nm_node : kwget (msg_kwargs m) "current_node_id" = PStr n;
  nm_workflow : kwget (msg_kwargs m) "workflow_id" = PInt wfid;
  nm_nodes : kwget (msg_kwargs m) "nodes" = PDict nodes;
  nm_connections : kwget (msg_kwargs m) "connections" = PList cs;
  nm_context : get (kwget (msg_kwargs m) "context") "space_code" = Ok (PStr code)
}.
Definition delivers (n : string) (c : canvas) : Prop :=
  n ∈ ids ∧ ∃ m, node_message n m ∧ c = Sig None m.

(** A task of the node [n] that has succeeded *)
Definition done_task (x : task_row) (n : string) : Prop :=
  tk_node_id x = Some n ∧ tk_status x = TSuccess ∧ ∃ v, tk_result x = Ok v.
Definition own_tasks (t : tenant) : list task_row :=
  List.filter (λ x, tk_workflow x =? wfid) (rows (t_tasks t)).

Record static (t : tenant) : Prop := {
  st_space : the_row sp (rows (t_spaces t));
  st_owner : the_row owner (rows (t_users t));
  st_template : the_row wt (rows (t_templates t))
}.
Record wf_rep (wf : workflow_row) (σ : flow) : Prop := {
  wr_id : wf_id wf = wfid;
  wr_space : wf_space wf = sp_id sp;
  wr_owner : wf_owner wf = us_id owner;
  wr_template : wf_template wf = Some (wt_id wt);
  wr_parent : wf_parent wf = None;
  wr_platform : wf_platform_task_id wf = None;
  wr_status : wf_status_ wf = f_status σ;
  wr_parked : wf_current_node_id wf = f_parked σ
}.
Record fresh (w : world) (t : tenant) : Prop := {
  fr_id : ∀ x, x ∈ rows (t_tasks t) → tk_id x < next_id (t_tasks t);
  fr_uuid : ∀ x k, x ∈ rows (t_tasks t) → (w_uuids w ≤ k)%nat →
              tk_celery_task_id x ≠ Some (uuid4 k)
}.
(** The tables and the broker represent the abstract state. *)
Record tables (w : world) (σ : flow) (t : tenant) (wf : workflow_row) : Prop := {
  tb_tenant : w_tenants w !! s = Some t;
  tb_catalog : code ∈ w_catalog w;
  tb_static : static t;
  tb_row : the_row wf (rows (t_workflows t));
  tb_wf : wf_rep wf σ;
  tb_tasks : Forall2 done_task (own_tasks t) (f_runs σ);
  tb_fresh : fresh w t
}.
Definition rep (w : world) (σ : flow) : Prop :=
  (∃ t wf, tables w σ t wf) ∧ Forall2 delivers (f_queue σ) (w_broker w).

Context (SU : setup).

Lemma enter context w : get context "space_code" = Ok (PStr code) → code ∈ w_catalog w →
  set_schema_from_context context w = (Ok tt, set_w_path s w).
Proof using SU.
  intros Hc Hw. unfold set_schema_from_context.
  assert (truthy context = true) as ->.
  { destruct context as [| | | | |[|]]; done. }
  assert (truthy (PStr code) = true) as Ht.
  { simpl. apply negb_true_iff, String.eqb_neq, (su_code_ne SU). }
  unfold mbind, ST_bind, lift. rewrite Hc. rewrite Ht. simpl.
  rewrite bool_decide_eq_true_2 by done. unfold set_search_path, modify. by rewrite (su_code SU).
Qed.

(** ** The inputs of a node *)

Lemma done_filter l runs p : Forall2 done_task l runs →
  Forall2 done_task (List.filter (λ x, node_is (PStr p) (tk_node_id x)) l)
    (filter (λ n, n = p) runs).
Proof.
  induction 1 as [|x n l runs (Hx & Hs & Hr) Hl IH]; [constructor|].
  cbn [List.filter node_is]. rewrite Hx, filter_cons.
  destruct (decide (n = p)) as [->|Hne].
  - rewrite bool_decide_eq_true_2 by done. constructor; [|done]. by split.
  - rewrite bool_decide_eq_false_2 by congruence. done.
Qed.
Lemma filter_and {A} (P Q : A → bool) l :
  List.filter (λ x, P x && Q x) l = List.filter Q (List.filter P l).
Proof.
  induction l as [|x l IH]; [done|]. simpl. destruct (P x); simpl; [|done].
  destruct (Q x); by rewrite IH.
Qed.
Lemma input_ready_run w t wf σ p : cur w = Some t → wf_id wf = wfid →
  Forall2 done_task (own_tasks t) (f_runs σ) →
  input_ready wf (PStr p) w = (Ok (Nat.eqb (count p (f_runs σ)) 1), w).
Proof.
  intros Hw Hid Ht. pose proof (done_filter _ _ p Ht) as Hf. unfold own_tasks in Hf.
  rewrite <- filter_and in Hf. unfold input_ready, count. rewrite Hid.
  apply Forall2_length in Hf as Hlen. rewrite <- Hlen.
  set (P := λ x, (tk_workflow x =? wfid) && node_is (PStr p) (tk_node_id x)) in *.
  assert (∀ m : M task_row, ∀ e, m w = (Raise e, w) →
    try_except (m ≫= λ x, mret (bool_decide (tk_status x = TSuccess))) (λ _, mret false) w
    = (Ok false, w)) as Hraise.
  { intros m e Hm. by rewrite (try_raise _ _ _ _ _ (bind_raise _ _ _ _ _ Hm)). }
  destruct (List.filter P (rows (t_tasks t))) as [|x [|y l]] eqn:E.
  - eapply Hraise, get_none; [done|apply E].
  - rewrite (try_ok _ _ _ true w); [done|].
    rewrite (bind_ok _ _ w x w) by (eapply get_run; [done|apply E]).
    inversion Hf as [|? ? ? ? (_ & Hs & _)]; subst. by rewrite Hs.
  - eapply Hraise, get_many; [done|apply E].
Qed.
Lemma inputs_ready_run w t wf σ n : cur w = Some t → wf_id wf = wfid →
  Forall2 done_task (own_tasks t) (f_runs σ) →
  are_inputs_ready wf n (PList cs) w = (Ok (ready es (f_runs σ) n), w).
Proof using SU.
  intros Hw Hid Ht. unfold are_inputs_ready, input_nodes. cbn [py_iter].
  cbn [mbind res_bind]. rewrite (collect_sources_spec cs es (su_conns SU)).
  rewrite (bind_ok _ _ w (PStr <$> predecessors es n) w) by done. unfold ready.
  induction (predecessors es n) as [|p l IH]; [done|]. rewrite fmap_cons. cbn [all_ready].
  rewrite (bind_ok _ _ _ _ _ (input_ready_run w t wf σ p Hw Hid Ht)). simpl.
  destruct (_ =? 1)%nat; [apply IH|done].
Qed.

(** The output of a predecessor can always be read. *)
Lemma source_task_run w t wf σ n input v : cur w = Some t → wf_id wf = wfid →
  Forall2 done_task (own_tasks t) (f_runs σ) → code_node v →
  ∃ o, source_task wf n input v (PList cs) w = (Ok o, w) ∧
       ∀ x, o = Some x → ∃ r, tk_result x = Ok r.
Proof using SU.
  intros Hw Hid Ht Hv. destruct (cn_inputs _ Hv) as [d Hd]. unfold source_task.
  rewrite (bind_ok _ _ w (dict_has d input) w) by (unfold lift; by rewrite Hd).
  destruct (dict_has d input); [|by exists None].
  cbn [py_iter mbind res_bind]. rewrite (find_source_spec cs es (su_conns SU)).
  set (src := match head _ with Some _ => _ | None => _ end).
  rewrite (bind_ok _ _ w src w) by done.
  destruct (truthy src); [|by exists None].
  rewrite (bind_ok _ _ _ _ _ (filter_run _ w t Hw)). simpl. rewrite Hid.
  eexists. split; [reflexivity|]. intros x Hx.
  assert (x ∈ own_tasks t) as Hin.
  { unfold own_tasks. apply head_Some_elem_of in Hx. apply list_elem_of_In in Hx.
    apply list_elem_of_In. apply in_rev in Hx. apply filter_In in Hx as [Hx Hb].
    apply andb_true_iff in Hb as [Hb _]. by apply filter_In. }
  apply list_elem_of_lookup in Hin as [i Hi].
  destruct (Forall2_lookup_l _ _ _ _ _ Ht Hi) as (m & _ & _ & _ & Hr). done.
Qed.

(** ** The life of the step's task *)

(** The tenant with one more task, the one the step runs under *)
Definition with_task (t : tenant) (T : task_row) : tenant :=
  set_t_tasks (Table (rows (t_tasks t) ++ [T]) (next_id (t_tasks t) + 1)) t.
Record step_row (t : tenant) (k : nat) (n : string) (T : task_row) : Prop := {
  sr_id : tk_id T = next_id (t_tasks t);
  sr_celery : tk_celery_task_id T = Some (uuid4 k);
  sr_workflow : tk_workflow T = wfid;
  sr_node : tk_node_id T = Some n;
  sr_source : ∃ c, truthy_str (tk_source_code T) = Some c
}.
Record running (t : tenant) (k : nat) (b : list canvas) (w : world) (T : task_row) : Prop := {
  ru_tenant : w_tenants w !! s = Some (with_task t T);
  ru_catalog : code ∈ w_catalog w;
  ru_broker : w_broker w = b;
  ru_uuids : w_uuids w = S k
}.

Lemma running_cur t k b w T : running t k b w T → w_path w = s → cur w = Some (with_task t T).
Proof. intros R Hp. unfold cur. rewrite Hp. by apply R. Qed.
Lemma running_same_db t k b w w' T : same_db w w' → running t k b w T → running t k b w' T.
Proof. intros [] []. split; congruence. Qed.
Lemma running_path t k b w T p : running t k b w T → running t k b (set_w_path p w) T.
Proof. intros []. by split. Qed.
Lemma running_enter t k b w T context : running t k b w T →
  get context "space_code" = Ok (PStr code) →
  set_schema_from_context context w = (Ok tt, set_w_path s w).
Proof using SU. intros R Hc. apply enter; [done|]. by apply R. Qed.

Lemma write_row_last (l : list task_row) (T T' : task_row) :
  (∀ x, x ∈ l → tk_id x ≠ tk_id T') → tk_id T = tk_id T' → write_row T' (l ++ [T]) = l ++ [T'].
Proof.
  intros Hl HT. rewrite write_row_present.
  - rewrite map_app. simpl. rewrite HT, Z.eqb_refl. f_equal. clear HT.
    induction l as [|x l IH]; [done|]. simpl.
    rewrite (proj2 (Z.eqb_neq (tk_id x) (tk_id T'))) by (apply Hl; left).
    f_equal. apply IH. intros y Hy. apply Hl. by right.
  - rewrite existsb_app. simpl. rewrite HT, Z.eqb_refl. apply orb_true_iff. auto.
Qed.
Lemma running_save t k b n w T T' : running t k b w T → w_path w = s →
  (∀ x, x ∈ rows (t_tasks t) → tk_id x < next_id (t_tasks t)) →
  step_row t k n T → step_row t k n T' →
  ∃ w', save_row T' w = (Ok (set_tk_modified_at (w_clock w) T'), w') ∧ w_path w' = s ∧
        running t k b w' (set_tk_modified_at (w_clock w) T').
Proof.
  intros R Hp Hlt HT HT'. pose proof (running_cur _ _ _ _ _ R Hp) as Hw.
  rewrite (save_run T' w _ Hw). eexists. split; [reflexivity|]. split; [done|].
  destruct R as [Ht Hc Hb Hu]. split; [|done..]. simpl. rewrite Hp, lookup_insert_eq.
  f_equal. unfold with_task, set_t_tasks. simpl. do 2 f_equal.
  apply write_row_last.
  - intros x Hx%Hlt. simpl. rewrite (sr_id _ _ _ _ HT'). lia.
  - simpl. by rewrite (sr_id _ _ _ _ HT), (sr_id _ _ _ _ HT').
Qed.
Lemma step_row_modified t k n T c : step_row t k n T → step_row t k n (set_tk_modified_at c T).
Proof. intros []. by split. Qed.

Lemma running_get t k b n w T : running t k b w T → w_path w = s →
  (∀ x, x ∈ rows (t_tasks t) → tk_celery_task_id x ≠ Some (uuid4 k)) → step_row t k n T →
  get_task_by_celery_id (Some (uuid4 k)) w = (Ok T, w).
Proof.
  intros R Hp Hf HT. eapply get_run; [by apply (running_cur _ _ _ _ _ R Hp)|]. simpl.
  rewrite List.filter_app. simpl. rewrite (sr_celery _ _ _ _ HT), bool_decide_eq_true_2 by done.
  assert (List.filter (λ x, bool_decide (tk_celery_task_id x = Some (uuid4 k)))
            (rows (t_tasks t)) = []) as ->; [|done].
  induction (rows (t_tasks t)) as [|x l IH]; [done|]. simpl.
  rewrite bool_decide_eq_false_2 by (apply Hf; left). apply IH. intros y Hy. apply Hf. by right.
Qed.

(** ** The handlers of a step *)

Section Step.
Context (t : tenant) (wf : workflow_row) (σ : flow) (k : nat) (b : list canvas) (n : string)
  (kw : list (string * pyval)).
Context (Hst : static t) (Hrow : the_row wf (rows (t_workflows t))) (Hwf : wf_rep wf σ)
  (Hlt : ∀ x, x ∈ rows (t_tasks t) → tk_id x < next_id (t_tasks t))
  (Hfr : ∀ x j, x ∈ rows (t_tasks t) → (k ≤ j)%nat → tk_celery_task_id x ≠ Some (uuid4 j))
  (Hkw : get (kwget kw "context") "space_code" = Ok (PStr code)).

Lemma own_workflow w T : running t k b w T → w_path w = s → step_row t k n T →
  get_by_id (R:=workflow_row) (tk_workflow T) w = (Ok wf, w).
Proof using Hrow Hwf.
  intros R Hp HT. rewrite (sr_workflow _ _ _ _ HT), <- (wr_id _ _ Hwf).
  by eapply (get_workflow_run wf w (with_task t T)); [apply (running_cur _ _ _ _ _ R Hp)|].
Qed.

Lemma before_start_run w T : running t k b w T → step_row t k n T →
  ∃ T' w', before_start (Some (uuid4 k)) kw w = (Ok T', w') ∧ w_path w' = s ∧
    running t k b w' T' ∧ step_row t k n T' ∧ tk_status T' = TProgress.
Proof using SU Hrow Hwf Hlt Hfr Hkw.
  intros R HT. unfold before_start.
  rewrite (bind_ok _ _ _ _ _ (running_enter _ _ _ _ _ _ R Hkw)).
  apply (running_path _ _ _ _ _ s) in R.
  rewrite (bind_ok _ _ _ T (set_w_path s w)) by (eapply running_get; eauto).
  set (T1 := set_tk_worker_name _ _).
  assert (step_row t k n T1) as HT1 by (destruct HT; by split).
  destruct (running_save t k b n _ T T1 R eq_refl Hlt HT HT1) as (w' & Hs & Hp & R').
  rewrite (bind_ok _ _ _ _ _ Hs).
  pose proof (step_row_modified _ _ _ _ (w_clock (set_w_path s w)) HT1) as HT2.
  rewrite (bind_ok _ _ _ wf w') by (by apply own_workflow).
  eexists _, w'. split_and!; done.
Qed.

Lemma step_run w T : running t k b w T → w_path w = s → step_row t k n T →
  ∃ v w', execute_workflow_step [] kw T w = (Ok v, w') ∧ running t k b w' T ∧ wf_val v = true.
Proof using SU CR Hrow Hwf Hkw.
  intros R Hp HT. unfold execute_workflow_step, step_body.
  rewrite (bind_ok _ _ w tt (set_w_registered None w)) by done.
  assert (running t k b (set_w_registered None w) T) as R1 by (destruct R; by split).
  rewrite (bind_ok _ _ _ _ _ (running_enter _ _ _ _ _ _ R1 Hkw)).
  apply (running_path _ _ _ _ _ s) in R1.
  rewrite (bind_ok _ _ _ wf (set_w_path s (set_w_registered None w))) by (by apply own_workflow).
  destruct (sr_source _ _ _ _ HT) as [c ->]. unfold run_source.
  destruct (exec_returns c T [] kw (set_w_path s (set_w_registered None w))) as (w1 & He & S1).
  rewrite (bind_ok _ _ _ _ _ He).
  destruct (main_returns c T [] kw w1) as (v & w2 & Hm & S2 & Hv). rewrite Hm.
  exists v, w2. split_and!; [done| |done].
  by eapply running_same_db, running_same_db.
Qed.

(** The messages that deliver the successors *)
Abbreviation next_msgs ms := ((λ m, Sig None (node_msg (context_of sp) m)) <$> ms).

Lemma dispatch_run wf1 w t' m : wf_id wf1 = wfid → wf_space wf1 = sp_id sp →
  cur w = Some t' → the_row sp (rows (t_spaces t')) → m ∈ ids →
  dispatch_next wf1 nodes adj (PList cs) (PStr m) w
  = (Ok tt, set_w_broker (w_broker w ++ [Sig None (node_msg (context_of sp) m)]) w).
Proof using SU.
  intros Hid Hspace Hw Hsp Hm. unfold dispatch_next. rewrite <- (su_keys SU) in Hm.
  apply dict_keys_get in Hm as [v Hv].
  pose proof (su_nodes SU _ _ Hv) as Hn. destruct (cn_name _ Hn) as [nm Hnm].
  rewrite (bind_ok _ _ w (Some v) w) by (unfold lift; simpl; by rewrite Hv).
  assert (truthy v = true) as ->.
  { destruct v as [| | | | |[|]]; done. }
  rewrite (bind_ok _ _ w nm w) by (unfold lift; by rewrite Hnm).
  rewrite Hspace, (bind_ok _ _ w sp w) by (by eapply get_space_run).
  unfold publish_next_node, publish, publish_canvas, modify, node_msg.
  by rewrite Hid.
Qed.
Lemma dispatch_all_run wf1 w t' ms : wf_id wf1 = wfid → wf_space wf1 = sp_id sp → cur w = Some t' → the_row sp (rows (t_spaces t')) →
  Forall (λ m, m ∈ ids) ms →
  for_each (PStr <$> ms) (dispatch_next wf1 nodes adj (PList cs)) w
  = (Ok tt, set_w_broker (w_broker w ++ next_msgs ms) w).
Proof using SU.
  intros Hid Hspace Hw Hsp Hms. revert w Hw. induction Hms as [|m ms Hm Hms IH]; intros w Hw.
  - simpl. rewrite app_nil_r. by destruct w.
  - rewrite !fmap_cons. cbn [for_each].
    rewrite (bind_ok _ _ _ _ _ (dispatch_run wf1 w t' m Hid Hspace Hw Hsp Hm)).
    rewrite IH by done. simpl. by rewrite <- app_assoc.
Qed.

Lemma own_tasks_with T : tk_workflow T = wfid → own_tasks (with_task t T) = own_tasks t ++ [T].
Proof.
  intros HT. unfold own_tasks. simpl. rewrite List.filter_app. simpl. by rewrite HT, Z.eqb_refl.
Qed.
(** The tables once the task of the step has succeeded *)
Lemma running_tables w T q : running t k b w T → step_row t k n T → done_task T n →
  Forall2 done_task (own_tasks t) (f_runs σ) →
  tables w (Flow (f_runs σ ++ [n]) q (f_status σ) (f_parked σ)) (with_task t T) wf.
Proof using Hst Hrow Hwf Hlt Hfr FI.
  intros [Ht Hc _ Hu] HT Hd Hds. split; [done|done|destruct Hst; by split|done|destruct Hwf; by split|..].
  - rewrite own_tasks_with by apply HT. apply Forall2_app; [done|].
    constructor; [done|constructor].
  - split; simpl.
    + intros x [Hx|Hx]%elem_of_app; [apply Hlt in Hx; lia|].
      apply list_elem_of_singleton in Hx as ->. rewrite (sr_id _ _ _ _ HT). lia.
    + intros x j [Hx|Hx]%elem_of_app; rewrite Hu; intros Hj; [apply Hfr; [done|lia]|].
      apply list_elem_of_singleton in Hx as ->. rewrite (sr_celery _ _ _ _ HT).
      intros [= E%FI]. lia.
Qed.

Lemma succeed_run w T v : running t k b w T → w_path w = s → step_row t k n T →
  wf_val v = true →
  ∃ T' w', succeed_task v T w = (Ok T', w') ∧ running t k b w' T' ∧ w_path w' = s ∧
    step_row t k n T' ∧ done_task T' n.
Proof using Hlt.
  intros R Hp HT Hv. unfold succeed_task, mark_task_as_finished.
  rewrite (bind_ok _ _ w _ (tick w)) by done.
  set (T1 := set_tk_finished_at _ _).
  assert (step_row t k n T1) as HT1 by (destruct HT; by split).
  assert (running t k b (tick w) T) as R1 by (destruct R; by split).
  destruct (running_save t k b n (tick w) T T1 R1 Hp Hlt HT HT1) as (w' & Hs & Hp' & R').
  rewrite Hs. eexists _, w'. split_and!; [done|done|done|by apply step_row_modified|].
  split; [apply HT|]. split; [done|].
  assert (wf_val (if truthy v then v else no_result_message) = true) as Hv'
    by (destruct (truthy v); [done|reflexivity]).
  unfold tk_result. subst T1. simpl. destruct (if truthy v then _ else _) eqn:E; simpl.
  1: by eexists.
  all: rewrite <- E in *; rewrite loads_dumps by done; by eexists.
Qed.
End Step.

Lemma save_workflow_run w σ σ' t wf wf' : tables w σ t wf → w_path w = s →
  wf_rep wf' σ' → f_runs σ' = f_runs σ →
  ∃ t' w', save_workflow wf' w = (Ok (set_wf_modified_at (w_clock w) wf'), w') ∧
    tables w' σ' t' (set_wf_modified_at (w_clock w) wf') ∧
    w_path w' = s ∧ w_broker w' = w_broker w.
Proof.
  intros [Ht Hc Hst Hrow Hwf Hts Hfr] Hp Hwf' Hruns.
  assert (cur w = Some t) as Hw by (unfold cur; by rewrite Hp).
  unfold save_workflow. rewrite (bind_ok _ _ _ _ _ (save_run wf' w t Hw)).
  unfold after_save. simpl. rewrite (wr_platform _ _ Hwf'). simpl.
  set (tb := Table _ _).
  exists (set_t_workflows tb t). eexists. split; [reflexivity|]. split_and!; [|done|done].
  split; [|done|destruct Hst; by split|..].
  - simpl. by rewrite Hp, lookup_insert_eq.
  - apply (the_row_save wf); [|done]. simpl. by rewrite (wr_id _ _ Hwf), (wr_id _ _ Hwf').
  - destruct Hwf'. by split.
  - by rewrite Hruns.
  - destruct Hfr. by split.
Qed.

Abbreviation next_msgs ms := ((λ m, Sig None (node_msg (context_of sp) m)) <$> ms).
(** What [exec] makes of the status and of the parked node *)
Definition status_after (n : string) (σ : flow) : wf_status :=
  if bool_decide (successors es n = []) then WSuccess else f_status σ.
Definition parked_after (n : string) (σ : flow) : option string :=
  if bool_decide (successors es n = []) then Some n else f_parked σ.

Lemma successors_ids n : Forall (λ m, m ∈ ids) (successors es n).
Proof using SU.
  apply Forall_forall. intros m Hm. apply elem_of_successors in Hm as (e & He & _ & <-).
  by apply (proj1 (Forall_forall _ _) (su_targets SU)).
Qed.
Lemma next_nodes_run n v retval : n ∈ ids → dict_get nodes n = Some v →
  next_nodes n v retval adj (PList cs) = Ok (PStr <$> successors es n).
Proof using SU.
  intros Hn Hv. pose proof (su_nodes SU _ _ Hv) as Hc. unfold next_nodes.
  rewrite (cn_type _ Hc). cbn [mbind res_bind py_eqb].
  rewrite (dict_get_fmap (λ n, PStr <$> successors es n)) by done. done.
Qed.

(** The end of a workflow without a parent *)
Lemma leaf_run w σ σ1 t wf wf1 :
  tables w σ t wf → w_path w = s → f_runs σ1 = f_runs σ → f_status σ1 = WSuccess →
  wf_rep wf1 (Flow (f_runs σ) (f_queue σ1) (wf_status_ wf1) (f_parked σ1)) →
  ∃ w' t' wf',
    (∀ F : workflow_row → workflow_row → M unit,
    (_ ← get_by_id (R:=user_row) (wf_owner wf1);
     n ← now;
     wf2 ← save_workflow (set_wf_finished_at (Some n) (set_wf_status_ WSuccess wf1));
     parent ← fetch_fk (wf_parent wf2);
     match parent with None => mret tt | Some p => F wf2 p end) w = (Ok tt, w')) ∧
    tables w' σ1 t' wf' ∧ w_broker w' = w_broker w.
Proof.
  intros TB Hp Hr1 Hs1 Hwf1. pose proof (tb_static _ _ _ _ TB) as Hst.
  assert (cur w = Some t) as Hw by (unfold cur; rewrite Hp; apply TB).
  assert (tables (tick w) σ t wf) as TB'.
  { destruct TB as [? ? ? ? ? ? []]. split; [done..|by split]. }
  set (wf2 := set_wf_finished_at (Some (w_clock w)) (set_wf_status_ WSuccess wf1)).
  destruct (save_workflow_run (tick w) σ σ1 t wf wf2 TB' Hp) as (t' & w' & Hs & TB2 & _ & Hb);
    [destruct Hwf1; by split|done|].
  do 3 eexists. split; [|split; [exact TB2|exact Hb]]. intros F.
  rewrite (wr_owner _ _ Hwf1).
  rewrite (bind_ok _ _ _ _ _ (get_user_run owner w t Hw (st_owner _ Hst))).
  rewrite (bind_ok _ _ w (w_clock w) (tick w)) by done.
  rewrite (bind_ok _ _ _ _ _ Hs). simpl. by rewrite (wr_parent _ _ Hwf1).
Qed.

(** [on_success] of a step: its task is done, its successors are published; at
    a leaf the workflow succeeds. *)
Section Success.
Context (t : tenant) (wf : workflow_row) (σ : flow) (k : nat) (b : list canvas) (n : string)
  (kw : list (string * pyval)) (q : list string).
Context (Hst : static t) (Hrow : the_row wf (rows (t_workflows t))) (Hwf : wf_rep wf σ)
  (Hlt : ∀ x, x ∈ rows (t_tasks t) → tk_id x < next_id (t_tasks t))
  (Hfr : ∀ x j, x ∈ rows (t_tasks t) → (k ≤ j)%nat → tk_celery_task_id x ≠ Some (uuid4 j))
  (Hkw : get (kwget kw "context") "space_code" = Ok (PStr code))
  (Hn : n ∈ ids) (Hds : Forall2 done_task (own_tasks t) (f_runs σ)).
Abbreviation σ' := (Flow (f_runs σ ++ [n]) q (status_after n σ) (parked_after n σ)).

Lemma success_run w T v fuel : running t k b w T → step_row t k n T →
  tk_status T = TProgress → wf_val v = true →
  ∃ w' t' wf', on_success (S fuel) (Some (uuid4 k)) kw v w = (Ok tt, w') ∧
    tables w' σ' t' wf' ∧ w_broker w' = b ++ next_msgs (successors es n).
Proof using All.
  intros R HT Hs Hv. unfold on_success.
  rewrite (bind_ok _ _ _ _ _ (running_enter _ _ _ _ _ _ R Hkw)).
  apply (running_path _ _ _ _ _ s) in R.
  rewrite (bind_ok _ _ _ T (set_w_path s w)) by (eapply running_get; eauto).
  cbn [handle_task_success]. rewrite bool_decide_eq_false_2 by (by rewrite Hs).
  destruct (succeed_run t k b n Hlt _ T v R eq_refl HT Hv) as (T' & w1 & Hsc & R1 & Hp & HT' & Hd).
  rewrite (bind_ok _ _ _ _ _ Hsc).
  rewrite (bind_ok _ _ w1 wf w1) by (eapply own_workflow; eauto).
  pose proof (running_cur _ _ _ _ _ R1 Hp) as Hw1.
  rewrite (wr_template _ _ Hwf).
  rewrite (bind_ok _ _ w1 (Some wt) w1)
    by (unfold fetch_fk; by rewrite (bind_ok _ _ _ _ _ (get_template_run wt w1 _ Hw1 (st_template _ Hst)))).
  rewrite (bind_ok _ _ w1 (nodes, PList cs, adj) w1) by (unfold lift; by rewrite (su_read SU)).
  rewrite (sr_node _ _ _ _ HT').
  rewrite (bind_ok _ _ w1 n w1) by done.
  pose proof Hn as Hk. rewrite <- (su_keys SU) in Hk. apply dict_keys_get in Hk as [nd Hnd].
  rewrite (bind_ok _ _ w1 nd w1) by (unfold lift; simpl; by rewrite Hnd).
  rewrite (bind_ok _ _ w1 (PStr <$> successors es n) w1)
    by (unfold lift; by rewrite (next_nodes_run n nd)).
  pose proof (running_tables t wf σ k b n Hst Hrow Hwf Hlt Hfr w1 T' q R1 HT' Hd Hds) as TB.
  pose proof (successors_ids n) as Hids.
  set (wf1 := set_wf_current_node_id (Some n) (set_wf_last_task_output v wf)).
  unfold status_after, parked_after. destruct (successors es n) as [|m ms] eqn:E.
  - rewrite !bool_decide_eq_true_2 by done. cbn [fmap list_fmap].
    destruct (leaf_run w1 _ (Flow (f_runs σ ++ [n]) q WSuccess (Some n)) _ _ wf1 TB Hp)
      as (w2 & t2 & wf2 & Hrun & TB2 & Hb2); [done|done|destruct Hwf; by split|].
    do 3 eexists. split; [apply Hrun|]. split; [exact TB2|].
    rewrite Hb2, (ru_broker _ _ _ _ _ R1). by rewrite app_nil_r.
  - rewrite !bool_decide_eq_false_2 by done.
    pose proof (dispatch_all_run wf1 w1 _ (m :: ms) (wr_id _ _ Hwf) (wr_space _ _ Hwf) Hw1
                  (st_space _ Hst) Hids) as Hall.
    do 3 eexists. split; [exact Hall|]. simpl. rewrite (ru_broker _ _ _ _ _ R1).
    split; [|reflexivity]. destruct TB as [? ? ? ? ? ? []]. split; [done..|by split].
Qed.
End Success.

(** ** A ready node *)

Lemma tables_path w σ t wf p : tables w σ t wf → tables (set_w_path p w) σ t wf.
Proof. intros [? ? ? ? ? ? []]. split; [done..|by split]. Qed.

(** The row of the step is inserted. *)
Lemma create_run w σ t wf n payload c : tables w σ t wf → w_path w = s → c ≠ "" →
  ∃ T w', create_step_task wf sp (uuid4 (w_uuids w)) n (Some "custom_code") (Some c) payload
            (set_w_uuids (S (w_uuids w)) w) = (Ok T, w') ∧
    running t (w_uuids w) (w_broker w) w' T ∧ step_row t (w_uuids w) n T.
Proof.
  intros TB Hp Hc. unfold create_step_task, insert_task. cbn [tk_space new_task_row set_tk_payload
    set_tk_payload_data set_tk_source_code].
  set (w1 := set_w_uuids _ w).
  assert (cur w1 = Some t) as Hw by (unfold cur; simpl; rewrite Hp; apply TB).
  rewrite (insert_run _ w1 t Hw). eexists _, _. split; [reflexivity|]. split.
  - split; simpl; [|apply TB|done..]. by rewrite Hp, lookup_insert_eq.
  - split; simpl; [done|done|apply (wr_id _ _ (tb_wf _ _ _ _ TB))|done|].
    exists c. by rewrite (proj2 (String.eqb_neq c "")) by done.
Qed.

(** The step runs under celery: the three handlers, then [cleanup]. *)
Lemma run_step_run fuel w σ t wf n kw T q b k : tables w σ t wf → w_uuids w = k →
  n ∈ ids → get (kwget kw "context") "space_code" = Ok (PStr code) →
  ∀ w', running t k b w' T → step_row t k n T →
  ∃ w2 t2 wf2, run_step (S fuel) (uuid4 k) [] kw w' = (Ok tt, w2) ∧
    tables w2 (Flow (f_runs σ ++ [n]) q (status_after n σ) (parked_after n σ)) t2 wf2 ∧
    w_broker w2 = b ++ next_msgs (successors es n).
Proof using SU FI CR CO.
  intros [Ht Hc Hst Hrow Hwf Hts [Hlt Hfr]] Hk Hn Hkw w' R HT. rewrite Hk in Hfr.
  destruct (before_start_run t wf σ k b n kw Hrow Hwf Hlt Hfr Hkw w' T R HT)
    as (T1 & w1 & Hb & Hp1 & R1 & HT1 & Hs1).
  destruct (step_run t wf σ k b n kw Hrow Hwf Hkw w1 T1 R1 Hp1 HT1) as (v & w2 & He & R2 & Hv).
  destruct (success_run t wf σ k b n kw q Hst Hrow Hwf Hlt Hfr Hkw Hn Hts w2 T1 v fuel R2 HT1 Hs1 Hv)
    as (w3 & t3 & wf3 & Hs & TB3 & Hb3).
  exists (set_w_path "public" w3), t3, wf3. split_and!; [|by apply tables_path|done].
  unfold run_step. by eapply apply_success.
Qed.

Lemma execute_node_run fuel w σ t wf n v q : tables w σ t wf → w_path w = s →
  n ∈ ids → dict_get nodes n = Some v →
  ∃ w2 t2 wf2, execute_node (S fuel) wf n v (PList cs) w = (Ok tt, w2) ∧
    tables w2 (Flow (f_runs σ ++ [n]) q (status_after n σ) (parked_after n σ)) t2 wf2 ∧
    w_broker w2 = w_broker w ++ next_msgs (successors es n).
Proof using SU FI CR CO.
  intros TB Hp Hn Hv. pose proof (su_nodes SU _ _ Hv) as Hc. pose proof (tb_wf _ _ _ _ TB) as Hwf.
  assert (cur w = Some t) as Hw by (unfold cur; rewrite Hp; apply TB).
  pose proof (tb_tasks _ _ _ _ TB) as Hts. unfold execute_node.
  rewrite (bind_ok _ _ w (PStr "source_code") w) by (unfold lift; by rewrite (cn_type _ Hc)).
  rewrite (bind_ok _ _ w (PStr "custom_code") w) by done.
  destruct (source_task_run w t wf σ n "in" v Hw (wr_id _ _ Hwf) Hts Hc) as (prev & Hprev & Hpr).
  rewrite (bind_ok _ _ _ _ _ Hprev).
  assert (∃ r, (match prev with Some t => tk_result t | None => Ok PNone end) = Ok r) as [out Hout].
  { destruct prev; eauto. }
  rewrite (bind_ok _ _ w out w) by (unfold lift; by rewrite Hout).
  destruct (source_task_run w t wf σ n "payload_input" v Hw (wr_id _ _ Hwf) Hts Hc)
    as (gen & Hgen & Hgr). rewrite (bind_ok _ _ _ _ _ Hgen).
  assert (∃ r, (match gen with Some t => tk_result t | None => Ok (wf_payload wf) end) = Ok r)
    as [payload Hpay] by (destruct gen; eauto).
  rewrite (bind_ok _ _ w payload w) by (unfold lift; by rewrite Hpay).
  rewrite (bind_ok _ _ w (uuid4 (w_uuids w)) (set_w_uuids (S (w_uuids w)) w)) by done.
  rewrite (wr_space _ _ Hwf).
  rewrite (bind_ok _ _ _ sp (set_w_uuids (S (w_uuids w)) w))
    by (eapply get_space_run; [exact Hw|apply (tb_static _ _ _ _ TB)]).
  cbn zeta. change (char_field (PStr "custom_code")) with (Some "custom_code").
  destruct (cn_source _ Hc) as (src & Hsrc & Hne).
  rewrite (bind_ok _ _ _ (Some src) (set_w_uuids (S (w_uuids w)) w))
    by (unfold lift, node_source_code; simpl py_eqb; simpl orb; cbn iota; by rewrite Hsrc).
  destruct (create_run w σ t wf n payload src TB Hp Hne) as (T & w' & Hcr & R & HT).
  rewrite (bind_ok _ _ _ _ _ Hcr).
  by eapply run_step_run.
Qed.

(** ** The delivery of a node *)

(** The queue the delivery of [n] leaves behind [q] *)
Definition added (σ : flow) (n : string) : list string :=
  if bool_decide (f_status σ = WWait) then []
  else if ready es (f_runs σ) n then successors es n else [].

Lemma tables_queue w σ t wf q : tables w σ t wf →
  tables w (Flow (f_runs σ) q (f_status σ) (f_parked σ)) t wf.
Proof. intros [? ? ? ? [] ? ?]. by split. Qed.

Lemma process_node_run fuel w σ t wf n q : tables w σ t wf → w_path w = s → n ∈ ids →
  ∃ w2 t2 wf2, process_node (S fuel) n wfid (PDict nodes) (PList cs) w = (Ok tt, w2) ∧
    tables w2 (exec es σ q n) t2 wf2 ∧ w_broker w2 = w_broker w ++ next_msgs (added σ n).
Proof using SU FI CR CO.
  intros TB Hp Hn. pose proof (tb_wf _ _ _ _ TB) as Hwf.
  assert (cur w = Some t) as Hw by (unfold cur; rewrite Hp; apply TB).
  pose proof Hn as Hk. rewrite <- (su_keys SU) in Hk. apply dict_keys_get in Hk as [v Hv].
  pose proof (get_workflow_run wf w t Hw (tb_row _ _ _ _ TB)) as Hget.
  rewrite (wr_id _ _ Hwf) in Hget.
  unfold process_node. rewrite (bind_ok _ _ _ _ _ Hget).
  rewrite (bind_ok _ _ w v w) by (unfold lift; simpl; by rewrite Hv).
  unfold exec, added. rewrite (wr_status _ _ Hwf). case_bool_decide as Hwait.
  - destruct (save_workflow_run w σ (Flow (f_runs σ) q WWait (Some n)) t wf
      (set_wf_current_node_id (Some n) wf) TB Hp) as (t' & w' & Hs & TB' & _ & Hb).
    { destruct Hwf. split; try done. simpl. congruence. } { done. }
    rewrite (bind_ok _ _ _ _ _ Hs). do 3 eexists. split; [reflexivity|]. split; [exact TB'|].
    simpl. by rewrite app_nil_r.
  - rewrite (bind_ok _ _ _ _ _ (inputs_ready_run w t wf σ n Hw (wr_id _ _ Hwf) (tb_tasks _ _ _ _ TB))).
    destruct (ready es (f_runs σ) n).
    + destruct (execute_node_run fuel w σ t wf n v (q ++ successors es n) TB Hp Hn Hv)
        as (w2 & t2 & wf2 & Hr & TB2 & Hb2). eauto 10.
    + do 3 eexists. split; [reflexivity|]. split; [by apply tables_queue|].
      simpl. by rewrite app_nil_r.
Qed.

Lemma node_msg_message context n : get context "space_code" = Ok (PStr code) →
  node_message n (node_msg context n).
Proof. intros Hc. by split. Qed.
Lemma run_message_run fuel w σ t wf n q m task_id :
  tables w σ t wf → n ∈ ids → node_message n m →
  ∃ w2 t2 wf2, run_message (S fuel) task_id m w = (Ok tt, w2) ∧
    tables w2 (exec es σ q n) t2 wf2 ∧ w_broker w2 = w_broker w ++ next_msgs (added σ n).
Proof using SU FI CR CO.
  intros TB Hn [Htask Hnode Hwid Hnodes Hconns Hc].
  destruct (process_node_run fuel (set_w_path s w) σ t wf n q (tables_path _ _ _ _ s TB) eq_refl Hn)
    as (w2 & t2 & wf2 & Hr & TB2 & Hb2).
  exists (set_w_path "public" w2), t2, wf2. split_and!; [|by apply tables_path|done].
  unfold run_message. rewrite Htask.
  assert (task_body (S fuel) m w = (Ok tt, w2)) as Hbody; [|
    simpl; by rewrite (bind_ok _ _ _ _ _ (try_ok _ _ _ _ _ Hbody))].
  rewrite task_body_node by done. unfold kwstr, kwint.
  rewrite (bind_ok _ _ w n w) by (unfold lift; by rewrite Hnode).
  rewrite (bind_ok _ _ w wfid w) by (unfold lift; by rewrite Hwid).
  unfold process_next_node. rewrite Hnodes, Hconns.
  rewrite (bind_ok _ _ _ _ _ (enter _ w Hc (tb_catalog _ _ _ _ TB))).
  by apply try_ok.
Qed.

Lemma exec_queue σ q n : f_queue (exec es σ q n) = q ++ added σ n.
Proof.
  unfold exec, added. case_bool_decide; simpl; [by rewrite app_nil_r|].
  destruct (ready _ _ _); simpl; [done|by rewrite app_nil_r].
Qed.
Lemma tables_broker w σ t wf b : tables w σ t wf → tables (set_w_broker b w) σ t wf.
Proof. intros [? ? ? ? ? ? []]. split; [done..|by split]. Qed.
Lemma added_delivers σ n : Forall2 delivers (added σ n) (next_msgs (added σ n)).
Proof using SU.
  unfold added. case_bool_decide; [constructor|]. destruct (ready _ _ _); [|constructor].
  pose proof (successors_ids n) as Hs. induction Hs as [|m l Hm Hl IH]; [constructor|].
  rewrite fmap_cons. constructor; [|done]. split; [done|].
  eexists. split; [|done]. by apply node_msg_message.
Qed.

(** The simulation: a delivery is a step of the abstract engine. *)
Lemma rep_deliver fuel w w' σ : rep w σ → deliver (S fuel) w w' →
  ∃ σ', fstep es σ σ' ∧ rep w' σ'.
Proof using SU FI CR CO.
  intros [(t & wf & TB) Hq] Hd.
  inversion Hd as [? l1 o m l2 task_id Hb _|? c m task_id Hc Hns _]; subst.
  2:{ apply list_elem_of_lookup in Hc as [j Hc].
      destruct (Forall2_lookup_r _ _ _ _ _ Hq Hc) as (n & _ & _ & ? & _ & ->). done. }
  rewrite Hb in Hq. apply Forall2_app_inv_r in Hq as (q1 & qr & Hq1 & Hqr & Hq).
  apply Forall2_cons_inv_r in Hqr as (n & q2 & [Hn (m' & Hm & [= -> ->])] & Hq2 & ->).
  destruct (run_message_run fuel (set_w_broker (l1 ++ l2) w) σ t wf n (q1 ++ q2) m' task_id
    (tables_broker _ _ _ _ _ TB) Hn Hm) as (w2 & t2 & wf2 & -> & TB2 & Hb2).
  exists (exec es σ (q1 ++ q2) n). split; [by constructor|]. split; [by exists t2, wf2|].
  simpl. rewrite Hb2, exec_queue. apply Forall2_app; [by apply Forall2_app|]. apply added_delivers.
Qed.

(** ** The start of a workflow *)

(** [execute_workflow_v2] delivers the roots. *)
Lemma publish_starts ms context w : get context "space_code" = Ok (PStr code) →
  for_each ms (λ m, publish_next_node (PStr m) wfid nodes adj context (PList cs)) w
  = (Ok tt, set_w_broker (w_broker w ++ ((λ m, Sig None (node_msg context m)) <$> ms)) w).
Proof.
  intros Hc. revert w. induction ms as [|m ms IH]; intros w.
  - simpl. rewrite app_nil_r. by destruct w.
  - cbn [for_each]. rewrite (bind_ok _ _ w tt (set_w_broker (w_broker w ++ [Sig None (node_msg context m)]) w)) by done.
    rewrite IH, fmap_cons. simpl. by rewrite <- app_assoc.
Qed.
Lemma execute_v2_run w t wf st kw : tables w (Flow [] [] st None) t wf → ids ≠ [] →
  get (kwget kw "context") "space_code" = Ok (PStr code) → w_broker w = [] →
  ∃ w', execute_workflow_v2 wfid kw w = (Ok tt, w') ∧ rep w' (initial ids es).
Proof using SU.
  intros TB Hne Hc Hb. pose proof (tb_wf _ _ _ _ TB) as Hwf. unfold execute_workflow_v2.
  rewrite (bind_ok _ _ _ _ _ (enter _ w Hc (tb_catalog _ _ _ _ TB))).
  apply (tables_path _ _ _ _ s) in TB. set (w1 := set_w_path s w) in *.
  assert (cur w1 = Some t) as Hw by apply TB.
  pose proof (get_workflow_run wf w1 t Hw (tb_row _ _ _ _ TB)) as Hget.
  rewrite (wr_id _ _ Hwf) in Hget. rewrite (bind_ok _ _ _ _ _ Hget).
  destruct (save_workflow_run w1 _ (Flow [] [] WProgress None) t wf (set_wf_status_ WProgress wf)
    TB eq_refl) as (t' & w2 & Hs & TB2 & Hp2 & Hb2); [destruct Hwf; by split|done|].
  rewrite (bind_ok _ _ _ _ _ Hs). simpl. rewrite (wr_template _ _ Hwf).
  assert (cur w2 = Some t') as Hw2 by (unfold cur; rewrite Hp2; apply TB2).
  rewrite (bind_ok _ _ w2 (Some wt) w2) by (unfold fetch_fk; by rewrite
    (bind_ok _ _ _ _ _ (get_template_run wt w2 t' Hw2 (st_template _ (tb_static _ _ _ _ TB2))))).
  rewrite (bind_ok _ _ w2 wt w2) by done.
  rewrite (bind_ok _ _ w2 (nodes, PList cs, adj) w2) by (unfold lift; by rewrite (su_read SU)).
  assert (start_nodes nodes (PList cs) = Ok (roots ids es)) as Hst.
  { unfold start_nodes. rewrite (su_keys SU). cbn [py_iter mbind res_bind].
    rewrite (keep_roots_spec cs es (su_conns SU)).
    assert (nodes ≠ []) as Hnn by (intros E; apply Hne; by rewrite <- (su_keys SU), E).
    revert Hnn. generalize nodes. by intros [|]. }
  rewrite (bind_ok _ _ w2 (roots ids es) w2) by (unfold lift; by rewrite Hst).
  rewrite publish_starts by done. eexists. split; [reflexivity|]. split.
  - exists t'. eexists. apply tables_broker. apply (tables_queue _ _ _ _ (roots ids es) TB2).
  - simpl. rewrite Hb2. simpl in *. rewrite Hb. simpl. clear Hst.
    assert (∀ m, m ∈ roots ids es → m ∈ ids) as Hr
      by (intros m Hm; by apply list_elem_of_filter in Hm as [_ Hm]).
    induction (roots ids es) as [|m l IH]; [constructor|]. rewrite fmap_cons. constructor.
    + split; [apply Hr; left|]. eexists. split; [|done]. by apply node_msg_message.
    + apply IH. intros x Hx. apply Hr. by right.
Qed.
End Refine.

(** ** Whole workflows *)

Section Whole.
Context `{Platform} {FI : FreshIds} `{Manager} `{UserCode} {CR : CodeReturns}
  `{Celery} {CO : CeleryOk}.
Context (s : string) (sp : space_row) (owner : user_row) (wt : template_row) (wfid : Z)
  (ids : list string) (es : list edge).

(** A template document that describes a graph of source-code nodes *)
Record code_doc : Prop := {
  cd_describes : describes (wt_data wt) ids es;
  cd_nodes : ∀ ns, getpath (wt_data wt) ["workflow"; "nodes"] = Ok (PList ns) → Forall code_node ns;
  cd_targets : ∀ e, e ∈ es → e_target e ∈ ids;
  cd_some : ids ≠ []
}.

Lemma zip_lookup (ks : list string) (ns : list pyval) i v :
  dict_get (zip ks ns) i = Some v → v ∈ ns.
Proof.
  revert ns. induction ks as [|k ks IH]; intros [|n ns] Hv; try done. simpl in Hv.
  destruct (decide _); [injection Hv as ->; left|right; by apply IH].
Qed.
Lemma doc_setup : code_doc → lower (sp_space_code sp) = s → sp_space_code sp ≠ "" →
  ∃ nodes cs, setup s sp wt ids es nodes cs.
Proof.
  intros [[(ns & Hns & Hids) (cs & Hc & Hcs) Hnd Hsrc] Hcode Ht Hne] Hs Hn.
  exists (zip ids ns), cs. pose proof (Forall2_length _ _ _ Hids) as Hlen.
  split; [done|done| |by apply zip_keys|done| |].
  - unfold read_template. rewrite (parse_nodes_spec _ ns ids) by done.
    unfold get_connections. rewrite Hc. cbn [mbind res_bind]. unfold adjacency.
    cbn [py_iter mbind res_bind]. rewrite zip_keys by done.
    by rewrite (fold_add_connection cs es Hcs ids (λ _, [])).
  - by apply Forall_forall.
  - intros i v Hv%zip_lookup. by apply (proj1 (Forall_forall _ _) (Hcode ns Hns)).
Qed.

(** A workflow created and not started: no task, the start message waiting *)
Definition v2_message (context : pyval) : message :=
  Msg "workflow.tasks.workflows.execute_workflow_v2" []
    [("workflow_id", PInt wfid); ("context", context)] (PStr "workflow").
Record launchable (w : world) : Prop := {
  la_tables : ∃ t wf, tables s sp owner wt wfid w (Flow [] [] WInit None) t wf;
  la_broker : ∃ o context, w_broker w = [Sig o (v2_message context)] ∧
                get context "space_code" = Ok (PStr (sp_space_code sp))
}.

(** The start message sets up the initial state. *)
Lemma launch_deliver nodes cs fuel w w1 : setup s sp wt ids es nodes cs → ids ≠ [] →
  launchable w → deliver fuel w w1 → rep s sp owner wt wfid ids nodes cs w1 (initial ids es).
Proof using FI CR CO.
  intros SU Hne [(t & wf & TB) (o & context & Hb & Hc)] Hd.
  inversion Hd as [? l1 o' m l2 task_id Hb' _|? c m task_id Hin Hns _]; subst.
  2:{ rewrite Hb in Hin. by apply list_elem_of_singleton in Hin as ->. }
  rewrite Hb in Hb'.
  destruct l1 as [|? [|]]; simplify_eq/=.
  destruct (execute_v2_run s sp owner wt wfid ids es nodes cs SU (set_w_broker [] w) t wf WInit
    [("workflow_id", PInt wfid); ("context", context)]) as (w' & Hr & [(t' & wf' & TB') Hq]);
    [by apply tables_broker|done..|].
  assert (task_body fuel (v2_message context) (set_w_broker [] w) = (Ok tt, w')) as Hbody by apply Hr.
  unfold run_message. simpl. rewrite (bind_ok _ _ _ _ _ (try_ok _ _ _ _ _ Hbody)). simpl.
  split; [|done]. exists t', wf'. by apply tables_path.
Qed.
Lemma rep_run nodes cs fuel k w σ w' : setup s sp wt ids es nodes cs → forest ids es →
  rep s sp owner wt wfid ids nodes cs w σ → inv ids es σ →
  nsteps (deliver (S fuel)) k w w' →
  ∃ σ', rep s sp owner wt wfid ids nodes cs w' σ' ∧ inv ids es σ' ∧
        length (f_runs σ') = (k + length (f_runs σ))%nat.
Proof using FI CR CO.
  intros SU F R I Hn. revert σ R I. induction Hn as [w|k w1 w2 w3 Hd Hn IH]; intros σ R I; [eauto|].
  destruct (rep_deliver s sp owner wt wfid ids es nodes cs SU fuel w1 w2 σ R Hd) as (σ2 & Hs & R2).
  destruct (IH σ2 R2) as (σ3 & R3 & I3 & Hlen); [by eapply inv_fstep|].
  exists σ3. split_and!; [done..|]. rewrite Hlen, (fstep_runs _ _ _ _ I Hs). lia.
Qed.

(** C1: a version 2 workflow whose graph is a forest of source-code nodes runs
    to its end, in whatever order the workers take the messages: after the
    start message there are never more deliveries than nodes, there is nothing
    left to deliver exactly when there were as many deliveries as nodes, and
    then every node has exactly one task, which succeeded, and the workflow is
    in status SUCCESS. *)
Theorem forest_workflow_completes fuel k w0 w1 w : code_doc → forest ids es →
  lower (sp_space_code sp) = s → sp_space_code sp ≠ "" → launchable w0 →
  deliver (S fuel) w0 w1 → nsteps (deliver (S fuel)) k w1 w →
  (k ≤ length ids)%nat ∧ (w_broker w = [] ↔ k = length ids) ∧
  (w_broker w = [] → ∃ t wf, w_tenants w !! s = Some t ∧ the_row wf (rows (t_workflows t)) ∧
     wf_id wf = wfid ∧ wf_status_ wf = WSuccess ∧
     (tk_node_id <$> own_tasks wfid t) ≡ₚ (Some <$> ids) ∧
     Forall (λ x, tk_status x = TSuccess) (own_tasks wfid t)).
Proof using FI CR CO.
  intros D F Hs Hne L Hd Hn. destruct (doc_setup D Hs Hne) as (nodes & cs & SU).
  pose proof (launch_deliver nodes cs _ _ _ SU (cd_some D) L Hd) as R1.
  destruct (rep_run nodes cs fuel k w1 _ w SU F R1 (inv_initial _ _ F) Hn)
    as (σ & [(t & wf & TB) Hq] & I & Hk). simpl in Hk. rewrite Nat.add_0_r in Hk.
  pose proof (inv_bound _ _ _ I) as Hbd. pose proof (Forall2_length _ _ _ Hq) as Hlq.
  assert (w_broker w = [] ↔ f_queue σ = []) as Hbq by (rewrite <- !length_zero_iff_nil; lia).
  split_and!; [lia| |].
  - rewrite Hbq. split; intros Hq0.
    + rewrite <- Hk. apply Permutation_length, (inv_complete _ _ _ F I Hq0).
    + apply length_zero_iff_nil. lia.
  - intros Hq0%Hbq. exists t, wf. pose proof (inv_complete _ _ _ F I Hq0) as Hp.
    pose proof (tb_wf _ _ _ _ _ _ _ _ _ TB) as Hwf.
    pose proof (tb_tasks _ _ _ _ _ _ _ _ _ TB) as Hts.
    split_and!; [apply TB|apply TB|apply Hwf| | |].
    + rewrite (wr_status _ _ _ _ _ _ Hwf).
      destruct (i_done _ _ _ I Hq0) as [E|]; [|done]. rewrite E in Hp.
      by apply Permutation_nil_l in Hp; destruct (cd_some D).
    + assert (tk_node_id <$> own_tasks wfid t = Some <$> f_runs σ) as ->; [|by rewrite Hp].
      clear -Hts. induction Hts as [|x n l rs [Hx _] _ IH]; [done|].
      rewrite !fmap_cons. by rewrite Hx, IH.
    + apply Forall_forall. intros x Hx. apply list_elem_of_lookup in Hx as [i Hi].
      by destruct (Forall2_lookup_l _ _ _ _ _ Hts Hi) as (n & _ & _ & ? & _).
Qed.
End Whole.

(** ** A concrete run *)

Definition tree_ids : list string := ["a"; "b"; "c"].
Definition tree_edges : list edge := [Edge "a" "out" "b" "in"; Edge "a" "out" "c" "in"].

#[export] Instance demo_fresh_ids : FreshIds.
Proof. intros i j E. injection E as E. by apply (inj pretty.pretty). Qed.
Lemma calm_returns : @CodeReturns calm_user_code.
Proof.
  split; simpl; intros; [by exists w|]. by exists demo_result, w.
Qed.
Lemma tree_forest : forest tree_ids tree_edges.
Proof.
  split.
  - apply (bool_decide_unpack _). by vm_compute.
  - apply Forall_forall, (bool_decide_unpack _). by vm_compute.
  - intros n. unfold predecessors, tree_edges. rewrite !filter_cons, filter_nil.
    repeat case_decide; simplify_eq/=; lia.
  - exists (λ n, if (n =? "a")%string then 0%nat else 1%nat).
    apply Forall_forall, (bool_decide_unpack _). by vm_compute.
Qed.
(** The documents of [demo_data] are made of source-code nodes. *)
Lemma demo_doc ids es : NoDup ids → ids ≠ [] →
  (∀ e, e ∈ es → e_source e ∈ ids ∧ e_target e ∈ ids) →
  code_doc (demo_template (demo_data ids es)) ids es.
Proof.
  intros Hnd Hne He. split; [|intros ns [= <-]|intros e Hin; by apply He|done].
  - split; [eexists; split; [reflexivity|]|eexists; split; [reflexivity|]|done|].
    + apply Forall2_fmap_l, Forall_Forall2_diag, Forall_forall. by intros.
    + apply Forall2_fmap_l, Forall_Forall2_diag, Forall_forall. by intros.
    + apply Forall_forall. intros e Hin. by apply He.
  - apply Forall_fmap, Forall_forall. intros i _. split; simpl; [done| |by eexists..].
    eexists. by split.
Qed.
Lemma demo_launchable ids es :
  launchable "space00000" demo_space demo_user (demo_template (demo_data ids es)) 1
    (launch_world ids es).
Proof.
  split; [|by exists (Some "start"), demo_context].
  exists (demo_tenant (demo_data ids es) [demo_workflow WInit] []), (demo_workflow WInit).
  split; [reflexivity| |split; reflexivity|reflexivity|split; reflexivity|constructor|].
  - apply (bool_decide_unpack _). by vm_compute.
  - split; [intros x Hx|intros x k Hx]; by apply not_elem_of_nil in Hx.
Qed.
Lemma tree_doc : code_doc (demo_template (demo_data tree_ids tree_edges)) tree_ids tree_edges.
Proof.
  apply demo_doc; [|done|apply Forall_forall]; apply (bool_decide_unpack _); by vm_compute.
Qed.

(** The fork runs to its end in three deliveries. *)
Lemma forest_workflow_completes_witness :
  let fuel := 3%nat in
  let mgr := demo_manager PNone in
  let w0 := launch_world tree_ids tree_edges in
  let w1 := @fifo_step _ mgr calm_user_code demo_celery (S fuel) w0 in
  let w := @fifo _ mgr calm_user_code demo_celery (S fuel) 3 w1 in
  w_broker w = [] ∧
  ∃ t wf, w_tenants w !! "space00000" = Some t ∧ the_row wf (rows (t_workflows t)) ∧
    wf_id wf = 1 ∧ wf_status_ wf = WSuccess ∧
    (tk_node_id <$> own_tasks 1 t) ≡ₚ (Some <$> tree_ids) ∧
    Forall (λ x, tk_status x = TSuccess) (own_tasks 1 t).
Proof.
  intros fuel mgr w0 w1 w.
  assert (w_broker w = []) as Hb by (vm_compute; reflexivity). split; [exact Hb|].
  refine (proj2 (proj2 (@forest_workflow_completes _ _ mgr calm_user_code calm_returns
    demo_celery eager_celery_ok "space00000" demo_space demo_user
    (demo_template (demo_data tree_ids tree_edges)) 1 tree_ids tree_edges fuel 3 w0 w1 w
    tree_doc tree_forest _ _ (demo_launchable _ _) _ _)) Hb).
  - reflexivity.
  - discriminate.
  - exact (@fifo_step_deliver _ mgr calm_user_code demo_celery (S fuel) w0 eq_refl).
  - refine (@fifo_nsteps _ mgr calm_user_code demo_celery (S fuel) 3 w1 _).
    vm_compute. reflexivity.
Defined.
