(* ===== verification/Spawning.v ===== *)
(** * Nodes that are workflows (workflow/tasks/workflows.py)

    A node of a graph may name a workflow of version 2.  When the node is delivered
    and its inputs are ready, its step starts that workflow as a child and stays in
    progress; Nested.v shows what the end of the child does.  Here is the start. *)
From Stdlib Require Import Ascii String.
From stdpp Require Import base list strings numbers gmap sets.
From S2P Require Import Prelude PyStr PyVal Json World Demo Graph Finmars Models Manager Builder Launch Tasks Engine.
From S2P Require Import Fixture Refine.
Local Open Scope string_scope.
Local Open Scope Z_scope.
Local Open Scope list_scope.

(** ** One row more *)

Definition with_child (t : tenant) (child : workflow_row) : tenant :=
  set_t_workflows (Table (rows (t_workflows t) ++ [child]) (next_id (t_workflows t) + 1)) t.

Lemma insert_last (T : task_row) w t : cur w = Some t → tk_space T ≠ None →
  insert_task T w = (let T' := set_tk_created_at (w_clock w) (set_tk_modified_at (w_clock w) (set_tk_id (next_id (t_tasks t)) T)) in
    (Ok T', with_tenant (with_task t T') (tick w))).
Proof. intros Hw Hs. unfold insert_task. destruct (tk_space T); [|done]. by rewrite (insert_run T w t Hw). Qed.
Lemma save_last (T T' : task_row) w t : cur w = Some (with_task t T) → tk_id T' = tk_id T →
  (∀ x, x ∈ rows (t_tasks t) → tk_id x ≠ tk_id T) →
  save_row T' w = (Ok (set_tk_modified_at (w_clock w) T'),
    with_tenant (with_task t (set_tk_modified_at (w_clock w) T')) (tick w)).
Proof.
  intros Hw Hid Hx. assert (write_row (set_tk_modified_at (w_clock w) T') (rows (t_tasks t) ++ [T])
    = rows (t_tasks t) ++ [set_tk_modified_at (w_clock w) T']) as E by (apply write_row_last; cbn; by rewrite Hid).
  rewrite (save_run T' w _ Hw). unfold with_task, set_t_tasks. cbn. by rewrite E.
Qed.
Lemma get_last (T : task_row) c w t : cur w = Some (with_task t T) → tk_celery_task_id T = Some c →
  (∀ x, x ∈ rows (t_tasks t) → tk_celery_task_id x ≠ Some c) → get_task_by_celery_id (Some c) w = (Ok T, w).
Proof.
  intros Hw HT Hf. eapply get_run; [exact Hw|]. cbn. rewrite List.filter_app. cbn. rewrite HT, bool_decide_eq_true_2 by done.
  assert (List.filter (λ x, bool_decide (tk_celery_task_id x = Some c)) (rows (t_tasks t)) = []) as ->; [|done].
  clear Hw. induction (rows (t_tasks t)) as [|x l IH]; [done|]. cbn. rewrite bool_decide_eq_false_2 by (apply Hf; left).
  apply IH. intros y Hy. apply Hf. by right.
Qed.

Section Spawning.
Context `{Platform} `{Manager} `{UserCode} `{CeleryOk}.
Context (sp : space_row) (wf : workflow_row) (wt : template_row) (n target : string)
  (node nodes connections config payload : pyval) (kw : list (string * pyval)).
Abbreviation s := (lower (sp_space_code sp)).

Lemma enter_run context w : get context "space_code" = Ok (PStr (sp_space_code sp)) → sp_space_code sp ≠ "" →
  sp_space_code sp ∈ w_catalog w → set_schema_from_context context w = (Ok tt, set_w_path s w).
Proof using.
  intros Hc Hne Hw. unfold set_schema_from_context.
  assert (truthy context = true) as -> by (by destruct context as [| | | | |[|]]).
  assert (truthy (PStr (sp_space_code sp)) = true) as Ht by (by apply negb_true_iff, String.eqb_neq).
  unfold mbind, ST_bind, lift. rewrite Hc, Ht. cbn. by rewrite bool_decide_eq_true_2.
Qed.

(** A node that names a workflow of version 2, ready to run, in the tenant of the
    workflow: the message names the schema; the node is of another type than
    source code and condition; the tasks it is wired to succeeded, and what it takes
    from them can be read; the manager knows the workflow, and has its template. *)
Record ready_to_spawn (w : world) (t : tenant) : Prop := {
  rs_context : get (kwget kw "context") "space_code" = Ok (PStr (sp_space_code sp));
  rs_connections : kwget kw "connections" = connections;
  rs_code : sp_space_code sp ≠ "";
  rs_catalog : sp_space_code sp ∈ w_catalog w;
  rs_tenant : w_tenants w !! s = Some t;
  rs_space : the_row sp (rows (t_spaces t));
  rs_workflow : the_row wf (rows (t_workflows t));
  rs_own_space : wf_space wf = sp_id sp;
  rs_running : wf_status_ wf ≠ WWait;
  rs_template : List.filter (λ wt, bool_decide (wt_user_code wt = Some target) && (wt_space wt =? sp_id sp))
                  (rows (t_templates t)) = [wt];
  rs_node : getitem nodes n = Ok node;
  rs_type : ∃ ty, node_type node = Ok (PStr ty) ∧ ty ≠ "source_code" ∧ ty ≠ "condition";
  rs_target : getpath node ["data"; "workflow"; "user_code"] = Ok (PStr target) ∧ strip_task target = target;
  rs_inputs : ∃ l, input_nodes n connections = Ok (PStr <$> l) ∧
    ∀ p, p ∈ l → ∃ x, tasks_at wf p t = [x] ∧ tk_status x = TSuccess;
  rs_previous : ∃ prev v, source_task wf n "in" node connections (set_w_path s w) = (Ok prev, set_w_path s w) ∧
    match prev with Some x => tk_result x | None => Ok PNone end = Ok v;
  rs_payload : ∃ gen, source_task wf n "payload_input" node connections (set_w_path s w) = (Ok gen, set_w_path s w) ∧
    match gen with Some x => tk_result x | None => Ok (wf_payload wf) end = Ok payload;
  rs_known w1 : w_path w1 = s → ∃ w2, get_by_user_code (target_user_code (PStr (sp_space_code sp)) target) true w1
    = (Ok config, w2) ∧ same_db w1 w2;
  rs_version : (v ← get_default config "version" (PInt 1); py_int v) = Ok 2;
  rs_ids x : x ∈ rows (t_tasks t) → tk_id x < next_id (t_tasks t);
  rs_fresh x : x ∈ rows (t_tasks t) → tk_celery_task_id x ≠ Some (uuid4 (w_uuids w));
  rs_wf_ids x : x ∈ rows (t_workflows t) → wf_id x < next_id (t_workflows t)
}.

(** The child: of the same owner and space, from the template of the node, waiting
    for its start, with the node it answers to *)
Record is_child (t : tenant) (child : workflow_row) : Prop := {
  ch_id : wf_id child = next_id (t_workflows t);
  ch_parent : wf_parent child = Some (wf_id wf);
  ch_node : wf_node_id child = Some n;
  ch_template : wf_template child = Some (wt_id wt);
  ch_status : wf_status_ child = WInit;
  ch_owner : wf_owner child = wf_owner wf;
  ch_space : wf_space child = wf_space wf;
  ch_payload : wf_payload_data child = if truthy payload then Some (dumps true None payload) else None
}.
(** The task of the node, waiting for the child *)
Record waits (t : tenant) (w : world) (T : task_row) : Prop := {
  wa_id : tk_id T = next_id (t_tasks t);
  wa_celery : tk_celery_task_id T = Some (uuid4 (w_uuids w));
  wa_workflow : tk_workflow T = wf_id wf;
  wa_node : tk_node_id T = Some n;
  wa_space : tk_space T = Some (sp_id sp);
  wa_source : tk_source_code T = None;
  wa_name : tk_name T = Some target
}.
Definition start_message (child : workflow_row) : canvas :=
  Sig None (Msg "workflow.tasks.workflows.execute_workflow_v2" []
    [("workflow_id", PInt (wf_id child));
     ("context", PDict [("space_code", PStr (sp_space_code sp)); ("realm_code", opt_str (sp_realm_code sp))])]
    (PStr "workflow")).

Section Steps.
Context (w : world) (t : tenant) (RS : ready_to_spawn w t).

Lemma waits_modified w1 T c : waits t w1 T → waits t w1 (set_tk_modified_at c T).
Proof using. by intros []. Qed.
Lemma wait_ids T x : waits t w T → x ∈ rows (t_tasks t) → tk_id x ≠ tk_id T.
Proof using RS. intros HT Hx%(rs_ids _ _ RS). rewrite (wa_id _ _ _ HT). lia. Qed.

(** [before_start], with the row of the step the last *)
Lemma before_run T w1 skw : cur (set_w_path s w1) = Some (with_task t T) → w_catalog w1 = w_catalog w → waits t w T →
  get (kwget skw "context") "space_code" = Ok (PStr (sp_space_code sp)) →
  ∃ T', before_start (Some (uuid4 (w_uuids w))) skw w1
      = (Ok T', with_tenant (with_task t T') (tick (set_w_path s w1))) ∧ waits t w T' ∧ tk_status T' = TProgress.
Proof using RS.
  intros Hw Hc HT Hk. unfold before_start.
  rewrite (bind_ok _ _ _ _ _ (enter_run _ w1 Hk (rs_code _ _ RS) ltac:(rewrite Hc; apply (rs_catalog _ _ RS)))).
  rewrite (bind_ok _ _ _ _ _ (get_last T _ _ t Hw (wa_celery _ _ _ HT) (rs_fresh _ _ RS))).
  rewrite (bind_ok _ _ _ _ _ (save_last T (set_tk_worker_name (Some hostname) (set_tk_status TProgress T)) _ t Hw eq_refl (λ x, wait_ids T x HT))).
  set (T1 := set_tk_modified_at _ _). set (w2 := with_tenant _ _).
  assert (cur w2 = Some (with_task t T1)) as Hw2 by apply cur_with_tenant.
  assert (waits t w T1) as HT1 by (by destruct HT).
  rewrite (bind_ok _ _ w2 wf w2); [by exists T1|]. rewrite (wa_workflow _ _ _ HT1).
  apply (get_workflow_run wf w2 (with_task t T1) Hw2). apply (rs_workflow _ _ RS).
Qed.

(** The body of the step: the child is created, started, and waited for. *)
Lemma body_run T w1 skw : cur w1 = Some (with_task t T) → w_path w1 = s → w_catalog w1 = w_catalog w → waits t w T →
  kwget skw "context" = context_of sp → kwget skw "payload" = payload →
  ∃ child T' w2, execute_workflow_step [] skw T w1 = (Ok PNone, w2) ∧ is_child t child ∧ waits t w T' ∧
    tk_status T' = TNestedProgress ∧ w_path w2 = s ∧ w_catalog w2 = w_catalog w1 ∧
    w_tenants w2 = <[s := with_task (with_child t child) T']> (w_tenants w1) ∧
    w_broker w2 = w_broker w1 ++ [start_message child].
Proof using RS.
  intros Hw Hp Hc HT Hctx Hpay. unfold execute_workflow_step, step_body. rewrite Hctx.
  rewrite (bind_ok _ _ w1 tt (set_w_registered None w1)) by done.
  rewrite (bind_ok _ _ _ tt (set_w_registered None w1)).
  2:{ rewrite (enter_run _ (set_w_registered None w1)); [|done|apply (rs_code _ _ RS)|cbn; rewrite Hc; apply (rs_catalog _ _ RS)].
      by destruct w1; cbn in *; subst. }
  assert (cur (set_w_registered None w1) = Some (with_task t T)) as Hw0 by done.
  rewrite (wa_workflow _ _ _ HT).
  rewrite (bind_ok _ _ _ _ _ (get_workflow_run wf _ _ Hw0 (rs_workflow _ _ RS))).
  rewrite (wa_source _ _ _ HT), (wa_name _ _ _ HT). cbn [truthy_str].
  rewrite (bind_ok _ _ _ target (set_w_registered None w1)) by done. rewrite (proj2 (rs_target _ _ RS)).
  rewrite (bind_ok _ _ _ (PStr (sp_space_code sp)) (set_w_registered None w1)) by done.
  destruct (rs_known _ _ RS (set_w_registered None w1) Hp) as (w2 & Hk & [Ht2 Hp2 Hc2 Hb2 Hu2]).
  rewrite (bind_ok _ _ _ _ _ Hk), (bind_ok _ _ w2 2 w2) by (unfold lift; by rewrite (rs_version _ _ RS)).
  cbn [Z.eqb Pos.eqb]. unfold start_child.
  assert (cur w2 = Some (with_task t T)) as Hw2 by (unfold cur; by rewrite Ht2, Hp2).
  rewrite (bind_ok _ _ w2 wt w2).
  2:{ apply try_ok. unfold get_template. apply (get_run _ w2 (with_task t T)); [done|].
      rewrite (rs_own_space _ _ RS). apply (rs_template _ _ RS). }
  rewrite (wa_node _ _ _ HT), Hpay. set (row := set_wf_payload payload _).
  destruct (create_workflow_run row w2 (with_task t T) Hw2 eq_refl) as (child & w3 & t3 & Hcr & Hw3 & Ht3 & Hch & Hb3).
  rewrite (bind_ok _ _ _ _ _ Hcr).
  rewrite (bind_ok _ _ w3 (PStr (sp_space_code sp)) w3), (bind_ok _ _ w3 (opt_str (sp_realm_code sp)) w3) by done.
  assert (is_child t child) as Hchild by (by rewrite Hch).
  set (w4 := set_w_broker (w_broker w3 ++ [start_message child]) w3).
  rewrite (bind_ok _ _ w3 tt w4) by done.
  assert (cur w4 = Some (with_task (with_child t child) T)) as Hw4 by (rewrite Ht3 in Hw3; exact Hw3).
  rewrite (bind_ok _ _ _ _ _ (save_last T (set_tk_status TNestedProgress T) w4 (with_child t child) Hw4 eq_refl (λ x, wait_ids T x HT))).
  assert (create_workflow row w2 = (Ok child, w3)) as Hcr' by done. unfold create_workflow in Hcr'.
  rewrite (bind_ok _ _ _ _ _ (insert_run row w2 _ Hw2)) in Hcr'. cbn in Hcr'. injection Hcr' as _ Hw3'.
  exists child, (set_tk_modified_at (w_clock w4) (set_tk_status TNestedProgress T)). eexists. split; [reflexivity|]. split; [done|]. split; [apply waits_modified; by destruct HT|].
  split; [done|]. cbn. rewrite <- Hw3'. cbn. rewrite Hp2, Hc2, Ht2. cbn. rewrite Hp. split_and!; try done.
  - by rewrite insert_insert_eq.
  - by rewrite Hb2.
Qed.

(** The step of the node under celery *)
Lemma run_step_spawns fuel T w1 skw : cur (set_w_path s w1) = Some (with_task t T) → w_catalog w1 = w_catalog w → waits t w T →
  kwget skw "context" = context_of sp → kwget skw "payload" = payload →
  ∃ child T' w2, run_step (S fuel) (uuid4 (w_uuids w)) [] skw w1 = (Ok tt, w2) ∧ is_child t child ∧ waits t w T' ∧
    tk_status T' = TNestedProgress ∧ w_path w2 = "public" ∧
    w_tenants w2 = <[s := with_task (with_child t child) T']> (w_tenants w1) ∧
    w_broker w2 = w_broker w1 ++ [start_message child].
Proof using RS H3.
  intros Hw Hc HT Hctx Hpay.
  assert (get (kwget skw "context") "space_code" = Ok (PStr (sp_space_code sp))) as Hk by (by rewrite Hctx).
  destruct (before_run T w1 skw Hw Hc HT Hk) as (T1 & Hb & HT1 & _). set (w2 := with_tenant _ _) in Hb.
  destruct (body_run T1 w2 skw) as (child & T2 & w3 & He & Hch & HT2 & Hst & Hp3 & Hc3 & Ht3 & Hb3); [apply cur_with_tenant|done..|].
  assert (on_success (S fuel) (Some (uuid4 (w_uuids w))) skw PNone w3 = (Ok tt, w3)) as Hs.
  { unfold on_success. rewrite (bind_ok _ _ _ tt w3).
    2:{ rewrite (enter_run _ w3 Hk (rs_code _ _ RS)) by (rewrite Hc3; cbn; rewrite Hc; apply (rs_catalog _ _ RS)).
        destruct w3; cbn in *; by subst. }
    assert (cur w3 = Some (with_task (with_child t child) T2)) as Hw3 by (unfold cur; by rewrite Ht3, Hp3, lookup_insert_eq).
    rewrite (bind_ok _ _ _ _ _ (get_last T2 _ w3 (with_child t child) Hw3 (wa_celery _ _ _ HT2) (rs_fresh _ _ RS))).
    cbn [handle_task_success]. by rewrite Hst. }
  exists child, T2, (set_w_path "public" w3). split; [by eapply apply_success|]. do 4 (split; [done|]). cbn.
  rewrite Ht3, Hb3. cbn. by rewrite insert_insert_eq.
Qed.

Lemma inputs_ready : are_inputs_ready wf n connections (set_w_path s w) = (Ok true, set_w_path s w).
Proof using RS.
  destruct (rs_inputs _ _ RS) as (l & Hl & Hall). unfold are_inputs_ready.
  rewrite (bind_ok _ _ _ (PStr <$> l) (set_w_path s w)) by (unfold lift; by rewrite Hl).
  rewrite (all_ready_spec wf l (set_w_path s w) t) by apply (rs_tenant _ _ RS). do 2 f_equal.
  apply forallb_forall. intros p Hp%list_elem_of_In. destruct (Hall p Hp) as (x & Hx & Hs). unfold input_done.
  rewrite Hx. by apply bool_decide_eq_true.
Qed.
Lemma node_spawns fuel : ∃ child T w', execute_node (S fuel) wf n node connections (set_w_path s w) = (Ok tt, w') ∧
  w_tenants w' = <[s := with_task (with_child t child) T]> (w_tenants w) ∧
  w_broker w' = w_broker w ++ [start_message child] ∧
  is_child t child ∧ tk_status T = TNestedProgress ∧ waits t w T.
Proof using RS H3.
  set (w1 := set_w_path s w). unfold execute_node.
  destruct (rs_type _ _ RS) as (ty & Hty & Hns & Hnc).
  rewrite (bind_ok _ _ w1 (PStr ty) w1) by (unfold lift; by rewrite Hty).
  assert (py_eqb (PStr ty) (PStr "source_code") = false ∧ py_eqb (PStr ty) (PStr "condition") = false) as [E1 E2]
    by (split; rewrite py_eqb_str; by apply bool_decide_eq_false).
  rewrite (bind_ok _ _ w1 (PStr target) w1) by (unfold lift, workflow_user_code; rewrite E1, E2; by rewrite (proj1 (rs_target _ _ RS))).
  destruct (rs_previous _ _ RS) as (prev & v & Hprev & Hv). rewrite (bind_ok _ _ _ _ _ Hprev).
  rewrite (bind_ok _ _ w1 v w1) by (unfold lift; by rewrite Hv).
  destruct (rs_payload _ _ RS) as (gen & Hgen & Hp). rewrite (bind_ok _ _ _ _ _ Hgen).
  rewrite (bind_ok _ _ w1 payload w1) by (unfold lift; by rewrite Hp).
  set (w2 := set_w_uuids (S (w_uuids w)) w1).
  rewrite (bind_ok _ _ w1 (uuid4 (w_uuids w)) w2) by done.
  assert (cur w2 = Some t) as Hw2 by apply (rs_tenant _ _ RS).
  rewrite (rs_own_space _ _ RS), (bind_ok _ _ _ _ _ (get_space_run sp w2 t Hw2 (rs_space _ _ RS))).
  rewrite (bind_ok _ _ w2 None w2) by (unfold lift, node_source_code; by rewrite E1, E2).
  unfold create_step_task. set (T0 := set_tk_payload payload _).
  rewrite (bind_ok _ _ _ _ _ (insert_last T0 w2 t Hw2 ltac:(done))). set (T1 := set_tk_created_at _ _). set (w3 := with_tenant _ _).
  assert (waits t w T1) as HT1 by (by split).
  assert (cur (set_w_path s w3) = Some (with_task t T1)) as Hw3 by (unfold cur, w3; cbn; apply lookup_insert_eq).
  destruct (run_step_spawns fuel T1 w3 (step_kwargs wf payload sp v) Hw3 eq_refl HT1 eq_refl eq_refl)
    as (child & T & w' & E & Hch & HT & Hst & _ & Ht & Hb).
  exists child, T, w'. split; [exact E|]. rewrite Ht, Hb. unfold w3. cbn. by rewrite insert_insert_eq.
Qed.

(** C5: a node that is a workflow starts it and waits.  When the message of such a
    node is taken, and the nodes it is wired to have succeeded, one row is added to
    the tasks, for the node, in progress of a nested workflow; one row to the
    workflows, the child: of the template the node names and of the owner and space
    of its parent, in status INIT, with the payload for the node, and with the node
    and the workflow it answers to; and one message is sent, which starts the child.
    Nothing else is written, and where the node had no task yet the new one is the
    one task the end of the child will look for. *)
Theorem nested_node_starts fuel :
  ∃ child T w', process_next_node (S fuel) n (wf_id wf) nodes kw w = (Ok tt, w') ∧
    w_tenants w' = <[s := with_task (with_child t child) T]> (w_tenants w) ∧
    w_broker w' = w_broker w ++ [start_message child] ∧
    is_child t child ∧ tk_status T = TNestedProgress ∧ waits t w T ∧
    (tasks_at wf n t = [] → List.filter (λ x, (tk_workflow x =? wf_id wf) && bool_decide (tk_node_id x = wf_node_id child)
       && bool_decide (tk_space x = Some (sp_id sp))) (rows (t_tasks t) ++ [T]) = [T]).
Proof using RS H3.
  set (w1 := set_w_path s w). assert (cur w1 = Some t) as Hw1 by apply (rs_tenant _ _ RS).
  assert (∃ child T w', process_node (S fuel) n (wf_id wf) nodes connections w1 = (Ok tt, w') ∧
    w_tenants w' = <[s := with_task (with_child t child) T]> (w_tenants w) ∧
    w_broker w' = w_broker w ++ [start_message child] ∧
    is_child t child ∧ tk_status T = TNestedProgress ∧ waits t w T) as (child & T & w' & E & Ht & Hb & Hch & Hst & HT).
  { unfold process_node. rewrite (bind_ok _ _ _ _ _ (get_workflow_run wf w1 t Hw1 (rs_workflow _ _ RS))).
    rewrite (bind_ok _ _ w1 node w1) by (unfold lift; by rewrite (rs_node _ _ RS)).
    rewrite bool_decide_eq_false_2 by apply (rs_running _ _ RS).
    rewrite (bind_ok _ _ w1 true w1); [|by apply inputs_ready].
    by apply node_spawns. }
  exists child, T, w'. split_and!; try done.
  - unfold process_next_node. rewrite (rs_connections _ _ RS).
    rewrite (bind_ok _ _ _ _ _ (enter_run _ w (rs_context _ _ RS) (rs_code _ _ RS) (rs_catalog _ _ RS))). by apply try_ok.
  - intros Hno. rewrite List.filter_app, (ch_node _ _ Hch). cbn.
    rewrite (wa_workflow _ _ _ HT), (wa_node _ _ _ HT), (wa_space _ _ _ HT), Z.eqb_refl, !bool_decide_eq_true_2 by done. cbn.
    assert (List.filter (λ x, (tk_workflow x =? wf_id wf) && bool_decide (tk_node_id x = Some n)
      && bool_decide (tk_space x = Some (sp_id sp))) (rows (t_tasks t)) = []) as ->; [|done].
    unfold tasks_at in Hno. revert Hno. clear. induction (rows (t_tasks t)) as [|x l IH]; [done|]. cbn.
    destruct ((tk_workflow x =? wf_id wf) && bool_decide (tk_node_id x = Some n)); [done|]. intros Hno. by apply IH.
Qed.
End Steps.
End Spawning.

(** A node of a running workflow that names the template of the tenant *)
Definition child_node : pyval :=
  PDict [("inputs", PDict []); ("data", PDict [("node", PDict [("type", PStr "workflow")]);
    ("workflow", PDict [("user_code", PStr (default "" (wt_user_code (demo_template PNone))))])])].
Definition parent_tenant : tenant := demo_tenant PNone [demo_workflow WProgress] [].
Definition parent_world : world := demo_world parent_tenant.
Definition parent_kw : list (string * pyval) := [("context", demo_context); ("connections", PList [])].
Lemma nested_node_starts_witness : ∃ child T w',
  @process_next_node demo_platform (demo_manager (PDict [("version", PInt 2)])) demo_user_code demo_celery
    1 "n" 1 (PDict [("n", child_node)]) parent_kw parent_world = (Ok tt, w') ∧
  w_tenants w' = <["space00000" := with_task (with_child parent_tenant child) T]> (w_tenants parent_world) ∧
  w_broker w' = [start_message demo_space child].
Proof.
  destruct (@nested_node_starts demo_platform (demo_manager (PDict [("version", PInt 2)])) demo_user_code demo_celery
    eager_celery_ok demo_space (demo_workflow WProgress) (demo_template PNone) "n"
    (default "" (wt_user_code (demo_template PNone))) child_node (PDict [("n", child_node)]) (PList [])
    (PDict [("version", PInt 2)]) (PDict []) parent_kw parent_world parent_tenant) with (fuel := 0%nat)
    as (child & T & w' & E & Ht & Hb & _).
  - split; try reflexivity; try discriminate.
    + by apply (bool_decide_unpack _).
    + exists "workflow". by split_and!.
    + by split.
    + exists []. split; [reflexivity|]. by intros p ?%elem_of_nil.
    + exists None, PNone. by split.
    + exists None. by split.
    + intros w1 _. exists w1. split; [reflexivity|by split].
    + by intros x ?%elem_of_nil.
    + by intros x ?%elem_of_nil.
    + intros x ->%list_elem_of_singleton. reflexivity.
  - exists child, T, w'. split; [exact E|]. split; [exact Ht|exact Hb].
Defined.
