(* ===== verification/Isolation.v ===== *)
(** * Tenant isolation of the workers

    Whatever message a worker takes, it writes the tables of the one schema the
    message's context names, and publishes messages of that schema only. *)
From Stdlib Require Import Ascii String.
From stdpp Require Import base list strings numbers gmap sets relations.
From S2P Require Import Prelude PyStr PyVal Json World Demo Graph Finmars Models Manager System Export.
From S2P Require Import Builder Launch Tasks Engine Fixture.
Local Open Scope string_scope.
Local Open Scope Z_scope.
Local Open Scope list_scope.

(** What is left of [Stays] when the search path has moved on *)
Record Within (s : string) (w0 w : world) : Prop := {
  wi_spaces : spaces_ok s w;
  wi_others : ∀ s', s' ≠ s → w_tenants w !! s' = w_tenants w0 !! s';
  wi_broker : ∃ l, w_broker w = w_broker w0 ++ l ∧ Forall (canvas_of s) l
}.
Lemma stays_within s w0 w : Stays s w0 w → Within s w0 w.
Proof. intros []. by split. Qed.
Lemma within_refl s w : spaces_ok s w → Within s w w.
Proof. intros Hs. split; [done|done|]. exists []. by rewrite app_nil_r. Qed.

Section Tasks.
Context `{Platform} (s : string) `{MO : ManagerOk s} `{UO : UserCodeOk s}
  `{Celery} {CF : CeleryFrame} (w0 : world).
Context (Hs : s ≠ "") (Hdot : has_char c_dot s = false).
Abbreviation I := (Stays s w0).

Lemma stays_task_by_id i : Keeps I (get_task_by_celery_id i) anything.
Proof using. unfold get_task_by_celery_id. solve_keeps. Qed.
Lemma stays_input_ready wf n : Keeps I (input_ready wf n) anything.
Proof using. unfold input_ready. solve_keeps. Qed.
Lemma stays_all_ready wf l : Keeps I (all_ready wf l) anything.
Proof using.
  induction l as [|n l IH]; simpl; [by apply keeps_ret|].
  eapply keeps_bind; [apply stays_input_ready|]. intros [] _; [done|by apply keeps_ret].
Qed.
Lemma stays_inputs_ready wf n conns : Keeps I (are_inputs_ready wf n conns) anything.
Proof using.
  unfold are_inputs_ready. eapply keeps_bind with (φ := anything); [by apply keeps_lift|].
  intros l _. apply stays_all_ready.
Qed.
Lemma stays_send_alert wf : Keeps I (send_alert wf) anything.
Proof using. unfold send_alert, get_user. solve_keeps. Qed.
#[local] Hint Resolve stays_task_by_id stays_send_alert : keeps.

Section Context_.
Context (kw : list (string * pyval)) (Hkw : names_schema s (kwget kw "context")).
Lemma stays_enter : Keeps I (set_schema_from_context (kwget kw "context")) anything.
Proof using Hkw. by apply stays_set_schema. Qed.
#[local] Hint Resolve stays_enter : keeps.
Lemma stays_before_start i : Keeps I (before_start i kw) anything.
Proof using Hkw. unfold before_start. solve_keeps. Qed.
Lemma stays_on_success fuel i v : Keeps I (on_success fuel i kw v) anything.
Proof using Hkw. unfold on_success. solve_keeps. Qed.
Lemma stays_on_failure fuel : ∀ i e, Keeps I (on_failure fuel kw i e) anything.
Proof using Hkw.
  induction fuel as [|fuel IH]; intros i e; [apply keeps_raise|].
  cbn [on_failure]. unfold fail_task. solve_keeps.
Qed.
Lemma stays_start i : Keeps I (start i kw) anything.
Proof using Hkw. unfold start. solve_keeps. Qed.
Lemma stays_end i : Keeps I (end_ i kw) anything.
Proof using Hkw. unfold end_. solve_keeps. Qed.
Lemma stays_mark_canceled i : Keeps I (mark_as_canceled_init_tasks i kw) anything.
Proof using Hkw. unfold mark_as_canceled_init_tasks. solve_keeps. Qed.

Lemma stays_launch_hook i payload name :
  Keeps I (launch_hook i payload (kwget kw "context") name) (canvas_of s).
Proof using Hkw.
  unfold launch_hook, insert_task. eapply keeps_bind; [apply stays_uuid|]. intros id _.
  eapply keeps_bind with (φ := anything); [by apply keeps_lift|]. intros n _.
  destruct (is_registered n); [|apply keeps_raise].
  eapply keeps_bind with (φ := anything); [simpl; apply keeps_raise|]. intros _ _. apply keeps_ret.
  apply Forall_singleton, msg_of_intro; [done|by right].
Qed.
Lemma stays_failure_launcher i names payload :
  Keeps I (failure_hooks_launcher i names payload kw) anything.
Proof using Hkw.
  unfold failure_hooks_launcher. eapply keeps_bind; [apply stays_enter|]. intros _ _.
  eapply keeps_bind; [apply keeps_map_each_post; intros; apply stays_launch_hook|].
  intros l Hl. eapply keeps_bind; [apply stays_uuid|]. intros ? _.
  destruct l as [|c l]; [apply keeps_raise|].
  eapply keeps_bind; [apply stays_publish_canvas; by apply canvas_of_chain|]. intros _ _.
  eapply keeps_bind; [apply stays_uuid|]. intros ? _. apply stays_publish_canvas.
  apply Forall_singleton, msg_of_intro; [done|by left].
Qed.
Lemma stays_execute user_code payload : user_code_of s user_code →
  Keeps I (execute user_code payload kw) anything.
Proof using Hkw MO.
  intros Huc. unfold execute. apply keeps_try; [|intros; by apply keeps_ret].
  eapply keeps_bind; [apply stays_enter|]. intros _ _.
  unfold get_user, get_space_by_code. repeat keeps_step. by apply stays_execute_workflow.
Qed.

(** ** The version 2 engine *)

Lemma stays_run_source t src args : Keeps I (run_source t src args kw) anything.
Proof using UO.
  unfold run_source. eapply keeps_bind; [apply stays_exec_source|]. intros [] _;
    [apply stays_call_main|by apply keeps_ret].
Qed.
Lemma stays_start_child wf t target :
  Keeps I (start_child wf t target kw (kwget kw "context")) anything.
Proof using Hkw.
  unfold start_child, get_template. eapply keeps_bind; [solve_keeps|]. intros wt _.
  eapply keeps_bind; [apply stays_create_workflow|]. intros child _.
  eapply keeps_bind with (φ := λ v, get (kwget kw "context") "space_code" = Ok v);
    [by apply keeps_lift|]. intros v Hv.
  eapply keeps_bind with (φ := anything); [by apply keeps_lift|]. intros r _.
  eapply keeps_bind with (φ := anything); [|solve_keeps].
  apply stays_publish, msg_of_intro; [|by left]. intros c [= ->]. by apply Hkw.
Qed.
Lemma stays_run_module t name args : Keeps I (run_module t name args kw) anything.
Proof using MO UO.
  unfold run_module, sync_import. eapply keeps_bind; [apply stays_sync_for_schema|]. intros _ _.
  eapply keeps_bind.
  { apply keeps_for_each. intros x _. repeat keeps_step. apply stays_sync_for_schema. }
  intros _ _. eapply keeps_bind; [apply stays_import_user_tasks|]. intros _ _.
  eapply keeps_bind; [apply stays_gets|]. intros [f|] _; [apply stays_call_function|apply keeps_raise].
Qed.
(** The user code a step looks up has the prefix of its context. *)
Lemma target_of c target : get (kwget kw "context") "space_code" = Ok (PStr c) →
  user_code_of s (target_user_code (PStr c) target).
Proof using Hkw Hs Hdot. intros Hc. apply user_code_of_prefixed; [by apply Hkw|done..]. Qed.
Lemma stays_step args t : Keeps I (step_body args kw t) anything.
Proof using Hkw Hs Hdot MO UO.
  unfold step_body.
  eapply keeps_bind with (φ := λ _, ∃ c, get (kwget kw "context") "space_code" = Ok (PStr c)).
  { intros w HI. split; [by apply stays_enter|]. intros [] Ho.
    by apply (set_schema_names (kwget kw "context") w). }
  intros _ [c Hc]. eapply keeps_bind; [apply stays_get_by_id|]. intros wf _.
  destruct (truthy_str _) as [src|]; [apply stays_run_source|].
  eapply keeps_bind with (φ := anything); [destruct (tk_name t); solve_keeps|]. intros name _.
  eapply keeps_bind with (φ := λ v, v = PStr c).
  { apply keeps_lift. rewrite Hc. by intros ? [= <-]. }
  intros ? ->. eapply keeps_bind.
  { apply stays_get_by_user_code. intros _. by apply target_of. }
  intros target _. eapply keeps_bind with (φ := anything); [by apply keeps_lift|].
  intros v _. destruct (v =? 2); [apply stays_start_child|apply stays_run_module].
Qed.
Lemma stays_execute_v2 i : Keeps I (execute_workflow_v2 i kw) anything.
Proof using Hkw.
  unfold execute_workflow_v2. repeat keeps_step; try solve [solve_keeps].
Qed.

(** ** From any search path *)

Lemma leads_enter {A} (f : unit → M A) :
  Leads (Stays s w0) (set_schema_from_context (kwget kw "context") ≫= f) (Within s w0) →
  Leads (Within s w0) (set_schema_from_context (kwget kw "context") ≫= f) (Within s w0).
Proof using Hkw.
  intros Hf w HW. destruct (set_schema_from_context (kwget kw "context") w) as [[[]|e] w1] eqn:E.
  - destruct (set_schema_names (kwget kw "context") w) as [c Hc]; [by rewrite E|].
    assert (Stays s w0 (set_w_path s w)) as HS by (destruct HW; by split).
    destruct (set_schema_enters (kwget kw "context") c w Hc) as [E1 Hcat]; [by rewrite E|].
    rewrite E in E1. simpl in E1. rewrite (Hkw c Hc) in E1. subst w1.
    specialize (Hf _ HS). rewrite (bind_ok _ _ _ _ _ E).
    assert (set_schema_from_context (kwget kw "context") (set_w_path s w) = (Ok tt, set_w_path s w))
      as E2; [|by rewrite (bind_ok _ _ _ _ _ E2) in Hf].
    by rewrite (set_schema_path_irrelevant (kwget kw "context") s w), E.
  - rewrite (bind_raise _ _ _ _ _ E). by apply set_schema_raises in E as ->.
Qed.
Lemma leads_enter_keeps {A} (f : unit → M A) φ :
  Keeps (Stays s w0) (set_schema_from_context (kwget kw "context") ≫= f) φ →
  Leads (Within s w0) (set_schema_from_context (kwget kw "context") ≫= f) (Within s w0).
Proof using Hkw. intros Hf. eapply leads_enter, leads_keeps; [apply stays_within|done]. Qed.

(** ** Whole messages *)

Abbreviation W := (Within s w0).
Lemma keeps_within {A} (m : M A) : Leads W m W → Keeps W m anything.
Proof using. intros Hm w HW. split; [by apply Hm|done]. Qed.
Lemma within_modify (f : world → world) :
  (∀ w, w_tenants (f w) = w_tenants w ∧ w_broker (f w) = w_broker w) → Leads W (modify f) W.
Proof using.
  intros Hf w []. destruct (Hf w) as [Ht Hb]. split; unfold spaces_ok; simpl; rewrite ?Ht, ?Hb; done.
Qed.
Lemma within_cleanup : Leads W cleanup W.
Proof using. by apply within_modify. Qed.
Lemma within_raise {A} e : Leads W (raise e : M A) W.
Proof using. by intros w HW. Qed.

Lemma within_before_start i : Leads W (before_start i kw) W.
Proof using Hkw. eapply leads_enter_keeps, stays_before_start. Qed.
Lemma within_on_success fuel i v : Leads W (on_success fuel i kw v) W.
Proof using Hkw. eapply leads_enter_keeps, stays_on_success. Qed.
Lemma within_on_failure fuel i e : Leads W (on_failure fuel kw i e) W.
Proof using Hkw.
  destruct fuel as [|fuel]; [apply within_raise|].
  eapply leads_enter_keeps, (stays_on_failure (S fuel)).
Qed.
Lemma within_step args t : Leads W (execute_workflow_step args kw t) W.
Proof using Hkw Hs Hdot MO UO.
  unfold execute_workflow_step.
  apply (leads_bind W W) with (φ := anything); [done|by apply keeps_within, within_modify|].
  intros _ _. eapply leads_enter_keeps, stays_step.
Qed.
Lemma within_run_step fuel i args : Leads W (run_step fuel i args kw) W.
Proof using Hkw Hs Hdot MO UO CF.
  apply (apply_frame _ _ anything); [done|intros; apply keeps_within..|apply within_cleanup].
  - apply within_before_start.
  - apply within_step.
  - apply within_on_success.
  - apply within_on_failure.
Qed.
Lemma leads_stays {A} (m : M A) φ : Keeps I m φ → Leads I m W.
Proof using. apply leads_keeps, stays_within. Qed.
Lemma leads_run_step fuel i args : Leads I (run_step fuel i args kw) W.
Proof using Hkw Hs Hdot MO UO CF. intros w HI. by apply within_run_step, stays_within. Qed.

Lemma leads_bind_stays {A B} (m : M A) (f : A → M B) φ :
  Keeps I m φ → (∀ a, φ a → Leads I (f a) W) → Leads I (m ≫= f) W.
Proof using. apply leads_bind, stays_within. Qed.
End Context_.

Abbreviation W := (Within s w0).
Lemma stays_source_task wf n input v conns : Keeps I (source_task wf n input v conns) anything.
Proof using. unfold source_task. solve_keeps. Qed.
(** The step of a node carries the context of the space of its workflow. *)
Lemma leads_execute_node fuel wf n v conns : Leads I (execute_node fuel wf n v conns) W.
Proof using Hs Hdot MO UO CF.
  unfold execute_node, create_step_task, insert_task.
  do 2 (apply leads_bind_stays with (φ := anything); [by apply keeps_lift|intros ? _]).
  eapply leads_bind_stays; [apply stays_source_task|intros ? _].
  apply leads_bind_stays with (φ := anything); [by apply keeps_lift|intros ? _].
  eapply leads_bind_stays; [apply stays_source_task|intros ? _].
  apply leads_bind_stays with (φ := anything); [by apply keeps_lift|intros ? _].
  eapply leads_bind_stays; [apply stays_uuid|intros i _].
  eapply leads_bind_stays; [apply stays_space_get|intros sp Hsp].
  apply leads_bind_stays with (φ := anything); [by apply keeps_lift|intros ? _].
  apply leads_bind_stays with (φ := anything); [simpl; solve_keeps|intros ? _].
  apply leads_run_step. by apply names_context_of.
Qed.
Lemma leads_process_next_node fuel kw n i nodes : names_schema s (kwget kw "context") →
  Leads W (process_next_node fuel n i nodes kw) W.
Proof using Hs Hdot MO UO CF.
  intros Hkw. unfold process_next_node. apply leads_enter; [done|].
  eapply leads_bind_stays; [by apply stays_enter|intros _ _].
  apply leads_try; [|by intros e w HW].
  unfold process_node. eapply leads_bind_stays; [apply stays_get_by_id|intros wf _].
  apply leads_bind_stays with (φ := anything); [by apply keeps_lift|intros v _].
  case_bool_decide.
  - eapply leads_stays. solve_keeps.
  - eapply leads_bind_stays; [apply stays_inputs_ready|intros [] _].
    + apply leads_execute_node.
    + apply leads_stays with (φ := anything). by apply keeps_ret.
Qed.
Lemma leads_lift_bind {A B} (r : res A) (f : A → M B) :
  (∀ a, Leads W (f a) W) → Leads W (lift r ≫= f) W.
Proof using.
  intros Hf. apply (leads_bind W W) with (φ := anything); [done|by apply keeps_lift|].
  intros a _. apply Hf.
Qed.

Lemma leads_end i kw : names_schema s (kwget kw "context") → Leads W (end_ i kw) W.
Proof using.
  intros Hkw. unfold end_. apply (leads_bind W W) with (φ := anything); [done| |].
  - by apply keeps_within, within_modify.
  - intros _ _. apply leads_enter_keeps with (φ := anything); [done|].
    eapply keeps_bind; [by apply stays_enter|]. intros _ _. solve_keeps.
Qed.
Lemma leads_execute user_code payload kw : names_schema s (kwget kw "context") →
  user_code_of s user_code → Leads W (execute user_code payload kw) W.
Proof using MO.
  intros Hkw Huc. unfold execute. apply leads_try; [|by intros e w HW].
  apply leads_enter_keeps with (φ := anything); [done|].
  eapply keeps_bind; [by apply stays_enter|]. intros _ _.
  unfold get_user, get_space_by_code. repeat keeps_step. by apply stays_execute_workflow.
Qed.

(** The body of any task *)
Lemma within_export kwargs : Leads W (call_export_backend_historical_records kwargs) W.
Proof using.
  intros w HW. destruct (proj1 (export_reads w kwargs w (reads_refl w))) as (k & l & ->).
  by destruct HW; split.
Qed.
Lemma leads_task_body fuel m : msg_of s m → Leads W (task_body fuel m) W.
Proof using Hs Hdot MO UO CF.
  intros [Hkw Huc]. unfold task_body, msg_context in *. fold (kwget (msg_kwargs m) "context") in Hkw.
  destruct (String.eqb _ _).
  { do 2 (apply leads_lift_bind; intros ?). by apply leads_process_next_node. }
  destruct (String.eqb _ _).
  { apply leads_lift_bind; intros ?. by eapply leads_enter_keeps, stays_execute_v2. }
  destruct (String.eqb _ _).
  { apply leads_lift_bind; intros ?. by eapply leads_enter_keeps, stays_start. }
  destruct (String.eqb _ _).
  { apply leads_lift_bind; intros ?. by apply leads_end. }
  destruct (String.eqb _ _).
  { apply leads_lift_bind; intros ?. by eapply leads_enter_keeps, stays_mark_canceled. }
  destruct (String.eqb _ _).
  { destruct (msg_args m) as [|[] [|? [|[] [|? [|]]]]]; try apply within_raise.
    by eapply leads_enter_keeps, stays_failure_launcher. }
  destruct (String.eqb (msg_task m) ("workflow.tasks.workflows." +:+ "execute")) eqn:E.
  2:{ case_match; [apply within_export|by intros w HW]. }
  simpl in E. unfold executes in Huc. rewrite E in Huc.
  destruct (msg_args m) as [|[] [|? ?]]; try apply within_raise.
  apply (leads_bind W W) with (φ := anything); [done| |intros ? _; by intros w HW].
  apply keeps_within, leads_execute; [done|by apply Huc].
Qed.
Lemma leads_run_message fuel i m : msg_of s m → Leads W (run_message fuel i m) W.
Proof using Hs Hdot MO UO CF.
  intros Hm. unfold run_message. destruct (String.eqb _ _).
  { by apply within_run_step, Hm. }
  apply (leads_bind W W) with (φ := anything); [done| |intros ? _; apply within_cleanup].
  apply keeps_within, leads_try; [by apply leads_task_body|]. intros e.
  apply leads_try; [|by intros ? w HW]. apply within_on_failure, Hm.
Qed.
End Tasks.

(** ** Runs *)

Section Runs.
Context `{Platform} `{Manager} `{UserCode} `{Celery} {CF : CeleryFrame}
  (MO : ∀ s, ManagerOk s) (UO : ∀ s, UserCodeOk s).
Context (fuel : nat) (S : string → Prop) (HS : ∀ s, S s → s ≠ "" ∧ has_char c_dot s = false).

(** Every waiting message belongs to a tenant of [S]. *)
Definition of_tenants (w : world) : Prop :=
  (∀ s, S s → spaces_ok s w) ∧ Forall (λ c, ∃ s, S s ∧ canvas_of s c) (w_broker w).

Lemma within_of_tenants s w0 w : S s → of_tenants w0 → Within s w0 w → of_tenants w.
Proof using.
  intros Hs [Hsp Hb] [Hws Ho (l & Hl & Hf)]. split.
  - intros s' Hs'. destruct (decide (s' = s)) as [->|Hne]; [done|].
    unfold spaces_ok. rewrite Ho by done. by apply Hsp.
  - rewrite Hl. apply Forall_app. split; [done|]. eapply Forall_impl; [exact Hf|].
    intros c Hc. by exists s.
Qed.
(** One delivery: one tenant's tables are written. *)
Lemma deliver_within w w' : of_tenants w → deliver fuel w w' →
  ∃ s w0, S s ∧ w_tenants w0 = w_tenants w ∧ of_tenants w0 ∧ Within s w0 w'.
Proof using HS MO UO CF.
  intros [Hsp Hb] Hd. inversion Hd as [? l1 o m l2 i E _|? c m i Hc _ Hm]; subst.
  - rewrite E in Hb. apply Forall_app in Hb as [Hb1 Hb2].
    apply Forall_cons in Hb2 as [(s & Hs & Hm) Hb2]. apply Forall_inv in Hm.
    exists s, (set_w_broker (l1 ++ l2) w). destruct (HS s Hs).
    refine (conj Hs (conj eq_refl (conj _ _))); [split; [done|by apply Forall_app]|].
    apply (leads_run_message s (MO:=MO s) (UO:=UO s)); [done|done|done|]. by apply within_refl, Hsp.
  - destruct (proj1 (Forall_forall _ _) Hb c Hc) as (s & Hs & Hcs). destruct (HS s Hs).
    exists s, w. refine (conj Hs (conj eq_refl (conj _ _))); [by split|].
    apply (leads_run_message s (MO:=MO s) (UO:=UO s)); [done|done| |by apply within_refl, Hsp].
    by apply (proj1 (Forall_forall _ _) Hcs).
Qed.

End Runs.

Lemma demo_of_tenants : of_tenants (λ s, s = "space00000") (launch_world ["a"] []).
Proof.
  split.
  - intros s -> t [= <-]. by repeat constructor.
  - constructor; [|constructor]. exists "space00000". split; [done|].
    apply Forall_singleton, msg_of_intro; [by intros c [= <-]|by left].
Qed.
