(* ===== verification/Sync.v ===== *)
(** * The copy of a space's workflows and the lookup that makes it

    [sync_schema] of System.v walks four levels of the remote storage and copies
    the files whose names match.  This file says what the local directory holds
    afterwards, and that a lookup with [sync_remote] finds a configuration that
    is only in the remote storage. *)
From Stdlib Require Import Ascii String.
From stdpp Require Import base list strings numbers gmap sets.
From S2P Require Import Prelude PyStr PyVal Json Paths World Demo Finmars Models Manager System.
Local Open Scope string_scope.
Local Open Scope Z_scope.
Local Open Scope list_scope.

(** ** What a copy writes *)

(** The plan of a copy: the files to write, in order, or the first error *)
Definition write_plan : Type := res (list (string * string)).
Definition write_all (l : list (string * string)) (w : world) : world :=
  set_w_local (fold_left (λ loc f, dict_set loc f.1 f.2) l (w_local w)) w.
(** [m] raises when the plan is an error, and else writes the files of the plan
    and nothing else. *)
Definition Writes (m : M unit) (p : write_plan) : Prop := ∀ w,
  match p with
  | Ok l => m w = (Ok tt, write_all l w)
  | Raise e => (m w).1 = Raise e
  end.
Definition concat_plans {A} (l : list A) (p : A → write_plan) : write_plan :=
  ls ← map_res l p; Ok (concat ls).

Lemma write_all_nil w : write_all [] w = w.
Proof. by destruct w. Qed.
Lemma write_all_app l l' w : write_all (l ++ l') w = write_all l' (write_all l w).
Proof. unfold write_all. simpl. by rewrite fold_left_app. Qed.
Lemma writes_ret : Writes (mret tt) (Ok []).
Proof. intros w. by rewrite write_all_nil. Qed.
Lemma writes_when b m p : Writes m p → Writes (when b m) (if b then p else Ok []).
Proof. intros Hm. destruct b; [done|apply writes_ret]. Qed.
Lemma writes_lift {A} (r : res A) (m : A → M unit) (p : A → write_plan) :
  (∀ a, Writes (m a) (p a)) → Writes (a ← lift r; m a) (a ← r; p a).
Proof. intros Hm w. destruct r as [a|e]; [exact (Hm a w)|done]. Qed.
Lemma writes_for_each {A} (l : list A) (body : A → M unit) (p : A → write_plan) :
  (∀ a, Writes (body a) (p a)) → Writes (for_each l body) (concat_plans l p).
Proof.
  intros Hb. induction l as [|a l IH]; [apply writes_ret|]. intros w.
  specialize (Hb a w). unfold concat_plans in *. cbn [for_each map_res].
  destruct (p a) as [la|e]; cbn [mbind res_bind] in *.
  - rewrite (bind_ok _ _ _ _ _ Hb). specialize (IH (write_all la w)).
    destruct (map_res l p) as [ls|e]; cbn [mbind res_bind concat] in *; [|done].
    rewrite IH. by rewrite write_all_app.
  - unfold mbind, ST_bind. destruct (body a w) as [[[]|e'] w']; simpl in Hb |- *; congruence.
Qed.

(** The last file of a list with a given name *)
Lemma dict_get_write_all l (loc : list (string * string)) k :
  dict_get (fold_left (λ loc f, dict_set loc f.1 f.2) l loc) k
  = match dict_get (rev l) k with Some c => Some c | None => dict_get loc k end.
Proof.
  revert loc. induction l as [|[k' c] l IH]; intros loc; [done|]. cbn [fold_left rev fst snd].
  rewrite IH, dict_get_set. clear IH. induction (rev l) as [|[k2 c2] r IH]; cbn [app dict_get].
  - by destruct (decide (k = k')).
  - by destruct (decide (k = k2)).
Qed.

Section Sync.
Context `{Platform} `{Backend}.

(** ** The plan of [sync_schema] *)

(** The directories and the files the remote storage lists *)
Definition lists_dir (path d : string) : Prop := ∃ l, remote_listdir path = Ok l ∧ d ∈ l.1.
Definition lists_file (path f : string) : Prop := ∃ l, remote_listdir path = Ok l ∧ f ∈ l.2.

(** The name a remote file has in the local directory *)
Definition local_name (remote : string) : string :=
  construct_path [storage_root; "local"; lstrip c_slash remote].
Definition file_plan (folder : string) (patterns : list string) (f : string) : write_plan :=
  Ok (if existsb (fnmatch f) patterns then
        match remote_read (folder +:+ "/" +:+ f) with
        | Ok c => [(local_name (folder +:+ "/" +:+ f), c)]
        | Raise _ => []
        end
      else []).
Definition dirs_plan (components : list string) (i : nat) (path : string) (p : string → write_plan)
    : write_plan :=
  l ← remote_listdir path;
  concat_plans l.1 (λ d, if selected components i d then p d else Ok []).

Lemma writes_file folder patterns f : Writes (sync_file folder patterns f) (file_plan folder patterns f).
Proof.
  intros w. unfold sync_file, file_plan, when. destruct (existsb _ _); [|by rewrite write_all_nil].
  unfold try_except, mbind, ST_bind, lift.
  destruct (remote_read _) as [c|e]; [done|by rewrite write_all_nil].
Qed.
Lemma writes_dirs components i path body p : (∀ d, Writes (body d) (p d)) →
  Writes (for_dirs components i path body) (dirs_plan components i path p).
Proof.
  intros Hb. apply writes_lift. intros l. apply writes_for_each. intros d. by apply writes_when.
Qed.

(** The four levels below the space's directory *)
Definition sync_plan (remote : string) (comps patterns : list string) : write_plan :=
  dirs_plan comps 0 remote (λ configuration,
    let organization_path := construct_path [remote; configuration] in
    dirs_plan comps 1 organization_path (λ organization,
      let module_folder := construct_path [organization_path; organization] in
      dirs_plan comps 2 module_folder (λ module,
        let workflow_folder := construct_path [module_folder; module] in
        dirs_plan comps 3 workflow_folder (λ workflow,
          l ← remote_listdir (construct_path [workflow_folder; workflow]);
          concat_plans l.2 (file_plan (remote +:+ "/" +:+ configuration +:+ "/" +:+ organization
                                         +:+ "/" +:+ module +:+ "/" +:+ workflow) patterns))))).
(** A file at the four levels that the copy selects, below [folder] *)
Definition stored (remote : string) (comps : list string) (folder f : string) : Prop :=
  ∃ configuration organization module workflow,
    let p1 := construct_path [remote; configuration] in
    let p2 := construct_path [p1; organization] in
    let p3 := construct_path [p2; module] in
    (lists_dir remote configuration ∧ selected comps 0 configuration = true) ∧
    (lists_dir p1 organization ∧ selected comps 1 organization = true) ∧
    (lists_dir p2 module ∧ selected comps 2 module = true) ∧
    (lists_dir p3 workflow ∧ selected comps 3 workflow = true) ∧
    lists_file (construct_path [p3; workflow]) f ∧
    folder = remote +:+ "/" +:+ configuration +:+ "/" +:+ organization +:+ "/" +:+ module
             +:+ "/" +:+ workflow.

(** A plan without an error has exactly the files [P]. *)
Definition Gives (p : write_plan) (P : string * string → Prop) : Prop :=
  ∀ r, p = Ok r → ∀ x, x ∈ r ↔ P x.
Lemma gives_iff p P Q : Gives p P → (∀ x, P x ↔ Q x) → Gives p Q.
Proof. intros Hp HPQ r Hr x. by rewrite (Hp r Hr). Qed.
Lemma gives_concat {A} (l : list A) (p : A → write_plan) P : (∀ a, Gives (p a) (P a)) →
  Gives (concat_plans l p) (λ x, ∃ a, a ∈ l ∧ P a x).
Proof.
  intros Hp. unfold concat_plans. induction l as [|a l IH]; intros r Hr x.
  - injection Hr as <-. split; [by intros ?%elem_of_nil|by intros (? & ?%elem_of_nil & _)].
  - cbn [map_res] in Hr. destruct (p a) as [la|] eqn:Ea; [|done].
    destruct (map_res l p) as [ls|]; [|done]. injection Hr as <-. cbn [concat].
    rewrite elem_of_app, (IH (concat ls) eq_refl), (Hp a la Ea). set_solver.
Qed.
Lemma gives_dirs comps i path p P : (∀ d, Gives (p d) (P d)) →
  Gives (dirs_plan comps i path p)
        (λ x, ∃ d, (lists_dir path d ∧ selected comps i d = true) ∧ P d x).
Proof.
  intros Hp. unfold dirs_plan, lists_dir. destruct (remote_listdir path) as [l|]; [|done].
  eapply gives_iff.
  - apply (gives_concat l.1 _ (λ d x, selected comps i d = true ∧ P d x)). intros d.
    destruct (selected comps i d).
    + eapply gives_iff; [apply Hp|]. naive_solver.
    + intros r [= <-] x. split; [by intros ?%elem_of_nil|by intros [? _]].
  - intros x. split.
    + intros (d & Hd & Hs & HP). exists d. eauto.
    + intros (d & [(l' & [= <-] & Hd) Hs] & HP). by exists d.
Qed.
Lemma gives_file folder patterns f : Gives (file_plan folder patterns f) (λ x,
  existsb (fnmatch f) patterns = true ∧ remote_read (folder +:+ "/" +:+ f) = Ok x.2 ∧
  x.1 = local_name (folder +:+ "/" +:+ f)).
Proof.
  unfold file_plan. intros r [= <-] [k c]. cbn [fst snd].
  destruct (existsb _ _); [|split; [by intros ?%elem_of_nil|by intros [? _]]].
  destruct (remote_read _) as [c'|]; [|split; [by intros ?%elem_of_nil|by intros (_ & ? & _)]].
  rewrite list_elem_of_singleton. naive_solver.
Qed.
Lemma gives_files path folder patterns :
  Gives (l ← remote_listdir path; concat_plans l.2 (file_plan folder patterns)) (λ x,
    ∃ f, lists_file path f ∧ existsb (fnmatch f) patterns = true ∧
      remote_read (folder +:+ "/" +:+ f) = Ok x.2 ∧ x.1 = local_name (folder +:+ "/" +:+ f)).
Proof.
  unfold lists_file. destruct (remote_listdir path) as [l|]; [|done]. cbn [mbind res_bind].
  eapply gives_iff; [apply gives_concat; intros f; apply gives_file|].
  intros x. split; [intros (f & Hf & Hx); exists f; eauto|].
  intros (f & (l' & [= <-] & Hf) & Hx). by exists f.
Qed.
Lemma sync_plan_gives remote comps patterns : Gives (sync_plan remote comps patterns) (λ x,
  ∃ folder f, stored remote comps folder f ∧ existsb (fnmatch f) patterns = true ∧
    remote_read (folder +:+ "/" +:+ f) = Ok x.2 ∧ x.1 = local_name (folder +:+ "/" +:+ f)).
Proof.
  unfold sync_plan. eapply gives_iff.
  - do 4 (apply gives_dirs; intros ?). apply gives_files.
  - intros x. unfold stored. cbn zeta. split.
    + intros (cf & H1 & og & H2 & md & H3 & wf & H4 & f & H5 & H6 & H7 & H8).
      eexists _, f. split; [|exact (conj H6 (conj H7 H8))]. exists cf, og, md, wf.
      exact (conj H1 (conj H2 (conj H3 (conj H4 (conj H5 eq_refl))))).
    + intros (folder & f & (cf & og & md & wf & H1 & H2 & H3 & H4 & H5 & ->) & H6 & H7 & H8).
      exists cf. split; [done|]. exists og. split; [done|]. exists md. split; [done|].
      exists wf. split; [done|]. by exists f.
Qed.
(** When every directory can be listed there is a plan. *)
Lemma concat_plans_ok {A} (l : list A) p : (∀ a, is_ok (p a) = true) → is_ok (concat_plans l p) = true.
Proof.
  intros Hp. unfold concat_plans. induction l as [|a l IH]; [done|]. cbn [map_res].
  specialize (Hp a). destruct (p a); [|done]. by destruct (map_res l p).
Qed.
Lemma sync_plan_ok remote comps patterns :
  (∀ path, is_ok (remote_listdir path) = true) → is_ok (sync_plan remote comps patterns) = true.
Proof.
  intros Hl. unfold sync_plan.
  assert (∀ i path p, (∀ d, is_ok (p d) = true) → is_ok (dirs_plan comps i path p) = true) as Hd.
  { intros i path p Hp. unfold dirs_plan. specialize (Hl path). destruct (remote_listdir path); [|done].
    apply concat_plans_ok. intros d. by destruct (selected comps i d). }
  do 4 (apply Hd; intros ?). specialize (Hl (construct_path [construct_path [construct_path
    [construct_path [remote; d]; d0]; d1]; d2])).
  destruct (remote_listdir _) as [l|]; [|done]. by apply concat_plans_ok.
Qed.

(** ** What a copy leaves *)

(** The local directory of [module_path] *)
Definition local_dir (sp : space_row) (module_path : string) : string :=
  construct_path [storage_root; "local"; sp_space_code sp; "workflows"; module_path].
Definition remote_dir (sp : space_row) : string := construct_path [sp_space_code sp; "workflows"].
Definition components (module_path : string) : list string :=
  if String.eqb module_path "" then [] else split c_slash module_path.

(** A file of the remote storage that the copy takes, under its local name *)
Definition copied (sp : space_row) (module_path : string) (patterns : list string) (k c : string) : Prop :=
  ∃ folder f, stored (remote_dir sp) (components module_path) folder f ∧
    existsb (fnmatch f) patterns = true ∧ remote_read (folder +:+ "/" +:+ f) = Ok c ∧
    k = local_name (folder +:+ "/" +:+ f).

Lemma dict_get_filter (p : string → bool) (d : list (string * string)) k :
  dict_get (List.filter (λ f, p f.1) d) k = if p k then dict_get d k else None.
Proof.
  induction d as [|[k' c] d IH]; [by destruct (p k)|]. cbn [List.filter fst].
  destruct (p k') eqn:E; cbn [dict_get]; rewrite IH; destruct (decide (k = k')) as [->|]; try done;
    by rewrite E.
Qed.
Lemma clear_run path w : dict_get (w_local w) path = None → ∃ w',
  clear_local path w = (Ok tt, w') ∧ w' = set_w_local (w_local w') w ∧
  (NoDup (dict_keys (w_local w)) → NoDup (dict_keys (w_local w'))) ∧
  ∀ k, dict_get (w_local w') k = if below path k then None else dict_get (w_local w) k.
Proof.
  intros Hp. unfold clear_local, local_exists. rewrite (bind_ok _ _ w _ w) by reflexivity.
  assert (existsb (λ f : string * string, String.eqb f.1 path) (w_local w) = false) as Hne.
  { apply dict_get_None in Hp. apply not_true_iff_false. intros (f & Hf & E)%existsb_exists.
    apply String.eqb_eq in E as <-. apply Hp, list_elem_of_In, in_map, Hf. }
  destruct (existsb (λ f, _ || _) _) eqn:E; cbn [when].
  - exists (set_w_local (List.filter (λ f, negb (below path f.1)) (w_local w)) w). split_and!; [|done| |].
    + apply try_ok. unfold rmtree. by rewrite Hne.
    + cbn. generalize (w_local w). intros l Hnd. induction l as [|[k c] l IH]; [done|].
      apply NoDup_cons in Hnd as [Hk Hnd]. cbn [List.filter]. destruct (negb _); [|by apply IH].
      apply NoDup_cons. split; [|by apply IH]. intros Hin. apply Hk.
      apply list_elem_of_In, in_map_iff in Hin as (x & Hx & [Hin _]%filter_In).
      by apply list_elem_of_In, in_map_iff; exists x.
    + intros k. cbn. rewrite (dict_get_filter (λ k, negb (below path k))). by destruct (below path k).
  - exists w. split_and!; [done|by destruct w|done|]. intros k. destruct (below path k) eqn:Hb; [|done].
    apply dict_get_None. intros Hk. apply list_elem_of_In, in_map_iff in Hk as (f & <- & Hf).
    apply not_true_iff_false in E. apply E, existsb_exists. exists f. split; [done|]. by rewrite Hb, orb_true_r.
Qed.

Lemma local_name_plain x : x ≠ "" → startswith x "/" = false →
  local_name x = construct_path [storage_root; "local"] +:+ "/" +:+ x.
Proof.
  intros Hne Hx. unfold local_name. rewrite lstrip_other by done. cbn [construct_path fold_left].
  destruct (join2_last storage_root "l" "ocal") as [H1 H2]; [done|].
  apply join2_below; [done|done|]. by rewrite H2.
Qed.
Lemma remote_plain space x : startswith space "/" = false →
  let r := construct_path [space; "workflows"] +:+ "/" +:+ x in r ≠ "" ∧ startswith r "/" = false.
Proof.
  intros Hs. cbn [construct_path fold_left]. unfold join2. cbn [startswith].
  replace (startswith "workflows" "/") with false by done.
  destruct space as [|c space]; [done|]. rewrite startswith_char in Hs.
  destruct (_ || _); (split; [done|]); cbn [append]; by rewrite startswith_char.
Qed.
Lemma str_app_inj_l (a b b' : string) : a +:+ b = a +:+ b' → b = b'.
Proof. induction a as [|c a IH]; [done|]. intros [= E]. by apply IH. Qed.
Lemma local_name_inj space x y : startswith space "/" = false →
  local_name (construct_path [space; "workflows"] +:+ "/" +:+ x)
  = local_name (construct_path [space; "workflows"] +:+ "/" +:+ y) → x = y.
Proof.
  intros Hs. destruct (remote_plain space x Hs) as [H1 H2], (remote_plain space y Hs) as [H3 H4].
  rewrite !local_name_plain by done. intros E. by do 4 apply str_app_inj_l in E.
Qed.

Lemma write_all_NoDup l (loc : list (string * string)) : NoDup (dict_keys loc) →
  NoDup (dict_keys (fold_left (λ loc f, dict_set loc f.1 f.2) l loc)).
Proof. revert loc. induction l as [|f l IH]; intros loc Hnd; [done|]. by apply IH, dict_set_NoDup. Qed.
Lemma writes_sync sp module_path patterns : Writes
  (for_dirs (components module_path) 0 (remote_dir sp) (λ configuration,
    for_dirs (components module_path) 1 (construct_path [remote_dir sp; configuration]) (λ organization,
      for_dirs (components module_path) 2
        (construct_path [construct_path [remote_dir sp; configuration]; organization]) (λ module,
        for_dirs (components module_path) 3 (construct_path [construct_path [construct_path
          [remote_dir sp; configuration]; organization]; module]) (λ workflow,
          l ← lift (remote_listdir (construct_path [construct_path [construct_path [construct_path
                [remote_dir sp; configuration]; organization]; module]; workflow]));
          for_each l.2 (sync_file (remote_dir sp +:+ "/" +:+ configuration +:+ "/" +:+ organization
                                   +:+ "/" +:+ module +:+ "/" +:+ workflow) patterns))))))
  (sync_plan (remote_dir sp) (components module_path) patterns).
Proof.
  do 4 (apply writes_dirs; intros ?). apply writes_lift. intros l. apply writes_for_each, writes_file.
Qed.
(** No two remote files have the same local name. *)
Lemma copied_unique sp module_path patterns k c c' : startswith (sp_space_code sp) "/" = false →
  copied sp module_path patterns k c → copied sp module_path patterns k c' → c = c'.
Proof.
  intros Hs (fo & f & (? & ? & ? & ? & _ & _ & _ & _ & _ & ->) & _ & Hc & ->)
    (fo' & f' & (? & ? & ? & ? & _ & _ & _ & _ & _ & ->) & _ & Hc' & Heq).
  rewrite <- !str_app_assoc in Heq. apply local_name_inj in Heq; [|done].
  rewrite <- !str_app_assoc in Hc, Hc'. rewrite Heq in Hc. congruence.
Qed.

Definition mirrors (sp : space_row) (module_path : string) (patterns : list string)
    (before after : list (string * string)) : Prop := ∀ k c,
  dict_get after k = Some c ↔
    copied sp module_path patterns k c ∨
    dict_get before k = Some c ∧ below (local_dir sp module_path) k = false ∧
      ¬ ∃ c', copied sp module_path patterns k c'.
Lemma sync_run module_path patterns w sp : get_space w = (Ok (Some sp), w) →
  startswith (sp_space_code sp) "/" = false →
  (∀ path, is_ok (remote_listdir path) = true) →
  dict_get (w_local w) (local_dir sp module_path) = None →
  ∃ loc, sync_schema module_path patterns w = (Ok tt, set_w_local loc w) ∧
    mirrors sp module_path patterns (w_local w) loc ∧
    (NoDup (dict_keys (w_local w)) → NoDup (dict_keys loc)).
Proof.
  intros Hsp Hslash Hl Hd. destruct (clear_run _ w Hd) as (w1 & E1 & Hw1 & Hn1 & Hk1).
  pose proof (sync_plan_ok (remote_dir sp) (components module_path) patterns Hl) as Hok.
  destruct (sync_plan _ _ _) as [plan|] eqn:Ep; [|done].
  assert (∀ k c, (k, c) ∈ plan ↔ copied sp module_path patterns k c) as Hplan
    by (intros k c; exact (sync_plan_gives _ _ _ plan Ep (k, c))).
  exists (w_local (write_all plan w1)). split_and!.
  - unfold sync_schema. rewrite (bind_ok _ _ _ _ _ Hsp). unfold require.
    rewrite (bind_ok _ _ w sp w) by done. rewrite (bind_ok _ _ _ _ _ E1).
    pose proof (writes_sync sp module_path patterns w1) as HW. rewrite Ep in HW.
    refine (eq_trans HW _). f_equal. unfold write_all. rewrite Hw1. by destruct w.
  - intros k c. unfold write_all. cbn [w_local set_w_local]. rewrite dict_get_write_all.
    destruct (dict_get (rev plan) k) as [c1|] eqn:Ec.
    + assert (copied sp module_path patterns k c1) as Hc1.
      { apply Hplan. apply dict_get_elem in Ec. by apply list_elem_of_In, in_rev, list_elem_of_In in Ec. }
      split; [intros [= <-]; by left|]. intros [Hc|(_ & _ & Hn)]; [|by destruct Hn; eauto].
      f_equal. by eapply copied_unique.
    + assert (¬ ∃ c', copied sp module_path patterns k c') as Hn.
      { intros (c' & Hc'%Hplan). apply dict_get_None in Ec. apply Ec.
        apply list_elem_of_In, in_map_iff. exists (k, c'). split; [done|].
        by apply in_rev; rewrite rev_involutive; apply list_elem_of_In. }
      rewrite Hk1. destruct (below _ k) eqn:Hb; naive_solver.
  - intros Hnd. by apply write_all_NoDup, Hn1.
Qed.
(** The copy changes nothing [get_space] reads. *)
Lemma get_space_local loc w o : get_space w = (Ok o, w) →
  get_space (set_w_local loc w) = (Ok o, set_w_local loc w).
Proof.
  unfold get_space, objects_filter, current_tenant, mbind, ST_bind. cbn.
  destruct (w_tenants w !! w_path w) as [t|]; [|done]. intros E. injection E as <-. done.
Qed.

(** C25: the copy of the remote storage.  When the storage can list its
    directories, the copy of a module path (of the whole space, when it is
    empty) succeeds and changes the local files only: afterwards there is, under
    its local name and with its content, every remote file four levels below
    the space's directory whose directories the path selects, whose name matches
    a pattern and which could be read; what the local directory of the path held
    before is gone, and any other file is as it was. *)
Theorem sync_mirrors module_path patterns w sp : get_space w = (Ok (Some sp), w) →
  startswith (sp_space_code sp) "/" = false →
  (∀ path, is_ok (remote_listdir path) = true) →
  dict_get (w_local w) (local_dir sp module_path) = None →
  ∃ loc, sync_schema module_path patterns w = (Ok tt, set_w_local loc w) ∧
    mirrors sp module_path patterns (w_local w) loc.
Proof. intros Hsp Hs Hl Hd. destruct (sync_run module_path patterns w sp) as (loc & ? & ? & _); eauto. Qed.

(** ** Loading the files of a directory *)

(** The entry a file gives the registry, if any *)
Definition declared (sp : space_row) (name content : string) : option (string * pyval) :=
  let ext := suffix (basename name) in
  if bool_decide (ext ∈ [".yaml"; ".yml"; ".json"]) then
    match (config ← (if String.eqb ext ".json" then loads content else yaml_load content);
           uc ← (wf ← getitem config "workflow"; getitem wf "user_code");
           config ← annotate_config config sp;
           user_code ← as_str uc;
           Ok (sp_space_code sp +:+ "." +:+ user_code, config)) with
    | Ok e => Some e
    | Raise _ => None
    end
  else None.
Lemma load_file_run sp name content w : load_workflow_file sp (name, content) w
  = (Ok tt, match declared sp name content with
            | Some (code, v) => set_w_registry (dict_set (w_registry w) code v) w
            | None => w
            end).
Proof.
  unfold load_workflow_file, declared, when. cbn [fst snd]. destruct (bool_decide _); [|done].
  unfold try_except, mbind, ST_bind, lift.
  destruct (if String.eqb _ _ then _ else _) as [config|]; [|done]. cbn [res_bind].
  destruct (getitem config "workflow") as [wf|]; [|done]. cbn [res_bind].
  destruct (getitem wf "user_code") as [uc|]; [|done].
  destruct (annotate_config config sp) as [config'|]; [|done].
  cbn. by destruct (as_str uc) as [user_code|].
Qed.
(** Loading a list of files registers under each code the configuration of one of
    the files that declare it. *)
Lemma load_files_run sp l w : ∃ w', for_each l (load_workflow_file sp) w = (Ok tt, w') ∧
  ∀ code,
    (∃ name content v, (name, content) ∈ l ∧ declared sp name content = Some (code, v) ∧
       dict_get (w_registry w') code = Some v) ∨
    (∀ name content v, (name, content) ∈ l → declared sp name content ≠ Some (code, v)) ∧
    dict_get (w_registry w') code = dict_get (w_registry w) code.
Proof.
  revert w. induction l as [|[name content] l IH]; intros w.
  { exists w. split; [done|]. intros code. right. split; [|done]. by intros ? ? ? ?%elem_of_nil. }
  cbn [for_each]. rewrite (bind_ok _ _ _ _ _ (load_file_run sp name content w)).
  edestruct IH as (w' & E & Hw'). exists w'. split; [exact E|]. intros code.
  destruct (Hw' code) as [(n & c & v & Hin & Hd & Hg)|[Hno Hg]].
  { left. exists n, c, v. split; [by right|done]. }
  destruct (declared sp name content) as [[code' v]|] eqn:Ed.
  - destruct (decide (code = code')) as [->|Hne].
    + left. exists name, content, v. split; [left|]. split; [done|]. rewrite Hg. apply dict_get_set_eq.
    + right. split; [|by rewrite Hg; cbn; rewrite dict_get_set_ne].
      intros n c v' [[= -> ->]|Hin]%elem_of_cons; [|by apply Hno]. rewrite Ed. by intros [= ->].
  - right. split; [|done]. intros n c v' [[= -> ->]|Hin]%elem_of_cons; [by rewrite Ed|by apply Hno].
Qed.

(** ** A lookup that goes to the remote storage *)

(** The code of a space as it appears in paths and in SQL *)
Record plain_code (s : string) : Prop := {
  pc_lower : lower s = s;
  pc_nonempty : s ≠ "";
  pc_first : startswith s "/" = false;
  pc_last : endswith s "/" = false;
  pc_public : s ≠ "public"
}.
(** The names of a configuration file *)
Definition config_names : list string := ["workflow.json"; "workflow.yaml"; "workflow.yml"].
Lemma config_name_facts f : f ∈ config_names →
  has_char c_slash f = false ∧ existsb (fnmatch f) default_patterns = true ∧
  fnmatch f "workflow.*" = true.
Proof. intros [->|[->|[->|[]%elem_of_nil]%elem_of_cons]%elem_of_cons]%elem_of_cons; by vm_compute. Qed.

Lemma basename_below d f : has_char c_slash f = false → basename (d +:+ "/" +:+ f) = f.
Proof. intros Hf. unfold basename, path_split.
  change (d +:+ "/" +:+ f) with (d +:+ String c_slash f). by rewrite rsplit1_app. Qed.
Lemma remote_dir_plain sp : plain_code (sp_space_code sp) →
  remote_dir sp = sp_space_code sp +:+ "/" +:+ "workflows".
Proof. intros []. unfold remote_dir. cbn [construct_path fold_left]. by apply join2_below. Qed.
Lemma local_remote_dir sp : plain_code (sp_space_code sp) →
  local_name (remote_dir sp) = construct_path [storage_root; "local"] +:+ "/" +:+ remote_dir sp.
Proof.
  intros Hp. pose proof Hp as [? ? ? ? ?]. rewrite remote_dir_plain by done. apply local_name_plain.
  - by destruct (sp_space_code sp).
  - destruct (sp_space_code sp) as [|c s]; [done|]. cbn [append]. by rewrite startswith_char in *.
Qed.
Lemma workflows_dir sp : plain_code (sp_space_code sp) →
  construct_path [storage_root; "local"; sp_space_code sp; "workflows"] = local_name (remote_dir sp).
Proof.
  intros Hp. rewrite local_remote_dir, remote_dir_plain by done. destruct Hp as [? ? ? ? ?].
  cbn [construct_path fold_left]. destruct (join2_last storage_root "l" "ocal") as [H1 H2]; [done|].
  rewrite (join2_below (join2 storage_root "local")); [|done|done|by rewrite H2].
  rewrite join2_below; [by rewrite <- !str_app_assoc|done|by destruct (join2 storage_root _)|].
  destruct (sp_space_code sp) as [|c s]; [done|]. by rewrite str_app_assoc, endswith_char_app.
Qed.
Lemma local_name_below sp x : plain_code (sp_space_code sp) →
  below (local_name (remote_dir sp)) (local_name (remote_dir sp +:+ "/" +:+ x)) = true.
Proof.
  intros Hp. destruct (remote_plain (sp_space_code sp) x) as [H1 H2]; [by destruct Hp|].
  rewrite local_remote_dir, local_name_plain by done.
  unfold below, dir_prefix. apply startswith_iff. destruct (endswith _ "/").
  - exists ("/" +:+ x). by rewrite <- !str_app_assoc.
  - exists x. by rewrite <- !str_app_assoc.
Qed.

(** The files that [load_workflows_for_schema] reads *)
Definition config_files (sp : space_row) (loc : list (string * string)) : list (string * string) :=
  List.filter (λ f, below (local_name (remote_dir sp)) f.1 && fnmatch (basename f.1) "workflow.*") loc.
(** The registration of the space after the copy *)
Lemma register_run sp w : plain_code (sp_space_code sp) → get_space w = (Ok (Some sp), w) →
  w_path w = sp_space_code sp → sp_space_code sp ∈ List.filter is_tenant_schema (w_catalog w) →
  ∃ w', register_workflows (Some (sp_space_code sp)) w = (Ok tt, w') ∧
    for_each (config_files sp (w_local w)) (load_workflow_file sp) w = (Ok tt, w').
Proof.
  intros Hp Hsp Hpath Hcat. unfold register_workflows, schemas_for.
  assert (truthy_str (Some (sp_space_code sp)) = Some (sp_space_code sp)) as ->
    by (unfold truthy_str; by rewrite (proj2 (String.eqb_neq _ "") (pc_nonempty _ Hp))).
  destruct (load_files_run sp (config_files sp (w_local w)) w) as (w' & E & _).
  exists w'. split; [|exact E].
  rewrite (bind_ok _ _ w [sp_space_code sp] w).
  2:{ rewrite (bind_ok _ _ w (List.filter is_tenant_schema (w_catalog w)) w) by done.
      rewrite (pc_lower _ Hp). by rewrite bool_decide_eq_true_2. }
  cbn [for_each]. rewrite (bind_ok _ _ w tt w'); [done|].
  rewrite (bind_ok _ _ w tt w'); [done|]. unfold register_schema.
  rewrite (proj2 (String.eqb_neq _ "public") (pc_public _ Hp)).
  rewrite (bind_ok _ _ w tt w).
  2:{ unfold set_search_path, modify. rewrite (pc_lower _ Hp), <- Hpath. by destruct w. }
  unfold load_workflows_for_schema. apply try_ok. rewrite (bind_ok _ _ _ _ _ Hsp).
  rewrite (bind_ok _ _ w sp w) by done. rewrite workflows_dir by done.
  unfold workflow_files. by rewrite (bind_ok _ _ w _ w) by reflexivity.
Qed.

Lemma local_basename sp folder f module_path : plain_code (sp_space_code sp) →
  stored (remote_dir sp) (components module_path) folder f → has_char c_slash f = false →
  basename (local_name (folder +:+ "/" +:+ f)) = f.
Proof.
  intros Hp (cf & og & md & wf & _ & _ & _ & _ & _ & ->) Hf. rewrite <- !str_app_assoc.
  destruct (remote_plain (sp_space_code sp) (cf +:+ "/" +:+ og +:+ "/" +:+ md +:+ "/" +:+ wf +:+ "/" +:+ f))
    as [H1 H2]; [by destruct Hp|].
  rewrite local_name_plain by done. rewrite !str_app_assoc, <- str_app_assoc. by apply basename_below.
Qed.
Lemma stored_below sp folder f module_path : plain_code (sp_space_code sp) →
  stored (remote_dir sp) (components module_path) folder f →
  below (local_name (remote_dir sp)) (local_name (folder +:+ "/" +:+ f)) = true.
Proof.
  intros Hp (cf & og & md & wf & _ & _ & _ & _ & _ & ->). rewrite <- !str_app_assoc.
  by apply local_name_below.
Qed.
Lemma declared_truthy sp name content code v : declared sp name content = Some (code, v) → truthy v = true.
Proof.
  unfold declared. destruct (bool_decide _); [|done].
  destruct (if String.eqb _ _ then _ else _) as [config|]; [|done]. cbn [mbind res_bind].
  destruct (getitem config "workflow") as [wf|] eqn:Ew; [|done]. cbn [mbind res_bind].
  destruct (getitem wf "user_code") as [uc|]; [|done]. cbn [mbind res_bind].
  destruct (annotate_config config sp) as [config'|] eqn:Ea; [|done]. cbn [mbind res_bind].
  destruct (as_str uc); [|done]. intros [= _ <-]. unfold annotate_config in Ea. rewrite Ew in Ea.
  cbn [mbind res_bind] in Ea. destruct (setitem wf _ _) as [wf1|]; [|done]. cbn [mbind res_bind] in Ea.
  destruct (setitem wf1 _ _) as [wf2|]; [|done]. cbn [mbind res_bind] in Ea.
  destruct config as [| | | | |d]; try done. injection Ea as <-. simpl.
  apply negb_true_iff, bool_decide_eq_false_2. intros E. pose proof (dict_get_set_eq d "workflow" wf2) as Hg. by rewrite E in Hg.
Qed.

(** A lookup in a space, of a user code whose module the copy takes *)
Record looks_up (sp : space_row) (user_code module_path : string) (w : world) : Prop := {
  lu_code : plain_code (sp_space_code sp);
  lu_space : get_space w = (Ok (Some sp), w);
  lu_path : w_path w = sp_space_code sp;
  lu_catalog : sp_space_code sp ∈ List.filter is_tenant_schema (w_catalog w);
  lu_prefix : space_prefix user_code = sp_space_code sp;
  lu_module : module_path_of user_code = Ok module_path;
  lu_absent : truthy (default PNone (dict_get (w_registry w) user_code)) = false;
  lu_local : dict_get (w_local w) (local_dir sp module_path) = None;
  lu_names : NoDup (dict_keys (w_local w))
}.
(** The configuration comes from a remote file of the module, or from a local
    file of another one. *)
Definition origin (sp : space_row) (user_code module_path : string) (w : world) (config : pyval) : Prop :=
  ∃ name content, declared sp name content = Some (user_code, config) ∧
    (copied sp module_path default_patterns name content ∨
     dict_get (w_local w) name = Some content ∧ below (local_dir sp module_path) name = false).

Lemma lookup_remote sp module_path user_code folder f content config w :
  looks_up sp user_code module_path w → (∀ path, is_ok (remote_listdir path) = true) →
  stored (remote_dir sp) (components module_path) folder f → f ∈ config_names →
  remote_read (folder +:+ "/" +:+ f) = Ok content →
  declared sp f content = Some (user_code, config) →
  ∃ config' w', find_by_user_code user_code true w = (Ok config', w') ∧
    origin sp user_code module_path w config' ∧
    ((∀ c, origin sp user_code module_path w c → c = config) → config' = config).
Proof.
  intros [Hp Hsp Hpath Hcat Hpre Hmod Habs Hloc Hnd] Hl Hst Hf Hread Hdecl.
  destruct (sync_run module_path default_patterns w sp Hsp (pc_first _ Hp) Hl Hloc)
    as (loc & Esync & Hmir & Hnd').
  destruct (config_name_facts f Hf) as (Hslash & Hpat & Hname).
  set (w1 := set_w_local loc w) in *.
  destruct (register_run sp w1 Hp (get_space_local loc w _ Hsp) Hpath Hcat) as (w2 & Ereg & Eload).
  destruct (load_files_run sp (config_files sp loc) w1) as (w2' & E2 & Hreg).
  change (w_local w1) with loc in Eload. rewrite Eload in E2. injection E2 as <-.
  assert (copied sp module_path default_patterns (local_name (folder +:+ "/" +:+ f)) content) as Hcop
    by (exists folder, f; eauto).
  assert (dict_get loc (local_name (folder +:+ "/" +:+ f)) = Some content) as Hget
    by (apply Hmir; by left).
  assert (∀ v, dict_get (w_registry w2) user_code = Some v → truthy v = true →
    find_by_user_code user_code true w = (Ok v, w2)) as Hfind.
  { intros v Hv Ht. unfold find_by_user_code.
    rewrite (bind_ok _ _ w (default PNone (dict_get (w_registry w) user_code)) w) by done.
    rewrite Habs. cbn [negb andb]. rewrite (bind_ok _ _ w v w2).
    - by rewrite Ht.
    - rewrite Hmod. rewrite (bind_ok _ _ w module_path w) by done.
      rewrite (bind_ok _ _ _ _ _ Esync), Hpre, (bind_ok _ _ _ _ _ Ereg).
      unfold lookup_workflow, gets. by rewrite Hv. }
  destruct (Hreg user_code) as [(name & c & v & Hin & Hd & Hv)|[Hno _]].
  - apply list_elem_of_In, filter_In in Hin as [Hin _]. apply list_elem_of_In, dict_elem_get in Hin;
      [|by apply Hnd'].
    assert (origin sp user_code module_path w v) as Hv'.
    { exists name, c. split; [done|]. apply Hmir in Hin. naive_solver. }
    exists v, w2. split; [|by eauto]. apply Hfind; [done|]. by eapply declared_truthy.
  - exfalso. apply (Hno (local_name (folder +:+ "/" +:+ f)) content config).
    + apply list_elem_of_In, filter_In. split; [by apply list_elem_of_In, dict_get_elem|].
      cbn [fst]. rewrite (stored_below sp folder f module_path) by done.
      by rewrite (local_basename sp folder f module_path).
    + rewrite <- Hdecl. unfold declared. rewrite (local_basename sp folder f module_path) by done.
      assert (basename f = f) as -> by (unfold basename, path_split; by rewrite rsplit1_none). done.
Qed.

(** C24: a lookup finds what is only in the remote storage.  When a configuration
    file of the module that a user code names declares that code, the lookup
    that may copy succeeds, and what it returns is a configuration that declares
    the code, read from a remote file of the module or from a local file of
    another module that declares the same code; when the file is the only one
    that declares it, the lookup returns its configuration. *)
Theorem lookup_finds_remote sp module_path user_code folder f content config w :
  looks_up sp user_code module_path w → (∀ path, is_ok (remote_listdir path) = true) →
  stored (remote_dir sp) (components module_path) folder f → f ∈ config_names →
  remote_read (folder +:+ "/" +:+ f) = Ok content →
  declared sp f content = Some (user_code, config) →
  ∃ config' w', find_by_user_code user_code true w = (Ok config', w') ∧
    origin sp user_code module_path w config' ∧
    ((∀ c, origin sp user_code module_path w c → c = config) → config' = config).
Proof. intros. by eapply lookup_remote. Qed.
End Sync.

(** ** A remote storage with one workflow *)

Definition std_text : string :=
  dumps false None (PDict [("workflow", PDict [("user_code", PStr "com.finmars.std:run")])]).
Definition std_tree (read : string → res string) : Backend := {|
  remote_listdir := λ path, Ok (
    if String.eqb path "space00000/workflows" then (["com"], [])
    else if String.eqb path "space00000/workflows/com" then (["finmars"], [])
    else if String.eqb path "space00000/workflows/com/finmars" then (["std"; "other"], [])
    else if String.eqb path "space00000/workflows/com/finmars/std" then (["run"], [])
    else if String.eqb path "space00000/workflows/com/finmars/std/run" then ([], ["workflow.json"; "notes.txt"])
    else ([], []));
  remote_read := read;
  yaml_load := λ _, Raise ValueError |}.
Definition std_backend : Backend := std_tree (λ path,
  if String.eqb path "space00000/workflows/com/finmars/std/run/workflow.json" then Ok std_text
  else Raise (PyException "no file")).
(** A worker in the space, with a stale file of the module *)
Definition std_world : world :=
  set_w_local [("/var/app/workflow/local/space00000/workflows/com/finmars/std/old.py", "x = 1")]
    (set_w_path "space00000" (demo_world (demo_tenant PNone [] []))).
Lemma std_stored read comps : comps = ["com"; "finmars"; "std"] →
  @stored (std_tree read) "space00000/workflows" comps "space00000/workflows/com/finmars/std/run" "workflow.json".
Proof.
  intros ->. exists "com", "finmars", "std", "run". cbn zeta.
  repeat split; try (eexists; split; [reflexivity|left]).
Qed.
Lemma std_looks_up :
  @looks_up demo_platform demo_space "space00000.com.finmars.std:run" "com/finmars/std" std_world.
Proof.
  split; [split; done|reflexivity|reflexivity|by apply (bool_decide_unpack _)|reflexivity|reflexivity
         |reflexivity|reflexivity|by apply (bool_decide_unpack _)].
Qed.
Lemma sync_mirrors_witness : ∃ loc,
  @sync_schema _ std_backend "com/finmars/std" default_patterns std_world
    = (Ok tt, set_w_local loc std_world) ∧
  dict_get loc "/var/app/workflow/local/space00000/workflows/com/finmars/std/run/workflow.json" = Some std_text ∧
  dict_get loc "/var/app/workflow/local/space00000/workflows/com/finmars/std/old.py" = None.
Proof.
  destruct (@sync_mirrors demo_platform std_backend "com/finmars/std" default_patterns std_world demo_space
    eq_refl eq_refl (λ _, eq_refl) eq_refl) as (loc & E & Hm).
  exists loc. split; [exact E|]. split.
  - apply Hm. left. exists "space00000/workflows/com/finmars/std/run", "workflow.json".
    split; [by apply std_stored|]. by split_and!.
  - destruct (dict_get loc _) as [c|] eqn:Ec; [|done]. exfalso.
    assert (loc = [("/var/app/workflow/local/space00000/workflows/com/finmars/std/run/workflow.json", std_text)])
      as ->; [|done].
    pose proof (f_equal (λ p : res unit * world, w_local p.2) E) as El. cbn in El. rewrite <- El. by vm_compute.
Defined.
Lemma lookup_finds_remote_witness : ∃ config w',
  @find_by_user_code _ std_backend "space00000.com.finmars.std:run" true std_world = (Ok config, w') ∧
  @origin demo_platform std_backend demo_space "space00000.com.finmars.std:run" "com/finmars/std"
    std_world config.
Proof.
  destruct (@lookup_finds_remote demo_platform std_backend demo_space "com/finmars/std"
    "space00000.com.finmars.std:run" "space00000/workflows/com/finmars/std/run" "workflow.json" std_text
    (PDict [("workflow", PDict [("user_code", PStr "com.finmars.std:run");
             ("realm_code", PStr "realm00000"); ("space_code", PStr "space00000")])]) std_world)
    as (c & w' & E & Ho & _).
  - exact std_looks_up.
  - done.
  - by apply std_stored.
  - left.
  - reflexivity.
  - by vm_compute.
  - by exists c, w'.
Defined.
