(* ===== verification/Registry.v ===== *)
(** * What the registry of workflows holds

    [SystemWorkflowManager.workflows] of workflow/system.py is a dictionary any
    worker fills from files that users write.  Whatever the files hold, its
    entries are well typed, and what a lookup finds is the entry of that key. *)
From Stdlib Require Import Ascii String.
From stdpp Require Import base list strings numbers gmap sets.
From S2P Require Import Prelude PyStr PyVal Json Paths World Demo Graph Finmars Models Manager System.
Local Open Scope string_scope.
Local Open Scope Z_scope.
Local Open Scope list_scope.

(** An entry of the registry: a configuration whose [workflow] section has a
    string for a user code and names the space it was loaded for, under the key
    these two make *)
Definition typed_entry (kv : string * pyval) : Prop :=
  ∃ d user_code space_code, getitem kv.2 "workflow" = Ok (PDict d) ∧
    dict_get d "user_code" = Some (PStr user_code) ∧
    dict_get d "space_code" = Some (PStr space_code) ∧
    kv.1 = space_code +:+ "." +:+ user_code.
Definition Typed (w : world) : Prop := Forall typed_entry (w_registry w).

(** Two settings of other keys leave the user code in place. *)
Lemma annotate_typed config sp config' user_code :
  (wf ← getitem config "workflow"; getitem wf "user_code") = Ok (PStr user_code) →
  annotate_config config sp = Ok config' →
  typed_entry (sp_space_code sp +:+ "." +:+ user_code, config').
Proof.
  intros Huc. unfold annotate_config. destruct (getitem config "workflow") as [wf|] eqn:Ew; [|done].
  simpl in Huc |- *. destruct wf as [| | | | |d]; try done. simpl in Huc.
  destruct (dict_get d "user_code") as [u|] eqn:Eu; [|done]. simplify_eq.
  destruct config as [| | | | |top]; try done. intros [= <-].
  set (d' := dict_set _ "space_code" _).
  exists d', user_code, (sp_space_code sp). split_and!; [simpl; by rewrite dict_get_set_eq| | |done].
  - unfold d'. by rewrite !dict_get_set_ne.
  - unfold d'. by rewrite dict_get_set_eq.
Qed.
Lemma typed_set l key config : Forall typed_entry l → typed_entry (key, config) →
  Forall typed_entry (dict_set l key config).
Proof.
  intros Hl Hc. induction Hl as [|[k v] l Hv Hl IH]; simpl; [by constructor|].
  destruct (decide _) as [->|]; by constructor.
Qed.

Lemma typed_gets {A} (f : world → A) : Keeps Typed (gets f) anything.
Proof. by apply keeps_gets. Qed.
(** A write outside the registry *)
Lemma typed_modify (f : world → world) : (∀ w, w_registry (f w) = w_registry w) →
  Keeps Typed (modify f) anything.
Proof. intros Hf. apply keeps_modify; [|done]. intros w Hw. unfold Typed. by rewrite Hf. Qed.
Lemma typed_register key config : typed_entry (key, config) → Keeps Typed (register key config) anything.
Proof. intros Hc. apply keeps_modify; [|done]. intros w Hw. by apply typed_set. Qed.
Lemma typed_filter {R} `{Model R} (P : R → bool) : Keeps Typed (objects_filter P) anything.
Proof.
  intros w Hw. split; [|done]. unfold objects_filter, mbind, ST_bind, current_tenant.
  by destruct (w_tenants w !! w_path w).
Qed.
Lemma typed_get_space : Keeps Typed get_space anything.
Proof. unfold get_space. solve_keeps. apply typed_filter. Qed.
Lemma typed_require {A} (o : option A) : Keeps Typed (require o) anything.
Proof. unfold require. destruct o; [by apply keeps_ret|apply keeps_raise]. Qed.
#[local] Hint Resolve typed_gets typed_get_space typed_require : keeps.
#[local] Hint Extern 1 (Keeps _ (modify _) _) => by apply typed_modify : keeps.

Section Registry.
Context `{Platform} `{Backend}.

Lemma typed_load_file sp f : Keeps Typed (load_workflow_file sp f) anything.
Proof.
  unfold load_workflow_file. apply keeps_when, keeps_try; [|solve_keeps].
  eapply keeps_bind with (φ := anything); [by apply keeps_lift|]. intros config _.
  eapply keeps_bind with (φ := λ uc, (wf ← getitem config "workflow"; getitem wf "user_code") = Ok uc);
    [by apply keeps_lift|]. intros uc Huc.
  eapply keeps_bind with (φ := λ config', annotate_config config sp = Ok config');
    [by apply keeps_lift|]. intros config' Hc.
  eapply keeps_bind with (φ := λ s, uc = PStr s).
  { apply keeps_lift. intros s. destruct uc; simpl; try done. by intros [= ->]. }
  intros s ->. by apply typed_register, (annotate_typed config).
Qed.
#[local] Hint Resolve typed_load_file : keeps.
Lemma typed_register_workflows o : Keeps Typed (register_workflows o) anything.
Proof.
  unfold register_workflows, schemas_for, get_all_tenant_schemas, register_schema, set_search_path,
    load_workflows_for_schema, workflow_files. solve_keeps.
Qed.
Lemma typed_rmtree p : Keeps Typed (rmtree p) anything.
Proof. intros w Hw. unfold rmtree. by destruct (existsb _ _). Qed.
#[local] Hint Resolve typed_register_workflows typed_rmtree : keeps.
Lemma typed_for_dirs comps i path body :
  (∀ d, Keeps Typed (body d) anything) → Keeps Typed (for_dirs comps i path body) anything.
Proof.
  intros Hb. unfold for_dirs. eapply keeps_bind with (φ := anything); [solve_keeps|].
  intros l _. apply keeps_for_each. intros d _. by apply keeps_when.
Qed.
Lemma typed_sync_schema module_path ps : Keeps Typed (sync_schema module_path ps) anything.
Proof.
  unfold sync_schema, clear_local, local_exists. solve_keeps. do 4 (apply typed_for_dirs; intros ?).
  unfold sync_file, write_local. solve_keeps.
Qed.
Lemma typed_lookup key : Keeps Typed (lookup_workflow key)
  (λ v, truthy v = true → typed_entry (key, v)).
Proof.
  apply keeps_gets. intros w Hw. destruct (dict_get (w_registry w) key) as [v|] eqn:E; [|done].
  intros _. unfold Typed in Hw. rewrite Forall_forall in Hw. by apply Hw, dict_get_elem.
Qed.

(** C18: the registry is well typed.  However users write their configuration
    files, registering the workflows of one schema or of all and looking a
    workflow up, with the copy from the storage or without, keep every entry a
    configuration with a user code and a space code under the key
    "<space_code>.<user_code>"; and what a lookup returns is the entry of the
    code it was asked for, so the space that code names is the configuration's. *)
Theorem registry_typed w : Typed w →
  (∀ o, Typed (register_workflows o w).2) ∧
  (∀ user_code sync_remote r w', find_by_user_code user_code sync_remote w = (r, w') →
     Typed w' ∧ ∀ config, r = Ok config → typed_entry (user_code, config)).
Proof.
  intros Hw. split; [by intros o; apply typed_register_workflows|].
  intros uc b r w' E.
  assert (Keeps Typed (find_by_user_code uc b) (λ v, typed_entry (uc, v))) as Hk.
  { unfold find_by_user_code. eapply keeps_bind; [apply typed_lookup|]. intros v Hv.
    eapply keeps_bind with (φ := λ v, truthy v = true → typed_entry (uc, v)).
    - destruct (negb (truthy v) && b); [|by apply keeps_ret].
      eapply keeps_bind with (φ := anything); [by apply keeps_lift|]. intros p _.
      eapply keeps_bind; [apply typed_sync_schema|]. intros _ _.
      eapply keeps_bind; [apply typed_register_workflows|]. intros _ _. apply typed_lookup.
    - intros v' Hv'. destruct (truthy v'); [apply keeps_ret; by apply Hv'|apply keeps_raise]. }
  destruct (Hk w Hw) as [H1 H2]. rewrite E in H1, H2. split; [exact H1|exact H2].
Qed.
End Registry.

(** A registry with the definition of the demonstration tenant *)
Definition typed_config : pyval :=
  PDict [("workflow", PDict [("user_code", PStr "com.demo:wf"); ("space_code", PStr "space00000")])].
Definition typed_world : world :=
  set_w_registry [("space00000.com.demo:wf", typed_config)] (demo_world (demo_tenant PNone [] [])).
Lemma registry_typed_witness : Typed typed_world ∧
  typed_entry ("space00000.com.demo:wf", typed_config) ∧
  Typed (@register_workflows _ demo_backend None typed_world).2.
Proof.
  assert (Typed typed_world) as Ht.
  { apply Forall_singleton. by exists [("user_code", PStr "com.demo:wf"); ("space_code", PStr "space00000")],
      "com.demo:wf", "space00000". }
  split; [exact Ht|].
  destruct (@registry_typed _ demo_backend typed_world Ht) as [Hr Hf].
  split; [|apply Hr].
  exact (proj2 (Hf "space00000.com.demo:wf" true (Ok typed_config) typed_world eq_refl) typed_config eq_refl).
Defined.
