(* ===== verification/Views.v ===== *)
(** * The HTTP views (workflow/views.py)

    Each view takes the request and gives a response, or raises what the
    framework turns into an error response. *)
From Stdlib Require Import Ascii String.
From stdpp Require Import base list strings numbers gmap sets.
From S2P Require Import Prelude PyStr PyVal Json World Demo Graph Finmars Models Manager System Builder.
From S2P Require Import Launch.
Local Open Scope string_scope.
Local Open Scope Z_scope.
Local Open Scope list_scope.

(** A request after authentication and the tenant middleware *)
Record view_request : Type := ViewRequest {
  vr_user : user_row;
  vr_realm_code : option string;
  vr_space_code : option string;
  vr_data : pyval
}.
(** [Response(data, status)] *)
Record view_response : Type := Resp { vs_status : Z; vs_data : pyval }.
Definition ok_response (data : pyval) : view_response := Resp 200 data.
Definition message_response (status : Z) (text : string) : view_response :=
  Resp status (PDict [("message", PStr text)]).

(** The conversions of the framework's [IntegerField] *)
Class Fields : Type := { integer_field : pyval → option Z }.

(** [self.get_object()] *)
Definition get_object {R} `{Model R} (pk : Z) : M R :=
  try_except (get_by_id pk)
    (λ e, match e with DoesNotExist _ => raise Http404 | _ => raise e end).

(** The statuses the cancel actions accept *)
Definition cancellable (s : wf_status) : bool :=
  bool_decide (s ∈ [WInit; WProgress; WWait]).
(** The statuses of the tasks that block a resume *)
Definition active_task (t : task_row) : bool :=
  bool_decide (tk_status t ∈ [TProgress; TInit]).

(** [request.data["ids"]] through [BulkSerializer] *)
Definition bulk_ids `{Fields} (data : pyval) : option (list Z) :=
  match data with
  | PDict d =>
      match dict_get d "ids" with
      | Some (PList l) => mapM integer_field l
      | _ => None
      end
  | _ => None
  end.

(** [workflow.delete()]: its tasks go with it, its children lose their parent. *)
Definition delete_workflow (wf : workflow_row) : M unit :=
  _ ← delete_rows (λ t : task_row, tk_workflow t =? wf_id wf);
  _ ← update_rows (λ c : workflow_row, bool_decide (wf_parent c = Some (wf_id wf))) (set_wf_parent None);
  delete_rows (λ w : workflow_row, wf_id w =? wf_id wf).

(** A request attribute the views use as a string *)
Definition require_code (o : option string) : M string :=
  match o with Some c => mret c | None => raise TypeError end.

Section Views.
Context `{Platform} `{Fields} `{Manager}.

(** ** Workflows *)

(** [run_workflow], the same in both view sets *)
Definition run_workflow (r : view_request) : M view_response :=
  user_code ← lift (v ← getitem (vr_data r) "user_code"; as_str v);
  payload ← lift (getitem (vr_data r) "payload");
  platform_task_id ← lift (get (vr_data r) "platform_task_id");
  space_code ← require_code (vr_space_code r);
  let user_code := if contains user_code space_code then user_code
                   else space_code +:+ "." +:+ user_code in
  _ ← get_by_user_code user_code true;
  data ← execute_workflow (us_username (vr_user r)) user_code payload (vr_realm_code r) space_code
           (match platform_task_id with PInt z => Some z | _ => None end) None;
  mret (ok_response data).
Definition template_run_workflow : view_request → M view_response := run_workflow.

(** [relaunch] *)
Definition relaunch (r : view_request) (pk : Z) : M view_response :=
  obj ← get_by_id (R:=workflow_row) pk;
  user_code ← require (wf_user_code obj);
  space_code ← require_code (vr_space_code r);
  data ← execute_workflow (us_username (vr_user r)) user_code (wf_payload obj) (vr_realm_code r)
           space_code None None;
  mret (ok_response data).

(** [cancel] *)
Definition cancel (pk : Z) : M view_response :=
  workflow ← get_by_id (R:=workflow_row) pk;
  if cancellable (wf_status_ workflow) then
    workflow ← cancel_workflow workflow;
    mret (ok_response (wf_to_dict workflow true))
  else mret (message_response 200 "Could not Cancel finished task").

(** [bulk_cancel]: invalid data has no ["ids"]. *)
Definition bulk_cancel (r : view_request) : M view_response :=
  ids ← (match bulk_ids (vr_data r) with Some ids => mret ids | None => raise (KeyError "ids") end);
  workflows ← objects_filter (λ wf, bool_decide (wf_id wf ∈ ids) && cancellable (wf_status_ wf));
  _ ← for_each workflows (λ wf, _ ← cancel_workflow wf; mret tt);
  mret (ok_response (PDict [("status", PStr "ok")])).

(** [bulk_delete] *)
Definition bulk_delete (r : view_request) : M view_response :=
  ids ← (match bulk_ids (vr_data r) with
         | Some ids => mret ids | None => raise (ValidationError "ids") end);
  workflows ← objects_filter (λ wf, bool_decide (wf_id wf ∈ ids));
  _ ← for_each workflows (λ wf, wf ← cancel_workflow wf; delete_workflow wf);
  mret (ok_response (PDict [("status", PStr "ok")])).

(** [pause_workflow] *)
Definition pause_workflow (pk : Z) : M view_response :=
  workflow ← get_object (R:=workflow_row) pk;
  if bool_decide (wf_status_ workflow = WProgress) then
    workflow ← save_workflow (set_wf_status_ WWait workflow);
    mret (message_response 200 ("Workflow " +:+ str_of_Z (wf_id workflow) +:+ " paused successfully."))
  else mret (message_response 400 "Cannot pause workflow that is not in progress.").

(** The message [resume_workflow] sends for the node it stored *)
Definition resume_node (workflow : workflow_row) (node_id : string) : M unit :=
  template ← fetch_fk (wf_template workflow);
  wt ← require template;
  '(nodes, connections, adj) ← lift (read_template wt);
  sp ← get_by_id (R:=space_row) (wf_space workflow);
  publish (Msg "workflow.tasks.workflows.process_next_node" []
    [("current_node_id", PStr node_id); ("workflow_id", PInt (wf_id workflow));
     ("nodes", PDict nodes); ("adjacency_list", PDict ((λ kv, (kv.1, PList kv.2)) <$> adj));
     ("connections", connections); ("context", context_of sp)] (PStr "workflow")).
(** [resume_workflow] *)
Definition resume_workflow (r : view_request) (pk : Z) : M view_response :=
  new_payload ← lift (get (vr_data r) "payload");
  workflow ← get_object (R:=workflow_row) pk;
  if negb (bool_decide (wf_status_ workflow = WWait)) then
    mret (message_response 400 "Cannot resume workflow that is not paused.")
  else
    active_tasks ← objects_filter (λ t, (tk_workflow t =? wf_id workflow) && active_task t);
    match active_tasks with
    | _ :: _ => mret (message_response 400 "Cannot resume workflow while there are active tasks running.")
    | [] =>
        let workflow := if truthy new_payload then set_wf_payload new_payload workflow
                        else workflow in
        workflow ← save_workflow (set_wf_status_ WProgress workflow);
        match truthy_str (wf_current_node_id workflow) with
        | Some node_id =>
            _ ← resume_node workflow node_id;
            mret (message_response 200
                    ("Workflow " +:+ str_of_Z (wf_id workflow) +:+ " resumed successfully."))
        | None => mret (message_response 400 "No node to resume from.")
        end
    end.

(** ** Schedules *)

(** [run_manual]: every error but a missing schedule is a 500. *)
Definition run_manual (pk : Z) : M view_response :=
  try_except
    (schedule ← get_object (R:=schedule_row) pk;
     if negb (sc_enabled schedule)
     then mret (message_response 400 "Cannot run a disabled schedule.")
     else
       sp ← get_by_id (R:=space_row) (sc_space schedule);
       crontab ← fetch_fk (R:=crontab_row) (sc_crontab schedule);
       ct ← require crontab;
       _ ← publish (Msg "workflow.tasks.workflows.execute"
             [PStr (sp_space_code sp +:+ "." +:+ sc_workflow_user_code schedule);
              sc_payload schedule; PBool (sc_is_manager schedule)]
             [("context", context_of sp); ("crontab_id", PInt (ct_id ct));
              ("schedule_id", PInt (sc_id schedule))] (PStr "workflow"));
       mret (message_response 202 "Schedule is being run manually."))
    (λ e, match e with
          | DoesNotExist "Schedule" => mret (Resp 404 (PDict [("error", PStr "Schedule not found.")]))
          | _ => mret (Resp 500 (PDict [("error", PStr (exn_text e))]))
          end).

(** ** Storage and definitions *)

(** One entry of [DefinitionViewSet.list]: [{"user_code": ..., **workflow}] *)
Definition definition_entry (space_code : pyval) (kv : string * pyval) : res (list pyval) :=
  workflow ← getitem kv.2 "workflow";
  sc ← getitem workflow "space_code";
  if py_eqb sc space_code then
    match workflow with
    | PDict d => Ok [PDict (dict_update [("user_code", PStr kv.1)] d)]
    | _ => Raise TypeError
    end
  else Ok [].
(** The registry is listed in the order of its keys, which are distinct. *)
Definition list_definitions (r : view_request) : M view_response :=
  workflows ← gets w_registry;
  l ← lift (map_res (sort_items workflows) (definition_entry (opt_str (vr_space_code r))));
  mret (ok_response (PList (concat l))).

Context `{Backend} `{UserCode}.
(** [RefreshStorageViewSet.list]: errors are logged. *)
Definition refresh_storage (r : view_request) : M view_response :=
  _ ← try_except
        (_ ← sync_remote_storage (vr_space_code r);
         register_workflows (vr_space_code r))
        (λ _, mret tt);
  mret (ok_response (PDict [("status", PStr "ok")])).
End Views.

(** ** What the definitions view shows *)

Section Definitions.
Context `{Platform}.

(** A configuration as [load_workflows_for_schema] leaves it in the registry:
    with a [workflow] section that names its space *)
Definition registered_config (config : pyval) : Prop :=
  ∃ d c, getitem config "workflow" = Ok (PDict d) ∧ dict_get d "space_code" = Some c.
Definition entry_of (space_code : pyval) (kv : string * pyval) : list pyval :=
  match definition_entry space_code kv with Ok l => l | Raise _ => [] end.
Lemma definition_entry_total space_code kv : registered_config kv.2 →
  definition_entry space_code kv = Ok (entry_of space_code kv).
Proof using.
  intros (d & c & Hd & Hc). unfold entry_of, definition_entry. rewrite Hd. cbn.
  rewrite Hc. cbn. by destruct (py_eqb _ _).
Qed.
Lemma entry_of_elem space_code kv v : registered_config kv.2 → v ∈ entry_of space_code kv →
  ∃ d c, getitem kv.2 "workflow" = Ok (PDict d) ∧ dict_get d "space_code" = Some c ∧
    py_eqb c space_code = true ∧ v = PDict (dict_update [("user_code", PStr kv.1)] d).
Proof using.
  intros (d & c & Hd & Hc). unfold entry_of, definition_entry. rewrite Hd. cbn.
  rewrite Hc. cbn. destruct (py_eqb c space_code) eqn:E; [|set_solver].
  intros ->%list_elem_of_singleton. eauto 10.
Qed.

(** The definitions view.  With a registry of loaded configurations, the
    view answers, writes nothing, and lists exactly the configurations whose
    [space_code] is that of the request, each as the [workflow] section with the
    registry key as [user_code] unless the section has its own. *)
Theorem list_definitions_own (r : view_request) w :
  Forall (λ kv, registered_config kv.2) (w_registry w) →
  ∃ l, list_definitions r w = (Ok (ok_response (PList l)), w) ∧
    ∀ v, v ∈ l ↔ ∃ key config d c, (key, config) ∈ w_registry w ∧
      getitem config "workflow" = Ok (PDict d) ∧ dict_get d "space_code" = Some c ∧
      py_eqb c (opt_str (vr_space_code r)) = true ∧
      v = PDict (dict_update [("user_code", PStr key)] d).
Proof using.
  intros Hreg. set (sc := opt_str (vr_space_code r)).
  exists (concat (entry_of sc <$> sort_items (w_registry w))).
  assert (Forall (λ kv, registered_config kv.2) (sort_items (w_registry w))) as Hs.
  { eapply Permutation_Forall; [symmetry; apply sort_items_keys|done]. }
  split.
  - unfold list_definitions, mbind, ST_bind, gets, lift. fold sc.
    rewrite (map_res_ok _ _ (entry_of sc)); [done|]. intros kv Hkv. apply definition_entry_total.
    exact (proj1 (Forall_forall _ _) Hs kv Hkv).
  - intros v. rewrite list_elem_of_In, in_concat. setoid_rewrite <- list_elem_of_In.
    setoid_rewrite list_elem_of_fmap. split.
    + intros (l & ([key config] & -> & Hin) & Hv).
      pose proof (proj1 (Forall_forall _ _) Hs _ Hin) as Hc. rewrite sort_items_keys in Hin.
      destruct (entry_of_elem sc _ v Hc Hv) as (d & c & H1 & H2 & H3 & H4). simpl in *.
      exists key, config, d, c. done.
    + intros (key & config & d & c & Hin & H1 & H2 & H3 & ->).
      exists (entry_of sc (key, config)). split.
      * exists (key, config). split; [done|]. by rewrite sort_items_keys.
      * unfold entry_of, definition_entry. simpl. rewrite H1. simpl. rewrite H2. simpl.
        rewrite H3. by left.
Qed.
End Definitions.

Lemma list_definitions_own_witness :
  let config sc := PDict [("workflow", PDict [("user_code", PStr "com.demo:wf"); ("space_code", PStr sc)])] in
  let w := set_w_registry [("space00000.com.demo:wf", config "space00000");
                           ("space11111.com.demo:wf", config "space11111")]
             (demo_world (demo_tenant PNone [] [])) in
  let r := ViewRequest demo_user (Some "realm00000") (Some "space00000") PNone in
  ∃ l, list_definitions r w = (Ok (ok_response (PList l)), w) ∧ length l = 1%nat.
Proof.
  intros config w r. destruct (list_definitions_own r w) as (l & Hl & _).
  - repeat constructor; eexists _, _; split; reflexivity.
  - exists l. split; [exact Hl|]. revert Hl. vm_compute. by intros [= <-].
Defined.
