(* ===== verification/Lifecycle.v ===== *)
(** * Pausing, resuming and cancelling workflows

    The guards of the views of workflow/views.py as transitions of the status,
    what a pause does to the nodes waiting in the broker, and what a
    cancellation leaves behind. *)
From Stdlib Require Import Ascii String.
From stdpp Require Import base list strings numbers gmap sets relations.
From S2P Require Import Prelude PyStr PyVal Json World Demo Graph Finmars Models Manager Builder.
From S2P Require Import Launch Tasks Engine Fixture Flow Refine System Views.
Local Open Scope string_scope.
Local Open Scope Z_scope.
Local Open Scope list_scope.

(** ** The guards as an abstract transition system *)

Inductive action : Type := APause | AResume (busy : bool) | ACancel.
(** The status an action leads to, when its guard lets it through *)
Definition transition (a : action) (s : wf_status) : option wf_status :=
  match a, s with
  | APause, WProgress => Some WWait
  | AResume false, WWait => Some WProgress
  | ACancel, (WInit | WProgress | WWait) => Some WCanceled
  | _, _ => None
  end.

Section Guards.
Context `{Platform}.

Lemma get_object_run wf w t : cur w = Some t → the_row wf (rows (t_workflows t)) →
  get_object (wf_id wf) w = (Ok wf, w).
Proof. intros Hw Hr. apply try_ok. by eapply get_workflow_run. Qed.

(** Saving a workflow whose new status is not reported *)
Lemma save_unreported wf wf' w t : cur w = Some t → the_row wf (rows (t_workflows t)) →
  wf_id wf' = wf_id wf → is_final (wf_status_ wf') = false →
  ∃ w' t' wf1, save_workflow wf' w = (Ok wf1, w') ∧ cur w' = Some t' ∧
    the_row wf1 (rows (t_workflows t')) ∧ wf_status_ wf1 = wf_status_ wf' ∧ wf_id wf1 = wf_id wf ∧
    wf1 = set_wf_modified_at (w_clock w) wf' ∧ t_tasks t' = t_tasks t ∧ w_broker w' = w_broker w.
Proof.
  intros Hw Hr Hid Hf. unfold save_workflow. rewrite (bind_ok _ _ _ _ _ (save_run wf' w t Hw)).
  unfold after_save. simpl. rewrite Hf.
  set (tb := Table _ _). exists (with_tenant (set_t_workflows tb t) (tick w)).
  exists (set_t_workflows tb t), (set_wf_modified_at (w_clock w) wf').
  split_and!; [by destruct (truthy_id _)|by apply cur_with_tenant| |done..].
  by apply (the_row_save wf).
Qed.

(** The pause action accepts exactly the workflows in progress: it puts
    them in status WAIT and answers 200; every other one is answered 400 and
    nothing is written. *)
Theorem pause_guard wf w t : cur w = Some t → the_row wf (rows (t_workflows t)) →
  match transition APause (wf_status_ wf) with
  | Some st => ∃ r w' t' wf', pause_workflow (wf_id wf) w = (Ok r, w') ∧ vs_status r = 200 ∧
      cur w' = Some t' ∧ the_row wf' (rows (t_workflows t')) ∧ wf_id wf' = wf_id wf ∧
      wf_status_ wf' = st
  | None => ∃ r, pause_workflow (wf_id wf) w = (Ok r, w) ∧ vs_status r = 400
  end.
Proof.
  intros Hw Hr. unfold pause_workflow.
  rewrite (bind_ok _ _ _ _ _ (get_object_run wf w t Hw Hr)).
  destruct (wf_status_ wf) eqn:E; simpl; try (by eexists).
  destruct (save_unreported wf (set_wf_status_ WWait wf) w t Hw Hr) as
    (w' & t' & wf1 & Hs & Hw' & Hr' & Hst & Hid & _); [done|done|].
  rewrite (bind_ok _ _ _ _ _ Hs). do 4 eexists. split; [reflexivity|]. by split_and!.
Qed.
End Guards.

(** ** Cancellation *)

Section Cancel.
Context `{Platform}.

(** The tasks a cancellation stops: those that wait, run or wait for a child *)
Definition alive (x : task_row) : bool :=
  match tk_status x with TInit | TProgress | TNestedProgress => true | _ => false end.
Lemma to_cancel_alive x : to_cancel x = alive x.
Proof. unfold to_cancel, alive. by destruct (tk_status x). Qed.

(** What a cancellation makes of a row, for the tasks with the keys [keys] *)
Definition cancelled (keys : list Z) (x x' : task_row) : Prop :=
  tk_id x' = tk_id x ∧ tk_workflow x' = tk_workflow x ∧
  if bool_decide (tk_id x ∈ keys) && alive x
  then tk_status x' = TCanceled ∧ is_Some (tk_finished_at x')
  else x' = x.

Lemma cancelled_nil x : cancelled [] x x.
Proof. by split_and!. Qed.
Lemma cancelled_trans y keys x x1 x2 :
  cancelled [y] x x1 → cancelled keys x1 x2 → cancelled (y :: keys) x x2.
Proof.
  intros (Hi1 & Hw1 & H1) (Hi2 & Hw2 & H2). split_and!; [congruence..|].
  destruct (bool_decide (tk_id x ∈ [y]) && alive x) eqn:E1.
  - apply andb_true_iff in E1 as [E1%bool_decide_eq_true Ec].
    rewrite Ec, bool_decide_eq_true_2 by set_solver. simpl.
    destruct H1 as [Hs1 Hf1]. assert (alive x1 = false) as Ex
      by (unfold alive; by rewrite Hs1).
    rewrite Ex, andb_false_r in H2. by subst.
  - subst x1. destruct (alive x) eqn:Ec; [|by rewrite andb_false_r in *].
    rewrite andb_true_r in E1. apply bool_decide_eq_false in E1.
    by rewrite (bool_decide_ext (tk_id x ∈ y :: keys) (tk_id x ∈ keys)) by set_solver.
Qed.

(** The other effects of the loop: revocations only *)
Record loop_frame (w w' : world) (t t' : tenant) (revoked : list (option string)) : Prop := {
  lf_cur : cur w' = Some t';
  lf_tasks : t' = set_t_tasks (t_tasks t') t;
  lf_path : w_path w' = w_path w;
  lf_broker : w_broker w' = w_broker w;
  lf_revoked : w_revoked w' = w_revoked w ++ revoked
}.

Lemma NoDup_keys_filter (l : list task_row) P :
  NoDup (tk_id <$> l) → NoDup (tk_id <$> List.filter P l).
Proof.
  induction l as [|x l IH]; [done|]. rewrite fmap_cons. intros [Hx Hl]%NoDup_cons. simpl.
  destruct (P x); [|by apply IH]. rewrite fmap_cons. constructor; [|by apply IH].
  intros (y & E & Hy)%list_elem_of_fmap. apply Hx. rewrite E. apply list_elem_of_fmap_2.
  apply list_elem_of_In, filter_In in Hy as [Hy _]. by apply list_elem_of_In.
Qed.
Lemma same_key (l : list task_row) x y : NoDup (tk_id <$> l) → x ∈ l → y ∈ l →
  tk_id x = tk_id y → x = y.
Proof.
  intros Hnd Hx Hy E. apply list_elem_of_lookup in Hx as [i Hi], Hy as [j Hj].
  assert (i = j) as ->; [|congruence].
  eapply (NoDup_lookup _ _ _ (tk_id y) Hnd); rewrite list_lookup_fmap;
    [by rewrite Hi; simpl; rewrite E|by rewrite Hj].
Qed.
Lemma cancel_task_run y w t : cur w = Some t → y ∈ rows (t_tasks t) →
  NoDup (tk_id <$> rows (t_tasks t)) →
  ∃ w' t', cancel_task y w = (Ok tt, w') ∧
    loop_frame w w' t t' (if alive y then [tk_celery_task_id y] else []) ∧
    Forall2 (cancelled [tk_id y]) (rows (t_tasks t)) (rows (t_tasks t')).
Proof.
  intros Hw Hy Hnd. unfold cancel_task. rewrite to_cancel_alive. destruct (alive y) eqn:Ec; simpl.
  - set (w1 := set_w_revoked (w_revoked w ++ [tk_celery_task_id y]) w).
    rewrite (bind_ok _ _ w tt w1) by done.
    set (y1 := set_tk_finished_at (Some (w_clock w1)) (set_tk_status TCanceled y)).
    rewrite (bind_ok _ _ w1 y1 (tick w1)) by done.
    rewrite (bind_ok _ _ _ _ _ (save_run y1 (tick w1) t Hw)).
    set (y2 := with_modified _ y1). set (tb := Table _ _).
    do 2 eexists. split; [reflexivity|]. split.
    + split; [apply cur_with_tenant|done..].
    + subst tb. simpl. rewrite write_row_present.
      2:{ apply existsb_exists. exists y. split; [by apply list_elem_of_In|apply Z.eqb_refl]. }
      apply Forall2_fmap_r. apply Forall_Forall2_diag, Forall_forall. intros x Hx.
      simpl. destruct (tk_id x =? tk_id y) eqn:E.
      * apply Z.eqb_eq in E. apply (same_key _ _ _ Hnd Hx Hy) in E as ->.
        split_and!; [done..|]. rewrite bool_decide_eq_true_2, Ec by set_solver.
        simpl. by split.
      * apply Z.eqb_neq in E. split_and!; [done..|].
        rewrite bool_decide_eq_false_2 by set_solver. done.
  - exists w, t. split; [done|]. split.
    + split; [done|by destruct t|done|done|by rewrite app_nil_r].
    + apply Forall_Forall2_diag, Forall_forall. intros x Hx. split_and!; [done..|].
      case_bool_decide as Ex; [|done]. apply list_elem_of_singleton in Ex.
      by rewrite (same_key _ _ _ Hnd Hx Hy Ex), Ec.
Qed.

(** The loop of [Workflow.cancel] *)
Lemma cancel_loop_run l : ∀ w t, cur w = Some t → NoDup (tk_id <$> rows (t_tasks t)) →
  NoDup (tk_id <$> l) → (∀ y, y ∈ l → y ∈ rows (t_tasks t)) →
  ∃ w' t', for_each l cancel_task w = (Ok tt, w') ∧
    loop_frame w w' t t' (tk_celery_task_id <$> List.filter alive l) ∧
    Forall2 (cancelled (tk_id <$> l)) (rows (t_tasks t)) (rows (t_tasks t')).
Proof.
  induction l as [|y l IH]; intros w t Hw Hnd Hl Hin.
  { exists w, t. split; [done|]. split.
    - split; [done|by destruct t|done|done|by rewrite app_nil_r].
    - apply Forall_Forall2_diag, Forall_forall. intros x _. apply cancelled_nil. }
  rewrite fmap_cons in Hl. apply NoDup_cons in Hl as [Hyl Hl].
  destruct (cancel_task_run y w t Hw (Hin y (list_elem_of_here _ _)) Hnd)
    as (w1 & t1 & Hr1 & F1 & C1).
  assert (tk_id <$> rows (t_tasks t1) = tk_id <$> rows (t_tasks t)) as Hids.
  { clear -C1. induction C1 as [|x x1 l l1 (Hx & _) _ IH]; [done|].
    rewrite !fmap_cons. by rewrite Hx, IH. }
  destruct (IH w1 t1) as (w2 & t2 & Hr2 & F2 & C2);
    [apply F1|by rewrite Hids|done| |].
  { intros x Hx. destruct (list_elem_of_lookup_1 _ _ (Hin x (list_elem_of_further _ _ _ Hx)))
      as [i Hi]. destruct (Forall2_lookup_l _ _ _ _ _ C1 Hi) as (x1 & Hx1 & _ & _ & Hc).
    rewrite bool_decide_eq_false_2 in Hc.
    - simpl in Hc. subst x1. by eapply list_elem_of_lookup_2.
    - intros E%list_elem_of_singleton. apply Hyl. rewrite <- E. by apply list_elem_of_fmap_2. }
  exists w2, t2. cbn [for_each]. rewrite (bind_ok _ _ _ _ _ Hr1). split; [done|]. split.
  - destruct F1, F2. split; [done| |congruence|congruence|].
    + rewrite lf_tasks1, lf_tasks0. done.
    + rewrite lf_revoked1, lf_revoked0, <- app_assoc. f_equal. simpl.
      by destruct (alive y).
  - rewrite fmap_cons. eapply Forall2_compose; [|exact C1|exact C2].
    intros x x1 x2. apply cancelled_trans.
Qed.

(** C15: [Workflow.cancel] revokes the celery task of every task of the workflow
    that was waiting, running or nested, newest first, marks exactly those
    tasks CANCELED with an end date, leaves every other task as it was, and
    puts the workflow in status CANCELED; no task of the workflow is active
    afterwards and no message is published. *)
Theorem cancel_workflow_cancels wf w t : cur w = Some t →
  the_row wf (rows (t_workflows t)) → NoDup (tk_id <$> rows (t_tasks t)) →
  let own := List.filter (λ x, tk_workflow x =? wf_id wf) (rows (t_tasks t)) in
  ∃ w' t' wf', cancel_workflow wf w = (Ok wf', w') ∧ cur w' = Some t' ∧
    the_row wf' (rows (t_workflows t')) ∧ wf_id wf' = wf_id wf ∧ wf_status_ wf' = WCanceled ∧
    Forall2 (cancelled (tk_id <$> own)) (rows (t_tasks t)) (rows (t_tasks t')) ∧
    (∀ x, x ∈ rows (t_tasks t') → tk_workflow x = wf_id wf → alive x = false) ∧
    w_revoked w' = w_revoked w ++ (tk_celery_task_id <$> List.filter alive (rev own)) ∧
    w_broker w' = w_broker w.
Proof.
  intros Hw Hr Hnd own. unfold cancel_workflow, tasks_of.
  rewrite (bind_ok _ _ _ _ _ (filter_run _ w t Hw)). fold own. unfold ordered.
  assert (Hown : ∀ y, y ∈ rev own ↔ y ∈ rows (t_tasks t) ∧ tk_workflow y = wf_id wf).
  { intros y. rewrite list_elem_of_In, <- in_rev. subst own. rewrite filter_In, <- list_elem_of_In.
    by rewrite Z.eqb_eq. }
  destruct (cancel_loop_run (rev own) w t Hw Hnd) as (w1 & t1 & Hr1 & F1 & C1).
  { rewrite <- Permutation_rev. by apply NoDup_keys_filter. }
  { intros y Hy. by apply Hown. }
  rewrite (bind_ok _ _ _ _ _ Hr1).
  destruct (save_workflow_spec (set_wf_status_ WCanceled wf) w1 t1 (lf_cur _ _ _ _ _ F1))
    as (w2 & Hs & Hw2 & _ & Hb & Hrv & _). eexists w2, _, _.
  split; [exact Hs|]. split; [exact Hw2|].
  assert (Forall2 (cancelled (tk_id <$> own)) (rows (t_tasks t)) (rows (t_tasks t1))) as C.
  { eapply Forall2_impl; [exact C1|]. intros x x' (? & ? & Hc). split_and!; [done..|].
    by rewrite (bool_decide_ext _ (tk_id x ∈ tk_id <$> rev own)) by (by rewrite <- Permutation_rev). }
  split_and!; [|done|done|exact C| |by rewrite Hrv; apply F1|by rewrite Hb; apply F1].
  - apply (the_row_save wf); [done|]. rewrite (lf_tasks _ _ _ _ _ F1). exact Hr.
  - simpl. intros x' Hx' Ho. apply list_elem_of_lookup in Hx' as [i Hi].
    destruct (Forall2_lookup_r _ _ _ _ _ C Hi) as (x & Hx & _ & Hwf & Hc).
    destruct (alive x) eqn:Ec; [|by rewrite andb_false_r in Hc; subst].
    rewrite bool_decide_eq_true_2 in Hc.
    + destruct Hc as [Hst _]. unfold alive. by rewrite Hst.
    + apply list_elem_of_fmap_2. rewrite Hwf in Ho.
      assert (x ∈ rev own) as Hin by (apply Hown; split; [by eapply list_elem_of_lookup_2|done]).
      by rewrite <- Permutation_rev in Hin.
Qed.
End Cancel.

(** ** What a pause does to the waiting nodes *)

Section Pause.
Context `{Platform} {FI : FreshIds} `{Manager} `{UserCode} {CR : CodeReturns}
  `{Celery} {CO : CeleryOk}.
Context (s : string) (sp : space_row) (owner : user_row) (wt : template_row) (wfid : Z)
  (ids : list string) (es : list edge) (nodes : list (string * pyval)) (cs : list pyval).
Context (SU : setup s sp wt ids es nodes cs).
Abbreviation tables := (tables s sp owner wt wfid).
Abbreviation rep := (rep s sp owner wt wfid ids nodes cs).

Lemma pause_run w runs q p t wf : tables w (Flow runs q WProgress p) t wf → w_path w = s →
  ∃ r w' t' wf', pause_workflow wfid w = (Ok r, w') ∧ vs_status r = 200 ∧
    tables w' (Flow runs q WWait p) t' wf' ∧ w_broker w' = w_broker w.
Proof.
  intros TB Hp. pose proof (tb_wf _ _ _ _ _ _ _ _ _ TB) as Hwf.
  assert (cur w = Some t) as Hw by (unfold cur; rewrite Hp; apply TB).
  pose proof (get_object_run wf w t Hw (tb_row _ _ _ _ _ _ _ _ _ TB)) as Hget.
  rewrite (wr_id _ _ _ _ _ _ Hwf) in Hget. unfold pause_workflow.
  rewrite (bind_ok _ _ _ _ _ Hget). rewrite bool_decide_eq_true_2 by apply Hwf.
  destruct (save_workflow_run s sp owner wt wfid w _ (Flow runs q WWait p) t wf
    (set_wf_status_ WWait wf) TB Hp) as (t' & w' & Hs & TB' & _ & Hb);
    [destruct Hwf; by split|done|].
  rewrite (bind_ok _ _ _ _ _ Hs). do 4 eexists. split; [reflexivity|]. by split_and!.
Qed.

(** No task of the workflow is active: they have all succeeded. *)
Lemma no_active_tasks w σ t wf : tables w σ t wf →
  List.filter (λ x, (tk_workflow x =? wfid) && active_task x) (rows (t_tasks t)) = [].
Proof.
  intros TB. rewrite filter_and. fold (own_tasks wfid t).
  pose proof (tb_tasks _ _ _ _ _ _ _ _ _ TB) as Hts.
  induction Hts as [|x n l rs (_ & Hs & _) _ IH]; [done|]. simpl.
  unfold active_task at 1. rewrite Hs. done.
Qed.
Lemma resume_run w runs q n t wf : tables w (Flow runs q WWait (Some n)) t wf →
  w_path w = s → Forall2 (delivers sp wfid ids nodes cs) q (w_broker w) → n ∈ ids → n ≠ "" →
  ∃ r w', resume_workflow (ViewRequest owner None (Some s) (PDict [])) wfid w = (Ok r, w') ∧
    vs_status r = 200 ∧ rep w' (Flow runs (q ++ [n]) WProgress (Some n)).
Proof using SU.
  intros TB Hp Hq Hn Hne. pose proof (tb_wf _ _ _ _ _ _ _ _ _ TB) as Hwf.
  assert (cur w = Some t) as Hw by (unfold cur; rewrite Hp; apply TB).
  pose proof (get_object_run wf w t Hw (tb_row _ _ _ _ _ _ _ _ _ TB)) as Hget.
  rewrite (wr_id _ _ _ _ _ _ Hwf) in Hget. unfold resume_workflow.
  rewrite (bind_ok _ _ w PNone w) by done. rewrite (bind_ok _ _ _ _ _ Hget).
  rewrite bool_decide_eq_true_2 by apply Hwf. cbn [negb].
  rewrite (bind_ok _ _ _ _ _ (filter_run _ w t Hw)). simpl.
  rewrite (wr_id _ _ _ _ _ _ Hwf), (no_active_tasks _ _ _ _ TB). simpl.
  destruct (save_workflow_run s sp owner wt wfid w _ (Flow runs q WProgress (Some n)) t wf
    (set_wf_status_ WProgress wf) TB Hp) as (t' & w' & Hs & TB' & Hp' & Hb);
    [destruct Hwf; by split|done|].
  rewrite (bind_ok _ _ _ _ _ Hs). pose proof (tb_wf _ _ _ _ _ _ _ _ _ TB') as Hwf'.
  set (wf1 := set_wf_modified_at _ _) in *.
  rewrite (wr_parked _ _ _ _ _ _ Hwf'). simpl.
  rewrite (proj2 (String.eqb_neq n "")) by done.
  assert (cur w' = Some t') as Hw' by (unfold cur; rewrite Hp'; apply TB').
  pose proof (tb_static _ _ _ _ _ _ _ _ _ TB') as Hst.
  assert (∃ c, delivers sp wfid ids nodes cs n c ∧
    resume_node wf1 n w' = (Ok tt, set_w_broker (w_broker w' ++ [c]) w')) as (c & Hc & Hres).
  { unfold resume_node. rewrite (wr_template _ _ _ _ _ _ Hwf').
    rewrite (bind_ok _ _ w' (Some wt) w') by (unfold fetch_fk;
      by rewrite (bind_ok _ _ _ _ _ (get_template_run wt w' t' Hw' (st_template _ _ _ _ Hst)))).
    rewrite (bind_ok _ _ w' wt w') by done.
    rewrite (bind_ok _ _ w' _ w') by (unfold lift; by rewrite (su_read _ _ _ _ _ _ _ SU)).
    rewrite (wr_space _ _ _ _ _ _ Hwf').
    rewrite (bind_ok _ _ _ _ _ (get_space_run sp w' t' Hw' (st_space _ _ _ _ Hst))).
    eexists. split; [|reflexivity]. split; [done|]. eexists. split; [|reflexivity].
    split; try done. all: simpl; unfold kwget; simpl.
    by rewrite (wr_id _ _ _ _ _ _ Hwf). }
  rewrite (bind_ok _ _ _ _ _ Hres). do 2 eexists. split; [reflexivity|]. split; [done|].
  split.
  - exists t', wf1. apply tables_broker. by apply (tables_queue _ _ _ _ _ _ _ _ _ (q ++ [n]) TB').
  - simpl. rewrite Hb. apply Forall2_app; [done|]. by constructor.
Qed.

(** Deliveries to a paused workflow: each parks its node in place of the one
    before, and nothing runs. *)
Lemma paused_run fuel k w w' runs q p : rep w (Flow runs q WWait p) →
  nsteps (deliver (S fuel)) k w w' →
  ∃ q' p', rep w' (Flow runs q' WWait p') ∧ length q = (k + length q')%nat ∧ q' ⊆ q ∧
    match k with O => p' = p | S _ => ∃ n, p' = Some n ∧ n ∈ q end.
Proof using SU FI CR CO.
  intros R Hn. revert q p R. induction Hn as [w|k w1 w2 w3 Hd Hn IH]; intros q p R.
  { exists q, p. by split_and!. }
  destruct (rep_deliver s sp owner wt wfid ids es nodes cs SU fuel w1 w2 _ R Hd) as (σ & Hs & R2).
  inversion Hs as [? l1 n l2 Hq]; subst. simpl in Hq. subst q.
  unfold exec in R2. simpl in R2.
  destruct (IH _ _ R2) as (q' & p' & R3 & Hlen & Hsub & Hp). exists q', p'.
  rewrite length_app in *. simpl. split_and!; [done|lia|set_solver|].
  destruct k as [|k]; [exists n; split; [done|set_solver]|].
  destruct Hp as (m & -> & Hm). exists m. split; [done|set_solver].
Qed.

(** A pause keeps one waiting node. When a workflow in progress is paused
    and all its waiting messages are then delivered, in any order, nothing runs,
    and resuming it publishes one message, for one of the nodes that waited: the
    round trip is lossless exactly when one node waited, and the other branches
    of a fork are dropped. *)
Theorem pause_keeps_one_node fuel w r1 w1 w2 runs q p :
  rep w (Flow runs q WProgress p) → q ≠ [] → "" ∉ ids →
  pause_workflow wfid (set_w_path s w) = (Ok r1, w1) →
  nsteps (deliver (S fuel)) (length q) w1 w2 →
  w_broker w2 = [] ∧ ∃ n r w3, n ∈ q ∧
    resume_workflow (ViewRequest owner None (Some s) (PDict [])) wfid (set_w_path s w2)
      = (Ok r, w3) ∧ vs_status r = 200 ∧ rep w3 (Flow runs [n] WProgress (Some n)).
Proof using SU FI CR CO.
  intros [(t & wf & TB) Hq] Hne Hid Hpause Hn.
  destruct (pause_run (set_w_path s w) runs q p t wf) as (r & w' & t1 & wf1 & Hr & _ & TB1 & Hb1);
    [by apply tables_path|done|].
  rewrite Hr in Hpause. injection Hpause as <- <-.
  assert (rep w' (Flow runs q WWait p)) as R1 by (split; [by exists t1, wf1|by rewrite Hb1]).
  destruct (paused_run fuel (length q) w' w2 runs q p R1 Hn) as (q' & p' & R2 & Hlen & _ & Hp).
  destruct q' as [|? ?]; [|simpl in Hlen; lia].
  destruct q as [|m q]; [done|]. destruct Hp as (n & -> & Hnq).
  destruct R2 as [(t2 & wf2 & TB2) Hq2]. apply Forall2_nil_inv_l in Hq2 as Hb2. split; [done|].
  assert (n ∈ ids) as Hni.
  { apply list_elem_of_lookup in Hnq as [i Hi].
    by destruct (Forall2_lookup_l _ _ _ _ _ Hq Hi) as (c & _ & Hc & _). }
  destruct (resume_run (set_w_path s w2) runs [] n t2 wf2) as (r2 & w3 & H3 & Hst & R3);
    [by apply tables_path|done|by simpl; rewrite Hb2; constructor|done|by intros ->|].
  by exists n, r2, w3.
Qed.
End Pause.

(** ** Concrete runs *)

(** Two nodes without connections, both waiting after the start *)
Definition pair_ids : list string := ["a"; "b"].
Definition pair_started : world :=
  @fifo_step _ (demo_manager PNone) calm_user_code demo_celery 4 (launch_world pair_ids []).
Lemma pair_doc : code_doc (demo_template (demo_data pair_ids [])) pair_ids [].
Proof.
  apply demo_doc; [apply (bool_decide_unpack _); by vm_compute|done|].
  intros e He. by apply not_elem_of_nil in He.
Qed.
Lemma pair_rep : ∃ nodes cs,
  setup "space00000" demo_space (demo_template (demo_data pair_ids [])) pair_ids [] nodes cs ∧
  rep "space00000" demo_space demo_user (demo_template (demo_data pair_ids [])) 1 pair_ids nodes cs
    pair_started (Flow [] pair_ids WProgress None).
Proof.
  destruct (doc_setup "space00000" demo_space _ pair_ids [] pair_doc) as (nodes & cs & SU);
    [done..|]. exists nodes, cs. split; [done|].
  refine (@launch_deliver _ _ (demo_manager PNone) calm_user_code calm_returns demo_celery
    eager_celery_ok "space00000" demo_space demo_user _ 1 pair_ids [] nodes cs 4 _ _ SU _
    (demo_launchable _ _) _); [done|].
  exact (@fifo_step_deliver _ (demo_manager PNone) calm_user_code demo_celery 4
    (launch_world pair_ids []) eq_refl).
Qed.

(** Both nodes wait, the workflow is paused and resumed: one message is left. *)
Lemma pause_keeps_one_node_witness :
  let w := pair_started in
  let w1 := (pause_workflow 1 (set_w_path "space00000" w)).2 in
  let w2 := @fifo _ (demo_manager PNone) calm_user_code demo_celery 4 2 w1 in
  length (w_broker w) = 2%nat ∧ w_broker w2 = [] ∧ ∃ r w3,
    resume_workflow (ViewRequest demo_user None (Some "space00000") (PDict [])) 1
      (set_w_path "space00000" w2) = (Ok r, w3) ∧ length (w_broker w3) = 1%nat.
Proof.
  intros w w1 w2. split; [vm_compute; reflexivity|].
  destruct pair_rep as (nodes & cs & SU & R).
  assert (∃ r, pause_workflow 1 (set_w_path "space00000" w) = (Ok r, w1)) as [r Hp]
    by (eexists; vm_compute; reflexivity).
  assert (nsteps (@deliver _ (demo_manager PNone) calm_user_code demo_celery 4) 2 w1 w2) as Hn.
  { refine (@fifo_nsteps _ (demo_manager PNone) calm_user_code demo_celery 4 2 w1 _).
    vm_compute. reflexivity. }
  destruct (@pause_keeps_one_node _ _ (demo_manager PNone) calm_user_code calm_returns demo_celery
    eager_celery_ok "space00000" demo_space demo_user _ 1 pair_ids [] nodes cs SU 3 w r w1 w2
    [] pair_ids None R ltac:(discriminate)
    ltac:(apply (bool_decide_unpack _); vm_compute; exact I) Hp Hn)
    as [Hb (n & r2 & w3 & _ & Hr & _ & [_ Hq])].
  split; [exact Hb|]. exists r2, w3. split; [exact Hr|].
  exact (eq_sym (Forall2_length _ _ _ Hq)).
Defined.

Lemma pause_guard_witness :
  let w := set_w_path "space00000" (demo_world (demo_tenant PNone [demo_workflow WProgress] [])) in
  ∃ r w' t' wf', pause_workflow 1 w = (Ok r, w') ∧ vs_status r = 200 ∧ cur w' = Some t' ∧
    the_row wf' (rows (t_workflows t')) ∧ wf_id wf' = 1 ∧ wf_status_ wf' = WWait.
Proof.
  intros w. exact (pause_guard (demo_workflow WProgress) w
    (demo_tenant PNone [demo_workflow WProgress] []) eq_refl eq_refl).
Defined.

(** One running and one finished task *)
Definition demo_task (i : Z) (c : string) (st : task_status) : task_row :=
  set_tk_id i (set_tk_status st (new_task_row c None 1 None None false)).
Lemma cancel_workflow_cancels_witness :
  let t := demo_tenant PNone [demo_workflow WProgress]
             [demo_task 1 "c1" TSuccess; demo_task 2 "c2" TProgress] in
  ∃ w' t' wf', cancel_workflow (demo_workflow WProgress) (set_w_path "space00000" (demo_world t))
      = (Ok wf', w') ∧ cur w' = Some t' ∧ wf_status_ wf' = WCanceled ∧
    (∀ x, x ∈ rows (t_tasks t') → tk_workflow x = 1 → alive x = false) ∧
    w_revoked w' = [Some "c2"].
Proof.
  intros t. destruct (cancel_workflow_cancels (demo_workflow WProgress)
    (set_w_path "space00000" (demo_world t)) t eq_refl eq_refl
    ltac:(apply (bool_decide_unpack _); vm_compute; exact I))
    as (w' & t' & wf' & H1 & H2 & _ & _ & H3 & _ & H4 & H5 & _).
  exists w', t', wf'. split; [exact H1|]. split; [exact H2|]. split; [exact H3|].
  split; [exact H4|exact H5].
Defined.
