(* ===== verification/Runs.v ===== *)
(** * Runs of the version 2 engine on any graph

    The refinement of the abstract engine along whole runs, and what it says of
    the graphs and the situations the forest theorem leaves out: joins whose
    inputs run twice, and cancelled workflows with nodes still queued. *)
From Stdlib Require Import Ascii String.
From stdpp Require Import base list strings numbers gmap sets relations.
From S2P Require Import Prelude PyStr PyVal Json World Demo Graph Finmars Models Manager Builder.
From S2P Require Import Launch Tasks Engine Fixture Flow Refine System Views Lifecycle.
Local Open Scope string_scope.
Local Open Scope Z_scope.
Local Open Scope list_scope.

(** ** The abstract engine *)

Section Abstract.
Context (ids : list string) (es : list edge).

Lemma exec_count σ q n m : (count m (f_runs σ) ≤ count m (f_runs (exec es σ q n)))%nat.
Proof.
  unfold exec. case_bool_decide; simpl; [done|]. destruct (ready _ _ _); simpl; [|done].
  unfold count. rewrite filter_app, length_app. lia.
Qed.
(** A node with an input that has run twice is never ready again. *)
Lemma exec_blocked σ q n p m : (2 ≤ count p (f_runs σ))%nat → p ∈ predecessors es m →
  count m (f_runs (exec es σ q n)) = count m (f_runs σ).
Proof.
  intros H2 Hp. unfold exec. case_bool_decide; simpl; [done|].
  destruct (ready _ _ _) eqn:E; simpl; [|done]. unfold count. rewrite filter_app, length_app.
  destruct (decide (n = m)) as [->|Hne].
  - exfalso. unfold ready in E. rewrite forallb_forall in E.
    assert (count p (f_runs σ) = 1%nat); [|lia].
    apply Nat.eqb_eq, E. by apply list_elem_of_In.
  - rewrite filter_cons, decide_False by done. simpl. lia.
Qed.
Lemma blocked_steps k σ σ' p m : nsteps (fstep es) k σ σ' → (2 ≤ count p (f_runs σ))%nat →
  p ∈ predecessors es m → count m (f_runs σ') = count m (f_runs σ).
Proof.
  intros Hn. induction Hn as [σ|k σ1 σ2 σ3 Hs Hn IH]; [done|]. intros H2 Hp.
  inversion Hs as [? l1 n l2 _]; subst. rewrite IH; [by eapply exec_blocked| |done].
  pose proof (exec_count σ1 (l1 ++ l2) n p). lia.
Qed.
End Abstract.

(** ** Whole runs *)

Section Runs.
Context `{Platform} {FI : FreshIds} `{Manager} `{UserCode} {CR : CodeReturns}
  `{Celery} {CO : CeleryOk}.
Context (s : string) (sp : space_row) (owner : user_row) (wt : template_row) (wfid : Z)
  (ids : list string) (es : list edge).
Abbreviation launchable := (launchable s sp owner wt wfid).
Context (D : code_doc wt ids es) (Hcode : lower (sp_space_code sp) = s)
  (Hne : sp_space_code sp ≠ "").

Lemma rep_nsteps nodes cs fuel k w w' σ : setup s sp wt ids es nodes cs →
  rep s sp owner wt wfid ids nodes cs w σ → nsteps (deliver (S fuel)) k w w' →
  ∃ σ', nsteps (fstep es) k σ σ' ∧ rep s sp owner wt wfid ids nodes cs w' σ'.
Proof using FI CR CO.
  intros SU R Hn. revert σ R. induction Hn as [w|k w1 w2 w3 Hd Hn IH]; intros σ R.
  { exists σ. split; [constructor|done]. }
  destruct (rep_deliver s sp owner wt wfid ids es nodes cs SU fuel w1 w2 σ R Hd) as (σ2 & Hs & R2).
  destruct (IH σ2 R2) as (σ3 & Hs3 & R3). exists σ3. split; [by econstructor|done].
Qed.
Lemma run_rep fuel k w0 w1 w : launchable w0 → deliver (S fuel) w0 w1 →
  nsteps (deliver (S fuel)) k w1 w →
  ∃ nodes cs σ, setup s sp wt ids es nodes cs ∧ nsteps (fstep es) k (initial ids es) σ ∧
    rep s sp owner wt wfid ids nodes cs w σ.
Proof using FI CR CO D Hcode Hne.
  intros L Hd Hn. destruct (doc_setup s sp wt ids es D Hcode Hne) as (nodes & cs & SU).
  pose proof (launch_deliver s sp owner wt wfid ids es nodes cs _ _ _ SU (cd_some _ _ _ D) L Hd) as R.
  destruct (rep_nsteps nodes cs fuel k w1 w _ SU R Hn) as (σ & Hs & R'). by exists nodes, cs, σ.
Qed.

(** What a state of the tables shows of a workflow: the nodes its tasks have
    run, oldest first, all of them successful, and its status *)
Record shows (w : world) (σ : flow) : Prop := {
  sh_tenant : ∃ t wf, w_tenants w !! s = Some t ∧ the_row wf (rows (t_workflows t)) ∧
    wf_id wf = wfid ∧ wf_status_ wf = f_status σ ∧
    tk_node_id <$> own_tasks wfid t = Some <$> f_runs σ ∧
    Forall (λ x, tk_status x = TSuccess) (own_tasks wfid t);
  sh_broker : length (w_broker w) = length (f_queue σ)
}.
Lemma done_nodes l runs : Forall2 done_task l runs →
  tk_node_id <$> l = Some <$> runs ∧ Forall (λ x, tk_status x = TSuccess) l.
Proof.
  induction 1 as [|x n l rs (Hx & Hs & _) _ [IH1 IH2]]; [done|]. rewrite !fmap_cons, Hx, IH1.
  by split; [|constructor].
Qed.
Lemma rep_shows nodes cs w σ : rep s sp owner wt wfid ids nodes cs w σ → shows w σ.
Proof.
  intros [(t & wf & TB) Hq]. split; [|symmetry; by eapply Forall2_length].
  pose proof (tb_wf _ _ _ _ _ _ _ _ _ TB) as Hwf.
  destruct (done_nodes _ _ (tb_tasks _ _ _ _ _ _ _ _ _ TB)) as [Hn Hs].
  exists t, wf. split_and!; [apply TB|apply TB|apply Hwf|apply Hwf|done|done].
Qed.

(** C9: the version 2 engine refines the abstract one on every graph of
    source-code nodes, joins and cycles included: whatever messages the workers
    deliver in whatever order, the tables show a state that the abstract engine
    reaches in as many steps, with as many messages waiting. *)
Theorem engine_refines fuel k w0 w1 w : launchable w0 → deliver (S fuel) w0 w1 →
  nsteps (deliver (S fuel)) k w1 w →
  ∃ σ, nsteps (fstep es) k (initial ids es) σ ∧ shows w σ.
Proof using FI CR CO D Hcode Hne.
  intros L Hd Hn. destruct (run_rep fuel k w0 w1 w L Hd Hn) as (nodes & cs & σ & _ & Hs & R).
  exists σ. split; [done|]. by eapply rep_shows.
Qed.

(** ** Joins *)

Definition node_tasks (t : tenant) (n : string) : list task_row :=
  List.filter (λ x, bool_decide (tk_node_id x = Some n)) (own_tasks wfid t).
Lemma node_tasks_count l runs n : Forall2 done_task l runs →
  length (List.filter (λ x, bool_decide (tk_node_id x = Some n)) l) = count n runs.
Proof.
  unfold count. induction 1 as [|x m l rs (Hx & _) _ IH]; [done|]. simpl. rewrite filter_cons, Hx.
  destruct (decide (m = n)) as [->|Hm].
  - rewrite bool_decide_eq_true_2 by done. simpl. by rewrite IH.
  - rewrite bool_decide_eq_false_2 by congruence. done.
Qed.

(** C17: a node that waits for an input which has run twice never runs again:
    from such a state on, no delivery adds a task for it. (The query for the
    input's task expects exactly one row.) *)
Theorem double_run_blocks fuel k k' w0 w1 w w' t t' p m :
  launchable w0 → deliver (S fuel) w0 w1 → nsteps (deliver (S fuel)) k w1 w →
  nsteps (deliver (S fuel)) k' w w' →
  w_tenants w !! s = Some t → w_tenants w' !! s = Some t' →
  p ∈ predecessors es m → (2 ≤ length (node_tasks t p))%nat →
  length (node_tasks t' m) = length (node_tasks t m).
Proof using FI CR CO D Hcode Hne.
  intros L Hd Hn Hn' Ht Ht' Hp Htwo.
  destruct (run_rep fuel k w0 w1 w L Hd Hn) as (nodes & cs & σ & SU & _ & R).
  destruct (rep_nsteps nodes cs fuel k' w w' σ SU R Hn') as (σ' & Hs & R').
  destruct R as [(t1 & wf & TB) _], R' as [(t2 & wf' & TB') _].
  pose proof (tb_tenant _ _ _ _ _ _ _ _ _ TB) as E. pose proof (tb_tenant _ _ _ _ _ _ _ _ _ TB') as E'.
  assert (t1 = t) as -> by congruence. assert (t2 = t') as -> by congruence.
  pose proof (tb_tasks _ _ _ _ _ _ _ _ _ TB) as F. pose proof (tb_tasks _ _ _ _ _ _ _ _ _ TB') as F'.
  unfold node_tasks in *. rewrite (node_tasks_count _ _ p F) in Htwo.
  rewrite (node_tasks_count _ _ m F), (node_tasks_count _ _ m F').
  by eapply blocked_steps.
Qed.

End Runs.

(** ** Cancelled workflows *)

Section Cancelled.
Context `{Platform} {FI : FreshIds} `{Manager} `{UserCode} {CR : CodeReturns}
  `{Celery} {CO : CeleryOk}.
Context (s : string) (sp : space_row) (owner : user_row) (wt : template_row) (wfid : Z)
  (ids : list string) (es : list edge).
Abbreviation shows := (shows s wfid).

Lemma cancel_run nodes cs w runs q p : rep s sp owner wt wfid ids nodes cs w (Flow runs q WProgress p) →
  ∃ r w', cancel wfid (set_w_path s w) = (Ok r, w') ∧
    rep s sp owner wt wfid ids nodes cs w' (Flow runs q WCanceled p).
Proof.
  intros [(t & wf & TB0) Hq]. pose proof (tables_path _ _ _ _ _ _ _ _ _ s TB0) as TB.
  pose proof (tb_wf _ _ _ _ _ _ _ _ _ TB) as Hwf.
  assert (cur (set_w_path s w) = Some t) as Hw by apply (tb_tenant _ _ _ _ _ _ _ _ _ TB).
  pose proof (get_workflow_run wf _ t Hw (tb_row _ _ _ _ _ _ _ _ _ TB)) as Hget.
  rewrite (wr_id _ _ _ _ _ _ Hwf) in Hget. unfold cancel. rewrite (bind_ok _ _ _ _ _ Hget).
  assert (cancellable (wf_status_ wf) = true) as -> by (rewrite (wr_status _ _ _ _ _ _ Hwf); reflexivity).
  destruct (save_workflow_run s sp owner wt wfid (set_w_path s w) _ (Flow runs q WCanceled p) t wf
    (set_wf_status_ WCanceled wf) TB) as (t' & w' & Hs & TB' & _ & Hb);
    [done|destruct Hwf; by split|done|].
  assert (cancel_workflow wf (set_w_path s w) = (Ok (set_wf_modified_at (w_clock w)
            (set_wf_status_ WCanceled wf)), w')) as Hc.
  { unfold cancel_workflow, tasks_of. rewrite (bind_ok _ _ _ _ _ (filter_run _ _ t Hw)).
    rewrite (bind_ok _ _ (set_w_path s w) tt (set_w_path s w)); [exact Hs|].
    unfold ordered. simpl. rewrite (wr_id _ _ _ _ _ _ Hwf). fold (own_tasks wfid t).
    pose proof (proj2 (done_nodes _ _ (tb_tasks _ _ _ _ _ _ _ _ _ TB))) as Hall.
    rewrite (Permutation_rev (own_tasks wfid t)) in Hall.
    induction Hall as [|x l Hx _ IH]; [done|]. cbn [for_each].
    rewrite (bind_ok _ _ _ tt (set_w_path s w)); [exact IH|].
    unfold cancel_task, to_cancel. by rewrite Hx. }
  rewrite (bind_ok _ _ _ _ _ Hc). do 2 eexists. split; [reflexivity|].
  split; [by exists t', (set_wf_modified_at (w_clock w) (set_wf_status_ WCanceled wf))|].
  rewrite Hb. exact Hq.
Qed.

(** C16: a cancellation does not stop the nodes still waiting in the broker: when
    a workflow whose waiting nodes are ready leaves is cancelled, the next
    delivery runs its node, and puts the cancelled workflow in status SUCCESS. *)
Theorem cancelled_workflow_succeeds nodes cs fuel w r w1 w2 runs q p :
  rep s sp owner wt wfid ids nodes cs w (Flow runs q WProgress p) →
  setup s sp wt ids es nodes cs →
  (∀ n, n ∈ q → successors es n = [] ∧ ready es runs n = true) →
  cancel wfid (set_w_path s w) = (Ok r, w1) → deliver (S fuel) w1 w2 →
  (∃ t wf, w_tenants w1 !! s = Some t ∧ the_row wf (rows (t_workflows t)) ∧
     wf_id wf = wfid ∧ wf_status_ wf = WCanceled) ∧
  ∃ n q', q ≡ₚ n :: q' ∧ shows w2 (Flow (runs ++ [n]) q' WSuccess (Some n)).
Proof using FI CR CO.
  intros R SU Hleaf Hc Hd. destruct (cancel_run nodes cs w runs q p R) as (r' & w' & E & R1).
  rewrite E in Hc. injection Hc as <- <-. split.
  { destruct (sh_tenant _ _ _ _ (rep_shows s sp owner wt wfid ids _ _ _ _ R1)) as (t & wf & ? & ? & ? & ? & _).
    by exists t, wf. }
  destruct (rep_deliver s sp owner wt wfid ids es nodes cs SU fuel w' w2 _ R1 Hd)
    as (σ & Hs & R2). inversion Hs as [? l1 n l2 Hq]; subst. simpl in Hq.
  destruct (Hleaf n) as [Hn Hr]; [rewrite Hq; set_solver|].
  unfold exec in R2. simpl in R2. rewrite Hr, Hn, app_nil_r in R2.
  exists n, (l1 ++ l2). split; [rewrite Hq; by rewrite Permutation_middle|].
  by eapply (rep_shows s sp owner wt wfid ids).
Qed.
End Cancelled.

(** ** Concrete runs *)

(** A diamond with a tail behind its join *)
Definition tailed_ids : list string := ["a"; "b"; "c"; "d"; "e"].
Definition tailed_edges : list edge :=
  [Edge "a" "out" "b" "in"; Edge "a" "out" "c" "in"; Edge "b" "out" "d" "in";
   Edge "c" "out" "d" "in"; Edge "d" "out" "e" "in"].
Lemma tailed_doc : code_doc (demo_template (demo_data tailed_ids tailed_edges)) tailed_ids tailed_edges.
Proof.
  apply demo_doc; [|done|apply Forall_forall]; apply (bool_decide_unpack _); by vm_compute.
Qed.
Abbreviation tailed_step := (@fifo_step _ (demo_manager PNone) calm_user_code demo_celery 4).
Abbreviation tailed_fifo := (@fifo _ (demo_manager PNone) calm_user_code demo_celery 4).
Abbreviation delivers := (@deliver _ (demo_manager PNone) calm_user_code demo_celery 4).
Definition tailed_w1 : world := tailed_step (launch_world tailed_ids tailed_edges).
(** The join has run twice. *)
Definition tailed_w : world := tailed_fifo 5 tailed_w1.
(** Nothing is left to deliver. *)
Definition tailed_w' : world := tailed_fifo 2 tailed_w.
Lemma tailed_start : delivers (launch_world tailed_ids tailed_edges) tailed_w1.
Proof.
  exact (@fifo_step_deliver _ (demo_manager PNone) calm_user_code demo_celery 4
    (launch_world tailed_ids tailed_edges) eq_refl).
Qed.
Lemma tailed_deliveries : nsteps delivers 5 tailed_w1 tailed_w.
Proof.
  refine (@fifo_nsteps _ (demo_manager PNone) calm_user_code demo_celery 4 5 tailed_w1 _).
  vm_compute. reflexivity.
Qed.
Lemma tailed_rest : nsteps delivers 2 tailed_w tailed_w'.
Proof.
  refine (@fifo_nsteps _ (demo_manager PNone) calm_user_code demo_celery 4 2 tailed_w _).
  vm_compute. reflexivity.
Qed.

(** Five deliveries show a state of the abstract engine. *)
Lemma engine_refines_witness :
  ∃ σ, nsteps (fstep tailed_edges) 5 (initial tailed_ids tailed_edges) σ ∧
    shows "space00000" 1 tailed_w σ.
Proof.
  exact (@engine_refines _ _ (demo_manager PNone) calm_user_code calm_returns demo_celery
    eager_celery_ok "space00000" demo_space demo_user _ 1 tailed_ids tailed_edges tailed_doc
    eq_refl ltac:(discriminate) 3 5 _ _ _ (demo_launchable tailed_ids tailed_edges)
    tailed_start tailed_deliveries).
Defined.

(** The join runs twice; the tail never does, and the workflow stays in
    progress with an empty broker. *)
Lemma double_run_blocks_witness :
  ∃ t t' wf, w_tenants tailed_w !! "space00000" = Some t ∧
    w_tenants tailed_w' !! "space00000" = Some t' ∧
    length (node_tasks 1 t "d") = 2%nat ∧
    length (node_tasks 1 t' "e") = length (node_tasks 1 t "e") ∧
    w_broker tailed_w' = [] ∧ rows (t_workflows t') = [wf] ∧ wf_status_ wf = WProgress.
Proof.
  assert (∃ t, w_tenants tailed_w !! "space00000" = Some t ∧
               length (node_tasks 1 t "d") = 2%nat) as (t & Ht & H2)
    by (eexists; split; vm_compute; reflexivity).
  assert (∃ t wf, w_tenants tailed_w' !! "space00000" = Some t ∧
            rows (t_workflows t) = [wf] ∧ wf_status_ wf = WProgress) as (t' & wf & Ht' & Hw & Hs)
    by (do 2 eexists; split_and!; vm_compute; reflexivity).
  exists t, t', wf. split; [exact Ht|]. split; [exact Ht'|]. split; [exact H2|].
  split; [|split; [vm_compute; reflexivity|split; [exact Hw|exact Hs]]].
  refine (@double_run_blocks _ _ (demo_manager PNone) calm_user_code calm_returns demo_celery
    eager_celery_ok "space00000" demo_space demo_user _ 1 tailed_ids tailed_edges tailed_doc
    eq_refl _ 3 5 2 _ _ _ _ t t' "d" "e" (demo_launchable tailed_ids tailed_edges)
    tailed_start tailed_deliveries tailed_rest Ht Ht' _ _).
  - discriminate.
  - apply (bool_decide_unpack _). vm_compute. exact I.
  - rewrite H2. apply le_n.
Defined.

(** Two nodes wait, the workflow is cancelled, one node runs. *)
Lemma cancelled_workflow_succeeds_witness :
  let w1 := (cancel 1 (set_w_path "space00000" pair_started)).2 in
  let w2 := @fifo_step _ (demo_manager PNone) calm_user_code demo_celery 4 w1 in
  (∃ t wf, w_tenants w1 !! "space00000" = Some t ∧ the_row wf (rows (t_workflows t)) ∧
     wf_id wf = 1 ∧ wf_status_ wf = WCanceled) ∧
  ∃ n q', pair_ids ≡ₚ n :: q' ∧ shows "space00000" 1 w2 (Flow [n] q' WSuccess (Some n)).
Proof.
  intros w1 w2. destruct pair_rep as (nodes & cs & SU & R).
  assert (∃ r, cancel 1 (set_w_path "space00000" pair_started) = (Ok r, w1)) as [r Hr]
    by (eexists; vm_compute; reflexivity).
  exact (@cancelled_workflow_succeeds _ _ (demo_manager PNone) calm_user_code calm_returns
    demo_celery eager_celery_ok "space00000" demo_space demo_user _ 1 pair_ids [] nodes cs 3
    pair_started r w1 w2 [] pair_ids None R SU (λ n _, conj eq_refl eq_refl) Hr
    (@fifo_step_deliver _ (demo_manager PNone) calm_user_code demo_celery 4 w1 eq_refl)).
Defined.
