(* ===== verification/Joins.v ===== *)
(** * Liveness of workflows whose joins are leaves

    Runs.v shows that a node behind a join can be blocked for ever.  When no
    node waits behind a join, every run comes to its end with every node run,
    whatever the order of the deliveries and however often a join runs. *)
From Stdlib Require Import Ascii String.
From stdpp Require Import base list strings numbers gmap sets relations.
From S2P Require Import Prelude PyStr PyVal Json World Demo Graph Finmars Models Manager Builder.
From S2P Require Import Launch Tasks Engine Fixture Flow Refine System Views Lifecycle Runs.
Local Open Scope string_scope.
Local Open Scope nat_scope.
Local Open Scope list_scope.

(** ** Counting *)

Lemma count_cons n x l : count n (x :: l) = (if decide (x = n) then 1 else 0) + count n l.
Proof. unfold count. rewrite filter_cons. by destruct (decide (x = n)). Qed.
Lemma count_app n l k : count n (l ++ k) = count n l + count n k.
Proof. unfold count. by rewrite filter_app, length_app. Qed.
Lemma count_perm n l k : l ≡ₚ k → count n l = count n k.
Proof. intros Hp. unfold count. by rewrite Hp. Qed.
Lemma count_in n l : n ∈ l ↔ 1 ≤ count n l.
Proof.
  induction l as [|x l IH]; [split; [by intros ?%not_elem_of_nil|unfold count; simpl; lia]|].
  rewrite elem_of_cons, count_cons, IH. destruct (decide (x = n)) as [->|]; [split; auto with lia|].
  split; [intros [->|]; [done|lia]|auto with lia].
Qed.

Section Joins.
Context (ids : list string) (es : list edge).

(** A node with at most one incoming connection; joins are the other ones. *)
Definition single (n : string) : Prop := length (predecessors es n) ≤ 1.
Record joins_last : Prop := {
  jl_nodup : NoDup ids;
  jl_ends : ∀ e, e ∈ es → e_source e ∈ ids ∧ e_target e ∈ ids;
  jl_leaf : ∀ n, single n ∨ successors es n = [];
  jl_rank : ∃ rank : string → nat, ∀ e, e ∈ es → rank (e_source e) < rank (e_target e)
}.

Lemma single_source n m : joins_last → m ∈ successors es n → single n.
Proof. intros J Hm. destruct (jl_leaf J n) as [|E]; [done|]. rewrite E in Hm. by apply not_elem_of_nil in Hm. Qed.
Lemma single_count m n : single m → count m (successors es n) ≤ 1.
Proof.
  unfold single. intros Hs. transitivity (length (predecessors es m)); [|done].
  unfold count, successors, predecessors. rewrite length_filter_map, length_fmap.
  clear Hs. induction es as [|e l IH]; [done|]. rewrite !filter_cons.
  destruct (decide (e_source e = n)); rewrite ?filter_cons;
    destruct (decide (e_target e = m)); simpl; lia.
Qed.
Lemma single_pred_unique m n p : single m → n ∈ predecessors es m → p ∈ predecessors es m → p = n.
Proof.
  unfold single. intros Hs Hn Hp. destruct (predecessors es m) as [|x [|y l]]; [set_solver|set_solver|].
  simpl in Hs. lia.
Qed.

(** The invariant of the executions *)
Record alive (σ : flow) : Prop := {
  a_status : f_status σ = WProgress ∨ f_status σ = WSuccess;
  a_ids : ∀ n, n ∈ f_runs σ ++ f_queue σ → n ∈ ids;
  a_once : ∀ n, single n → count n (f_runs σ ++ f_queue σ) ≤ 1;
  a_preds : ∀ m p, single m → m ∈ f_runs σ ++ f_queue σ → p ∈ predecessors es m → p ∈ f_runs σ;
  a_reached : ∀ m, m ∈ ids → (∀ p, p ∈ predecessors es m → p ∈ f_runs σ) → m ∈ f_runs σ ++ f_queue σ;
  a_leaf : ∀ n, n ∈ f_runs σ → successors es n = [] → f_status σ = WSuccess
}.

(** The node delivered is dropped only when an input has not run. *)
Lemma alive_dropped σ n : joins_last → alive σ → ready es (f_runs σ) n = false →
  ∃ p, p ∈ predecessors es n ∧ (p ∉ f_runs σ).
Proof.
  intros J A. unfold ready. intros Hr.
  destruct (forallb_forall (λ p, count p (f_runs σ) =? 1) (predecessors es n)) as [_ Hall].
  destruct (decide (Exists (λ p, p ∉ f_runs σ) (predecessors es n))) as [(p & ? & ?)%Exists_exists|Hn];
    [eauto|].
  rewrite Hall in Hr; [done|]. intros p Hp%list_elem_of_In. apply Nat.eqb_eq.
  assert (p ∈ f_runs σ) as Hin.
  { destruct (decide (p ∈ f_runs σ)); [done|]. exfalso. apply Hn, Exists_exists. eauto. }
  apply count_in in Hin. assert (single p) as Hsp by (apply (single_source p n J); by apply succ_pred).
  pose proof (a_once _ A p Hsp) as Ho. rewrite count_app in Ho. lia.
Qed.

Lemma alive_exec σ q n : joins_last → alive σ → f_queue σ ≡ₚ n :: q → alive (exec es σ q n).
Proof.
  intros J A Hq. unfold exec.
  rewrite (bool_decide_eq_false_2 (f_status σ = WWait)) by (destruct (a_status _ A) as [->| ->]; done).
  assert (Hrq : ∀ m, m ∈ f_runs σ ++ f_queue σ ↔ m ∈ f_runs σ ∨ m = n ∨ m ∈ q)
    by (intros m; rewrite elem_of_app, Hq; set_solver).
  assert (Hcq : ∀ m, count m (f_runs σ ++ f_queue σ) = count m (f_runs σ) + (if decide (n = m) then 1 else 0) + count m q)
    by (intros m; rewrite count_app, (count_perm m _ _ Hq), count_cons; lia).
  destruct (ready es (f_runs σ) n) eqn:Er.
  - assert (Hfirst : single n → (n ∉ f_runs σ) ∧ (n ∉ q)).
    { intros Hs. pose proof (a_once _ A n Hs) as Ho. rewrite Hcq, decide_True in Ho by done.
      rewrite !count_in. lia. }
    split; simpl.
    + case_bool_decide; [by right|]. apply (a_status _ A).
    + intros m Hm. rewrite !elem_of_app in Hm.
      destruct Hm as [[Hm|Hm]|[Hm|Hm]]; [..|apply elem_of_successors in Hm as (e & He & _ & <-)].
      1-3: apply (a_ids _ A), Hrq; set_solver.
      by apply (jl_ends J).
    + intros m Hs. rewrite !count_app, count_cons. change (count m []) with 0.
      pose proof (a_once _ A m Hs) as Ho. rewrite Hcq in Ho.
      destruct (decide (m ∈ successors es n)) as [Hm|Hm].
      * assert (m ∉ f_runs σ ++ f_queue σ) as Hnew.
        { intros Hin. destruct (Hfirst (single_source n m J Hm)) as [Hf _].
          apply Hf, (a_preds _ A m n Hs Hin). by apply succ_pred. }
        rewrite count_in, Hcq in Hnew. pose proof (single_count m n Hs). lia.
      * rewrite count_in in Hm. lia.
    + intros m p Hs Hm Hp. rewrite !elem_of_app in Hm. apply elem_of_app.
      destruct Hm as [[Hm|Hm]|[Hm|Hm]].
      1-3: left; apply (a_preds _ A m); [done|apply Hrq; set_solver|done].
      right. apply succ_pred in Hm. rewrite (single_pred_unique m n p Hs Hm Hp). by left.
    + intros m Hid Hm. destruct (decide (m ∈ successors es n)) as [|Hns]; [set_solver|].
      assert (m ∈ f_runs σ ++ f_queue σ) as Hin; [|apply Hrq in Hin; set_solver].
      apply (a_reached _ A m Hid). intros p Hp. specialize (Hm p Hp).
      apply elem_of_app in Hm as [| ->%list_elem_of_singleton]; [done|]. by apply succ_pred in Hp.
    + intros m [Hm|Hm]%elem_of_app Hl; case_bool_decide; try done.
      * by apply (a_leaf _ A m).
      * by apply list_elem_of_singleton in Hm as ->.
  - destruct (alive_dropped σ n J A Er) as (p & Hp & Hnr). split; simpl.
    + apply (a_status _ A).
    + intros m Hm. apply (a_ids _ A), Hrq. set_solver.
    + intros m Hs. pose proof (a_once _ A m Hs) as Ho. rewrite Hcq in Ho. rewrite count_app. lia.
    + intros m p' Hs Hm. apply (a_preds _ A m); [done|]. apply Hrq. set_solver.
    + intros m Hid Hm. assert (m ∈ f_runs σ ++ f_queue σ) as Hin by by apply (a_reached _ A).
      apply Hrq in Hin as [|[->|]]; [set_solver| |set_solver]. by destruct (Hnr (Hm p Hp)).
    + apply (a_leaf _ A).
Qed.
Lemma alive_initial : joins_last → alive (initial ids es).
Proof.
  intros J. split; simpl.
  - by left.
  - intros n Hn. by apply list_elem_of_filter in Hn as [_ Hn].
  - intros n _. assert (NoDup (roots ids es)) as Hnd by apply NoDup_filter, (jl_nodup J).
    destruct (decide (n ∈ roots ids es)) as [Hn|Hn]; [by rewrite count_NoDup|].
    rewrite count_in in Hn. lia.
  - intros m p _ Hm Hp. apply list_elem_of_filter in Hm as [Hm _]. rewrite Hm in Hp. by apply not_elem_of_nil in Hp.
  - intros m Hid Hm. apply list_elem_of_filter. split; [|done].
    destruct (predecessors es m) as [|p l]; [done|]. destruct (not_elem_of_nil p). apply Hm. by left.
  - by intros n ?%not_elem_of_nil.
Qed.

(** ** The length of the runs *)

(** The messages the nodes in [runs] have sent *)
Definition sent (runs : list string) : nat := sum_list ((λ n, length (successors es n)) <$> runs).
Lemma sent_app l k : sent (l ++ k) = sent l + sent k.
Proof. unfold sent. by rewrite fmap_app, sum_list_with_app. Qed.

Lemma alive_steps k σ σ' : joins_last → alive σ → nsteps (fstep es) k σ σ' →
  alive σ' ∧ k + length (f_queue σ') + sent (f_runs σ) = length (f_queue σ) + sent (f_runs σ').
Proof.
  intros J A Hn. revert A. induction Hn as [σ|k σ1 σ2 σ3 Hs Hn IH]; intros A; [split; [done|lia]|].
  inversion Hs as [? l1 n l2 Hq]; subst.
  assert (f_queue σ1 ≡ₚ n :: l1 ++ l2) as Hp by (rewrite Hq; by rewrite Permutation_middle).
  destruct (IH (alive_exec σ1 (l1 ++ l2) n J A Hp)) as [A3 Hk]. split; [done|].
  apply Permutation_length in Hp. simpl in Hp. clear IH A3 Hn Hs. revert Hk. unfold exec.
  rewrite (bool_decide_eq_false_2 (f_status σ1 = WWait)) by (destruct (a_status _ A) as [->| ->]; done).
  destruct (ready es (f_runs σ1) n); simpl; [|lia].
  rewrite sent_app, length_app. unfold sent at 2. simpl. lia.
Qed.
End Joins.

Lemma sent_bound (es : list edge) runs : (∀ e, e ∈ es → count (e_source e) runs ≤ 1) →
  sent es runs ≤ length es.
Proof.
  intros Hc. unfold sent.
  assert (∀ e l, sum_list ((λ n, length (successors (e :: l) n)) <$> runs)
    = count (e_source e) runs + sum_list ((λ n, length (successors l n)) <$> runs)) as Hcons.
  { intros e l. clear Hc. induction runs as [|n runs IH]; [done|].
    rewrite !fmap_cons, count_cons. simpl. rewrite IH. unfold successors. rewrite filter_cons.
    destruct (decide (e_source e = n)) as [->|Hne].
    - rewrite decide_True by done. rewrite !length_fmap. cbn [length]. lia.
    - rewrite decide_False by done. lia. }
  induction es as [|e l IH].
  - clear. induction runs as [|n runs IH]; [done|]. rewrite fmap_cons. simpl in *. lia.
  - rewrite Hcons. specialize (Hc e ltac:(left)) as He. simpl.
    assert (sum_list ((λ n, length (successors l n)) <$> runs) ≤ length l); [|lia].
    apply IH. intros e' He'. apply Hc. by right.
Qed.

Section Complete.
Context (ids : list string) (es : list edge).

Lemma alive_bound k σ : joins_last ids es → nsteps (fstep es) k (initial ids es) σ →
  k + length (f_queue σ) ≤ length ids + length es.
Proof.
  intros J Hn. destruct (alive_steps ids es k _ σ J (alive_initial ids es J) Hn) as [A Hk].
  simpl in Hk. change (sent es []) with 0 in Hk. rewrite Nat.add_0_r in Hk. rewrite Hk.
  assert (length (roots ids es) ≤ length ids) as Hr by apply length_filter.
  assert (sent es (f_runs σ) ≤ length es); [|lia]. apply sent_bound. intros e He.
  assert (single es (e_source e)) as Hs.
  { apply (single_source ids es _ (e_target e) J). apply elem_of_successors. eauto. }
  pose proof (a_once _ _ _ A _ Hs) as Ho. rewrite count_app in Ho. lia.
Qed.
(** With nothing left to deliver every node has run, and a leaf among them. *)
Lemma alive_complete σ : joins_last ids es → alive ids es σ → ids ≠ [] → f_queue σ = [] →
  (∀ n, n ∈ ids → n ∈ f_runs σ) ∧ f_status σ = WSuccess.
Proof.
  intros J A Hne Hq. destruct (jl_rank _ _ J) as [rank Hrank].
  assert (∀ n, n ∈ ids → n ∈ f_runs σ) as Hall.
  { intros n. induction n as [n IH] using (well_founded_ind (well_founded_ltof _ rank)). intros Hn.
    pose proof (a_reached _ _ _ A n Hn) as Hr. rewrite Hq, app_nil_r in Hr. apply Hr. intros p Hp.
    apply elem_of_predecessors in Hp as (e & He & <- & <-).
    apply IH; [by apply Hrank|]. by apply (jl_ends _ _ J). }
  split; [done|]. destruct ids as [|n0 l] eqn:E; [done|]. rewrite <- E in *.
  assert (n0 ∈ ids) as Hn0 by (rewrite E; left). clear E Hne.
  (* from any node, a leaf of larger rank *)
  set (top := sum_list (rank <$> ids)).
  assert (∀ n, n ∈ ids → rank n ≤ top) as Htop.
  { intros n Hn. subst top. clear -Hn. induction Hn as [n l|n x l _ IH]; rewrite fmap_cons; simpl; lia. }
  assert (∀ d n, n ∈ ids → top - rank n < d → ∃ m, m ∈ ids ∧ successors es m = []) as Hleaf.
  { induction d as [|d IH]; intros n Hn Hd; [lia|].
    destruct (successors es n) as [|m k] eqn:Em; [by exists n|].
    assert (m ∈ successors es n) as Hm by (rewrite Em; left).
    apply elem_of_successors in Hm as (e & He & <- & <-).
    pose proof (Hrank e He). pose proof (jl_ends _ _ J e He) as [_ Ht].
    pose proof (Htop _ Ht). apply (IH (e_target e)); [done|lia]. }
  destruct (Hleaf (S (top - rank n0)) n0 Hn0 ltac:(lia)) as (m & Hm & Hl).
  by apply (a_leaf _ _ _ A m); [apply Hall|].
Qed.
End Complete.

(** ** The engine *)

Section Live.
Context `{Platform} {FI : FreshIds} `{Manager} `{UserCode} {CR : CodeReturns}
  `{Celery} {CO : CeleryOk}.
Context (s : string) (sp : space_row) (owner : user_row) (wt : template_row) (wfid : Z)
  (ids : list string) (es : list edge).
Context (D : code_doc wt ids es) (Hcode : lower (sp_space_code sp) = s)
  (Hne : sp_space_code sp ≠ "").

(** C2: liveness.  On every acyclic graph of source-code nodes in which only
    leaves have several inputs, whatever the order of the deliveries: a message
    that waits can be taken, there are never more deliveries than nodes and
    connections together, and when none is left every node has a task that
    succeeded and the workflow is in status SUCCESS. *)
Theorem joins_last_complete fuel k w0 w1 w : joins_last ids es →
  launchable s sp owner wt wfid w0 → deliver (S fuel) w0 w1 → nsteps (deliver (S fuel)) k w1 w →
  k ≤ length ids + length es ∧
  (w_broker w ≠ [] → ∃ w', deliver (S fuel) w w') ∧
  (w_broker w = [] → ∃ t wf, w_tenants w !! s = Some t ∧ the_row wf (rows (t_workflows t)) ∧
     wf_id wf = wfid ∧ wf_status_ wf = WSuccess ∧
     ∀ n, n ∈ ids → ∃ x, x ∈ own_tasks wfid t ∧ tk_node_id x = Some n ∧ tk_status x = TSuccess).
Proof using FI CR CO D Hcode Hne.
  intros J L Hd Hn.
  destruct (run_rep s sp owner wt wfid ids es D Hcode Hne fuel k w0 w1 w L Hd Hn)
    as (nodes & cs & σ & SU & Hs & R).
  pose proof (alive_bound ids es k σ J Hs) as Hb.
  destruct (alive_steps ids es k _ σ J (alive_initial ids es J) Hs) as [A _].
  destruct (rep_shows s sp owner wt wfid ids nodes cs w σ R)
    as [(t & wf & Ht & Hrow & Hid & Hst & Hnodes & Hok) Hlen].
  split_and!; [lia| |].
  - destruct R as [_ Hq]. intros Hw. destruct (w_broker w) as [|c l] eqn:Eb; [done|].
    apply Forall2_cons_inv_r in Hq as (n & q & (_ & m & _ & ->) & _). eexists.
    by apply (deliver_one (S fuel) w [] None m l "drawn").
  - intros Hw. assert (f_queue σ = []) as Hq by (apply length_zero_iff_nil; by rewrite <- Hlen, Hw).
    destruct (alive_complete ids es σ J A (cd_some _ _ _ D) Hq) as [Hall Hdone].
    exists t, wf. split_and!; [done..|congruence|]. intros n Hin.
    assert (Some n ∈ tk_node_id <$> own_tasks wfid t) as (x & Hx & Hxin)%list_elem_of_fmap.
    { rewrite Hnodes. apply list_elem_of_fmap_2. by apply Hall. }
    exists x. rewrite Forall_forall in Hok. auto.
Qed.
End Live.

(** A diamond: its join is a leaf, and runs twice in this order. *)
Definition diamond_ids : list string := ["a"; "b"; "c"; "d"].
Definition diamond_edges : list edge :=
  [Edge "a" "out" "b" "in"; Edge "a" "out" "c" "in"; Edge "b" "out" "d" "in"; Edge "c" "out" "d" "in"].
Lemma diamond_doc : code_doc (demo_template (demo_data diamond_ids diamond_edges)) diamond_ids diamond_edges.
Proof. apply demo_doc; [|done|apply Forall_forall]; apply (bool_decide_unpack _); by vm_compute. Qed.
Lemma diamond_joins_last : joins_last diamond_ids diamond_edges.
Proof.
  assert (Forall (λ n, single diamond_edges n ∨ successors diamond_edges n = []) diamond_ids) as Hall.
  { repeat (apply Forall_cons; split); [left; cbv; lia..|right; reflexivity|constructor]. }
  split.
  - apply (bool_decide_unpack _). by vm_compute.
  - apply Forall_forall. apply (bool_decide_unpack _). by vm_compute.
  - intros n. destruct (decide (n ∈ diamond_ids)) as [Hn|Hn].
    + rewrite Forall_forall in Hall. by apply Hall.
    + right. destruct (successors diamond_edges n) as [|m l] eqn:E; [done|].
      assert (m ∈ successors diamond_edges n) as Hm by (rewrite E; left).
      apply elem_of_successors in Hm as (e & He & <- & _). destruct Hn.
      unfold diamond_edges in He. rewrite !elem_of_cons in He.
      destruct He as [->|[->|[->|[->|[]%not_elem_of_nil]]]]; apply (bool_decide_unpack _); by vm_compute.
  - exists (λ n, if String.eqb n "a" then 0 else if String.eqb n "d" then 2 else 1).
    apply Forall_forall. repeat (apply Forall_cons; split); [simpl; lia..|constructor].
Qed.
Definition diamond_w1 : world := tailed_step (launch_world diamond_ids diamond_edges).
Definition diamond_w : world := tailed_fifo 5 diamond_w1.
Lemma joins_last_complete_witness :
  ∃ t wf, w_tenants diamond_w !! "space00000" = Some t ∧ the_row wf (rows (t_workflows t)) ∧
     wf_id wf = 1%Z ∧ wf_status_ wf = WSuccess ∧
     ∀ n, n ∈ diamond_ids → ∃ x, x ∈ own_tasks 1 t ∧ tk_node_id x = Some n ∧ tk_status x = TSuccess.
Proof.
  refine (proj2 (proj2 (@joins_last_complete _ _ (demo_manager PNone) calm_user_code calm_returns
    demo_celery eager_celery_ok "space00000" demo_space demo_user _ 1%Z diamond_ids diamond_edges
    diamond_doc eq_refl ltac:(discriminate) 3 5 _ diamond_w1 diamond_w diamond_joins_last
    (demo_launchable diamond_ids diamond_edges) _ _)) _).
  - exact (@fifo_step_deliver _ (demo_manager PNone) calm_user_code demo_celery 4
      (launch_world diamond_ids diamond_edges) eq_refl).
  - refine (@fifo_nsteps _ (demo_manager PNone) calm_user_code demo_celery 4 5 diamond_w1 _).
    vm_compute. reflexivity.
  - vm_compute. reflexivity.
Defined.
