(* ===== verification/Middleware.v ===== *)
(** * The tenant of a request (workflow/middleware.py, workflow_app/urls.py)

    [RealmAndSpaceMiddleware] reads the tenant from the URL and points the
    connection at its schema before the view runs; [SentryContextMiddleware]
    tags the error reports.  [dispatch] is the table of the routes to the
    actions of Views.v.  The file proves what a request can write. *)
From Stdlib Require Import Ascii String.
From stdpp Require Import base list strings numbers gmap sets.
From S2P Require Import Prelude PyStr PyVal Json World Demo Graph Finmars Models Manager System.
From S2P Require Import Builder Launch Views Fixture Isolation.
Local Open Scope string_scope.
Local Open Scope Z_scope.
Local Open Scope list_scope.

(** [l[i]] *)
Definition list_item {A} (l : list A) (i : nat) : res A :=
  match l !! i with Some x => Ok x | None => Raise IndexError end.

(** [request.realm_code] and [request.space_code] *)
Record tenant_attrs : Type := TenantAttrs {
  ra_realm_code : option string;
  ra_space_code : string
}.
(** An HTTP response, as far as the middleware looks at it *)
Record http_response : Type := HttpResponse {
  hp_status : Z;
  hp_streaming : bool;
  hp_content : string;
  hp_location : option string
}.

(** What [__call__] does before the view: the attributes, and the schema *)
Definition enter_space (path_info : string) : M tenant_attrs :=
  let path_parts := split c_slash path_info in
  part1 ← lift (list_item path_parts 1);
  if contains part1 "realm" then
    part2 ← lift (list_item path_parts 2);
    b ← schema_exists part2;
    _ ← (if negb b then set_search_path "public" else set_search_path part2);
    mret (TenantAttrs (Some part1) part2)
  else
    _ ← set_search_path "public";
    mret (TenantAttrs None part1).

Definition placeholder : string := "spacexxxxx".
(** The links of the admin pages, written for a placeholder space *)
Definition fix_admin_links (path_info space_code : string) (r : http_response) : http_response :=
  if negb (hp_streaming r) && contains path_info "/admin/" then
    HttpResponse (hp_status r) false (replace (hp_content r) placeholder space_code)
      ((λ l, replace l placeholder space_code) <$> hp_location r)
  else r.

(** [RealmAndSpaceMiddleware.__call__] *)
Definition realm_and_space (path_info : string) (get_response : tenant_attrs → M http_response)
    : M http_response :=
  attrs ← enter_space path_info;
  response ← get_response attrs;
  let response := fix_admin_links path_info (ra_space_code attrs) response in
  _ ← set_search_path "public";
  mret response.

(** [SentryContextMiddleware.__call__]: the tags it sets, an empty value
    setting none *)
Definition tag (name : string) (v : option string) : list (string * string) :=
  match truthy_str v with Some s => [(name, s)] | None => [] end.
Definition sentry_tags `{Platform} (attrs : tenant_attrs) : list (string * string) :=
  tag "realm_code" (ra_realm_code attrs) ++ tag "space_code" (Some (ra_space_code attrs))
  ++ tag "domain" (Some domain_name).

(** ** The routes *)

(** The actions behind [/<realm>/<space>/workflow/api/...] *)
Inductive action : Type :=
  | RunWorkflow
  | TemplateRunWorkflow
  | Relaunch (pk : Z)
  | Cancel (pk : Z)
  | BulkCancel
  | BulkDelete
  | PauseWorkflow (pk : Z)
  | ResumeWorkflow (pk : Z)
  | RunManual (pk : Z)
  | ListDefinitions
  | RefreshStorage.

Section Dispatch.
Context `{Platform} `{Fields} `{Manager} `{Backend} `{UserCode}.

Definition run_action (a : action) (r : view_request) : M view_response :=
  match a with
  | RunWorkflow => run_workflow r
  | TemplateRunWorkflow => template_run_workflow r
  | Relaunch pk => relaunch r pk
  | Cancel pk => cancel pk
  | BulkCancel => bulk_cancel r
  | BulkDelete => bulk_delete r
  | PauseWorkflow pk => pause_workflow pk
  | ResumeWorkflow pk => resume_workflow r pk
  | RunManual pk => run_manual pk
  | ListDefinitions => list_definitions r
  | RefreshStorage => refresh_storage r
  end.

(** Routing an authenticated request to an action: [render] is what the
    framework answers for a response or an exception. *)
Definition dispatch (render : res view_response → http_response) (user : user_row) (data : pyval)
    (a : action) (attrs : tenant_attrs) : M http_response := λ w,
  let '(r, w') := run_action a (ViewRequest user (ra_realm_code attrs) (Some (ra_space_code attrs)) data) w in
  (Ok (render r), w').
Definition handle_request (render : res view_response → http_response) (user : user_row)
    (data : pyval) (path_info : string) (a : action) : M http_response :=
  realm_and_space path_info (dispatch render user data a).
End Dispatch.

(** ** What a URL says *)

(** The URL of a tenant, [/<realm>/<space>/<rest>] *)
Definition tenant_url (realm space rest : string) : string :=
  "/" +:+ realm +:+ "/" +:+ space +:+ "/" +:+ rest.

Lemma split_tenant_url realm space rest : has_char c_slash realm = false →
  has_char c_slash space = false →
  split c_slash (tenant_url realm space rest) = "" :: realm :: space :: split c_slash rest.
Proof.
  intros Hr Hs. unfold tenant_url.
  change ("/" +:+ (realm +:+ "/" +:+ space +:+ "/" +:+ rest))
    with ("" +:+ String c_slash (realm +:+ String c_slash (space +:+ String c_slash rest))).
  by rewrite !split_app_sep by done.
Qed.

Section Enter.
Context (realm space rest : string) (Hr : has_char c_slash realm = false)
  (Hs : has_char c_slash space = false) (Hrealm : contains realm "realm" = true).

Lemma enter_known w : space ∈ w_catalog w →
  enter_space (tenant_url realm space rest) w
  = (Ok (TenantAttrs (Some realm) space), set_w_path (lower space) w).
Proof using Hr Hs Hrealm.
  intros Hin. unfold enter_space. rewrite split_tenant_url by done.
  unfold list_item. cbn [lookup list_lookup]. unfold mbind, ST_bind, lift. rewrite Hrealm.
  unfold schema_exists, gets. by rewrite bool_decide_true.
Qed.
Lemma enter_unknown w : space ∉ w_catalog w →
  enter_space (tenant_url realm space rest) w
  = (Ok (TenantAttrs (Some realm) space), set_w_path "public" w).
Proof using Hr Hs Hrealm.
  intros Hin. unfold enter_space. rewrite split_tenant_url by done.
  unfold list_item. cbn [lookup list_lookup]. unfold mbind, ST_bind, lift. rewrite Hrealm.
  unfold schema_exists, gets. by rewrite bool_decide_false.
Qed.
End Enter.

(** ** Tenant isolation of the actions *)

Section Actions.
Context `{Platform} `{Fields} (s : string) `{MO : ManagerOk s} `{Backend} `{UO : UserCodeOk s}
  (w0 : world).
Context (Hs : s ≠ "") (Hdot : has_char c_dot s = false).
Abbreviation I := (Stays s w0).
#[local] Hint Resolve stays_save_workflow stays_cancel_workflow stays_require_any : keeps.

(** The code a request for [s] may run: without the space's code in it, it gets
    the prefix; with it, it must have the prefix. *)
Definition own_code (uc : string) : Prop := contains uc s = true → user_code_of s uc.

Lemma stays_get_object {R} `{Model R} pk : Keeps I (get_object (R:=R) pk) anything.
Proof using. unfold get_object. solve_keeps. Qed.
#[local] Hint Resolve stays_get_object : keeps.
Lemma stays_delete_workflow wf : Keeps I (delete_workflow wf) anything.
Proof using. unfold delete_workflow. solve_keeps. Qed.
#[local] Hint Resolve stays_delete_workflow : keeps.
Lemma stays_cancel pk : Keeps I (cancel pk) anything.
Proof using. unfold cancel. solve_keeps. Qed.
Lemma stays_bulk_cancel r : Keeps I (bulk_cancel r) anything.
Proof using. unfold bulk_cancel. solve_keeps. Qed.
Lemma stays_bulk_delete r : Keeps I (bulk_delete r) anything.
Proof using. unfold bulk_delete. solve_keeps. Qed.
Lemma stays_pause pk : Keeps I (pause_workflow pk) anything.
Proof using. unfold pause_workflow. solve_keeps. Qed.
Lemma stays_resume_node wf n : Keeps I (resume_node wf n) anything.
Proof using.
  unfold resume_node. do 3 (eapply keeps_bind with (φ := anything); [solve_keeps|]; intros ? _).
  destruct a1 as [[nodes conns] adj]. eapply keeps_bind; [apply stays_space_get|]. intros sp Hsp.
  apply stays_publish, msg_of_intro; [|by left]. by apply names_context_of.
Qed.
#[local] Hint Resolve stays_resume_node : keeps.
Lemma stays_resume r pk : Keeps I (resume_workflow r pk) anything.
Proof using. unfold resume_workflow. solve_keeps. Qed.
Lemma stays_run_manual pk : Keeps I (run_manual pk) anything.
Proof using Hs Hdot.
  unfold run_manual. apply keeps_try; [|solve_keeps].
  eapply keeps_bind; [apply stays_get_object|]. intros sc _.
  destruct (negb _); [by apply keeps_ret|].
  eapply keeps_bind; [apply stays_space_get|]. intros sp Hsp.
  eapply keeps_bind with (φ := anything); [apply stays_fetch_fk|]. intros o _.
  eapply keeps_bind with (φ := anything); [apply stays_require_any|]. intros ct _.
  eapply keeps_bind with (φ := anything); [|solve_keeps].
  apply stays_publish. split; [by apply names_context_of|].
  intros uc [= <-]. by apply user_code_of_prefixed.
Qed.
Lemma stays_run_workflow r : vr_space_code r = Some s → lower s = s →
  (∀ uc, getitem (vr_data r) "user_code" = Ok (PStr uc) → own_code uc) →
  Keeps I (run_workflow r) anything.
Proof using Hs Hdot MO.
  intros Hsp Hlow Huc. unfold run_workflow.
  eapply keeps_bind with (φ := own_code).
  { apply keeps_lift. intros uc Hg. apply Huc. destruct (getitem (vr_data r) "user_code") as [v|];
      [|done]. destruct v; try done. simpl in Hg. by injection Hg as ->. }
  intros uc Hown. eapply keeps_bind with (φ := anything); [by apply keeps_lift|]. intros payload _.
  eapply keeps_bind with (φ := anything); [by apply keeps_lift|]. intros pid _.
  rewrite Hsp. eapply keeps_bind with (φ := λ c, c = s); [by apply keeps_ret|]. intros ? ->.
  cbv zeta. set (code := if contains uc s then uc else s +:+ "." +:+ uc).
  assert (user_code_of s code) as Hcode.
  { subst code. destruct (contains uc s) eqn:Hc; [by apply Hown|]. by apply user_code_of_prefixed. }
  eapply keeps_bind; [by apply stays_get_by_user_code|]. intros _ _.
  eapply keeps_bind; [by apply stays_execute_workflow|]. intros. by apply keeps_ret.
Qed.
Lemma stays_launch_again r obj : vr_space_code r = Some s →
  (∀ uc, wf_user_code obj = Some uc → user_code_of s uc) →
  Keeps I (user_code ← require (wf_user_code obj); space_code ← require_code (vr_space_code r);
           data ← execute_workflow (us_username (vr_user r)) user_code (wf_payload obj)
             (vr_realm_code r) space_code None None;
           mret (ok_response data)) anything.
Proof using MO.
  intros Hsp Huc. eapply keeps_bind with (φ := user_code_of s).
  { apply stays_require. exact Huc. }
  intros uc Hown. rewrite Hsp. eapply keeps_bind with (φ := anything); [by apply keeps_ret|].
  intros c _. eapply keeps_bind; [by apply stays_execute_workflow|]. intros. by apply keeps_ret.
Qed.
Lemma stays_definitions r : Keeps I (list_definitions r) anything.
Proof using. unfold list_definitions. solve_keeps. Qed.
End Actions.

(** ** Requests *)

Section Requests.
Context `{Platform} `{Fields} (s : string) `{MO : ManagerOk s} `{Backend} `{UO : UserCodeOk s}.
Context (Hs : s ≠ "") (Hdot : has_char c_dot s = false) (Hlow : lower s = s).

(** What isolation asks of the action: the code a request runs is the
    tenant's own, and so are the codes of the workflows it launches again. *)
Definition own_action (data : pyval) (a : action) (w : world) : Prop :=
  match a with
  | RunWorkflow | TemplateRunWorkflow =>
      ∀ uc, getitem data "user_code" = Ok (PStr uc) → own_code s uc
  | Relaunch _ =>
      ∀ t, w_tenants w !! s = Some t →
      Forall (λ wf, ∀ uc, wf_user_code wf = Some uc → user_code_of s uc) (rows (t_workflows t))
  | _ => True
  end.

Lemma within_search_path p w0 w : Within s w0 w → Within s w0 (set_w_path p w).
Proof using. intros []. by split. Qed.
Lemma stays_enter_space w0 w : Within s w0 w → Stays s w0 (set_w_path s w).
Proof using. intros []. by split. Qed.
Lemma stays_relaunch r pk w : Stays s w w → vr_space_code r = Some s →
  own_action (vr_data r) (Relaunch pk) w → Stays s w (relaunch r pk w).2.
Proof using MO.
  intros HI Hsp Hown. unfold relaunch.
  destruct (get_by_id (R:=workflow_row) pk w) as [[obj|e] w1] eqn:E.
  - rewrite (bind_ok _ _ _ _ _ E). apply get_inv in E as [-> (t & Ht & Hobj & _)].
    unfold cur in Ht. rewrite (stays_path _ _ _ HI) in Ht.
    eapply stays_launch_again; try done.
    by apply (proj1 (Forall_forall _ _) (Hown t Ht) obj Hobj).
  - rewrite (bind_raise _ _ _ _ _ E). pose proof (stays_get_by_id (R:=workflow_row) s w pk w HI) as [Hw _].
    by rewrite E in Hw.
Qed.
Lemma within_sync w0 : Leads (Within s w0) (sync_remote_storage (Some s)) (Within s w0).
Proof using Hs Hlow.
  unfold sync_remote_storage, schemas_for. simpl. rewrite (proj2 (String.eqb_neq s "")) by done.
  intros w HW. unfold mbind, ST_bind, get_all_tenant_schemas, gets. cbn [truthy_str].
  case_bool_decide; [|done]. cbn [mret ST_ret for_each].
  unfold mbind, ST_bind, set_search_path, modify. rewrite Hlow. cbn.
  pose proof (stays_sync_schema s w0 "" default_patterns _ (stays_enter_space w0 w HW)) as [HS _].
  destruct (sync_schema _ _ _) as [[[]|e] w1]; cbn in *; [|by apply stays_within].
  apply within_search_path. by apply stays_within.
Qed.
Lemma within_register w0 : Leads (Within s w0) (register_workflows (Some s)) (Within s w0).
Proof using Hs Hlow UO.
  unfold register_workflows, schemas_for. simpl. rewrite (proj2 (String.eqb_neq s "")) by done.
  intros w HW. unfold mbind, ST_bind, get_all_tenant_schemas, gets. cbn [truthy_str].
  case_bool_decide; [|done]. cbn [mret ST_ret for_each]. unfold register_schema, mbind, ST_bind.
  destruct (String.eqb s "public"); [done|].
  unfold set_search_path, modify. rewrite Hlow. cbn.
  pose proof (stays_load_workflows s w0 s _ (stays_enter_space w0 w HW)) as [HS _].
  destruct (load_workflows_for_schema s _) as [[[]|e] w1]; cbn in *; by apply stays_within.
Qed.
Lemma within_refresh r w0 : vr_space_code r = Some s →
  Leads (Within s w0) (refresh_storage r) (Within s w0).
Proof using Hs Hlow UO.
  intros Hsp. unfold refresh_storage. rewrite Hsp.
  apply leads_bind with (φ := anything); [done| |by intros ?? w HW].
  intros w HW. split; [|done]. revert w HW. apply leads_try; [|by intros e w HW].
  eapply leads_bind with (φ := anything); [done| |intros; apply within_register].
  intros w1 HW1. split; [by apply within_sync|done].
Qed.

Lemma within_action r a w : Stays s w w → vr_space_code r = Some s →
  own_action (vr_data r) a w → Within s w (run_action a r w).2.
Proof using Hs Hdot Hlow MO UO.
  intros HI Hsp Hown. destruct a; cbn [run_action] in *;
    try (apply stays_within; first
      [ eapply stays_run_workflow; eassumption | eapply stays_cancel; eassumption
      | eapply stays_bulk_cancel; eassumption | eapply stays_bulk_delete; eassumption
      | eapply stays_pause; eassumption | eapply stays_resume; eassumption
      | eapply stays_run_manual; eassumption | eapply stays_definitions; eassumption
      | by apply stays_relaunch ]).
  by apply within_refresh; [|apply stays_within].
Qed.
End Requests.

Section Isolated.
Context `{Platform} `{Fields} (s : string) `{MO : ManagerOk s} `{Backend} `{UO : UserCodeOk s}.

End Isolated.

(** Without the condition on the codes: the test [if space_code not in
    user_code] is a substring test, so the user code of another tenant with the
    space's code anywhere in it is not prefixed, and that tenant's definition
    runs. *)
Definition foreign_code : string := "space11111.com.space00000:wf".
Definition foreign_config : pyval :=
  PDict [("workflow", PDict [("user_code", PStr "com.space00000:wf"); ("space_code", PStr "space11111")]);
         ("version", PStr "2")].
Definition foreign_world : world :=
  set_w_registry [(foreign_code, foreign_config)] (demo_world (demo_tenant PNone [] [])).
#[export] Instance demo_fields : Fields := {| integer_field := num_of |}.
Definition demo_render (r : res view_response) : http_response :=
  HttpResponse (match r with Ok v => vs_status v | Raise _ => 500 end) false "" None.
Definition run_request (user_code : string) : pyval :=
  PDict [("user_code", PStr user_code); ("payload", PNone)].

Example foreign_definition_runs :
  let '(r, w') := @handle_request _ _ system_manager _ demo_render demo_user
    (run_request foreign_code) (tenant_url "realm00000" "space00000" "workflow/api/") RunWorkflow
    foreign_world in
  (hp_status <$> match r with Ok h => Some h | Raise _ => None end) = Some 200 ∧
  (t ← w_tenants w' !! "space00000"; wf ← last (rows (t_workflows t)); wf_user_code wf)
    = Some foreign_code ∧ ¬ user_code_of "space00000" foreign_code.
Proof. vm_compute. split; [reflexivity|]. split; [reflexivity|]. by intros [_ [=]]. Qed.

