(* ===== verification/Rows.v ===== *)
(** * What a task row always says

    An invariant of the tables of every tenant: the JSON columns of a task can be
    read, and a task that has ended carries its outcome.  Every delivery and
    every request preserves it, whatever its arguments and the search path. *)
From Stdlib Require Import Ascii String.
From stdpp Require Import base list strings numbers gmap sets relations.
From S2P Require Import Prelude PyStr PyVal Json World Demo Graph Finmars Models Manager System Export.
From S2P Require Import Builder Launch Tasks Engine Views Fixture Middleware.
Local Open Scope string_scope.
Local Open Scope Z_scope.
Local Open Scope list_scope.

(** ** The invariant of a row *)

(** A JSON column the property of the model can read *)
Definition readable (column : option string) : Prop := ∃ v, json_column column = Ok v.
(** What the row of a task that has ended holds *)
Definition outcome (t : task_row) : Prop :=
  match tk_status t with
  | TSuccess => is_Some (tk_result_data t) ∧ is_Some (tk_finished_at t)
  | TError | TTimeout =>
      is_Some (tk_result_data t) ∧ is_Some (tk_error_message t) ∧ is_Some (tk_finished_at t)
  | TCanceled => is_Some (tk_finished_at t)
  | _ => True
  end.
Definition columns_readable (t : task_row) : Prop :=
  readable (tk_payload_data t) ∧ readable (tk_result_data t) ∧
  readable (tk_progress_data t) ∧ readable (tk_previous_data t).
Definition task_ok (t : task_row) : Prop := columns_readable t ∧ outcome t.

(** The rows of all tenants *)
Definition Settled (w : world) : Prop :=
  ∀ s t, w_tenants w !! s = Some t → Forall task_ok (rows (t_tasks t)).

Lemma readable_none : readable None.
Proof. by exists PNone. Qed.
Lemma readable_to_json v : readable (to_json_column v).
Proof. unfold readable. destruct v; eexists; [done|..]; apply (loads_dumps_clean true (Some 1%nat)). Qed.
Lemma to_json_some v : truthy v = true → is_Some (to_json_column v).
Proof. destruct v; [done|..]; intros _; by eexists. Qed.
Create HintDb rows.
#[local] Hint Resolve readable_none readable_to_json : rows.

(** The columns of an updated row, one by one *)
Ltac solve_row := repeat split; first [eassumption | apply readable_none | apply readable_to_json | idtac].

Section Updates.
Context (t : task_row).
Lemma new_task_ok i n wf nd sp h : task_ok (new_task_row i n wf nd sp h).
Proof using. solve_row. Qed.
Lemma set_source_ok c : task_ok t → task_ok (set_tk_source_code c t).
Proof using. done. Qed.
Lemma set_payload_ok v : task_ok t → task_ok (set_tk_payload v t).
Proof using. intros [(? & ? & ? & ?) ?]. solve_row. Qed.
Lemma set_previous_ok v : task_ok t → task_ok (set_tk_previous v t).
Proof using. intros [(? & ? & ? & ?) ?]. solve_row. Qed.
Lemma set_progress_ok v : task_ok t → task_ok (set_tk_progress v t).
Proof using. intros [(? & ? & ? & ?) ?]. solve_row. Qed.
Lemma set_log_ok o : task_ok t → task_ok (set_tk_log o t).
Proof using. done. Qed.
Lemma set_worker_ok o : task_ok t → task_ok (set_tk_worker_name o t).
Proof using. done. Qed.
(** A task that is running again, or whose child runs *)
Lemma set_running_ok st : st = TProgress ∨ st = TNestedProgress → task_ok t → task_ok (set_tk_status st t).
Proof using. intros Hst [Hc _]. split; [done|]. by destruct Hst as [-> | ->]. Qed.
Lemma cancelled_ok n : task_ok t → task_ok (set_tk_finished_at (Some n) (set_tk_status TCanceled t)).
Proof using. intros [Hc _]. split; [done|]. by eexists. Qed.
Lemma succeeded_ok n v : truthy v = true → task_ok t →
  task_ok (set_tk_finished_at (Some n) (set_tk_result v (set_tk_status TSuccess t))).
Proof using.
  intros Hv [(? & ? & ? & ?) _]. split; [solve_row|].
  split; [by apply to_json_some|by eexists].
Qed.
Lemma failed_ok n b v m : truthy v = true → task_ok t →
  task_ok (set_tk_finished_at (Some n) (set_tk_error_message (Some m)
    (set_tk_result v (set_tk_status (if b : bool then TTimeout else TError) t)))).
Proof using.
  intros Hv [(? & ? & ? & ?) _]. split; [solve_row|].
  pose proof (to_json_some v Hv). destruct b; repeat split; try done; by eexists.
Qed.
Lemma with_modified_ok n : task_ok t → task_ok (with_modified n t).
Proof using. done. Qed.
Lemma inserted_ok n m i : task_ok t → task_ok (with_created n (with_modified m (with_id i t))).
Proof using. done. Qed.
End Updates.
#[local] Hint Resolve new_task_ok set_source_ok set_payload_ok set_previous_ok set_progress_ok
  set_log_ok set_worker_ok set_running_ok cancelled_ok or_introl or_intror : rows.
#[local] Hint Extern 1 (task_ok _) => solve [auto 6 with rows] : keeps.

(** ** The ORM *)

(** Models other than [Task]: writing them leaves the tasks alone. *)
Class NotTask (R : Type) `{Model R} : Prop := tasks_put : ∀ tb t, t_tasks (put_table tb t) = t_tasks t.
#[local] Instance space_not_task : NotTask space_row. Proof. done. Qed.
#[local] Instance user_not_task : NotTask user_row. Proof. done. Qed.
#[local] Instance template_not_task : NotTask template_row. Proof. done. Qed.
#[local] Instance workflow_not_task : NotTask workflow_row. Proof. done. Qed.
#[local] Instance schedule_not_task : NotTask schedule_row. Proof. done. Qed.
#[local] Instance crontab_not_task : NotTask crontab_row. Proof. done. Qed.

Lemma rows_modify (f : world → world) : (∀ w, w_tenants (f w) = w_tenants w) →
  Keeps Settled (modify f) anything.
Proof. intros Hf. apply keeps_modify; [|done]. intros w Hw s t. rewrite Hf. apply Hw. Qed.
Lemma rows_gets {A} (f : world → A) : Keeps Settled (gets f) anything.
Proof. by apply keeps_gets. Qed.
Lemma rows_now : Keeps Settled now anything.
Proof. intros w Hw. by split. Qed.
Lemma rows_uuid `{Platform} : Keeps Settled uuid anything.
Proof. intros w Hw. by split. Qed.
Lemma rows_send `{Platform} r : Keeps Settled (send_request r) anything.
Proof. intros w Hw. by split. Qed.
Lemma rows_publish_canvas c : Keeps Settled (publish_canvas c) anything.
Proof. by apply rows_modify. Qed.
Lemma rows_publish m : Keeps Settled (publish m) anything.
Proof. apply rows_publish_canvas. Qed.
Lemma rows_revoke o : Keeps Settled (revoke o) anything.
Proof. by apply rows_modify. Qed.
Lemma rows_search_path c : Keeps Settled (set_search_path c) anything.
Proof. by apply rows_modify. Qed.
Lemma rows_require {A} (o : option A) : Keeps Settled (require o) anything.
Proof. unfold require. destruct o; [by apply keeps_ret|apply keeps_raise]. Qed.
Lemma rows_current_tenant : Keeps Settled current_tenant (λ t, Forall task_ok (rows (t_tasks t))).
Proof.
  intros w Hw. unfold current_tenant. destruct (w_tenants w !! w_path w) as [t|] eqn:E; simpl; [|done].
  split; [done|]. intros ? [= <-]. by apply (Hw _ _ E).
Qed.
Lemma rows_put_tenant t : Forall task_ok (rows (t_tasks t)) → Keeps Settled (put_tenant t) anything.
Proof.
  intros Ht. apply keeps_modify; [|done]. intros w Hw s t'. simpl. rewrite lookup_insert_Some.
  intros [[_ <-]|[_ Hl]]; [done|by apply (Hw s)].
Qed.

Section Models.
Context {R : Type} `{Model R}.
Lemma rows_filter (P : R → bool) : Keeps Settled (objects_filter P) anything.
Proof. eapply keeps_bind; [apply rows_current_tenant|]. intros. by apply keeps_ret. Qed.
Lemma rows_get (P : R → bool) : Keeps Settled (objects_get P) anything.
Proof.
  eapply keeps_bind; [apply rows_filter|]. intros [|r [|]] _;
    [apply keeps_raise|by apply keeps_ret|apply keeps_raise].
Qed.
Lemma rows_get_by_id i : Keeps Settled (get_by_id (R:=R) i) anything.
Proof. apply rows_get. Qed.
Lemma rows_fetch_fk o : Keeps Settled (fetch_fk (R:=R) o) anything.
Proof.
  destruct o; [|by apply keeps_ret].
  eapply keeps_bind; [apply rows_get_by_id|]. intros. by apply keeps_ret.
Qed.
Lemma rows_get_object pk : Keeps Settled (get_object (R:=R) pk) anything.
Proof. apply keeps_try; [apply rows_get_by_id|]. intros []; apply keeps_raise. Qed.

Context `{!NotTask R}.
Lemma rows_insert (r : R) : Keeps Settled (insert_row r) anything.
Proof.
  eapply keeps_bind; [apply rows_now|]. intros n _.
  eapply keeps_bind; [apply rows_current_tenant|]. intros t Ht.
  eapply keeps_bind; [apply rows_put_tenant; by rewrite tasks_put|]. intros. by apply keeps_ret.
Qed.
Lemma rows_save (r : R) : Keeps Settled (save_row r) anything.
Proof.
  eapply keeps_bind; [apply rows_now|]. intros n _.
  eapply keeps_bind; [apply rows_current_tenant|]. intros t Ht.
  eapply keeps_bind; [apply rows_put_tenant; by rewrite tasks_put|]. intros. by apply keeps_ret.
Qed.
Lemma rows_update (P : R → bool) f : Keeps Settled (update_rows P f) anything.
Proof.
  eapply keeps_bind; [apply rows_current_tenant|]. intros t Ht.
  apply rows_put_tenant. by rewrite tasks_put.
Qed.
Lemma rows_delete (P : R → bool) : Keeps Settled (delete_rows P) anything.
Proof.
  eapply keeps_bind; [apply rows_current_tenant|]. intros t Ht.
  apply rows_put_tenant. by rewrite tasks_put.
Qed.
End Models.

(** Tasks read from the tables are good; only good ones may be written. *)
Lemma rows_task_filter (P : task_row → bool) : Keeps Settled (objects_filter P) (Forall task_ok).
Proof.
  eapply keeps_bind; [apply rows_current_tenant|]. intros t Ht. apply keeps_ret.
  unfold ordered. cbn [newest_first task_model]. apply Forall_rev. apply Forall_forall.
  intros x Hx%list_elem_of_In. apply filter_In in Hx as [Hx _].
  rewrite Forall_forall in Ht. by apply Ht, list_elem_of_In.
Qed.
Lemma rows_task_get (P : task_row → bool) : Keeps Settled (objects_get P) task_ok.
Proof.
  eapply keeps_bind; [apply rows_task_filter|]. intros [|r [|]] Hl; [apply keeps_raise| |apply keeps_raise].
  apply keeps_ret. by apply Forall_inv in Hl.
Qed.
Lemma rows_task_by_id i : Keeps Settled (get_by_id (R:=task_row) i) task_ok.
Proof. apply rows_task_get. Qed.
Lemma rows_task_insert (r : task_row) : task_ok r → Keeps Settled (insert_row r) task_ok.
Proof.
  intros Hr. eapply keeps_bind; [apply rows_now|]. intros n _.
  eapply keeps_bind; [apply rows_current_tenant|]. intros t Ht.
  eapply keeps_bind; [|intros _ _; apply keeps_ret; by apply inserted_ok].
  apply rows_put_tenant. simpl. apply Forall_app. split; [done|]. apply Forall_singleton.
  by apply inserted_ok.
Qed.
Lemma rows_task_save (r : task_row) : task_ok r → Keeps Settled (save_row r) task_ok.
Proof.
  intros Hr. eapply keeps_bind; [apply rows_now|]. intros n _.
  eapply keeps_bind; [apply rows_current_tenant|]. intros t Ht.
  eapply keeps_bind; [|intros _ _; apply keeps_ret; by apply with_modified_ok].
  apply rows_put_tenant. simpl. unfold write_row. destruct (existsb _ _).
  - apply Forall_forall. intros x Hx%list_elem_of_In. apply in_map_iff in Hx as (y & <- & Hy).
    destruct (_ =? _); [by apply (with_modified_ok r n)|]. rewrite Forall_forall in Ht. by apply Ht, list_elem_of_In.
  - apply Forall_app. split; [done|]. apply Forall_singleton. by apply (with_modified_ok r n).
Qed.
Lemma rows_task_delete (P : task_row → bool) : Keeps Settled (delete_rows P) anything.
Proof.
  eapply keeps_bind; [apply rows_current_tenant|]. intros t Ht. apply rows_put_tenant.
  simpl. apply Forall_forall. intros x Hx%list_elem_of_In. apply filter_In in Hx as [Hx _].
  rewrite Forall_forall in Ht. by apply Ht, list_elem_of_In.
Qed.

#[local] Hint Resolve rows_gets rows_now rows_uuid rows_send rows_publish_canvas rows_publish
  rows_revoke rows_search_path rows_require rows_task_filter rows_task_get rows_task_by_id
  rows_task_insert rows_task_save rows_task_delete rows_fetch_fk rows_get_object : keeps.
#[local] Hint Resolve rows_filter rows_get rows_get_by_id | 2 : keeps.
#[local] Hint Extern 1 (Keeps _ (modify _) _) => by apply rows_modify : keeps.
#[local] Hint Extern 1 (Keeps _ (insert_row _) _) => eapply @rows_insert; apply _ : keeps.
#[local] Hint Extern 1 (Keeps _ (save_row _) _) => eapply @rows_save; apply _ : keeps.
#[local] Hint Extern 1 (Keeps _ (update_rows _ _) _) => eapply @rows_update; apply _ : keeps.
#[local] Hint Extern 1 (Keeps _ (delete_rows _) _) => eapply @rows_delete; apply _ : keeps.

Lemma rows_set_schema c : Keeps Settled (set_schema_from_context c) anything.
Proof. unfold set_schema_from_context, schema_exists. solve_keeps. Qed.
#[local] Hint Resolve rows_set_schema : keeps.

(** ** The handlers *)

Section Handlers.
Context `{Platform}.

Lemma rows_tasks_of wf : Keeps Settled (tasks_of wf) (Forall task_ok).
Proof using. unfold tasks_of. solve_keeps. Qed.
Lemma rows_get_space : Keeps Settled get_space anything.
Proof using. unfold get_space. solve_keeps. Qed.
#[local] Hint Resolve rows_tasks_of rows_get_space : keeps.
Lemma rows_refresh_token n : Keeps Settled (get_refresh_token n) anything.
Proof using. unfold get_refresh_token. solve_keeps. Qed.
Lemma rows_base_path : Keeps Settled get_base_path anything.
Proof using. unfold get_base_path, get_realm_code, get_space_code. solve_keeps. Qed.
#[local] Hint Resolve rows_refresh_token rows_base_path : keeps.
Lemma rows_update_task_status i st r e : Keeps Settled (update_task_status i st r e) anything.
Proof using. unfold update_task_status. solve_keeps. Qed.
#[local] Hint Resolve rows_update_task_status : keeps.
Lemma rows_after_save wf : Keeps Settled (after_save wf) anything.
Proof using. unfold after_save, report_status. solve_keeps. Qed.
#[local] Hint Resolve rows_after_save : keeps.
Lemma rows_save_workflow wf : Keeps Settled (save_workflow wf) anything.
Proof using. unfold save_workflow. solve_keeps. Qed.
Lemma rows_create_workflow wf : Keeps Settled (create_workflow wf) anything.
Proof using. unfold create_workflow. solve_keeps. Qed.
#[local] Hint Resolve rows_save_workflow rows_create_workflow : keeps.
Lemma rows_mark t : (∀ n, task_ok (set_tk_finished_at (Some n) t)) →
  Keeps Settled (mark_task_as_finished t) task_ok.
Proof using. intros Ht. eapply keeps_bind; [apply rows_now|]. intros n _. by apply keeps_ret. Qed.
#[local] Hint Extern 1 (Keeps _ (mark_task_as_finished _) _) =>
  apply rows_mark; intros ?; solve [auto 6 with rows] : keeps.
Lemma rows_cancel_task t : task_ok t → Keeps Settled (cancel_task t) anything.
Proof using. intros Ht. unfold cancel_task. solve_keeps. Qed.
Lemma rows_cancel_workflow wf : Keeps Settled (cancel_workflow wf) anything.
Proof using.
  unfold cancel_workflow. eapply keeps_bind; [apply rows_tasks_of|]. intros l Hl.
  rewrite Forall_forall in Hl. eapply keeps_bind; [|intros _ _; apply rows_save_workflow].
  apply keeps_for_each. intros x Hx. by apply rows_cancel_task, Hl.
Qed.
Lemma rows_succeed_task v t : task_ok t → Keeps Settled (succeed_task v t) task_ok.
Proof using.
  intros Ht. unfold succeed_task. eapply keeps_bind; [|intros; by apply rows_task_save].
  apply rows_mark. intros n. apply succeeded_ok; [|done]. by destruct (truthy v) eqn:E.
Qed.
#[local] Hint Resolve rows_cancel_workflow rows_succeed_task : keeps.
Lemma rows_dispatch_next wf nodes adj conns next : Keeps Settled (dispatch_next wf nodes adj conns next) anything.
Proof using. unfold dispatch_next, publish_next_node. solve_keeps. Qed.
#[local] Hint Resolve rows_dispatch_next : keeps.
Lemma rows_handle_task_success fuel : ∀ v t, task_ok t → Keeps Settled (handle_task_success fuel v t) anything.
Proof using.
  induction fuel as [|fuel IH]; intros v t Ht; [apply keeps_raise|].
  cbn [handle_task_success]. solve_keeps.
Qed.
End Handlers.
#[local] Hint Resolve rows_tasks_of rows_get_space rows_refresh_token rows_base_path
  rows_update_task_status rows_save_workflow rows_create_workflow rows_cancel_workflow
  rows_cancel_task rows_handle_task_success : keeps.

#[local] Hint Extern 1 (Keeps _ (mark_task_as_finished _) _) =>
  apply rows_mark; intros ?; solve [auto 6 with rows] : keeps.

(** ** What the parts outside promise *)

(** The workflow manager writes no task; user code writes rows the way the
    models do. *)
Class ManagerRows `{Manager} : Prop := {
  rows_get_by_user_code user_code b : Keeps Settled (get_by_user_code user_code b) anything;
  rows_sync_for_schema path patterns : Keeps Settled (sync_for_schema path patterns) anything;
  rows_import_user_tasks path b : Keeps Settled (import_user_tasks path b) anything
}.
Class UserCodeRows `{UserCode} : Prop := {
  rows_exec_source c t args kw : task_ok t → Keeps Settled (exec_source c t args kw) anything;
  rows_call_main c t args kw : task_ok t → Keeps Settled (call_main c t args kw) anything;
  rows_exec_module n c : Keeps Settled (exec_module n c) anything;
  rows_call_function f t args kw : task_ok t → Keeps Settled (call_function f t args kw) anything
}.
#[local] Hint Resolve rows_get_by_user_code rows_sync_for_schema rows_import_user_tasks
  rows_exec_source rows_call_main rows_exec_module rows_call_function : keeps.

(** The manager of workflow/system.py keeps its promise. *)
Section System.
Context `{Platform} `{Backend} `{UserCodeRows}.
Lemma rows_rmtree p : Keeps Settled (rmtree p) anything.
Proof using. intros w Hw. unfold rmtree. by destruct (existsb _ _). Qed.
Lemma rows_write_local p c : Keeps Settled (write_local p c) anything.
Proof using. by apply rows_modify. Qed.
Lemma rows_register u c : Keeps Settled (register u c) anything.
Proof using. by apply rows_modify. Qed.
#[local] Hint Resolve rows_rmtree rows_write_local rows_register : keeps.
Lemma rows_load_workflows schema : Keeps Settled (load_workflows_for_schema schema) anything.
Proof using.
  unfold load_workflows_for_schema, workflow_files, load_workflow_file, local_exists. solve_keeps.
Qed.
Lemma rows_clear_local p : Keeps Settled (clear_local p) anything.
Proof using. unfold clear_local, local_exists. solve_keeps. Qed.
Lemma rows_sync_file folder ps f : Keeps Settled (sync_file folder ps f) anything.
Proof using. unfold sync_file, local_exists. solve_keeps. Qed.
#[local] Hint Resolve rows_load_workflows rows_clear_local rows_sync_file : keeps.
Lemma rows_for_dirs comps i path body :
  (∀ d, Keeps Settled (body d) anything) → Keeps Settled (for_dirs comps i path body) anything.
Proof using.
  intros Hb. unfold for_dirs. eapply keeps_bind with (φ := anything); [solve_keeps|].
  intros l _. apply keeps_for_each. intros d _. by apply keeps_when.
Qed.
Lemma rows_sync_schema module_path ps : Keeps Settled (sync_schema module_path ps) anything.
Proof using.
  unfold sync_schema. solve_keeps. do 4 (apply rows_for_dirs; intros ?). solve_keeps.
Qed.
Lemma rows_register_workflows o : Keeps Settled (register_workflows o) anything.
Proof using. unfold register_workflows, schemas_for, register_schema, get_all_tenant_schemas. solve_keeps. Qed.
#[local] Hint Resolve rows_sync_schema rows_register_workflows : keeps.
Lemma rows_find_by_user_code user_code b : Keeps Settled (find_by_user_code user_code b) anything.
Proof using. unfold find_by_user_code, lookup_workflow. solve_keeps. Qed.
Lemma rows_import_tasks path b : Keeps Settled (import_tasks path b) anything.
Proof using All. unfold import_tasks, task_files. solve_keeps. Qed.
Lemma system_manager_rows : ManagerRows (H := system_manager).
Proof using All.
  split; intros; [apply rows_find_by_user_code|apply rows_sync_schema|apply rows_import_tasks].
Qed.
Lemma rows_cancel_all worker : Keeps Settled (cancel_all_existing_tasks worker) anything.
Proof using.
  unfold cancel_all_existing_tasks, worker_tasks.
  eapply keeps_bind; [apply rows_task_filter|]. intros l _.
  eapply keeps_bind; [apply rows_filter|]. intros wfs _.
  eapply keeps_bind with (φ := anything); [solve_keeps|]. intros _ _.
  eapply keeps_bind; [apply rows_task_filter|]. intros l' Hl. rewrite Forall_forall in Hl.
  apply keeps_for_each. intros x Hx%Hl. unfold cancel_orphan. solve_keeps.
Qed.
End System.
#[local] Hint Resolve rows_sync_schema rows_register_workflows : keeps.

(** ** Launch, tasks and the engine *)

Section Engine.
Context `{Platform} `{ManagerRows} `{UserCodeRows} `{Celery} {CF : CeleryFrame}.

Lemma rows_workflow_config u : Keeps Settled (get_workflow_config u) anything.
Proof using All. unfold get_workflow_config. solve_keeps. Qed.
#[local] Hint Resolve rows_workflow_config : keeps.
Lemma rows_get_hook_task u h : Keeps Settled (get_hook_task u h) anything.
Proof using All. unfold get_hook_task. solve_keeps. Qed.
Lemma rows_new_task b is_hook single previous name :
  Keeps Settled (new_task b is_hook single previous name) anything.
Proof using. unfold new_task. solve_keeps. Qed.
#[local] Hint Resolve rows_get_hook_task rows_new_task : keeps.
Lemma rows_new_group b is_hook previous body : Keeps Settled (new_group b is_hook previous body) anything.
Proof using. unfold new_group. solve_keeps. Qed.
#[local] Hint Resolve rows_new_group : keeps.
Lemma rows_parse_tasks b is_hook tasks : ∀ previous,
  Keeps Settled (parse_tasks b is_hook tasks previous) anything.
Proof using. induction tasks as [|t tasks IH]; intros previous; cbn [parse_tasks]; solve_keeps. Qed.
#[local] Hint Resolve rows_parse_tasks : keeps.
Lemma rows_parse_hook b hook previous : Keeps Settled (parse_hook b hook previous) anything.
Proof using. unfold parse_hook. solve_keeps. Qed.
#[local] Hint Resolve rows_parse_hook : keeps.
Lemma rows_build_and_run i : Keeps Settled (build_and_run i) anything.
Proof using All.
  unfold build_and_run, build, get_queue, get_tasks, get_failure_hook_task, get_success_hook_task,
    get_before_start_hook_task, get_imports, build_hooks. solve_keeps.
Qed.
#[local] Hint Resolve rows_build_and_run : keeps.
Lemma rows_execute_workflow username uc payload realm code ptid ctid :
  Keeps Settled (execute_workflow username uc payload realm code ptid ctid) anything.
Proof using All.
  unfold execute_workflow, get_user, get_space_by_code, find_template, get_template, publish_v2.
  solve_keeps.
Qed.
#[local] Hint Resolve rows_execute_workflow : keeps.

(** The handlers of a task *)
Lemma rows_before_start i kw : Keeps Settled (before_start i kw) task_ok.
Proof using.
  unfold before_start, get_task_by_celery_id.
  eapply keeps_bind; [apply rows_set_schema|]. intros _ _.
  eapply keeps_bind; [apply rows_task_get|]. intros t Ht.
  eapply keeps_bind; [apply rows_task_save; auto with rows|]. intros t' Ht'.
  eapply keeps_bind; [apply rows_get_by_id|]. intros _ _. by apply keeps_ret.
Qed.
Lemma rows_on_success fuel i kw v : Keeps Settled (on_success fuel i kw v) anything.
Proof using. unfold on_success, get_task_by_celery_id. solve_keeps. Qed.
Lemma rows_fail_task e t : task_ok t → Keeps Settled (fail_task e t) task_ok.
Proof using.
  intros Ht. unfold fail_task. apply rows_mark. intros n.
  by apply (failed_ok t n (is_time_limit e) (PDict _)).
Qed.
#[local] Hint Resolve rows_fail_task : keeps.
Lemma rows_on_failure fuel kw : ∀ i e, Keeps Settled (on_failure fuel kw i e) anything.
Proof using.
  induction fuel as [|fuel IH]; intros i e; [apply keeps_raise|].
  cbn [on_failure]. unfold get_task_by_celery_id, send_alert, get_user. solve_keeps.
Qed.
#[local] Hint Resolve rows_on_failure : keeps.
Lemma rows_mark_canceled i kw : Keeps Settled (mark_as_canceled_init_tasks i kw) anything.
Proof using.
  unfold mark_as_canceled_init_tasks. eapply keeps_bind; [apply rows_set_schema|]. intros _ _.
  eapply keeps_bind; [apply rows_task_filter|]. intros l Hl. rewrite Forall_forall in Hl.
  apply keeps_for_each. intros x Hx%Hl. solve_keeps.
Qed.
Lemma rows_failure_launcher i names payload kw :
  Keeps Settled (failure_hooks_launcher i names payload kw) anything.
Proof using. unfold failure_hooks_launcher, launch_hook, insert_task. solve_keeps. Qed.
Lemma rows_step args kw t : task_ok t → Keeps Settled (execute_workflow_step args kw t) anything.
Proof using All.
  intros Ht. unfold execute_workflow_step. eapply keeps_bind; [by apply rows_modify|]. intros _ _.
  unfold step_body, run_source, start_child, run_module, sync_import, get_template, publish_v2.
  solve_keeps.
Qed.
Lemma rows_run_step fuel i args kw : Keeps Settled (run_step fuel i args kw) anything.
Proof using All.
  intros w Hw. split; [|done]. revert w Hw. apply (apply_frame Settled Settled task_ok); [done|..].
  - apply rows_before_start.
  - apply rows_step.
  - apply rows_on_success.
  - apply rows_on_failure.
  - by intros w Hw.
Qed.
#[local] Hint Resolve rows_run_step rows_mark_canceled rows_failure_launcher : keeps.
Lemma rows_source_task wf n input node conns :
  Keeps Settled (source_task wf n input node conns) anything.
Proof using. unfold source_task. solve_keeps. Qed.
Lemma rows_inputs_ready wf n conns : Keeps Settled (are_inputs_ready wf n conns) anything.
Proof using.
  unfold are_inputs_ready. eapply keeps_bind with (φ := anything); [by apply keeps_lift|].
  intros l _. induction l as [|x l IH]; cbn [all_ready]; [by apply keeps_ret|].
  unfold input_ready. solve_keeps.
Qed.
#[local] Hint Resolve rows_source_task rows_inputs_ready : keeps.
Lemma rows_process_next_node fuel n i nodes kw : Keeps Settled (process_next_node fuel n i nodes kw) anything.
Proof using All.
  unfold process_next_node, process_node, execute_node, create_step_task, insert_task. solve_keeps.
Qed.
Lemma rows_execute_v2 i kw : Keeps Settled (execute_workflow_v2 i kw) anything.
Proof using. unfold execute_workflow_v2, publish_next_node. solve_keeps. Qed.
#[local] Hint Resolve rows_process_next_node rows_execute_v2 : keeps.
Lemma rows_export kw : Keeps Settled (call_export_backend_historical_records kw) anything.
Proof using.
  intros w Hw. split; [|done]. by destruct (proj1 (export_reads w kw w (reads_refl w))) as (k & l & ->).
Qed.
#[local] Hint Resolve rows_export : keeps.
Lemma rows_run_message fuel i m : Keeps Settled (run_message fuel i m) anything.
Proof using All.
  unfold run_message, cleanup. destruct (String.eqb _ _); [apply rows_run_step|].
  eapply keeps_bind with (φ := anything); [|solve_keeps].
  apply keeps_try; [|solve_keeps].
  unfold task_body, start, end_, sleep_us, execute, get_user, get_space_by_code. solve_keeps.
Qed.

(** ** Requests *)

Context `{Fields}.
Lemma rows_delete_workflow wf : Keeps Settled (delete_workflow wf) anything.
Proof using. unfold delete_workflow. solve_keeps. Qed.
#[local] Hint Resolve rows_delete_workflow : keeps.
Context `{Backend}.
Lemma rows_run_action a r : Keeps Settled (run_action a r) anything.
Proof using All.
  destruct a; cbn [run_action];
    unfold template_run_workflow, run_workflow, relaunch, cancel, bulk_cancel, bulk_delete,
      pause_workflow, resume_workflow, resume_node, publish_next_node, run_manual, list_definitions,
      refresh_storage, sync_remote_storage, schemas_for, get_all_tenant_schemas, require_code; solve_keeps.
Qed.
Lemma rows_handle_request render user data path a :
  Keeps Settled (handle_request render user data path a) anything.
Proof using All.
  unfold handle_request, realm_and_space, enter_space, schema_exists.
  eapply keeps_bind with (φ := anything); [solve_keeps|]. intros attrs _.
  eapply keeps_bind with (φ := anything); [|solve_keeps].
  intros w Hw. split; [|done]. unfold dispatch.
  destruct (rows_run_action a (ViewRequest user (ra_realm_code attrs) (Some (ra_space_code attrs)) data) w Hw)
    as [Hk _]. by destruct (run_action _ _ w).
Qed.
End Engine.

(** ** The program *)

Section Program.
Context `{Platform} `{Manager} {MR : ManagerRows} `{UserCode} {UR : UserCodeRows}
  `{Celery} {CF : CeleryFrame} `{Fields} `{Backend}.
Context (fuel : nat) (render : res view_response → http_response).

(** One step of the program: a worker takes a message, or a server answers an
    authenticated request to one of the actions, whatever its path. *)
Inductive step : world → world → Prop :=
  | step_deliver w w' : deliver fuel w w' → step w w'
  | step_request user data path a w : step w (handle_request render user data path a w).2.

Lemma step_settled w w' : Settled w → step w w' → Settled w'.
Proof using All.
  intros Hw Hs. destruct Hs as [w w' [w0 l1 o m l2 i E _|w0 c m i Hc _ Hm]|user data path a w].
  - by apply rows_run_message.
  - by apply rows_run_message.
  - by apply rows_handle_request.
Qed.

End Program.

Lemma demo_manager_rows c : ManagerRows (H := demo_manager c).
Proof. split; intros; simpl; [by apply keeps_ret..|by apply rows_modify]. Qed.
Lemma demo_user_code_rows : UserCodeRows (H := demo_user_code).
Proof.
  split; intros; simpl; [|by apply keeps_ret|by apply rows_modify|by apply keeps_ret].
  destruct (_ =? _)%string; [apply keeps_raise|by apply keeps_ret].
Qed.

(** A workflow with a waiting task is cancelled by a request. *)
Definition waiting_task : task_row :=
  set_tk_id 1 (new_task_row "c" (Some "custom_code") 1 (Some "a") (Some 1) false).
Definition waiting_world : world :=
  demo_world (demo_tenant PNone [demo_workflow WProgress] [waiting_task]).
Lemma waiting_settled : Settled waiting_world.
Proof.
  intros s t Ht. unfold waiting_world, demo_world in Ht. cbn [w_tenants] in Ht.
  apply lookup_singleton_Some in Ht as [_ <-]. apply Forall_singleton, new_task_ok.
Qed.
Definition cancelled_world : world :=
  (@handle_request _ _ (demo_manager PNone) demo_backend demo_render demo_user PNone
     (tenant_url "realm00000" "space00000" "workflow/api/") (Cancel 1) waiting_world).2.
Definition cancelled_task : task_row :=
  set_tk_modified_at 1001 (set_tk_finished_at (Some 1000) (set_tk_status TCanceled waiting_task)).
Definition cancelled_tenant : tenant :=
  demo_tenant PNone [set_wf_modified_at 1002 (demo_workflow WCanceled)] [cancelled_task].
Abbreviation demo_step := (@step _ (demo_manager PNone) demo_user_code demo_celery demo_fields demo_backend
  3%nat demo_render).
Lemma cancelled_step : demo_step waiting_world cancelled_world.
Proof. apply step_request. Qed.
Lemma cancelled_lookup : w_tenants cancelled_world !! "space00000" = Some cancelled_tenant.
Proof. vm_compute. reflexivity. Qed.
