(* ===== verification/Scheduler.v ===== *)
(** * The beat scheduler over all tenants (workflow/schedulers.py)

    [DatabaseScheduler] overrides two methods of the django-celery-beat
    scheduler so that one beat process serves the schedules of every tenant. *)
From Stdlib Require Import Ascii String.
From stdpp Require Import base list strings numbers gmap sets.
From S2P Require Import Prelude PyStr PyVal Json World Demo Models.
Local Open Scope string_scope.
Local Open Scope Z_scope.
Local Open Scope list_scope.

(** The context that names a schema *)
Definition schema_context (schema : string) : pyval := PDict [("space_code", PStr schema)].
(** [self.Model.objects.enabled()] *)
Definition enabled_schedules : M (list schedule_row) := objects_filter sc_enabled.
(** [f"{schema}:{model.name}"] *)
Definition entry_key (schema : string) (model : schedule_row) : string :=
  schema +:+ ":" +:+ sc_name model.

(** The parent class, django-celery-beat *)
Class Beat : Type := {
  (** [ModelEntry], what beat keeps of a schedule *)
  entry : Type;
  (** [self.Entry(model, app=self.app)]: a [ValueError] for a schedule it
      cannot read *)
  make_entry : schedule_row → res entry;
  (** [PeriodicTasks.last_change()] in the tables of a tenant *)
  last_change : tenant → option Z
}.

Section Scheduler.
Context `{Beat}.

(** [self.Changes.last_change()] *)
Definition last_change_in_schema : M (option Z) :=
  t ← current_tenant; mret (last_change t).

(** One iteration of the inner loop of [all_as_schedule] *)
Definition add_entry (schema : string) (s : list (string * entry)) (model : schedule_row)
    : res (list (string * entry)) :=
  match make_entry model with
  | Ok e => Ok (dict_set s (entry_key schema model) e)
  | Raise ValueError => Ok s
  | Raise e => Raise e
  end.
Fixpoint schedule_schemas (schemas : list string) (s : list (string * entry))
    : M (list (string * entry)) :=
  match schemas with
  | [] => mret s
  | schema :: schemas =>
      _ ← set_schema_from_context (schema_context schema);
      models ← enabled_schedules;
      s ← lift (fold_res (add_entry schema) models s);
      schedule_schemas schemas s
  end.
(** [all_as_schedule] *)
Definition all_as_schedule : M (list (string * entry)) :=
  schemas ← get_all_tenant_schemas;
  schedule_schemas schemas [].

(** The loop of [schedule_changed]: [None] is its early [return False] *)
Definition newest (ts last_change : option Z) : option Z :=
  match last_change with
  | None => ts
  | Some c => match ts with Some t => Some (Z.max t c) | None => Some c end
  end.
Fixpoint latest_change (schemas : list string) (ts : option Z) : M (option (option Z)) :=
  match schemas with
  | [] => mret (Some ts)
  | schema :: schemas =>
      _ ← set_schema_from_context (schema_context schema);
      o ← try_except (c ← last_change_in_schema; mret (Some c))
            (λ e, match e with
                  | DatabaseError | InterfaceError => mret None
                  | _ => raise e
                  end);
      match o with
      | None => mret None
      | Some c => latest_change schemas (newest ts c)
      end
  end.
(** [schedule_changed] on a scheduler whose [_last_timestamp] is [last]: what it
    returns and the [_last_timestamp] it leaves *)
Definition schedule_changed (last : option Z) : M (bool * option Z) :=
  schemas ← get_all_tenant_schemas;
  o ← latest_change schemas None;
  match o with
  | None => mret (false, last)
  | Some ts =>
      mret (match ts with
            | Some t => default t last <? t
            | None => false
            end, ts)
  end.
End Scheduler.

(** ** Properties *)

(** Keys of different tenants are different: a schema has no colon. *)
Lemma entry_key_inj s s' m m' : has_char c_colon s = false → has_char c_colon s' = false →
  entry_key s m = entry_key s' m' → s = s' ∧ sc_name m = sc_name m'.
Proof. apply app_sep_inj. Qed.

(** A schema the scheduler can read, with its tables [t] *)
Definition serves (w : world) (schema : string) (t : tenant) : Prop :=
  schema ∈ w_catalog w ∧ schema ≠ "" ∧ lower schema = schema ∧ w_tenants w !! schema = Some t.

Lemma enter_schema w schema t : serves w schema t →
  set_schema_from_context (schema_context schema) w = (Ok tt, set_w_path schema w).
Proof.
  intros (Hc & Hne & Hl & _). unfold set_schema_from_context, schema_context. cbn [truthy].
  unfold mbind, ST_bind, lift, get, get_default. simpl.
  rewrite (proj2 (String.eqb_neq schema "")) by done. simpl.
  rewrite bool_decide_true by done. unfold set_search_path, modify. by rewrite Hl.
Qed.
Lemma serves_path p w schema t : serves w schema t → serves (set_w_path p w) schema t.
Proof. done. Qed.

Section SchedulerOk.
Context `{Beat}.

(** ** The schedule *)

(** The entries of one tenant *)
Definition model_entry (schema : string) (m : schedule_row) : option (string * entry) :=
  match make_entry m with Ok e => Some (entry_key schema m, e) | Raise _ => None end.
Definition tenant_entries (x : string * tenant) : list (string * entry) :=
  omap (model_entry x.1) (List.filter sc_enabled (rows (t_schedules x.2))).

Lemma add_entries schema (l : list schedule_row) s :
  (∀ m e, make_entry m = Raise e → e = ValueError) →
  fold_res (add_entry schema) l s = Ok (dict_update s (omap (model_entry schema) l)).
Proof.
  intros He. revert s. induction l as [|m l IH]; intros s; [done|]. simpl.
  assert (add_entry schema s m = Ok (dict_update s (option_list (model_entry schema m)))) as ->.
  { unfold add_entry, model_entry. destruct (make_entry m) as [e|e] eqn:E; [done|].
    by rewrite (He m e E). }
  cbn. rewrite IH. by destruct (model_entry schema m).
Qed.
Lemma schedule_schemas_run (l : list (string * tenant)) s w :
  (∀ m e, make_entry m = Raise e → e = ValueError) →
  Forall (λ x, serves w x.1 x.2) l →
  ∃ p, schedule_schemas l.*1 s w
    = (Ok (fold_left dict_update (tenant_entries <$> l) s), set_w_path p w).
Proof.
  intros He. revert s w. induction l as [|[schema t] l IH]; intros s w Hl; simpl.
  { exists (w_path w). by destruct w. }
  apply Forall_cons in Hl as [Hs Hl]. simpl in Hs.
  rewrite (bind_ok _ _ _ _ _ (enter_schema w schema t Hs)).
  set (w1 := set_w_path schema w).
  rewrite (bind_ok enabled_schedules _ w1 _ w1 (filter_run sc_enabled w1 t (proj2 (proj2 (proj2 Hs))))).
  unfold mbind at 1, ST_bind at 1, lift. unfold ordered. simpl.
  rewrite add_entries by done. destruct (IH (dict_update s (tenant_entries (schema, t))) w1) as [p Hp].
  { eapply Forall_impl; [exact Hl|]. intros x. apply serves_path. }
  exists p. exact Hp.
Qed.

(** The keys: the schemas of the catalog are distinct and have no colon, the
    names of a tenant's enabled schedules are distinct. *)
Definition distinct_names (x : string * tenant) : Prop :=
  has_char c_colon x.1 = false ∧ NoDup (sc_name <$> List.filter sc_enabled (rows (t_schedules x.2))).

Lemma tenant_entry_key x k : k ∈ dict_keys (tenant_entries x) →
  ∃ m, m ∈ List.filter sc_enabled (rows (t_schedules x.2)) ∧ k = entry_key x.1 m.
Proof.
  unfold dict_keys, tenant_entries. intros ([k' e] & -> & Hin)%list_elem_of_fmap.
  apply list_elem_of_omap in Hin as (m & Hm & E). unfold model_entry in E.
  destruct (make_entry m); [|done]. injection E as <- _. eauto.
Qed.
Lemma tenant_entries_nodup x : distinct_names x → NoDup (dict_keys (tenant_entries x)).
Proof.
  intros [Hc Hn]. unfold dict_keys, tenant_entries.
  induction (List.filter sc_enabled (rows (t_schedules x.2))) as [|m l IH]; simpl; [constructor|].
  apply NoDup_cons in Hn as [Hm Hn]. specialize (IH Hn).
  unfold model_entry at 1. destruct (make_entry m) as [e|]; simpl; [|done].
  constructor; [|done]. intros ([k e'] & Hk & Hin)%list_elem_of_fmap.
  apply list_elem_of_omap in Hin as (m' & Hm' & E). unfold model_entry in E.
  destruct (make_entry m'); [|done]. injection E as <- _. simpl in Hk.
  apply (entry_key_inj x.1 x.1 m m' Hc Hc) in Hk as [_ Hk]. apply Hm. rewrite Hk.
  by apply list_elem_of_fmap_2.
Qed.
Lemma all_entries_nodup l : NoDup l.*1 → Forall distinct_names l →
  NoDup (dict_keys (flat_map tenant_entries l)).
Proof.
  induction l as [|x l IH]; intros Hl Hd; simpl; [constructor|].
  apply NoDup_cons in Hl as [Hx Hl]. apply Forall_cons in Hd as [Hdx Hd].
  unfold dict_keys in *. rewrite fmap_app. apply NoDup_app. split_and!.
  - by apply tenant_entries_nodup.
  - intros k Hk Hk'. apply Hx.
    apply tenant_entry_key in Hk as (m & _ & ->).
    apply list_elem_of_fmap in Hk' as ([k e] & Hk & Hin).
    apply list_elem_of_In, in_flat_map in Hin as (y & Hy & Hin). apply list_elem_of_In in Hy, Hin.
    destruct (tenant_entry_key y k) as (m' & _ & E); [by apply (list_elem_of_fmap_2 fst) in Hin|].
    rewrite Forall_forall in Hd. simpl in Hk. rewrite E in Hk.
    destruct (entry_key_inj x.1 y.1 m m') as [-> _]; [apply Hdx|by apply Hd|done|].
    by apply list_elem_of_fmap_2.
  - by apply IH.
Qed.
Lemma fold_updates (l : list (string * tenant)) s :
  fold_left dict_update (tenant_entries <$> l) s = dict_update s (flat_map tenant_entries l).
Proof.
  revert s. induction l as [|x l IH]; intros s; simpl; [done|].
  rewrite IH. unfold dict_update. by rewrite fold_left_app.
Qed.

(** One beat for all tenants.  When every tenant schema of the catalog can be
    read, the schedule beat gets has exactly one entry for each enabled schedule
    of each tenant that beat can read, under the key "<schema>:<name>", in the
    order of the catalog: no entry of a tenant hides one of another, and no table
    is written. *)
Theorem all_as_schedule_complete (l : list (string * tenant)) w :
  List.filter is_tenant_schema (w_catalog w) = l.*1 → NoDup l.*1 →
  Forall (λ x, serves w x.1 x.2) l → Forall distinct_names l →
  (∀ m e, make_entry m = Raise e → e = ValueError) →
  ∃ p, all_as_schedule w = (Ok (flat_map tenant_entries l), set_w_path p w).
Proof.
  intros Hcat Hnd Hs Hd He. unfold all_as_schedule.
  rewrite (bind_ok get_all_tenant_schemas _ w l.*1 w) by (unfold get_all_tenant_schemas, gets; by rewrite Hcat).
  destruct (schedule_schemas_run l [] w He Hs) as [p Hp]. exists p. rewrite Hp.
  rewrite fold_updates. do 2 f_equal. by apply dict_of_id, all_entries_nodup.
Qed.

(** ** Changes *)

(** The newest change of all tenants *)
Definition newest_change (l : list (string * tenant)) : option Z :=
  fold_left newest ((λ x, last_change x.2) <$> l) None.
Lemma newest_some (l : list (option Z)) d : ∃ d', fold_left newest l (Some d) = Some d'.
Proof. revert d. induction l as [|[c|] l IH]; intros d; simpl; eauto. Qed.
Lemma newest_spec (l : list (option Z)) ts c :
  (default ts (fold_left newest l (Some ts)) >? c) = (ts >? c) || existsb (λ o, default c o >? c) l.
Proof.
  revert ts. induction l as [|[d|] l IH]; intros ts; simpl; [by rewrite orb_false_r| |].
  - destruct (newest_some l (Z.max ts d)) as [d' E]. specialize (IH (Z.max ts d)).
    rewrite E in IH |- *. simpl in *. rewrite IH, orb_assoc. f_equal. apply Bool.eq_iff_eq_true.
    rewrite orb_true_iff, !Z.gtb_lt. lia.
  - rewrite IH. f_equal. by rewrite Z.gtb_ltb, Z.ltb_irrefl.
Qed.
Lemma newest_fires (l : list (option Z)) c :
  match fold_left newest l None with Some t => c <? t | None => false end
  = existsb (λ o, default c o >? c) l.
Proof.
  induction l as [|[d|] l IH]; simpl; [done| |].
  - pose proof (newest_spec l d c) as N. destruct (newest_some l d) as [d' E].
    rewrite E in N |- *. simpl in N. by rewrite <- N, Z.gtb_ltb.
  - by rewrite IH, Z.gtb_ltb, Z.ltb_irrefl.
Qed.
Lemma latest_change_run (l : list (string * tenant)) ts w :
  Forall (λ x, serves w x.1 x.2) l →
  ∃ p, latest_change l.*1 ts w
    = (Ok (Some (fold_left newest ((λ x, last_change x.2) <$> l) ts)), set_w_path p w).
Proof.
  revert ts w. induction l as [|[schema t] l IH]; intros ts w Hl; simpl.
  { exists (w_path w). by destruct w. }
  apply Forall_cons in Hl as [Hs Hl]. simpl in Hs.
  rewrite (bind_ok _ _ _ _ _ (enter_schema w schema t Hs)).
  set (w1 := set_w_path schema w).
  assert (current_tenant w1 = (Ok t, w1)) as Ht.
  { unfold current_tenant. simpl. by rewrite (proj2 (proj2 (proj2 Hs))). }
  rewrite (bind_ok _ _ w1 (Some (last_change t)) w1).
  2:{ apply try_ok. unfold last_change_in_schema. unfold mbind, ST_bind. by rewrite Ht. }
  destruct (IH (newest ts (last_change t)) w1) as [p Hp].
  { eapply Forall_impl; [exact Hl|]. intros x. apply serves_path. }
  exists p. exact Hp.
Qed.

(** Changes of any tenant are seen.  When every tenant schema can be read,
    [schedule_changed] remembers the newest change of all tenants; with a
    remembered time it is true exactly when some tenant has a change newer than
    it, so that the reload happens once per change, and the first call is always
    false. *)
Theorem schedule_changed_any (l : list (string * tenant)) last w :
  List.filter is_tenant_schema (w_catalog w) = l.*1 → Forall (λ x, serves w x.1 x.2) l →
  ∃ b p, schedule_changed last w = (Ok (b, newest_change l), set_w_path p w) ∧
    match last with
    | None => b = false
    | Some c => b = true ↔ ∃ x d, x ∈ l ∧ last_change x.2 = Some d ∧ c < d
    end.
Proof.
  intros Hcat Hs. unfold schedule_changed.
  rewrite (bind_ok get_all_tenant_schemas _ w l.*1 w) by (unfold get_all_tenant_schemas, gets; by rewrite Hcat).
  destruct (latest_change_run l None w Hs) as [p Hp]. rewrite (bind_ok _ _ _ _ _ Hp).
  do 2 eexists. split; [reflexivity|]. fold (newest_change l). destruct last as [c|].
  2:{ destruct (newest_change l); [apply Z.ltb_irrefl|done]. }
  cbn [default]. unfold newest_change. rewrite newest_fires.
  rewrite existsb_exists. setoid_rewrite <- list_elem_of_In.
  setoid_rewrite list_elem_of_fmap. split.
  - intros (o & (x & -> & Hx) & Hc). destruct (last_change x.2) as [d|] eqn:Ed; simpl in Hc;
      apply Z.gtb_lt in Hc; [by exists x, d|lia].
  - intros (x & d & Hx & Hd & Hc). exists (last_change x.2). split; [by exists x|].
    rewrite Hd. simpl. by apply Z.gtb_lt.
Qed.
End SchedulerOk.

(** ** Two tenants *)

#[export] Instance demo_beat : Beat := {|
  entry := Z; make_entry := λ m, Ok (sc_id m);
  last_change := λ t, match rows (t_schedules t) with [] => None | m :: _ => Some (sc_modified_at m) end |}.
Definition nightly (id modified : Z) : schedule_row :=
  ScheduleRow id "nightly" "nightly" None PNone false 1 1 "com.demo:wf" None true None "" "" "" None 0 modified.
Definition scheduled_tenant (id modified : Z) : tenant :=
  set_t_schedules (Table [nightly id modified] 10) (demo_tenant PNone [] []).
Definition two_tenants : list (string * tenant) :=
  [("space00000", scheduled_tenant 1 100); ("space11111", scheduled_tenant 2 200)].
Definition two_tenant_world : world :=
  World (list_to_map two_tenants) ["pg_catalog"; "space00000"; "space11111"] "public" 1000 0 [] [] []
    [] [] None.
Lemma two_tenants_served : Forall (λ x, serves two_tenant_world x.1 x.2) two_tenants.
Proof.
  apply Forall_cons; split; [|apply Forall_cons; split; [|constructor]];
    (split_and!; [apply (bool_decide_unpack _); reflexivity|done|done|reflexivity]).
Qed.

Lemma all_as_schedule_complete_witness :
  ∃ s p, all_as_schedule two_tenant_world = (Ok s, set_w_path p two_tenant_world) ∧
    s = [("space00000:nightly", 1); ("space11111:nightly", 2)].
Proof.
  destruct (all_as_schedule_complete two_tenants two_tenant_world) as [p Hp].
  - reflexivity.
  - apply (bool_decide_unpack _). reflexivity.
  - exact two_tenants_served.
  - apply Forall_cons; split; [|apply Forall_cons; split; [|constructor]];
      (split; [reflexivity|apply NoDup_singleton]).
  - done.
  - eexists _, p. split; [exact Hp|reflexivity].
Defined.
Lemma schedule_changed_any_witness :
  ∃ p, schedule_changed (Some 150) two_tenant_world = (Ok (true, Some 200), set_w_path p two_tenant_world).
Proof.
  destruct (schedule_changed_any two_tenants (Some 150) two_tenant_world eq_refl two_tenants_served)
    as (b & p & H & Hb).
  exists p. rewrite H. assert (b = true) as ->; [|reflexivity].
  apply Hb. exists ("space11111", scheduled_tenant 2 200), 200.
  split; [right; left|]. split; [reflexivity|lia].
Defined.
