(* ===== verification/Monitoring.v ===== *)
(** * Monitoring of the workers and queues (workflow/monitoring.py)

    [CeleryMonitoring] groups what celery's inspection reports by worker type and
    name; [RabbitMQMonitoring] picks the platform's queues out of what the
    management API lists. *)
From Stdlib Require Import Ascii String.
From stdpp Require Import base list strings numbers gmap sets.
From S2P Require Import Prelude PyStr PyVal Json World.
Local Open Scope string_scope.
Local Open Scope Z_scope.
Local Open Scope list_scope.

(** ** Celery *)

(** [self.task_types] *)
Inductive task_type : Type := ActiveTasks | ScheduledTasks | PendingTasks.
#[export] Instance task_type_eq_dec : EqDecision task_type.
Proof. solve_decision. Defined.

(** [insp.active()], [insp.scheduled()], [insp.reserved()]: the tasks of each
    worker, [None] when no worker answers *)
Class Inspect : Type := { inspect : task_type → option (list (string * list pyval)) }.

(** The dictionary of one worker *)
Record worker_data : Type := WorkerData {
  wd_tasks : task_type → list pyval;
  wd_count : task_type → Z;
  wd_total : Z
}.
Definition no_tasks : worker_data := WorkerData (λ _, []) (λ _, 0) 0.
(** The body of the innermost loop *)
Definition add_task (ty : task_type) (d : worker_data) (task : pyval) : worker_data :=
  WorkerData (λ u, if decide (u = ty) then wd_tasks d u ++ [task] else wd_tasks d u)
    (λ u, if decide (u = ty) then wd_count d u + 1 else wd_count d u) (wd_total d + 1).

(** [data]: worker type, worker name, worker *)
Definition monitor : Type := list (string * list (string * worker_data)).
Definition workers_of (data : monitor) (worker_type : string) : list (string * worker_data) :=
  default [] (dict_get data worker_type).
(** [worker_type, worker_name = full_worker_name.split("@")] *)
Definition worker_names (full_worker_name : string) : res (string * string) :=
  match split c_at full_worker_name with
  | [worker_type; worker_name] => Ok (worker_type, worker_name)
  | _ => Raise ValueError
  end.
(** The body of the loop over the workers *)
Definition add_worker (ty : task_type) (data : monitor) (w : string * list pyval) : res monitor :=
  n ← worker_names w.1;
  let workers := workers_of data n.1 in
  let d := default no_tasks (dict_get workers n.2) in
  Ok (dict_set data n.1 (dict_set workers n.2 (fold_left (add_task ty) w.2 d))).
Definition task_types : list task_type := [ActiveTasks; ScheduledTasks; PendingTasks].
Definition collect `{Inspect} : res monitor :=
  fold_res (λ data ty, fold_res (add_worker ty) (default [] (inspect ty)) data) task_types [].
(** [CeleryMonitoring.get_tasks_data]: any error gives no data. *)
Definition get_tasks_data `{Inspect} : monitor :=
  match collect with Ok data => data | Raise _ => [] end.

(** ** RabbitMQ *)

(** [_make_request]: [None] on an error or a status other than 200 *)
Definition make_request (answer : res response) : option pyval :=
  match answer with
  | Ok r => if rs_status r =? 200 then match rs_json r with Ok v => Some v | Raise _ => None end
            else None
  | Raise _ => None
  end.

Definition skipped_names : list string := [".celery.pidbox"; "celeryev."].
(** The group a queue is shown in *)
Definition queue_group (queue_name : string) : option string :=
  if existsb (contains queue_name) skipped_names then None
  else if startswith queue_name "backend-" then Some "backend"
  else if String.eqb queue_name "workflow" then Some "workflow"
  else None.
Definition queue_fields : list string :=
  ["messages"; "messages_ready"; "messages_unacknowledged"; "consumers"; "consumer_utilisation"].
Definition queue_info (queue_name : string) (queue : list (string * pyval)) : pyval :=
  PDict (("name", PStr queue_name)
         :: map (λ f, (f, default (PInt 0) (dict_get queue f))) queue_fields).
(** The body of the loop of [get_main_queues_info] *)
Definition add_queue (main_queues : list (string * list (string * pyval))) (queue : pyval)
    : res (list (string * list (string * pyval))) :=
  match queue with
  | PDict q =>
      queue_name ← as_str (default (PStr "") (dict_get q "name"));
      Ok match queue_group queue_name with
         | None => main_queues
         | Some group =>
             dict_set main_queues group
               (dict_set (default [] (dict_get main_queues group)) queue_name (queue_info queue_name q))
         end
  | _ => Ok main_queues
  end.
(** [RabbitMQMonitoring.get_main_queues_info] *)
Definition get_main_queues_info (answer : res response)
    : res (list (string * list (string * pyval))) :=
  match make_request answer with
  | None => Ok []
  | Some queues_data =>
      if truthy queues_data then
        queues ← py_iter queues_data; fold_res add_queue queues []
      else Ok []
  end.

(** ** Properties *)

(** The tasks a monitor shows for a worker *)
Definition shown (data : monitor) (n : string * string) : worker_data :=
  default no_tasks (dict_get (workers_of data n.1) n.2).
(** The tasks inspection reports for a worker *)
Definition reported (l : list (string * list pyval)) (n : string * string) : list pyval :=
  flat_map (λ w, if decide (worker_names w.1 = Ok n) then w.2 else []) l.

Lemma add_tasks_spec ty l d u :
  let d' := fold_left (add_task ty) l d in
  wd_tasks d' u = wd_tasks d u ++ (if decide (u = ty) then l else []) ∧
  wd_count d' u = wd_count d u + (if decide (u = ty) then Z.of_nat (length l) else 0) ∧
  wd_total d' = wd_total d + Z.of_nat (length l).
Proof.
  revert d. induction l as [|t l IH]; intros d; simpl.
  - destruct (decide _); rewrite app_nil_r; split_and!; lia || done.
  - destruct (IH (add_task ty d t)) as (-> & -> & ->). simpl.
    destruct (decide (u = ty)); rewrite <- ?app_assoc; split_and!; lia || done.
Qed.
Lemma shown_set data n ws d n' :
  ws = workers_of data n.1 →
  shown (dict_set data n.1 (dict_set ws n.2 d)) n' = if decide (n' = n) then d else shown data n'.
Proof.
  intros ->. unfold shown, workers_of. rewrite dict_get_set. destruct n as [a b], n' as [a' b']. simpl.
  destruct (decide (a' = a)) as [->|]; simpl.
  - rewrite dict_get_set. destruct (decide (b' = b)) as [->|].
    + by rewrite decide_True.
    + rewrite decide_False by congruence. done.
  - by rewrite decide_False by congruence.
Qed.

(** What the loops keep: the lists and the counts of every worker *)
Definition counted (d : worker_data) : Prop :=
  (∀ u, wd_count d u = Z.of_nat (length (wd_tasks d u))) ∧
  wd_total d = wd_count d ActiveTasks + wd_count d ScheduledTasks + wd_count d PendingTasks.

Lemma add_workers_spec ty l data : Forall (λ w, is_ok (worker_names w.1) = true) l →
  ∃ data', fold_res (add_worker ty) l data = Ok data' ∧
    ∀ n, shown data' n = fold_left (add_task ty) (reported l n) (shown data n).
Proof.
  revert data. induction l as [|[full tasks] l IH]; intros data Hl; simpl; [by exists data|].
  apply Forall_cons in Hl as [Hf Hl]. simpl in Hf. unfold add_worker at 2. simpl.
  destruct (worker_names full) as [n|] eqn:E; [|done]. simpl.
  edestruct IH as (data' & Hd & Hs); [exact Hl|]. exists data'. split; [exact Hd|].
  intros n'. rewrite Hs, shown_set by done. rewrite fold_left_app.
  destruct (decide (n' = n)) as [->|Hne].
  - by rewrite decide_True.
  - rewrite decide_False by congruence. done.
Qed.
Lemma add_workers_error ty l data : ¬ Forall (λ w, is_ok (worker_names w.1) = true) l →
  is_ok (fold_res (add_worker ty) l data) = false.
Proof.
  revert data. induction l as [|[full tasks] l IH]; intros data Hl; simpl; [by destruct Hl|].
  unfold add_worker at 2. simpl. destruct (worker_names full) as [n|] eqn:E; [|done]. simpl.
  apply IH. intros Hl'. apply Hl. constructor; [simpl; by rewrite E|done].
Qed.
Lemma counted_add ty l d : counted d → counted (fold_left (add_task ty) l d).
Proof.
  intros [Hc Ht]. split.
  - intros u. destruct (add_tasks_spec ty l d u) as (-> & -> & _). rewrite Hc, length_app.
    destruct (decide (u = ty)); simpl; lia.
  - destruct (add_tasks_spec ty l d ActiveTasks) as (_ & -> & ->).
    destruct (add_tasks_spec ty l d ScheduledTasks) as (_ & -> & _).
    destruct (add_tasks_spec ty l d PendingTasks) as (_ & -> & _).
    destruct ty; repeat (first [rewrite decide_True by done | rewrite decide_False by done]); lia.
Qed.

Section Celery.
Context `{Inspect}.

Definition answers (ty : task_type) : list (string * list pyval) := default [] (inspect ty).
Definition well_named : Prop :=
  Forall (λ ty, Forall (λ w, is_ok (worker_names w.1) = true) (answers ty)) task_types.

(** The celery monitor.  When every worker is named "<type>@<name>", the
    monitor shows for each worker exactly the tasks inspection reports for it,
    of each of the three kinds, with their numbers, and a total that is the sum
    of the three; one worker with another name leaves the monitor empty. *)
Theorem tasks_data_complete :
  (well_named → ∀ n,
     (∀ ty, wd_tasks (shown get_tasks_data n) ty = reported (answers ty) n) ∧
     counted (shown get_tasks_data n)) ∧
  (¬ well_named → get_tasks_data = []).
Proof.
  unfold get_tasks_data, collect, task_types. cbn [fold_res]. fold (answers ActiveTasks).
  fold (answers ScheduledTasks). fold (answers PendingTasks). split.
  - intros Hw n. unfold well_named, task_types in Hw.
    apply Forall_cons in Hw as [Ha Hw]. apply Forall_cons in Hw as [Hs Hw].
    apply Forall_cons in Hw as [Hp _].
    destruct (add_workers_spec ActiveTasks _ [] Ha) as (d1 & -> & H1). cbn [mbind res_bind].
    destruct (add_workers_spec ScheduledTasks _ d1 Hs) as (d2 & -> & H2). cbn [mbind res_bind].
    destruct (add_workers_spec PendingTasks _ d2 Hp) as (d3 & -> & H3). cbn [mbind res_bind].
    rewrite H3, H2, H1. split; [|repeat apply counted_add; by split; [intros []|]].
    intros ty.
    destruct (add_tasks_spec PendingTasks (reported (answers PendingTasks) n)
      (fold_left (add_task ScheduledTasks) (reported (answers ScheduledTasks) n)
        (fold_left (add_task ActiveTasks) (reported (answers ActiveTasks) n) (shown [] n))) ty)
      as (-> & _ & _).
    destruct (add_tasks_spec ScheduledTasks (reported (answers ScheduledTasks) n)
        (fold_left (add_task ActiveTasks) (reported (answers ActiveTasks) n) (shown [] n)) ty)
      as (-> & _ & _).
    destruct (add_tasks_spec ActiveTasks (reported (answers ActiveTasks) n) (shown [] n) ty)
      as (-> & _ & _).
    by destruct ty; simpl; rewrite ?app_nil_r.
  - intros Hw.
    assert (∀ ty data, is_ok (fold_res (add_worker ty) (answers ty) data) = true →
      Forall (λ w, is_ok (worker_names w.1) = true) (answers ty)) as Hok.
    { intros ty data Ho. destruct (decide (Forall (λ w, is_ok (worker_names w.1) = true) (answers ty)))
        as [|Hn]; [done|]. by rewrite (add_workers_error ty _ data Hn) in Ho. }
    destruct (fold_res (add_worker ActiveTasks) _ _) as [d1|] eqn:E1; [|done]. cbn [mbind res_bind].
    destruct (fold_res (add_worker ScheduledTasks) _ _) as [d2|] eqn:E2; [|done]. cbn [mbind res_bind].
    destruct (fold_res (add_worker PendingTasks) _ _) as [d3|] eqn:E3; [|done].
    destruct Hw. repeat constructor; eapply Hok; (rewrite E1 || rewrite E2 || rewrite E3); done.
Qed.
End Celery.

Lemma tasks_data_complete_witness :
  let I := Build_Inspect (λ ty, match ty with
    | ActiveTasks => Some [("workflow00@celery-1", [PInt 1; PInt 2])]
    | ScheduledTasks => None
    | PendingTasks => Some [("workflow00@celery-1", [PInt 3]); ("backend@celery-2", [])]
    end) in
  let d := shown (@get_tasks_data I) ("workflow00", "celery-1") in
  wd_tasks d PendingTasks = [PInt 3] ∧ wd_total d = 3.
Proof.
  intros I d. destruct (proj1 (@tasks_data_complete I)) with (n := ("workflow00", "celery-1"))
    as [Ht [Hc Htot]].
  - repeat constructor.
  - fold d in Ht, Hc, Htot. rewrite Htot, !Hc, !Ht. split; reflexivity.
Defined.

(** ** The queues shown *)

(** The last queue of the list with a name *)
Definition queue_named (name : string) (queue : pyval) : bool :=
  match queue with
  | PDict q => py_eqb (default (PStr "") (dict_get q "name")) (PStr name)
  | _ => false
  end.
(** Every entry that is a dictionary has a string for a name, or none. *)
Definition named_queue (queue : pyval) : bool :=
  match queue with
  | PDict q => match default (PStr "") (dict_get q "name") with PStr _ => true | _ => false end
  | _ => true
  end.
Definition shown_queue (main_queues : list (string * list (string * pyval))) (group name : string)
    : option pyval :=
  dict_get (default [] (dict_get main_queues group)) name.
(** What a queue is shown as *)
Definition info_of (name : string) (queue : pyval) : option pyval :=
  match queue with PDict q => Some (queue_info name q) | _ => None end.
Fixpoint last_info (queues : list pyval) (name : string) (o : option pyval) : option pyval :=
  match queues with
  | [] => o
  | q :: queues => last_info queues name (if queue_named name q then info_of name q else o)
  end.

Lemma add_queue_run acc queue : named_queue queue = true →
  ∃ acc', add_queue acc queue = Ok acc' ∧ ∀ group name,
    shown_queue acc' group name =
    if queue_named name queue && bool_decide (queue_group name = Some group)
    then info_of name queue else shown_queue acc group name.
Proof.
  intros Hq. destruct queue as [| | | | |q]; try (exists acc; by split).
  unfold add_queue, named_queue in *. cbn [queue_named info_of].
  destruct (default (PStr "") (dict_get q "name")) as [| | |qn| |] eqn:E; try done.
  cbn [as_str mbind res_bind]. eexists. split; [reflexivity|]. intros group name.
  rewrite py_eqb_str. destruct (queue_group qn) as [g|] eqn:Eg.
  - unfold shown_queue. rewrite dict_get_set. destruct (decide (group = g)) as [->|Hne]; simpl.
    + rewrite dict_get_set. destruct (decide (name = qn)) as [->|Hn].
      * by rewrite !bool_decide_true.
      * by rewrite (bool_decide_false (qn = name)) by done.
    + case_bool_decide as En; [subst|done]. simpl. rewrite bool_decide_false by congruence. done.
  - case_bool_decide as En; [subst|done]. simpl. by rewrite bool_decide_false by congruence.
Qed.
Lemma add_queues_run queues acc : Forall (λ q, named_queue q = true) queues →
  ∃ acc', fold_res add_queue queues acc = Ok acc' ∧ ∀ group name,
    shown_queue acc' group name =
    if decide (queue_group name = Some group)
    then last_info queues name (shown_queue acc group name) else shown_queue acc group name.
Proof.
  revert acc. induction queues as [|q queues IH]; intros acc Hq; simpl.
  { exists acc. split; [done|]. intros. by destruct (decide _). }
  apply Forall_cons in Hq as [Hq Hqs]. destruct (add_queue_run acc q Hq) as (acc1 & -> & H1).
  cbn [mbind res_bind]. destruct (IH acc1 Hqs) as (acc2 & -> & H2). exists acc2. split; [done|].
  intros group name. rewrite H2, H1. destruct (decide (queue_group name = Some group)) as [Hg|Hg].
  - rewrite bool_decide_true by done. by rewrite andb_true_r.
  - rewrite bool_decide_false by done. by rewrite andb_false_r.
Qed.

(** The queue monitor.  From a list of queues the management API answers
    with status 200, the view shows under a group exactly the queues of that
    group: the queue "workflow" and those that start with "backend-", without
    celery's own ("celeryev.", ".celery.pidbox"), each with the figures of its
    last entry, 0 for a figure that is missing. *)
Theorem main_queues_complete (queues : list pyval) text :
  Forall (λ q, named_queue q = true) queues →
  ∃ m, get_main_queues_info (Ok (Response 200 text (Ok (PList queues)))) = Ok m ∧
    ∀ group name, shown_queue m group name =
      if decide (queue_group name = Some group) then last_info queues name None else None.
Proof.
  intros Hq. unfold get_main_queues_info, make_request. cbn [rs_status rs_json Z.eqb Pos.eqb].
  destruct (add_queues_run queues [] Hq) as (m & Hm & Hs).
  destruct queues as [|q queues].
  - exists []. split; [done|]. intros group name. simpl. by destruct (decide _).
  - exists m. cbn [truthy py_iter mbind res_bind]. split; [exact Hm|exact Hs].
Qed.

Lemma main_queues_complete_witness :
  ∃ m, get_main_queues_info (Ok (Response 200 "" (Ok (PList
      [PDict [("name", PStr "workflow"); ("messages", PInt 3)];
       PDict [("name", PStr "celeryev.1")]; PDict [("name", PStr "backend-general")]])))) = Ok m ∧
    shown_queue m "workflow" "workflow" = Some (queue_info "workflow" [("messages", PInt 3)]) ∧
    shown_queue m "backend" "celeryev.1" = None.
Proof.
  destruct (main_queues_complete [PDict [("name", PStr "workflow"); ("messages", PInt 3)];
    PDict [("name", PStr "celeryev.1")]; PDict [("name", PStr "backend-general")]] "")
    as (m & Hm & Hs).
  - repeat constructor.
  - exists m. split; [exact Hm|]. rewrite !Hs. split; reflexivity.
Defined.
