(* ===== verification/Auth.v ===== *)
(** * Authentication (workflow/authentication.py, workflow/keycloak.py)

    The two authenticators of the API: [JWTAuthentication] for the tokens the
    platform signs itself and [KeycloakAuthentication] for user tokens, which
    asks the Keycloak server and creates the user on the fly. *)
From Stdlib Require Import Ascii String.
From stdpp Require Import base list strings numbers gmap sets.
From S2P Require Import Prelude PyStr PyVal Json World Demo Finmars Models Launch.
Local Open Scope string_scope.
Local Open Scope Z_scope.
Local Open Scope list_scope.

(** What [jwt.decode] gives for a token: its payload or an exception *)
Inductive decoded : Type :=
  | Payload (v : pyval)
  | ExpiredSignature
  | InvalidToken
  | DecodeError (e : exn).

(** Settings, and the code outside the repository: [jwt.decode] with the secret
    key, the hash of a password, the random password of a new user. *)
Class AuthPlatform : Type := {
  jwt_decode : string → decoded;
  keycloak_server_url : string;
  keycloak_realm : string;
  keycloak_client_id : string;
  admin_username : string;
  admin_password : string;
  random_password : nat → string;
  hash_password : string → string
}.

(** The parts of a request the authenticators read *)
Record http_head : Type := HttpHead {
  hd_method : string;
  hd_authorization : string;
  hd_cookies : list (string * string)
}.

(** The end both [get_auth_token_from_request] share *)
Definition token_of_header (keyword : string) (auth : list string) : res (option string) :=
  match auth with
  | [] => Ok None
  | scheme :: credentials =>
      if negb (String.eqb (lower scheme) (lower keyword)) then Ok None
      else match credentials with
           | [] => Raise (AuthenticationFailed "Invalid token header. No credentials provided.")
           | [t] => match decode t with
                    | Ok token => Ok (Some token)
                    | Raise _ => Raise (AuthenticationFailed "Invalid token header. Token string should not contain invalid characters.")
                    end
           | _ => Raise (AuthenticationFailed "Invalid token header. Token string should not contain spaces.")
           end
  end.
(** [JWTAuthentication.get_auth_token_from_request] *)
Definition jwt_token (r : http_head) : res (option string) :=
  token_of_header "Bearer" (split_ws (hd_authorization r)).
(** [KeycloakAuthentication.get_auth_token_from_request]: without the header,
    the [access_token] cookie *)
Definition keycloak_token (r : http_head) : res (option string) :=
  let auth := split_ws (hd_authorization r) in
  let auth := match auth with
              | [] => match dict_get (hd_cookies r) "access_token" with
                      | Some value => ["Token"; encode value]
                      | None => []
                      end
              | _ => auth
              end in
  token_of_header "Token" auth.
(** [get_access_token(request)] *)
Definition request_access_token (r : http_head) : res string :=
  match split_ws (hd_authorization r) !! 1%nat with
  | None => Raise IndexError
  | Some t => match decode t with
              | Ok token => Ok token
              | Raise _ => Raise (AuthenticationFailed "Invalid token header. Token string should not contain invalid characters.")
              end
  end.

(** What an authenticator answers: nobody (the next one is asked), or a user
    and its token *)
Definition auth_result : Type := option (user_row * option string).

Section Auth.
Context `{Platform} `{AuthPlatform}.

(** [except Exception as e: raise AuthenticationFailed(e)] *)
Definition auth_failed {A} (m : M A) : M A :=
  try_except m (λ e, raise (AuthenticationFailed (exn_text e))).

(** ** JWT *)

Definition jwt_credentials (key : string) : M auth_result :=
  payload ← (match jwt_decode key with
             | Payload v => mret v
             | ExpiredSignature => raise (AuthenticationFailed "Token has expired")
             | InvalidToken => raise (AuthenticationFailed "Invalid token")
             | DecodeError e => raise (AuthenticationFailed (exn_text e))
             end);
  user ← auth_failed (username ← lift (v ← getitem payload "username"; as_str v); get_user username);
  mret (Some (user, Some key)).
(** [JWTAuthentication.authenticate] *)
Definition jwt_authenticate (r : http_head) : M auth_result :=
  if String.eqb (hd_method r) "OPTIONS" then
    finmars_bot ← get_user "finmars_bot"; mret (Some (finmars_bot, None))
  else
    token ← lift (jwt_token r);
    match token with None => mret None | Some token => jwt_credentials token end.

(** ** Keycloak *)

Definition userinfo_endpoint : string :=
  keycloak_server_url +:+ "/realms/" +:+ keycloak_realm +:+ "/protocol/openid-connect/userinfo".
Definition introspection_endpoint : string :=
  keycloak_server_url +:+ "/realms/" +:+ keycloak_realm +:+ "/protocol/openid-connect/token/introspect".
Definition well_known_endpoint : string :=
  keycloak_server_url +:+ "/realms/" +:+ keycloak_realm +:+ "/.well-known/openid-configuration".
(** [KeycloakConnect.userinfo]: [raise_for_status] raises or gives [None]. *)
Definition userinfo (token : string) : M pyval :=
  response ← send_request (Request "get" userinfo_endpoint None token);
  _ ← lift (raise_for_status response);
  lift (rs_json response).
(** [KeycloakConnect.is_token_active] and [roles_from_token] on an introspection *)
Definition is_token_active (introspect_token : pyval) : res bool :=
  v ← get introspect_token "active"; Ok (truthy v).
Definition get_or_none (v : pyval) (k : string) : res pyval :=
  match v with PNone => Ok PNone | _ => get v k end.
Definition roles_from_token (token_decoded : pyval) : res pyval :=
  realm_access ← get token_decoded "realm_access";
  resource_access ← get token_decoded "resource_access";
  client_access ← get_or_none resource_access keycloak_client_id;
  client_roles ← get_or_none client_access "roles";
  realm_roles ← get_or_none realm_access "roles";
  match client_roles, realm_roles with
  | PNone, _ => Ok realm_roles
  | _, PNone => Ok client_roles
  | PList a, PList b => Ok (PList (a ++ b))
  | _, _ => Raise TypeError
  end.

(** [User.objects.create_user]: a username is required and unique. *)
Definition create_user (username password : string) (is_staff is_superuser : bool) : M user_row :=
  if String.eqb username "" then raise ValueError
  else
    l ← objects_filter (λ u, String.eqb (us_username u) username);
    match l with
    | _ :: _ => raise IntegrityError
    | [] => insert_row (UserRow 0 username (hash_password password) is_staff is_superuser false None)
    end.
(** [generate_random_string(12)] *)
Definition generate_password : M string := λ w,
  (Ok (random_password (w_uuids w)), set_w_uuids (S (w_uuids w)) w).

Definition preferred_username (userinfo : pyval) : res string :=
  v ← getitem userinfo "preferred_username"; as_str v.
(** The user of the answer *)
Definition find_user (userinfo : pyval) : M user_row :=
  username ← lift (preferred_username userinfo); get_user username.
(** The outer [except]: create the user, or find the one another request has
    created meanwhile *)
Definition create_on_the_fly (userinfo : pyval) : M user_row :=
  try_except
    (username ← lift (preferred_username userinfo);
     let is_admin := String.eqb username admin_username in
     password ← (if is_admin then mret admin_password else generate_password);
     create_user username password is_admin is_admin)
    (λ _, auth_failed (find_user userinfo)).
Definition keycloak_credentials (key : string) : M auth_result :=
  userinfo ← try_except (userinfo key)
               (λ _, raise (AuthenticationFailed "Invalid or expired token."));
  user ← try_except (find_user userinfo) (λ _, create_on_the_fly userinfo);
  mret (Some (user, Some key)).
(** [KeycloakAuthentication.authenticate] *)
Definition keycloak_authenticate (r : http_head) : M auth_result :=
  if String.eqb (hd_method r) "OPTIONS" then
    finmars_bot ← get_user "finmars_bot"; mret (Some (finmars_bot, None))
  else
    token ← lift (keycloak_token r);
    match token with None => mret None | Some token => keycloak_credentials token end.

(** The authenticators in the order of the settings *)
Definition authenticate (r : http_head) : M auth_result :=
  o ← jwt_authenticate r;
  match o with Some _ => mret o | None => keycloak_authenticate r end.
End Auth.

(** ** Tokens *)

(** A token a header can carry: printable ASCII without spaces *)
Definition plain_token (t : string) : Prop :=
  t ≠ "" ∧ str_forallb (λ c, is_ascii_char c && negb (is_space c)) t = true.
Lemma plain_split t : plain_token t → split_ws t = [t].
Proof.
  intros [Hne Ht]. induction t as [|c t IH]; [done|]. simpl in *.
  apply andb_true_iff in Ht as [Hc Ht]. apply andb_true_iff in Hc as [_ Hc].
  rewrite (proj1 (negb_true_iff _) Hc). destruct t as [|e t]; [done|].
  pose proof Ht as Ht'. simpl in Ht'. apply andb_true_iff in Ht' as [He _].
  apply andb_true_iff in He as [_ He]. rewrite (proj1 (negb_true_iff _) He).
  by rewrite IH.
Qed.
Lemma plain_ascii t : plain_token t → decode t = Ok t.
Proof.
  intros [_ Ht]. apply decode_ascii. clear -Ht. induction t as [|c t IH]; [done|]. simpl in *.
  apply andb_true_iff in Ht as [Hc Ht]. apply andb_true_iff in Hc as [-> _]. by apply IH.
Qed.
(** The header ["Bearer <token>"] *)
Lemma bearer_token m t cookies : plain_token t →
  jwt_token (HttpHead m ("Bearer " +:+ t) cookies) = Ok (Some t).
Proof.
  intros Ht. unfold jwt_token. cbn [hd_authorization].
  assert (split_ws ("Bearer " +:+ t) = "Bearer" :: split_ws t) as -> by reflexivity.
  rewrite plain_split by done. cbn. by rewrite plain_ascii.
Qed.

Section Authenticated.
Context `{Platform} `{AuthPlatform}.

(** The platform's own tokens.  A token that [get_refresh_token] makes for a
    tenant, sent as "Bearer <token>", is accepted as the tenant's bot, with any
    method but OPTIONS, and nothing is written; given that [jwt.decode] returns
    what [jwt.encode] was given, a JSON value, and that encoded tokens are plain ASCII. *)
Theorem bot_token_accepted ttl token w w1 method cookies w2 t bot :
  (∀ v, wf_val v = true → jwt_decode (jwt_encode v) = Payload v ∧ plain_token (jwt_encode v)) →
  get_refresh_token ttl w = (Ok token, w1) → method ≠ "OPTIONS" →
  cur w2 = Some t → List.filter (λ u, String.eqb (us_username u) "finmars_bot") (rows (t_users t)) = [bot] →
  authenticate (HttpHead method ("Bearer " +:+ token) cookies) w2 = (Ok (Some (bot, Some token)), w2).
Proof.
  intros Hjwt Htok Hm Hcur Hbot. unfold get_refresh_token in Htok.
  apply bind_inv in Htok as (b & wb & Hb & Htok). apply bind_inv in Htok as (n & wn & _ & Htok).
  apply bind_inv in Htok as (o & wo & _ & Htok). apply bind_inv in Htok as (sp & ws & _ & Htok).
  apply bind_inv in Htok as (iat & wi & _ & Htok). injection Htok as <- _.
  destruct (get_inv _ _ _ _ Hb) as (_ & t0 & _ & _ & Hname). apply String.eqb_eq in Hname.
  match goal with |- context [jwt_encode ?v] => set (claims := v) in * end.
  destruct (Hjwt claims) as [Hdec Hplain].
  { subst claims. unfold token_claims. by destruct (sp_realm_code sp). }
  unfold authenticate, jwt_authenticate. cbn [hd_method].
  rewrite (proj2 (String.eqb_neq method "OPTIONS") Hm). rewrite bearer_token by done.
  unfold mbind at 1, ST_bind at 1. unfold mbind at 1, ST_bind at 1, lift at 1.
  unfold jwt_credentials. rewrite Hdec.
  rewrite (bind_ok (mret claims) _ w2 claims w2 eq_refl).
  rewrite (bind_ok _ _ w2 bot w2).
  2:{ apply try_ok. subst claims. unfold token_claims. rewrite Hname.
      rewrite (bind_ok _ _ w2 "finmars_bot" w2 eq_refl). by apply (get_run _ w2 t). }
  reflexivity.
Qed.

(** ** Users created on the fly *)

Definition named (username : string) (u : user_row) : bool := String.eqb (us_username u) username.

Lemma find_user_run u d username w t :
  getitem (PDict d) "preferred_username" = Ok (PStr username) → cur w = Some t →
  List.filter (named username) (rows (t_users t)) = [u] → find_user (PDict d) w = (Ok u, w).
Proof.
  intros Hd Hw Hu. unfold find_user, preferred_username. rewrite Hd.
  rewrite (bind_ok (lift _) _ w username w eq_refl).
  exact (get_run (named username) w t u Hw Hu).
Qed.
Lemma find_user_none d username w t :
  getitem (PDict d) "preferred_username" = Ok (PStr username) → cur w = Some t →
  List.filter (named username) (rows (t_users t)) = [] →
  find_user (PDict d) w = (Raise (DoesNotExist "User"), w).
Proof.
  intros Hd Hw Hu. unfold find_user, preferred_username. rewrite Hd.
  rewrite (bind_ok (lift _) _ w username w eq_refl).
  exact (get_none (named username) w t Hw Hu).
Qed.
(** The password of a new user *)
Definition password_of (username : string) (w : world) : string :=
  if String.eqb username admin_username then admin_password else random_password (w_uuids w).
Definition new_user (username : string) (w : world) (t : tenant) : user_row :=
  UserRow (next_id (t_users t)) username (hash_password (password_of username w))
    (String.eqb username admin_username) (String.eqb username admin_username) false None.

(** Users created on the fly.  The step that creates the user of an accepted
    token, run in any state of the tenant: without a user of that name it adds
    one row, a superuser exactly when the name is the administrator's; with the
    row there, as when another request has created it after this one looked, it
    answers that row and adds none, so the name stays unique. *)
Theorem create_on_the_fly_unique d username w t :
  getitem (PDict d) "preferred_username" = Ok (PStr username) → username ≠ "" → cur w = Some t →
  (List.filter (named username) (rows (t_users t)) = [] →
   ∃ w', create_on_the_fly (PDict d) w = (Ok (new_user username w t), w') ∧
     cur w' = Some (set_t_users (Table (rows (t_users t) ++ [new_user username w t])
                                  (next_id (t_users t) + 1)) t)) ∧
  (∀ u, List.filter (named username) (rows (t_users t)) = [u] →
   ∃ w', create_on_the_fly (PDict d) w = (Ok u, w') ∧ cur w' = Some t).
Proof.
  intros Hd Hne Hw. unfold create_on_the_fly, preferred_username. rewrite Hd.
  set (is_admin := String.eqb username admin_username).
  set (pw := if is_admin then mret admin_password else generate_password).
  assert (∃ w1, pw w = (Ok (password_of username w), w1) ∧ cur w1 = Some t) as (w1 & Hpw & Hw1).
  { unfold pw, password_of. fold is_admin. destruct is_admin; eexists; by split. }
  split.
  - intros Hnone. eexists. split.
    { apply try_ok. rewrite (bind_ok (lift _) _ w username w eq_refl).
      cbv zeta. fold is_admin. rewrite (bind_ok pw _ _ _ _ Hpw). unfold create_user.
      rewrite (proj2 (String.eqb_neq username "")) by done.
      rewrite (bind_ok _ _ w1 [] w1) by (rewrite (filter_run _ w1 t Hw1); unfold named in Hnone; by rewrite <- Hnone).
      rewrite (insert_run _ w1 t Hw1). reflexivity. }
    apply cur_with_tenant.
  - intros u Hu. exists w1. split; [|done].
    rewrite (try_raise _ _ w IntegrityError w1).
    + unfold auth_failed. apply try_ok. by apply (find_user_run u d username w1 t).
    + rewrite (bind_ok (lift _) _ w username w eq_refl). cbv zeta. fold is_admin.
      rewrite (bind_ok pw _ _ _ _ Hpw). unfold create_user.
      rewrite (proj2 (String.eqb_neq username "")) by done.
      by rewrite (bind_ok _ _ w1 [u] w1) by (rewrite (filter_run _ w1 t Hw1); unfold named in Hu; by rewrite <- Hu).
Qed.

(** ** Who is authenticated *)

(** A user of the tenant in whose schema the connection is *)
Definition user_of (u : user_row) (w : world) : Prop :=
  ∃ t, cur w = Some t ∧ u ∈ rows (t_users t).

Lemma get_user_known username w u w' : get_user username w = (Ok u, w') →
  user_of u w' ∧ us_username u = username ∧ w' = w.
Proof.
  intros E. apply get_inv in E as (-> & t & Ht & Hin & HP). apply String.eqb_eq in HP.
  split; [by exists t|done].
Qed.
Lemma find_user_known v w u w' : find_user v w = (Ok u, w') → user_of u w'.
Proof.
  unfold find_user. intros (n & w1 & _ & E)%bind_inv. by apply get_user_known in E as [? _].
Qed.
Lemma create_user_known username pw b1 b2 w u w' :
  create_user username pw b1 b2 w = (Ok u, w') → user_of u w'.
Proof.
  unfold create_user. destruct (String.eqb username ""); [done|].
  intros (l & w1 & Hl & E)%bind_inv. destruct l; [|done].
  destruct (cur w1) as [t|] eqn:Hw.
  - rewrite (insert_run _ w1 t Hw) in E. injection E as <- <-. eexists.
    split; [apply cur_with_tenant|]. simpl. apply elem_of_app. right. by left.
  - unfold insert_row in E. apply bind_inv in E as (n & w2 & Hn & E). injection Hn as _ <-.
    apply bind_inv in E as (t & w3 & Ht & _). unfold current_tenant in Ht.
    unfold cur in Hw. simpl in Ht. by rewrite Hw in Ht.
Qed.
Lemma create_on_the_fly_known v w u w' : create_on_the_fly v w = (Ok u, w') → user_of u w'.
Proof.
  unfold create_on_the_fly. intros [E|(e & w1 & _ & E)]%try_inv.
  - apply bind_inv in E as (n & w1 & _ & E). apply bind_inv in E as (pw & w2 & _ & E).
    by eapply create_user_known.
  - apply try_inv in E as [E|(e' & w2 & _ & E)]; [by eapply find_user_known|done].
Qed.
Lemma jwt_credentials_known key w u k w' : jwt_credentials key w = (Ok (Some (u, k)), w') →
  user_of u w' ∧ k = Some key ∧ w' = w ∧
  ∃ v, jwt_decode key = Payload v ∧ getitem v "username" = Ok (PStr (us_username u)).
Proof.
  unfold jwt_credentials. intros (v & w1 & Hv & E)%bind_inv.
  apply bind_inv in E as (u' & w2 & Hu & E). injection E as -> <- ->.
  destruct (jwt_decode key) as [p| | |] eqn:Ed; try done. injection Hv as -> ->.
  apply try_inv in Hu as [Hu|(e & w2 & _ & Hu)]; [|done].
  apply bind_inv in Hu as (n & w2 & Hn & Hu). apply get_user_known in Hu as (Hk & <- & ->).
  injection Hn as Hn <-. split; [done|]. split; [done|]. split; [done|]. exists v. split; [done|].
  destruct (getitem v "username") as [[]|]; try done. simpl in Hn. by injection Hn as ->.
Qed.

End Authenticated.

(** ** A platform with readable tokens *)

(** Tokens that are the payload's JSON text in hexadecimal *)
Fixpoint hex (s : string) : string :=
  match s with
  | EmptyString => ""
  | String c s => String (hex_digit (ord c / 16)) (String (hex_digit (ord c mod 16)) (hex s))
  end.
Fixpoint unhex (s : string) : option string :=
  match s with
  | EmptyString => Some ""
  | String a (String b s) =>
      x ← hex_value a; y ← hex_value b; r ← unhex s; Some (String (chr (16 * x + y)) r)
  | _ => None
  end.
Lemma unhex_hex s : unhex (hex s) = Some s.
Proof.
  induction s as [|c s IH]; [done|]. cbn [hex unhex]. rewrite IH.
  by destruct c as [[] [] [] [] [] [] [] []].
Qed.
Lemma plain_hex s : s ≠ "" → plain_token (hex s).
Proof.
  intros Hs. split; [by destruct s|]. clear Hs. induction s as [|c s IH]; [done|].
  cbn [hex str_forallb]. rewrite IH. by destruct c as [[] [] [] [] [] [] [] []].
Qed.
Definition hex_platform : Platform := {|
  uuid4 := @uuid4 demo_platform; http := @http demo_platform;
  jwt_encode := λ v, hex (dumps false None v);
  user_token := @user_token demo_platform; domain_name := "finmars.example";
  storage_root := "/var/app/workflow"; exn_text := @exn_text demo_platform |}.
#[export] Instance demo_auth : AuthPlatform := {|
  jwt_decode := λ t, match unhex t with
                     | Some s => match loads s with Ok v => Payload v | Raise _ => InvalidToken end
                     | None => InvalidToken
                     end;
  keycloak_server_url := "https://keycloak.example"; keycloak_realm := "finmars";
  keycloak_client_id := "finmars"; admin_username := "admin"; admin_password := "password";
  random_password := λ n, "secret" +:+ str_of_nat n; hash_password := λ p, "sha256$" +:+ p |}.
Lemma hex_tokens v : wf_val v = true →
  jwt_decode (@jwt_encode hex_platform v) = Payload v ∧ plain_token (@jwt_encode hex_platform v).
Proof.
  intros Hv. simpl. rewrite unhex_hex, loads_dumps by done.
  split; [done|]. by apply plain_hex, dumps_not_empty.
Qed.

Definition demo_in_space : world := set_w_path "space00000" (demo_world (demo_tenant PNone [] [])).
Lemma bot_token_accepted_witness :
  ∃ token w1, @get_refresh_token hex_platform 480 demo_in_space = (Ok token, w1) ∧
    @authenticate hex_platform _ (HttpHead "GET" ("Bearer " +:+ token) []) demo_in_space
    = (Ok (Some (demo_bot, Some token)), demo_in_space).
Proof.
  eexists _, _. split; [reflexivity|].
  refine (@bot_token_accepted hex_platform demo_auth 480 _ demo_in_space _ "GET" [] demo_in_space
    (demo_tenant PNone [] []) demo_bot hex_tokens eq_refl _ eq_refl eq_refl).
  intros [=].
Defined.
Lemma create_on_the_fly_unique_witness :
  ∃ w', create_on_the_fly (PDict [("preferred_username", PStr "ann")]) demo_in_space
      = (Ok (new_user "ann" demo_in_space (demo_tenant PNone [] [])), w') ∧
    us_is_superuser (new_user "ann" demo_in_space (demo_tenant PNone [] [])) = false.
Proof.
  destruct (create_on_the_fly_unique [("preferred_username", PStr "ann")] "ann" demo_in_space
    (demo_tenant PNone [] []) eq_refl ltac:(done) eq_refl) as [Hnew _].
  destruct (Hnew eq_refl) as (w' & H & _). exists w'. split; [exact H|reflexivity].
Defined.
