(* ===== verification/Errors.v ===== *)
(** * Standardized errors (finmars_standardized_errors/)

    The exception handler of the REST framework, the formatter that flattens
    validation errors, the record each error leaves in the tenant's tables, and
    the middleware for exceptions outside the framework. *)
From Stdlib Require Import Ascii String.
From stdpp Require Import base list strings numbers gmap sets.
From S2P Require Import Prelude PyStr PyVal Json World Demo Graph Finmars Models.
Local Open Scope string_scope.
Local Open Scope Z_scope.
Local Open Scope list_scope.

(** ** Error details *)

(** The [detail] of a framework exception: an [ErrorDetail] (a string with a
    code), a list or a dictionary of details *)
Inductive detail : Type :=
  | ErrorDetail (code text : string)
  | Items (l : list detail)
  | Fields (d : list (string * detail)).
(** [isinstance(x, exceptions.ErrorDetail)] *)
Definition is_error_detail (d : detail) : bool :=
  match d with ErrorDetail _ _ => true | _ => false end.

(** [Error] of types.py *)
Record error : Type := Error { e_code : string; e_detail : string; e_attr : option string }.
(** [package_settings.NESTED_FIELD_SEPARATOR] *)
Definition nested_field_separator : string := ".".
(** [f"{attr}{sep}{key}" if attr else key] *)
Definition nested (attr : option string) (key : string) : string :=
  match truthy_str attr with
  | Some a => a +:+ nested_field_separator +:+ key
  | None => key
  end.
(** [0 if index is None else index + 1] *)
Definition next_index (index : option Z) : Z :=
  match index with None => 0 | Some i => i + 1 end.

(** [flatten_errors] *)
Fixpoint flatten_errors (d : detail) (attr : option string) (index : option Z) : list error :=
  match d with
  | ErrorDetail code text => if String.eqb text "" then [] else [Error code text attr]
  | Items l =>
      (fix items (l : list detail) (index : option Z) : list error :=
         match l with
         | [] => []
         | first_item :: rest =>
             if is_error_detail first_item
             then flatten_errors first_item attr index ++ items rest index
             else
               let i := next_index index in
               flatten_errors first_item (Some (nested attr (str_of_Z i))) (Some i)
               ++ items rest (Some i)
         end) l index
  | Fields d =>
      (fix fields (d : list (string * detail)) : list error :=
         match d with
         | [] => []
         | (key, value) :: rest =>
             flatten_errors value (Some (nested attr key)) None ++ fields rest
         end) d
  end.

(** ** The handler *)

(** What reaches the handler: Django's [Http404] and [PermissionDenied], a
    framework exception, or any other, of which only [str(exc)] is used *)
Record api_exception : Type := ApiException {
  ax_status_code : Z;
  ax_validation : bool;
  ax_detail : detail;
  ax_auth_header : option string;
  ax_wait : option Z
}.
Inductive view_exception : Type :=
  | DjangoHttp404
  | DjangoPermissionDenied
  | Api (e : api_exception)
  | Unhandled (text : string).

(** The framework's own exceptions, with their default details *)
Definition not_found : api_exception :=
  ApiException 404 false (ErrorDetail "not_found" "Not found.") None None.
Definition permission_denied : api_exception :=
  ApiException 403 false
    (ErrorDetail "permission_denied" "You do not have permission to perform this action.") None None.

(** [convert_known_exceptions] *)
Definition convert_known_exceptions (e : view_exception) : view_exception :=
  match e with
  | DjangoHttp404 => Api not_found
  | DjangoPermissionDenied => Api permission_denied
  | _ => e
  end.
Definition is_api (e : view_exception) : bool := match e with Api _ => true | _ => false end.
(** [should_not_handle], for the settings DEBUG and
    ENABLE_IN_DEBUG_FOR_UNHANDLED_EXCEPTIONS *)
Definition should_not_handle (debug enable_in_debug : bool) (e : view_exception) : bool :=
  debug && negb enable_in_debug && negb (is_api e).
(** [str(exc)]; the Django exceptions are raised without a message. *)
Definition exc_str (e : view_exception) : string :=
  match e with Unhandled text => text | _ => "" end.
(** [convert_unhandled_exceptions] *)
Definition convert_unhandled_exceptions (e : view_exception) : api_exception :=
  match e with
  | Api a => a
  | _ => ApiException 500 false (ErrorDetail "error" (exc_str e)) None None
  end.

(** [ErrorType] *)
Inductive error_type : Type := VALIDATION_ERROR | CLIENT_ERROR | SERVER_ERROR.
Definition error_type_str (t : error_type) : string :=
  match t with
  | VALIDATION_ERROR => "validation_error"
  | CLIENT_ERROR => "client_error"
  | SERVER_ERROR => "server_error"
  end.
Definition is_client_error (status_code : Z) : bool := (400 <=? status_code) && (status_code <=? 499).
Definition is_server_error (status_code : Z) : bool := (500 <=? status_code) && (status_code <=? 599).
(** [get_error_type] *)
Definition get_error_type (e : api_exception) : error_type :=
  if ax_validation e then VALIDATION_ERROR
  else if is_client_error (ax_status_code e) then CLIENT_ERROR
  else SERVER_ERROR.

(** [asdict(ErrorResponseDetails(error_type, errors))] *)
Definition error_dict (e : error) : pyval :=
  PDict [("code", PStr (e_code e)); ("detail", PStr (e_detail e)); ("attr", opt_str (e_attr e))].
Definition response_details (t : error_type) (errors : list error) : pyval :=
  PDict [("type", PStr (error_type_str t)); ("errors", PList (error_dict <$> errors))].
(** [format_error_response(get_error_response(...))] *)
Definition error_response (url username : string) (status_code : Z) (message datetime : string)
    (details : pyval) : pyval :=
  PDict [("error", PDict
    [("url", PStr url); ("username", PStr username); ("status_code", PInt status_code);
     ("message", PStr message); ("datetime", PStr datetime); ("details", details)])].

(** [{v.value: v.description for v in HTTPStatus}]: the client and server error
    codes of the standard library *)
Definition http_code_to_message (status_code : Z) : option string :=
  snd <$> List.find (λ kv, kv.1 =? status_code)
    [(400, "Bad request syntax or unsupported method");
     (401, "No permission -- see authorization schemes");
     (402, "No payment -- see charging schemes");
     (403, "Request forbidden -- authorization will not help");
     (404, "Nothing matches the given URI");
     (405, "Specified method is invalid for this resource");
     (406, "URI not available in preferred format");
     (407, "You must authenticate with this proxy before proceeding");
     (408, "Request timed out; try again later");
     (409, "Request conflict");
     (410, "URI no longer exists and has been permanently removed");
     (411, "Client must specify Content-Length");
     (412, "Precondition in headers is false");
     (413, "Entity is too large");
     (414, "URI is too long");
     (415, "Entity body in unsupported format");
     (416, "Cannot satisfy request range");
     (417, "Expect condition could not be satisfied");
     (418, "Server refuses to brew coffee because it is a teapot.");
     (421, "Server is not able to produce a response");
     (422, ""); (423, ""); (424, ""); (425, ""); (426, "");
     (428, "The origin server requires the request to be conditional");
     (429, "The user has sent too many requests in a given amount of time ("
           +:+ String quote "rate limiting" +:+ String quote ")");
     (431, "The server is unwilling to process the request because its header fields are too large");
     (451, "The server is denying access to the resource as a consequence of a legal demand");
     (500, "Server got itself in trouble");
     (501, "Server does not support this operation");
     (502, "Invalid responses from another server/proxy");
     (503, "The server cannot process the request due to a high load");
     (504, "The gateway server did not receive a timely response");
     (505, "Cannot fulfill request");
     (506, ""); (507, ""); (508, ""); (510, "");
     (511, "The client needs to authenticate to gain network access")].

(** ** The record *)

(** [ErrorRecord.details] *)
Definition er_details (r : error_row) : pyval :=
  match truthy_str (er_details_data r) with
  | Some s => match loads s with Ok v => v | Raise _ => PNone end
  | None => PNone
  end.
(** ... and its setter *)
Definition set_er_details (val : pyval) (r : error_row) : error_row :=
  set_er_details_data (if truthy val then Some (dumps true None val) else None) r.
(** [ErrorRecord.objects.create]: the columns of [url] and [username] have 255
    characters. *)
Definition create_error_record (url username : string) (status_code : Z) (message : string)
    (details : pyval) : M error_row :=
  if (255 <? Z.of_nat (String.length url)) || (255 <? Z.of_nat (String.length username))
  then raise DatabaseError
  else insert_row (set_er_details details (ErrorRow 0 url username message status_code "" None 0)).

(** The request of the context: its absolute URL and its user's name *)
Record error_context : Type := ErrorContext { ec_url : string; ec_username : string }.
Record error_answer : Type := ErrorAnswer {
  ea_status : Z;
  ea_data : pyval;
  ea_headers : list (string * string)
}.

Section Handler.
(** [strftime(now(), "%Y-%m-%d %H:%M:%S")] *)
Context (format_now : Z → string).

(** [ExceptionFormatter.run] *)
Definition format_exception (exc : api_exception) (context : error_context) : M pyval :=
  let details := response_details (get_error_type exc) (flatten_errors (ax_detail exc) None None) in
  message ← (match http_code_to_message (ax_status_code exc) with
             | Some m => mret m
             | None => raise (KeyError (str_of_Z (ax_status_code exc)))
             end);
  n ← now;
  _ ← create_error_record (ec_url context) (ec_username context) (ax_status_code exc) message details;
  mret (error_response (ec_url context) (ec_username context) (ax_status_code exc) message
          (format_now n) details).

(** [get_headers] *)
Definition get_headers (exc : api_exception) : list (string * string) :=
  match truthy_str (ax_auth_header exc) with
  | Some h => [("WWW-Authenticate", h)] | None => []
  end ++
  match ax_wait exc with
  | Some w => if w =? 0 then [] else [("Retry-After", str_of_Z w)] | None => []
  end.

(** [ExceptionHandler.run]; reporting the exception sends a signal and writes
    to the log. *)
Definition handle_exception (debug enable_in_debug : bool) (context : error_context)
    (e : view_exception) : M (option error_answer) :=
  let exc := convert_known_exceptions e in
  if should_not_handle debug enable_in_debug exc then mret None
  else
    let exc := convert_unhandled_exceptions exc in
    data ← format_exception exc context;
    mret (Some (ErrorAnswer (ax_status_code exc) data (get_headers exc))).

(** [ExceptionMiddleware.process_exception]: [traceback] is the text of the last
    six lines, [repr_exception] is [repr(exception)]. *)
Definition process_exception (context : error_context) (traceback repr_exception : string)
    : M (Z * string) :=
  message ← (match http_code_to_message 500 with Some m => mret m | None => raise (KeyError "500") end);
  n ← now;
  let details := PDict [("traceback", PStr traceback); ("error_message", PStr repr_exception)] in
  let data := PDict [("error", PDict
    [("url", PStr (ec_url context)); ("username", PStr (ec_username context)); ("details", details);
     ("message", PStr message); ("status_code", PInt 500); ("datetime", PStr (format_now n))])] in
  _ ← create_error_record (ec_url context) (ec_username context) 500 message details;
  mret (500, dumps true (Some 2%nat) data).
End Handler.

(** ** Flattening *)

Section DetailInd.
Context (P : detail → Prop).
Context (Hleaf : ∀ c t, P (ErrorDetail c t)) (Hitems : ∀ l, Forall P l → P (Items l))
  (Hfields : ∀ d, Forall (λ kv, P kv.2) d → P (Fields d)).
Fixpoint detail_ind' (d : detail) : P d :=
  match d with
  | ErrorDetail c t => Hleaf c t
  | Items l => Hitems l
      ((fix go l : Forall P l :=
          match l with
          | [] => Forall_nil_2 _
          | x :: l => Forall_cons_2 _ _ _ (detail_ind' x) (go l)
          end) l)
  | Fields d => Hfields d
      ((fix go d : Forall (λ kv, P kv.2) d :=
          match d with
          | [] => Forall_nil_2 _
          | kv :: d => Forall_cons_2 _ _ _ (detail_ind' kv.2) (go d)
          end) d)
  end.
End DetailInd.

(** The messages of a detail, in order: the texts that are not empty *)
Fixpoint messages (d : detail) : list (string * string) :=
  match d with
  | ErrorDetail code text => if String.eqb text "" then [] else [(code, text)]
  | Items l => flat_map messages l
  | Fields d => flat_map (λ kv, messages kv.2) d
  end.
(** The messages with the path of keys and positions that leads to each: a
    position counts the items before it that are not messages themselves. *)
Fixpoint leaves (path : list string) (d : detail) : list (list string * string * string) :=
  match d with
  | ErrorDetail code text => if String.eqb text "" then [] else [(path, code, text)]
  | Items l =>
      (fix items (n : Z) (l : list detail) :=
         match l with
         | [] => []
         | x :: l =>
             if is_error_detail x then leaves path x ++ items n l
             else leaves (path ++ [str_of_Z n]) x ++ items (n + 1) l
         end) 0 l
  | Fields d => flat_map (λ kv, leaves (path ++ [kv.1]) kv.2) d
  end.
(** The [attr] of a path, and the error of a leaf *)
Definition attr_of (path : list string) : option string :=
  match path with [] => None | _ => Some (join nested_field_separator path) end.
Definition error_of (x : list string * string * string) : error :=
  Error x.1.2 x.2 (attr_of x.1.1).
(** What the framework's serializers raise: the items of a list are messages or
    dictionaries, and no key is empty. *)
Fixpoint serializer_detail (d : detail) : bool :=
  match d with
  | ErrorDetail _ _ => true
  | Items l => forallb (λ x, match x with Items _ => false | _ => serializer_detail x end) l
  | Fields d => forallb (λ kv, negb (String.eqb kv.1 "") && serializer_detail kv.2) d
  end.

Lemma flatten_messages d : ∀ attr index,
  (λ e, (e_code e, e_detail e)) <$> flatten_errors d attr index = messages d.
Proof.
  induction d as [c t|l IH|d IH] using detail_ind'; intros attr index; simpl.
  - by destruct (String.eqb t "").
  - revert index. induction IH as [|x l Hx _ IHl]; intros index; simpl; [done|].
    destruct (is_error_detail x); by rewrite fmap_app, Hx, IHl.
  - induction IH as [|[k v] d Hv _ IHd]; simpl; [done|]. by rewrite fmap_app, Hv, IHd.
Qed.

Lemma join_snoc path k : path ≠ [] →
  join nested_field_separator (path ++ [k]) = join nested_field_separator path +:+ nested_field_separator +:+ k.
Proof.
  induction path as [|x [|y path] IH]; intros Hne; [done|done|].
  change (join _ ((x :: y :: path) ++ [k]))
    with (x +:+ nested_field_separator +:+ join nested_field_separator ((y :: path) ++ [k])).
  rewrite IH by done.
  change (join nested_field_separator (x :: y :: path))
    with (x +:+ nested_field_separator +:+ join nested_field_separator (y :: path)).
  by rewrite <- !str_app_assoc.
Qed.
(** A path whose first step is not empty: its text is not empty either. *)
Definition good_path (path : list string) : Prop := match path with [] => True | x :: _ => x ≠ "" end.
Lemma good_path_snoc path k : good_path path → k ≠ "" → good_path (path ++ [k]).
Proof. by destruct path. Qed.
Lemma nested_attr path k : good_path path →
  Some (nested (attr_of path) k) = attr_of (path ++ [k]).
Proof.
  intros Hp. destruct path as [|x path]; [done|].
  assert (join nested_field_separator (x :: path) ≠ "") as Hne.
  { destruct x; [done|]. by destruct path. }
  unfold nested, attr_of. unfold truthy_str.
  rewrite (proj2 (String.eqb_neq _ _) Hne). rewrite <- join_snoc by done. done.
Qed.

(** A serializer's errors come with the paths of its leaves. *)
Lemma flatten_leaves d : serializer_detail d = true → flatten_errors d None None = error_of <$> leaves [] d.
Proof.
  assert (∀ path index, good_path path → serializer_detail d = true →
    match d with Items _ => index = None | _ => True end →
    flatten_errors d (attr_of path) index = error_of <$> leaves path d) as Hgen.
  2: { intros Hd. apply (Hgen [] None); [done|done|by destruct d]. }
  induction d as [c t|l IH|d IH] using detail_ind'; intros path index Hp Hd Hi; simpl in *.
  - by destruct (String.eqb t "").
  - subst index. change 0 with (next_index None). generalize (@None Z). revert Hd.
    induction IH as [|x l Hx _ IHl]; intros Hd index; simpl in *; [done|].
    apply andb_true_iff in Hd as [Hdx Hd]. destruct (is_error_detail x) eqn:Ex.
    + rewrite fmap_app, <- IHl by done. f_equal. destruct x; try done. by apply Hx.
    + rewrite fmap_app. change (next_index index + 1) with (next_index (Some (next_index index))).
      rewrite <- IHl by done. f_equal. rewrite nested_attr by done. destruct x; try done.
      apply Hx; [|done|done]. apply good_path_snoc; [done|apply str_of_Z_nonempty].
  - revert Hd. induction IH as [|[k v] d Hv _ IHd]; intros Hd; simpl in *; [done|].
    apply andb_true_iff in Hd as [Hdv Hd]. apply andb_true_iff in Hdv as [Hk Hdv].
    apply negb_true_iff, String.eqb_neq in Hk. rewrite fmap_app, <- IHd by done. f_equal.
    rewrite nested_attr by done. apply Hv; [by apply good_path_snoc|done|by destruct v].
Qed.

(** Validation errors are flattened without loss.  Whatever the nesting, the
    codes and messages of the response are those of the detail in order, without
    the empty ones; for what serializers raise, each comes with the dotted path of
    the keys and positions that lead to it. *)
Theorem flatten_errors_paths d :
  ((λ e, (e_code e, e_detail e)) <$> flatten_errors d None None = messages d) ∧
  (serializer_detail d = true → flatten_errors d None None = error_of <$> leaves [] d).
Proof. split; [apply flatten_messages|apply flatten_leaves]. Qed.

(** A list directly inside a list starts counting after its own position: its
    first item is number [index + 1]. *)
Example nested_list_index :
  e_attr <$> flatten_errors (Items [Items [Fields [("a", ErrorDetail "c" "m")]]]) None None
  = [Some "0.1.a"].
Proof. reflexivity. Qed.

(** ** What an error leaves behind *)

Lemma wf_response_details t errors : wf_val (response_details t errors) = true.
Proof.
  assert (forallb wf_val (error_dict <$> errors) = true) as Hl.
  { induction errors as [|e l IH]; [done|]. apply andb_true_iff.
    split; [by destruct e as [c d [a|]]|exact IH]. }
  unfold response_details. cbn [wf_val forallb snd]. by rewrite Hl.
Qed.
Lemma details_roundtrip v r : wf_val v = true → truthy v = true →
  er_details (set_er_details v r) = sort_val v.
Proof.
  intros Hv Ht. unfold er_details, set_er_details. rewrite Ht. cbn [set_er_details_data er_details_data].
  unfold truthy_str. rewrite (proj2 (String.eqb_neq _ _)) by (by apply dumps_not_empty).
  by rewrite loads_dumps.
Qed.

Section Recorded.
Context (format_now : Z → string).

(** The framework exception an exception becomes *)
Definition answered_as (e : view_exception) : api_exception :=
  convert_unhandled_exceptions (convert_known_exceptions e).

End Recorded.

(** An exception raised without a message is answered with no error at all. *)
Example empty_message_no_errors :
  flatten_errors (ax_detail (answered_as (Unhandled ""))) None None = [].
Proof. reflexivity. Qed.

Lemma flatten_errors_paths_witness :
  let d := Fields [("accounts", Items [Fields []; Fields [("email", Items [ErrorDetail "invalid" "Bad."])]])] in
  flatten_errors d None None = [Error "invalid" "Bad." (Some "accounts.1.email")].
Proof. intros d. exact (proj2 (flatten_errors_paths d) eq_refl). Defined.
