(* ===== verification/Schemas.v ===== *)
(** * The documented validation errors (finmars_standardized_errors/openapi_utils.py)

    For every operation of the API the OpenAPI generator writes down which
    validation errors it can answer with: one component for each [attr] and, in
    it, the error codes.  The functions below walk the serializer, or the filter
    form, of the operation.  Fields, forms, validators and their class hierarchy
    are the framework's: a record holds the attributes the code reads. *)
From Stdlib Require Import Ascii String.
From stdpp Require Import base list strings numbers gmap sets sorting.
From S2P Require Import Prelude PyStr PyVal Json World Demo Graph Finmars Models Errors.
Local Open Scope string_scope.
Local Open Scope Z_scope.
Local Open Scope list_scope.

(** ** Fields and validators *)

(** The classes [isinstance] is asked for *)
Inductive field_class : Type :=
  | HiddenField | ChoiceField | DateTimeField | FileField | IPAddressField | EmailField
  | RegexField | SlugField | URLField | ManyRelatedField.
#[export] Instance field_class_eq_dec : EqDecision field_class.
Proof. solve_decision. Defined.

Inductive validator_kind : Type :=
  | DecimalValidator (max_digits decimal_places : option Z)
  | UniqueValidator
  | UniqueTogetherValidator (fields : list string)
  | BaseUniqueForValidator (field date_field : string)
  | ValidateIp | ValidateInteger | ValidateImageFileExtension
  | OtherValidator.
(** A validator and its [code], when it has one *)
Record validator : Type := Validator { va_kind : validator_kind; va_code : option string }.

(** The attributes of a serializer field; [None] stands for an attribute the
    object does not have, or for its value [None] when the code only asks
    [getattr(field, name, None) is not None]. *)
Record field_attrs : Type := FieldAttrs {
  field_name : option string;
  fa_classes : list field_class;
  read_only : bool;
  required : bool;
  allow_null : bool;
  allow_blank : option bool;
  max_digits : option Z;
  decimal_places : option Z;
  max_whole_digits : option Z;
  fa_timezone : option (option string);
  allow_empty : option bool;
  allow_empty_file : option bool;
  fa_max_length : option Z;
  protocol : string;
  fa_validators : list validator;
  error_messages : list string;
  child_relation_messages : list string
}.
(** Serializers and fields: a list serializer, the proxy that stands for one of
    several serializers, a serializer with its fields, a list or dictionary
    field with its child, any other field *)
Inductive sfield : Type :=
  | ListSerializer (a : field_attrs) (child : sfield)
  | PolymorphicProxySerializer (a : field_attrs) (serializers : list sfield)
  | Serializer (a : field_attrs) (fields : list sfield)
  | ListField (a : field_attrs) (child : sfield)
  | DictField (a : field_attrs) (child : sfield)
  | PlainField (a : field_attrs).
Definition attrs_of (f : sfield) : field_attrs :=
  match f with
  | ListSerializer a _ | PolymorphicProxySerializer a _ | Serializer a _
  | ListField a _ | DictField a _ | PlainField a => a
  end.
Definition is_basic_serializer (f : sfield) : bool :=
  match f with PolymorphicProxySerializer _ _ | Serializer _ _ => true | _ => false end.
Definition is_class (a : field_attrs) (c : field_class) : bool := bool_decide (c ∈ fa_classes a).

(** The settings of the package, by default *)
Definition non_field_errors_key : string := "non_field_errors".
Definition list_index_in_api_schema : string := "INDEX".
Definition dict_key_in_api_schema : string := "KEY".
Definition error_component_name_suffix : string := "ErrorComponent".

(** ** The flat list of fields *)

(** [InputDataField], for a serializer field *)
Record input_field : Type := InputDataField {
  if_name : option string;
  if_field : sfield;
  error_codes : gset string
}.
(** [get_prefix] *)
Definition get_prefix (prefix name : option string) : option string :=
  match truthy_str prefix, truthy_str name with
  | Some p, Some n => Some (p +:+ nested_field_separator +:+ n)
  | Some p, None => Some p
  | None, _ => name
  end.

(** [get_flat_serializer_fields] *)
Fixpoint get_flat_serializer_fields (field : sfield) (prefix : option string) : list input_field :=
  match field with
  | ListSerializer a child =>
      let prefix := get_prefix prefix (field_name a) in
      let f := InputDataField (get_prefix prefix (Some non_field_errors_key)) field ∅ in
      f :: get_flat_serializer_fields child (get_prefix prefix (Some list_index_in_api_schema))
  | PolymorphicProxySerializer a serializers =>
      flat_map (λ s, get_flat_serializer_fields s prefix) serializers
  | Serializer a fields =>
      let prefix := get_prefix prefix (field_name a) in
      let f := InputDataField (get_prefix prefix (Some non_field_errors_key)) field ∅ in
      f :: flat_map (λ s, get_flat_serializer_fields s prefix) fields
  | ListField a child =>
      let prefix := get_prefix prefix (field_name a) in
      InputDataField prefix field ∅
      :: get_flat_serializer_fields child (get_prefix prefix (Some list_index_in_api_schema))
  | DictField a child =>
      let prefix := get_prefix prefix (field_name a) in
      InputDataField prefix field ∅
      :: get_flat_serializer_fields child (get_prefix prefix (Some dict_key_in_api_schema))
  | PlainField a => [InputDataField (get_prefix prefix (field_name a)) field ∅]
  end.

(** ** The codes of a field *)

(** A code under a condition *)
Definition code_if (b : bool) (codes : list string) : gset string :=
  if b then list_to_set codes else ∅.
(** [x is not None] *)
Definition is_some {A} (o : option A) : bool := match o with Some _ => true | None => false end.
(** [hasattr(field, x) and not field.x] *)
Definition has_false (o : option bool) : bool := match o with Some b => negb b | None => false end.

(** [has_validator] *)
Definition has_validator (vs : list validator) (p : validator_kind → bool) : bool :=
  existsb (λ v, p (va_kind v)) vs.
Definition is_unique_validator (k : validator_kind) : bool :=
  match k with UniqueValidator => true | _ => false end.
Definition is_unique_together (k : validator_kind) : bool :=
  match k with UniqueTogetherValidator _ => true | _ => false end.
Definition is_unique_for (k : validator_kind) : bool :=
  match k with BaseUniqueForValidator _ _ => true | _ => false end.

(** The first [DecimalValidator], and the codes it stands for *)
Definition decimal_codes (vs : list validator) : gset string :=
  match List.find (λ v, match va_kind v with DecimalValidator _ _ => true | _ => false end) vs with
  | Some v =>
      match va_kind v with
      | DecimalValidator digits places =>
          code_if (is_some digits) ["max_digits"] ∪ code_if (is_some places) ["max_decimal_places"]
          ∪ code_if (is_some places && is_some digits) ["max_whole_digits"]
      | _ => ∅
      end
  | None => ∅
  end.
(** [get_error_codes_from_validators] *)
Definition get_error_codes_from_validators (vs : list validator) : gset string :=
  list_to_set (omap (λ v, truthy_str (va_code v)) vs) ∪ decimal_codes vs
  ∪ code_if (has_validator vs (λ k, match k with ValidateIp | ValidateInteger => true | _ => false end))
      ["invalid"]
  ∪ code_if (has_validator vs (λ k, match k with ValidateImageFileExtension => true | _ => false end))
      ["invalid_extension"].

(** [error_codes_with_specific_conditions] *)
Definition conditional_codes : list string :=
  ["required"; "null"; "blank"; "max_length"; "min_length"; "max_value"; "min_value"; "max_digits";
   "max_decimal_places"; "max_whole_digits"; "overflow"; "make_aware"; "empty"; "invalid_unicode"].

Section FieldCodes.
(** [DateTimeField.default_timezone()] *)
Context (default_timezone : option string).

(** The codes of the conditions on the attributes of a field *)
Definition attribute_codes (a : field_attrs) : gset string :=
  code_if (required a) ["required"]
  ∪ code_if (negb (allow_null a)) ["null"]
  ∪ code_if (has_false (allow_blank a) && negb (is_class a ChoiceField)) ["blank"]
  ∪ code_if (is_some (max_digits a)) ["max_digits"]
  ∪ code_if (is_some (decimal_places a)) ["max_decimal_places"]
  ∪ code_if (is_some (max_whole_digits a)) ["max_whole_digits"]
  ∪ code_if (is_class a DateTimeField && is_some (default default_timezone (fa_timezone a)))
      ["overflow"; "make_aware"]
  ∪ code_if (has_false (allow_empty a) || has_false (allow_empty_file a)) ["empty"]
  ∪ code_if (is_class a FileField && is_some (fa_max_length a)) ["max_length"]
  ∪ code_if (is_class a IPAddressField && bool_decide (protocol a ∈ ["both"; "ipv6"])) ["invalid"].
(** Where "invalid" is the code of a validator *)
Definition invalid_by_validator (a : field_attrs) : bool :=
  existsb (is_class a) [EmailField; RegexField; SlugField; URLField; IPAddressField].
(** [set(field.error_messages).difference(error_codes_with_specific_conditions)] *)
Definition remaining_codes (a : field_attrs) : gset string :=
  list_to_set (error_messages a) ∖
  list_to_set (conditional_codes ++ if invalid_by_validator a then ["invalid"] else []).

(** [get_serializer_field_error_codes] *)
Definition get_serializer_field_error_codes (a : field_attrs) (attr : option string) : gset string :=
  if read_only a || is_class a HiddenField then ∅
  else
    let codes := attribute_codes a ∪ get_error_codes_from_validators (fa_validators a)
                 ∪ code_if (has_validator (fa_validators a) is_unique_validator) ["unique"]
                 ∪ remaining_codes a in
    let codes := if bool_decide (attr = Some non_field_errors_key)
                 then codes ∖ {["required"; "null"]} else codes in
    if is_class a ManyRelatedField
    then codes ∪ (list_to_set (child_relation_messages a) ∖ {["required"; "null"]})
    else codes.

(** ** Constraints over several fields *)

Definition add_code (code : string) (s : input_field) : input_field :=
  InputDataField (if_name s) (if_field s) (error_codes s ∪ {[code]}).
(** The [str] methods of a name that is [None] *)
Definition str_name (o : option string) : res string :=
  match o with Some s => Ok s | None => Raise AttributeError end.
(** The first field of that name gets the code. *)
Fixpoint add_to_first (name code : string) (l : list input_field) : list input_field :=
  match l with
  | [] => []
  | s :: l => if bool_decide (if_name s = Some name) then add_code code s :: l
              else s :: add_to_first name code l
  end.
(** [parts[-1] = field_name] of [attr.split(sep)], joined again *)
Definition sibling (attr field_name : string) : string :=
  join nested_field_separator (removelast (split c_dot attr) ++ [field_name]).
(** [add_error_code] *)
Definition add_error_code (attr : option string) (field_name code : string) (l : list input_field)
    : res (list input_field) :=
  a ← str_name attr; Ok (add_to_first (sibling a field_name) code l).

(** The fields [s] of the list with a serializer's validator of a kind, with
    their positions: the code works on the objects of the list itself. *)
Definition with_validators (p : validator_kind → bool) (l : list input_field) : list (nat * input_field) :=
  List.filter (λ s, is_basic_serializer (if_field s.2) &&
                    has_validator (fa_validators (attrs_of (if_field s.2))) p) (imap pair l).
(** The fields of all unique-together constraints, as a set *)
Definition implicitly_required (a : field_attrs) : list string :=
  elements (list_to_set (flat_map (λ v, match va_kind v with UniqueTogetherValidator l => l | _ => [] end)
                                  (fa_validators a)) : gset string).
(** [add_unique_together_error_codes] *)
Definition add_unique_together_error_codes (sel : list (nat * input_field)) (l : list input_field)
    : res (list input_field) :=
  fold_res (λ l s,
    fold_res (λ l field, add_error_code (if_name s.2) field "required" l)
      (implicitly_required (attrs_of (if_field s.2))) (alter (add_code "unique") s.1 l)) sel l.
(** [add_unique_for_error_codes] *)
Definition add_unique_for_error_codes (sel : list (nat * input_field)) (l : list input_field)
    : res (list input_field) :=
  fold_res (λ l s,
    fold_res (λ l v,
      match va_kind v with
      | BaseUniqueForValidator field date_field =>
          l ← add_error_code (if_name s.2) date_field "required" l;
          l ← add_error_code (if_name s.2) field "required" l;
          add_error_code (if_name s.2) field "unique" l
      | _ => Ok l
      end) (fa_validators (attrs_of (if_field s.2))) l) sel l.

(** [get_serializer_fields_with_error_codes]: the fields that have codes *)
Definition with_own_codes (l : list input_field) : list input_field :=
  omap (λ s, let codes := get_serializer_field_error_codes (attrs_of (if_field s)) (if_name s) in
             if decide (codes = ∅) then None
             else Some (InputDataField (if_name s) (if_field s) codes)) l.
Definition get_serializer_fields_with_error_codes (l : list input_field) : res (list input_field) :=
  let l := with_own_codes l in
  l ← add_unique_together_error_codes (with_validators is_unique_together l) l;
  add_unique_for_error_codes (with_validators is_unique_for l) l.
End FieldCodes.

(** ** Filter forms *)

(** The attributes of a form field; the fields of a combined one *)
Record form_attrs : Type := FormAttrs {
  ff_disabled : bool;
  ff_required : bool;
  ff_is_file : bool;
  ff_max_length : option Z;
  ff_allow_empty_file : bool;
  ff_is_generic_ip : bool;
  ff_validators : list validator;
  ff_error_messages : list string
}.
Inductive form_field : Type :=
  | FormField (a : form_attrs)
  | CombinedField (a : form_attrs) (fields : list form_field).

(** [get_form_fields] *)
Fixpoint get_form_fields (field : form_field) : list form_attrs :=
  match field with
  | FormField a => [a]
  | CombinedField a fields => a :: flat_map get_form_fields fields
  end.
(** [get_form_field_error_codes] *)
Definition get_form_field_error_codes (a : form_attrs) : gset string :=
  if ff_disabled a then ∅
  else
    (code_if (ff_required a) ["required"]
     ∪ code_if (ff_is_file a && is_some (ff_max_length a)) ["max_length"]
     ∪ code_if (ff_is_file a && negb (ff_allow_empty_file a)) ["empty"]
     ∪ code_if (ff_is_generic_ip a) ["invalid"]
     ∪ get_error_codes_from_validators (ff_validators a)
     ∪ (list_to_set (ff_error_messages a) ∖ {["required"; "max_length"; "empty"]}))
    ∖ {["missing"; "incomplete"]}.
(** [get_form_fields_with_error_codes]: the fields of a form, in order, with
    the codes of their parts *)
Definition get_form_fields_with_error_codes (form : list (string * form_field))
    : list (string * gset string) :=
  omap (λ kv, let codes := ⋃ (get_form_field_error_codes <$> get_form_fields kv.2) in
              if decide (codes = ∅) then None else Some (kv.1, codes)) form.

(** ** The components *)

(** The schema [get_error_serializer] declares: [attr] is one constant, [code]
    one of the codes *)
Record error_component : Type := ErrorComponent {
  cm_ref_name : string; cm_attr : string; cm_codes : list string }.
(** ... and [get_validation_error_serializer]: one schema for each [attr] *)
Record validation_component : Type := ValidationComponent {
  vc_ref_name : string;
  vc_errors_name : string;
  vc_errors : list (string * error_component)
}.

Section Components.
(** [inflection.camelize] *)
Context (camelize : string → string).

Definition sorted_codes (codes : gset string) : list string :=
  fst <$> sort_items ((λ c, (c, tt)) <$> elements codes).
(** [get_error_serializer] *)
Definition get_error_serializer (operation_id attr : string) (codes : gset string) : error_component :=
  let attr_with_underscores := replace attr nested_field_separator "_" in
  ErrorComponent (camelize operation_id +:+ camelize attr_with_underscores +:+ error_component_name_suffix)
    attr (sorted_codes codes).

(** [error_codes_by_field[field.name].update(field.error_codes)] *)
Fixpoint update_codes (name : option string) (codes : gset string)
    (d : list (option string * gset string)) : list (option string * gset string) :=
  match d with
  | [] => [(name, codes)]
  | (name', codes') :: d =>
      if bool_decide (name' = name) then (name', codes' ∪ codes) :: d
      else (name', codes') :: update_codes name codes d
  end.
Definition error_codes_by_field (l : list (option string * gset string))
    : list (option string * gset string) :=
  fold_left (λ d s, update_codes s.1 s.2 d) l [].
(** [get_validation_error_serializer], of the names and codes of the fields *)
Definition get_validation_error_serializer (operation_id : string)
    (data_fields : list (option string * gset string)) : res validation_component :=
  errors ← map_res (error_codes_by_field data_fields) (λ s,
    name ← str_name s.1; Ok (name, get_error_serializer operation_id name s.2));
  Ok (ValidationComponent (camelize operation_id +:+ "ValidationError")
        (camelize operation_id +:+ "Error") errors).
End Components.
