(* ===== verification/OpenApi.v ===== *)
(** * The OpenAPI documents

    The schema of an operation's error responses
    (finmars_standardized_errors/openapi.py, openapi_serializers.py), the
    package's settings object (settings.py), and the tenant's paths in the
    published document (workflow_app/openapi.py).  What the framework knows of a
    view (parsers, permissions, paginator, ...) is a record of the facts the code
    asks for. *)
From Stdlib Require Import Ascii String.
From stdpp Require Import base list strings numbers gmap sets sorting.
From S2P Require Import Prelude PyStr PyVal Json World Demo Graph Finmars Models Errors Schemas.
Local Open Scope string_scope.
Local Open Scope Z_scope.
Local Open Scope list_scope.

(** ** Views *)

Inductive parser_kind : Type := JSONParser | MultiPartParser | FileUploadParser | OtherParser.
Record parser : Type := Parser { pa_kind : parser_kind; media_type : string }.
Inductive permission : Type := AllowAny | IsAuthenticated | OtherPermission.
Inductive paginator : Type := PageNumberPagination | CursorPagination | OtherPagination.
Inductive versioning : Type :=
  | URLPathVersioning | NamespaceVersioning | HostNameVersioning | QueryParameterVersioning
  | AcceptHeaderVersioning | OtherVersioning.
(** A filter backend: is it a [DjangoFilterBackend], does it raise, has it
    parameters for the view, the form of its filter set *)
Record filter_backend : Type := FilterBackend {
  fb_django : bool;
  fb_raise_exception : bool;
  fb_has_parameters : bool;
  fb_form : option (list (string * form_field))
}.
Record api_view : Type := ApiView {
  vw_standard_handler : bool;
  vw_method : string;
  vw_operation_id : string;
  vw_parsers : list parser;
  vw_request_serializer : option sfield;
  vw_filter_backends : list filter_backend;
  vw_has_model : bool;
  vw_auth_methods : list pyval;
  vw_permissions : list permission;
  vw_has_authenticators : bool;
  vw_paginator : option paginator;
  vw_versioning : option versioning;
  vw_parameter_places : list string;
  vw_default_negotiation : bool;
  vw_has_throttles : bool
}.

(** ** The default error serializers *)

(** [<Class>Enum] and [ErrorResponse<code>Serializer]: the type of the response
    and the codes of its errors *)
Definition ClientErrorEnum : string := "client_error".
Definition ServerErrorEnum : string := "server_error".
Definition ValidationErrorEnum : string := "validation_error".
Record status_serializer : Type := StatusSerializer { ss_type : string; ss_codes : list string }.
Definition ParseErrorResponseSerializer : status_serializer :=
  StatusSerializer ClientErrorEnum ["parse_error"].
Definition error_serializers : list (string * status_serializer) :=
  [("401", StatusSerializer ClientErrorEnum ["authentication_failed"; "not_authenticated"]);
   ("403", StatusSerializer ClientErrorEnum ["permission_denied"]);
   ("404", StatusSerializer ClientErrorEnum ["not_found"]);
   ("405", StatusSerializer ClientErrorEnum ["method_not_allowed"]);
   ("406", StatusSerializer ClientErrorEnum ["not_acceptable"]);
   ("415", StatusSerializer ClientErrorEnum ["unsupported_media_type"]);
   ("429", StatusSerializer ClientErrorEnum ["throttled"]);
   ("500", StatusSerializer ServerErrorEnum ["error"])].

(** What documents a status: a schema of the settings, one of the above, or the
    proxy of the two serializers of a 400 *)
Inductive error_schema : Type :=
  | CustomSchema (v : pyval)
  | StatusSchema (s : status_serializer)
  | Http400Schema (component_name : string) (validation : option validation_component)
      (parse : option status_serializer).

Section AutoSchema.
(** [inflection.camelize]; the default time zone of [DateTimeField]; the settings
    ALLOWED_ERROR_STATUS_CODES and ERROR_SCHEMAS *)
Context (camelize : string → string) (default_timezone : option string)
  (allowed_error_status_codes : list string) (error_schemas : list (string * pyval)).

(** [get_django_filter_backends] *)
Definition get_django_filter_backends (backends : list filter_backend) : list filter_backend :=
  List.filter (λ b, fb_django b && fb_raise_exception b) backends.
(** [get_filter_forms] *)
Definition get_filter_forms (view : api_view) (backends : list filter_backend)
    : list (list (string * form_field)) :=
  omap (λ b, if vw_has_model view then fb_form b else None) backends.

(** [_should_add_*] *)
Definition should_add_parse_error_response (view : api_view) : bool :=
  existsb (λ p, match pa_kind p with OtherParser => false | _ => true end) (vw_parsers view).
Definition unsafe_method (view : api_view) : bool := bool_decide (vw_method view ∈ ["PUT"; "PATCH"; "POST"]).
Definition should_add_validation_error_response (view : api_view) : bool :=
  unsafe_method view && is_some (vw_request_serializer view)
  || existsb fb_has_parameters (get_django_filter_backends (vw_filter_backends view)).
Definition should_add_http401_error_response (view : api_view) : bool :=
  bool_decide (List.filter truthy (vw_auth_methods view) ≠ []).
Definition should_add_http403_error_response (view : api_view) : bool :=
  match vw_permissions view with
  | [] => false
  | [AllowAny] => false
  | [IsAuthenticated] => negb (vw_has_authenticators view)
  | _ => true
  end.
Definition should_add_http404_error_response (view : api_view) : bool :=
  match vw_paginator view with Some PageNumberPagination | Some CursorPagination => true | _ => false end
  || match vw_versioning view with
     | Some URLPathVersioning | Some NamespaceVersioning
     | Some HostNameVersioning | Some QueryParameterVersioning => true
     | _ => false
     end
  || bool_decide (List.filter (λ p, String.eqb p "path") (vw_parameter_places view) ≠ []).
Definition should_add_http406_error_response (view : api_view) : bool :=
  vw_default_negotiation view
  || match vw_versioning view with Some AcceptHeaderVersioning => true | _ => false end.
Definition should_add_http415_error_response (view : api_view) : bool :=
  vw_default_negotiation view
  && bool_decide (List.filter (λ p, String.eqb (media_type p) "*/*") (vw_parsers view) = []).
(** [_should_add_error_response]; 405 and 500 can always be answered, and the
    extra codes of the settings are always documented *)
Definition should_add_error_response {R} (view : api_view) (responses : list (string * R))
    (status_code : string) : bool :=
  if negb (vw_standard_handler view) || dict_has responses status_code then false
  else if String.eqb status_code "400" then
    should_add_parse_error_response view || should_add_validation_error_response view
  else if String.eqb status_code "401" then should_add_http401_error_response view
  else if String.eqb status_code "403" then should_add_http403_error_response view
  else if String.eqb status_code "404" then should_add_http404_error_response view
  else if String.eqb status_code "405" then true
  else if String.eqb status_code "406" then should_add_http406_error_response view
  else if String.eqb status_code "415" then should_add_http415_error_response view
  else if String.eqb status_code "429" then vw_has_throttles view
  else if String.eqb status_code "500" then true
  else true.

(** [_determine_fields_with_error_codes]: the names of the fields and their
    codes; no serializer has no fields. *)
Definition determine_fields_with_error_codes (view : api_view) : res (list (option string * gset string)) :=
  if unsafe_method view then
    match vw_request_serializer view with
    | Some serializer =>
        fields ← get_serializer_fields_with_error_codes default_timezone
                   (get_flat_serializer_fields serializer None);
        Ok (map (λ s, (if_name s, error_codes s)) fields)
    | None => Ok []
    end
  else
    Ok (map (λ s, (Some s.1, s.2))
          (flat_map get_form_fields_with_error_codes
             (get_filter_forms view (get_django_filter_backends (vw_filter_backends view))))).
(** [_get_serializer_for_validation_error_response] *)
Definition get_serializer_for_validation_error_response (view : api_view) : res validation_component :=
  fields ← determine_fields_with_error_codes view;
  get_validation_error_serializer camelize (vw_operation_id view) fields.
(** [_get_http400_serializer] *)
Definition get_http400_serializer (view : api_view) : res error_schema :=
  validation ← (if should_add_validation_error_response view
                then v ← get_serializer_for_validation_error_response view; Ok (Some v)
                else Ok None);
  Ok (Http400Schema (camelize (vw_operation_id view) +:+ "ErrorResponse400") validation
        (if should_add_parse_error_response view then Some ParseErrorResponseSerializer else None)).
(** [_get_error_response_serializer] *)
Definition get_error_response_serializer (view : api_view) (status_code : string) : res (option error_schema) :=
  let v := default PNone (dict_get error_schemas status_code) in
  if truthy v then Ok (Some (CustomSchema v))
  else if String.eqb status_code "400" then s ← get_http400_serializer view; Ok (Some s)
  else Ok (option_map StatusSchema (dict_get error_serializers status_code)).
(** [_get_response_bodies]: [responses] are those of the base class, and
    [response_for_code] is its [_get_response_for_code]. *)
Definition get_response_bodies {R} (response_for_code : error_schema → string → R) (view : api_view)
    (responses : list (string * R)) : res (list (string * R)) :=
  error_responses ← fold_res (λ d status_code,
    if should_add_error_response view responses status_code then
      s ← get_error_response_serializer view status_code;
      Ok match s with
         | Some s => dict_set d status_code (response_for_code s status_code)
         | None => d
         end
    else Ok d) allowed_error_status_codes [];
  Ok (dict_update error_responses responses).
End AutoSchema.

(** [DEFAULTS["ALLOWED_ERROR_STATUS_CODES"]] *)
Definition default_allowed : list string :=
  ["400"; "401"; "403"; "404"; "405"; "406"; "415"; "429"; "500"].

(** ** The settings object *)

(** [PackageSettings]: the settings of the project, once read, and the values
    given out so far, which become attributes of the object *)
Record package_settings : Type := PackageSettings {
  ps_user_settings : option (list (string * pyval));
  ps_cached_attrs : list (string * pyval)
}.
Definition setting_name : string := "FINMARS_STANDARDIZED_ERRORS".
Definition DEFAULTS : list (string * pyval) :=
  [("EXCEPTION_HANDLER_CLASS", PStr "finmars_standardized_errors.handler.ExceptionHandler");
   ("EXCEPTION_FORMATTER_CLASS", PStr "finmars_standardized_errors.formatter.ExceptionFormatter");
   ("ENABLE_IN_DEBUG_FOR_UNHANDLED_EXCEPTIONS", PBool false);
   ("NESTED_FIELD_SEPARATOR", PStr nested_field_separator);
   ("ALLOWED_ERROR_STATUS_CODES", PList (PStr <$> default_allowed));
   ("ERROR_SCHEMAS", PNone);
   ("LIST_INDEX_IN_API_SCHEMA", PStr list_index_in_api_schema);
   ("DICT_KEY_IN_API_SCHEMA", PStr dict_key_in_api_schema);
   ("ERROR_COMPONENT_NAME_SUFFIX", PStr error_component_name_suffix)].
Definition IMPORT_STRINGS : list string :=
  ["EXCEPTION_FORMATTER_CLASS"; "EXCEPTION_HANDLER_CLASS"; "ERROR_SCHEMAS"].

Section Settings.
(** The imports of the framework: of one name, and of a value that is a name, a
    list of names or None *)
Context (import_from_string : pyval → res pyval) (perform_import : pyval → res pyval).

(** [PackageSettings.user_settings]; [django] are the project's settings *)
Definition user_settings (django : list (string * pyval)) : ST package_settings (list (string * pyval)) :=
  s ← gets id;
  match ps_user_settings s with
  | Some u => mret u
  | None =>
      let u := match dict_get django setting_name with Some (PDict u) => u | _ => [] end in
      _ ← modify (λ s, PackageSettings (Some u) (ps_cached_attrs s));
      mret u
  end.
(** Reading an attribute: one given out before is found without
    [PackageSettings.__getattr__]. *)
Definition get_setting (django : list (string * pyval)) (attr : string) : ST package_settings pyval :=
  s ← gets id;
  match dict_get (ps_cached_attrs s) attr with
  | Some v => mret v
  | None =>
      match dict_get DEFAULTS attr with
      | None => raise AttributeError
      | Some d =>
          u ← user_settings django;
          let val := default d (dict_get u attr) in
          val ← (if bool_decide (attr ∈ IMPORT_STRINGS) then
                   match val with
                   | PDict schemas => lift (l ← map_res schemas (λ kv, v ← import_from_string kv.2; Ok (kv.1, v)); Ok (PDict l))
                   | _ => lift (perform_import val)
                   end
                 else mret val);
          _ ← modify (λ s, PackageSettings (ps_user_settings s) (dict_set (ps_cached_attrs s) attr val));
          mret val
      end
  end.
(** [PackageSettings.reload] *)
Definition reload_settings : ST package_settings unit := modify (λ _, PackageSettings None []).
(** [reload_package_settings], the handler of [setting_changed] *)
Definition reload_package_settings (setting : string) : ST package_settings unit :=
  when (String.eqb setting setting_name) reload_settings.

(** A setting is read once: until the next reload it keeps its value, whatever
    becomes of the project's settings. *)
Lemma setting_stays django django' attr s v s' :
  get_setting django attr s = (Ok v, s') → get_setting django' attr s' = (Ok v, s').
Proof.
  assert (dict_get (ps_cached_attrs s') attr = Some v → get_setting django' attr s' = (Ok v, s')) as Hread.
  { intros E. unfold get_setting. rewrite (bind_ok _ _ s' s' s') by done. by rewrite E. }
  intros Hg. apply Hread. clear Hread. unfold get_setting in Hg.
  rewrite (bind_ok _ _ s s s) in Hg by done.
  destruct (dict_get (ps_cached_attrs s) attr) as [v0|] eqn:E; [by injection Hg as <- <-|].
  destruct (dict_get DEFAULTS attr) as [d|]; [|done].
  apply bind_inv in Hg as (u & s1 & _ & Hg). apply bind_inv in Hg as (val & s2 & _ & Hg).
  apply bind_inv in Hg as ([] & s3 & [= <-] & [= <- <-]). apply dict_get_set_eq.
Qed.
End Settings.

(** ** Examples of errors *)

(** [get_example_from_exception]: the name of the example, its status and the
    type and code of the error it shows *)
Record error_example : Type := OpenApiExample {
  oe_name : string; oe_status : string; oe_type : string; oe_code : string }.
Definition get_example_from_exception (name : string) (e : api_exception) : error_example :=
  OpenApiExample name (str_of_Z (ax_status_code e))
    (if is_client_error (ax_status_code e) then "client_error" else "server_error")
    (match ax_detail e with ErrorDetail code _ => code | _ => "" end).
(** [get_error_examples], of the framework's exceptions with their default
    status, code and message *)
Definition framework_exception (status : Z) (code : string) : api_exception :=
  ApiException status false (ErrorDetail code "") None None.
Definition get_error_examples : list error_example :=
  (λ x, get_example_from_exception x.1.1 (framework_exception x.1.2 x.2)) <$>
  [("AuthenticationFailed", 401, "authentication_failed"); ("NotAuthenticated", 401, "not_authenticated");
   ("PermissionDenied", 403, "permission_denied"); ("NotFound", 404, "not_found");
   ("MethodNotAllowed", 405, "method_not_allowed"); ("NotAcceptable", 406, "not_acceptable");
   ("UnsupportedMediaType", 415, "unsupported_media_type"); ("Throttled", 429, "throttled");
   ("APIException", 500, "error")].

(** ** The tenant's paths *)

(** [TenantSchemaGenerator.get_schema]: the loop over the paths of the document *)
Definition tenant_path (realm_code space_code path : string) : string :=
  replace (replace path "{realm_code}" realm_code) "{space_code}" space_code.
Definition rename_path {V} (realm_code space_code : string) (paths : list (string * V)) (path : string)
    : res (list (string * V)) :=
  match dict_get paths path with
  | Some v => Ok (dict_del (dict_set paths (tenant_path realm_code space_code path) v) path)
  | None => Raise (KeyError path)
  end.
Definition tenant_paths {V} (realm_code space_code : string) (paths : list (string * V))
    : res (list (string * V)) :=
  fold_res (rename_path realm_code space_code) (dict_keys paths) paths.

Section TenantPaths.
Context {V : Type} (realm_code space_code : string).
Abbreviation f := (tenant_path realm_code space_code).

Lemma rename_paths_run (todo : list (string * V)) : ∀ done_,
  NoDup (f <$> todo.*1) → (∀ p q, p ∈ todo.*1 → q ∈ todo.*1 → f p ≠ q) →
  (∀ p, p ∈ todo.*1 → f p ∉ done_.*1) →
  fold_res (rename_path realm_code space_code) (dict_keys todo) (todo ++ done_)
  = Ok (done_ ++ ((λ kv, (f kv.1, kv.2)) <$> todo)).
Proof.
  induction todo as [|[p v] todo IH]; intros done_ Hnd Hne Hdone; simpl.
  - by rewrite app_nil_r.
  - unfold rename_path at 2. cbn [dict_get]. rewrite decide_True by done. cbn [mbind res_bind].
    apply NoDup_cons in Hnd as [Hp Hnd].
    assert (f p ∉ dict_keys ((p, v) :: todo ++ done_)) as Hfresh.
    { unfold dict_keys. rewrite fmap_cons, fmap_app, elem_of_cons, elem_of_app. intros [E|[E|E]].
      - apply (Hne p p); [by left..|done].
      - apply (Hne p (f p)); [by left|by right|done].
      - by apply (Hdone p); [left|]. }
    rewrite (dict_set_fresh _ _ _ Hfresh). cbn [app dict_del]. rewrite decide_True by done.
    rewrite <- app_assoc. unfold dict_keys in IH. rewrite IH.
    + by rewrite <- app_assoc.
    + done.
    + intros q r Hq Hr. apply Hne; by right.
    + intros q Hq. rewrite fmap_app, elem_of_app. simpl. rewrite list_elem_of_singleton. intros [E|E].
      * by apply (Hdone q); [right|].
      * apply Hp. apply list_elem_of_fmap. by exists q.
Qed.
(** When every path has a placeholder and no two become the same, the document
    has each operation under the tenant's path, in the same order ... *)
Lemma tenant_paths_spec (paths : list (string * V)) : NoDup (f <$> paths.*1) →
  (∀ p q, p ∈ paths.*1 → q ∈ paths.*1 → f p ≠ q) →
  tenant_paths realm_code space_code paths = Ok ((λ kv, (f kv.1, kv.2)) <$> paths).
Proof.
  intros Hnd Hne. unfold tenant_paths.
  pose proof (rename_paths_run paths [] Hnd Hne (λ p _, not_elem_of_nil _)) as Hrun.
  by rewrite app_nil_r in Hrun.
Qed.
End TenantPaths.
(** ... but a path without a placeholder disappears from it. *)
Example fixed_path_lost :
  tenant_paths "realm00000" "space00000" [("/health/", 1); ("/{realm_code}/{space_code}/api/", 2)]
  = Ok [("/realm00000/space00000/api/", 2)].
Proof. vm_compute. reflexivity. Qed.
