(* ===== verification/Documented.v ===== *)
(** * The documented errors cover the errors of the API

    Errors.v flattens what a serializer raises into errors with an [attr] and a
    code; Schemas.v derives from the same serializer which they can be.  Here the
    two meet: every error the handler answers with is documented. *)
From Stdlib Require Import Ascii String.
From stdpp Require Import base list strings numbers gmap sets sorting.
From S2P Require Import Prelude PyStr PyVal Json World Demo Graph Finmars Models Errors Schemas OpenApi.
Local Open Scope string_scope.
Local Open Scope Z_scope.
Local Open Scope list_scope.

(** ** Collecting codes by name *)

Lemma elem_of_sorted_codes c s : c ∈ sorted_codes s ↔ c ∈ s.
Proof.
  unfold sorted_codes. rewrite sort_items_keys, <- list_fmap_compose.
  rewrite list_elem_of_fmap. setoid_rewrite elem_of_elements. simpl. naive_solver.
Qed.
Lemma update_codes_new name codes d : ∃ codes', (name, codes') ∈ update_codes name codes d ∧ codes ⊆ codes'.
Proof.
  induction d as [|[n c] d IH]; simpl; [exists codes; set_solver|]. case_bool_decide as E.
  - subst. exists (c ∪ codes). split; [by left|set_solver].
  - destruct IH as (c' & H & ?). exists c'. split; [by right|done].
Qed.
Lemma update_codes_old name codes d n c : (n, c) ∈ d →
  ∃ c', (n, c') ∈ update_codes name codes d ∧ c ⊆ c'.
Proof.
  induction d as [|[n' c'] d IH]; [by intros ?%not_elem_of_nil|]. simpl. intros [[= <- <-]|Hin]%elem_of_cons.
  - case_bool_decide; eexists; (split; [by left|set_solver]).
  - case_bool_decide; [exists c; split; [by right|done]|].
    destruct (IH Hin) as (c2 & ? & ?). exists c2. split; [by right|done].
Qed.
(** The codes of every field are among those of its name. *)
Lemma codes_by_field_cover l n c : (n, c) ∈ l → ∃ c', (n, c') ∈ error_codes_by_field l ∧ c ⊆ c'.
Proof.
  unfold error_codes_by_field.
  assert (∀ d, ((n, c) ∈ l ∨ ∃ c0, (n, c0) ∈ d ∧ c ⊆ c0) →
    ∃ c', (n, c') ∈ fold_left (λ d s, update_codes s.1 s.2 d) l d ∧ c ⊆ c') as Hgen.
  { induction l as [|[n' c'] l IH]; intros d Hd; simpl.
    - destruct Hd as [?%not_elem_of_nil|]; done.
    - apply IH. destruct Hd as [[[= <- <-]|Hin]%elem_of_cons|(c0 & Hin & Hc)].
      + right. apply update_codes_new.
      + by left.
      + right. destruct (update_codes_old n' c' d n c0 Hin) as (c2 & ? & ?).
        exists c2. split; [done|]. by etransitivity. }
  intros Hin. apply Hgen. by left.
Qed.
(** ... and only the names of fields appear. *)
Lemma codes_by_field_names l n c : (n, c) ∈ error_codes_by_field l → n ∈ l.*1.
Proof.
  unfold error_codes_by_field.
  assert (∀ name codes d, (update_codes name codes d).*1 ⊆ name :: d.*1) as Hup.
  { intros name codes d. induction d as [|[n' c'] d IH]; simpl; [set_solver|].
    case_bool_decide; simpl; set_solver. }
  assert (∀ d, (fold_left (λ d s, update_codes s.1 s.2 d) l d).*1 ⊆ d.*1 ++ l.*1) as Hgen.
  { induction l as [|[n' c'] l IH]; intros d; simpl; [set_solver|].
    specialize (IH (update_codes n' c' d)). specialize (Hup n' c' d). set_solver. }
  intros Hin. specialize (Hgen []). apply (list_elem_of_fmap_2 fst) in Hin. set_solver.
Qed.

Section Components.
Context (camelize : string → string).

(** When every field has a name, there is a component for each, with its codes. *)
Lemma validation_serializer_covers op l : Forall (λ s, is_Some s.1) l →
  ∃ v, get_validation_error_serializer camelize op l = Ok v ∧
    ∀ n codes c, (Some n, codes) ∈ l → c ∈ codes →
      ∃ cm, (n, cm) ∈ vc_errors v ∧ cm_attr cm = n ∧ c ∈ cm_codes cm.
Proof.
  intros Hl. unfold get_validation_error_serializer.
  set (g := λ s : option string * gset string,
    (default "" s.1, get_error_serializer camelize op (default "" s.1) s.2)).
  rewrite (map_res_ok _ _ g).
  - eexists. split; [reflexivity|]. intros n codes c Hin Hc. simpl.
    destruct (codes_by_field_cover _ _ _ Hin) as (codes' & Hin' & Hsub).
    exists (get_error_serializer camelize op n codes'). split_and!; [|done|].
    + apply list_elem_of_fmap. by exists (Some n, codes').
    + apply elem_of_sorted_codes. set_solver.
  - intros [n codes] Hin. apply codes_by_field_names, list_elem_of_fmap in Hin as ((n' & c') & -> & Hin).
    rewrite Forall_forall in Hl. destruct (Hl _ Hin) as [m ?]. simpl in *. by subst.
Qed.
End Components.

(** ** The constraints over several fields only add codes *)

Definition grows (l l' : list input_field) : Prop :=
  Forall2 (λ s s', if_name s' = if_name s ∧ if_field s' = if_field s ∧ error_codes s ⊆ error_codes s') l l'.
#[export] Instance grows_preorder : PreOrder grows.
Proof.
  split.
  - intros l. by apply Forall_Forall2_diag, Forall_forall.
  - intros l1 l2 l3 H12. revert l3. induction H12 as [|x y l l' Hx H12 IH]; intros l3 H; [done|].
    inversion H as [|? z ? l3' Hy H23]; subst. constructor; [|by apply IH].
    destruct Hx as (?&?&?), Hy as (?&?&?). split_and!; [congruence..|by etransitivity].
Qed.
(** A field of that name has the code. *)
Definition has_code (n : option string) (c : string) (l : list input_field) : Prop :=
  ∃ s, s ∈ l ∧ if_name s = n ∧ c ∈ error_codes s.

Lemma grows_names l l' : grows l l' → if_name <$> l' = if_name <$> l.
Proof. induction 1 as [|s s' l l' (H & _) _ IH]; [done|]. by rewrite !fmap_cons, H, IH. Qed.
Lemma grows_has l l' n c : grows l l' → has_code n c l → has_code n c l'.
Proof.
  intros Hg (s & Hs & Hn & Hc). apply list_elem_of_lookup in Hs as [i Hi].
  destruct (Forall2_lookup_l _ _ _ _ _ Hg Hi) as (s' & Hi' & H1 & _ & H2).
  exists s'. split_and!; [by eapply list_elem_of_lookup_2|congruence|set_solver].
Qed.
Lemma grows_add_code c s : if_name (add_code c s) = if_name s ∧ if_field (add_code c s) = if_field s ∧
  error_codes s ⊆ error_codes (add_code c s).
Proof. split_and!; [done..|]. simpl. set_solver. Qed.
Lemma grows_alter c i l : grows l (alter (add_code c) i l).
Proof.
  revert i. induction l as [|s l IH]; intros i; [by constructor|].
  destruct i; simpl; constructor; [apply grows_add_code|reflexivity|done|apply IH].
Qed.
Lemma grows_add_to_first n c l : grows l (add_to_first n c l).
Proof.
  induction l as [|s l IH]; [constructor|]. simpl.
  case_bool_decide; (constructor; [|done || reflexivity]); [apply grows_add_code|done].
Qed.
Lemma add_to_first_has n c l : Some n ∈ if_name <$> l → has_code (Some n) c (add_to_first n c l).
Proof.
  intros (s & Hn & Hs)%list_elem_of_fmap. induction Hs as [s l|s s' l Hs IH]; simpl.
  - rewrite bool_decide_eq_true_2 by done. exists (add_code c s). split; [by left|].
    split; [done|]. simpl. set_solver.
  - case_bool_decide.
    + exists (add_code c s'). split; [by left|]. split; [done|]. simpl. set_solver.
    + destruct (IH Hn) as (s2 & ? & ? & ?). exists s2. split; [by right|done].
Qed.
Lemma alter_has c i l s : l !! i = Some s → has_code (if_name s) c (alter (add_code c) i l).
Proof.
  intros Hi. exists (add_code c s). split; [|split; [done|simpl; set_solver]].
  apply (list_elem_of_lookup_2 _ i). by rewrite list_lookup_alter_eq, Hi.
Qed.

(** A fold of growing steps grows, and keeps what each step has done. *)
Lemma fold_grows {X} (f : list input_field → X → res (list input_field)) xs l :
  (∀ x l1, x ∈ xs → grows l l1 → ∃ l2, f l1 x = Ok l2 ∧ grows l1 l2) →
  ∃ l', fold_res f xs l = Ok l' ∧ grows l l' ∧
    ∀ x, x ∈ xs → ∃ l1 l2, grows l l1 ∧ f l1 x = Ok l2 ∧ grows l2 l'.
Proof.
  revert l. induction xs as [|x xs IH]; intros l Hf; simpl.
  - exists l. split_and!; [done|done|]. by intros ? ?%not_elem_of_nil.
  - destruct (Hf x l) as (l2 & Hx & Hg); [by left|done|]. rewrite Hx. cbn [mbind res_bind].
    destruct (IH l2) as (l' & Hl' & Hg' & Hall).
    { intros y l1 Hy Hl1. apply Hf; [by right|]. by etransitivity. }
    exists l'. split_and!; [done|by etransitivity|]. intros y [->|Hy]%elem_of_cons.
    + exists l, l2. done.
    + destruct (Hall y Hy) as (l3 & l4 & ? & ? & ?). exists l3, l4.
      split; [by etransitivity|done].
Qed.

(** What the validators of a serializer give the field [k] next to it *)
Definition sibling_codes (a : field_attrs) (k : string) : list string :=
  flat_map (λ v, match va_kind v with
    | UniqueTogetherValidator fields => if bool_decide (k ∈ fields) then ["required"] else []
    | BaseUniqueForValidator field date_field =>
        (if bool_decide (k = field) then ["required"; "unique"] else []) ++
        (if bool_decide (k = date_field) then ["required"] else [])
    | _ => []
    end) (fa_validators a).

Lemma with_validators_spec p l i s : (i, s) ∈ with_validators p l ↔
  l !! i = Some s ∧ is_basic_serializer (if_field s) = true ∧
  has_validator (fa_validators (attrs_of (if_field s))) p = true.
Proof.
  unfold with_validators. rewrite list_elem_of_In, filter_In, <- list_elem_of_In. simpl.
  rewrite andb_true_iff. assert ((i, s) ∈ imap pair l ↔ l !! i = Some s) as ->; [|tauto].
  rewrite elem_of_lookup_imap. naive_solver.
Qed.

Section Enrich.
Context (l : list input_field)
  (Hnames : ∀ s, s ∈ l → is_basic_serializer (if_field s) = true → is_Some (if_name s)).

Lemma add_error_code_runs a k c l1 : grows l l1 →
  ∃ l2, add_error_code (Some a) k c l1 = Ok l2 ∧ grows l1 l2 ∧
    (Some (sibling a k) ∈ if_name <$> l → has_code (Some (sibling a k)) c l2).
Proof.
  intros Hg. exists (add_to_first (sibling a k) c l1). split_and!; [done|apply grows_add_to_first|].
  intros Hin. apply add_to_first_has. by rewrite (grows_names _ _ Hg).
Qed.
Lemma selected_name p l1 i s : grows l l1 → (i, s) ∈ with_validators p l1 →
  ∃ a s0, if_name s = Some a ∧ l !! i = Some s0 ∧ if_name s0 = Some a ∧ if_field s0 = if_field s.
Proof using Hnames.
  intros Hg (Hi & Hb & _)%with_validators_spec.
  destruct (Forall2_lookup_r _ _ _ _ _ Hg Hi) as (s0 & Hi0 & Hn & Hf & _).
  destruct (Hnames s0) as [a Ha]; [by eapply list_elem_of_lookup_2|congruence|].
  exists a, s0. split_and!; congruence.
Qed.
Lemma selected_here p l1 s : grows l l1 → s ∈ l → is_basic_serializer (if_field s) = true →
  has_validator (fa_validators (attrs_of (if_field s))) p = true →
  ∃ i s1, (i, s1) ∈ with_validators p l1 ∧ if_name s1 = if_name s ∧ if_field s1 = if_field s.
Proof.
  intros Hg [i Hi]%list_elem_of_lookup Hb Hp.
  destruct (Forall2_lookup_l _ _ _ _ _ Hg Hi) as (s1 & Hi1 & Hn & Hf & _).
  exists i, s1. rewrite with_validators_spec, Hf. done.
Qed.

(** ** Unique together *)

Lemma unique_together_step l1 i s : grows l l1 → (i, s) ∈ with_validators is_unique_together l →
  ∃ l2, fold_res (λ l field, add_error_code (if_name s) field "required" l)
      (implicitly_required (attrs_of (if_field s))) (alter (add_code "unique") i l1) = Ok l2 ∧
    grows l1 l2 ∧ has_code (if_name s) "unique" l2 ∧
    ∀ a k, if_name s = Some a → k ∈ implicitly_required (attrs_of (if_field s)) →
      Some (sibling a k) ∈ if_name <$> l → has_code (Some (sibling a k)) "required" l2.
Proof using Hnames.
  intros Hg Hs. destruct (selected_name _ l i s ltac:(done) Hs) as (a & s0 & Ha & Hi & Ha0 & _).
  assert (grows l1 (alter (add_code "unique") i l1)) as Hg1 by apply grows_alter.
  destruct (fold_grows (λ l field, add_error_code (if_name s) field "required" l)
    (implicitly_required (attrs_of (if_field s))) (alter (add_code "unique") i l1))
    as (l2 & Hrun & Hg2 & Hall).
  { intros k l3 _ Hl3. rewrite Ha. destruct (add_error_code_runs a k "required" l3) as (l4 & ? & ? & _);
      [|by exists l4]. by do 2 (etransitivity; [done|]). }
  exists l2. split_and!; [done|by etransitivity| |].
  - eapply grows_has; [done|]. destruct (Forall2_lookup_l _ _ _ _ _ Hg Hi) as (s1 & Hi1 & Hn & _).
    rewrite Ha, <- Ha0, <- Hn. by apply alter_has.
  - intros a' k E Hk Hin. rewrite Ha in E. injection E as <-.
    destruct (Hall k Hk) as (l3 & l4 & H3 & H4 & H5). rewrite Ha in H4. eapply grows_has; [done|].
    destruct (add_error_code_runs a k "required" l3) as (l5 & E5 & _ & Hh).
    { by do 2 (etransitivity; [done|]). }
    rewrite H4 in E5. injection E5 as <-. by apply Hh.
Qed.
Lemma unique_together_run : ∃ l1,
  add_unique_together_error_codes (with_validators is_unique_together l) l = Ok l1 ∧ grows l l1 ∧
  ∀ s, s ∈ l → is_basic_serializer (if_field s) = true →
    has_validator (fa_validators (attrs_of (if_field s))) is_unique_together = true →
    has_code (if_name s) "unique" l1 ∧
    ∀ a k, if_name s = Some a → k ∈ implicitly_required (attrs_of (if_field s)) →
      Some (sibling a k) ∈ if_name <$> l → has_code (Some (sibling a k)) "required" l1.
Proof using Hnames.
  unfold add_unique_together_error_codes.
  destruct (fold_grows (λ l s, fold_res (λ l field, add_error_code (if_name s.2) field "required" l)
      (implicitly_required (attrs_of (if_field s.2))) (alter (add_code "unique") s.1 l))
    (with_validators is_unique_together l) l) as (l1 & Hrun & Hg & Hall).
  { intros [i s] l1 Hin Hl1. destruct (unique_together_step l1 i s Hl1 Hin) as (l2 & ? & ? & _).
    by exists l2. }
  exists l1. split_and!; [done|done|]. intros s Hs Hb Hv.
  destruct (selected_here _ l s ltac:(done) Hs Hb Hv) as (i & s1 & Hin & Hn & Hf).
  destruct (Hall _ Hin) as (l3 & l4 & H3 & H4 & H5).
  destruct (unique_together_step l3 i s1 H3 Hin) as (l5 & E5 & _ & Hu & Hr).
  cbn [fst snd] in H4. rewrite E5 in H4. injection H4 as ->. rewrite Hn, Hf in *.
  split; [by eapply grows_has|]. intros a k Ha Hk Hk'. eapply grows_has; [done|]. by apply Hr.
Qed.

(** ** Unique for a date *)

Definition unique_for_step (name : option string) (l : list input_field) (v : validator)
    : res (list input_field) :=
  match va_kind v with
  | BaseUniqueForValidator field date_field =>
      l ← add_error_code name date_field "required" l;
      l ← add_error_code name field "required" l;
      add_error_code name field "unique" l
  | _ => Ok l
  end.
Lemma unique_for_step_run a v l1 : grows l l1 →
  ∃ l2, unique_for_step (Some a) l1 v = Ok l2 ∧ grows l1 l2 ∧
    ∀ field date, va_kind v = BaseUniqueForValidator field date →
      (Some (sibling a date) ∈ if_name <$> l → has_code (Some (sibling a date)) "required" l2) ∧
      (Some (sibling a field) ∈ if_name <$> l → has_code (Some (sibling a field)) "required" l2 ∧
        has_code (Some (sibling a field)) "unique" l2).
Proof.
  intros Hg. unfold unique_for_step. destruct (va_kind v) as [| | |field date| | | |];
    try (exists l1; split_and!; [done|done|discriminate]).
  destruct (add_error_code_runs a date "required" l1 Hg) as (l2 & E2 & H2 & R2).
  assert (grows l l2) as G2 by (by etransitivity).
  destruct (add_error_code_runs a field "required" l2 G2) as (l3 & E3 & H3 & R3).
  assert (grows l l3) as G3 by (by etransitivity).
  destruct (add_error_code_runs a field "unique" l3 G3) as (l4 & E4 & H4 & R4).
  exists l4. rewrite E2. cbn [mbind res_bind]. rewrite E3. cbn [mbind res_bind].
  split_and!; [done|by do 2 (etransitivity; [done|])|]. intros f' d' [= <- <-]. split.
  - intros Hin. apply (grows_has l2); [by etransitivity|]. by apply R2.
  - intros Hin. split; [|by apply R4]. apply (grows_has l3); [done|]. by apply R3.
Qed.
Lemma unique_for_run l1 : grows l l1 → ∃ l2,
  add_unique_for_error_codes (with_validators is_unique_for l1) l1 = Ok l2 ∧ grows l1 l2 ∧
  ∀ s a v field date, s ∈ l → is_basic_serializer (if_field s) = true → if_name s = Some a →
    v ∈ fa_validators (attrs_of (if_field s)) → va_kind v = BaseUniqueForValidator field date →
    (Some (sibling a date) ∈ if_name <$> l → has_code (Some (sibling a date)) "required" l2) ∧
    (Some (sibling a field) ∈ if_name <$> l → has_code (Some (sibling a field)) "required" l2 ∧
      has_code (Some (sibling a field)) "unique" l2).
Proof using Hnames.
  intros Hg. unfold add_unique_for_error_codes.
  assert (∀ i s l3, (i, s) ∈ with_validators is_unique_for l1 → grows l l3 → ∃ a,
    if_name s = Some a ∧ ∃ l4,
    fold_res (unique_for_step (if_name s)) (fa_validators (attrs_of (if_field s))) l3 = Ok l4 ∧
    grows l3 l4 ∧ ∀ v, v ∈ fa_validators (attrs_of (if_field s)) →
      ∃ l5 l6, grows l l5 ∧ unique_for_step (Some a) l5 v = Ok l6 ∧ grows l6 l4) as Hstep.
  { intros i s l3 Hin Hl3. destruct (selected_name _ l1 i s Hg Hin) as (a & _ & Ha & _).
    exists a. split; [done|]. rewrite Ha.
    destruct (fold_grows (unique_for_step (Some a)) (fa_validators (attrs_of (if_field s))) l3)
      as (l4 & Hrun & Hg4 & Hall).
    { intros v l5 _ H5. destruct (unique_for_step_run a v l5) as (l6 & ? & ? & _);
        [by etransitivity|by exists l6]. }
    exists l4. split_and!; [done..|]. intros v Hv. destruct (Hall v Hv) as (l5 & l6 & ? & ? & ?).
    exists l5, l6. split_and!; [by etransitivity|done..]. }
  destruct (fold_grows (λ l s, fold_res (unique_for_step (if_name s.2)) (fa_validators (attrs_of (if_field s.2))) l)
    (with_validators is_unique_for l1) l1) as (l2 & Hrun & Hg2 & Hall).
  { intros [i s] l3 Hin H3. destruct (Hstep i s l3 Hin) as (_ & _ & l4 & ? & ? & _);
      [by etransitivity|by exists l4]. }
  exists l2. split_and!; [exact Hrun|done|]. intros s a v field date Hs Hb Ha Hv Hk.
  assert (has_validator (fa_validators (attrs_of (if_field s))) is_unique_for = true) as Hp.
  { apply existsb_exists. exists v. rewrite <- list_elem_of_In, Hk. done. }
  destruct (selected_here _ l1 s Hg Hs Hb Hp) as (i & s1 & Hin & Hn & Hf).
  destruct (Hall _ Hin) as (l3 & l4 & H3 & H4 & H5). cbn [fst snd] in H4.
  destruct (Hstep i s1 l3 Hin) as (a' & Ha' & l4' & E4 & _ & Hvs); [by etransitivity|].
  rewrite H4 in E4. injection E4 as <-. assert (a' = a) as -> by congruence.
  destruct (Hvs v) as (l5 & l6 & G5 & E6 & G6); [by rewrite Hf|].
  destruct (unique_for_step_run a v l5 G5) as (l7 & E7 & _ & Heff).
  rewrite E6 in E7. injection E7 as <-. destruct (Heff field date Hk) as [Hd Hfd].
  assert (grows l6 l2) as G by (by etransitivity).
  split; intros Hi; [|split]; (eapply grows_has; [exact G|]); [by apply Hd|by apply Hfd..].
Qed.

(** Both together *)
Lemma enrich : ∃ l',
  (l1 ← add_unique_together_error_codes (with_validators is_unique_together l) l;
   add_unique_for_error_codes (with_validators is_unique_for l1) l1) = Ok l' ∧ grows l l' ∧
  ∀ s, s ∈ l → is_basic_serializer (if_field s) = true →
    (has_validator (fa_validators (attrs_of (if_field s))) is_unique_together = true →
      has_code (if_name s) "unique" l') ∧
    ∀ a k c, if_name s = Some a → c ∈ sibling_codes (attrs_of (if_field s)) k →
      Some (sibling a k) ∈ if_name <$> l → has_code (Some (sibling a k)) c l'.
Proof using Hnames.
  destruct unique_together_run as (l1 & E1 & G1 & U1). destruct (unique_for_run l1 G1) as (l2 & E2 & G2 & U2).
  exists l2. rewrite E1. cbn [mbind res_bind]. split_and!; [done|by etransitivity|].
  intros s Hs Hb. split.
  - intros Hv. eapply grows_has; [done|]. by apply U1.
  - intros a k c Ha Hc Hin. apply list_elem_of_In, in_flat_map in Hc as (v & Hv & Hc).
    apply list_elem_of_In in Hv, Hc.
    destruct (va_kind v) as [| |fields|field date| | | |] eqn:Hk; try by apply not_elem_of_nil in Hc.
    + case_bool_decide as Hf; [|by apply not_elem_of_nil in Hc]. apply list_elem_of_singleton in Hc as ->.
      eapply grows_has; [done|]. destruct (U1 s Hs Hb) as [_ Hr].
      { apply existsb_exists. exists v. rewrite <- list_elem_of_In, Hk. done. }
      apply Hr; [done| |done]. unfold implicitly_required. apply elem_of_elements, elem_of_list_to_set.
      apply list_elem_of_In, in_flat_map. exists v. rewrite <- !list_elem_of_In, Hk. done.
    + destruct (U2 s a v field date Hs Hb Ha Hv Hk) as [Hd Hfd].
      apply elem_of_app in Hc as [Hc|Hc]; case_bool_decide as E; try (by apply not_elem_of_nil in Hc); subst k.
      * destruct (Hfd Hin). rewrite !elem_of_cons in Hc. destruct Hc as [->|[->|[]%not_elem_of_nil]]; done.
      * apply list_elem_of_singleton in Hc as ->. by apply Hd.
Qed.
End Enrich.

(** ** What a serializer raises *)

Section SfieldInd.
Context (P : sfield → Prop).
Context (Hlist : ∀ a c, P c → P (ListSerializer a c))
  (Hproxy : ∀ a l, Forall P l → P (PolymorphicProxySerializer a l))
  (Hser : ∀ a l, Forall P l → P (Serializer a l))
  (Hlf : ∀ a c, P c → P (ListField a c)) (Hdf : ∀ a c, P c → P (DictField a c))
  (Hplain : ∀ a, P (PlainField a)).
Fixpoint sfield_ind' (f : sfield) : P f :=
  let all := fix all l : Forall P l :=
    match l with
    | [] => Forall_nil_2 _
    | x :: l => Forall_cons_2 _ _ _ (sfield_ind' x) (all l)
    end in
  match f with
  | ListSerializer a c => Hlist a c (sfield_ind' c)
  | PolymorphicProxySerializer a l => Hproxy a l (all l)
  | Serializer a l => Hser a l (all l)
  | ListField a c => Hlf a c (sfield_ind' c)
  | DictField a c => Hdf a c (sfield_ind' c)
  | PlainField a => Hplain a
  end.
End SfieldInd.

(** A field of a serializer is bound to its name, the child of a list or a
    dictionary and the serializer of a request to none; a list serializer has a
    serializer for child; the proxy stands for the serializers of a request. *)
Definition named (f : sfield) : bool := is_some (truthy_str (field_name (attrs_of f))).
Definition is_plain_serializer (f : sfield) : bool := match f with Serializer _ _ => true | _ => false end.
Fixpoint well_bound (f : sfield) : bool :=
  match f with
  | PlainField _ => true
  | Serializer _ fs => forallb (λ f, named f && well_bound f) fs
  | ListSerializer _ c => is_plain_serializer c && negb (named c) && well_bound c
  | ListField _ c | DictField _ c => negb (named c) && well_bound c
  | PolymorphicProxySerializer _ _ => false
  end.
Definition is_request_serializer (f : sfield) : bool :=
  match f with
  | Serializer _ _ | ListSerializer _ _ => negb (named f) && well_bound f
  | PolymorphicProxySerializer _ fs =>
      forallb (λ f, match f with Serializer _ _ | ListSerializer _ _ => negb (named f) && well_bound f
                              | _ => false end) fs
  | _ => false
  end.

Section Raises.
Context (default_timezone : option string).
Abbreviation codes a p := (get_serializer_field_error_codes default_timezone a (attr_of p)).

Definition own_path (dp : list string) (a : field_attrs) : list string :=
  dp ++ match truthy_str (field_name a) with Some n => [n] | None => [] end.
(** A list of messages with codes of a kind *)
Definition messages_of (C : string → Prop) (d : detail) : Prop :=
  ∃ l, d = Items l ∧ ∀ x, x ∈ l → ∃ c t, x = ErrorDetail c t ∧ C c.
(** The codes a field raises: its own, those of the constraints [extra] of its
    serializer *)
Definition field_code (a : field_attrs) (p extra : list string) (c : string) : Prop :=
  c ∈ codes a p ∨ (codes a p ≠ ∅ ∧ c ∈ extra).
Definition serializer_code (a : field_attrs) (p : list string) (c : string) : Prop :=
  c ∈ codes a p ∨
  (codes a p ≠ ∅ ∧ has_validator (fa_validators a) is_unique_together = true ∧ c = "unique").
(** The constraints a serializer puts on its field [k] *)
Definition extra_codes (a : field_attrs) (p : list string) (k : string) : list string :=
  if decide (codes a p = ∅) then [] else sibling_codes a k.
Definition some_of {A} (P : A → Prop) (l : list A) : Prop := foldr (λ x Q, P x ∨ Q) False l.

(** The errors the framework raises when it validates a request: for a
    serializer the errors of its fields by name, and its own under
    "non_field_errors"; for a list serializer those of each item, in order, or
    its own; for a list or dictionary field its messages, or the errors of its
    items by position or key; for any other field its messages.  [dp] is the
    documented path of the parent. *)
Fixpoint raises (f : sfield) (dp extra : list string) (d : detail) : Prop :=
  match f with
  | PlainField a => messages_of (field_code a (own_path dp a) extra) d
  | ListField a child =>
      messages_of (field_code a (own_path dp a) extra) d ∨
      ∃ items, d = Fields items ∧ ∀ kv, kv ∈ items → (∃ i, 0 ≤ i ∧ kv.1 = str_of_Z i) ∧
        raises child (own_path dp a ++ [list_index_in_api_schema]) [] kv.2
  | DictField a child =>
      messages_of (field_code a (own_path dp a) extra) d ∨
      ∃ items, d = Fields items ∧ ∀ kv, kv ∈ items → kv.1 ≠ "" ∧
        raises child (own_path dp a ++ [dict_key_in_api_schema]) [] kv.2
  | Serializer a fs =>
      ∃ items, d = Fields items ∧ ∀ kv, kv ∈ items →
        (kv.1 = non_field_errors_key ∧
         messages_of (serializer_code a (own_path dp a ++ [non_field_errors_key])) kv.2) ∨
        some_of (λ f, truthy_str (field_name (attrs_of f)) = Some kv.1 ∧
          raises f (own_path dp a)
            (extra_codes a (own_path dp a ++ [non_field_errors_key]) kv.1) kv.2) fs
  | ListSerializer a child =>
      (∃ v, d = Fields [(non_field_errors_key, v)] ∧
         messages_of (λ c, c ∈ codes a (own_path dp a ++ [non_field_errors_key])) v) ∨
      ∃ items, d = Items items ∧ ∀ x, x ∈ items → (∃ l, x = Fields l) ∧
        raises child (own_path dp a ++ [list_index_in_api_schema]) [] x
  | PolymorphicProxySerializer a fs => some_of (λ f, raises f dp extra d) fs
  end.

Lemma some_of_spec {A} (P : A → Prop) l : some_of P l ↔ ∃ x, x ∈ l ∧ P x.
Proof.
  unfold some_of. induction l as [|x l IH]; simpl.
  - split; [done|]. by intros (x & ?%not_elem_of_nil & _).
  - rewrite IH. setoid_rewrite elem_of_cons. naive_solver.
Qed.
Lemma truthy_ne o n : truthy_str o = Some n → n ≠ "" ∧ o = Some n.
Proof. unfold truthy_str. destruct o as [s|]; [|done]. destruct (String.eqb_spec s ""); naive_solver. Qed.

(** Such errors are what [flatten_errors] expects of serializers. *)
Lemma messages_detail C d : messages_of C d → serializer_detail d = true.
Proof.
  intros (l & -> & Hl). simpl. apply forallb_forall. intros x Hx%list_elem_of_In.
  destruct (Hl x Hx) as (c & t & -> & _). done.
Qed.
Lemma fields_detail items : (∀ kv : string * detail, kv ∈ items → kv.1 ≠ "" ∧ serializer_detail kv.2 = true) →
  serializer_detail (Fields items) = true.
Proof.
  intros Hi. simpl. apply forallb_forall. intros kv Hkv%list_elem_of_In.
  destruct (Hi kv Hkv) as [Hk ->]. by rewrite (proj2 (String.eqb_neq _ _) Hk).
Qed.
Lemma raises_detail f : ∀ dp extra d, raises f dp extra d → serializer_detail d = true.
Proof.
  induction f as [a c IH|a l IH|a l IH|a c IH|a c IH|a] using sfield_ind'; intros dp extra d; simpl.
  - intros [(v & -> & Hv)|(items & -> & Hi)].
    + apply fields_detail. intros kv ->%list_elem_of_singleton. split; [done|]. by eapply messages_detail.
    + simpl. apply forallb_forall. intros x Hx%list_elem_of_In.
      destruct (Hi x Hx) as [[l ->] Hr]. by eapply IH.
  - rewrite some_of_spec. intros (f & Hf & Hr). rewrite Forall_forall in IH. by eapply IH.
  - intros (items & -> & Hi). apply fields_detail. intros kv Hkv.
    destruct (Hi kv Hkv) as [[-> Hm]|Hs]; [split; [done|by eapply messages_detail]|].
    apply some_of_spec in Hs as (f & Hf & Hn & Hr). apply truthy_ne in Hn as [? _].
    split; [done|]. rewrite Forall_forall in IH. by eapply IH.
  - intros [Hm|(items & -> & Hi)]; [by eapply messages_detail|]. apply fields_detail. intros kv Hkv.
    destruct (Hi kv Hkv) as [(i & _ & ->) Hr]. split; [apply str_of_Z_nonempty|by eapply IH].
  - intros [Hm|(items & -> & Hi)]; [by eapply messages_detail|]. apply fields_detail. intros kv Hkv.
    destruct (Hi kv Hkv) as [Hk Hr]. split; [done|by eapply IH].
  - apply messages_detail.
Qed.

(** ** Where the errors are documented *)

(** A step of a path and its documentation: a name is itself, a position is
    "INDEX", any key of a dictionary is "KEY". *)
Definition step_documented (c s : string) : Prop :=
  s = c ∨ (s = list_index_in_api_schema ∧ ∃ i, 0 ≤ i ∧ c = str_of_Z i) ∨ s = dict_key_in_api_schema.
Abbreviation documented := (Forall2 step_documented).
Definition own_codes (s : input_field) : gset string :=
  get_serializer_field_error_codes default_timezone (attrs_of (if_field s)) (if_name s).
(** The code [c] of the field [s] among the fields [F]: its own, "unique" for
    fields together, or one a serializer among them gives its field *)
Definition justified (F : list input_field) (s : input_field) (c : string) : Prop :=
  c ∈ own_codes s ∨
  (own_codes s ≠ ∅ ∧ ∃ u, u ∈ F ∧ is_basic_serializer (if_field u) = true ∧ own_codes u ≠ ∅ ∧
    ((if_name u = if_name s ∧ c = "unique" ∧
      has_validator (fa_validators (attrs_of (if_field u))) is_unique_together = true) ∨
     ∃ a k, if_name u = Some a ∧ if_name s = Some (sibling a k) ∧
            c ∈ sibling_codes (attrs_of (if_field u)) k)).
Lemma justified_mono F F' s c : F ⊆ F' → justified F s c → justified F' s c.
Proof. unfold justified. set_solver. Qed.

(** *** Paths *)

Lemma truthy_attr p : good_path p → truthy_str (attr_of p) = attr_of p.
Proof.
  destruct p as [|x p]; [done|]. intros Hx. unfold attr_of, truthy_str.
  rewrite (proj2 (String.eqb_neq _ _)); [done|]. destruct x; [done|]. by destruct p.
Qed.
Lemma get_prefix_snoc prefix dp k : truthy_str prefix = attr_of dp → good_path dp → k ≠ "" →
  get_prefix prefix (Some k) = attr_of (dp ++ [k]).
Proof.
  intros Hp Hg Hk. unfold get_prefix. rewrite Hp.
  assert (truthy_str (Some k) = Some k) as ->.
  { unfold truthy_str. by rewrite (proj2 (String.eqb_neq _ _)). }
  rewrite <- nested_attr by done. unfold nested. rewrite truthy_attr by done.
  by destruct (attr_of dp).
Qed.
Lemma own_path_good dp a : good_path dp → good_path (own_path dp a).
Proof.
  intros Hg. unfold own_path. destruct (truthy_str _) as [n|] eqn:E; [|by rewrite app_nil_r].
  apply truthy_ne in E as [? _]. by apply good_path_snoc.
Qed.
Lemma get_prefix_own prefix dp a : truthy_str prefix = attr_of dp → good_path dp →
  truthy_str (get_prefix prefix (field_name a)) = attr_of (own_path dp a) ∧
  (own_path dp a ≠ [] → get_prefix prefix (field_name a) = attr_of (own_path dp a)).
Proof.
  intros Hp Hg. unfold own_path. destruct (truthy_str (field_name a)) as [n|] eqn:E.
  - apply truthy_ne in E as [Hn ->]. rewrite (get_prefix_snoc _ dp) by done.
    split; [|done]. apply truthy_attr. by apply good_path_snoc.
  - rewrite app_nil_r. unfold get_prefix. rewrite Hp, E. destruct dp as [|x dp]; [done|].
    simpl. split; [|done]. exact (truthy_attr (x :: dp) Hg).
Qed.
(** The field next to a serializer's own errors *)
Lemma sibling_attr p k : good_path p →
  ∃ a, attr_of (p ++ [non_field_errors_key]) = Some a ∧ attr_of (p ++ [k]) = Some (sibling a k).
Proof.
  intros Hg. destruct p as [|x p]; [by eexists|]. eexists. split; [reflexivity|].
  unfold attr_of. change ((x :: p) ++ [k]) with ((x :: p) ++ [k]). unfold sibling.
  set (q := x :: p) in *. assert (q ≠ []) as Hq by done.
  assert (join nested_field_separator (q ++ [non_field_errors_key])
    = join nested_field_separator q +:+ nested_field_separator +:+ non_field_errors_key) as -> by (by apply join_snoc).
  assert (split c_dot (join nested_field_separator q +:+ nested_field_separator +:+ non_field_errors_key)
    = split c_dot (join nested_field_separator q) ++ [non_field_errors_key]) as ->.
  { by apply split_snoc_sep. }
  rewrite removelast_last, (join_snoc (split _ _)) by apply split_nonempty.
  rewrite (join_snoc q) by done. by rewrite (join_split c_dot).
Qed.

(** *** The messages of a detail *)

Lemma leaves_messages C d path q : messages_of C d → q ∈ leaves path d →
  ∃ c t, q = (path, c, t) ∧ C c.
Proof.
  intros (l & -> & Hl). simpl. generalize 0. revert Hl.
  induction l as [|x l IH]; intros Hl n; simpl; [by intros ?%not_elem_of_nil|].
  destruct (Hl x) as (c & t & -> & Hc); [by left|]. simpl.
  assert (∀ y, y ∈ l → ∃ c t, y = ErrorDetail c t ∧ C c) as Hl' by (intros y Hy; apply Hl; by right).
  destruct (String.eqb t ""); simpl; [by apply IH|].
  intros [->|Hq]%elem_of_cons; [by exists c, t|by eapply IH].
Qed.
Lemma leaves_items l path q : (∀ x, x ∈ l → ∃ d, x = Fields d) → q ∈ leaves path (Items l) →
  ∃ x i, x ∈ l ∧ 0 ≤ i ∧ q ∈ leaves (path ++ [str_of_Z i]) x.
Proof.
  simpl. assert (0 ≤ 0) as H0 by lia. revert H0. generalize 0 at 2 3. intros n Hn Hl.
  revert n Hn. induction l as [|x l IH]; intros n Hn; [by intros ?%not_elem_of_nil|].
  destruct (Hl x) as [d ->]; [by left|]. cbn [is_error_detail].
  intros [Hq|Hq]%elem_of_app; [exists (Fields d), n; split_and!; [by left|done..]|].
  assert (∀ y, y ∈ l → ∃ d, y = Fields d) as Hl' by (intros y Hy; apply Hl; by right).
  destruct (IH Hl' (n + 1)) as (y & i & ? & ? & ?); [lia|done|].
  exists y, i. split_and!; [by right|done..].
Qed.
Lemma leaves_fields items path q : q ∈ leaves path (Fields items) →
  ∃ kv, kv ∈ items ∧ q ∈ leaves (path ++ [kv.1]) kv.2.
Proof.
  simpl. intros (kv & Hk & Hq)%list_elem_of_In%in_flat_map.
  exists kv. by rewrite !list_elem_of_In.
Qed.

(** *** Every message has its field *)

(** A message with the path [p] and the code [c] is documented among [F], or
    has a code of the constraints [extra] at the path [op]. *)
Definition found (F : list input_field) (op extra p : list string) (c : string) : Prop :=
  ∃ s p2, s ∈ F ∧ if_name s = attr_of p2 ∧ p2 ≠ [] ∧ documented p p2 ∧
    (justified F s c ∨ (own_codes s ≠ ∅ ∧ c ∈ extra ∧ p2 = op)).
Lemma found_in F F' op op' extra p c : F ⊆ F' → found F op [] p c → found F' op' extra p c.
Proof.
  intros HF (s & p2 & Hs & Hn & Hne & Hd & Hj). exists s, p2. split_and!; [by apply HF|done..|].
  destruct Hj as [Hj|(_ & Hc & _)]; [left; by eapply justified_mono|by apply not_elem_of_nil in Hc].
Qed.
Lemma documented_snoc p p2 c k : documented p p2 → step_documented c k → documented (p ++ [c]) (p2 ++ [k]).
Proof. intros Hd Hs. apply Forall2_app; [done|]. constructor; [done|constructor]. Qed.
Lemma snoc_not_nil {A} (l : list A) x : l ++ [x] ≠ [].
Proof. by destruct l. Qed.
(** The messages of the field at the path [op] itself *)
Lemma found_here F a s op extra path d q : messages_of (field_code a op extra) d →
  s ∈ F → if_name s = attr_of op → attrs_of (if_field s) = a → op ≠ [] → documented path op →
  q ∈ leaves path d → found F op extra q.1.1 q.1.2.
Proof.
  intros Hm Hs Hn Ha Hne Hd Hq. destruct (leaves_messages _ _ _ _ Hm Hq) as (c & t & -> & Hc).
  exists s, op. split_and!; [done..|]. simpl. destruct Hc as [Hc|[Hne' Hc]].
  - left. left. unfold own_codes. by rewrite Hn, Ha.
  - right. split_and!; [|done..]. unfold own_codes. by rewrite Hn, Ha.
Qed.
Lemma own_path_unnamed p f : named f = false → own_path p (attrs_of f) = p.
Proof. unfold named, own_path. destruct (truthy_str _); [done|]. by rewrite app_nil_r. Qed.
Lemma own_path_named p f k : truthy_str (field_name (attrs_of f)) = Some k →
  own_path p (attrs_of f) = p ++ [k].
Proof. unfold own_path. by intros ->. Qed.

(** What the induction shows of a field *)
Definition covered (f : sfield) : Prop := ∀ dp extra d prefix path,
  well_bound f = true → truthy_str prefix = attr_of dp → good_path dp → good_path path →
  documented path (own_path dp (attrs_of f)) →
  is_plain_serializer f = true ∨ own_path dp (attrs_of f) ≠ [] ∨ (∃ a c, f = ListSerializer a c) →
  raises f dp extra d → ∀ q, q ∈ leaves path d →
  found (get_flat_serializer_fields f prefix) (own_path dp (attrs_of f)) extra q.1.1 q.1.2.

(** The child of a list or of a dictionary *)
Lemma covered_child f op prefix path c k d : covered f → named f = false → well_bound f = true →
  truthy_str prefix = attr_of op → good_path op → good_path path → documented path op →
  c ≠ "" → k ≠ "" → step_documented c k → raises f (op ++ [k]) [] d →
  ∀ q, q ∈ leaves (path ++ [c]) d →
  found (get_flat_serializer_fields f (get_prefix prefix (Some k))) (op ++ [k]) [] q.1.1 q.1.2.
Proof.
  intros Hf Hn Hw Hp Hg Hgp Hd Hc Hk Hs Hr q Hq.
  assert (own_path (op ++ [k]) (attrs_of f) = op ++ [k]) as E by by apply own_path_unnamed.
  rewrite <- E. apply (Hf (op ++ [k]) [] d _ (path ++ [c])); try done.
  - rewrite (get_prefix_snoc _ op) by done. apply truthy_attr. by apply good_path_snoc.
  - by apply good_path_snoc.
  - by apply good_path_snoc.
  - rewrite E. by apply documented_snoc.
  - right. left. rewrite E. apply snoc_not_nil.
Qed.

(** A serializer: its own errors, then those of its fields *)
Lemma covered_serializer a fs : Forall covered fs → covered (Serializer a fs).
Proof.
  intros IH dp extra d prefix path Hw Hp Hg Hgp Hd _ (items & -> & Hi) q Hq.
  simpl in Hw, Hd |- *. destruct (get_prefix_own prefix dp a Hp Hg) as [Hp' _].
  pose proof (own_path_good dp a Hg) as Hg'. set (op := own_path dp a) in *.
  set (prefix' := get_prefix prefix (field_name a)) in *.
  pose proof (get_prefix_snoc prefix' op non_field_errors_key Hp' Hg' ltac:(done)) as Hname.
  set (u := InputDataField (get_prefix prefix' (Some non_field_errors_key)) (Serializer a fs) ∅).
  set (F := u :: _). assert (u ∈ F) as Hu by left.
  assert (own_codes u = get_serializer_field_error_codes default_timezone a (attr_of (op ++ [non_field_errors_key])))
    as Hown by (unfold own_codes; simpl; by rewrite Hname).
  destruct (leaves_fields _ _ _ Hq) as (kv & Hkv & Hq'). destruct (Hi kv Hkv) as [[Ek Hm]|Hs].
  - rewrite Ek in Hq'. destruct (leaves_messages _ _ _ _ Hm Hq') as (c & t & -> & Hc).
    exists u, (op ++ [non_field_errors_key]). split_and!; [done|done|apply snoc_not_nil| |].
    { apply documented_snoc; [done|by left]. }
    left. simpl. destruct Hc as [Hc|(Hne & Hv & ->)]; [left; by rewrite Hown|].
    right. rewrite Hown. split; [done|]. exists u. rewrite Hown. split_and!; [done..|]. by left.
  - apply some_of_spec in Hs as (f & Hf & Hk & Hr).
    rewrite Forall_forall in IH. rewrite forallb_forall in Hw.
    pose proof Hf as Hf'%list_elem_of_In. apply Hw, andb_true_iff in Hf' as [_ Hwf].
    pose proof (truthy_ne _ _ Hk) as [Hkne _]. pose proof (own_path_named op f _ Hk) as Eop.
    assert (get_flat_serializer_fields f prefix' ⊆ F) as HF.
    { intros s Hs. right. apply list_elem_of_In, in_flat_map. exists f. by rewrite <- !list_elem_of_In. }
    assert (documented (path ++ [kv.1]) (own_path op (attrs_of f))) as Hdoc'
      by (rewrite Eop; apply documented_snoc; [done|by left]).
    assert (own_path op (attrs_of f) ≠ []) as Hnil by (rewrite Eop; apply snoc_not_nil).
    destruct (IH f Hf op _ kv.2 prefix' (path ++ [kv.1]) Hwf Hp' Hg' ltac:(by apply good_path_snoc)
      Hdoc' (or_intror (or_introl Hnil)) Hr q Hq') as (s & p2 & Hs & Hn & Hne & Hdoc & Hj).
    exists s, p2. split_and!; [by apply HF|done..|].
    destruct Hj as [Hj|(Hown' & Hc & ->)]; [left; by eapply justified_mono|].
    left. right. split; [done|]. exists u. unfold extra_codes in Hc.
    case_decide as E; [by apply not_elem_of_nil in Hc|]. rewrite Hown. split_and!; [done..|].
    right. destruct (sibling_attr op kv.1 Hg') as (a' & E1 & E2). exists a', kv.1.
    rewrite Eop in Hn. simpl. by rewrite Hname, Hn.
Qed.

Lemma all_covered f : covered f.
Proof.
  induction f as [a c IH|a l IH|a l IH|a c IH|a c IH|a] using sfield_ind'; [| |by apply covered_serializer|..];
    intros dp extra d prefix path Hw Hp Hg Hgp Hd Htop Hr q Hq; simpl in Hw, Hd, Htop |- *; try done;
    destruct (get_prefix_own prefix dp a Hp Hg) as [Hp' Hne'];
    pose proof (own_path_good dp a Hg) as Hg'; set (op := own_path dp a) in *;
    set (prefix' := get_prefix prefix (field_name a)) in *.
  - apply andb_true_iff in Hw as [Hw Hwc]. apply andb_true_iff in Hw as [_ Hn%negb_true_iff].
    pose proof (get_prefix_snoc prefix' op non_field_errors_key Hp' Hg' ltac:(done)) as Hname.
    destruct Hr as [(v & -> & Hm)|(items & -> & Hi)].
    + destruct (leaves_fields _ _ _ Hq) as (kv & ->%list_elem_of_singleton & Hq').
      destruct (leaves_messages _ _ _ _ Hm Hq') as (c' & t & -> & Hc).
      eexists _, (op ++ [non_field_errors_key]).
      split_and!; [by left|exact Hname|apply snoc_not_nil|apply documented_snoc; [done|by left]|].
      left. left. unfold own_codes. simpl. by rewrite Hname.
    + destruct (leaves_items items path q) as (x & i & Hx & Hi' & Hq'); [|done|].
      { intros x Hx. by destruct (Hi x Hx). }
      destruct (Hi x Hx) as [_ Hr].
      eapply found_in; [|by eapply (covered_child c op prefix' path (str_of_Z i) list_index_in_api_schema);
          [..|apply str_of_Z_nonempty|discriminate|right; left; split; [|exists i]| |]].
      intros s Hs. by right.
  - apply andb_true_iff in Hw as [Hn%negb_true_iff Hwc]. destruct Htop as [|[Hne|(? & ? & ?)]]; [done| |done].
    destruct Hr as [Hm|(items & -> & Hi)].
    + eapply (found_here _ a); [done|by left|by apply Hne'|done..].
    + destruct (leaves_fields _ _ _ Hq) as (kv & Hkv & Hq'). destruct (Hi kv Hkv) as [(i & Hi' & Ek) Hr].
      rewrite Ek in Hq'.
      eapply found_in; [|by eapply (covered_child c op prefix' path (str_of_Z i) list_index_in_api_schema);
          [..|apply str_of_Z_nonempty|discriminate|right; left; split; [|exists i]| |]].
      intros s Hs. by right.
  - apply andb_true_iff in Hw as [Hn%negb_true_iff Hwc]. destruct Htop as [|[Hne|(? & ? & ?)]]; [done| |done].
    destruct Hr as [Hm|(items & -> & Hi)].
    + eapply (found_here _ a); [done|by left|by apply Hne'|done..].
    + destruct (leaves_fields _ _ _ Hq) as (kv & Hkv & Hq'). destruct (Hi kv Hkv) as [Hk Hr].
      eapply found_in; [|by eapply (covered_child c op prefix' path kv.1 dict_key_in_api_schema); [..|discriminate|right; right| |]].
      intros s Hs. by right.
  - destruct Htop as [|[Hne|(? & ? & ?)]]; [done| |done].
    eapply (found_here _ a); [done|by left|by apply Hne'|done..].
Qed.
End Raises.

(** ** The fields of a request have names *)

Lemma get_prefix_truthy prefix n : is_Some (truthy_str prefix) ∨ is_Some (truthy_str n) →
  is_Some (truthy_str (get_prefix prefix n)).
Proof.
  unfold get_prefix. destruct (truthy_str prefix) as [p|] eqn:Ep; intros Hs.
  - apply truthy_ne in Ep as [Hp _]. destruct p; [done|]. by destruct (truthy_str n); eexists.
  - by destruct Hs as [[? ?]|Hs].
Qed.
Lemma truthy_some o : is_Some (truthy_str o) → is_Some o.
Proof. intros [n [_ ->]%truthy_ne]. by eexists. Qed.
Lemma flat_named f : ∀ prefix, well_bound f = true →
  (is_plain_serializer f = true ∨ (∃ a c, f = ListSerializer a c) ∨
   is_Some (truthy_str prefix) ∨ named f = true) →
  ∀ s, s ∈ get_flat_serializer_fields f prefix → is_Some (if_name s).
Proof.
  assert (∀ p k, k ≠ "" → is_Some (truthy_str (get_prefix p (Some k)))) as Hkey.
  { intros p k Hk. apply get_prefix_truthy. right. unfold truthy_str.
    rewrite (proj2 (String.eqb_neq _ _)) by done. by eexists. }
  assert (∀ f, named f = true → is_Some (truthy_str (field_name (attrs_of f)))) as Hnamed.
  { intros g. unfold named. destruct (truthy_str _); [by eexists|done]. }
  induction f as [a c IH|a l IH|a l IH|a c IH|a c IH|a] using sfield_ind'; intros prefix Hw Hn s; simpl in *.
  - apply andb_true_iff in Hw as [Hw Hwc].
    intros [->|Hs]%elem_of_cons; [by apply truthy_some, Hkey|]. eapply IH; [done| |done].
    right. right. left. by apply Hkey.
  - done.
  - intros [->|Hs]%elem_of_cons; [by apply truthy_some, Hkey|].
    apply list_elem_of_In, in_flat_map in Hs as (f & Hf & Hs). apply list_elem_of_In in Hs.
    rewrite forallb_forall in Hw. pose proof (Hw f Hf) as [Hnf Hwf]%andb_true_iff.
    rewrite Forall_forall in IH. eapply IH; [by apply list_elem_of_In|done| |done]. tauto.
  - destruct Hn as [|[(? & ? & ?)|Hn]]; [done..|].
    assert (is_Some (truthy_str (get_prefix prefix (field_name a)))) as Hp.
    { apply get_prefix_truthy. destruct Hn as [|Hn]; [by left|right]. exact (Hnamed (ListField a c) Hn). }
    apply andb_true_iff in Hw as [_ Hw].
    intros [->|Hs]%elem_of_cons; [by apply truthy_some|]. eapply IH; [done| |done].
    right. right. left. by apply Hkey.
  - destruct Hn as [|[(? & ? & ?)|Hn]]; [done..|].
    assert (is_Some (truthy_str (get_prefix prefix (field_name a)))) as Hp.
    { apply get_prefix_truthy. destruct Hn as [|Hn]; [by left|right]. exact (Hnamed (DictField a c) Hn). }
    apply andb_true_iff in Hw as [_ Hw].
    intros [->|Hs]%elem_of_cons; [by apply truthy_some|]. eapply IH; [done| |done].
    right. right. left. by apply Hkey.
  - destruct Hn as [|[(? & ? & ?)|Hn]]; [done..|]. intros ->%list_elem_of_singleton.
    apply truthy_some, get_prefix_truthy. destruct Hn as [|Hn]; [by left|right].
    exact (Hnamed (PlainField a) Hn).
Qed.
Lemma request_named f : is_request_serializer f = true →
  ∀ s, s ∈ get_flat_serializer_fields f None → is_Some (if_name s).
Proof.
  assert (∀ f, match f with Serializer _ _ | ListSerializer _ _ => negb (named f) && well_bound f
                          | _ => false end = true →
    ∀ s, s ∈ get_flat_serializer_fields f None → is_Some (if_name s)) as Hone.
  { intros g Hg. assert (well_bound g = true) by (destruct g; try done; by apply andb_true_iff in Hg as [_ ?]).
    intros s. apply flat_named; [done|]. destruct g; try done; [right; left; eauto|by left]. }
  destruct f as [|a fs| | | |]; intros Hf; [by apply Hone| |by apply Hone|done..].
  intros s Hs. apply list_elem_of_In, in_flat_map in Hs as (g & Hg & Hs).
  apply (Hone g); [|by apply list_elem_of_In]. exact (proj1 (forallb_forall _ _) Hf g Hg).
Qed.

Section Document.
Context (camelize : string → string) (default_timezone : option string).

(** The fields with codes, and their codes *)
Lemma with_own_codes_in F s : s ∈ F → own_codes default_timezone s ≠ ∅ →
  InputDataField (if_name s) (if_field s) (own_codes default_timezone s) ∈ with_own_codes default_timezone F.
Proof.
  intros Hs Hne. apply list_elem_of_omap. exists s. split; [done|].
  unfold own_codes in *. cbn zeta. by rewrite decide_False.
Qed.
Lemma with_own_codes_out F s : s ∈ with_own_codes default_timezone F →
  ∃ s0, s0 ∈ F ∧ if_name s = if_name s0.
Proof.
  intros (s0 & Hs0 & E)%list_elem_of_omap. exists s0. split; [done|].
  cbn zeta in E. destruct (decide _); [done|]. by injection E as <-.
Qed.
(** The fields with error codes of a request, and what they document *)
Lemma fields_with_codes F : (∀ s, s ∈ F → is_Some (if_name s)) →
  ∃ l, get_serializer_fields_with_error_codes default_timezone F = Ok l ∧
    Forall (λ s, is_Some (if_name s)) l ∧
    ∀ s c, s ∈ F → justified default_timezone F s c → has_code (if_name s) c l.
Proof.
  intros HF. set (L := with_own_codes default_timezone F).
  assert (∀ s, s ∈ L → is_Some (if_name s)) as HL.
  { intros s (s0 & Hs0 & ->)%with_own_codes_out. by apply HF. }
  destruct (enrich L) as (l & Hl & Hg & Hu); [by intros s Hs _; apply HL|].
  exists l. split; [exact Hl|]. split.
  - apply Forall_forall. intros s Hs. apply (list_elem_of_fmap_2 if_name) in Hs.
    rewrite (grows_names _ _ Hg) in Hs. apply list_elem_of_fmap in Hs as (s0 & -> & Hs0). by apply HL.
  - intros s c Hs Hj.
    assert (own_codes default_timezone s ≠ ∅) as Hne by (destruct Hj as [Hj|[Hj _]]; [set_solver|done]).
    pose proof (with_own_codes_in F s Hs Hne) as Hin. fold L in Hin.
    destruct Hj as [Hc|(_ & u & HuF & Hb & Hune & Hcase)].
    + eapply grows_has; [exact Hg|]. eexists. split; [exact Hin|done].
    + pose proof (with_own_codes_in F u HuF Hune) as Huin. fold L in Huin.
      destruct (Hu _ Huin Hb) as [Hunique Hsib]. simpl in Hunique, Hsib.
      destruct Hcase as [(En & -> & Hv)|(a & k & Ea & En & Hc)]; [rewrite <- En; by apply Hunique|].
      rewrite En. apply (Hsib a k c Ea Hc). rewrite <- En. by apply (list_elem_of_fmap_2 if_name) in Hin.
Qed.

(** Every message of a request's errors is documented by a field. *)
Lemma request_found f d : is_request_serializer f = true → raises default_timezone f [] [] d →
  ∀ q, q ∈ leaves [] d → ∃ s p, s ∈ get_flat_serializer_fields f None ∧ if_name s = attr_of p ∧
    Forall2 step_documented q.1.1 p ∧ justified default_timezone (get_flat_serializer_fields f None) s q.1.2.
Proof.
  assert (∀ f, match f with Serializer _ _ | ListSerializer _ _ => negb (named f) && well_bound f
                          | _ => false end = true → raises default_timezone f [] [] d →
    ∀ q, q ∈ leaves [] d → ∃ s p, s ∈ get_flat_serializer_fields f None ∧ if_name s = attr_of p ∧
      Forall2 step_documented q.1.1 p ∧
      justified default_timezone (get_flat_serializer_fields f None) s q.1.2) as Hone.
  { intros g Hg Hr q Hq.
    assert (well_bound g = true ∧ named g = false ∧
      (is_plain_serializer g = true ∨ ∃ a c, g = ListSerializer a c)) as (Hw & Hn & Hser).
    { destruct g; try done; apply andb_true_iff in Hg as [Hn%negb_true_iff ?];
        (split_and!; [done..|]); [right; eauto|by left]. }
    destruct (all_covered default_timezone g [] [] d None [] Hw eq_refl I I) with (q := q)
      as (s & p & Hs & Hsn & Hne & Hdoc & Hj); [by rewrite own_path_unnamed|tauto|done..|].
    exists s, p. split_and!; [done..|]. destruct Hj as [|(_ & []%not_elem_of_nil & _)]; done. }
  destruct f as [|a fs| | | |]; intros Hf Hr q Hq; [by apply Hone| |by apply Hone|done..].
  apply some_of_spec in Hr as (g & Hg & Hr). rewrite list_elem_of_In in Hg.
  destruct (Hone g (proj1 (forallb_forall _ _) Hf g Hg) Hr q Hq) as (s & p & Hs & Hn & Hdoc & Hj).
  assert (get_flat_serializer_fields g None ⊆ get_flat_serializer_fields (PolymorphicProxySerializer a fs) None)
    as Hsub.
  { intros x Hx. apply list_elem_of_In, in_flat_map. exists g. by rewrite <- !list_elem_of_In in *. }
  exists s, p. split_and!; [by apply Hsub|done..|]. by eapply justified_mono.
Qed.

(** The validation errors of an operation always have a schema. *)
Lemma validation_schema view : (∀ f, vw_request_serializer view = Some f → is_request_serializer f = true) →
  ∃ v, get_serializer_for_validation_error_response camelize default_timezone view = Ok v ∧
    ∀ f s c, unsafe_method view = true → vw_request_serializer view = Some f →
      s ∈ get_flat_serializer_fields f None →
      justified default_timezone (get_flat_serializer_fields f None) s c →
      ∃ n cm, if_name s = Some n ∧ (n, cm) ∈ vc_errors v ∧ cm_attr cm = n ∧ c ∈ cm_codes cm.
Proof.
  intros Hreq. unfold get_serializer_for_validation_error_response, determine_fields_with_error_codes.
  destruct (unsafe_method view).
  - destruct (vw_request_serializer view) as [f|].
    + destruct (fields_with_codes (get_flat_serializer_fields f None)) as (l & -> & Hn & Hl).
      { by apply request_named, Hreq. }
      cbn [mbind res_bind].
      destruct (validation_serializer_covers camelize (vw_operation_id view)
        (map (λ s, (if_name s, error_codes s)) l)) as (v & Hv & Hcov).
      { apply Forall_map. done. }
      exists v. split; [exact Hv|]. intros f' s c _ [= <-] Hs Hj.
      destruct (Hl s c Hs Hj) as (s' & Hs' & Hn' & Hc).
      rewrite Forall_forall in Hn. destruct (Hn s' Hs') as [n En].
      destruct (Hcov n (error_codes s') c) as (cm & ? & ? & ?); [|done|].
      * apply list_elem_of_In, in_map_iff. exists s'. rewrite En. by rewrite <- list_elem_of_In.
      * exists n, cm. split_and!; congruence.
    + eexists. split; [reflexivity|done].
  - cbn [mbind res_bind].
    destruct (validation_serializer_covers camelize (vw_operation_id view)
      (map (λ s, (Some s.1, s.2)) (flat_map get_form_fields_with_error_codes
        (get_filter_forms view (get_django_filter_backends (vw_filter_backends view))))))
      as (v & Hv & _); [|by exists v].
    apply Forall_map, Forall_forall. intros. by eexists.
Qed.


(** ** The statuses *)

Lemma dict_get_rev {V} (d : list (string * V)) k : NoDup (dict_keys d) → dict_get (rev d) k = dict_get d k.
Proof.
  intros Hnd. unfold dict_keys in Hnd. assert (NoDup (dict_keys (rev d))) as Hnd'.
  { unfold dict_keys.
    assert (rev d ≡ₚ d) as -> by (symmetry; apply Permutation_rev). done. }
  destruct (dict_get d k) as [v|] eqn:E.
  - apply dict_elem_get; [done|]. apply dict_get_elem in E. by rewrite <- Permutation_rev.
  - apply dict_get_None in E. apply dict_get_None. unfold dict_keys in *.
    assert (rev d ≡ₚ d) as -> by (symmetry; apply Permutation_rev). done.
Qed.
Lemma schema_of_status view k : (∀ f, vw_request_serializer view = Some f → is_request_serializer f = true) →
  k ∈ default_allowed →
  ∃ s, get_error_response_serializer camelize default_timezone [] view k = Ok (Some s).
Proof.
  intros Hreq Hk. unfold get_error_response_serializer. cbn [dict_get default truthy].
  destruct (String.eqb_spec k "400") as [->|Hne].
  - unfold get_http400_serializer. destruct (validation_schema view Hreq) as (v & Hv & _).
    destruct (should_add_validation_error_response view); [rewrite Hv|]; by eexists.
  - unfold default_allowed in Hk. rewrite !elem_of_cons in Hk.
    destruct Hk as [|[->|[->|[->|[->|[->|[->|[->|[->|[]%not_elem_of_nil]]]]]]]]]; [done|..];
      eexists; reflexivity.
Qed.
Lemma fold_statuses {R} (response_for_code : error_schema → string → R) view (responses : list (string * R)) l :
  (∀ k, k ∈ l → ∃ s, get_error_response_serializer camelize default_timezone [] view k = Ok (Some s)) →
  ∀ d, ∃ d', fold_res (λ d status_code,
    if should_add_error_response view responses status_code then
      s ← get_error_response_serializer camelize default_timezone [] view status_code;
      Ok match s with
         | Some s => dict_set d status_code (response_for_code s status_code)
         | None => d
         end
    else Ok d) l d = Ok d' ∧
  ∀ k, is_Some (dict_get d' k) ↔
    is_Some (dict_get d k) ∨ (k ∈ l ∧ should_add_error_response view responses k = true).
Proof.
  induction l as [|c l IH]; intros Hl d; simpl.
  - exists d. split; [done|]. intros k. rewrite elem_of_nil. tauto.
  - assert (∀ k, k ∈ l → ∃ s, get_error_response_serializer camelize default_timezone [] view k = Ok (Some s))
      as Hl' by (intros; apply Hl; by right).
    destruct (should_add_error_response view responses c) eqn:Ec.
    + destruct (Hl c) as [s ->]; [by left|]. cbn [mbind res_bind].
      destruct (IH Hl' (dict_set d c (response_for_code s c))) as (d' & Hd' & Hk).
      exists d'. split; [done|]. intros k. rewrite Hk, dict_get_set, elem_of_cons.
      destruct (decide (k = c)) as [->|]; [|tauto]. split; [|left; by eexists].
      intros _. right. tauto.
    + cbn [mbind res_bind]. destruct (IH Hl' d) as (d' & Hd' & Hk).
      exists d'. split; [done|]. intros k. rewrite Hk, elem_of_cons.
      split; [tauto|]. intros [|[[->|] ?]]; [tauto|congruence|tauto].
Qed.

(** The documented statuses.  For every view whose requests are validated by
    well-bound serializers, with the default settings: the document keeps each
    response the view declares, and beyond these it has a response for a status
    exactly when the view uses the standard handler, the status is one of the
    allowed ones, and its condition holds of the view; 405 and 500 are always
    there. *)
Theorem responses_documented {R} (response_for_code : error_schema → string → R) view responses :
  NoDup (dict_keys responses) →
  (∀ f, vw_request_serializer view = Some f → is_request_serializer f = true) →
  ∃ bodies, get_response_bodies camelize default_timezone default_allowed [] response_for_code view responses
      = Ok bodies ∧
    (∀ k r, dict_get responses k = Some r → dict_get bodies k = Some r) ∧
    (∀ k, dict_get responses k = None →
      (is_Some (dict_get bodies k) ↔
       k ∈ default_allowed ∧ should_add_error_response view responses k = true)) ∧
    (vw_standard_handler view = true → ∀ k, k ∈ ["405"; "500"] → is_Some (dict_get bodies k)).
Proof.
  intros Hnd Hreq. unfold get_response_bodies.
  destruct (fold_statuses response_for_code view responses default_allowed
    (λ k, schema_of_status view k Hreq) []) as (d & -> & Hd). cbn [mbind res_bind].
  exists (dict_update d responses). split; [done|].
  assert (∀ k, dict_get (dict_update d responses) k =
    match dict_get responses k with Some r => Some r | None => dict_get d k end) as Hget.
  { intros k. by rewrite dict_get_update, dict_get_rev. }
  split_and!.
  - intros k r Hr. by rewrite Hget, Hr.
  - intros k Hk. rewrite Hget, Hk, Hd. simpl. split; [|tauto]. intros [[? ?]|]; done.
  - intros Hh k Hk. rewrite Hget. destruct (dict_get responses k) as [r|] eqn:E; [by eexists|].
    apply Hd. right. unfold should_add_error_response, dict_has. rewrite Hh, E.
    rewrite !elem_of_cons in Hk. unfold default_allowed.
    destruct Hk as [->|[->|[]%not_elem_of_nil]]; (split; [|done]); rewrite !elem_of_cons; tauto.
Qed.
End Document.

(** ** A concrete operation *)

(** A field with the messages of its class and its validators *)
Definition demo_field (name : option string) (req : bool) (messages : list string)
    (validators : list validator) : field_attrs :=
  FieldAttrs name [] false req false None None None None None None None None "" validators messages [].
Definition demo_item : sfield :=
  Serializer (demo_field (Some "") true ["required"; "null"; "invalid"]
      [Validator (UniqueTogetherValidator ["email"]) None])
    [PlainField (demo_field (Some "email") false ["required"; "null"; "invalid"] [])].
Definition demo_request : sfield :=
  Serializer (demo_field None true ["required"; "null"; "invalid"] [])
    [PlainField (demo_field (Some "name") true ["required"; "null"; "invalid"; "max_length"]
       [Validator OtherValidator (Some "max_length")]);
     ListSerializer (demo_field (Some "items") true ["required"; "null"; "not_a_list"] []) demo_item;
     DictField (demo_field (Some "tags") false ["required"; "null"; "not_a_dict"] [])
       (PlainField (demo_field (Some "") true ["required"; "null"; "invalid"] []))].
Definition demo_view : api_view :=
  ApiView true "POST" "items_create" [Parser JSONParser "application/json"] (Some demo_request) [] true
    [PDict [("jwt", PList [])]] [IsAuthenticated] true None (Some NamespaceVersioning) ["path"] true false.
(** A name that is too long, an item without an email, a tag that is no string *)
Definition demo_errors : detail :=
  Fields [("name", Items [ErrorDetail "max_length" "Too long."]);
          ("items", Items [Fields []; Fields [("email", Items [ErrorDetail "required" "Required."])]]);
          ("tags", Fields [("color", Items [ErrorDetail "invalid" "Not a string."])])].

Lemma one_message C code text : C code → messages_of C (Items [ErrorDetail code text]).
Proof.
  intros HC. exists [ErrorDetail code text]. split; [done|]. intros x ->%list_elem_of_singleton. eauto.
Qed.
Ltac in_codes := apply (bool_decide_unpack _); vm_compute; exact I.
Lemma demo_raises : raises None demo_request [] [] demo_errors.
Proof.
  eexists. split; [reflexivity|]. intros kv. rewrite !elem_of_cons.
  intros [->|[->|[->|[]%not_elem_of_nil]]]; right.
  - left. split; [reflexivity|]. apply one_message. left. in_codes.
  - right. left. split; [reflexivity|]. right. eexists. split; [reflexivity|]. intros x.
    rewrite !elem_of_cons. intros [->|[->|[]%not_elem_of_nil]]; (split; [by eexists|]); eexists;
      (split; [reflexivity|]); intros kv; [by intros ?%not_elem_of_nil|].
    intros ->%list_elem_of_singleton. right. left. split; [reflexivity|].
    apply one_message. right. split; [apply (bool_decide_unpack _); vm_compute; exact I|in_codes].
  - right. right. left. split; [reflexivity|]. right. eexists. split; [reflexivity|].
    intros kv ->%list_elem_of_singleton. split; [discriminate|]. apply one_message. left. in_codes.
Qed.
Lemma responses_documented_witness : ∃ bodies,
  get_response_bodies id None default_allowed [] (λ _ k, k) demo_view [("200", "ok"); ("404", "custom")] = Ok bodies ∧
  (∀ k r, dict_get [("200", "ok"); ("404", "custom")] k = Some r → dict_get bodies k = Some r) ∧
  (∀ k, dict_get [("200", "ok"); ("404", "custom")] k = None →
    (is_Some (dict_get bodies k) ↔ k ∈ default_allowed ∧
      should_add_error_response demo_view [("200", "ok"); ("404", "custom")] k = true)) ∧
  (vw_standard_handler demo_view = true → ∀ k, k ∈ ["405"; "500"] → is_Some (dict_get bodies k)).
Proof.
  apply (responses_documented id None (λ _ k, k) demo_view [("200", "ok"); ("404", "custom")]).
  - apply (bool_decide_unpack _). vm_compute. exact I.
  - intros f [= <-]. reflexivity.
Defined.
(** The statuses and the attributes of this operation *)
Example demo_statuses :
  (b ← get_response_bodies id None default_allowed [] (λ _ k, k) demo_view [("200", "ok")]; Ok (dict_keys b))
  = Ok ["400"; "401"; "404"; "405"; "406"; "415"; "500"; "200"].
Proof. vm_compute. reflexivity. Qed.
Example demo_attrs :
  (v ← get_serializer_for_validation_error_response id None demo_view; Ok (dict_keys (vc_errors v)))
  = Ok ["non_field_errors"; "name"; "items.non_field_errors"; "items.INDEX.non_field_errors";
        "items.INDEX.email"; "tags"; "tags.KEY"].
Proof. vm_compute. reflexivity. Qed.

(** A nested serializer that is required is documented as
    "items.non_field_errors" with the codes "required" and "null"; but the
    framework reports a missing item under the field's own name, which has no
    component. *)
Example nested_required_undocumented :
  (e_attr <$> flatten_errors (Fields [("items", Items [ErrorDetail "required" "Required."])]) None None
   = [Some "items"]) ∧
  (v ← get_serializer_for_validation_error_response id None demo_view;
   Ok (bool_decide ("items" ∈ dict_keys (vc_errors v)),
       bool_decide ("required" ∈ default [] (cm_codes <$> dict_get (vc_errors v) "items.non_field_errors"))))
  = Ok (false, true).
Proof. split; vm_compute; reflexivity. Qed.
(** A request body that is not a serializer, such as a plain list field, makes
    the generator fail: its field has no name. *)
Example list_body_fails :
  get_serializer_for_validation_error_response id None
    (ApiView true "POST" "x" [] (Some (ListField (demo_field None true ["not_a_list"] [])
       (PlainField (demo_field (Some "") true ["invalid"] [])))) [] true [] [] true None None [] true false)
  = Raise AttributeError.
Proof. vm_compute. reflexivity. Qed.
(** Two fields whose names differ in "." and "_" get the same component name. *)
Example component_names_collide camelize op codes :
  cm_ref_name (get_error_serializer camelize op "a.b" codes)
  = cm_ref_name (get_error_serializer camelize op "a_b" codes).
Proof. reflexivity. Qed.
