(* ===== verification/EnumHook.v ===== *)
(** * The hook for enumerations (finmars_standardized_errors/openapi_hooks.py)

    [postprocess_schema_enums] replaces the choices written out in the
    properties of the document's components by references to components of
    their own, one for each set of choices.  The theorem says that nothing is
    lost: every property still allows the choices it had, provided that the
    names the hook invents are distinct. *)
From Stdlib Require Import Ascii String.
From stdpp Require Import base list strings numbers gmap sets.
From S2P Require Import Prelude PyStr PyVal World Demo Finmars Models Manager System.
Local Open Scope string_scope.
Local Open Scope Z_scope.
Local Open Scope list_scope.

(** The settings COMPONENT_SPLIT_PATCH, COMPONENT_SPLIT_REQUEST and
    ENUM_ADD_EXPLICIT_BLANK_NULL_CHOICE of drf-spectacular, and
    ERROR_COMPONENT_NAME_SUFFIX of the package *)
Record hook_settings : Type := HookSettings {
  hs_split_patch : bool;
  hs_split_request : bool;
  hs_blank_null : bool;
  hs_suffix : string
}.
(** The properties of a component *)
Abbreviation properties := (list (string * pyval)) (only parsing).

(** [str.capitalize] *)
Definition upper_char (c : ascii) : ascii :=
  if (97 <=? ord c)%nat && (ord c <=? 122)%nat then chr (ord c - 32) else c.
Definition capitalize (s : string) : string :=
  match s with EmptyString => "" | String c s' => String (upper_char c) (lower s') end.
(** [i in ["", None]] *)
Definition blank_or_null (i : pyval) : bool := py_eqb i (PStr "") || py_eqb i PNone.
Definition cleaned (l : list pyval) : list pyval := List.filter (λ i, negb (blank_or_null i)) l.
(** [s.add(x)]; the hook does not depend on the order of its sets. *)
Definition set_add {A} `{EqDecision A} (x : A) (l : list A) : list A :=
  if bool_decide (x ∈ l) then l else l ++ [x].

(** What the first pass collects *)
Record collected : Type := Collected {
  prop_hash_mapping : list (string * list string);
  hash_name_mapping : list (string * list (string * string))
}.
(** [enum_name_mapping]: its keys are hashes, and hashes with names of
    properties. *)
Record names : Type := Names {
  nm_hash : gmap string string;
  nm_both : gmap (string * string) string
}.

Section Hook.
(** [list_hash], [load_enum_name_overrides()] and [safe_ref] of drf-spectacular,
    [inflection.camelize] *)
Context (hs : hook_settings) (list_hash : list pyval → string) (overrides : list (string * string))
  (safe_ref : pyval → pyval) (camelize : string → string).

(** ** [iter_prop_containers] *)

Definition strip_component_name (name : string) : string :=
  let name := if hs_split_patch hs && startswith name "Patched" && (7 <? String.length name)%nat
              then drop_str 7 name else name in
  if hs_split_request hs && endswith name "Request" && (7 <? String.length name)%nat
  then drop_last_str 7 name else name.
(** The properties of a schema that is a dictionary, if it is not the component
    of an error *)
Definition own_properties (component_name : string) (d : list (string * pyval)) : res (option properties) :=
  match dict_get d "properties" with
  | Some props =>
      if truthy props && negb (endswith component_name (hs_suffix hs))
      then match props with PDict ps => Ok (Some ps) | _ => Raise AttributeError end
      else Ok None
  | None => Ok None
  end.

(** The properties of a schema, in the order of the generator *)
Fixpoint iter_prop_containers (component_name : string) (schema : pyval) {struct schema}
    : res (list (string * properties)) :=
  let sub key := (fix find (d : list (string * pyval)) : res (list (string * properties)) :=
    match d with
    | [] => Ok []
    | (k, s) :: d' => if String.eqb k key then iter_prop_containers component_name s else find d'
    end) in
  if String.eqb component_name "" then
    match schema with
    | PDict d => (fix each (d : list (string * pyval)) : res (list (string * properties)) :=
        match d with
        | [] => Ok []
        | (k, s) :: d' => a ← iter_prop_containers (strip_component_name k) s; b ← each d'; Ok (a ++ b)
        end) d
    | _ => Raise AttributeError
    end
  else
    match schema with
    | PList l => (fix each (l : list pyval) : res (list (string * properties)) :=
        match l with
        | [] => Ok []
        | s :: l' => a ← iter_prop_containers component_name s; b ← each l'; Ok (a ++ b)
        end) l
    | PDict d =>
        own ← own_properties component_name d;
        a ← sub "oneOf" d; b ← sub "allOf" d; c ← sub "anyOf" d;
        Ok ((match own with Some ps => [(component_name, ps)] | None => [] end) ++ a ++ b ++ c)
    | _ => Ok []
    end.

(** The loop [for _, props in iter_prop_containers(schemas): ...] that changes
    the properties in place: [body] gives the new properties. *)
Section Rewrite.
Context {S : Type} (body : properties → ST S properties).
Definition set_found (key : string) (v : option pyval) (d : list (string * pyval)) : list (string * pyval) :=
  match v with Some v => dict_set d key v | None => d end.
Fixpoint rewrite_props (component_name : string) (schema : pyval) {struct schema} : ST S pyval :=
  let sub key := (fix find (d : list (string * pyval)) : ST S (option pyval) :=
    match d with
    | [] => mret None
    | (k, s) :: d' =>
        if String.eqb k key then s' ← rewrite_props component_name s; mret (Some s') else find d'
    end) in
  if String.eqb component_name "" then
    match schema with
    | PDict d =>
        d' ← (fix each (d : list (string * pyval)) : ST S (list (string * pyval)) :=
          match d with
          | [] => mret []
          | (k, s) :: d' =>
              s' ← rewrite_props (strip_component_name k) s; r ← each d'; mret ((k, s') :: r)
          end) d;
        mret (PDict d')
    | _ => raise AttributeError
    end
  else
    match schema with
    | PList l =>
        l' ← (fix each (l : list pyval) : ST S (list pyval) :=
          match l with
          | [] => mret []
          | s :: l' => s' ← rewrite_props component_name s; r ← each l'; mret (s' :: r)
          end) l;
        mret (PList l')
    | PDict d =>
        own ← lift (own_properties component_name d);
        own' ← (match own with
                | Some ps => ps' ← body ps; mret (Some (PDict ps'))
                | None => mret None
                end);
        a ← sub "oneOf" d; b ← sub "allOf" d; c ← sub "anyOf" d;
        mret (PDict (set_found "anyOf" c (set_found "allOf" b (set_found "oneOf" a
                (set_found "properties" own' d)))))
    | v => mret v
    end.
End Rewrite.

(** ** The first pass: the sets of choices *)

(** A property, or the items of a property that is an array *)
Definition items_of (prop_schema : pyval) : res (bool * pyval) :=
  ty ← get prop_schema "type";
  if py_eqb ty (PStr "array")
  then items ← get_default prop_schema "items" (PDict []); Ok (true, items)
  else Ok (false, prop_schema).
(** [prop_schema["enum"]], if there is one *)
Definition enum_of (prop_schema : pyval) : res (option (list pyval)) :=
  b ← py_in "enum" prop_schema;
  if (b : bool) then e ← getitem prop_schema "enum"; l ← py_iter e; Ok (Some l) else Ok None.
Definition add_to {A} `{EqDecision A} (d : list (string * list A)) (k : string) (x : A)
    : list (string * list A) :=
  dict_set d k (set_add x (default [] (dict_get d k))).
Definition collect_prop (component_name : string) (c : collected) (kv : string * pyval) : res collected :=
  '(_, prop_schema) ← items_of kv.2;
  enum ← enum_of prop_schema;
  match enum with
  | None => Ok c
  | Some l =>
      let h := list_hash (cleaned l) in
      Ok (Collected (add_to (prop_hash_mapping c) kv.1 h)
            (add_to (hash_name_mapping c) h (component_name, kv.1)))
  end.
Definition collect_choices (containers : list (string * properties)) : res collected :=
  fold_res (λ c p, fold_res (collect_prop p.1) p.2 c) containers (Collected [] []).

(** ** The second pass: the names *)

Definition enum_name (c : collected) (prop_name : string) (prop_hash_set : list string) (prop_hash : string)
    : string :=
  match dict_get overrides prop_hash with
  | Some n => n
  | None =>
      match prop_hash_set with
      | [_] => camelize prop_name +:+ "Enum"
      | _ =>
          match default [] (dict_get (hash_name_mapping c) prop_hash) with
          | [(component_name, _)] => camelize component_name +:+ camelize prop_name +:+ "Enum"
          | _ => camelize prop_name +:+ capitalize (take_str 3 prop_hash) +:+ "Enum"
          end
      end
  end.
(** A set of choices with more than one name keeps none of its own. *)
Definition add_name (c : collected) (prop_name : string) (prop_hash_set : list string) (m : names)
    (prop_hash : string) : names :=
  let n := enum_name c prop_name prop_hash_set prop_hash in
  Names (if String.eqb (default n (nm_hash m !! prop_hash)) n
         then <[prop_hash := n]> (nm_hash m) else delete prop_hash (nm_hash m))
        (<[(prop_hash, prop_name) := n]> (nm_both m)).
Definition add_names (c : collected) (m : names) (p : string * list string) : names :=
  fold_left (add_name c p.1 p.2) p.2 m.
Definition name_enums (c : collected) : names :=
  fold_left (add_names c) (prop_hash_mapping c) (Names ∅ ∅).
(** [enum_name_mapping.get(prop_hash) or enum_name_mapping[prop_hash, prop_name]] *)
Definition name_of (m : names) (prop_hash prop_name : string) : res string :=
  match truthy_str (nm_hash m !! prop_hash) with
  | Some n => Ok n
  | None => match nm_both m !! (prop_hash, prop_name) with Some n => Ok n | None => Raise (KeyError prop_name) end
  end.

(** ** The third pass: the references *)

(** The components registered by the hook; [known] are those of the document,
    which the registry holds. *)
Definition create_enum_component (known : list string) (name : string) (schema : pyval)
    : ST (list (string * pyval)) pyval := λ added,
  (Ok (PDict [("$ref", PStr ("#/components/schemas/" +:+ name))]),
   if bool_decide (name ∈ known) || dict_has added name then added else added ++ [(name, schema)]).
Definition in_schema (ks : list string) (d : list (string * pyval)) : list (string * pyval) :=
  List.filter (λ kv, bool_decide (kv.1 ∈ ks)) d.
Definition out_of_schema (ks : list string) (d : list (string * pyval)) : list (string * pyval) :=
  List.filter (λ kv, negb (bool_decide (kv.1 ∈ ks))) d.
(** The items of a dictionary of which ["enum"] was read *)
Definition items_of_dict (v : pyval) : res (list (string * pyval)) :=
  match v with PDict d => Ok d | _ => Raise AttributeError end.

(** [prop_schema.update(...)]: the reference, or the alternatives *)
Definition with_refs (rest : list (string * pyval)) (components : list pyval) : pyval :=
  match components with
  | [PDict ref] => PDict (dict_update rest ref)
  | _ => PDict (dict_set rest "oneOf" (PList components))
  end.
Definition enum_ref (known : list string) (m : names) (prop_name : string) (d : list (string * pyval))
    (choices : list pyval) : ST (list (string * pyval)) pyval :=
  let d := dict_set d "enum" (PList (cleaned choices)) in
  n ← lift (name_of m (list_hash (cleaned choices)) prop_name);
  c ← create_enum_component known n (PDict (in_schema ["type"; "enum"] d));
  blank ← (if hs_blank_null hs && existsb (py_eqb (PStr "")) choices
           then c ← create_enum_component known "BlankEnum" (PDict [("enum", PList [PStr ""])]); mret [c]
           else mret []);
  null ← (if hs_blank_null hs && existsb (py_eqb PNone) choices
          then c ← create_enum_component known "NullEnum" (PDict [("enum", PList [PNone])]); mret [c]
          else mret []);
  let rest := out_of_schema ["type"; "enum"] d in
  mret (safe_ref (with_refs rest (c :: blank ++ null))).
Definition replace_prop (known : list string) (m : names) (kv : string * pyval)
    : ST (list (string * pyval)) (string * pyval) :=
  '(is_array, prop_schema) ← lift (items_of kv.2);
  enum ← lift (enum_of prop_schema);
  match enum with
  | None => mret kv
  | Some choices =>
      d ← lift (items_of_dict prop_schema);
      v ← enum_ref known m kv.1 d choices;
      if (is_array : bool) then v' ← lift (setitem kv.2 "items" v); mret (kv.1, v')
      else mret (kv.1, v)
  end.

(** The hook, on the schemas of the components: the schemas changed, and the
    components to add *)
Definition postprocess_schema_enums (schemas : list (string * pyval))
    : res (list (string * pyval) * list (string * pyval)) :=
  containers ← iter_prop_containers "" (PDict schemas);
  c ← collect_choices containers;
  let m := name_enums c in
  match rewrite_props (λ ps, map_each ps (replace_prop (dict_keys schemas) m)) "" (PDict schemas) [] with
  | (Ok (PDict schemas'), added) => Ok (schemas', added)
  | (Ok _, _) => Raise AttributeError
  | (Raise e, _) => Raise e
  end.
End Hook.

(** ** The traversal *)

(** The containers of the parts of a list, in order *)
Fixpoint concat_res {A B} (f : A → res (list B)) (l : list A) : res (list B) :=
  match l with
  | [] => Ok []
  | x :: l' => a ← f x; b ← concat_res f l'; Ok (a ++ b)
  end.

Section Traversal.
Context (hs : hook_settings) {S : Type} (body : properties → ST S properties).
Abbreviation iter := (iter_prop_containers hs).
Abbreviation rewrite := (rewrite_props hs body).

(** A part of a schema under a key *)
Definition iter_sub (name key : string) (d : list (string * pyval)) : res (list (string * properties)) :=
  match dict_get d key with Some s => iter name s | None => Ok [] end.
Definition rewrite_sub (name key : string) (d : list (string * pyval)) : ST S (option pyval) :=
  match dict_get d key with Some s => s' ← rewrite name s; mret (Some s') | None => mret None end.

Lemma iter_list name l : name ≠ "" → iter name (PList l) = concat_res (iter name) l.
Proof using.
  intros Hn. cbn [iter_prop_containers]. rewrite (proj2 (String.eqb_neq name "") Hn).
  induction l as [|s l IH]; [done|]. cbn [concat_res]. by rewrite <- IH.
Qed.
Lemma iter_top d : iter "" (PDict d) = concat_res (λ kv, iter (strip_component_name hs kv.1) kv.2) d.
Proof using.
  cbn [iter_prop_containers String.eqb]. induction d as [|[k s] d IH]; [done|].
  cbn [concat_res]. rewrite <- IH. done.
Qed.
Lemma iter_find name key d : (fix find (d : list (string * pyval)) : res (list (string * properties)) :=
    match d with
    | [] => Ok []
    | (k, s) :: d' => if String.eqb k key then iter name s else find d'
    end) d = iter_sub name key d.
Proof using.
  unfold iter_sub. induction d as [|[k s] d IH]; [done|]. simpl. rewrite IH.
  destruct (String.eqb_spec k key); destruct (decide (key = k)); congruence.
Qed.
Lemma iter_dict name d : name ≠ "" → iter name (PDict d) =
  (own ← own_properties hs name d;
   a ← iter_sub name "oneOf" d; b ← iter_sub name "allOf" d; c ← iter_sub name "anyOf" d;
   Ok ((match own with Some ps => [(name, ps)] | None => [] end) ++ a ++ b ++ c)).
Proof using.
  intros Hn. cbn [iter_prop_containers]. rewrite (proj2 (String.eqb_neq name "") Hn).
  by rewrite !iter_find.
Qed.

(** The same for the rewriting: what [body] does to the containers in order *)
Definition run_each (cs : list (string * properties)) : ST S (list (string * properties)) :=
  map_each cs (λ p, ps ← body p.2; mret (p.1, ps)).

Lemma bind_ext {A B} (m m' : ST S A) (f f' : A → ST S B) s : m s = m' s → (∀ x s, f x s = f' x s) →
  (x ← m; f x) s = (x ← m'; f' x) s.
Proof using. intros E Ef. unfold mbind, ST_bind. rewrite E. destruct (m' s) as [[x|e] s']; [apply Ef|done]. Qed.
Lemma rewrite_list name l s : name ≠ "" →
  rewrite name (PList l) s = (l' ← map_each l (rewrite name); mret (PList l')) s.
Proof using.
  intros Hn. cbn [rewrite_props]. rewrite (proj2 (String.eqb_neq name "") Hn).
  apply bind_ext; [|done]. revert s. induction l as [|v l IH]; intros s; [done|].
  apply bind_ext; [done|]. intros v' s1. by apply bind_ext.
Qed.
Lemma rewrite_top d s : rewrite "" (PDict d) s =
  (d' ← map_each d (λ kv, v ← rewrite (strip_component_name hs kv.1) kv.2; mret (kv.1, v)); mret (PDict d')) s.
Proof using.
  cbn [rewrite_props String.eqb]. apply bind_ext; [|done]. revert s.
  induction d as [|[k v] d IH]; intros s; [done|]. cbn [map_each]. unfold mbind, ST_bind. cbn [fst snd].
  destruct (rewrite _ v s) as [[v'|e] s1]; [|done]. by rewrite IH.
Qed.
Lemma rewrite_dict name d s : name ≠ "" → rewrite name (PDict d) s =
  (own ← lift (own_properties hs name d);
   own' ← (match own with
           | Some ps => ps' ← body ps; mret (Some (PDict ps'))
           | None => mret None
           end);
   a ← rewrite_sub name "oneOf" d; b ← rewrite_sub name "allOf" d; c ← rewrite_sub name "anyOf" d;
   mret (PDict (set_found "anyOf" c (set_found "allOf" b (set_found "oneOf" a
           (set_found "properties" own' d)))))) s.
Proof using.
  intros Hn. cbn [rewrite_props]. rewrite (proj2 (String.eqb_neq name "") Hn).
  assert (∀ key d, (fix find (d : list (string * pyval)) : ST S (option pyval) :=
    match d with
    | [] => mret None
    | (k, s) :: d' => if String.eqb k key then s' ← rewrite name s; mret (Some s') else find d'
    end) d = rewrite_sub name key d) as E; [|by rewrite !E].
  intros key d0. unfold rewrite_sub. induction d0 as [|[k v] d0 IH]; [done|]. simpl. rewrite IH.
  destruct (String.eqb_spec k key); destruct (decide (key = k)); congruence.
Qed.

Lemma bind_some {A B} (x : res A) (f : A → res B) r : (y ← x; f y) = Ok r → ∃ y, x = Ok y ∧ f y = Ok r.
Proof using. destruct x as [y|]; [|done]. by exists y. Qed.
Lemma map_each_app {A B} (f : A → ST S B) l1 l2 s r s' : map_each (l1 ++ l2) f s = (Ok r, s') →
  ∃ r1 s1 r2, map_each l1 f s = (Ok r1, s1) ∧ map_each l2 f s1 = (Ok r2, s') ∧ r = r1 ++ r2.
Proof using.
  revert s r. induction l1 as [|x l1 IH]; intros s r Hr; [by exists [], s, r|].
  simpl in Hr. apply bind_inv in Hr as (y & s1 & Hy & Hr). apply bind_inv in Hr as (ys & s2 & Hys & [= <- <-]).
  destruct (IH _ _ Hys) as (r1 & s3 & r2 & H1 & H2 & ->). exists (y :: r1), s3, r2.
  split; [|done]. simpl. by rewrite (bind_ok _ _ _ _ _ Hy), (bind_ok _ _ _ _ _ H1).
Qed.

(** A rewriting that gives every container what [run_each] gives it *)
Definition follows {A} (f : A → res (list (string * properties))) (g : A → ST S A) (x : A) : Prop :=
  ∀ cs s cs' s', f x = Ok cs → run_each cs s = (Ok cs', s') → ∃ x', g x s = (Ok x', s') ∧ f x' = Ok cs'.
Lemma follows_list {A} f (g : A → ST S A) l : Forall (follows f g) l →
  follows (concat_res f) (λ l, map_each l g) l.
Proof using.
  induction 1 as [|x l Hx _ IH]; intros cs s cs' s' Hc Hr; [injection Hc as <-; injection Hr as <- <-; by exists []|].
  simpl in Hc. apply bind_some in Hc as (a & Ha & Hc). apply bind_some in Hc as (b & Hb & [= <-]).
  apply map_each_app in Hr as (r1 & s1 & r2 & H1 & H2 & ->).
  destruct (Hx _ _ _ _ Ha H1) as (x' & Hg & Hf). destruct (IH _ _ _ _ Hb H2) as (l' & Hgl & Hfl).
  exists (x' :: l'). split; simpl.
  - by rewrite (bind_ok _ _ _ _ _ Hg), (bind_ok _ _ _ _ _ Hgl).
  - by rewrite Hf, Hfl.
Qed.

Lemma get_found key v d k : dict_get (set_found key v d) k =
  if decide (k = key) then match v with Some x => Some x | None => dict_get d k end else dict_get d k.
Proof using.
  destruct v as [v|]; simpl; [|by destruct (decide _)]. rewrite dict_get_set. by destruct (decide _).
Qed.
Lemma follows_sub name key d : Forall (λ kv, ∀ name, follows (iter name) (rewrite name) kv.2) d →
  ∀ cs s cs' s', iter_sub name key d = Ok cs → run_each cs s = (Ok cs', s') →
  ∃ o, rewrite_sub name key d s = (Ok o, s') ∧
    ∀ d', dict_get d' key = (match o with Some x => Some x | None => dict_get d key end) →
      iter_sub name key d' = Ok cs'.
Proof using.
  intros Hd cs s cs' s' Hc Hr. unfold iter_sub, rewrite_sub in *.
  destruct (dict_get d key) as [v|] eqn:Ev.
  - rewrite Forall_forall in Hd. destruct (Hd (key, v) (dict_get_elem _ _ _ Ev) name _ _ _ _ Hc Hr) as (v' & Hg & Hf).
    exists (Some v'). split; [by rewrite (bind_ok _ _ _ _ _ Hg)|]. intros d' ->. done.
  - injection Hc as <-. injection Hr as <- <-. exists None. split; [done|]. intros d' ->. done.
Qed.

Hypothesis body_nonempty : ∀ ps s ps' s', body ps s = (Ok ps', s') → ps ≠ [] → ps' ≠ [].
Lemma own_kept name d ps ps' d' : own_properties hs name d = Ok (Some ps) → ps' ≠ [] →
  dict_get d' "properties" = Some (PDict ps') → own_properties hs name d' = Ok (Some ps').
Proof using.
  intros Ho Hps Hd. unfold own_properties in *. rewrite Hd.
  destruct (dict_get d "properties") as [props|]; [|done]. simpl. rewrite bool_decide_eq_false_2 by done.
  destruct (negb (endswith name (hs_suffix hs))); [done|]. by rewrite andb_false_r in Ho.
Qed.
Lemma own_nonempty name d ps : own_properties hs name d = Ok (Some ps) → ps ≠ [].
Proof using.
  unfold own_properties. destruct (dict_get d "properties") as [props|]; [|done].
  destruct (truthy props) eqn:E; simpl; [|done]. destruct (negb _); [|done].
  destruct props; try done. intros [= ->]. simpl in E. by intros ->.
Qed.

(** The properties of the schema itself *)
Definition own_part (name : string) (own : option properties) : list (string * properties) :=
  match own with Some ps => [(name, ps)] | None => [] end.
Definition rewrite_own (own : option properties) : ST S (option pyval) :=
  match own with Some ps => ps' ← body ps; mret (Some (PDict ps')) | None => mret None end.
Lemma follows_own name d own s r s' : own_properties hs name d = Ok own →
  run_each (own_part name own) s = (Ok r, s') →
  ∃ o, rewrite_own own s = (Ok o, s') ∧
    ∀ d', dict_get d' "properties" = match o with Some x => Some x | None => dict_get d "properties" end →
      ∃ own', own_properties hs name d' = Ok own' ∧ own_part name own' = r.
Proof using body_nonempty.
  intros Ho Hr. destruct own as [ps|].
  - apply bind_inv in Hr as (p & s1 & Hp & Hr). apply bind_inv in Hr as (ys & s2 & [= <- <-] & [= <- <-]).
    apply bind_inv in Hp as (ps' & s3 & Hps & [= <- <-]). exists (Some (PDict ps')).
    split; [unfold rewrite_own; by rewrite (bind_ok _ _ _ _ _ Hps)|]. intros d' Hd'. exists (Some ps'). split; [|done].
    eapply own_kept; [exact Ho| |exact Hd']. eapply body_nonempty; [exact Hps|]. by eapply own_nonempty.
  - injection Hr as <- <-. exists None. split; [done|]. intros d' Hd'. exists None. split; [|done].
    unfold own_properties in *. by rewrite Hd'.
Qed.
Lemma follows_dict name d : name ≠ "" → Forall (λ kv, ∀ name, follows (iter name) (rewrite name) kv.2) d →
  follows (iter name) (rewrite name) (PDict d).
Proof using body_nonempty.
  intros Hn IH cs s cs' s' Hc Hr.
  rewrite iter_dict in Hc by done. apply bind_some in Hc as (own & Ho & Hc).
  apply bind_some in Hc as (a & Ha & Hc). apply bind_some in Hc as (b & Hb & Hc).
  apply bind_some in Hc as (c & Hc & [= <-]).
  apply map_each_app in Hr as (r0 & s0 & r & H0 & Hr & ->).
  apply map_each_app in Hr as (ra & sa & r1 & H1 & Hr & ->).
  apply map_each_app in Hr as (rb & sb & rc & H2 & H3 & ->).
  destruct (follows_own name d own _ _ _ Ho H0) as (oo & Eo & Fo).
  destruct (follows_sub name "oneOf" d IH _ _ _ _ Ha H1) as (oa & Ea & Fa).
  destruct (follows_sub name "allOf" d IH _ _ _ _ Hb H2) as (ob & Eb & Fb).
  destruct (follows_sub name "anyOf" d IH _ _ _ _ Hc H3) as (oc & Ec & Fc).
  eexists. rewrite rewrite_dict, iter_dict by done. split.
  - rewrite (bind_ok (lift _) _ s own s) by (unfold lift; by rewrite Ho). rewrite (bind_ok _ _ _ _ _ Eo).
    by rewrite (bind_ok _ _ _ _ _ Ea), (bind_ok _ _ _ _ _ Eb), (bind_ok _ _ _ _ _ Ec).
  - set (d' := set_found _ _ _).
    destruct (Fo d') as (own' & -> & <-); [unfold d'; by rewrite !get_found|].
    by rewrite (Fa d'), (Fb d'), (Fc d') by (unfold d'; by rewrite !get_found).
Qed.
(** A schema that is neither a list nor a dictionary *)
Lemma follows_leaf v name : (∀ name, iter name v = if String.eqb name "" then Raise AttributeError else Ok []) →
  (∀ name s, rewrite name v s = if String.eqb name "" then (Raise AttributeError, s) else (Ok v, s)) →
  follows (iter name) (rewrite name) v.
Proof using.
  intros Hi Hw cs s cs' s' Hc Hr. exists v. rewrite Hi in Hc |- *. rewrite Hw.
  destruct (name =? "")%string; [done|]. injection Hc as <-. by injection Hr as <- <-.
Qed.
Lemma rewrite_follows v : ∀ name, follows (iter name) (rewrite name) v.
Proof using body_nonempty.
  induction v as [|b|z|x|l IH|d IH] using pyval_ind'; intros name;
    try (apply follows_leaf; intros; simpl; by destruct (_ =? _)%string);
    (destruct (decide (name = "")) as [->|Hn]; [|try by apply follows_dict]).
  - by intros cs s cs' s' Hc.
  - intros cs s cs' s' Hc Hr. rewrite iter_list in Hc by done.
    destruct (follows_list (iter name) (rewrite name) l) with cs s cs' s'
      as (l' & Hg & Hf); [eapply Forall_impl; [exact IH|]; by intros x Hx|done..|].
    exists (PList l'). rewrite rewrite_list, iter_list by done. split; [|done].
    by rewrite (bind_ok _ _ _ _ _ Hg).
  - intros cs s cs' s' Hc Hr. rewrite iter_top in Hc.
    edestruct (follows_list (λ kv, iter (strip_component_name hs kv.1) kv.2)
      (λ kv, v ← rewrite (strip_component_name hs kv.1) kv.2; mret (kv.1, v)) d)
      as (d' & Hg & Hf); [|exact Hc|exact Hr|].
    { eapply Forall_impl; [exact IH|]. intros [k v] Hv cs0 s0 cs1 s1 Hc0 Hr0.
      destruct (Hv _ _ _ _ _ Hc0 Hr0) as (v' & Hg & Hf). exists (k, v').
      by rewrite (bind_ok _ _ _ _ _ Hg). }
    exists (PDict d'). rewrite rewrite_top, iter_top. split; [|done]. by rewrite (bind_ok _ _ _ _ _ Hg).
Qed.
(** The components keep their names. *)
Lemma rewrite_keys d s v s' : rewrite "" (PDict d) s = (Ok v, s') → ∃ d', v = PDict d' ∧ dict_keys d' = dict_keys d.
Proof using.
  rewrite rewrite_top. intros Hr. apply bind_inv in Hr as (d' & s1 & Hd & [= <- <-]). exists d'. split; [done|].
  revert s d' Hd. induction d as [|[k v] d IH]; intros s d' Hd; [by injection Hd as <- <-|].
  simpl in Hd. apply bind_inv in Hd as (kv & s2 & Hkv & Hd). apply bind_inv in Hd as (r & s3 & Hr & [= <- <-]).
  apply bind_inv in Hkv as (v' & s4 & _ & [= <- <-]). unfold dict_keys in *. simpl. f_equal. by eapply IH.
Qed.
End Traversal.

(** ** What the properties allow *)

(** The choices of the component a reference leads to *)
Definition ref_choices (comps : list (string * pyval)) (v : pyval) : option (list pyval) :=
  match v with
  | PDict d =>
      match dict_get d "$ref" with
      | Some (PStr r) =>
          match dict_get comps (drop_str 21 r) with
          | Some (PDict e) => match dict_get e "enum" with Some (PList l) => Some l | _ => None end
          | _ => None
          end
      | _ => None
      end
  | _ => None
  end.
(** The choices of a schema: those of the component it refers to, alone or as
    its only [allOf], or of its alternatives *)
Definition choices_of (comps : list (string * pyval)) (v : pyval) : option (list pyval) :=
  match v with
  | PDict d =>
      match dict_get d "$ref", dict_get d "oneOf", dict_get d "allOf" with
      | Some _, _, _ => ref_choices comps v
      | _, Some (PList l), _ => mjoin <$> mapM (ref_choices comps) l
      | _, _, Some (PList [x]) => ref_choices comps x
      | _, _, _ => None
      end
  | _ => None
  end.

(** A property as the hook expects it: what it does not know of is no reference. *)
Definition has_choices (v : pyval) (is_array : bool) (d : list (string * pyval)) (l : list pyval) : Prop :=
  items_of v = Ok (is_array, PDict d) ∧ dict_get d "enum" = Some (PList l) ∧
  dict_get d "$ref" = None ∧ dict_get d "oneOf" = None ∧ dict_get d "allOf" = None.
Definition no_choices (v : pyval) : Prop :=
  ∃ is_array w, items_of v = Ok (is_array, w) ∧ enum_of w = Ok None.
Definition prop_ok (v : pyval) : Prop := no_choices v ∨ ∃ is_array d l, has_choices v is_array d l.

(** The choices that stay: without the blank ones, and the null, unless the
    settings ask for components of their own *)
Definition stays (hs : hook_settings) (l : list pyval) (x : pyval) : Prop :=
  x ∈ l ∧ (hs_blank_null hs = true ∨ blank_or_null x = false).
(** A property after the hook: it allows what it allowed. *)
Definition keeps_choices (hs : hook_settings) (comps : list (string * pyval)) (kv kv' : string * pyval) : Prop :=
  kv'.1 = kv.1 ∧
  (no_choices kv.2 → kv'.2 = kv.2) ∧
  ∀ is_array d l, has_choices kv.2 is_array d l → ∃ v L,
    (if is_array : bool then setitem kv.2 "items" v = Ok kv'.2 else kv'.2 = v) ∧
    choices_of comps v = Some L ∧ ∀ x, x ∈ L ↔ stays hs l x.

(** ** The collected sets and their names *)

Section Names.
Context (list_hash : list pyval → string) (overrides : list (string * string)) (camelize : string → string).

(** The choices of a property of a component *)
Definition occurs (cs : list (string * properties)) (component_name prop_name : string) (l : list pyval) : Prop :=
  ∃ ps v is_array d, (component_name, ps) ∈ cs ∧ (prop_name, v) ∈ ps ∧ has_choices v is_array d l.
(** A property has a set of choices. *)
Definition named_hash (c : collected) (k h : string) : Prop :=
  ∃ hs, dict_get (prop_hash_mapping c) k = Some hs ∧ h ∈ hs.

Lemma elem_set_add {A} `{EqDecision A} (x y : A) l : x ∈ set_add y l ↔ x = y ∨ x ∈ l.
Proof using. unfold set_add. case_bool_decide; [naive_solver|]. rewrite elem_of_app, list_elem_of_singleton. naive_solver. Qed.
Lemma named_add c k h k' h' m : named_hash (Collected (add_to (prop_hash_mapping c) k h) m) k' h' ↔
  (k' = k ∧ h' = h) ∨ named_hash c k' h'.
Proof using.
  unfold named_hash, add_to. cbn [prop_hash_mapping]. rewrite dict_get_set.
  destruct (decide (k' = k)) as [->|Hk].
  - split.
    + intros (hs & [= <-] & Hh). apply elem_set_add in Hh as [->|Hh]; [by left|]. right.
      destruct (dict_get (prop_hash_mapping c) k) as [l|]; [by exists l|]. by apply elem_of_nil in Hh.
    + intros Hh. eexists. split; [done|]. apply elem_set_add. destruct Hh as [[_ ->]|(hs & -> & Hh)]; [by left|by right].
  - split; [intros (hs & Hg & Hh); right; by exists hs|]. intros [[? _]|(hs & Hg & Hh)]; [done|by exists hs].
Qed.

Lemma has_enum v is_array d l : has_choices v is_array d l → items_of v = Ok (is_array, PDict d) ∧ enum_of (PDict d) = Ok (Some l).
Proof using.
  intros (Hi & He & _). split; [done|]. unfold enum_of, py_in, dict_has. by rewrite He, (getitem_ok _ _ _ He).
Qed.
(** Collecting one property *)
Lemma collect_prop_ok n c k v : prop_ok v → NoDup (dict_keys (prop_hash_mapping c)) →
  ∃ c', collect_prop list_hash n c (k, v) = Ok c' ∧ NoDup (dict_keys (prop_hash_mapping c')) ∧
    ∀ k' h', named_hash c' k' h' ↔ (k' = k ∧ ∃ is_array d l, has_choices v is_array d l ∧ h' = list_hash (cleaned l))
      ∨ named_hash c k' h'.
Proof using.
  intros [(a & w & Hi & He)|(a & d & l & Hl)] Hnd; unfold collect_prop; cbn [fst snd].
  - exists c. rewrite Hi. cbn [mbind res_bind]. rewrite He. split; [done|]. split; [done|].
    intros k' h'. split; [by right|]. intros [(_ & a' & d & l & (Hi' & He' & _) & _)|?]; [|done].
    rewrite Hi in Hi'. injection Hi' as <- ->. unfold enum_of, py_in, dict_has in He. rewrite He' in He.
    cbn in He. by rewrite He' in He.
  - destruct (has_enum _ _ _ _ Hl) as [Hi He]. rewrite Hi. cbn [mbind res_bind]. rewrite He.
    eexists. split; [reflexivity|]. split; [by apply dict_set_NoDup|]. intros k' h'.
    rewrite (named_add c). split.
    + intros [[-> ->]|?]; [left|by right]. split; [done|]. by exists a, d, l.
    + intros [(-> & a' & d' & l' & Hl' & ->)|?]; [left|by right]. split; [done|].
      destruct (has_enum _ _ _ _ Hl') as [Hi' He']. rewrite Hi in Hi'. injection Hi' as <- <-.
      rewrite He in He'. by injection He' as <-.
Qed.
Definition hash_of (l : list pyval) : string := list_hash (cleaned l).
Lemma collect_props_ok n ps : Forall (λ kv, prop_ok kv.2) ps → ∀ c, NoDup (dict_keys (prop_hash_mapping c)) →
  ∃ c', fold_res (collect_prop list_hash n) ps c = Ok c' ∧ NoDup (dict_keys (prop_hash_mapping c')) ∧
    ∀ k h, named_hash c' k h ↔
      (∃ v is_array d l, (k, v) ∈ ps ∧ has_choices v is_array d l ∧ h = hash_of l) ∨ named_hash c k h.
Proof using.
  induction 1 as [|[k v] ps Hv _ IH]; intros c Hc.
  - exists c. split; [done|]. split; [done|]. intros k h. split; [by right|].
    intros [(v & a & d & l & Hin & _)|?]; [by apply elem_of_nil in Hin|done].
  - destruct (collect_prop_ok n c k v Hv Hc) as (c1 & E1 & Hc1 & H1).
    destruct (IH c1 Hc1) as (c2 & E2 & Hc2 & H2). exists c2. split; [by simpl; rewrite E1|]. split; [done|].
    intros k' h'. rewrite H2, H1. split.
    + intros [(u & a & d & l & Hin & Hl & ->)|[(-> & a & d & l & Hl & ->)|?]]; [left..|by right].
      * exists u, a, d, l. split; [by right|done].
      * exists v, a, d, l. split; [by left|done].
    + intros [(u & a & d & l & [[= -> ->]|Hin]%elem_of_cons & Hl & ->)|?]; [right; left|left|by right; right].
      * split; [done|]. by exists a, d, l.
      * by exists u, a, d, l.
Qed.
Lemma collect_ok cs : Forall (λ p, Forall (λ kv, prop_ok kv.2) p.2) cs →
  ∃ c, collect_choices list_hash cs = Ok c ∧ NoDup (dict_keys (prop_hash_mapping c)) ∧
    ∀ k h, named_hash c k h ↔ ∃ n l, occurs cs n k l ∧ h = hash_of l.
Proof using.
  intros Hcs. unfold collect_choices. assert (NoDup (dict_keys (prop_hash_mapping (Collected [] [])))) as Hnd by constructor.
  assert (∀ k h, ¬ named_hash (Collected [] []) k h) as Hno by (by intros k h (hs & [=] & _)).
  enough (∀ c0, NoDup (dict_keys (prop_hash_mapping c0)) → ∃ c,
    fold_res (λ c p, fold_res (collect_prop list_hash p.1) p.2 c) cs c0 = Ok c ∧ NoDup (dict_keys (prop_hash_mapping c)) ∧
    ∀ k h, named_hash c k h ↔ (∃ n l, occurs cs n k l ∧ h = hash_of l) ∨ named_hash c0 k h) as E.
  { destruct (E _ Hnd) as (c & Hc & Hn & Hk). exists c. split; [done|]. split; [done|]. intros k h. rewrite Hk.
    split; [intros [?|Hx]; [done|by destruct (Hno k h)]|by left]. }
  clear Hnd Hno. induction Hcs as [|[n ps] cs Hps _ IH]; intros c0 Hc0.
  - exists c0. split; [done|]. split; [done|]. intros k h. split; [by right|].
    intros [(n & l & (ps & v & a & d & Hin & _) & _)|?]; [by apply elem_of_nil in Hin|done].
  - destruct (collect_props_ok n ps Hps c0 Hc0) as (c1 & E1 & Hc1 & H1).
    destruct (IH c1 Hc1) as (c2 & E2 & Hc2 & H2). exists c2. split; [by simpl; rewrite E1|]. split; [done|].
    intros k h. rewrite H2, H1. split.
    + intros [(n' & l & (ps' & v & a & d & Hin & Hrest) & ->)|[(v & a & d & l & Hin & Hl & ->)|?]]; [left..|by right].
      * exists n', l. split; [|done]. exists ps', v, a, d. split; [by right|done].
      * exists n, l. split; [|done]. exists ps, v, a, d. split; [by left|done].
    + intros [(n' & l & (ps' & v & a & d & [[= -> ->]|Hin]%elem_of_cons & Hk & Hl) & ->)|?];
        [right; left|left|by right; right].
      * by exists v, a, d, l.
      * exists n', l. split; [|done]. by exists ps', v, a, d.
Qed.

(** The name of a property's set of choices *)
Definition own_name (c : collected) (k h : string) : string :=
  enum_name overrides camelize c k (default [] (dict_get (prop_hash_mapping c) k)) h.
Lemma add_names_both c k hs l m h k' : nm_both (fold_left (add_name overrides camelize c k hs) l m) !! (h, k')
  = if decide (k' = k ∧ h ∈ l) then Some (enum_name overrides camelize c k hs h) else nm_both m !! (h, k').
Proof using.
  revert m. induction l as [|h0 l IH]; intros m; cbn [fold_left].
  - rewrite decide_False; [done|]. by intros [_ ?%elem_of_nil].
  - rewrite IH. cbn [add_name nm_both]. destruct (decide (k' = k ∧ h ∈ l)) as [[-> Hl]|Hn].
    + rewrite decide_True; [done|]. split; [done|by right].
    + destruct (decide ((h0, k) = (h, k'))) as [[= -> ->]|Hne].
      * rewrite lookup_insert, decide_True by done. rewrite decide_True; [done|]. split; [done|by left].
      * rewrite lookup_insert_ne by done. rewrite decide_False; [done|].
        intros [-> [->|?]%elem_of_cons]; [done|]. by apply Hn.
Qed.
Lemma add_names_hash c k hs l m h n :
  nm_hash (fold_left (add_name overrides camelize c k hs) l m) !! h = Some n →
  nm_hash m !! h = Some n ∨ h ∈ l ∧ n = enum_name overrides camelize c k hs h.
Proof using.
  revert m. induction l as [|h0 l IH]; intros m; cbn [fold_left]; [by left|].
  intros [Hn|[Hl ->]]%IH; [|right; split; [by right|done]]. revert Hn. cbn [add_name nm_hash].
  destruct (_ =? _)%string.
  - destruct (decide (h0 = h)) as [->|Hne]; [|rewrite lookup_insert_ne by done; by left].
    rewrite lookup_insert, decide_True by done. intros [= <-]. right. split; [by left|done].
  - intros Hn. apply lookup_delete_Some in Hn as [_ Hn]. by left.
Qed.
Lemma name_enums_ok c : NoDup (dict_keys (prop_hash_mapping c)) → let m := name_enums overrides camelize c in
  (∀ k h, named_hash c k h → nm_both m !! (h, k) = Some (own_name c k h)) ∧
  (∀ h n, nm_hash m !! h = Some n → ∃ k, named_hash c k h ∧ n = own_name c k h).
Proof using.
  intros Hnd m.
  assert (∀ k hs, (k, hs) ∈ prop_hash_mapping c → dict_get (prop_hash_mapping c) k = Some hs) as Hin
    by (intros; by apply dict_elem_get).
  enough (∀ l m0, NoDup (dict_keys l) → (∀ p, p ∈ l → p ∈ prop_hash_mapping c) →
    let m := fold_left (add_names overrides camelize c) l m0 in
    (∀ k h, (∃ hs, (k, hs) ∈ l ∧ h ∈ hs) → nm_both m !! (h, k) = Some (own_name c k h)) ∧
    (∀ k h, k ∉ dict_keys l → nm_both m !! (h, k) = nm_both m0 !! (h, k)) ∧
    (∀ h n, nm_hash m !! h = Some n → nm_hash m0 !! h = Some n ∨ ∃ k, named_hash c k h ∧ n = own_name c k h)) as E.
  { destruct (E _ (Names ∅ ∅) Hnd (λ p Hp, Hp)) as (H1 & _ & H3). split.
    - intros k h (hs & Hk & Hh). apply H1. exists hs. split; [by apply dict_get_elem|done].
    - intros h n Hn. destruct (H3 h n Hn) as [Hn'|?]; [cbn [nm_hash] in Hn'; by rewrite lookup_empty in Hn'|done]. }
  clear m Hnd. induction l as [|[k hs] l IH]; intros m0 Hnd Hl.
  - split; [intros k h (hs & []%elem_of_nil & _)|]. split; [done|]. intros h n Hn. by left.
  - unfold dict_keys in Hnd. simpl in Hnd. apply NoDup_cons in Hnd as [Hk Hnd].
    assert (own_name c k = enum_name overrides camelize c k hs) as Eown.
    { unfold own_name. rewrite (Hin k hs) by (apply Hl; by left). done. }
    destruct (IH (add_names overrides camelize c m0 (k, hs)) Hnd) as (H1 & H2 & H3); [intros p Hp; apply Hl; by right|].
    cbn [fold_left]. split; [|split].
    + intros k' h (hs' & [[= -> ->]|Hp]%elem_of_cons & Hh); [|apply H1; by exists hs'].
      rewrite H2 by done. unfold add_names. rewrite add_names_both, decide_True by done. by rewrite Eown.
    + intros k' h Hk'. unfold dict_keys in Hk'. simpl in Hk'. apply not_elem_of_cons in Hk' as [Hne Hk'].
      rewrite H2 by done. unfold add_names. rewrite add_names_both, decide_False; [done|]. by intros [-> _].
    + intros h n [Hn|?]%H3; [|by right]. apply add_names_hash in Hn as [Hn|[Hh ->]]; [by left|right].
      exists k. rewrite Eown. split; [|done]. exists hs. split; [apply Hin, Hl; by left|done].
Qed.
(** The name a property finds is a name of its set of choices. *)
Lemma name_of_ok c k h : NoDup (dict_keys (prop_hash_mapping c)) → named_hash c k h →
  ∃ k', named_hash c k' h ∧ name_of (name_enums overrides camelize c) h k = Ok (own_name c k' h).
Proof using.
  intros Hnd Hk. destruct (name_enums_ok c Hnd) as [Hb Hh]. unfold name_of.
  destruct (nm_hash (name_enums overrides camelize c) !! h) as [n|] eqn:E; cbn [truthy_str];
    [|exists k; by rewrite (Hb k h Hk)].
  destruct (n =? "")%string; [exists k; by rewrite (Hb k h Hk)|].
  destruct (Hh h n E) as (k' & Hk' & ->). by exists k'.
Qed.
End Names.

(** ** The references *)

Lemma get_filter (P : string → bool) (d : list (string * pyval)) k :
  dict_get (List.filter (λ kv, P kv.1) d) k = if P k then dict_get d k else None.
Proof.
  induction d as [|[k' v] d IH]; simpl; [by destruct (P k)|]. destruct (P k') eqn:E; simpl; rewrite IH;
    destruct (decide (k = k')) as [->|]; by rewrite ?E.
Qed.

Lemma py_eqb_blank x : py_eqb (PStr "") x = true ↔ x = PStr "".
Proof. destruct x as [| | |[|a s]| |]; simpl; split; congruence. Qed.
Lemma py_eqb_null x : py_eqb PNone x = true ↔ x = PNone.
Proof. destruct x; simpl; split; congruence. Qed.

(** The choices that are left *)
Definition allowed (hs : hook_settings) (l : list pyval) : list (list pyval) :=
  cleaned l :: (if hs_blank_null hs && existsb (py_eqb (PStr "")) l then [[PStr ""]] else [])
  ++ (if hs_blank_null hs && existsb (py_eqb PNone) l then [[PNone]] else []).
Lemma has_value v l : (∀ y, py_eqb v y = true ↔ y = v) → existsb (py_eqb v) l = true ↔ v ∈ l.
Proof.
  intros Hv. rewrite existsb_exists. split.
  - intros (y & Hy & ->%Hv). by apply list_elem_of_In.
  - intros Hin. exists v. split; [by apply list_elem_of_In|by apply Hv].
Qed.
Lemma elem_cleaned l x : x ∈ cleaned l ↔ x ∈ l ∧ blank_or_null x = false.
Proof. unfold cleaned. rewrite !list_elem_of_In, filter_In, negb_true_iff. done. Qed.
Lemma blank_or_null_iff x : blank_or_null x = true ↔ x = PStr "" ∨ x = PNone.
Proof.
  destruct x as [| | |[|a s]| |]; unfold blank_or_null; simpl; (split; [|intros [?|?]]);
    first [discriminate|by left|by right|done].
Qed.
Lemma elem_optional (b : bool) (v x : pyval) : x ∈ mjoin (if b then [[v]] else []) ↔ b = true ∧ x = v.
Proof.
  destruct b; cbn [mjoin list_join app]; rewrite ?list_elem_of_singleton, ?elem_of_nil; naive_solver.
Qed.
Lemma mjoin_app {A} (l1 l2 : list (list A)) : mjoin (l1 ++ l2) = mjoin l1 ++ mjoin l2.
Proof. induction l1 as [|l l1 IH]; [done|]. change (l ++ mjoin (l1 ++ l2) = (l ++ mjoin l1) ++ mjoin l2). by rewrite IH, app_assoc. Qed.
Lemma allowed_stays hs l x : x ∈ mjoin (allowed hs l) ↔ stays hs l x.
Proof.
  unfold allowed, stays. pose proof (has_value _ l py_eqb_blank) as Hb.
  pose proof (has_value _ l py_eqb_null) as Hn.
  assert (∀ a b c : list (list pyval), x ∈ mjoin (a ++ b ++ c) ↔ x ∈ mjoin a ∨ x ∈ mjoin b ∨ x ∈ mjoin c) as Happ.
  { intros a b c. rewrite <- !elem_of_app. do 2 rewrite <- mjoin_app. done. }
  match goal with |- x ∈ mjoin (_ :: ?b ++ ?c) ↔ _ => change (_ :: b ++ c) with ([cleaned l] ++ b ++ c) end.
  rewrite Happ, !elem_optional, !andb_true_iff, Hb, Hn.
  cbn [mjoin list_join]. rewrite app_nil_r, elem_cleaned. pose proof (blank_or_null_iff x) as Hx. clear Happ Hb Hn.
  split.
  - intros [[? ?]|[[[? ?] ->]|[[? ?] ->]]]; auto.
  - intros [Hin H]. destruct (blank_or_null x); [right|by left]. destruct H as [H|H]; [|done].
    destruct (proj1 Hx eq_refl) as [->| ->]; [left|right]; done.
Qed.
Lemma mapM_app_some {A B} (f : A → option B) l1 l2 r1 r2 :
  mapM f l1 = Some r1 → mapM f l2 = Some r2 → mapM f (l1 ++ l2) = Some (r1 ++ r2).
Proof. intros H1%mapM_Some H2%mapM_Some. apply mapM_Some. by apply Forall2_app. Qed.

Definition reference (n : string) : pyval := PDict [("$ref", PStr ("#/components/schemas/" +:+ n))].

Section References.
Context (hs : hook_settings) (list_hash : list pyval → string) (overrides : list (string * string))
  (safe_ref : pyval → pyval) (camelize : string → string).
(** [safe_ref] wraps a reference that has siblings into an [allOf], and takes
    apart an [allOf] of one: nothing else changes. *)
Context (safe_ref_same : ∀ comps d, dict_get d "allOf" = None →
  dict_get d "$ref" = None ∨ dict_get d "oneOf" = None →
  choices_of comps (safe_ref (PDict d)) = choices_of comps (PDict d)).
Lemma with_refs_choices comps rest refs L :
  (∀ k, k ∈ ["$ref"; "oneOf"; "allOf"] → dict_get rest k = None) → (∃ n refs', refs = reference n :: refs') →
  mapM (ref_choices comps) refs = Some L → choices_of comps (safe_ref (with_refs rest refs)) = Some (mjoin L).
Proof using safe_ref_same.
  intros Hrest (n & refs' & ->) HL. assert (dict_get rest "$ref" = None) as H1 by (apply Hrest; left).
  assert (dict_get rest "oneOf" = None) as H2 by (apply Hrest; right; left).
  assert (dict_get rest "allOf" = None) as H3 by (apply Hrest; right; right; left). destruct refs' as [|r refs'].
  - cbn [with_refs reference dict_update fold_left fst snd].
    rewrite safe_ref_same by (rewrite !dict_get_set; cbn; rewrite ?H1, ?H2, ?H3; auto).
    cbn [mapM] in HL. apply bind_Some in HL as (l & Hl & [= <-]). cbn [mjoin list_join]. rewrite app_nil_r, <- Hl.
    unfold choices_of. rewrite dict_get_set_eq. simpl. rewrite dict_get_set_eq. done.
  - cbn [with_refs reference].
    rewrite safe_ref_same by (rewrite !dict_get_set; cbn; rewrite ?H1, ?H2, ?H3; auto).
    unfold choices_of. rewrite dict_get_set_eq, !dict_get_set. cbn. rewrite H1.
    cbn in HL. by rewrite HL.
Qed.

Context (known : list string) (cs : list (string * properties)) (c : collected).
Abbreviation hash := (hash_of list_hash).
Abbreviation name := (own_name overrides camelize c).
Context (Hnd : NoDup (dict_keys (prop_hash_mapping c)))
  (Hc : ∀ k h, named_hash c k h ↔ ∃ n l, occurs cs n k l ∧ h = hash l).
(** The names are distinct, and so are the hashes. *)
Context (Hnames : ∀ k h k' h', named_hash c k h → named_hash c k' h' → name k h = name k' h' → h = h')
  (Hfresh : ∀ k h, named_hash c k h → name k h ∉ "BlankEnum" :: "NullEnum" :: known)
  (Hblank : "BlankEnum" ∉ known) (Hnull : "NullEnum" ∉ known)
  (Hhash : ∀ n k l n' k' l', occurs cs n k l → occurs cs n' k' l' → hash l = hash l' → cleaned l = cleaned l').

(** The component of a set of choices *)
Definition enum_component (s : pyval) (l : list pyval) : Prop :=
  ∃ e, s = PDict e ∧ dict_get e "enum" = Some (PList l).
Record registered (added : list (string * pyval)) : Prop := {
  rg_enum : ∀ n k l k' s, occurs cs n k l → named_hash c k' (hash l) →
    dict_get added (name k' (hash l)) = Some s → enum_component s (cleaned l);
  rg_blank : ∀ s, dict_get added "BlankEnum" = Some s → enum_component s [PStr ""];
  rg_null : ∀ s, dict_get added "NullEnum" = Some s → enum_component s [PNone];
  rg_fresh : ∀ n s, dict_get added n = Some s → n ∉ known
}.
Definition extends (added added' : list (string * pyval)) : Prop :=
  ∀ n s, dict_get added n = Some s → dict_get added' n = Some s.

Lemma dict_get_snoc {V} (d : list (string * V)) k v k' : dict_get d k = None →
  dict_get (d ++ [(k, v)]) k' = if decide (k' = k) then Some v else dict_get d k'.
Proof using.
  intros Hd. induction d as [|[k0 v0] d IH]; simpl in *; [by destruct (decide (k' = k))|].
  destruct (decide (k = k0)) as [->|]; [done|]. rewrite IH by done.
  destruct (decide (k' = k0)) as [->|]; [by rewrite decide_False by done|done].
Qed.
Lemma ref_reads comps n d s l : dict_get d "$ref" = Some (PStr ("#/components/schemas/" +:+ n)) →
  dict_get comps n = Some s → enum_component s l → ref_choices comps (PDict d) = Some l.
Proof using. intros Hd Hn (e & -> & He). simpl. rewrite Hd. cbn [drop_str String.append]. by rewrite Hn, He. Qed.

(** Registering a component under a name that is not known *)
Lemma create_ok n s l added : n ∉ known → enum_component s l →
  (∀ s, dict_get added n = Some s → enum_component s l) →
  ∃ added', create_enum_component known n s added = (Ok (reference n), added') ∧ extends added added' ∧
    (∀ n', n' ≠ n → dict_get added' n' = dict_get added n') ∧
    ∃ s', dict_get added' n = Some s' ∧ enum_component s' l.
Proof using.
  intros Hn Hs Hold. unfold create_enum_component. rewrite bool_decide_eq_false_2 by done. simpl.
  unfold dict_has. destruct (dict_get added n) as [s'|] eqn:E.
  - exists added. split; [done|]. split; [by intros ? ?|]. split; [done|]. exists s'. split; [done|]. by apply Hold.
  - exists (added ++ [(n, s)]). split; [done|]. split; [|split].
    + intros n' x Hx. rewrite dict_get_snoc by done. destruct (decide (n' = n)) as [->|]; congruence.
    + intros n' Hne. rewrite dict_get_snoc by done. by rewrite decide_False.
    + exists s. split; [|done]. rewrite dict_get_snoc by done. by rewrite decide_True.
Qed.

Lemma registered_keep added added' n : n ∉ known → registered added → extends added added' →
  (∀ n', n' ≠ n → dict_get added' n' = dict_get added n') →
  (∀ m k l k' s, occurs cs m k l → named_hash c k' (hash l) → name k' (hash l) = n →
    dict_get added' n = Some s → enum_component s (cleaned l)) →
  (n = "BlankEnum" → ∀ s, dict_get added' n = Some s → enum_component s [PStr ""]) →
  (n = "NullEnum" → ∀ s, dict_get added' n = Some s → enum_component s [PNone]) → registered added'.
Proof using.
  intros Hkn [R1 R2 R3 R4] He Hn H1 H2 H3. split; [..|intros n' s Hs;
    destruct (decide (n' = n)) as [->|E]; [done|]; rewrite Hn in Hs by done; by eapply R4].
  - intros m k l k' s Ho Hk Hs. destruct (decide (name k' (hash l) = n)) as [E|E].
    + rewrite E in Hs. by eapply H1.
    + rewrite Hn in Hs by done. by eapply R1.
  - intros s Hs. destruct (decide (n = "BlankEnum")) as [->|E]; [by apply H2|].
    rewrite Hn in Hs by done. by apply R2.
  - intros s Hs. destruct (decide (n = "NullEnum")) as [->|E]; [by apply H3|].
    rewrite Hn in Hs by done. by apply R3.
Qed.
(** What a step of the pass leaves: more components, in which the references it
    gives lead to the choices *)
Definition step_ok (added added' : list (string * pyval)) (refs : list pyval) (L : list (list pyval)) : Prop :=
  registered added' ∧ extends added added' ∧
  ∀ comps, extends added' comps → mapM (ref_choices comps) refs = Some L.
Lemma reference_reads comps n s l : dict_get comps n = Some s → enum_component s l →
  ref_choices comps (reference n) = Some l.
Proof using. intros Hn Hs. by eapply ref_reads. Qed.
Lemma register_enum n k l k' e added : registered added → occurs cs n k l → named_hash c k' (hash l) →
  dict_get e "enum" = Some (PList (cleaned l)) →
  ∃ added', create_enum_component known (name k' (hash l)) (PDict e) added
      = (Ok (reference (name k' (hash l))), added') ∧
    step_ok added added' [reference (name k' (hash l))] [cleaned l].
Proof using Hc Hnames Hfresh Hhash.
  intros R Ho Hk He. pose proof (Hfresh _ _ Hk) as Hf. apply not_elem_of_cons in Hf as [Hb Hf].
  apply not_elem_of_cons in Hf as [Hn Hf].
  destruct (create_ok (name k' (hash l)) (PDict e) (cleaned l) added) as (added' & Hr & Hext & Hother & s' & Hs' & Hs);
    [done|by exists e|by intros s Hs; eapply rg_enum|].
  exists added'. split; [done|]. split; [|split; [done|]].
  - apply (registered_keep added added' (name k' (hash l))); [done|done|done|done| |congruence|congruence].
    intros m k2 l2 k3 s Ho2 Hk2 Hname Hs2. assert (s = s') as -> by congruence.
    rewrite (Hhash _ _ _ _ _ _ Ho2 Ho); [done|]. by eapply Hnames.
  - intros comps Hcomps. cbn [mapM]. by rewrite (reference_reads _ _ s' (cleaned l)) by auto.
Qed.
(** The component of the blank choice, or of the null *)
Lemma register_special n v (b : bool) added : n = "BlankEnum" ∧ v = PStr "" ∨ n = "NullEnum" ∧ v = PNone →
  registered added →
  ∃ refs added', (if b then c ← create_enum_component known n (PDict [("enum", PList [v])]); mret [c] else mret []) added
      = (Ok refs, added') ∧ (∀ x, x ∈ refs → ∃ n, x = reference n) ∧
    step_ok added added' refs (if b then [[v]] else []).
Proof using Hfresh Hblank Hnull.
  intros Hn R. destruct b; [|exists [], added; split; [done|]; split; [by intros x []%elem_of_nil|];
    split; [done|]; split; [by intros ? ?|by intros ? ?]].
  destruct (create_ok n (PDict [("enum", PList [v])]) [v] added) as (added' & Hr & Hext & Hother & s' & Hs' & Hs).
  { by destruct Hn as [[-> _]|[-> _]]. }
  { by eexists. }
  { intros s Hs. destruct Hn as [[-> ->]|[-> ->]]; [by apply (rg_blank _ R)|by apply (rg_null _ R)]. }
  exists [reference n], added'. rewrite (bind_ok _ _ _ _ _ Hr). split; [done|].
  split; [intros x Hx; apply list_elem_of_singleton in Hx as ->; by exists n|]. split; [|split; [done|]].
  - apply (registered_keep added added' n); [|done|done|done| | |].
    + by destruct Hn as [[-> _]|[-> _]].
    + intros m k l k' s Ho Hk E _. pose proof (Hfresh _ _ Hk) as Hf. rewrite E in Hf.
      exfalso. apply Hf. destruct Hn as [[-> _]|[-> _]]; [left|right; left].
    + intros -> s Hs2. destruct Hn as [[_ ->]|[? _]]; [|done]. congruence.
    + intros -> s Hs2. destruct Hn as [[? _]|[_ ->]]; [done|]. congruence.
  - intros comps Hcomps. cbn [mapM]. by rewrite (reference_reads _ _ s' [v]) by auto.
Qed.
Lemma extends_trans a1 a2 a3 : extends a1 a2 → extends a2 a3 → extends a1 a3.
Proof using. intros H1 H2 n s Hn. by apply H2, H1. Qed.

(** The references that take the place of the choices of a property *)
Lemma get_in_schema ks d k : dict_get (in_schema ks d) k = if bool_decide (k ∈ ks) then dict_get d k else None.
Proof using. exact (get_filter (λ k, bool_decide (k ∈ ks)) d k). Qed.
Lemma get_out_of_schema ks d k : dict_get (out_of_schema ks d) k = if bool_decide (k ∈ ks) then None else dict_get d k.
Proof using.
  etransitivity; [exact (get_filter (λ k, negb (bool_decide (k ∈ ks))) d k)|]. by destruct (bool_decide _).
Qed.
Lemma rest_reads ks d k v : k ∉ ks → "enum" ∈ ks → dict_get (out_of_schema ks (dict_set d "enum" v)) k = dict_get d k.
Proof using.
  intros Hk He. rewrite get_out_of_schema, bool_decide_eq_false_2, dict_get_set, decide_False by (done || by intros ->). done.
Qed.
Lemma enum_ref_ok n k l d added : registered added → occurs cs n k l →
  dict_get d "$ref" = None → dict_get d "oneOf" = None → dict_get d "allOf" = None →
  ∃ v added', enum_ref hs list_hash safe_ref known (name_enums overrides camelize c) k d l added = (Ok v, added') ∧
    registered added' ∧ extends added added' ∧
    ∀ comps, extends added' comps → choices_of comps v = Some (mjoin (allowed hs l)).
Proof using safe_ref_same Hnd Hc Hnames Hfresh Hblank Hnull Hhash.
  intros R Ho Hd1 Hd2 Hd3. assert (named_hash c k (hash l)) as Hk by (apply Hc; by exists n, l).
  unfold enum_ref. set (d' := dict_set d "enum" _).
  destruct (name_of_ok overrides camelize c k (hash l) Hnd Hk) as (k' & Hk' & Hname).
  rewrite (bind_ok (lift _) _ added (name k' (hash l)) added) by (unfold lift, hash_of in *; by rewrite Hname).
  destruct (register_enum n k l k' (in_schema ["type"; "enum"] d') added R Ho Hk') as (a1 & E1 & R1 & X1 & C1).
  { rewrite get_in_schema. unfold d'. by rewrite dict_get_set_eq. }
  rewrite (bind_ok _ _ _ _ _ E1).
  destruct (register_special "BlankEnum" (PStr "") (hs_blank_null hs && existsb (py_eqb (PStr "")) l) a1)
    as (blank & a2 & E2 & F2 & R2 & X2 & C2); [by left|done|]. rewrite (bind_ok _ _ _ _ _ E2).
  destruct (register_special "NullEnum" PNone (hs_blank_null hs && existsb (py_eqb PNone) l) a2)
    as (null & a3 & E3 & F3 & R3 & X3 & C3); [by right|done|]. rewrite (bind_ok _ _ _ _ _ E3).
  assert (extends a1 a3) as X13 by by eapply extends_trans.
  assert (∀ comps, extends a3 comps →
    mapM (ref_choices comps) (reference (name k' (hash l)) :: blank ++ null) = Some (allowed hs l)) as HC.
  { intros comps Hcomps. assert (extends a1 comps) by by eapply extends_trans.
    assert (extends a2 comps) by by eapply extends_trans.
    apply (mapM_app_some _ [_] (blank ++ null) [_]); [by apply C1|]. apply mapM_app_some; [by apply C2|by apply C3]. }
  eexists _, a3. split; [reflexivity|]. split; [done|]. split; [by eapply extends_trans|].
  intros comps Hcomps. apply with_refs_choices; [| |by apply HC].
  - intros k0 Hk0. unfold d'. rewrite rest_reads by (set_solver +Hk0).
    by apply elem_of_cons in Hk0 as [->|[->|[->|[]%elem_of_nil]%elem_of_cons]%elem_of_cons].
  - exists (name k' (hash l)), (blank ++ null). done.
Qed.
Lemma replace_prop_ok n ps k v added : registered added → (n, ps) ∈ cs → (k, v) ∈ ps → prop_ok v →
  ∃ kv' added', replace_prop hs list_hash safe_ref known (name_enums overrides camelize c) (k, v) added = (Ok kv', added') ∧
    registered added' ∧ extends added added' ∧
    ∀ comps, extends added' comps → keeps_choices hs comps (k, v) kv'.
Proof using safe_ref_same Hnd Hc Hnames Hfresh Hblank Hnull Hhash.
  intros R Hn Hk [(a & w & Hi & He)|(a & d & l & Hl)]; unfold replace_prop; cbn [fst snd].
  - exists (k, v), added. rewrite (bind_ok (lift _) _ added (a, w) added) by (unfold lift; by rewrite Hi).
    rewrite (bind_ok (lift _) _ added None added) by (unfold lift; by rewrite He).
    split; [done|]. split; [done|]. split; [by intros ? ?|]. intros comps _. split; [done|]. split; [done|].
    intros a' d l Hl. destruct (has_enum _ _ _ _ Hl) as [Hi' He']. simpl in Hi'. exfalso. congruence.
  - destruct (has_enum _ _ _ _ Hl) as [Hi He]. pose proof Hl as (_ & _ & Hd1 & Hd2 & Hd3).
    rewrite (bind_ok (lift _) _ added (a, PDict d) added) by (unfold lift; by rewrite Hi).
    rewrite (bind_ok (lift _) _ added (Some l) added) by (unfold lift; by rewrite He).
    rewrite (bind_ok (lift _) _ added d added) by done.
    destruct (enum_ref_ok n k l d added R) as (u & added' & Hr & R' & X & HC); [by exists ps, v, a, d|done..|].
    rewrite (bind_ok _ _ _ _ _ Hr).
    assert (∀ kv', (if a then setitem v "items" u = Ok kv' else kv' = u) → ∀ comps, extends added' comps →
      keeps_choices hs comps (k, v) (k, kv')) as Hkeep.
    { intros kv' Hkv comps Hcomps. split; [done|]. split.
      - intros (a' & w & Hi' & He'). simpl in Hi'. exfalso. congruence.
      - intros a' d' l' Hl'. destruct (has_enum _ _ _ _ Hl') as [Hi' He']. simpl in Hi'.
        assert (a' = a ∧ d' = d ∧ l' = l) as (-> & -> & ->) by (split_and!; congruence).
        exists u, (mjoin (allowed hs l)). split; [done|]. split; [by apply HC|]. intros x. apply allowed_stays. }
    destruct a.
    + assert (∃ d0, v = PDict d0) as [d0 ->] by (destruct v; try done; by eexists).
      eexists _, added'. rewrite (bind_ok (lift _) _ added' (PDict (dict_set d0 "items" u)) added') by done.
      split; [done|]. split; [done|]. split; [done|]. by apply Hkeep.
    + eexists _, added'. split; [done|]. split; [done|]. split; [done|]. by apply Hkeep.
Qed.
Lemma replace_props_ok n ps : (n, ps) ∈ cs → ∀ l, (∀ kv, kv ∈ l → kv ∈ ps ∧ prop_ok kv.2) → ∀ added, registered added →
  ∃ l' added', map_each l (replace_prop hs list_hash safe_ref known (name_enums overrides camelize c)) added = (Ok l', added') ∧
    registered added' ∧ extends added added' ∧
    ∀ comps, extends added' comps → Forall2 (keeps_choices hs comps) l l'.
Proof using safe_ref_same Hnd Hc Hnames Hfresh Hblank Hnull Hhash.
  intros Hn. induction l as [|[k v] l IH]; intros Hl added R.
  - exists [], added. split; [done|]. split; [done|]. split; [by intros ? ?|by intros; constructor].
  - destruct (Hl (k, v)) as [Hk Hv]; [by left|].
    destruct (replace_prop_ok n ps k v added R Hn Hk Hv) as (kv' & a1 & E1 & R1 & X1 & K1).
    destruct (IH (λ kv Hkv, Hl kv (list_elem_of_further _ _ _ Hkv)) a1 R1) as (l' & a2 & E2 & R2 & X2 & K2).
    exists (kv' :: l'), a2. cbn [map_each]. rewrite (bind_ok _ _ _ _ _ E1), (bind_ok _ _ _ _ _ E2).
    split; [done|]. split; [done|]. split; [by eapply extends_trans|]. intros comps Hcomps.
    constructor; [apply K1; by eapply extends_trans|by apply K2].
Qed.
Definition keeps_all (comps : list (string * pyval)) (p p' : string * properties) : Prop :=
  p'.1 = p.1 ∧ Forall2 (keeps_choices hs comps) p.2 p'.2.
Lemma containers_ok l : (∀ p, p ∈ l → p ∈ cs ∧ Forall (λ kv, prop_ok kv.2) p.2) → ∀ added, registered added →
  ∃ l' added', run_each (λ ps, map_each ps
      (replace_prop hs list_hash safe_ref known (name_enums overrides camelize c))) l added = (Ok l', added') ∧
    registered added' ∧ extends added added' ∧
    ∀ comps, extends added' comps → Forall2 (keeps_all comps) l l'.
Proof using safe_ref_same Hnd Hc Hnames Hfresh Hblank Hnull Hhash.
  unfold run_each. induction l as [|[n ps] l IH]; intros Hl added R.
  - exists [], added. split; [done|]. split; [done|]. split; [by intros ? ?|by intros; constructor].
  - destruct (Hl (n, ps)) as [Hn Hps]; [by left|]. rewrite Forall_forall in Hps.
    destruct (replace_props_ok n ps Hn ps (λ kv Hkv, conj Hkv (Hps kv Hkv)) added R) as (ps' & a1 & E1 & R1 & X1 & K1).
    destruct (IH (λ p Hp, Hl p (list_elem_of_further _ _ _ Hp)) a1 R1) as (l' & a2 & E2 & R2 & X2 & K2).
    exists ((n, ps') :: l'), a2. cbn [map_each fst snd]. rewrite (bind_ok _ _ added (n, ps') a1)
      by (by rewrite (bind_ok _ _ _ _ _ E1)). rewrite (bind_ok _ _ _ _ _ E2).
    split; [done|]. split; [done|]. split; [by eapply extends_trans|]. intros comps Hcomps.
    constructor; [split; [done|]; apply K1; by eapply extends_trans|by apply K2].
Qed.
End References.

(** ** The theorem *)

(** No two sets of choices of the document have the same hash or the same name,
    and no name is that of another component. *)
Record unambiguous (list_hash : list pyval → string) (overrides : list (string * string))
    (camelize : string → string) (known : list string) (cs : list (string * properties)) (c : collected) : Prop := {
  un_names k h k' h' : named_hash c k h → named_hash c k' h' →
    own_name overrides camelize c k h = own_name overrides camelize c k' h' → h = h';
  un_fresh k h : named_hash c k h → own_name overrides camelize c k h ∉ "BlankEnum" :: "NullEnum" :: known;
  un_blank : "BlankEnum" ∉ known;
  un_null : "NullEnum" ∉ known;
  un_hash n k l n' k' l' : occurs cs n k l → occurs cs n' k' l' →
    hash_of list_hash l = hash_of list_hash l' → cleaned l = cleaned l'
}.

(** The hook for enumerations loses no choice.  On a document whose
    properties are well formed and whose sets of choices get distinct names, the
    hook succeeds, keeps the components and their properties in place, and every
    property that had choices now refers, itself or its items, to components of
    the resulting document that hold the same choices, the blank ones and the
    null when the settings ask for them; properties without choices are as they
    were. *)
Theorem enum_choices_kept hs list_hash overrides safe_ref camelize schemas cs c :
  (∀ comps d, dict_get d "allOf" = None → dict_get d "$ref" = None ∨ dict_get d "oneOf" = None →
    choices_of comps (safe_ref (PDict d)) = choices_of comps (PDict d)) →
  iter_prop_containers hs "" (PDict schemas) = Ok cs → Forall (λ p, Forall (λ kv, prop_ok kv.2) p.2) cs →
  collect_choices list_hash cs = Ok c → unambiguous list_hash overrides camelize (dict_keys schemas) cs c →
  ∃ schemas' added cs',
    postprocess_schema_enums hs list_hash overrides safe_ref camelize schemas = Ok (schemas', added) ∧
    dict_keys schemas' = dict_keys schemas ∧ iter_prop_containers hs "" (PDict schemas') = Ok cs' ∧
    Forall2 (keeps_all hs (schemas' ++ added)) cs cs'.
Proof.
  intros Hsafe Hcs Hok Hcol [U1 U2 U3 U4 U5]. destruct (collect_ok list_hash cs Hok) as (c' & Hc' & Hnd & Hc).
  assert (c' = c) as -> by congruence. set (body := λ ps, map_each ps
    (replace_prop hs list_hash safe_ref (dict_keys schemas) (name_enums overrides camelize c))).
  destruct (containers_ok hs list_hash overrides safe_ref camelize Hsafe (dict_keys schemas) cs c Hnd Hc U1 U2 U3 U4 U5 cs)
    with (added := @nil (string * pyval)) as (cs' & added & Hrun & R & _ & K).
  { rewrite Forall_forall in Hok. intros p Hp. by split; [|apply Hok]. }
  { by split. }
  destruct (rewrite_follows hs body) with (v := PDict schemas) (name := "") (cs := cs) (s := @nil (string * pyval))
    (cs' := cs') (s' := added) as (v' & Hw & Hi); [|done|exact Hrun|].
  { intros [|kv ps] s ps' s' Hps; [done|]. intros _ ->. unfold body in Hps. cbn [map_each] in Hps.
    apply bind_inv in Hps as (y & s1 & _ & Hps). by apply bind_inv in Hps as (ys & s2 & _ & [= <-]). }
  destruct (rewrite_keys hs body _ _ _ _ Hw) as (schemas' & -> & Hkeys).
  exists schemas', added, cs'. split; [|split; [done|split; [done|]]].
  - unfold postprocess_schema_enums. rewrite Hcs. cbn [mbind res_bind]. rewrite Hcol. cbn [mbind res_bind].
    fold body. by rewrite Hw.
  - apply K. intros n s Hn. pose proof (rg_fresh _ _ _ _ _ _ _ R _ _ Hn) as Hf. rewrite <- Hkeys in Hf.
    apply dict_get_None in Hf. clear -Hn Hf. induction schemas' as [|[k v] d IH]; [done|]. simpl in *.
    destruct (decide (n = k)); [done|by apply IH].
Qed.

(** ** Concrete documents *)

(** [safe_ref] and [camelize] as they are documented, and a hash without
    collisions: the choices themselves, one after the other *)
Definition demo_safe_ref (v : pyval) : pyval :=
  match v with
  | PDict d =>
      match dict_get d "$ref", d with
      | Some r, _ :: _ :: _ => PDict (("allOf", PList [PDict [("$ref", r)]]) :: out_of_schema ["$ref"] d)
      | _, _ => v
      end
  | v => v
  end.
Fixpoint camelize_from (up : bool) (s : string) : string :=
  match s with
  | EmptyString => ""
  | String "_" s' => camelize_from true s'
  | String c s' => String (if up then upper_char c else c) (camelize_from false s')
  end.
Definition demo_camelize : string → string := camelize_from true.
Definition demo_hash (l : list pyval) : string :=
  join "," ((λ v, match v with PStr s => s | _ => "?" end) <$> l).

Definition choice (extra : list (string * pyval)) (l : list pyval) : pyval :=
  PDict (("type", PStr "string") :: ("enum", PList l) :: extra).
Definition demo_schemas : list (string * pyval) :=
  [("Bill", PDict [("type", PStr "object"); ("properties", PDict
      [("status", choice [] [PStr "paid"; PNone]); ("total", PDict [("type", PStr "integer")])])]);
   ("OrderRequest", PDict [("oneOf", PList [PDict [("properties", PDict
      [("status", choice [("description", PStr "state")] [PStr "open"; PStr "closed"; PStr ""]);
       ("sizes", PDict [("type", PStr "array"); ("items", choice [] [PStr "s"; PStr "m"])])])]])])].
Definition demo_settings : hook_settings := HookSettings true true true "ErrorComponent".
Definition demo_containers : list (string * list (string * pyval)) :=
  match iter_prop_containers demo_settings "" (PDict demo_schemas) with Ok cs => cs | Raise _ => [] end.
Definition demo_collected : collected :=
  match collect_choices demo_hash demo_containers with Ok c => c | Raise _ => Collected [] [] end.
Example demo_components : match postprocess_schema_enums demo_settings demo_hash [] demo_safe_ref demo_camelize demo_schemas with
  | Ok (_, added) => dict_keys added = ["BillStatusEnum"; "NullEnum"; "OrderStatusEnum"; "BlankEnum"; "SizesEnum"]
  | Raise _ => False
  end.
Proof. vm_compute. reflexivity. Qed.

(** Two properties whose names are the same once they are camelized: the
    second refers to the choices of the first. *)
Definition clashing_schemas : list (string * pyval) :=
  [("Pair", PDict [("properties", PDict
      [("unit_code", choice [] [PStr "kg"]); ("unitCode", choice [] [PStr "eur"])])])].
Example clashing_names_lose_choices : ∃ schemas' added v,
  postprocess_schema_enums demo_settings demo_hash [] demo_safe_ref demo_camelize clashing_schemas = Ok (schemas', added) ∧
  iter_prop_containers demo_settings "" (PDict schemas')
    = Ok [("Pair", [("unit_code", reference "UnitCodeEnum"); ("unitCode", v)])] ∧
  v = reference "UnitCodeEnum" ∧ choices_of (schemas' ++ added) v = Some [PStr "kg"].
Proof. do 3 eexists. split_and!; vm_compute; reflexivity. Qed.

Lemma demo_safe_ref_same comps d : dict_get d "allOf" = None → dict_get d "$ref" = None ∨ dict_get d "oneOf" = None →
  choices_of comps (demo_safe_ref (PDict d)) = choices_of comps (PDict d).
Proof.
  intros Ha Hr. unfold demo_safe_ref. destruct (dict_get d "$ref") as [r|] eqn:E; [|done].
  destruct Hr as [Hr|Ho]; [done|]. destruct d as [|kv [|kv' d]]; [done..|].
  revert E Ha Ho. generalize (kv :: kv' :: d). clear. intros d E Ha Ho. unfold choices_of. cbn [dict_get]. rewrite !decide_False by done. rewrite !get_out_of_schema, decide_True by done.
  rewrite bool_decide_eq_true_2 by set_solver. rewrite bool_decide_eq_false_2 by set_solver.
  rewrite E, Ho. simpl. by rewrite E.
Qed.
(** The occurrences of choices in the document *)
Definition demo_occurrences : list (string * string * list pyval) :=
  [("Bill", "status", [PStr "paid"; PNone]); ("Order", "status", [PStr "open"; PStr "closed"; PStr ""]);
   ("Order", "sizes", [PStr "s"; PStr "m"])].
Lemma demo_containers_eq : demo_containers =
  [("Bill", [("status", choice [] [PStr "paid"; PNone]); ("total", PDict [("type", PStr "integer")])]);
   ("Order", [("status", choice [("description", PStr "state")] [PStr "open"; PStr "closed"; PStr ""]);
     ("sizes", PDict [("type", PStr "array"); ("items", choice [] [PStr "s"; PStr "m"])])])].
Proof. vm_compute. reflexivity. Qed.
Lemma demo_props_ok : Forall (λ p, Forall (λ kv, prop_ok kv.2) p.2) demo_containers.
Proof.
  rewrite demo_containers_eq. repeat (apply Forall_cons; split); try (by apply Forall_nil); cbn [snd];
    first [right; do 3 eexists; split_and!; vm_compute; reflexivity | left; do 2 eexists; split; vm_compute; reflexivity].
Qed.
Lemma demo_occurs n k l : occurs demo_containers n k l → (n, k, l) ∈ demo_occurrences.
Proof.
  rewrite demo_containers_eq. intros (ps & v & a & d & Hp & Hv & Hi & He & _).
  repeat (apply elem_of_cons in Hp as [[= -> ->]|Hp]); [..|by apply elem_of_nil in Hp];
  repeat (apply elem_of_cons in Hv as [[= -> ->]|Hv]); try (by apply elem_of_nil in Hv);
  vm_compute in Hi; injection Hi as <- <-; vm_compute in He; try discriminate He; injection He as <-; set_solver.
Qed.
Lemma demo_named k h : named_hash demo_collected k h → (k, h) ∈ [("status", "paid"); ("status", "open,closed"); ("sizes", "s,m")].
Proof.
  destruct (collect_ok demo_hash demo_containers demo_props_ok) as (c & Hc & _ & Hn).
  assert (c = demo_collected) as -> by (unfold demo_collected; by rewrite Hc).
  intros (n & l & Ho & ->)%Hn. apply demo_occurs in Ho.
  repeat (apply elem_of_cons in Ho as [[= -> -> ->]|Ho]); [..|by apply elem_of_nil in Ho]; vm_compute; set_solver.
Qed.
Lemma demo_unambiguous : unambiguous demo_hash [] demo_camelize (dict_keys demo_schemas) demo_containers demo_collected.
Proof.
  split.
  - intros k h k' h' Hk%demo_named Hk'%demo_named.
    repeat (apply elem_of_cons in Hk as [[= -> ->]|Hk]); try (by apply elem_of_nil in Hk);
    repeat (apply elem_of_cons in Hk' as [[= -> ->]|Hk']); try (by apply elem_of_nil in Hk');
    vm_compute; congruence.
  - intros k h Hk%demo_named. repeat (apply elem_of_cons in Hk as [[= -> ->]|Hk]); try (by apply elem_of_nil in Hk);
    apply (bool_decide_unpack _); vm_compute; exact I.
  - apply (bool_decide_unpack _). vm_compute. exact I.
  - apply (bool_decide_unpack _). vm_compute. exact I.
  - intros n k l n' k' l' Ho%demo_occurs Ho'%demo_occurs.
    repeat (apply elem_of_cons in Ho as [[= -> -> ->]|Ho]); try (by apply elem_of_nil in Ho);
    repeat (apply elem_of_cons in Ho' as [[= -> -> ->]|Ho']); try (by apply elem_of_nil in Ho');
    vm_compute; congruence.
Qed.
Lemma enum_choices_kept_witness : ∃ schemas' added cs',
  postprocess_schema_enums demo_settings demo_hash [] demo_safe_ref demo_camelize demo_schemas = Ok (schemas', added) ∧
  iter_prop_containers demo_settings "" (PDict schemas') = Ok cs' ∧
  Forall2 (keeps_all demo_settings (schemas' ++ added)) demo_containers cs'.
Proof.
  destruct (enum_choices_kept demo_settings demo_hash [] demo_safe_ref demo_camelize demo_schemas demo_containers
    demo_collected demo_safe_ref_same) as (schemas' & added & cs' & H1 & _ & H2 & H3).
  - vm_compute. reflexivity.
  - exact demo_props_ok.
  - vm_compute. reflexivity.
  - exact demo_unambiguous.
  - exists schemas', added, cs'. split; [exact H1|]. split; [exact H2|exact H3].
Defined.
