(* ===== verification/Storage.v ===== *)
(** * File storage (workflow/storage.py, the Storage facade of workflow/finmars.py)

    [EncryptedStorage] encrypts what the backend stores and [FinmarsStorage]
    overwrites instead of renaming; the facade puts the code of the current space
    before every name.  The backends (S3, Azure, SFTP, the file system) and
    AES-GCM are parameters. *)
From Stdlib Require Import Ascii String.
From stdpp Require Import base list strings numbers gmap sets.
From S2P Require Import Prelude PyStr PyVal Json World Demo Paths Finmars.
Local Open Scope string_scope.
Local Open Scope Z_scope.
Local Open Scope list_scope.

(** ** The backend *)

(** What Django's storage classes and their SDKs do: [raw_read] is [_open] and
    [read], [raw_write] is [_save], [raw_remove] is [delete], [raw_listdir] is
    [listdir] (directories and files), [raw_free_name] is [get_available_name],
    [valid_name] is [validate_file_name], which [Storage.save] asks first: it
    refuses absolute paths and the component "..". *)
Class RawStorage : Type := {
  raw : Type;
  raw_read : raw → string → option string;
  raw_write : string → string → raw → raw;
  raw_remove : string → raw → raw;
  raw_listdir : raw → string → res (list string * list string);
  raw_free_name : raw → string → string;
  valid_name : string → bool
}.
(** A component of a path that [normpath] keeps *)
Definition plain_component (c : string) : Prop :=
  has_char c_slash c = false ∧ c ≠ "" ∧ c ≠ "." ∧ c ≠ "..".
Class RawStorageOk `{RawStorage} : Prop := {
  raw_read_write s name content : raw_read (raw_write name content s) name = Some content;
  raw_read_remove s name : raw_read (raw_remove name s) name = None;
  raw_free s name : raw_read s name = None → raw_free_name s name = name;
  valid_plain comps : comps ≠ [] → Forall plain_component comps → valid_name (join "/" comps) = true;
  invalid_absolute name : startswith name "/" = true → valid_name name = false;
  invalid_parent name : ".." ∈ split c_slash name → valid_name name = false
}.

(** AES-GCM without associated data, and the settings: SERVER_TYPE is "local",
    ENCRYPTION_KEY, MEDIA_ROOT *)
Class Crypto : Type := {
  aes_encrypt : string → string → string → string;
  aes_decrypt : string → string → string → option string;
  urandom12 : nat → string;
  server_local : bool;
  encryption_key : string;
  media_root : string
}.
Class CryptoOk `{Crypto} : Prop := {
  aes_roundtrip key nonce m : aes_decrypt key nonce (aes_encrypt key nonce m) = Some m;
  urandom_length n : String.length (urandom12 n) = 12%nat
}.

(** [bytes.fromhex] of a string without spaces *)
Fixpoint fromhex (s : string) : res string :=
  match s with
  | EmptyString => Ok ""
  | String a (String b s) =>
      match hex_value a, hex_value b with
      | Some x, Some y => r ← fromhex s; Ok (String (chr (16 * x + y)) r)
      | _, _ => Raise ValueError
      end
  | _ => Raise ValueError
  end.

(** The state behind a storage object: the backend, the nonces drawn *)
Record store `{RawStorage} : Type := Store { st_raw : raw; st_nonces : nat }.

(** What reading an open file gives: text in the local mode ["r"], else bytes *)
Inductive file_data : Type := Text (s : string) | Bytes (s : string).

Section Encrypted.
Context `{RawStorage} `{Crypto}.

(** [get_symmetric_key]: the vault is not implemented and gives [None]. *)
Definition get_symmetric_key : res (option string) :=
  if String.eqb encryption_key "" then Ok None
  else k ← fromhex encryption_key; Ok (Some k).
(** [AESGCM(key)]: a key of 128, 192 or 256 bits *)
Definition aesgcm_key (key : option string) : res string :=
  match key with
  | None => Raise TypeError
  | Some k => if bool_decide (String.length k ∈ [16; 24; 32]%nat) then Ok k else Raise ValueError
  end.

Context (key : option string).

(** [_encrypt_file] *)
Definition encrypt_file (content : string) : ST store string := λ s,
  let nonce := urandom12 (st_nonces s) in
  let s' := Store _ (st_raw s) (S (st_nonces s)) in
  match aesgcm_key key with
  | Ok k => (Ok (nonce +:+ aes_encrypt k nonce content), s')
  | Raise e => (Raise e, s')
  end.
(** [_decrypt_file] *)
Definition decrypt_file (encrypted_data : string) : res string :=
  let nonce := take_str 12 encrypted_data in
  let ciphertext := drop_str 12 encrypted_data in
  k ← aesgcm_key key;
  match aes_decrypt k nonce ciphertext with
  | Some m => Ok m
  | None => Raise (PyException "InvalidTag")
  end.

(** [open(name, mode)] and [read()]: [EncryptedStorage._open] *)
Definition read_file (name mode : string) : ST store file_data := λ s,
  match raw_read (st_raw s) name with
  | None => (Raise (PyException "No such file"), s)
  | Some c =>
      if server_local then
        ((if String.eqb mode "r" then c ← decode c; Ok (Text c) else Ok (Bytes c)), s)
      else match decrypt_file c with
           | Ok m => (Ok (Bytes m), s)
           | Raise e => (Raise e, s)
           end
  end.
Definition write_raw (name content : string) : ST store unit :=
  modify (λ s, Store _ (raw_write name content (st_raw s)) (st_nonces s)).
Definition delete_file (name : string) : ST store unit :=
  modify (λ s, Store _ (raw_remove name (st_raw s)) (st_nonces s)).
Definition file_exists (name : string) : ST store bool :=
  gets (λ s, bool_decide (is_Some (raw_read (st_raw s) name))).
(** [EncryptedStorage._save] *)
Definition save_content (name content : string) : ST store unit :=
  if server_local then write_raw name content
  else c ← encrypt_file content; write_raw name c.
(** [FinmarsStorage.get_available_name]: the file of that name is deleted first. *)
Definition get_available_name (name : string) : ST store string :=
  _ ← delete_file name; gets (λ s, raw_free_name (st_raw s) name).
(** [Storage.save(name, content)] *)
Definition save_file (name content : string) : ST store string :=
  if negb (valid_name name) then raise (PyException "SuspiciousFileOperation")
  else name ← get_available_name name; _ ← save_content name content; mret name.
(** [FinmarsStorage.folder_exists_and_has_files]: the pair of [listdir] is taken
    apart as [files, folders]. *)
Definition folder_exists_and_has_files (folder_path : string) : ST store bool :=
  let folder_path := if endswith folder_path "/" then folder_path else folder_path +:+ "/" in
  gets (λ s, match raw_listdir (st_raw s) folder_path with
             | Ok (files, folders) => negb (bool_decide (files = []))
             | Raise _ => false
             end).
End Encrypted.

(** [FinmarsLocalFileSystemStorage.path] *)
Definition local_path `{Crypto} (name : string) : res string :=
  c ← first_char name;
  Ok (if Ascii.eqb c c_slash then media_root +:+ name else media_root +:+ "/" +:+ name).

(** The settings that choose the backend, and [get_storage] *)
Inductive backend : Type := SFTP | S3 | Azure | LocalFileSystem.
Record storage_settings : Type := StorageSettings {
  sftp_storage_host : string;
  aws_s3_access_key_id : string;
  azure_account_key : string;
  use_filesystem_storage : bool
}.
Definition choose_backend (c : storage_settings) : option backend :=
  let storage := None in
  let storage := if String.eqb (sftp_storage_host c) "" then storage else Some SFTP in
  let storage := if String.eqb (aws_s3_access_key_id c) "" then storage else Some S3 in
  let storage := if String.eqb (azure_account_key c) "" then storage else Some Azure in
  if use_filesystem_storage c then Some LocalFileSystem else storage.
Definition get_storage `{Crypto} (c : storage_settings) : res (backend * option string) :=
  match choose_backend c with
  | None => Raise AttributeError
  | Some b => key ← get_symmetric_key; Ok (b, key)
  end.

(** ** Directories of the object stores *)

(** [delete_directory] of the S3 and Azure backends: every object whose key
    starts with the path is deleted. *)
Definition delete_directory (directory_path : string) (keys : list string) : list string :=
  List.filter (λ k, negb (startswith k directory_path)) keys.
(** ** The facade of workflow/finmars.py *)

Section Facade.
Context `{RawStorage} `{Crypto} (key : option string).
(** [Space.objects.all().first()] *)
Context (space : option space_row).

Definition base_path : res string :=
  match space with Some sp => Ok (sp_space_code sp) | None => Raise AttributeError end.
(** The name under the space's directory; [name[0]] of an empty name raises. *)
Definition space_name (name : string) : res string :=
  c ← first_char name;
  base ← base_path;
  Ok (if Ascii.eqb c c_slash then base +:+ name else base +:+ "/" +:+ name).

Definition storage_listdir (path : string) : ST store (list string * list string) :=
  base ← lift base_path;
  l ← gets (λ s, raw_listdir (st_raw s) ("/" +:+ base +:+ path));
  lift l.
Definition storage_open (name mode : string) : ST store file_data :=
  n ← lift (space_name name); read_file key n mode.
Definition storage_read (filepath mode : string) : ST store file_data := storage_open filepath mode.
(** [json.loads] accepts text and bytes. *)
Definition storage_read_json (filepath mode : string) : ST store pyval :=
  d ← storage_open filepath mode; lift (match d with Text s => loads s | Bytes s => s ← decode s; loads s end).
Definition storage_delete (name : string) : ST store unit :=
  n ← lift (space_name name); delete_file n.
Definition storage_exists (name : string) : ST store bool :=
  n ← lift (space_name name); file_exists n.
Definition storage_save (name content : string) : ST store string :=
  n ← lift (space_name name); save_file key n content.
(** [save_text] *)
Definition storage_save_text (name content : string) : ST store string :=
  n ← lift (space_name name); save_file key n (encode content).
(** [append_text] *)
Definition storage_append_text (name content : string) : ST store string :=
  b ← file_exists name;
  content ← (if (b : bool) then
               d ← storage_open name "r";
               match d with
               | Text c => mret (c +:+ c +:+ String newline "")
               | Bytes _ => raise TypeError
               end
             else mret content);
  save_file key name (encode content).
(** [create_logger]: the file of the logger of a name *)
Definition logger_file (name : string) : string := join2 "/.system/log/" (name +:+ ".log").
(** [DjangoStorageHandler.emit] *)
Definition emit (log_file log_entry : string) : ST store unit :=
  _ ← storage_append_text log_file log_entry; mret tt.
End Facade.

(** ** Properties *)

Section Properties.
Context `{RawStorage} `{RO : !RawStorageOk} `{Crypto} `{CO : !CryptoOk}.

(** A key AES accepts *)
Definition good_key (key : option string) : Prop :=
  ∃ k, key = Some k ∧ String.length k ∈ [16; 24; 32]%nat.

Lemma good_aesgcm key : good_key key → ∃ k, aesgcm_key key = Ok k.
Proof using. intros (k & -> & Hk). exists k. unfold aesgcm_key. by rewrite bool_decide_true. Qed.
Lemma take_drop_nonce n (c : string) :
  take_str 12 (urandom12 n +:+ c) = urandom12 n ∧ drop_str 12 (urandom12 n +:+ c) = c.
Proof using CO.
  rewrite <- (urandom_length n). split; [apply take_str_app|apply drop_str_app].
Qed.

(** What [save_content] stores reads back. *)
Lemma save_content_run key name content s : server_local = true ∨ good_key key →
  ∃ s', save_content key name content s = (Ok tt, s') ∧
    read_file key name "rb" s' = (Ok (Bytes content), s').
Proof using RO CO.
  intros Hk. unfold save_content, read_file. destruct server_local eqn:El.
  - eexists. split; [reflexivity|]. cbn [st_raw]. rewrite raw_read_write. by cbn.
  - destruct Hk as [?|Hk]; [done|]. destruct (good_aesgcm key Hk) as [k Ek].
    eexists. split.
    { unfold encrypt_file, mbind, ST_bind. rewrite Ek. reflexivity. }
    cbn [st_raw]. rewrite raw_read_write. unfold decrypt_file. rewrite Ek. cbn [mbind res_bind].
    destruct (take_drop_nonce (st_nonces s) (aes_encrypt k (urandom12 (st_nonces s)) content)) as [-> ->].
    by rewrite aes_roundtrip.
Qed.
(** The name a file is saved under is the one asked for. *)
Lemma available_name_run name s :
  get_available_name name s = (Ok name, Store _ (raw_remove name (st_raw s)) (st_nonces s)).
Proof using RO.
  unfold get_available_name, delete_file, mbind, ST_bind, modify, gets. cbn.
  by rewrite raw_free by apply raw_read_remove.
Qed.

(** C34: what is saved can be read.  Saving through the facade under a name Django
    accepts, on a local server or with a key AES accepts, succeeds for every content, overwrites under the
    space's own name, and the file reads back as the bytes saved, through the
    encryption. *)
Theorem storage_save_read key space name full content s :
  server_local = true ∨ good_key key → space_name space name = Ok full → valid_name full = true →
  ∃ s', storage_save key space name content s = (Ok full, s') ∧
    storage_read key space name "rb" s' = (Ok (Bytes content), s') ∧
    storage_exists space name s' = (Ok true, s').
Proof using RO CO.
  intros Hk Hn Hv. unfold storage_save, storage_read, storage_open, storage_exists. rewrite Hn.
  set (s1 := Store _ (raw_remove full (st_raw s)) (st_nonces s)).
  destruct (save_content_run key full content s1 Hk) as (s' & Hs & Hr). exists s'.
  rewrite (bind_ok (lift _) _ s full s eq_refl). unfold save_file. rewrite Hv. cbn [negb].
  rewrite (bind_ok _ _ _ _ _ (available_name_run full s)). fold s1.
  rewrite (bind_ok _ _ _ _ _ Hs). split; [done|].
  rewrite !(bind_ok (lift _) _ s' full s' eq_refl). split; [exact Hr|].
  unfold file_exists, gets. unfold read_file in Hr.
  destruct (raw_read (st_raw s') full); [|done]. by rewrite bool_decide_true by eauto.
Qed.

(** Without a key every save destroys.  With no ENCRYPTION_KEY the storage
    object is built all the same, its key being [None]; on a server that is not
    local, saving a file then always fails, after the old file has been deleted. *)
Theorem keyless_save_destroys space name full content s :
  server_local = false → encryption_key = "" → space_name space name = Ok full → valid_name full = true →
  get_symmetric_key = Ok None ∧
  ∃ s', storage_save None space name content s = (Raise TypeError, s') ∧
    storage_exists space name s' = (Ok false, s').
Proof using RO.
  intros Hl Hk Hn Hv. split; [unfold get_symmetric_key; by rewrite Hk|].
  eexists. unfold storage_save, storage_exists. rewrite Hn.
  rewrite (bind_ok (lift _) _ s full s eq_refl). unfold save_file. rewrite Hv. cbn [negb].
  rewrite (bind_ok _ _ _ _ _ (available_name_run full s)). unfold save_content. rewrite Hl.
  split; [reflexivity|]. rewrite (bind_ok (lift _) _ _ full _ eq_refl).
  unfold file_exists, gets. cbn [st_raw]. rewrite raw_read_remove. done.
Qed.
End Properties.

Section Append.
Context `{RawStorage} `{Crypto}.

(** A logger writes nothing: the name of its file is absolute, which
    [Storage.save] refuses.  Every record raises in the code that logs it, and
    the storage is left as it was. *)
Lemma logger_never_writes `{!RawStorageOk} key space name log_entry s :
  ∃ e, emit key space (logger_file name) log_entry s = (Raise e, s).
Proof.
  assert (valid_name (logger_file name) = false) as Hv.
  { apply invalid_absolute. unfold logger_file, join2. by destruct (startswith (name +:+ ".log") "/") eqn:E. }
  assert (∀ c, save_file key (logger_file name) c s = (Raise (PyException "SuspiciousFileOperation"), s)) as Hs.
  { intros c. unfold save_file. by rewrite Hv. }
  unfold emit, storage_append_text, storage_open, file_exists, gets, lift, read_file, mbind, ST_bind.
  destruct (bool_decide _); [|cbn [mret ST_ret]; rewrite Hs; by eexists].
  destruct (space_name space (logger_file name)) as [n|e]; [|by eexists].
  destruct (raw_read (st_raw s) n) as [c|]; [|by eexists].
  destruct server_local.
  - cbn -[save_file]. destruct (decode c); [|by eexists]. cbn -[save_file]. rewrite Hs. by eexists.
  - destruct (decrypt_file key c); by eexists.
Qed.

(** Appending loses text and leaves the space.  [append_text], the handler of
    the users' log files, tests and writes the bare name: when there is no such
    file, the result is the same for every space; when there is one, the result
    does not depend on the text appended. *)
Theorem append_text_loses key name s :
  (raw_read (st_raw s) name = None → ∀ space space' content,
     storage_append_text key space name content s = storage_append_text key space' name content s) ∧
  (is_Some (raw_read (st_raw s) name) → ∀ space content content',
     storage_append_text key space name content s = storage_append_text key space name content' s).
Proof.
  split.
  - intros Hn space space' content. unfold storage_append_text, file_exists.
    unfold mbind, ST_bind, gets. rewrite Hn. done.
  - intros Hn space content content'. unfold storage_append_text, file_exists.
    unfold mbind, ST_bind, gets. rewrite bool_decide_true by done. done.
Qed.
End Append.

Lemma plain_not_special c : plain_component c →
  String.eqb c "" = false ∧ String.eqb c "." = false ∧ String.eqb c ".." = false.
Proof. intros (_ & ? & ? & ?). by rewrite !(proj2 (String.eqb_neq _ _)). Qed.
Lemma plain_no_lead c t : plain_component c → startswith (c +:+ t) "/" = false.
Proof.
  intros (Hs & Hne & _). destruct c as [|a c]; [done|]. apply not_true_is_false.
  intros [t' E]%startswith_iff. injection E as -> _. done.
Qed.

(** A name can leave the space.  The facade puts the space's code before the
    name and nothing more: the name "../<other>/<file>" is accepted in every space
    and denotes the file of the other space. *)
Theorem space_name_escapes sp other file :
  plain_component (sp_space_code sp) → plain_component other → plain_component file →
  ∃ n, space_name (Some sp) ("../" +:+ other +:+ "/" +:+ file) = Ok n ∧
    normpath n = other +:+ "/" +:+ file.
Proof.
  intros Hc Ho Hf. exists (sp_space_code sp +:+ "/" +:+ "../" +:+ other +:+ "/" +:+ file).
  split; [reflexivity|].
  set (code := sp_space_code sp) in *.
  assert (split c_slash (code +:+ "/" +:+ "../" +:+ other +:+ "/" +:+ file) = [code; ".."; other; file]) as Hsplit.
  { change (code +:+ "/" +:+ "../" +:+ other +:+ "/" +:+ file)
      with (code +:+ String c_slash (".." +:+ String c_slash (other +:+ String c_slash file))).
    destruct Hc as [Hc _], Ho as [Ho _], Hf as [Hf _].
    rewrite !split_app_sep by done. by rewrite split_piece. }
  destruct (plain_not_special _ Hc) as (c1 & c2 & c3), (plain_not_special _ Ho) as (o1 & o2 & o3),
    (plain_not_special _ Hf) as (f1 & f2 & f3).
  unfold normpath. rewrite Hsplit, plain_no_lead by done. cbn [norm_comps].
  rewrite c1, c2, c3. cbn [orb norm_comps String.eqb Ascii.eqb Bool.eqb].
  rewrite ?o1, ?o2, ?o3, ?f1, ?f2, ?f3. cbn [orb rev app].
  destruct other as [|a other]; [by destruct Ho as (_ & [] & _)|]. reflexivity.
Qed.

(** ** A store of files *)

(** What Django asks of a name: not absolute, no "..", and a base name *)
Definition posix_valid (name : string) : bool :=
  let comps := split c_slash name in
  negb (bool_decide (head comps = Some "")) && forallb (λ c, negb (String.eqb c "..")) comps
  && negb (bool_decide (last comps ∈ [Some ""; Some "."])).
#[export] Instance file_store : RawStorage := {|
  raw := list (string * string);
  raw_read := dict_get;
  raw_write := λ n c s, dict_set s n c;
  raw_remove := λ n s, List.filter (λ kv, negb (String.eqb kv.1 n)) s;
  raw_listdir := λ _ _, Ok ([], []);
  raw_free_name := λ _ n, n;
  valid_name := posix_valid |}.
Lemma posix_valid_plain comps : comps ≠ [] → Forall plain_component comps →
  posix_valid (join "/" comps) = true.
Proof.
  intros Hne Hp. unfold posix_valid. change (join "/" comps) with (join (String c_slash "") comps).
  rewrite split_join by (try done; by eapply Forall_impl; [exact Hp|intros c (? & _)]).
  rewrite Forall_forall in Hp. rewrite !andb_true_iff, !negb_true_iff, !bool_decide_eq_false.
  rewrite forallb_forall. split_and!.
  - destruct comps as [|c comps]; [done|]. intros [= ->]. by destruct (Hp "" ltac:(left)) as (_ & ? & _).
  - intros c Hc%list_elem_of_In. destruct (Hp c Hc) as (_ & _ & _ & ?). by apply negb_true_iff, String.eqb_neq.
  - destruct (last comps) as [c|] eqn:E; [|by rewrite !elem_of_cons, elem_of_nil; intuition].
    destruct (Hp c ltac:(by apply last_Some_elem_of)) as (_ & ? & ? & _).
    rewrite !elem_of_cons, elem_of_nil. intuition congruence.
Qed.
#[export] Instance file_store_ok : RawStorageOk.
Proof.
  split; simpl; [intros; apply dict_get_set_eq| |done|apply posix_valid_plain| |].
  - intros s n. induction s as [|[k v] s IH]; simpl; [done|].
    destruct (String.eqb_spec k n) as [->|Hne]; simpl; [done|].
    by destruct (decide (n = k)).
  - intros n Hn. unfold posix_valid. destruct n as [|c n]; [done|].
    rewrite startswith_char in Hn. apply Ascii.eqb_eq in Hn as <-. done.
  - intros n Hn. unfold posix_valid. replace (forallb _ _) with false; [by rewrite andb_false_r, ?andb_false_l|].
    symmetry. apply not_true_is_false. rewrite forallb_forall. intros Hall.
    specialize (Hall ".." ltac:(by apply list_elem_of_In)). done.
Qed.
(** A cipher that reverses the text stands for AES-GCM. *)
Definition toy_crypto (local : bool) (hexkey : string) : Crypto := {|
  aes_encrypt := λ _ _ m, String.string_of_list_ascii (rev (String.list_ascii_of_string m));
  aes_decrypt := λ _ _ m, Some (String.string_of_list_ascii (rev (String.list_ascii_of_string m)));
  urandom12 := λ _, "0123456789ab"; server_local := local; encryption_key := hexkey;
  media_root := "/var/app/media" |}.
Lemma toy_crypto_ok local k : @CryptoOk (toy_crypto local k).
Proof.
  split; simpl; [|done]. intros _ _ m.
  by rewrite String.list_ascii_of_string_of_list_ascii, rev_involutive,
    String.string_of_list_ascii_of_string.
Qed.

Definition files (l : list (string * string)) : @store file_store := @Store file_store l 0.
Definition demo_key : option string := Some "0123456789abcdef".
Lemma storage_save_read_witness :
  ∃ s', @storage_save _ (toy_crypto false "") demo_key (Some demo_space) "log/a.txt" "text"
      (files []) = (Ok "space00000/log/a.txt", s') ∧
    @storage_read _ (toy_crypto false "") demo_key (Some demo_space) "log/a.txt" "rb" s'
      = (Ok (Bytes "text"), s').
Proof.
  destruct (@storage_save_read _ _ (toy_crypto false "") (toy_crypto_ok _ _) demo_key (Some demo_space)
    "log/a.txt" "space00000/log/a.txt" "text" (files [])) as (s' & H1 & H2 & _).
  - right. exists "0123456789abcdef". split; [reflexivity|]. left.
  - reflexivity.
  - reflexivity.
  - exists s'. split; [exact H1|exact H2].
Defined.
Lemma keyless_save_destroys_witness :
  ∃ s', @storage_save _ (toy_crypto false "") None (Some demo_space) "a.txt" "new"
      (files [("space00000/a.txt", "old")]) = (Raise TypeError, s') ∧
    storage_exists (Some demo_space) "a.txt" s' = (Ok false, s').
Proof.
  exact (proj2 (@keyless_save_destroys _ _ (toy_crypto false "") (Some demo_space)
    "a.txt" "space00000/a.txt" "new" (files [("space00000/a.txt", "old")]) eq_refl eq_refl eq_refl eq_refl)).
Defined.
Lemma append_text_loses_witness :
  @storage_append_text _ (toy_crypto true "") None (Some demo_space) "log" "one" (files [("log", "x")])
  = @storage_append_text _ (toy_crypto true "") None (Some demo_space) "log" "two" (files [("log", "x")]).
Proof.
  apply (proj2 (@append_text_loses _ (toy_crypto true "") None "log" (files [("log", "x")]))).
  by eexists.
Defined.
Lemma space_name_escapes_witness :
  ∃ n, space_name (Some demo_space) "../space11111/secret.json" = Ok n ∧
    normpath n = "space11111/secret.json".
Proof.
  destruct (space_name_escapes demo_space "space11111" "secret.json") as (n & H1 & H2);
    [by split_and!..|]. exists n. split; [exact H1|exact H2].
Defined.

(** A folder of files without folders counts as empty. *)
Example folder_of_files_is_empty :
  let R := {| raw := unit; raw_read := λ _ _, None; raw_write := λ _ _ s, s; raw_remove := λ _ s, s;
              raw_listdir := λ _ _, Ok ([], ["a.txt"]); raw_free_name := λ _ n, n; valid_name := posix_valid |} in
  @folder_exists_and_has_files R "folder" (@Store R tt 0) = (Ok false, @Store R tt 0).
Proof. reflexivity. Qed.
(** Deleting a directory of an object store deletes its namesakes. *)
Example delete_directory_siblings :
  delete_directory "space00000/data" ["space00000/data/a"; "space00000/database/b"; "space00000/c"]
  = ["space00000/c"].
Proof. reflexivity. Qed.
