(* ===== verification/LocalFiles.v ===== *)
(** * Files of the working machine

    What the code uses of [os], [shutil] and [open] on the local disk: a tree of
    directories and files below the root, paths resolved component by component
    from the working directory.  Links and permissions are left out. *)
From Stdlib Require Import Ascii String.
From stdpp Require Import base list strings numbers gmap sets.
From S2P Require Import Prelude PyStr Paths Storage.
Local Open Scope string_scope.
Local Open Scope list_scope.

(** ** The tree *)

Inductive entry : Type := Dir | File (content : string).
#[export] Instance entry_eq_dec : EqDecision entry.
Proof. solve_decision. Defined.

(** The entries below the root, which is a directory *)
Abbreviation tree := (gmap (list string) entry).
Definition is_dir (s : tree) (p : list string) : bool :=
  match p with [] => true | _ => bool_decide (s !! p = Some Dir) end.
Definition content_of (s : tree) (p : list string) : option string :=
  match s !! p with Some (File c) => Some c | _ => None end.

Section Calls.
(** The working directory *)
Context (cwd : list string).

Definition start_of (p : string) : list string := if startswith p "/" then [] else cwd.
Definition os_error : exn := PyException "OSError".

(** Where a path leads: every component is looked up in a directory. *)
Fixpoint locate_from (s : tree) (comps loc : list string) : res (list string) :=
  match comps with
  | [] => Ok loc
  | c :: comps' =>
      if negb (is_dir s loc) then Raise os_error
      else if String.eqb c "" || String.eqb c "." then locate_from s comps' loc
      else if String.eqb c ".." then locate_from s comps' (removelast loc)
      else locate_from s comps' (loc ++ [c])
  end.
Definition locate (s : tree) (p : string) : res (list string) :=
  if String.eqb p "" then Raise os_error else locate_from s (split c_slash p) (start_of p).

(** [os.makedirs(p, exist_ok=True)] *)
Fixpoint make_dirs (comps loc : list string) : ST tree unit :=
  match comps with
  | [] => mret tt
  | c :: comps' =>
      if String.eqb c "" || String.eqb c "." then make_dirs comps' loc
      else if String.eqb c ".." then make_dirs comps' (removelast loc)
      else
        let d := loc ++ [c] in
        found ← gets (λ s, s !! d);
        match found with
        | Some Dir => make_dirs comps' d
        | Some (File _) => raise os_error
        | None => _ ← modify (<[d := Dir]>); make_dirs comps' d
        end
  end.
Definition makedirs (p : string) : ST tree unit :=
  if String.eqb p "" then raise os_error else make_dirs (split c_slash p) (start_of p).

(** [with open(p, "wb") as f: f.write(content)] *)
Definition write_bytes (p content : string) : ST tree unit :=
  if endswith p "/" then raise os_error
  else
    l ← gets (λ s, locate s p); loc ← lift l;
    d ← gets (λ s, is_dir s loc);
    if (d : bool) then raise os_error else modify (<[loc := File content]>).
(** [open(p, "rb").read()] *)
Definition read_bytes (s : tree) (p : string) : res string :=
  loc ← locate s p;
  match content_of s loc with Some c => Ok c | None => Raise os_error end.

(** [rel] below [d] *)
Fixpoint strip (d p : list string) : option (list string) :=
  match d, p with
  | [], _ => Some p
  | x :: d, y :: p => if String.eqb x y then strip d p else None
  | _ :: _, [] => None
  end.
(** The files below [d]: where each is, from [d] *)
Definition files_below (s : tree) (d : list string) : list (list string) :=
  omap (λ kv, match kv.2, strip d kv.1 with
              | File _, Some (x :: rel) => Some (x :: rel)
              | _, _ => None
              end) (map_to_list s).
(** [os.walk(top)], flattened: the directory and the name of each file, in the
    order of the map; a [top] that is no directory has none. *)
Definition walk (s : tree) (top : string) : list (string * string) :=
  match locate s top with
  | Ok d =>
      if is_dir s d
      then (λ rel, (fold_left join2 (removelast rel) top, default "" (last rel))) <$> files_below s d
      else []
  | Raise _ => []
  end.

(** [shutil.rmtree(p)] *)
Definition rmtree_tree (p : string) : ST tree unit :=
  l ← gets (λ s, locate s p); d ← lift l;
  b ← gets (λ s, is_dir s d);
  if negb (b : bool) then raise os_error
  else modify (λ s, filter (λ kv, strip d kv.1 = None) s).
(** [shutil.copytree(src, dst)]: the destination must not exist. *)
Definition copy_below (s : tree) (d e : list string) (s' : tree) : tree :=
  foldr (λ kv s', match strip d kv.1 with Some (x :: rel) => <[e ++ x :: rel := kv.2]> s' | _ => s' end)
    s' (map_to_list s).
Definition exists_path (s : tree) (p : string) : bool :=
  match locate s p with
  | Ok [] => true
  | Ok loc => bool_decide (is_Some (s !! loc))
  | Raise _ => false
  end.
Definition copytree (src dst : string) : ST tree unit :=
  s ← gets (λ s, s);
  d ← lift (locate s src);
  if negb (is_dir s d) then raise os_error
  else if exists_path s dst then raise os_error
  else
    _ ← makedirs dst;
    l ← gets (λ s, locate s dst); e ← lift l;
    modify (copy_below s d e).
End Calls.

(** ** Paths of plain components *)

(** The path of components, absolute or from the working directory *)
Definition path_of (abs : bool) (comps : list string) : string :=
  (if abs then "/" else "") +:+ join "/" comps.

Lemma join_app a b : a ≠ [] → b ≠ [] → join "/" (a ++ b) = join "/" a +:+ "/" +:+ join "/" b.
Proof.
  intros Ha Hb. induction a as [|x a IH]; [done|]. destruct a as [|y a].
  - destruct b; [done|]. done.
  - change (join "/" ((x :: y :: a) ++ b)) with (x +:+ "/" +:+ join "/" ((y :: a) ++ b)).
    change (join "/" (x :: y :: a)) with (x +:+ "/" +:+ join "/" (y :: a)).
    rewrite IH by done. by rewrite !str_app_assoc.
Qed.
Lemma plain_no_slash comps : Forall plain_component comps → Forall (λ c, has_char c_slash c = false) comps.
Proof. intros Hp. eapply Forall_impl; [exact Hp|]. by intros c (? & _). Qed.
Lemma plain_first comps : comps ≠ [] → Forall plain_component comps →
  ∃ c t, join "/" comps = String c t ∧ c ≠ c_slash.
Proof.
  intros Hne Hp. destruct comps as [|x comps]; [done|]. apply Forall_cons in Hp as [(Hs & Hx & _) _].
  destruct x as [|c x]; [done|]. assert (c ≠ c_slash) by (by intros ->).
  destruct comps; [by exists c, x|]. by eexists c, _.
Qed.
Lemma plain_last comps : comps ≠ [] → Forall plain_component comps → endswith (join "/" comps) "/" = false.
Proof.
  intros Hne Hp. apply not_true_is_false. intros (u & E)%endswith_iff.
  pose proof (plain_no_slash comps Hp) as Hf.
  assert (split c_slash (join (String c_slash "") comps) = split c_slash (u +:+ String c_slash "")) as Hs
    by (change (join (String c_slash "") comps) with (join "/" comps); by rewrite E).
  rewrite split_join, split_snoc_sep in Hs by done. subst comps.
  apply Forall_app in Hp as [_ [(_ & ? & _) _]%Forall_cons]. done.
Qed.
Lemma split_plain comps : comps ≠ [] → Forall plain_component comps → split c_slash (join "/" comps) = comps.
Proof. intros. apply (split_join c_slash); [done|]. by apply plain_no_slash. Qed.

Lemma path_of_nonempty abs comps : comps ≠ [] → Forall plain_component comps → path_of abs comps ≠ "".
Proof. intros Hne Hp. destruct (plain_first comps Hne Hp) as (c & t & E & _). unfold path_of. rewrite E. by destruct abs. Qed.
Lemma path_of_lead abs comps : comps ≠ [] → Forall plain_component comps → startswith (path_of abs comps) "/" = abs.
Proof.
  intros Hne Hp. destruct (plain_first comps Hne Hp) as (c & t & E & Hc). unfold path_of. rewrite E.
  destruct abs; [done|]. change ("" +:+ String c t) with (String c t). rewrite startswith_char. by apply Ascii.eqb_neq.
Qed.
Lemma split_path_of abs comps : comps ≠ [] → Forall plain_component comps →
  split c_slash (path_of abs comps) = (if abs then [""] else []) ++ comps.
Proof.
  intros Hne Hp. unfold path_of. destruct abs; [|by apply split_plain].
  change ("/" +:+ join "/" comps) with ("" +:+ String c_slash (join "/" comps)).
  rewrite split_app_sep by done. by rewrite split_plain.
Qed.
Lemma path_of_end abs comps : comps ≠ [] → Forall plain_component comps → endswith (path_of abs comps) "/" = false.
Proof.
  intros Hne Hp. unfold path_of. destruct abs; [|by apply plain_last].
  destruct (plain_first comps Hne Hp) as (c & t & E & _). pose proof (plain_last comps Hne Hp) as Hl.
  rewrite E in Hl |- *. by rewrite endswith_char_app.
Qed.

(** [os.path.join] with a relative path, after a directory with or without a
    slash at its end *)
Lemma join2_plain abs a b : a ≠ [] → b ≠ [] → Forall plain_component a → Forall plain_component b →
  join2 (path_of abs a) (join "/" b) = path_of abs (a ++ b) ∧
  join2 (path_of abs a +:+ "/") (join "/" b) = path_of abs (a ++ b).
Proof.
  intros Ha Hb Pa Pb. unfold path_of. rewrite join_app by done.
  pose proof (path_of_lead false b Hb Pb) as Hlead. change (path_of false b) with (join "/" b) in Hlead.
  split.
  - rewrite join2_below; [by rewrite !str_app_assoc|done|by apply path_of_nonempty|by apply path_of_end].
  - unfold join2. rewrite Hlead, (proj2 (endswith_iff _ "/")) by (by eexists). rewrite orb_true_r.
    by rewrite !str_app_assoc.
Qed.
Lemma fold_join2 abs rel : ∀ a, a ≠ [] → Forall plain_component a → Forall plain_component rel →
  fold_left join2 rel (path_of abs a) = path_of abs (a ++ rel).
Proof.
  induction rel as [|c rel IH]; intros a Ha Pa Pr; simpl; [by rewrite app_nil_r|].
  apply Forall_cons in Pr as [Pc Pr]. change c with (join "/" [c]) at 1.
  rewrite (proj1 (join2_plain abs a [c] Ha ltac:(done) Pa ltac:(by constructor))), IH; [|by destruct a|by apply Forall_app_2; [|constructor]|done].
  by rewrite <- app_assoc.
Qed.

(** [os.path.dirname] *)
Lemma rstrip_id p : endswith p "/" = false → rstrip p = p.
Proof.
  intros He. unfold rstrip. destruct (rev (String.list_ascii_of_string p)) as [|c l] eqn:E.
  - apply (f_equal (@rev _)) in E. rewrite rev_involutive in E. simpl. rewrite <- (String.string_of_list_ascii_of_string p).
    by rewrite E.
  - simpl. destruct (Ascii.eqb_spec c c_slash) as [->|Hc].
    + exfalso. apply (f_equal (@rev _)) in E. rewrite rev_involutive in E. simpl in E.
      rewrite <- (String.string_of_list_ascii_of_string p), E in He.
      assert (∀ l, String.string_of_list_ascii (l ++ [c_slash]) = String.string_of_list_ascii l +:+ "/") as Happ
        by (intros l'; induction l' as [|x l' IH]; simpl; [done|by rewrite IH]).
      rewrite Happ in He. rewrite (proj2 (endswith_iff _ "/")) in He by (by eexists). done.
    + change (String.string_of_list_ascii (rev (c :: l)) = p). rewrite <- E, rev_involutive.
      apply String.string_of_list_ascii_of_string.
Qed.
Lemma dirname_plain abs a x : a ≠ [] → Forall plain_component a → plain_component x →
  dirname (path_of abs (a ++ [x])) = path_of abs a.
Proof.
  intros Ha Pa Px. unfold dirname, path_split. unfold path_of at 1. rewrite join_app by done.
  change (join "/" [x]) with x. change ("/" +:+ x) with (String c_slash x). rewrite str_app_assoc.
  fold (path_of abs a). rewrite rsplit1_app by (by destruct Px). cbn [fst].
  rewrite rstrip_id by (by apply path_of_end).
  by rewrite (proj2 (String.eqb_neq _ "")) by (by apply path_of_nonempty).
Qed.
Lemma dirname_slash abs a : a ≠ [] → Forall plain_component a → dirname (path_of abs a +:+ "/") = path_of abs a.
Proof.
  intros Ha Pa. unfold dirname, path_split. rewrite (rsplit1_app c_slash _ "") by done. cbn [fst].
  rewrite rstrip_id by (by apply path_of_end).
  by rewrite (proj2 (String.eqb_neq _ "")) by (by apply path_of_nonempty).
Qed.

(** [os.path.relpath] *)
Lemma norm_plain abs comps : ∀ acc, Forall plain_component comps → norm_comps abs comps acc = rev acc ++ comps.
Proof.
  induction comps as [|c comps IH]; intros acc Hp; simpl; [by rewrite app_nil_r|].
  apply Forall_cons in Hp as [Pc Hp]. destruct (plain_not_special c Pc) as (-> & -> & ->). simpl.
  rewrite IH by done. simpl. by rewrite <- app_assoc.
Qed.
Lemma norm_comps_skip abs a b acc : String.eqb a "" = true ∨ String.eqb a "." = true →
  norm_comps abs (a :: b) acc = norm_comps abs b acc.
Proof. intros Ha. simpl. destruct (String.eqb a ""); [done|]. destruct Ha as [Ha|Ha]; [done|by rewrite Ha]. Qed.
Lemma norm_comps_snoc_empty abs comps : ∀ acc, norm_comps abs (comps ++ [""]) acc = norm_comps abs comps acc.
Proof.
  induction comps as [|c comps IH]; intros acc; [done|]. cbn [app norm_comps].
  destruct (_ || _); [done|]. destruct (String.eqb c ".."); [|done].
  destruct acc as [|d acc]; [done|]. by destruct (String.eqb d "..").
Qed.
Lemma path_of_double abs comps : comps ≠ [] → Forall plain_component comps →
  startswith (path_of abs comps) "//" = false ∧ startswith (path_of abs comps +:+ "/") "//" = false.
Proof.
  intros Hne Hp. destruct (plain_first comps Hne Hp) as (c & t & E & Hc). unfold path_of. rewrite E.
  split; apply not_true_is_false; intros (u & Eu)%startswith_iff; destruct abs; by injection Eu as ->.
Qed.
Lemma normpath_plain abs comps : comps ≠ [] → Forall plain_component comps →
  normpath (path_of abs comps) = path_of abs comps ∧ normpath (path_of abs comps +:+ "/") = path_of abs comps.
Proof.
  intros Hne Hp. pose proof (path_of_lead abs comps Hne Hp) as Hl. destruct (path_of_double abs comps Hne Hp) as [D1 D2].
  assert (startswith (path_of abs comps +:+ "/") "/" = abs) as Hl'.
  { destruct (plain_first comps Hne Hp) as (c & t & E & Hc). unfold path_of. rewrite E. destruct abs; [done|].
    change (startswith (String c (t +:+ "/")) "/" = false). rewrite startswith_char. by apply Ascii.eqb_neq. }
  pose proof (path_of_nonempty abs comps Hne Hp) as Hn. pose proof (proj2 (String.eqb_neq _ _) Hn) as He.
  assert (∀ l, norm_comps abs l [] = comps → (let r := (if abs then "/" else "") +:+ join "/" (norm_comps abs l []) in
    if String.eqb r "" then "." else r) = path_of abs comps) as Hr.
  { intros l ->. change ((if abs then "/" else "") +:+ join "/" comps) with (path_of abs comps). cbv zeta. by rewrite He. }
  unfold normpath. rewrite Hl, Hl', D1, D2. cbn [andb]. rewrite (split_path_of abs comps) by done. split.
  - apply Hr. destruct abs; cbn [app]; [rewrite norm_comps_skip by (by left)|]; by rewrite norm_plain.
  - change (path_of abs comps +:+ "/") with (path_of abs comps +:+ String c_slash "").
    rewrite split_snoc_sep, (split_path_of abs comps) by done. apply Hr.
    rewrite norm_comps_snoc_empty. destruct abs; cbn [app]; [rewrite norm_comps_skip by (by left)|]; by rewrite norm_plain.
Qed.
Lemma filter_plain comps : Forall plain_component comps →
  List.filter (λ c, negb (String.eqb c "" || String.eqb c ".")) comps = comps.
Proof.
  induction comps as [|c comps IH]; intros Hp; [done|]. apply Forall_cons in Hp as [Pc Hp]. simpl.
  destruct (plain_not_special c Pc) as (-> & -> & _). simpl. by rewrite IH.
Qed.
Lemma path_comps_plain abs comps : comps ≠ [] → Forall plain_component comps →
  path_comps (path_of abs comps) = comps ∧ path_comps (path_of abs comps +:+ "/") = comps.
Proof.
  intros Hne Hp. unfold path_comps. destruct (normpath_plain abs comps Hne Hp) as [-> ->].
  rewrite split_path_of by done. destruct abs; cbn [app List.filter String.eqb orb negb]; by rewrite filter_plain.
Qed.
Lemma drop_common_app a b : drop_common a (a ++ b) = ([], b).
Proof. induction a as [|x a IH]; [by destruct b|]. simpl. by rewrite String.eqb_refl. Qed.
Lemma os_relpath_plain abs a b : a ≠ [] → b ≠ [] → Forall plain_component a → Forall plain_component b →
  os_relpath (path_of abs (a ++ b)) (path_of abs a) = join "/" b ∧
  os_relpath (path_of abs (a ++ b)) (path_of abs a +:+ "/") = join "/" b.
Proof.
  intros Ha Hb Pa Pb. unfold os_relpath.
  rewrite (proj1 (path_comps_plain abs (a ++ b) ltac:(by destruct a) ltac:(by apply Forall_app_2))).
  destruct (path_comps_plain abs a Ha Pa) as [-> ->]. rewrite drop_common_app. by destruct b.
Qed.

(** ** Trees *)

(** Every entry lies in a directory and has a plain name. *)
Record good_tree (s : tree) : Prop := {
  gt_parent p x : is_Some (s !! (p ++ [x])) → is_dir s p = true;
  gt_names p : is_Some (s !! p) → p ≠ [] ∧ Forall plain_component p
}.

Lemma is_dir_some s p : is_dir s p = true → p = [] ∨ s !! p = Some Dir.
Proof. destruct p as [|x p]; [by left|]. intros H%bool_decide_eq_true. by right. Qed.
Lemma is_dir_lookup s p : s !! p = Some Dir → is_dir s p = true.
Proof. intros H. destruct p; [done|]. by apply bool_decide_eq_true. Qed.
Lemma is_dir_content s p : good_tree s → is_dir s p = true → content_of s p = None.
Proof.
  intros G [->|H]%is_dir_some; unfold content_of; [|by rewrite H].
  destruct (s !! []) as [e|] eqn:E; [|done]. by destruct (gt_names s G [] ltac:(by rewrite E)).
Qed.
Lemma is_dir_prefix s p q : good_tree s → is_dir s (p ++ q) = true → is_dir s p = true.
Proof.
  intros G. induction q as [|x q IH] using rev_ind; [by rewrite app_nil_r|].
  rewrite app_assoc. intros [E|H]%is_dir_some; [by destruct ((p ++ q)%list)|].
  apply IH, (gt_parent s G _ x). by rewrite H.
Qed.
Lemma is_dir_insert s p e q : is_dir (<[p := e]> s) q =
  if decide (p = q) then (match q with [] => true | _ => bool_decide (e = Dir) end) else is_dir s q.
Proof.
  destruct (decide (p = q)) as [->|Hne]; destruct q as [|x q]; simpl; try done.
  - apply bool_decide_ext. rewrite lookup_insert_eq. split; [by intros [= ->]|by intros ->].
  - apply bool_decide_ext. by rewrite lookup_insert_ne.
Qed.
Lemma content_insert s p e q : content_of (<[p := e]> s) q =
  if decide (p = q) then (match e with File c => Some c | Dir => None end) else content_of s q.
Proof.
  unfold content_of. destruct (decide (p = q)) as [->|Hne]; [by rewrite lookup_insert_eq|by rewrite lookup_insert_ne].
Qed.
Lemma good_insert s p x e : good_tree s → is_dir s p = true → plain_component x → Forall plain_component p →
  (is_dir s (p ++ [x]) = true → e = Dir) → good_tree (<[p ++ [x] := e]> s).
Proof.
  intros G Hd Px Pp He. split.
  - intros p' x' Hs. rewrite is_dir_insert. destruct (decide (p ++ [x] = p')) as [<-|Hne].
    + destruct ((p ++ [x])%list) eqn:E; [done|]. rewrite <- E in *. apply bool_decide_eq_true, He.
      apply (gt_parent s G _ x'). rewrite lookup_insert_ne in Hs; [done|]. intros E'.
      apply (f_equal length) in E'. rewrite !length_app in E'. simpl in E'. lia.
    + destruct (decide (p ++ [x] = p' ++ [x'])) as [[<- _]%app_inj_tail|Hne']; [done|].
      apply (gt_parent s G _ x'). by rewrite lookup_insert_ne in Hs.
  - intros p' Hs. destruct (decide (p ++ [x] = p')) as [<-|Hne].
    + split; [by destruct p|]. by apply Forall_app_2; [|constructor].
    + apply (gt_names s G). by rewrite lookup_insert_ne in Hs.
Qed.
Lemma is_dir_plain s p : good_tree s → is_dir s p = true → Forall plain_component p.
Proof. intros G [->|H]%is_dir_some; [constructor|]. apply (gt_names s G). by rewrite H. Qed.

Lemma make_dirs_run comps : ∀ loc s, good_tree s → is_dir s loc = true → Forall plain_component comps →
  (∀ q, q `prefix_of` comps → content_of s (loc ++ q) = None) →
  ∃ s', make_dirs comps loc s = (Ok tt, s') ∧ good_tree s' ∧ (∀ p, content_of s' p = content_of s p) ∧
    (∀ p, is_dir s' p = true ↔ is_dir s p = true ∨ ∃ q, q `prefix_of` comps ∧ p = loc ++ q).
Proof.
  induction comps as [|c comps IH]; intros loc s G Hd Hp Hq.
  { exists s. split; [done|]. split; [done|]. split; [done|]. intros p. split; [by left|].
    intros [?|(q & Hpre & ->)]; [done|]. apply prefix_nil_inv in Hpre as ->. by rewrite app_nil_r. }
  apply Forall_cons in Hp as [Pc Hp]. destruct (plain_not_special c Pc) as (E1 & E2 & E3).
  assert (∀ s1, good_tree s1 → is_dir s1 (loc ++ [c]) = true → (∀ p, content_of s1 p = content_of s p) →
    (∀ p, is_dir s1 p = true ↔ is_dir s p = true ∨ p = loc ++ [c]) →
    ∃ s', make_dirs comps (loc ++ [c]) s1 = (Ok tt, s') ∧ good_tree s' ∧ (∀ p, content_of s' p = content_of s p) ∧
    (∀ p, is_dir s' p = true ↔ is_dir s p = true ∨ ∃ q, q `prefix_of` (c :: comps) ∧ p = loc ++ q)) as Hgo.
  { intros s1 G1 Hd1 Hc1 Hi1. destruct (IH (loc ++ [c]) s1 G1 Hd1 Hp) as (s' & Hrun & G' & Hc' & Hi').
    - intros q Hpre. rewrite Hc1, <- app_assoc. apply Hq. by apply prefix_cons.
    - exists s'. split_and!; [done|done|by intros p; rewrite Hc'|]. intros p. rewrite Hi', Hi1. split.
      + intros [[?| ->]|(q & Hpre & ->)]; [by left|right; exists [c]; split; [by apply prefix_cons, prefix_nil|done]|].
        right. exists (c :: q). split; [by apply prefix_cons|]. by rewrite <- app_assoc.
      + intros [?|(q & Hpre & ->)]; [by left; left|]. destruct q as [|d q]; [left; left; by rewrite app_nil_r|].
        apply prefix_cons_inv_1 in Hpre as Hc. apply prefix_cons_inv_2 in Hpre. subst d.
        right. exists q. split; [done|]. by rewrite <- app_assoc. }
  cbn [make_dirs]. rewrite E1, E2, E3. cbn [orb]. unfold mbind, ST_bind, gets, modify.
  pose proof (Hq [c] ltac:(by apply prefix_cons, prefix_nil)) as Hnone. unfold content_of in Hnone.
  destruct (s !! (loc ++ [c])) as [[|]|] eqn:El; [| |].
  - apply Hgo; [done|by apply is_dir_lookup|done|]. intros p. split; [by left|].
    intros [?| ->]; [done|by apply is_dir_lookup].
  - done.
  - apply Hgo.
    + apply good_insert; [done..| |done]. by eapply is_dir_plain.
    + apply is_dir_lookup, lookup_insert_eq.
    + intros p. rewrite content_insert. destruct (decide _) as [<-|]; [|done]. unfold content_of. by rewrite El.
    + intros p. rewrite is_dir_insert. destruct (decide (loc ++ [c] = p)) as [<-|Hne].
      * destruct ((loc ++ [c])%list) eqn:Ea; [by destruct loc|]. split; [by right|done].
      * split; [by left|]. by intros [?|E].
Qed.

Lemma strip_iff d : ∀ p rel, strip d p = Some rel ↔ p = d ++ rel.
Proof.
  induction d as [|x d IH]; intros p rel; simpl; [by split; [intros [= ->]|intros ->]|].
  destruct p as [|y p]; [done|]. destruct (String.eqb_spec x y) as [->|Hne].
  - rewrite IH. by split; [intros ->|intros [= ->]].
  - split; [done|]. by intros [= -> _].
Qed.
Lemma elem_files_below s d rel : rel ∈ files_below s d ↔ rel ≠ [] ∧ is_Some (content_of s (d ++ rel)).
Proof.
  unfold files_below, content_of. rewrite list_elem_of_omap. split.
  - intros ((p & e) & Hin%elem_of_map_to_list & Hr). simpl in Hr. destruct e as [|c]; [done|].
    destruct (strip d p) as [[|x r]|] eqn:E; [done| |done]. injection Hr as <-.
    apply strip_iff in E as ->. by rewrite Hin.
  - intros [Hne [c Hc]]. destruct (s !! (d ++ rel)) as [[|c']|] eqn:E; [done| |done].
    exists (d ++ rel, File c'). split; [by apply elem_of_map_to_list|]. simpl.
    rewrite (proj2 (strip_iff d _ rel)) by done. by destruct rel.
Qed.
Lemma files_below_nodup s d : NoDup (files_below s d).
Proof.
  unfold files_below. pose proof (NoDup_fst_map_to_list s) as Hn. revert Hn.
  induction (map_to_list s) as [|[p e] l IH]; intros Hn; [constructor|].
  apply NoDup_cons in Hn as [Hp Hn]. specialize (IH Hn). simpl in *.
  destruct e as [|c]; [done|]. destruct (strip d p) as [[|x r]|] eqn:E; [done| |done].
  constructor; [|done]. intros ((p' & e') & Hin & Hr)%list_elem_of_omap. simpl in Hr.
  destruct e' as [|c']; [done|]. destruct (strip d p') as [[|x' r']|] eqn:E'; [done| |done].
  injection Hr as -> ->. apply strip_iff in E as ->, E' as ->. apply Hp, list_elem_of_fmap.
  by exists ((d ++ x :: r)%list, File c').
Qed.

Section Runs.
Context (cwd : list string).
Abbreviation loc abs comps := ((if abs : bool then [] else cwd) ++ comps)%list.

Lemma start_path abs comps : comps ≠ [] → Forall plain_component comps →
  start_of cwd (path_of abs comps) = (if abs then [] else cwd).
Proof. intros. unfold start_of. by rewrite path_of_lead. Qed.
Lemma makedirs_run abs comps s : good_tree s → is_dir s (loc abs []) = true →
  comps ≠ [] → Forall plain_component comps →
  (∀ q, q `prefix_of` comps → content_of s (loc abs q) = None) →
  ∃ s', makedirs cwd (path_of abs comps) s = (Ok tt, s') ∧ good_tree s' ∧
    (∀ p, content_of s' p = content_of s p) ∧
    (∀ p, is_dir s' p = true ↔ is_dir s p = true ∨ ∃ q, q `prefix_of` comps ∧ p = loc abs q).
Proof.
  intros G Hd Hne Hp Hq. rewrite app_nil_r in Hd. unfold makedirs.
  rewrite (proj2 (String.eqb_neq _ "")) by (by apply path_of_nonempty).
  rewrite split_path_of, start_path by done.
  destruct (make_dirs_run comps (if abs then [] else cwd) s) as (s' & Hrun & ?); [done..|].
  exists s'. split; [|done]. by destruct abs.
Qed.

Lemma locate_from_plain s comps : ∀ l x, good_tree s → Forall plain_component (comps ++ [x]) →
  is_dir s (l ++ comps) = true → locate_from s (comps ++ [x]) l = Ok (l ++ comps ++ [x]).
Proof.
  induction comps as [|c comps IH]; intros l x G Hp Hd; simpl in *.
  - rewrite app_nil_r in Hd. rewrite Hd. apply Forall_cons in Hp as [Px _].
    by destruct (plain_not_special x Px) as (-> & -> & ->).
  - assert (is_dir s l = true) as -> by (by eapply is_dir_prefix). apply Forall_cons in Hp as [Pc Hp].
    destruct (plain_not_special c Pc) as (-> & -> & ->). cbn [negb orb].
    rewrite IH; [by rewrite <- app_assoc|done|done|by rewrite <- app_assoc].
Qed.
Lemma locate_run s abs a x : good_tree s → Forall plain_component (a ++ [x]) →
  is_dir s (loc abs a) = true → locate cwd s (path_of abs (a ++ [x])) = Ok (loc abs (a ++ [x])).
Proof.
  intros G Hp Hd. assert (a ++ [x] ≠ []) as Hne by (by destruct a). unfold locate.
  rewrite (proj2 (String.eqb_neq _ "")) by (by apply path_of_nonempty).
  rewrite split_path_of, start_path by done. destruct abs; [|by apply locate_from_plain].
  cbn [app locate_from is_dir negb]. rewrite String.eqb_refl. by apply (locate_from_plain s a []).
Qed.
Lemma locate_dir s abs a : good_tree s → a ≠ [] → Forall plain_component a → is_dir s (loc abs a) = true →
  locate cwd s (path_of abs a) = Ok (loc abs a).
Proof.
  intros G Hne Hp Hd. destruct (exists_last Hne) as (b & x & ->). apply locate_run; [done..|].
  apply (is_dir_prefix s _ [x]); [done|]. by rewrite <- app_assoc.
Qed.
Lemma read_run s abs a c : good_tree s → a ≠ [] → Forall plain_component a →
  content_of s (loc abs a) = Some c → read_bytes cwd s (path_of abs a) = Ok c.
Proof.
  intros G Hne Hp Hc. destruct (exists_last Hne) as (b & x & ->). unfold read_bytes.
  rewrite locate_run; [|done..|].
  - cbn [mbind res_bind]. by rewrite Hc.
  - apply (gt_parent s G _ x). rewrite <- app_assoc. unfold content_of in Hc.
    by destruct (s !! _).
Qed.
Lemma write_run s abs a x c : good_tree s → Forall plain_component (a ++ [x]) →
  is_dir s (loc abs a) = true → is_dir s (loc abs (a ++ [x])) = false →
  write_bytes cwd (path_of abs (a ++ [x])) c s = (Ok tt, <[loc abs (a ++ [x]) := File c]> s).
Proof.
  intros G Hp Hd Hf. assert (a ++ [x] ≠ []) as Hne by (by destruct a). unfold write_bytes.
  rewrite path_of_end by done. unfold mbind, ST_bind, gets, lift. rewrite locate_run by done. by rewrite Hf.
Qed.

(** A file saved where none of the directories above is a file *)
Record saved (s s' : tree) (l : list string) (c : string) : Prop := {
  sv_good : good_tree s';
  sv_content p : content_of s' p = if decide (p = l) then Some c else content_of s p;
  sv_dirs p : is_dir s' p = true ↔ is_dir s p = true ∨ (p `prefix_of` l ∧ p ≠ l)
}.
Definition free (s : tree) (l : list string) : Prop :=
  is_dir s l = false ∧ ∀ q, q `prefix_of` l → q ≠ l → content_of s q = None.
Lemma save_local_run s abs a x c : good_tree s → is_dir s (loc abs []) = true → a ≠ [] →
  Forall plain_component (a ++ [x]) → free s (loc abs (a ++ [x])) →
  ∃ s1 s', makedirs cwd (dirname (path_of abs (a ++ [x]))) s = (Ok tt, s1) ∧
    write_bytes cwd (path_of abs (a ++ [x])) c s1 = (Ok tt, s') ∧ saved s s' (loc abs (a ++ [x])) c.
Proof.
  intros G Hd Hne Hp [Hf Hq]. pose proof Hp as [Pa [Px _]%Forall_cons]%Forall_app.
  rewrite dirname_plain by done. set (l := if abs then [] else cwd) in *.
  destruct (makedirs_run abs a s G Hd Hne Pa) as (s1 & Hm & G1 & Hc1 & Hd1).
  { intros q [r ->]. apply Hq; fold l; [exists (r ++ [x]); by rewrite <- !app_assoc|].
    intros E%app_inv_head. apply (f_equal length) in E. rewrite !length_app in E. simpl in E. lia. }
  fold l in Hd1.
  assert (is_dir s1 (l ++ a) = true) as Hda by (apply Hd1; right; by exists a).
  assert (is_dir s1 (l ++ a ++ [x]) = false) as Hfx.
  { apply not_true_is_false. rewrite Hd1, Hf. intros [?|(q & [r ->] & E%app_inv_head)]; [done|].
    apply (f_equal length) in E. rewrite !length_app in E. simpl in E. lia. }
  eexists s1, _. split; [done|]. split; [by apply write_run|]. fold l. split.
  - rewrite app_assoc. apply good_insert; [done|done|done| |by rewrite <- app_assoc, Hfx].
    by eapply is_dir_plain.
  - intros p. rewrite content_insert. destruct (decide (p = _)) as [->|Hp']; [by rewrite decide_True|].
    rewrite decide_False by done. apply Hc1.
  - intros p. rewrite is_dir_insert. destruct (decide (_ = p)) as [<-|Hne'].
    + rewrite Hf. split; [by destruct ((l ++ a ++ [x])%list) eqn:E; [destruct l; [destruct a|]|]|].
      by intros [?|[_ ?]].
    + rewrite Hd1. split; (intros [?|H]; [by left|]).
      * destruct H as (q & [r ->] & ->). right. split; [|done]. exists (r ++ [x]). by rewrite <- !app_assoc.
      * destruct H as [[r E] Hne''].
        destruct r as [|y r _] using rev_ind; [by rewrite app_nil_r in E|].
        rewrite !app_assoc in E. apply app_inj_tail in E as [E _].
        apply app_eq_inv in E as [(k & -> & ->)|(k & -> & ->)].
        -- left. rewrite app_nil_r in Hd. by eapply is_dir_prefix.
        -- right. exists k. split; [by exists r|done].
Qed.
End Runs.
