(* ===== verification/Archives.v ===== *)
(** * Downloads as archives (workflow/storage.py)

    The storage classes collect files and directories in a temporary directory
    of the machine and pack it.  A file is read through the storage, which
    decrypts it; a directory is copied from the backend as it is stored. *)
From Stdlib Require Import Ascii String.
From stdpp Require Import base list strings numbers gmap sets.
From S2P Require Import Prelude PyStr Paths World Demo Storage LocalFiles.
Local Open Scope string_scope.
Local Open Scope list_scope.

(** What the SDKs list, [object_keys] the objects of a bucket or container,
    [sftp_walk] the directories and file names below a path of the server;
    [zip_bytes]: the bytes of an archive of named contents; [mkdtemp]: the
    directory [tempfile.mkdtemp] makes *)
Class Listing `{RawStorage} : Type := {
  object_keys : raw → list string;
  sftp_walk : raw → string → list (string * string);
  zip_bytes : list (string * string) → string;
  mkdtemp : tree → string
}.

Section Downloads.
Context `{RawStorage} `{Crypto} `{!Listing} (key : option string) (cwd : list string).
Abbreviation D := (ST (store * tree)).

Definition on_files {A} (m : ST tree A) : D A := λ s, let '(r, t) := m s.2 in (r, (s.1, t)).
Definition on_storage {A} (m : ST store A) : D A := λ s, let '(r, st) := m s.1 in (r, (st, s.2)).

(** [open_skip_decrypt] and [read] *)
Definition open_skip_decrypt (name : string) : ST store string := λ s,
  match raw_read (st_raw s) name with
  | Some c => (Ok c, s)
  | None => (Raise (PyException "No such file"), s)
  end.
(** What the SDKs' [get], [download_blob] and [download_file] give: the object as
    it is stored *)
Definition download_raw (name local_path : string) : D unit :=
  c ← on_storage (open_skip_decrypt name);
  on_files (write_bytes cwd local_path c).

(** [download_file_and_save_locally] *)
Definition download_file_and_save_locally (storage_file_path local_file_path : string) : D string :=
  d ← on_storage (read_file key storage_file_path "rb");
  let file_content := match d with Text c => c | Bytes c => c end in
  _ ← on_files (makedirs cwd (dirname local_file_path));
  _ ← on_files (write_bytes cwd local_file_path file_content);
  mret local_file_path.

(** [zip_directory] and the loop of [download_local_folder_as_zip] *)
Fixpoint pack (directory_path zip_file_path : string) (names : list (string * string))
    (packed : list (string * string)) : ST tree unit :=
  match names with
  | [] => write_bytes cwd zip_file_path (zip_bytes packed)
  | (root, file) :: names' =>
      let file_path := join2 root file in
      let archive_path := os_relpath file_path directory_path in
      r ← gets (λ s, read_bytes cwd s file_path);
      match r with
      | Ok c => pack directory_path zip_file_path names' (packed ++ [(archive_path, c)])
      | Raise e => _ ← write_bytes cwd zip_file_path (zip_bytes packed); raise e
      end
  end.
(** The archive is created empty before the directory is walked, and written
    when it is closed, on an exception too. *)
Definition zip_directory (directory_path zip_file_path : string) : ST tree unit :=
  _ ← write_bytes cwd zip_file_path "";
  names ← gets (λ s, walk cwd s directory_path);
  pack directory_path zip_file_path names [].
Definition download_local_folder_as_zip (folder_path : string) : ST tree string :=
  let zip_file_path := folder_path +:+ ".zip" in
  _ ← zip_directory folder_path zip_file_path;
  mret zip_file_path.

(** [if folder: os.makedirs(folder, exist_ok=True)] *)
Definition make_folder (local_destination_path : string) : D unit :=
  let folder := dirname local_destination_path in
  when (negb (String.eqb folder "")) (on_files (makedirs cwd folder)).
(** One object of [download_directory] *)
Definition save_object (directory_path local_destination_path name : string) : D unit :=
  let local_path := join2 local_destination_path (os_relpath name directory_path) in
  _ ← on_files (makedirs cwd (dirname local_path));
  download_raw name local_path.
(** The objects whose names start with the path *)
Definition objects_in (directory_path : string) : D (list string) :=
  on_storage (gets (λ s, List.filter (λ k, startswith k directory_path) (object_keys (st_raw s)))).

(** [FinmarsSFTPStorage] *)
Definition sftp_delete_directory (directory_path : string) : ST store unit :=
  files ← gets (λ s, sftp_walk (st_raw s) directory_path);
  for_each files (λ rf, delete_file (join2 rf.1 rf.2)).
Definition sftp_download_directory (directory_path local_destination_path : string) : D unit :=
  _ ← make_folder local_destination_path;
  files ← on_storage (gets (λ s, sftp_walk (st_raw s) directory_path));
  for_each files (λ rf,
    save_object directory_path local_destination_path (join2 rf.1 rf.2)).

(** [FinmarsAzureStorage] *)
Definition save_blob (directory_path local_destination_path name : string) : D unit :=
  when (startswith name directory_path) (save_object directory_path local_destination_path name).
Definition azure_download_directory (directory_path local_destination_path : string) : D unit :=
  _ ← make_folder local_destination_path;
  names ← objects_in directory_path;
  for_each names (save_blob directory_path local_destination_path).
Definition azure_download_directory_as_zip (directory_path : string) : D string :=
  names ← objects_in directory_path;
  temp_dir ← on_files (gets mkdtemp);
  _ ← on_files (makedirs cwd temp_dir);
  _ ← for_each names (save_blob directory_path temp_dir);
  zip_file_path ← on_files (download_local_folder_as_zip temp_dir);
  _ ← on_files (rmtree_tree cwd temp_dir);
  mret zip_file_path.

(** [FinmarsS3Storage] *)
Definition s3_download_directory (directory_path local_destination_path : string) : D unit :=
  _ ← make_folder local_destination_path;
  names ← objects_in directory_path;
  for_each names (save_object directory_path local_destination_path).
Definition s3_download_directory_as_zip (directory_path : string) : D string :=
  temp_dir ← on_files (gets mkdtemp);
  _ ← on_files (makedirs cwd temp_dir);
  names ← objects_in directory_path;
  _ ← for_each names (save_object directory_path temp_dir);
  zip_file_path ← on_files (download_local_folder_as_zip temp_dir);
  _ ← on_files (rmtree_tree cwd temp_dir);
  mret zip_file_path.

(** [FinmarsLocalFileSystemStorage] *)
Definition local_delete_directory (directory_path : string) : ST tree unit :=
  rmtree_tree cwd (join2 media_root directory_path).
Definition local_download_directory (src local_destination_path : string) : D unit :=
  on_files (copytree cwd (join2 media_root src) local_destination_path).
Definition local_download_directory_as_zip (folder_path : string) : D string :=
  on_files (download_local_folder_as_zip (join2 media_root folder_path)).

(** [self.download_directory] of the backend *)
Definition download_directory_to (b : backend) : string → string → D unit :=
  match b with
  | SFTP => sftp_download_directory
  | S3 => s3_download_directory
  | Azure => azure_download_directory
  | LocalFileSystem => local_download_directory
  end.

(** [download_paths_as_zip], [space] being [Space.objects.all().first()] *)
Definition zip_filename : string := "archive.zip".
Definition temp_dir_path : string := join2 (dirname zip_filename) "tmp/temp_download".
Definition download_path (b : backend) (space : option space_row) (path : string) : D unit :=
  let local_filename := temp_dir_path +:+ "/" +:+ path in
  name ← lift (space_name space path);
  if endswith path "/" then download_directory_to b name local_filename
  else _ ← download_file_and_save_locally name local_filename; mret tt.
Definition download_paths_as_zip (b : backend) (space : option space_row) (paths : list string) : D string :=
  _ ← on_files (makedirs cwd temp_dir_path);
  _ ← for_each paths (download_path b space);
  _ ← on_files (zip_directory temp_dir_path zip_filename);
  mret zip_filename.
End Downloads.

(** ** Packing a directory *)

(** The entries of an archive of the files below [d] *)
Record archive_of (s : tree) (d : list string) (entries : list (string * string)) : Prop := {
  ao_names : NoDup entries.*1;
  ao_entries name c : (name, c) ∈ entries ↔
    ∃ rel, rel ≠ [] ∧ name = join "/" rel ∧ content_of s (d ++ rel) = Some c
}.

Section Packing.
Context `{Listing} (cwd : list string).
Abbreviation loc abs comps := ((if abs : bool then [] else cwd) ++ comps)%list.

Definition packed_file (s : tree) (d rel : list string) : string * string :=
  (join "/" rel, default "" (content_of s (d ++ rel))).
Definition walked (top : string) (rel : list string) : string * string :=
  (fold_left join2 (removelast rel) top, default "" (last rel)).

Lemma pack_run s abs a zip rels : ∀ packed, good_tree s → a ≠ [] → Forall plain_component a →
  Forall (λ rel, rel ≠ [] ∧ is_Some (content_of s (loc abs a ++ rel))) rels →
  pack cwd (path_of abs a) zip (walked (path_of abs a) <$> rels) packed s
  = write_bytes cwd zip (zip_bytes (packed ++ (packed_file s (loc abs a) <$> rels))) s.
Proof.
  induction rels as [|rel rels IH]; intros packed G Hne Pa Hr; [by rewrite app_nil_r|].
  apply Forall_cons in Hr as [[Hrel [c Hc]] Hr].
  assert (Forall plain_component rel) as Prel.
  { assert (is_Some (s !! (loc abs a ++ rel))) as Hs
      by (unfold content_of in Hc; destruct (s !! _); [by eexists|done]).
    by apply (gt_names s G), proj2, Forall_app, proj2 in Hs. }
  destruct (exists_last Hrel) as (r & x & ->). pose proof Prel as [Pr [Px _]%Forall_cons]%Forall_app.
  cbn [fmap list_fmap pack walked]. rewrite removelast_last, last_snoc.
  rewrite fold_join2 by done. change (default "" (Some x)) with (join "/" [x]).
  rewrite (proj1 (join2_plain abs (a ++ r) [x] ltac:(by destruct a) ltac:(done) ltac:(by apply Forall_app_2)
    ltac:(by constructor))), <- app_assoc.
  unfold gets, mbind, ST_bind. rewrite (read_run cwd s abs (a ++ r ++ [x]) c); [|done|by destruct a|by apply Forall_app_2|by rewrite <- app_assoc in Hc].
  rewrite (proj1 (os_relpath_plain abs a (r ++ [x]) Hne Hrel Pa Prel)).
  rewrite IH by done. unfold packed_file at 2. rewrite Hc. cbn [default]. by rewrite <- app_assoc.
Qed.
Lemma packed_archive s d rels : good_tree s → NoDup rels →
  (∀ rel, rel ∈ rels ↔ rel ≠ [] ∧ is_Some (content_of s (d ++ rel))) →
  archive_of s d (packed_file s d <$> rels).
Proof.
  intros G Hn Hr. assert (∀ rel, rel ∈ rels → rel ≠ [] ∧ Forall plain_component rel) as Hp.
  { intros rel [Hne [c Hc]]%Hr. split; [done|]. unfold content_of in Hc.
    destruct (s !! (d ++ rel)) as [e|] eqn:E; [|done].
    by apply (Forall_app _ d), (gt_names s G); rewrite E. }
  split.
  - rewrite <- list_fmap_compose. apply NoDup_fmap_2_strong; [|done].
    intros r r' [Hr1 Pr1]%Hp [Hr2 Pr2]%Hp E. cbn in E. by rewrite <- (split_plain r), <- (split_plain r'), E.
  - intros name c. rewrite list_elem_of_fmap. split.
    + intros (rel & [= -> ->] & [Hne [c' Hc']]%Hr). exists rel. by rewrite Hc'.
    + intros (rel & Hne & -> & Hc). exists rel. unfold packed_file. rewrite Hc. split; [done|].
      apply Hr. by eauto.
Qed.

(** [zip_directory] packs every file below the directory once, under its path
    from there. *)
Lemma zip_directory_run s abs a zabs z y : good_tree s → a ≠ [] → Forall plain_component a →
  Forall plain_component (z ++ [y]) → is_dir s (loc abs a) = true → is_dir s (loc zabs z) = true →
  is_dir s (loc zabs (z ++ [y])) = false → (∀ rel, rel ≠ [] → loc zabs (z ++ [y]) ≠ loc abs a ++ rel) →
  ∃ entries, archive_of s (loc abs a) entries ∧
    zip_directory cwd (path_of abs a) (path_of zabs (z ++ [y])) s
    = (Ok tt, <[loc zabs (z ++ [y]) := File (zip_bytes entries)]> s).
Proof.
  intros G Hne Pa Pz Hd Hz Hf Hout. set (l := loc zabs (z ++ [y])) in *.
  set (s1 := <[l := File ""]> s).
  assert (good_tree s1) as G1.
  { unfold s1, l. rewrite app_assoc. apply good_insert; [done|done| | |rewrite <- app_assoc; fold l; by rewrite Hf].
    - by apply Forall_app in Pz as [_ [? _]%Forall_cons].
    - by eapply is_dir_plain. }
  assert (∀ p, p ≠ l → is_dir s1 p = is_dir s p ∧ content_of s1 p = content_of s p) as Hsame.
  { intros p Hp. unfold s1. by rewrite is_dir_insert, content_insert, !decide_False. }
  assert (∀ rel, rel ≠ [] → content_of s1 (loc abs a ++ rel) = content_of s (loc abs a ++ rel)) as Hbelow.
  { intros rel Hrel. apply Hsame. symmetry. by apply Hout. }
  assert (∀ p, is_dir s p = true → p ≠ l) as Hnl by (by intros p Hp ->; rewrite Hf in Hp).
  assert (is_dir s1 (loc abs a) = true) as Hd1 by (rewrite (proj1 (Hsame _ (Hnl _ Hd))); done).
  exists (packed_file s1 (loc abs a) <$> files_below s1 (loc abs a)).
  pose proof (packed_archive s1 (loc abs a) (files_below s1 (loc abs a)) G1 (files_below_nodup _ _)
    (elem_files_below s1 (loc abs a))) as [An Ae].
  split.
  - split; [done|]. intros name c. rewrite Ae. by split; intros (rel & Hrel & -> & Hc); exists rel;
      rewrite ?Hbelow in * by done.
  - unfold zip_directory. rewrite (bind_ok _ _ s tt s1) by (by apply write_run).
    unfold gets at 1, mbind, ST_bind, walk. rewrite locate_dir by done. rewrite Hd1.
    rewrite (pack_run s1 abs a _ (files_below s1 (loc abs a))); [|done..|].
    + rewrite app_nil_l, write_run; [|done|done| |].
      * unfold s1. by rewrite insert_insert_eq.
      * rewrite (proj1 (Hsame _ (Hnl _ Hz))). done.
      * unfold s1. rewrite is_dir_insert, decide_True by done. revert Hf. fold l. clear. generalize l. by intros [].
    + apply Forall_forall. intros rel. apply elem_files_below.
Qed.
End Packing.

(** ** Collecting files *)

Section Collecting.
Context `{RawStorage} `{Crypto} `{!Listing} (key : option string) (cwd : list string).

(** Where the downloads go *)
Definition temp_comps : list string := ["tmp"; "temp_download"].
Abbreviation d := (cwd ++ temp_comps)%list.
Lemma temp_path : temp_dir_path = path_of false temp_comps.
Proof using. done. Qed.
Lemma temp_plain : Forall plain_component temp_comps.
Proof using. by repeat constructor. Qed.

(** [files] can be saved below [d], and [above] be directories there. *)
Record room (s : tree) (above files : list (list string)) : Prop := {
  rm_apart b f : b ∈ above → f ∈ files → ¬ f `prefix_of` b;
  rm_above b q : b ∈ above → q `prefix_of` b → content_of s (d ++ q) = None;
  rm_files f : f ∈ files → is_dir s (d ++ f) = false
}.
(** What a step of the downloads leaves: the file saved, if there is one, and new
    directories only below [d] *)
Record collects (s s' : tree) (above : list (list string)) (items : list (list string * string)) : Prop := {
  cl_good : good_tree s';
  cl_dir : is_dir s' d = true;
  cl_content p : content_of s' p =
    foldl (λ o it, if decide (p = d ++ it.1) then Some it.2 else o) (content_of s p) items;
  cl_dirs p : is_dir s' p = true → is_dir s p = true ∨ ∃ b q, b ∈ above ∧ q `prefix_of` b ∧ p = d ++ q;
  cl_kept p : is_dir s p = true → is_dir s' p = true
}.

Lemma collects_refl s above : good_tree s → is_dir s d = true → collects s s above [].
Proof using. intros G Hd. split; try done. intros p Hp. by left. Qed.
Lemma collects_trans s1 s2 s3 above i1 i2 : collects s1 s2 above i1 → collects s2 s3 above i2 →
  collects s1 s3 above (i1 ++ i2).
Proof using.
  intros [G1 D1 C1 E1 K1] [G2 D2 C2 E2 K2]. split; try done.
  - intros p. rewrite C2, C1. by rewrite foldl_app.
  - intros p [?|?]%E2; [by apply E1|by right].
  - intros p Hp. by apply K2, K1.
Qed.
Lemma foldl_none p items : (∀ it, it ∈ items → p ≠ d ++ it.1) → ∀ o : option string,
  foldl (λ o it, if decide (p = d ++ it.1) then Some it.2 else o) o items = o.
Proof using.
  induction items as [|it items IH]; intros Hp o; simpl; [done|].
  rewrite decide_False by (apply Hp; left). apply IH. intros it' Hit. apply Hp. by right.
Qed.
Lemma room_collects s s' above files items : room s above files → collects s s' above items →
  (∀ it, it ∈ items → it.1 ∈ files) → room s' above files.
Proof using.
  intros [R1 R2 R3] [G D C H' K] Hi. split; [done| |].
  - intros b q Hb Hq. rewrite C, foldl_none; [by apply (R2 b)|].
    intros it Hit ->%app_inv_head. by apply (R1 b it.1); [|apply Hi|].
  - intros f Hf. apply not_true_is_false. intros [E|(b & q & Hb & Hq & E)]%H'.
    + by rewrite R3 in E.
    + apply app_inv_head in E as ->. by apply (R1 b q).
Qed.

Lemma prefix_split (p l r : list string) : p `prefix_of` l ++ r → p `prefix_of` l ∨ ∃ k, p = l ++ k ∧ k `prefix_of` r.
Proof using.
  intros [t E]. apply app_eq_inv in E as [(k & -> & ->)|(k & -> & ->)].
  - left. by exists k.
  - right. exists k. split; [done|by exists t].
Qed.
Lemma below_content s q : good_tree s → is_dir s d = true → q `prefix_of` d → content_of s q = None.
Proof using. intros G Hd [k E]. apply is_dir_content; [done|]. eapply is_dir_prefix; [done|]. by rewrite <- E. Qed.

(** One file *)
Lemma save_step s above files a x c : good_tree s → is_dir s d = true → Forall plain_component (a ++ [x]) →
  room s above files → a ∈ above → a ++ [x] ∈ files →
  ∃ s1 s', makedirs cwd (dirname (path_of false (temp_comps ++ a ++ [x]))) s = (Ok tt, s1) ∧
    write_bytes cwd (path_of false (temp_comps ++ a ++ [x])) c s1 = (Ok tt, s') ∧
    collects s s' above [(a ++ [x], c)].
Proof using.
  intros G Hd Hp R Ha Hf. destruct R as [R1 R2 R3].
  destruct (save_local_run cwd s false (temp_comps ++ a) x c) as (s1 & s' & Hm & Hw & [Sg Sc Sd]).
  - done.
  - rewrite app_nil_r. by eapply is_dir_prefix.
  - done.
  - rewrite <- app_assoc. by apply Forall_app_2; [apply temp_plain|].
  - rewrite <- app_assoc. cbn iota. rewrite app_assoc. split; [by apply R3|].
    intros q [Hq|(k & -> & Hk)]%prefix_split Hne; [by apply below_content|].
    apply (R2 a); [done|]. apply prefix_split in Hk as [Hk|(k' & -> & Hk)]; [done|].
    destruct k' as [|y k']; [by rewrite app_nil_r|]. exfalso. apply Hne.
    destruct Hk as [t E]. injection E as -> E. symmetry in E. apply app_eq_nil in E as [-> ->]. done.
  - rewrite <- app_assoc in Hm, Hw, Sc, Sd. cbn iota in Sc, Sd. rewrite app_assoc in Sc, Sd.
    exists s1, s'. split; [done|]. split; [done|]. split.
    + done.
    + apply Sd. by left.
    + intros p. rewrite Sc. simpl. by rewrite app_assoc.
    + intros p [?|[Hq Hne]]%Sd; [by left|].
      apply prefix_split in Hq as [[k E]|(k & -> & Hk)].
      * left. apply (is_dir_prefix s p k); [done|]. by rewrite <- E.
      * apply prefix_split in Hk as [Hk|(k' & -> & Hk)]; [right; by exists a, k|].
        destruct k' as [|y k']; [right; exists a, a; by rewrite app_nil_r|]. exfalso. apply Hne.
        destruct Hk as [t E]. injection E as -> E. symmetry in E. apply app_eq_nil in E as [-> ->].
        by rewrite <- !app_assoc.
    + intros p Hp'. apply Sd. by left.
Qed.
(** One directory *)
Lemma folder_step s above files b : good_tree s → is_dir s d = true → Forall plain_component b →
  room s above files → b ∈ above →
  ∃ s', makedirs cwd (path_of false (temp_comps ++ b)) s = (Ok tt, s') ∧ collects s s' above [].
Proof using.
  intros G Hd Hp R Hb. destruct (makedirs_run cwd false (temp_comps ++ b) s) as (s' & Hm & G' & Hc & Hi).
  - done.
  - rewrite app_nil_r. by eapply is_dir_prefix.
  - done.
  - by apply Forall_app_2; [apply temp_plain|].
  - intros q Hq. cbn iota. apply prefix_split in Hq as [[k E]|(k & -> & Hk)].
    + apply below_content; [done..|]. exists k. by rewrite E, app_assoc.
    + rewrite app_assoc. by apply (rm_above _ _ _ R b).
  - cbn iota in Hi. exists s'. split; [done|]. split; [done|apply Hi; by left|by intros p; rewrite Hc| |].
    + intros p [?|(q & Hq & ->)]%Hi; [by left|]. apply prefix_split in Hq as [[k E]|(k & -> & Hk)].
      * left. apply (is_dir_prefix s _ k); [done|]. by rewrite <- app_assoc, <- E.
      * right. exists b, k. by rewrite app_assoc.
    + intros p Hp'. apply Hi. by left.
Qed.

(** What a path of the request asks for, with the directories it needs: a file
    is read through the storage, the objects below a directory as they are
    stored. *)
Inductive asks (b : backend) (st : store) (sp : space_row)
    : string → list (list string) → list (list string * string) → Prop :=
  | asks_file a x c content : Forall plain_component (a ++ [x]) →
      read_file key (path_of false (sp_space_code sp :: a ++ [x])) "rb" st = (Ok content, st) →
      c = (match content with Text c => c | Bytes c => c end) →
      asks b st sp (path_of false (a ++ [x])) [a] [(a ++ [x], c)]
  | asks_directory a items : b = S3 ∨ b = Azure → a ≠ [] → Forall plain_component a →
      Forall2 (λ name it, ∃ r x, Forall plain_component (r ++ [x]) ∧
          name = path_of false (sp_space_code sp :: a ++ r ++ [x]) ∧
          it.1 = (a ++ r ++ [x])%list ∧ raw_read (st_raw st) name = Some it.2)
        (List.filter (λ k, startswith k (path_of false (sp_space_code sp :: a) +:+ "/")) (object_keys (st_raw st)))
        items →
      asks b st sp (path_of false a +:+ "/") (a :: map (λ it, removelast it.1) items) items.

(** Saving one object *)
Lemma save_object_run st s sp a r x c above files : good_tree s → is_dir s d = true →
  plain_component (sp_space_code sp) → a ≠ [] → Forall plain_component a → Forall plain_component (r ++ [x]) →
  room s above files → (a ++ r)%list ∈ above → a ++ r ++ [x] ∈ files →
  raw_read (st_raw st) (path_of false (sp_space_code sp :: a ++ r ++ [x])) = Some c →
  ∃ s', save_object cwd (path_of false (sp_space_code sp :: a) +:+ "/") (path_of false (temp_comps ++ a) +:+ "/")
      (path_of false (sp_space_code sp :: a ++ r ++ [x])) (st, s) = (Ok tt, (st, s')) ∧
    collects s s' above [(a ++ r ++ [x], c)].
Proof.
  intros G Hd Hsp Hne Pa Pr R Ha Hf Hc.
  destruct (save_step s above files (a ++ r) x c G Hd) as (s1 & s' & Hm & Hw & C); [|done|done| |].
  - rewrite <- app_assoc. by apply Forall_app_2.
  - by rewrite <- app_assoc.
  - rewrite <- app_assoc in Hm, Hw, C. exists s'. split; [|done]. unfold save_object.
    pose proof (proj2 (os_relpath_plain false (sp_space_code sp :: a) (r ++ [x]) ltac:(done) ltac:(by destruct r)
      ltac:(by constructor) Pr)) as Er. cbn [app] in Er. rewrite Er.
    rewrite (proj2 (join2_plain false (temp_comps ++ a) (r ++ [x]) ltac:(done) ltac:(by destruct r)
      ltac:(by apply Forall_app_2; [apply temp_plain|]) Pr)).
    rewrite <- app_assoc. rewrite (bind_ok _ _ (st, s) tt (st, s1)) by (unfold on_files; cbn [snd fst]; by rewrite Hm).
    unfold download_raw. rewrite (bind_ok _ _ (st, s1) c (st, s1))
      by (unfold on_storage, open_skip_decrypt; cbn [snd fst]; by rewrite Hc).
    unfold on_files. cbn [snd fst]. by rewrite Hw.
Qed.
Lemma save_objects_run st sp a above files : plain_component (sp_space_code sp) → a ≠ [] → Forall plain_component a →
  ∀ names items s, good_tree s → is_dir s d = true → room s above files →
  Forall2 (λ name it, ∃ r x, Forall plain_component (r ++ [x]) ∧
    name = path_of false (sp_space_code sp :: a ++ r ++ [x]) ∧
    it.1 = (a ++ r ++ [x])%list ∧ raw_read (st_raw st) name = Some it.2) names items →
  (∀ it, it ∈ items → removelast it.1 ∈ above ∧ it.1 ∈ files) →
  ∃ s', for_each names (save_object cwd (path_of false (sp_space_code sp :: a) +:+ "/")
      (path_of false (temp_comps ++ a) +:+ "/")) (st, s) = (Ok tt, (st, s')) ∧ collects s s' above items.
Proof.
  intros Hsp Hne Pa names items s G Hd R Hi. revert s G Hd R.
  induction Hi as [|name [rel c] names items (r & x & Pr & -> & Hrel & Hc) Hi IH]; intros s G Hd R Hin.
  { exists s. split; [done|]. by apply collects_refl. }
  simpl in Hrel, Hc. subst rel. destruct (Hin (a ++ r ++ [x], c)%list ltac:(left)) as [Hab Hfi].
  cbn [fst] in Hab, Hfi. rewrite app_assoc, removelast_last in Hab.
  destruct (save_object_run st s sp a r x c above files) as (s1 & Hrun & C); [done..|].
  destruct (IH s1) as (s' & Hrun' & C').
  - apply C.
  - apply C.
  - eapply room_collects; [done..|]. by intros it ->%list_elem_of_singleton.
  - intros it Hit. apply Hin. by right.
  - exists s'. split; [cbn [for_each]; by rewrite (bind_ok _ _ _ _ _ Hrun)|].
    by apply (collects_trans s s1 s' above [_] items).
Qed.

Lemma guarded_each (P : string → bool) (m : string → ST (store * tree) unit) l :
  for_each (List.filter P l) (λ n, when (P n) (m n)) = for_each (List.filter P l) m.
Proof. induction l as [|n l IH]; [done|]. simpl. destruct (P n) eqn:E; [|done]. cbn [for_each]. by rewrite E, IH. Qed.
Lemma local_filename comps : comps ≠ [] → Forall plain_component comps →
  temp_dir_path +:+ "/" +:+ path_of false comps = path_of false (temp_comps ++ comps).
Proof. intros Hne Hp. rewrite temp_path. unfold path_of. by rewrite join_app. Qed.
Lemma space_name_plain sp comps t : comps ≠ [] → Forall plain_component comps →
  space_name (Some sp) (path_of false comps +:+ t) = Ok (path_of false (sp_space_code sp :: comps) +:+ t).
Proof.
  intros Hne Hp. destruct (plain_first comps Hne Hp) as (c & u & E & Hc). apply Ascii.eqb_neq in Hc.
  unfold path_of. destruct comps as [|y comps]; [done|].
  change (join "/" (sp_space_code sp :: y :: comps)) with (sp_space_code sp +:+ "/" +:+ join "/" (y :: comps)).
  rewrite E. unfold space_name. cbn -[Ascii.eqb]. rewrite Hc. by rewrite <- str_app_assoc.
Qed.
Lemma download_path_run b st sp path above' items s above files : plain_component (sp_space_code sp) →
  good_tree s → is_dir s d = true → room s above files → asks b st sp path above' items →
  (∀ a, a ∈ above' → a ∈ above) → (∀ it, it ∈ items → it.1 ∈ files) →
  ∃ s', download_path key cwd b (Some sp) path (st, s) = (Ok tt, (st, s')) ∧ collects s s' above items.
Proof.
  intros Hsp G Hd R A Hab Hfi. destruct A as [a x c content Pa Hr ->|a items Hb Hne Pa Hi]; unfold download_path.
  - assert (a ++ [x] ≠ []) as Hne by (by destruct a).
    destruct (save_step s above files a x (match content with Text c => c | Bytes c => c end) G Hd Pa R)
      as (s1 & s' & Hm & Hw & C); [apply Hab; left|apply (Hfi _ ltac:(left))|].
    exists s'. split; [|done]. rewrite local_filename by done.
    pose proof (space_name_plain sp (a ++ [x]) "" Hne Pa) as Hn. rewrite !str_app_nil_r in Hn. rewrite Hn.
    cbv zeta. rewrite (bind_ok (lift _) _ (st, s) (path_of false (sp_space_code sp :: a ++ [x])) (st, s) eq_refl).
    rewrite path_of_end by done.
    rewrite (bind_ok _ _ (st, s) (path_of false (temp_comps ++ a ++ [x])) (st, s')); [done|].
    unfold download_file_and_save_locally.
    rewrite (bind_ok _ _ (st, s) content (st, s)) by (unfold on_storage; cbn [fst snd]; by rewrite Hr).
    rewrite (bind_ok _ _ (st, s) tt (st, s1)) by (unfold on_files; cbn [fst snd]; by rewrite Hm).
    rewrite (bind_ok _ _ (st, s1) tt (st, s')) by (unfold on_files; cbn [fst snd]; by rewrite Hw). done.
  - rewrite (str_app_assoc temp_dir_path), (str_app_assoc (temp_dir_path +:+ "/")), <- (str_app_assoc temp_dir_path), local_filename by done.
    rewrite space_name_plain by done. cbv zeta.
    rewrite (bind_ok (lift _) _ (st, s) (path_of false (sp_space_code sp :: a) +:+ "/") (st, s) eq_refl).
    rewrite (proj2 (endswith_iff _ "/")) by (by eexists).
    destruct (folder_step s above files a G Hd Pa R) as (s1 & Hm & C1); [apply Hab; left|].
    match type of Hi with Forall2 _ ?l _ => set (names := l) in * end.
    destruct (save_objects_run st sp a above files Hsp Hne Pa names items s1) as (s' & Hrun & C2).
    + apply C1.
    + apply C1.
    + eapply room_collects; [done..|]. by intros it ?%elem_of_nil.
    + exact Hi.
    + intros it Hit. split; [|by apply Hfi]. apply Hab. right. apply list_elem_of_In, in_map_iff.
      exists it. split; [done|]. by apply list_elem_of_In.
    + exists s'. split; [|by apply (collects_trans s s1 s' above [] items)].
      assert (∀ k : ST (store * tree) unit, k (st, s1) = (Ok tt, (st, s')) →
        (_ ← make_folder cwd (path_of false (temp_comps ++ a) +:+ "/"); k) (st, s) = (Ok tt, (st, s'))) as Hk.
      { intros k Hk. rewrite (bind_ok _ _ _ tt (st, s1)); [done|]. unfold make_folder.
        rewrite dirname_slash by (try done; by apply Forall_app_2; [apply temp_plain|]).
        rewrite (proj2 (String.eqb_neq _ "")) by (by apply path_of_nonempty; [|apply Forall_app_2; [apply temp_plain|]]).
        unfold when, on_files. cbn [negb fst snd]. by rewrite Hm. }
      destruct Hb as [-> | ->]; apply Hk; unfold objects_in, on_storage, gets, mbind, ST_bind; cbn [fst snd];
        [exact Hrun|]. rewrite <- Hrun. unfold names, save_blob. by rewrite guarded_each.
Qed.

(** What the requested items make of a file that was there *)
Definition requested (items : list (list string * string)) (rel : list string) (old : option string) : option string :=
  foldl (λ o it, if decide (it.1 = rel) then Some it.2 else o) old items.
Lemma foldl_requested items rel : ∀ old,
  foldl (λ o it, if decide (d ++ rel = d ++ it.1) then Some it.2 else o) old items = requested items rel old.
Proof using.
  induction items as [|it items IH]; intros old; [done|]. cbn [foldl requested]. rewrite IH. unfold requested.
  f_equal. destruct (decide (it.1 = rel)) as [->|Hne]; [by rewrite decide_True|].
  rewrite decide_False; [done|]. by intros E%app_inv_head.
Qed.

Lemma download_paths_run b st sp above files : plain_component (sp_space_code sp) →
  ∀ paths req s, good_tree s → is_dir s d = true → room s above files →
  Forall2 (λ path r, asks b st sp path r.1 r.2) paths req →
  (∀ r, r ∈ req → (∀ a, a ∈ r.1 → a ∈ above) ∧ ∀ it, it ∈ r.2 → it.1 ∈ files) →
  ∃ s', for_each paths (download_path key cwd b (Some sp)) (st, s) = (Ok tt, (st, s')) ∧
    collects s s' above (concat (snd <$> req)).
Proof.
  intros Hsp paths req s G Hd R A. revert s G Hd R. induction A as [|path [ab it] paths req A As IH]; intros s G Hd R Hin.
  { exists s. split; [done|]. by apply collects_refl. }
  destruct (Hin (ab, it) ltac:(left)) as [Hab Hfi].
  destruct (download_path_run b st sp path ab it s above files) as (s1 & Hrun & C); [done..|].
  destruct (IH s1) as (s' & Hrun' & C').
  - apply C.
  - apply C.
  - by eapply room_collects.
  - intros r Hr. apply Hin. by right.
  - exists s'. split; [cbn [for_each]; by rewrite (bind_ok _ _ _ _ _ Hrun)|].
    apply (collects_trans s s1 s' above it _ C C').
Qed.

(** A machine on which the request [req] can be collected: the working directory
    is there, no file is where the temporary directory is to be, the archive's
    name is no directory's, and the items have room. *)
Record ready (s : tree) (above files : list (list string)) : Prop := {
  rd_tree : good_tree s;
  rd_cwd : is_dir s cwd = true;
  rd_temp q : q `prefix_of` temp_comps → content_of s (cwd ++ q) = None;
  rd_zip : is_dir s (cwd ++ [zip_filename]) = false;
  rd_items f : f ∈ files → f ≠ [];
  rd_room : room s above files
}.
Lemma zip_apart (rel : list string) : cwd ++ [zip_filename] ≠ d ++ rel.
Proof using. rewrite <- app_assoc. by intros E%app_inv_head. Qed.
Lemma temp_made s above files : ready s above files →
  ∃ s1, makedirs cwd temp_dir_path s = (Ok tt, s1) ∧ good_tree s1 ∧ is_dir s1 d = true ∧ room s1 above files ∧
    (∀ p, content_of s1 p = content_of s p) ∧ is_dir s1 (cwd ++ [zip_filename]) = false.
Proof using.
  intros [G Hd Ht Hz Hi [R1 R2 R3]]. destruct (makedirs_run cwd false temp_comps s G) as (s1 & Hm & G1 & Hc & Hi1).
  - by rewrite app_nil_r.
  - done.
  - apply temp_plain.
  - exact Ht.
  - cbn iota in Hi1. exists s1. rewrite temp_path. split_and!; [done|done| | |done|].
    + apply Hi1. right. by exists temp_comps.
    + split; [done|intros b q Hb Hq; rewrite Hc; by apply (R2 b)|].
      intros f Hf. apply not_true_is_false. intros [E|(q & [k Ek] & E)]%Hi1; [by rewrite R3 in E|].
      rewrite <- app_assoc in E. apply app_inv_head in E. rewrite <- E, <- app_assoc in Ek.
      apply (f_equal length) in Ek. rewrite !length_app in Ek. specialize (Hi f Hf). destruct f; [done|]. simpl in Ek. lia.
    + apply not_true_is_false. intros [E|(q & [k Ek] & E)]%Hi1; [by rewrite Hz in E|].
      apply app_inv_head in E. subst q. by destruct k.
Qed.

(** Archives hold what was asked for, and what was left.  Downloading files,
    and on S3 and Azure directories, as an archive succeeds when the machine has
    room for them; the archive has one entry for every requested file, under its
    path and with its content, and one for every file an earlier download has
    left in the temporary directory, which nothing ever empties: with its old
    content, unless it is requested again.  The storage is not changed. *)
Theorem archive_complete b st sp s above files paths req : plain_component (sp_space_code sp) →
  ready s above files → Forall2 (λ path r, asks b st sp path r.1 r.2) paths req →
  (∀ r, r ∈ req → (∀ a, a ∈ r.1 → a ∈ above) ∧ ∀ it, it ∈ r.2 → it.1 ∈ files) →
  ∃ entries s', download_paths_as_zip key cwd b (Some sp) paths (st, s) = (Ok zip_filename, (st, s')) ∧
    content_of s' (cwd ++ [zip_filename]) = Some (zip_bytes entries) ∧ NoDup entries.*1 ∧
    ∀ name c, (name, c) ∈ entries ↔ ∃ rel, rel ≠ [] ∧ name = join "/" rel ∧
      requested (concat (snd <$> req)) rel (content_of s (d ++ rel)) = Some c.
Proof.
  intros Hsp Hr A Hin. destruct (temp_made s above files Hr) as (s1 & Hm & G1 & Hd1 & R1 & Hc1 & Hz1).
  destruct (download_paths_run b st sp above files Hsp paths req s1) as (s2 & Hrun & C); [done..|].
  assert (is_dir s2 (cwd ++ [zip_filename]) = false) as Hz2.
  { apply not_true_is_false. intros [E|(b' & q & _ & _ & E)]%(cl_dirs _ _ _ _ C); [by rewrite Hz1 in E|].
    by apply zip_apart in E. }
  destruct (zip_directory_run cwd s2 false temp_comps false [] zip_filename) as (entries & [An Ae] & Hzip).
  - apply C.
  - done.
  - apply temp_plain.
  - by repeat constructor.
  - apply C.
  - rewrite app_nil_r. apply (is_dir_prefix s2 cwd temp_comps); apply C.
  - exact Hz2.
  - intros rel _. apply zip_apart.
  - cbn iota in Ae, Hzip. exists entries. eexists. split; [|split; [|split; [exact An|]]].
    + unfold download_paths_as_zip.
      rewrite (bind_ok _ _ (st, s) tt (st, s1)) by (unfold on_files; cbn [fst snd]; by rewrite Hm).
      rewrite (bind_ok _ _ _ _ _ Hrun).
      rewrite (bind_ok _ _ (st, s2) tt (st, <[cwd ++ [zip_filename] := File (zip_bytes entries)]> s2)); [done|].
      unfold on_files. cbn [fst snd]. change (zip_directory cwd temp_dir_path zip_filename s2) with (zip_directory cwd (path_of false temp_comps) (path_of false ([] ++ [zip_filename])) s2).
      by rewrite Hzip.
    + rewrite content_insert. by rewrite decide_True.
    + intros name c. rewrite Ae. split; intros (rel & Hrel & -> & Hc); exists rel; (split; [done|]; split; [done|]).
      * rewrite (cl_content _ _ _ _ C), foldl_requested, Hc1 in Hc. done.
      * by rewrite (cl_content _ _ _ _ C), foldl_requested, Hc1.
Qed.
End Collecting.

(** ** A machine *)

Lemma good_tree_check s : Forall (λ kv, kv.1 ≠ [] ∧ Forall plain_component kv.1 ∧ is_dir s (removelast kv.1) = true)
  (map_to_list s) → good_tree s.
Proof.
  intros Hs. rewrite Forall_forall in Hs. split.
  - intros p x [e He%elem_of_map_to_list]. destruct (Hs _ He) as (_ & _ & Hd). cbn [fst] in Hd.
    by rewrite removelast_last in Hd.
  - intros p [e He%elem_of_map_to_list]. by destruct (Hs _ He) as (? & ? & _).
Qed.

#[export] Instance file_listing : @Listing file_store := {|
  object_keys := (map fst : list (string * string) → list string);
  sftp_walk := λ _ _, [];
  zip_bytes := λ l, join ";" ((λ kv, kv.1 +:+ "=" +:+ kv.2) <$> l);
  mkdtemp := λ _, "/tmp/dir" |}.
(** A file that another request has left in the temporary directory *)
Definition machine : tree :=
  <[["app"] := Dir]> (<[["app"; "tmp"] := Dir]> (<[["app"; "tmp"; "temp_download"] := Dir]>
  (<[["app"; "tmp"; "temp_download"; "left.txt"] := File "old"]> ∅))).
Definition bucket : store (H:=file_store) :=
  files [("space00000/a.txt", "one"); ("space00000/data/b.txt", "two"); ("space11111/c.txt", "three")].
Definition request_paths : list string := ["a.txt"; "data/"].
Definition request_items : list (list (list string) * list (list string * string)) :=
  [([[]], [(["a.txt"], "one")]); ([["data"]; ["data"]], [(["data"; "b.txt"], "two")])].

Lemma machine_ready : ready ["app"] machine [[]; ["data"]] [["a.txt"]; ["data"; "b.txt"]].
Proof.
  assert (∀ q l : list string, q `prefix_of` l → q ∈ ((λ n, take n l) <$> seq 0 (S (length l)))) as Hpre.
  { intros q l [k ->]. apply list_elem_of_fmap. exists (length q). split; [by rewrite take_app_length|].
    apply elem_of_seq. rewrite length_app. lia. }
  split.
  - apply good_tree_check. vm_compute. repeat (constructor; [by split_and!; [|repeat constructor|]|]). constructor.
  - reflexivity.
  - intros q Hq%Hpre. revert q Hq. apply Forall_forall. by repeat constructor.
  - reflexivity.
  - apply Forall_forall. by repeat constructor.
  - split.
    + intros b f Hb Hf. revert b Hb. apply Forall_forall. revert f Hf. apply Forall_forall.
      repeat constructor; by intros [k [=]].
    + intros b q Hb Hq%Hpre. revert b Hb q Hq. refine (proj1 (Forall_forall _ _) _).
      repeat (constructor; [refine (proj1 (Forall_forall _ _) _); by repeat constructor|]). constructor.
    + apply Forall_forall. by repeat constructor.
Qed.
Lemma request_fits r : r ∈ request_items → (∀ a, a ∈ r.1 → a ∈ [[]; ["data"]]) ∧
  ∀ it, it ∈ r.2 → it.1 ∈ [["a.txt"]; ["data"; "b.txt"]].
Proof.
  unfold request_items. rewrite elem_of_cons, list_elem_of_singleton. intros [-> | ->]; cbn [fst snd]; split.
  - intros a ->%list_elem_of_singleton. left.
  - intros it ->%list_elem_of_singleton. left.
  - intros a Ha. right. apply elem_of_cons in Ha as [-> |Ha]; [left|exact Ha].
  - intros it ->%list_elem_of_singleton. right. left.
Qed.
Lemma archive_complete_witness : ∃ entries s',
  @download_paths_as_zip _ (toy_crypto true "") _ None ["app"] S3 (Some demo_space) request_paths (bucket, machine)
    = (Ok zip_filename, (bucket, s')) ∧
  NoDup entries.*1 ∧ ("left.txt", "old") ∈ entries ∧ ("data/b.txt", "two") ∈ entries.
Proof.
  destruct (@archive_complete _ (toy_crypto true "") _ None ["app"] S3 bucket demo_space machine
    [[]; ["data"]] [["a.txt"]; ["data"; "b.txt"]] request_paths request_items) as (entries & s' & Hrun & _ & Hn & He).
  - by split_and!.
  - exact machine_ready.
  - apply Forall2_cons. split; [|apply Forall2_cons; split; [|by apply Forall2_nil]].
    + apply (asks_file None S3 bucket demo_space [] "a.txt" "one" (Bytes "one")); [by repeat constructor|reflexivity|reflexivity].
    + apply (asks_directory None S3 bucket demo_space ["data"] [(["data"; "b.txt"], "two")]); [by left|done|by repeat constructor|].
      apply Forall2_cons. split; [|by apply Forall2_nil]. exists [], "b.txt". split_and!; [by repeat constructor|reflexivity..].
  - exact request_fits.
  - exists entries, s'. split; [exact Hrun|]. split; [exact Hn|]. split; apply He.
    + exists ["left.txt"]. split; [done|]. split; [reflexivity|]. vm_compute. reflexivity.
    + exists ["data"; "b.txt"]. split; [done|]. split; [reflexivity|]. vm_compute. reflexivity.
Defined.

(** A directory of the object stores is archived as it is stored: on a server
    that encrypts, the archive holds the nonce and the ciphertext, where the file
    itself reads back as its text. *)
Example folder_archived_encrypted :
  let save := @storage_save _ (toy_crypto false "") demo_key (Some demo_space) "data/b.txt" "two" (files []) in
  let run := @download_paths_as_zip _ (toy_crypto false "") _ demo_key ["app"] S3 (Some demo_space) in
  content_of (run ["data/"] (save.2, <[["app"] := Dir]> ∅)).2.2 ["app"; "archive.zip"] = Some "data/b.txt=0123456789abowt" ∧
  content_of (run ["data/b.txt"] (save.2, <[["app"] := Dir]> ∅)).2.2 ["app"; "archive.zip"] = Some "data/b.txt=two".
Proof. vm_compute. by split. Qed.
(** On the file system a directory can be downloaded once: its copy is still there
    the second time. *)
Definition local_machine : tree :=
  <[["app"] := Dir]> (<[["var"] := Dir]> (<[["var"; "app"] := Dir]> (<[["var"; "app"; "media"] := Dir]>
  (<[["var"; "app"; "media"; "space00000"] := Dir]> (<[["var"; "app"; "media"; "space00000"; "data"] := Dir]>
  (<[["var"; "app"; "media"; "space00000"; "data"; "b.txt"] := File "two"]> ∅)))))).
Example folder_downloaded_twice :
  let run := @download_paths_as_zip _ (toy_crypto true "") _ None ["app"] LocalFileSystem (Some demo_space) ["data/"] in
  let first := run (files [], local_machine) in
  first.1 = Ok zip_filename ∧ content_of first.2.2 ["app"; "archive.zip"] = Some "data/b.txt=two" ∧
  (run first.2).1 = Raise os_error.
Proof. vm_compute. by split_and!. Qed.
(** The archive of a directory of the file system is written into the storage,
    beside the directory, over a file of that name. *)
Example folder_zip_overwrites :
  let s := <[["var"; "app"; "media"; "space00000"; "data.zip"] := File "mine"]> local_machine in
  let run := @local_download_directory_as_zip _ (toy_crypto true "") _ ["app"] "space00000/data" (files [], s) in
  run.1 = Ok "/var/app/media/space00000/data.zip" ∧
  content_of run.2.2 ["var"; "app"; "media"; "space00000"; "data.zip"] = Some "b.txt=two".
Proof. vm_compute. by split. Qed.
(** A prefix without a slash at its end matches the namesakes of the directory:
    their objects are written outside of the temporary directory and not packed. *)
Example namesakes_escape :
  let st := files [("space00000/data/b.txt", "two"); ("space00000/data2/c.txt", "three")] in
  let run := @s3_download_directory_as_zip _ _ ["app"] "space00000/data" (st, ∅) in
  run.1 = Ok "/tmp/dir.zip" ∧ content_of run.2.2 ["tmp"; "dir.zip"] = Some "b.txt=two" ∧
  content_of run.2.2 ["tmp"; "data2"; "c.txt"] = Some "three".
Proof. vm_compute. by split_and!. Qed.
