(* ===== verification/Utils.v ===== *)
(** * Helpers for workflow authors (the Utils and Vault classes of workflow/finmars.py)

    Lists of dates, the conversion of names to ASCII, modules imported from the
    local storage, and secrets. *)
From Stdlib Require Import Ascii String.
From stdpp Require Import base list strings numbers gmap sets.
From S2P Require Import Prelude PyStr PyVal Json Paths World Demo Graph Finmars Manager Dates.
Local Open Scope string_scope.
Local Open Scope Z_scope.
Local Open Scope list_scope.

(** ** Dates *)

(** A date argument: a [date], or a string read with "%Y-%m-%d" *)
Inductive date_arg : Type := DateObject (d : date) | DateString (s : string).
Definition read_date (a : date_arg) : res date :=
  match a with DateObject d => Ok d | DateString s => strptime s end.
(** [pd.bdate_range(date, date)] is not empty *)
Class Pandas : Type := { bdate_range_nonempty : date → bool }.

(** [range(n)] *)
Definition py_range (n : Z) : list Z := seqZ 0 n.
(** [get_list_of_dates_between_two_dates], before the conversion to strings *)
Definition get_list_of_dates_between_two_dates (date_from date_to : date_arg) : res (list date) :=
  from ← read_date date_from;
  to ← read_date date_to;
  map_res (py_range (toordinal to - toordinal from + 1)) (λ i, add_days from i).
(** [is_business_day] *)
Definition is_business_day `{Pandas} (d : date) : bool := bdate_range_nonempty d.
(** [get_list_of_business_days_between_two_dates] *)
Definition get_list_of_business_days_between_two_dates `{Pandas} (date_from date_to : date_arg)
    : res (list date) :=
  from ← read_date date_from;
  to ← read_date date_to;
  l ← map_res (py_range (toordinal to - toordinal from + 1)) (λ i,
        day ← add_days from i; Ok (if is_business_day day then [day] else []));
  Ok (concat l).
(** What the callers get: the dates, or their strings with [to_string] *)
Definition date_values (to_string : bool) (l : list date) : list (date + string) :=
  (λ d, if to_string then inr (str_of_date d) else inl d) <$> l.
(** [get_yesterday]: [datetime] is the module, which has no [now]. *)
Definition get_yesterday : res date := Raise AttributeError.

(** ** Names *)

(** One character of [convert_to_ascii] *)
Definition to_ascii_or_unicode (c : ascii) : string :=
  if is_ascii_char c then String c "" else "U" +:+ str_of_Z (Z.of_nat (ord c)).
Fixpoint convert_chars (s : string) : string :=
  match s with
  | EmptyString => ""
  | String c s => to_ascii_or_unicode c +:+ convert_chars s
  end.
(** [convert_to_ascii] *)
Definition convert_to_ascii (input_string : string) : string :=
  convert_chars (replace (replace (lower input_string) " " "_") "." "_").

Section Utils.
Context `{Platform}.

(** ** Modules *)

(** [os.path.splitext(filename)[0]] *)
Definition module_stem (filename : string) : string := stem filename.
(** The path [import_from_storage] reads: it is under "tasks", where the storage
    sync of workflow/system.py writes under "local". *)
Definition storage_module_path (sp : space_row) (file_path : string) : res string :=
  c ← first_char file_path;
  Ok (if Ascii.eqb c c_slash
      then storage_root +:+ "/tasks/" +:+ sp_space_code sp +:+ file_path
      else storage_root +:+ "/tasks/" +:+ sp_space_code sp +:+ "/" +:+ file_path).
(** [SourceFileLoader(name, path).load_module()] on the local files *)
Definition load_module `{UserCode} (path : string) : M unit :=
  content ← gets (λ w, dict_get (w_local w) path);
  match content with
  | None => raise (PyException "No such file")
  | Some c => exec_module (module_stem (basename path)) c
  end.
Definition import_from_storage `{UserCode} (file_path : string) : M unit :=
  o ← get_space;
  sp ← require o;
  path ← lift (storage_module_path sp file_path);
  load_module path.
(** [relative_import_from_storage] *)
Definition relative_import_from_storage `{UserCode} (file_path base_path : string) : M unit :=
  load_module (normpath (join2 base_path file_path)).

(** ** Secrets *)

(** The loop over [data["results"]]: the last record of that code *)
Definition pick_secret (path : string) (secret_data item : pyval) : res pyval :=
  uc ← getitem item "user_code";
  if py_eqb (PStr path) uc then getitem item "data" else Ok secret_data.
Definition find_secret (path : string) (data : pyval) : res pyval :=
  results ← getitem data "results";
  items ← py_iter results;
  secret_data ← fold_res (pick_secret path) items PNone;
  if truthy secret_data then Ok secret_data
  else Raise (PyException ("Secret is " +:+ path +:+ " not found")).
(** [Vault.get_secret] *)
Definition get_secret (path provider : string) : M pyval :=
  token ← get_refresh_token 480;
  if String.eqb provider "finmars" then
    o ← get_space;
    sp ← require o;
    match sp_realm_code sp with
    | None => raise TypeError
    | Some realm =>
        r ← send_request (Request "get" ("https://" +:+ domain_name +:+ "/" +:+ realm +:+ "/"
              +:+ sp_space_code sp +:+ "/api/v1/vault/vault-record/?user_code=" +:+ path) None token);
        data ← expect_200 r;
        lift (find_secret path data)
    end
  else if String.eqb provider "hashicorp" then
    match split c_slash path with
    | engine_name :: secret_path :: _ =>
        o ← get_space;
        sp ← require o;
        r ← send_request (Request "get" (space_url sp ("/api/v1/vault/vault-secret/get/?engine_name="
              +:+ engine_name +:+ "&path=" +:+ secret_path)) None token);
        data ← expect_200 r;
        lift (getpath data ["data"; "data"])
    | _ => raise IndexError
    end
  else raise (PyException "Unknown provider %s").
End Utils.

(** ** Properties of the date lists *)

Lemma map_res_ext {A B} (l : list A) (f g : A → res B) : (∀ x, f x = g x) → map_res l f = map_res l g.
Proof. intros E. induction l as [|x l IH]; [done|]. simpl. by rewrite E, IH. Qed.
Lemma map_res_filter {A B} (l : list A) (f : A → res B) (p : B → bool) :
  (k ← map_res l (λ x, y ← f x; Ok (if p y then [y] else [])); Ok (concat k))
  = (k ← map_res l f; Ok (List.filter p k)).
Proof.
  induction l as [|x l IH]; [done|]. simpl. destruct (f x) as [y|]; simpl; [|done].
  destruct (map_res l f) as [k|], (map_res l (λ x, y ← f x; Ok (if p y then [y] else []))) as [k'|];
    simpl in *; try done. injection IH as <-. by destruct (p y).
Qed.

(** Business days are the business days among the dates.  For any arguments,
    the errors included, the list of business days is the list of dates with the
    days that are not business days left out. *)
Theorem business_days_filter `{Pandas} date_from date_to :
  get_list_of_business_days_between_two_dates date_from date_to
  = (l ← get_list_of_dates_between_two_dates date_from date_to; Ok (List.filter is_business_day l)).
Proof.
  unfold get_list_of_business_days_between_two_dates, get_list_of_dates_between_two_dates.
  destruct (read_date date_from) as [from|]; [|done]. destruct (read_date date_to) as [to|]; [|done].
  apply map_res_filter.
Qed.

(** C40: the dates between two dates.  Between two dates of the calendar, given as
    dates or as their strings, the list has every day from the first to the last,
    both included, in order, each a date of the calendar, so that no date
    arithmetic overflows; it is empty exactly when the first is after the last. *)
Theorem dates_between from to : valid_date from = true → valid_date to = true →
  ∃ l, get_list_of_dates_between_two_dates (DateObject from) (DateObject to) = Ok l ∧
    get_list_of_dates_between_two_dates (DateString (str_of_date from)) (DateString (str_of_date to)) = Ok l ∧
    toordinal <$> l = seqZ (toordinal from) (toordinal to - toordinal from + 1) ∧
    Forall (λ d, valid_date d = true) l ∧
    (l = [] ↔ toordinal to < toordinal from) ∧
    (toordinal from ≤ toordinal to → head l = Some from ∧ last l = Some to).
Proof.
  intros Hf Ht. pose proof (valid_ordinal from Hf) as Of. pose proof (valid_ordinal to Ht) as Ot.
  set (n := toordinal to - toordinal from + 1).
  set (l := (λ i, fromordinal (toordinal from + i)) <$> seqZ 0 n).
  assert (∀ i, i ∈ seqZ 0 n → 1 ≤ toordinal from + i ≤ max_ordinal) as Hi.
  { intros i Hi%elem_of_seqZ. lia. }
  assert (map_res (py_range n) (λ i, add_days from i) = Ok l) as Hl.
  { apply map_res_ok. intros i Hin. apply add_days_ok; [done|]. by apply Hi. }
  exists l. unfold get_list_of_dates_between_two_dates, read_date.
  rewrite !strptime_str_of_date by done. cbn [mbind res_bind]. fold n. split; [done|]. split; [done|].
  assert (toordinal <$> l = seqZ (toordinal from) n) as Hord.
  { subst l. rewrite <- list_fmap_compose.
    assert (seqZ (toordinal from) n = Z.add (toordinal from) <$> seqZ 0 n) as ->
      by (rewrite fmap_add_seqZ; f_equal; lia).
    apply list_fmap_ext. intros j i Hj. simpl.
    apply fromordinal_ok. specialize (Hi i (list_elem_of_lookup_2 _ _ _ Hj)). lia. }
  split; [done|]. split.
  { subst l. apply Forall_fmap, Forall_forall. intros i Hin. apply ordinal_valid. by apply Hi. }
  assert (length l = Z.to_nat n) as Hlen by (subst l; by rewrite length_fmap, length_seqZ).
  split.
  { split; intros E; [subst l; apply (f_equal length) in E|apply nil_length_inv]; simpl in *; lia. }
  intros Hle. pose proof Hf as [Hfy Hfe]%valid_date_iff. pose proof Ht as [Hty Hte]%valid_date_iff.
  rewrite head_lookup, last_lookup, Hlen. subst l. rewrite !list_lookup_fmap.
  rewrite !lookup_seqZ_lt by lia. simpl. split; f_equal.
  - rewrite Z.add_0_r. apply fromordinal_toordinal; [done|lia].
  - replace (toordinal from + (0 + Z.of_nat (pred (Z.to_nat n)))) with (toordinal to) by lia.
    apply fromordinal_toordinal; [done|lia].
Qed.
Lemma dates_between_witness :
  ∃ l, get_list_of_dates_between_two_dates (DateString "2024-02-28") (DateString "2024-03-01") = Ok l ∧
    length l = 3%nat ∧ last l = Some (Date 2024 3 1).
Proof.
  destruct (dates_between (Date 2024 2 28) (Date 2024 3 1) eq_refl eq_refl)
    as (l & _ & H & Ho & _ & _ & Hlast).
  exists l. split; [exact H|]. split; [|apply Hlast; vm_compute; discriminate].
  rewrite <- (length_fmap toordinal), Ho, length_seqZ. reflexivity.
Defined.

(** ** Names and secrets *)

Lemma forallb_app p a b : str_forallb p (a +:+ b) = str_forallb p a && str_forallb p b.
Proof. induction a as [|c a IH]; [done|]. simpl. by rewrite IH, andb_assoc. Qed.
Lemma convert_chars_ascii s : str_forallb is_ascii_char (convert_chars s) = true.
Proof.
  induction s as [|c s IH]; [done|]. simpl. rewrite forallb_app, IH, andb_true_r.
  by destruct c as [[] [] [] [] [] [] [] []].
Qed.
Lemma convert_chars_id s : str_forallb is_ascii_char s = true → convert_chars s = s.
Proof.
  induction s as [|c s IH]; [done|]. simpl. intros [Hc Hs]%andb_true_iff.
  unfold to_ascii_or_unicode. by rewrite Hc, IH.
Qed.
(** A space or a dot comes from the text only. *)
Lemma convert_chars_no_char d s : d = c_space ∨ d = c_dot →
  has_char d s = false → has_char d (convert_chars s) = false.
Proof.
  intros Hd. induction s as [|c s IH]; [done|]. simpl. intros [Hc Hs]%orb_false_iff.
  rewrite has_char_app, IH, orb_false_r by done. unfold to_ascii_or_unicode.
  destruct (is_ascii_char c) eqn:Ea; [simpl; by rewrite Hc|].
  destruct Hd as [->| ->]; destruct c as [[] [] [] [] [] [] [] []]; done.
Qed.
Lemma replace_keeps_no_char (c d e : ascii) s : e ≠ d → has_char e s = false →
  has_char e (replace s (String c "") (String d "")) = false.
Proof.
  intros Hne. induction s as [|x s IH]; [done|]. intros [Hx Hs]%orb_false_iff.
  change (String x s) with (String x "" +:+ s). rewrite replace_char_app, has_char_app, IH by done.
  rewrite orb_false_r. unfold replace. simpl. destruct (ascii_dec c x); simpl.
  - by rewrite (proj2 (Ascii.eqb_neq e d) Hne).
  - by rewrite Hx.
Qed.

(** Names are made ASCII.  The converted name has ASCII characters only and
    neither spaces nor dots; an ASCII name is only lower-cased, with underscores
    for its spaces and dots. *)
Theorem convert_to_ascii_ok s :
  str_forallb is_ascii_char (convert_to_ascii s) = true ∧
  has_char c_space (convert_to_ascii s) = false ∧ has_char c_dot (convert_to_ascii s) = false ∧
  (str_forallb is_ascii_char s = true →
   convert_to_ascii s = replace (replace (lower s) " " "_") "." "_").
Proof.
  unfold convert_to_ascii. set (t := replace (replace (lower s) " " "_") "." "_").
  assert (has_char c_dot t = false) as Hdot by (by apply replace_char_no_char).
  assert (has_char c_space t = false) as Hspace.
  { apply replace_keeps_no_char; [done|]. by apply replace_char_no_char. }
  split; [apply convert_chars_ascii|]. split; [apply convert_chars_no_char; [by left|done]|].
  split; [apply convert_chars_no_char; [by right|done]|].
  intros Hs. apply convert_chars_id. subst t.
  assert (∀ c d u, is_ascii_char d = true → str_forallb is_ascii_char u = true →
    str_forallb is_ascii_char (replace u (String c "") (String d "")) = true) as Hr.
  { intros c d u Hd. induction u as [|x u IH]; [done|]. intros [Hx Hu]%andb_true_iff.
    change (String x u) with (String x "" +:+ u). rewrite replace_char_app, forallb_app, IH by done.
    rewrite andb_true_r. unfold replace. simpl. destruct (ascii_dec c x); simpl; [by rewrite Hd|by rewrite Hx]. }
  do 2 (apply Hr; [done|]). clear Hdot Hspace. induction s as [|x s IH]; [done|]. simpl in *.
  apply andb_true_iff in Hs as [Hx Hs]. apply andb_true_iff. split; [|by apply IH].
  clear -Hx. by destruct x as [[] [] [] [] [] [] [] []].
Qed.
(** The comment of the source says "café.com" gives "cafeU233_com". *)
Example convert_cafe : convert_to_ascii ("caf" +:+ String (chr 233) "" +:+ ".com") = "cafU233_com".
Proof. reflexivity. Qed.
Lemma convert_to_ascii_ok_witness : convert_to_ascii "My Report.v2" = "my_report_v2".
Proof. exact (proj2 (proj2 (proj2 (convert_to_ascii_ok "My Report.v2"))) eq_refl). Defined.

(** A record of the vault, with its code and data *)
Definition vault_record (r : string * pyval) : pyval := PDict [("user_code", PStr r.1); ("data", r.2)].

(** The secret found is the last record of that code.  Among the records the
    vault answers with, the secret is the data of the last one whose user code is
    exactly the path; without one, or when its data is empty, an error names the
    path. *)
Theorem find_secret_last path (records : list (string * pyval)) :
  let secret := last (snd <$> List.filter (λ r, String.eqb path r.1) records) in
  find_secret path (PDict [("results", PList (vault_record <$> records))])
  = match secret with
    | Some data => if truthy data then Ok data
                   else Raise (PyException ("Secret is " +:+ path +:+ " not found"))
    | None => Raise (PyException ("Secret is " +:+ path +:+ " not found"))
    end.
Proof.
  intros secret. unfold find_secret. cbn [getitem dict_get mbind res_bind py_iter].
  rewrite decide_True by done. cbn [mbind res_bind py_iter].
  assert (∀ acc, fold_res (pick_secret path) (vault_record <$> records) acc
    = Ok (default acc (last (snd <$> List.filter (λ r, String.eqb path r.1) records)))) as ->.
  { clear secret. induction records as [|[uc data] l IH]; intros acc; [done|].
    rewrite fmap_cons. cbn [fold_res].
    assert (pick_secret path acc (vault_record (uc, data)) = Ok (if String.eqb path uc then data else acc)) as ->.
    { unfold pick_secret, vault_record. rewrite (getitem_ok _ "user_code" (PStr uc)) by done.
      cbn [mbind res_bind]. rewrite py_eqb_str, (getitem_ok _ "data" data) by done.
      destruct (String.eqb_spec path uc); [by rewrite bool_decide_true|by rewrite bool_decide_false]. }
    cbn [mbind res_bind]. rewrite IH.
    cbn [List.filter fst]. destruct (String.eqb path uc); [|done]. rewrite fmap_cons, last_cons.
    by destruct (last _). }
  cbn [mbind res_bind]. fold secret. by destruct secret.
Qed.
