(* ===== verification/Sessions.v ===== *)
(** * Code execution for the editor (workflow/user_sessions.py and its views)

    A process keeps, for each user id and file, the variables the code has
    defined ([execute_code]); files of the storage run in a fresh context and
    their output is classified ([execute_file]).  Running Python code is a
    parameter. *)
From Stdlib Require Import Ascii String.
From stdpp Require Import base list strings numbers gmap sets.
From S2P Require Import Prelude PyStr PyVal Json World Demo Graph Models Views.
Local Open Scope string_scope.
Local Open Scope Z_scope.
Local Open Scope list_scope.

(** ** The interpreter *)

(** The globals of a piece of code *)
Definition context : Type := list (string * pyval).
(** How [exec] ends: normally, with an exception whose traceback is printed, or
    with one that is not an [Exception] ([SystemExit]) *)
Inductive ending : Type := Finished | Failed (traceback : string) | Exited.
(** What [exec(code, context)] does: the globals it leaves, what it prints to
    each stream, the figure it leaves open (as base64 of its PNG), its ending *)
Record execution : Type := Execution {
  ex_context : context;
  ex_stdout : string;
  ex_stderr : string;
  ex_figure : option string;
  ex_ending : ending
}.
Class Interpreter : Type := { exec : string → context → execution }.

(** ** Sessions *)

(** [UserSession.files] and the dictionary [sessions]; [stdout_redirected] is
    [sys.stdout] not being the process's own. *)
Definition user_session : Type := list (string * context).
Record process : Type := Process {
  sessions : list (Z * user_session);
  stdout_redirected : bool
}.
Fixpoint session_of (l : list (Z * user_session)) (user_id : Z) : option user_session :=
  match l with
  | [] => None
  | (i, s) :: l => if i =? user_id then Some s else session_of l user_id
  end.
Fixpoint set_session (l : list (Z * user_session)) (user_id : Z) (s : user_session)
    : list (Z * user_session) :=
  match l with
  | [] => [(user_id, s)]
  | (i, s') :: l => if i =? user_id then (user_id, s) :: l else (i, s') :: set_session l user_id s
  end.
(** The variables of a user's file *)
Definition file_context (s : user_session) (file_path : string) : context :=
  default [] (dict_get s file_path).

Section Sessions.
Context `{Platform} `{Interpreter}.

(** [create_session] *)
Definition create_session (user_id : Z) : ST process unit :=
  modify (λ p, Process (set_session (sessions p) user_id []) (stdout_redirected p)).
(** [execute_code]: an exception prints its traceback; another way out leaves
    [sys.stdout] redirected. *)
Definition execute_code (user_id : Z) (file_path code : string) : ST process string := λ p,
  match session_of (sessions p) user_id with
  | None => (Raise (KeyError "user_id"), p)
  | Some s =>
      let e := exec code (file_context s file_path) in
      let sessions' := set_session (sessions p) user_id (dict_set s file_path (ex_context e)) in
      match ex_ending e with
      | Finished => (Ok (ex_stdout e), Process sessions' (stdout_redirected p))
      | Failed traceback => (Ok (ex_stdout e +:+ traceback), Process sessions' (stdout_redirected p))
      | Exited => (Raise (PyException "SystemExit"), Process sessions' true)
      end
  end.
(** [CodeExecutionViewSet.create] for the request's user: [SystemExit] is no
    [Exception], so the view does not answer it. *)
Definition create_code (user : user_row) (code file_path : string) : ST process view_response :=
  p ← gets (λ p, session_of (sessions p) (us_id user));
  _ ← when (bool_decide (p = None)) (create_session (us_id user));
  try_except
    (output ← execute_code (us_id user) file_path code;
     mret (Resp 200 (PDict [("detail", PStr "Code executed successfully."); ("result", PStr output)])))
    (λ e, match e with
          | PyException "SystemExit" => raise e
          | _ => mret (Resp 400 (PDict [("error", PStr (exn_text e))]))
          end).

(** ** Files *)

(** [_execute_code]: the dictionary it returns, or [None] when the code prints
    nothing *)
Definition typed_output (type : string) (data : pyval) : pyval :=
  PDict [("type", PStr type); ("data", data)].
Definition run_file (code : string) (context : context) : res pyval :=
  let e := exec code context in
  match ex_ending e with
  | Exited => Raise (PyException "SystemExit")
  | Failed traceback => Ok (typed_output "error" (PStr traceback))
  | Finished =>
      match ex_figure e with
      | Some image_data => Ok (typed_output "image" (PStr image_data))
      | None =>
          if negb (String.eqb (ex_stdout e) "") then
            match loads (ex_stdout e) with
            | Ok json_output => Ok (typed_output "json" json_output)
            | Raise _ => Ok (typed_output "text" (PStr (ex_stdout e)))
            end
          else if negb (String.eqb (ex_stderr e) "") then Ok (typed_output "error" (PStr (ex_stderr e)))
          else Ok PNone
      end
  end.
(** The code of a file: the first cell of a notebook *)
Definition file_code (file_path content : string) : res string :=
  if contains file_path ".ipynb" then
    json_content ← loads content;
    cells ← getitem json_content "cells";
    l ← py_iter cells;
    match l with
    | cell :: _ => v ← getitem cell "source"; as_str v
    | [] => Raise IndexError
    end
  else Ok content.
(** [execute_file]: [read_storage] is [storage.open(path).read()] *)
Definition execute_file (read_storage : string → res string) (space_code execution_id : string)
    (user_id : Z) (file_path : string) (data : pyval) : ST process pyval := λ p,
  match session_of (sessions p) user_id with
  | None => (Raise (KeyError "user_id"), p)
  | Some _ =>
      (content ← read_storage (space_code +:+ "/" +:+ file_path);
       match data with
       | PDict d =>
           code ← file_code file_path content;
           run_file code [("execution_context", PDict (dict_set d "execution_id" (PStr execution_id)))]
       | _ => Raise TypeError
       end, p)
  end.
End Sessions.

(** ** The log file *)

(** [LogFileViewSet.list]: the position [max(0, log_file.tell() - bytes_to_read)]
    is computed when the file has just been opened. *)
Definition bytes_to_read : Z := 2 * 1024 * 1024.
Definition seek_position (tell : Z) : Z := Z.max 0 (tell - bytes_to_read).
Definition log_file (content : option string) : Z * string :=
  match content with
  | None => (404, "Log file not found")
  | Some c => (200, drop_str (Z.to_nat (seek_position 0)) c)
  end.

(** ** Properties *)

Lemma session_set l i s j : session_of (set_session l i s) j = if j =? i then Some s else session_of l j.
Proof.
  induction l as [|[k s'] l IH]; simpl.
  - by rewrite (Z.eqb_sym i j).
  - destruct (Z.eqb_spec k i) as [->|Hne]; simpl.
    + rewrite (Z.eqb_sym i j). by destruct (j =? i).
    + rewrite IH. destruct (Z.eqb_spec k j) as [->|]; [|done].
      by rewrite (proj2 (Z.eqb_neq j i)).
Qed.

Section Contexts.
Context `{Platform} `{Interpreter}.

(** The variables of a user id and file in a process *)
Definition variables (p : process) (user_id : Z) (file_path : string) : context :=
  file_context (default [] (session_of (sessions p) user_id)) file_path.

(** The sessions of the editor.  Whatever code a user runs for a file, the
    variables of that user id and file afterwards are those the code left, and
    the variables of every other file and user id are untouched; the first run of
    a user id starts without variables.  The session belongs to the id alone: two
    users with the same id, of whatever tenants, get the same. *)
Theorem sessions_by_user_id user other code file_path p : us_id user = us_id other →
  let '(r, p') := create_code user code file_path p in
  variables p' (us_id user) file_path = ex_context (exec code (variables p (us_id user) file_path)) ∧
  (∀ i f, i ≠ us_id user ∨ f ≠ file_path → variables p' i f = variables p i f) ∧
  create_code other code file_path p = (r, p').
Proof.
  intros Hid. unfold create_code. rewrite <- Hid. set (i := us_id user).
  set (s := default [] (session_of (sessions p) i)).
  assert (∃ p1, (q ← gets (λ p, session_of (sessions p) i);
    when (bool_decide (q = None)) (create_session i)) p = (Ok tt, p1) ∧
    session_of (sessions p1) i = Some s ∧
    ∀ j, j ≠ i → session_of (sessions p1) j = session_of (sessions p) j) as (p1 & Hp1 & Hs & Ho).
  { unfold mbind, ST_bind, gets, when, create_session, modify. subst s.
    destruct (session_of (sessions p) i) as [s|] eqn:E; simpl.
    - exists p. by rewrite E.
    - eexists. split; [reflexivity|]. simpl. rewrite session_set, Z.eqb_refl. split; [done|].
      intros j Hj. by rewrite session_set, (proj2 (Z.eqb_neq j i)). }
  unfold mbind, ST_bind, gets in Hp1 |- *. rewrite Hp1. unfold try_except, execute_code. rewrite Hs.
  set (e := exec code (file_context s file_path)).
  assert (∀ b, variables (Process (set_session (sessions p1) i (dict_set s file_path (ex_context e))) b) i file_path
      = ex_context e ∧
    ∀ j f, j ≠ i ∨ f ≠ file_path →
      variables (Process (set_session (sessions p1) i (dict_set s file_path (ex_context e))) b) j f
      = variables p j f) as Hv.
  { intros b. unfold variables. cbn [sessions]. rewrite session_set, Z.eqb_refl. simpl.
    unfold file_context. rewrite dict_get_set_eq. split; [done|]. intros j f Hjf.
    rewrite session_set. destruct (Z.eqb_spec j i) as [->|Hj].
    - destruct Hjf as [?|Hf]; [done|]. simpl. rewrite dict_get_set_ne by done. done.
    - by rewrite Ho. }
  destruct (ex_ending e); (split; [by apply Hv|split; [by apply Hv|done]]).
Qed.

(** Printed JSON comes back as a value.  A file whose code ends normally,
    opens no figure and prints the JSON text of a value is answered with type
    "json" and that value; whatever it prints to the error stream is dropped. *)
Theorem printed_json_returned code ctx v indent : wf_val v = true →
  ex_stdout (exec code ctx) = dumps false indent v → ex_figure (exec code ctx) = None →
  ex_ending (exec code ctx) = Finished →
  run_file code ctx = Ok (typed_output "json" v).
Proof.
  intros Hv Ho Hf He. unfold run_file. rewrite He, Hf, Ho.
  rewrite (proj2 (String.eqb_neq _ _)) by (by apply Models.dumps_not_empty). simpl.
  by rewrite loads_dumps.
Qed.
End Contexts.

(** The log view answers with the whole log file, of any size: the position
    the last two megabytes would start at is computed before the end of the file
    is known. *)
Theorem log_file_whole c : log_file (Some c) = (200, c).
Proof. unfold log_file, seek_position, bytes_to_read. simpl. by destruct c. Qed.

(** An interpreter of one statement: ["x"] is printed if defined, any other code
    defines [x] and prints its JSON. *)
Definition toy_interpreter : Interpreter := {|
  exec := λ code ctx,
    if String.eqb code "x" then
      Execution ctx (match dict_get ctx "x" with Some _ => "defined" | None => "" end) "" None Finished
    else Execution (dict_set ctx "x" (PStr code)) (dumps false None (PStr code)) "" None Finished |}.
Lemma sessions_by_user_id_witness :
  let foreign := set_us_id 1 demo_bot in
  let p := (@create_code _ toy_interpreter demo_user "1" "a.py" (Process [] false)).2 in
  @create_code _ toy_interpreter foreign "x" "a.py" p = @create_code _ toy_interpreter demo_user "x" "a.py" p.
Proof.
  intros foreign p. pose proof (@sessions_by_user_id _ toy_interpreter demo_user foreign "x" "a.py" p eq_refl) as H.
  destruct (@create_code _ toy_interpreter demo_user "x" "a.py" p) as [r p'].
  exact (proj2 (proj2 H)).
Defined.
Lemma printed_json_returned_witness :
  @run_file toy_interpreter "1" [] = Ok (typed_output "json" (PStr "1")).
Proof. exact (@printed_json_returned toy_interpreter "1" [] (PStr "1") None eq_refl eq_refl eq_refl eq_refl). Defined.
