(* ===== verification/Health.v ===== *)
(** * Health checks (healthcheck/)

    Four plugins, each with a check that records errors and an information
    block, and the view that reports them. *)
From Stdlib Require Import Ascii String.
From stdpp Require Import base list strings numbers gmap sets.
From S2P Require Import Prelude PyStr PyVal Json World.
Local Open Scope string_scope.
Local Open Scope Z_scope.
Local Open Scope list_scope.

(** [HealthCheckException] and its subclasses: the type of the message and the
    message are the constructor's arguments. *)
Definition HealthCheckError (message : string) : exn := HealthCheckException "unknown error" message.
Definition ServiceWarning (message : string) : exn := HealthCheckException "warning" message.
Definition ServiceUnavailable (message : string) : exn := HealthCheckException "unavailable" message.
Definition ServiceReturnedUnexpectedResult (message : string) : exn :=
  HealthCheckException "unexpected result" message.
(** [HealthCheckException.__str__] *)
Definition health_str (e : exn) : string :=
  match e with
  | HealthCheckException message_type message => message_type +:+ ": " +:+ message
  | _ => ""
  end.

(** The settings [HEALTHCHECK] *)
Record health_settings : Type := HealthSettings { DISK_USAGE_MAX : Z; MEMORY_MIN : Z }.
(** [conf.py]: the defaults *)
Definition default_settings : health_settings := HealthSettings 90 100.

(** What the operating system and the database answer when asked: a percentage
    (in tenths), the available bytes, how creating and deleting a row ends *)
Class Machine : Type := {
  host : string;
  disk_usage : res Z;
  available_memory : res Z;
  database_check : res unit
}.

(** [obj] of [add_error]: a check's own exception, or text *)
Inductive health_error : Type := IsException (e : exn) | IsText (s : string) | IsOther.
(** [BaseHealthCheck.add_error] *)
Definition add_error (error : health_error) (errors : list exn) : list exn :=
  errors ++ [match error with
             | IsException (HealthCheckException ty m) => HealthCheckException ty m
             | IsException _ => HealthCheckError "unknown error"
             | IsText msg => HealthCheckError msg
             | IsOther => HealthCheckError "unknown error"
             end].

Inductive plugin : Type := DiskUsagePlugin | MemoryUsagePlugin | DatabasePlugin | UptimePlugin.

(** The percentage as Python prints it *)
Definition percent_str (tenths : Z) : string :=
  str_of_Z (tenths / 10) +:+ "." +:+ str_of_Z (tenths mod 10).

Section Checks.
Context `{Machine} (c : health_settings).

(** [check_status] of the plugins on the list of errors: [DISK_USAGE_MAX] and
    [MEMORY_MIN] of 0 switch their checks off; a [ValueError] is recorded. *)
Definition check_status (p : plugin) : ST (list exn) unit :=
  match p with
  | DiskUsagePlugin =>
      try_except
        (percent ← lift disk_usage;
         if negb (DISK_USAGE_MAX c =? 0) && (DISK_USAGE_MAX c * 10 <=? percent)
         then raise (ServiceWarning (host +:+ " " +:+ percent_str percent +:+ "% disk usage exceeds "
                       +:+ str_of_Z (DISK_USAGE_MAX c) +:+ "%"))
         else mret tt)
        (λ e, match e with
              | ValueError => modify (add_error (IsException (ServiceReturnedUnexpectedResult "ValueError")))
              | _ => raise e
              end)
  | MemoryUsagePlugin =>
      try_except
        (available ← lift available_memory;
         if negb (MEMORY_MIN c =? 0) && (available <? MEMORY_MIN c * 1024 * 1024)
         then raise (ServiceWarning (host +:+ " " +:+ str_of_Z (available / 1024 / 1024)
                       +:+ " MB available RAM below " +:+ str_of_Z (MEMORY_MIN c) +:+ " MB"))
         else mret tt)
        (λ e, match e with
              | ValueError => modify (add_error (IsException (ServiceReturnedUnexpectedResult "ValueError")))
              | _ => raise e
              end)
  | DatabasePlugin =>
      try_except (lift database_check)
        (λ e, match e with
              | IntegrityError => raise (ServiceReturnedUnexpectedResult "Integrity Error")
              | DatabaseError => raise (ServiceUnavailable "Database error")
              | _ => raise e
              end)
  | UptimePlugin => mret tt
  end.
(** [BaseHealthCheck.run_check]: the errors of the plugin, or an exception that
    is not a health check's *)
Definition run_plugin (p : plugin) : res (list exn) :=
  let '(r, errors) := check_status p [] in
  match r with
  | Ok _ => Ok errors
  | Raise (HealthCheckException ty m) => Ok (add_error (IsException (HealthCheckException ty m)) errors)
  | Raise e => Raise e
  end.

(** [HealthcheckView.run_check]: the executor's results in the order of the
    plugins *)
Definition plugins : list plugin := [DiskUsagePlugin; MemoryUsagePlugin; DatabasePlugin; UptimePlugin].
Definition run_check : res (list exn) :=
  l ← map_res plugins run_plugin; Ok (concat l).
(** [HealthcheckView.errors]: [if not self._errors] runs the checks again when
    the last run had no error. *)
Definition view_errors (cached : option (list exn)) : res (list exn) :=
  match cached with
  | Some (e :: l) => Ok (e :: l)
  | _ => run_check
  end.
(** [HealthcheckView.get] *)
Definition health_report : res (Z * pyval) :=
  errors ← view_errors None;
  let failed := negb (bool_decide (errors = [])) in
  Ok (if failed then 500 else 200,
      PDict [("version", PInt 1); ("checks", PDict []);
             ("status", PStr (if failed then "fail" else "pass"));
             ("notes", PStr ""); ("description", PStr ""); ("output", PStr "")]).
(** [pretty_status], for the information [info] of the plugin *)
Definition pretty_status (errors : list exn) (info : pyval) : pyval :=
  match errors with
  | [] => info
  | _ => PDict [("errors", PList ((λ e, PStr (health_str e)) <$> errors))]
  end.
Definition plugin_status (errors : list exn) : Z := if bool_decide (errors = []) then 1 else 0.

(** ** When the service is healthy *)

Definition disk_ok : Prop := ∃ p, disk_usage = Ok p ∧ (DISK_USAGE_MAX c = 0 ∨ p < DISK_USAGE_MAX c * 10).
Definition memory_ok : Prop :=
  ∃ a, available_memory = Ok a ∧ (MEMORY_MIN c = 0 ∨ MEMORY_MIN c * 1024 * 1024 ≤ a).
Definition database_ok : Prop := database_check = Ok tt.

(** Errors a plugin turns into findings *)
Definition reported {A} (r : res A) : Prop :=
  match r with Ok _ => True | Raise e => e = ValueError end.
Definition database_reported : Prop :=
  match database_check with Ok _ => True | Raise e => e = IntegrityError ∨ e = DatabaseError end.

Lemma disk_run : reported disk_usage → ∃ l, run_plugin DiskUsagePlugin = Ok l ∧ (l = [] ↔ disk_ok).
Proof.
  unfold reported, disk_ok, run_plugin. simpl. unfold try_except, mbind, ST_bind, lift.
  destruct disk_usage as [p|e]; intros He.
  - destruct (Z.eqb_spec (DISK_USAGE_MAX c) 0), (Z.leb_spec (DISK_USAGE_MAX c * 10) p); simpl;
      eexists; split; try reflexivity; (split; [intros|intros (p' & [= <-] & ?)]); try done; try lia;
      try (eexists; split; [reflexivity|lia]).
  - subst e. simpl. eexists. split; [reflexivity|]. split; [done|]. by intros (? & ? & _).
Qed.
Lemma memory_run : reported available_memory → ∃ l, run_plugin MemoryUsagePlugin = Ok l ∧ (l = [] ↔ memory_ok).
Proof.
  unfold reported, memory_ok, run_plugin. simpl. unfold try_except, mbind, ST_bind, lift.
  destruct available_memory as [a|e]; intros He.
  - destruct (Z.eqb_spec (MEMORY_MIN c) 0), (Z.ltb_spec a (MEMORY_MIN c * 1024 * 1024)); simpl;
      eexists; split; try reflexivity; (split; [intros|intros (a' & [= <-] & ?)]); try done; try lia;
      try (eexists; split; [reflexivity|lia]).
  - subst e. simpl. eexists. split; [reflexivity|]. split; [done|]. by intros (? & ? & _).
Qed.
Lemma database_run : database_reported → ∃ l, run_plugin DatabasePlugin = Ok l ∧ (l = [] ↔ database_ok).
Proof.
  unfold database_reported, database_ok, run_plugin. simpl. unfold try_except, lift.
  destruct database_check as [[]|e]; intros He.
  - exists []. by split.
  - destruct He as [-> | ->]; simpl; eexists; (split; [reflexivity|done]).
Qed.

(** The health report.  When the probes fail only in the ways the plugins
    handle, the view answers 200 and "pass" exactly when the disk is below its
    limit, the memory above its own (a limit of 0 is none) and the database takes
    and gives back a row, and 500 and "fail" otherwise. *)
Theorem health_report_complete :
  reported disk_usage → reported available_memory → database_reported →
  ∃ status data, health_report = Ok (status, data) ∧
    ((disk_ok ∧ memory_ok ∧ database_ok ∧ status = 200 ∧ getitem data "status" = Ok (PStr "pass")) ∨
     (¬ (disk_ok ∧ memory_ok ∧ database_ok) ∧ status = 500 ∧ getitem data "status" = Ok (PStr "fail"))).
Proof.
  intros Hd Hm Hb. destruct (disk_run Hd) as (ld & Ed & Hld), (memory_run Hm) as (lm & Em & Hlm),
    (database_run Hb) as (lb & Eb & Hlb).
  unfold health_report, view_errors, run_check, plugins. cbn [map_res].
  rewrite Ed, Em, Eb. change (run_plugin UptimePlugin) with (@Ok (list exn) []).
  cbn [mbind res_bind concat]. rewrite app_nil_r. do 2 eexists. split; [reflexivity|].
  destruct (decide (ld ++ lm ++ lb = [])) as [E|E].
  - left. apply app_eq_nil in E as [-> E]. apply app_eq_nil in E as [-> ->]. simpl. tauto.
  - right. rewrite bool_decide_false by done. split; [|done].
    intros (H1 & H2 & H3). apply E. by rewrite (proj2 Hld H1), (proj2 Hlm H2), (proj2 Hlb H3).
Qed.
End Checks.

Lemma health_report_complete_witness :
  let m := {| host := "h"; disk_usage := Ok 905; available_memory := Ok (2 ^ 32); database_check := Ok tt |} in
  ∃ data, @health_report m default_settings = Ok (500, data).
Proof.
  intros m. destruct (@health_report_complete m default_settings I I I)
    as (st & data & E & [(Hd & _)|(_ & -> & _)]).
  - destruct Hd as (p & [= <-] & [H|H]); [discriminate H|]. simpl in H. lia.
  - exists data. exact E.
Defined.
