(* ===== verification/Serializers.v ===== *)
(** * The serializers that carry code (workflow/serializers.py, workflow/fields.py)

    The field lists of the serializers belong to the REST framework.  Modelled
    here: the file a template is saved to, the version of a workflow, the check
    of a crontab line, and the representations of the monitoring views.  The
    theorem follows a template from its creation through the API to the lookup
    that runs it. *)
From Stdlib Require Import Ascii String.
From stdpp Require Import base list strings numbers gmap sets.
From S2P Require Import Prelude PyStr PyVal Json Paths World Demo Finmars Models Manager System Sync Storage.
From S2P Require Import Monitoring.
Local Open Scope string_scope.
Local Open Scope Z_scope.
Local Open Scope list_scope.

(** ** Fields *)

(** [CurrentSpaceDefault] *)
Definition current_space_default : M (option space_row) := get_space.
(** [CurrentOwnerDefault], for the user of the request *)
Definition current_owner_default (user : user_row) : user_row := user.

(** ** Tasks and workflows *)

(** [TaskSerializer.to_representation]: the column [worker_name] *)
Definition shown_worker_name (worker_name : option string) : option string :=
  match truthy_str worker_name with
  | Some n => Some (replace n "celery@" "")
  | None => worker_name
  end.

(** [version.isdigit()] and [int(version)]: superscript digits are digits, but
    not of a number. *)
Definition is_superscript (c : ascii) : bool := bool_decide (ord c ∈ [178; 179; 185]%nat).
Definition py_isdigit (s : string) : bool :=
  negb (s =? "")%string && str_forallb (λ c, is_digit c || is_superscript c) s.
Fixpoint decimal_value (acc : Z) (s : string) : option Z :=
  match s with
  | EmptyString => Some acc
  | String c s' => if is_digit c then decimal_value (10 * acc + Z.of_nat (ord c - 48)) s' else None
  end.
(** [WorkflowSerializer.get_workflow_version], for the template of the workflow *)
Definition get_workflow_version (workflow_template : option template_row) : res Z :=
  match workflow_template with
  | None => Ok 1
  | Some wt =>
      if truthy (wt_data wt) then
        data ← match wt_data wt with PStr s => loads s | v => Ok v end;
        version ← get data "version";
        match version with
        | PStr v =>
            if py_isdigit v
            then match decimal_value 0 v with Some n => Ok n | None => Raise ValueError end
            else Ok 1
        | _ => Ok 1
        end
      else Ok 1
  end.

(** ** Templates *)

(** The state of a request that writes files: the world and the storage *)
Section Templates.
Context `{RawStorage} `{Crypto} (key : option string).

Definition on_world {A} (m : M A) : ST (world * store) A := λ s,
  let '(r, w) := m s.1 in (r, (w, s.2)).
Definition on_store {A} (m : ST store A) : ST (world * store) A := λ s,
  let '(r, st) := m s.2 in (r, (s.1, st)).

(** [l[i]] *)
Definition item (l : list string) (i : nat) : res string :=
  match l !! i with Some x => Ok x | None => Raise IndexError end.
(** The path of [save_to_storage] *)
Definition template_path (user_code : string) : res string :=
  let pieces := split c_colon user_code in
  module_name ← item pieces 1;
  p ← item pieces 0;
  let module_path := split c_dot p in
  a ← item module_path 0; b ← item module_path 1; c ← item module_path 2;
  Ok ("workflows/" +:+ a +:+ "/" +:+ b +:+ "/" +:+ c +:+ "/" +:+ module_name +:+ "/workflow.json").
(** [WorkflowTemplateSerializer.save_to_storage] *)
Definition save_to_storage (instance : template_row) : ST (world * store) unit :=
  user_code ← lift (match wt_user_code instance with Some c => Ok c | None => Raise AttributeError end);
  path ← lift (template_path user_code);
  sp ← on_world get_space;
  _ ← on_store (storage_save_text key sp path (dumps false (Some 4%nat) (wt_data instance)));
  mret tt.
(** [ModelSerializer.create]: a user code is unique in its space. *)
Definition same_code (r r' : template_row) : bool :=
  match wt_user_code r, wt_user_code r' with
  | Some c, Some c' => String.eqb c c' && (wt_space r =? wt_space r')
  | _, _ => false
  end.
Definition insert_template (validated_data : template_row) : M template_row :=
  l ← objects_filter (same_code validated_data);
  match l with
  | _ :: _ => raise IntegrityError
  | [] => insert_row validated_data
  end.
(** [WorkflowTemplateSerializer.create] *)
Definition create_template (validated_data : template_row) : ST (world * store) template_row :=
  instance ← on_world (insert_template validated_data);
  _ ← save_to_storage instance;
  mret instance.
(** [WorkflowTemplateSerializer.update]: [change] sets the validated fields. *)
Definition update_template (change : template_row → template_row) (instance : template_row)
    : ST (world * store) template_row :=
  instance ← on_world (save_row (change instance));
  _ ← save_to_storage instance;
  mret instance.
End Templates.

(** ** Schedules *)

(** [ScheduleSerializer.validate_crontab_line] *)
Definition validate_crontab_line (value : string) : res string :=
  match split c_space value with
  | [minute; hour; day; month; weekday] => Ok value
  | _ => Raise (PyException "Wrong crontab format. Make sure there are 5 space-separated values")
  end.
(** [get_owner_username] *)
Definition get_owner_username (s : schedule_row) : M string :=
  u ← get_by_id (R:=user_row) (sc_owner s); mret (us_username u).

(** ** Monitoring *)

(** What the framework's [to_representation] gives for the declared fields *)
Class Rest : Type := {
  task_fields : pyval → res pyval;
  queue_fields_of : pyval → res pyval
}.

(** The link of [CeleryTaskSerializer.to_representation] *)
Definition task_url (instance : pyval) : res pyval :=
  kwargs ← get_default instance "kwargs" (PDict []);
  context ← get_default kwargs "context" (PDict []);
  realm_code ← get_default context "realm_code" (PStr "");
  space_code ← get_default context "space_code" (PStr "");
  hostname ← get_default instance "hostname" (PStr "");
  let link (id : pyval) (path : string) : pyval :=
    if truthy id && truthy realm_code && truthy space_code
    then PStr ("/" +:+ py_str realm_code +:+ "/" +:+ py_str space_code +:+ path +:+ py_str id)
    else PNone in
  in_workflow ← py_in "workflow" hostname;
  if (in_workflow : bool) then
    workflow_id ← get kwargs "workflow_id"; Ok (link workflow_id "/w/workflow/")
  else
    in_backend ← py_in "backend" hostname;
    if (in_backend : bool) then
      task_id ← get kwargs "task_id"; Ok (link task_id "/api/v1/tasks/task/")
    else Ok PNone.

Section Representations.
Context `{Rest}.
(** [CeleryTaskSerializer.to_representation] *)
Definition task_representation (instance : pyval) : res pyval :=
  data ← task_fields instance;
  url ← task_url instance;
  setitem data "url" url.
(** [CeleryWorkerSerializer] *)
Definition worker_representation (d : worker_data) : res pyval :=
  active ← map_res (wd_tasks d ActiveTasks) task_representation;
  scheduled ← map_res (wd_tasks d ScheduledTasks) task_representation;
  pending ← map_res (wd_tasks d PendingTasks) task_representation;
  Ok (PDict [("active_tasks", PList active); ("scheduled_tasks", PList scheduled);
             ("pending_tasks", PList pending);
             ("active_tasks_count", PInt (wd_count d ActiveTasks));
             ("pending_tasks_count", PInt (wd_count d PendingTasks));
             ("scheduled_tasks_count", PInt (wd_count d ScheduledTasks));
             ("total_tasks_count", PInt (wd_total d))]).
(** A dictionary, entry by entry *)
Definition map_items {A} (f : A → res pyval) (instance : list (string * A)) : res pyval :=
  items ← map_res instance (λ kv, v ← f kv.2; Ok (kv.1, v)); Ok (PDict items).
(** [CeleryWorkerTypeSerializer], [CeleryMonitoringSerializer] *)
Definition worker_type_representation : list (string * worker_data) → res pyval :=
  map_items worker_representation.
Definition celery_representation : monitor → res pyval := map_items worker_type_representation.
(** [RabbitMQQueueGroupSerializer], [RabbitMQMonitoringSerializer] *)
Definition queue_group_representation : list (string * pyval) → res pyval := map_items queue_fields_of.
Definition rabbitmq_representation : list (string * list (string * pyval)) → res pyval :=
  map_items queue_group_representation.
End Representations.

(** ** From the editor to the engine *)

(** The check of a crontab line refuses what [Schedule] cannot take apart: a line
    that passes is stored exactly when celery accepts its five fields. *)
Lemma validated_crontab `{Cron} value o : is_ok (validate_crontab_line value) = true ↔
  ∃ m h d mo wd, split c_space value = [m; h; d; mo; wd] ∧
    (is_ok (set_crontab_line value o) = crontab_valid m h d mo wd).
Proof.
  unfold validate_crontab_line, set_crontab_line.
  destruct (split c_space value) as [|m [|h [|d [|mo [|wd [|]]]]]]; try (split; [done|]; naive_solver).
  split; [|done]. intros _. exists m, h, d, mo, wd. split; [done|]. by destruct (crontab_valid _ _ _ _ _).
Qed.

(** A user code of a template, as the storage can hold it: three components and
    a name *)
Definition plain_part (c : string) : Prop :=
  c ≠ "" ∧ has_char c_colon c = false ∧ has_char c_dot c = false ∧ has_char c_slash c = false.
Definition template_code (a b c m : string) : string := join "." [a; b; c] +:+ ":" +:+ m.

Lemma join_dots a b c : join "." [a; b; c] = a +:+ "." +:+ b +:+ "." +:+ c.
Proof. done. Qed.
Lemma template_code_path a b c m : Forall plain_part [a; b; c; m] →
  template_path (template_code a b c m)
  = Ok ("workflows/" +:+ a +:+ "/" +:+ b +:+ "/" +:+ c +:+ "/" +:+ m +:+ "/workflow.json").
Proof.
  intros Hp. repeat (apply Forall_cons in Hp as [(? & ? & ? & ?) Hp]).
  unfold template_path, template_code.
  assert (split c_colon (join "." [a; b; c] +:+ ":" +:+ m) = [join "." [a; b; c]; m]) as ->.
  { change (":" +:+ m) with (String c_colon m). rewrite split_app_sep, split_piece; [done|done|].
    rewrite join_dots, !has_char_app. by repeat (apply orb_false_iff; split). }
  unfold item. cbn [lookup list_lookup mbind res_bind].
  change (join "." [a; b; c]) with (join (String c_dot "") [a; b; c]).
  rewrite split_join; [done|done|by repeat constructor].
Qed.
Lemma template_module_path sp a b c m : plain_part sp → Forall plain_part [a; b; c; m] →
  let code := sp +:+ "." +:+ template_code a b c m in
  space_prefix code = sp ∧ module_path_of code = Ok (a +:+ "/" +:+ b +:+ "/" +:+ c).
Proof.
  intros (? & ? & Hdot & ?) Hp code.
  assert (space_prefix code = sp) as Hs.
  { unfold code, space_prefix. change ("." +:+ template_code a b c m) with (String c_dot (template_code a b c m)).
    by rewrite split_app_sep. }
  split; [done|]. unfold module_path_of. rewrite Hs. unfold code.
  replace (drop_str (String.length sp + 1) (sp +:+ "." +:+ template_code a b c m)) with (template_code a b c m).
  2:{ rewrite str_app_assoc. replace (String.length sp + 1)%nat with (String.length (sp +:+ ".")).
      - by rewrite drop_str_app. - by rewrite length_str_app. }
  repeat (apply Forall_cons in Hp as [(? & ? & ? & ?) Hp]).
  unfold template_code. rewrite join_dots.
  assert (replace (replace ((a +:+ "." +:+ b +:+ "." +:+ c) +:+ ":" +:+ m) "." "/") ":" "/"
    = (a +:+ "/" +:+ b +:+ "/" +:+ c) +:+ String c_slash m) as ->.
  { rewrite !(replace_char_app "."%char).
    rewrite (replace_absent "."%char "" "/" a), (replace_absent "."%char "" "/" b),
      (replace_absent "."%char "" "/" c), (replace_absent "."%char "" "/" m) by done.
    change (replace "." "." "/") with "/". change (replace ":" "." "/") with ":".
    rewrite !(replace_char_app ":"%char).
    rewrite (replace_absent ":"%char "" "/" a), (replace_absent ":"%char "" "/" b),
      (replace_absent ":"%char "" "/" c), (replace_absent ":"%char "" "/" m) by done. done. }
  by rewrite rsplit1_app.
Qed.

Section Created.
Context `{RawStorage} `{!RawStorageOk} `{Crypto} `{!CryptoOk} (key : option string).

(** Saving a text leaves its UTF-8 bytes under the space's name. *)
Lemma save_text_run sp name content st : server_local = true ∨ good_key key →
  startswith name "/" = false → name ≠ "" → valid_name (sp_space_code sp +:+ "/" +:+ name) = true →
  let full := sp_space_code sp +:+ "/" +:+ name in
  ∃ st', storage_save_text key (Some sp) name content st = (Ok full, st') ∧
    read_file key full "rb" st' = (Ok (Bytes (encode content)), st').
Proof.
  intros Hk Hs Hne Hv full. unfold storage_save_text.
  assert (space_name (Some sp) name = Ok full) as ->.
  { unfold space_name. destruct name as [|c name]; [done|]. rewrite startswith_char in Hs.
    cbn. unfold full. rewrite Ascii.eqb_sym in Hs. unfold c_slash. by rewrite Hs. }
  rewrite (bind_ok (lift _) _ st full st) by done. unfold save_file. fold full in Hv. rewrite Hv. cbn [negb].
  rewrite (bind_ok _ _ _ _ _ (available_name_run full st)).
  destruct (save_content_run key full (encode content) (Store _ (raw_remove full (st_raw st)) (st_nonces st)))
    as (st' & Hs' & Hr); [done|].
  exists st'. by rewrite (bind_ok _ _ _ _ _ Hs').
Qed.

(** A template that a tenant may create *)
Record creatable (t : tenant) (v : template_row) (sp : space_row) (a b c m : string) : Prop := {
  cr_space : qs_first (rows (t_spaces t)) = Some sp;
  cr_space_code : plain_component (sp_space_code sp);
  cr_parts : Forall plain_part [a; b; c; m];
  cr_code : wt_user_code v = Some (template_code a b c m);
  cr_new : List.filter (same_code v) (rows (t_templates t)) = []
}.
Definition template_folder (sp : space_row) (a b c m : string) : string :=
  sp_space_code sp +:+ "/workflows/" +:+ a +:+ "/" +:+ b +:+ "/" +:+ c +:+ "/" +:+ m.

Lemma plain_part_component c : plain_part c → plain_component c.
Proof. intros (? & ? & Hdot & ?). split_and!; [done|done|by intros ->..]. Qed.
Lemma template_file_valid code a b c m : plain_component code → Forall plain_part [a; b; c; m] →
  valid_name (code +:+ "/" +:+ "workflows/" +:+ a +:+ "/" +:+ b +:+ "/" +:+ c +:+ "/" +:+ m +:+ "/workflow.json") = true.
Proof.
  intros Hs Hp. apply (valid_plain [code; "workflows"; a; b; c; m; "workflow.json"]); [done|].
  constructor; [done|]. constructor; [by split_and!|].
  apply (Forall_app_2 _ [a; b; c; m] ["workflow.json"]); [|by repeat constructor].
  eapply Forall_impl; [exact Hp|apply plain_part_component].
Qed.
Lemma create_template_run w t st v sp a b c m : cur w = Some t → creatable t v sp a b c m →
  server_local = true ∨ good_key key →
  ∃ wt w' st', create_template key v (w, st) = (Ok wt, (w', st')) ∧
    w' = with_tenant (set_t_templates (Table (rows (t_templates t) ++ [wt]) (next_id (t_templates t) + 1)) t) (tick w) ∧
    wt_data wt = wt_data v ∧ wt_user_code wt = wt_user_code v ∧
    read_file key (template_folder sp a b c m +:+ "/workflow.json") "rb" st'
      = (Ok (Bytes (encode (dumps false (Some 4%nat) (wt_data v)))), st').
Proof.
  intros Hw [Hsp Hsc Hp Hc Hn] Hk. pose proof (insert_run v w t Hw) as Hi. cbn zeta in Hi.
  set (wt := with_created _ _) in Hi. set (w' := with_tenant _ _) in Hi.
  assert (get_space w' = (Ok (Some sp), w')) as Hsp'.
  { unfold w'. rewrite (get_space_first _ _ (cur_with_tenant _ _)). by rewrite <- Hsp. }
  destruct (save_text_run sp ("workflows/" +:+ a +:+ "/" +:+ b +:+ "/" +:+ c +:+ "/" +:+ m +:+ "/workflow.json")
    (dumps false (Some 4%nat) (wt_data v)) st Hk) as (st' & Hs & Hr); [done|done|by apply template_file_valid|].
  exists wt, w', st'. split_and!; [|done|done|done|].
  - unfold create_template. rewrite (bind_ok _ _ _ wt (w', st)).
    2:{ unfold on_world, insert_template. cbn [fst].
        rewrite (bind_ok _ _ _ _ _ (filter_run (same_code v) w t Hw)). unfold ordered.
        cbn [newest_first template_model get_table]. rewrite Hn. by rewrite Hi. }
    rewrite (bind_ok _ _ _ tt (w', st')); [done|]. unfold save_to_storage.
    change (wt_user_code wt) with (wt_user_code v). rewrite Hc.
    rewrite (bind_ok _ _ _ (template_code a b c m) (w', st)) by done.
    rewrite (template_code_path a b c m Hp). rewrite (bind_ok _ _ _ _ (w', st)) by reflexivity.
    rewrite (bind_ok _ _ _ (Some sp) (w', st)) by (unfold on_world; cbn [fst]; by rewrite Hsp').
    change (wt_data wt) with (wt_data v). unfold on_store, mbind, ST_bind. cbn [snd]. by rewrite Hs.
  - unfold template_folder. rewrite <- Hr. f_equal. by rewrite <- !str_app_assoc.
Qed.

(** A configuration that declares the code it is saved under *)
Definition declares (data : pyval) (code : string) : Prop :=
  wf_val data = true ∧ ∃ d wd, data = PDict d ∧ dict_get d "workflow" = Some (PDict wd) ∧
    dict_get wd "user_code" = Some (PStr code).
Lemma annotate_declares sp data code : declares data code → ∃ config, annotate_config data sp = Ok config.
Proof. intros (_ & d & wd & -> & Hd & _). unfold annotate_config, getitem. rewrite Hd. by eexists. Qed.
Lemma declares_declared `{Backend} sp data code config : declares data code →
  annotate_config data sp = Ok config →
  declared sp "workflow.json" (dumps false (Some 4%nat) data) = Some (sp_space_code sp +:+ "." +:+ code, config).
Proof.
  intros (Hwf & d & wd & -> & Hd & Hu) Ha. unfold declared. rewrite (loads_dumps false _ _ Hwf).
  replace (suffix (basename "workflow.json")) with ".json" by reflexivity.
  rewrite bool_decide_eq_true_2 by (right; right; left). cbn -[dumps annotate_config].
  rewrite Hd. cbn -[annotate_config]. rewrite Hu, Ha. done.
Qed.
(** The remote storage of the workers is the one the request wrote. *)
Definition serves_file `{Backend} (st : store) (path : string) : Prop :=
  remote_read path = match (read_file key path "rb" st).1 with
                     | Ok (Bytes content) => decode content
                     | Ok (Text content) => Ok content
                     | Raise e => Raise e
                     end.

(** C19: what the editor saves is what the engine runs.  Creating a template with a
    code "a.b.c:m" that its data declare succeeds on every storage with a usable
    key; and any worker of the space that does not know the code yet finds it,
    when it looks it up with the copy, the remote storage being the one the
    request wrote: what it gets is the template's data with the codes of the
    space put in, unless another file declares the same code. *)
Theorem created_template_found `{Platform} w t st v sp a b c m : cur w = Some t →
  creatable t v sp a b c m → declares (wt_data v) (template_code a b c m) →
  server_local = true ∨ good_key key → ∃ wt w' st' config,
    create_template key v (w, st) = (Ok wt, (w', st')) ∧ annotate_config (wt_data v) sp = Ok config ∧
    let code := sp_space_code sp +:+ "." +:+ template_code a b c m in
    let module_path := a +:+ "/" +:+ b +:+ "/" +:+ c in
    ∀ (B : Backend) worker, looks_up sp code module_path worker → (∀ path, is_ok (remote_listdir path) = true) →
      stored (remote_dir sp) [a; b; c] (template_folder sp a b c m) "workflow.json" →
      serves_file st' (template_folder sp a b c m +:+ "/workflow.json") →
      ∃ config' worker', find_by_user_code code true worker = (Ok config', worker') ∧
        ((∀ other, origin sp code module_path worker other → other = config) → config' = config).
Proof.
  intros Hw Hv Hd Hk. destruct (create_template_run w t st v sp a b c m Hw Hv Hk)
    as (wt & w' & st' & E & _ & _ & _ & Hr).
  destruct (annotate_declares sp _ _ Hd) as (config & Ha).
  exists wt, w', st', config. split; [exact E|]. split; [exact Ha|]. intros code module_path B worker Hu Hl Hst Hs.
  unfold serves_file in Hs. rewrite Hr in Hs. cbn [fst] in Hs. rewrite decode_encode in Hs.
  assert (components module_path = [a; b; c]) as Hcomp.
  { destruct Hv as [_ _ Hp _ _]. repeat (apply Forall_cons in Hp as [(? & ? & ? & ?) Hp]).
    unfold components, module_path. rewrite (proj2 (String.eqb_neq _ "")) by (by destruct a).
    change (a +:+ "/" +:+ b +:+ "/" +:+ c) with (join (String c_slash "") [a; b; c]).
    apply split_join; [done|by repeat constructor]. }
  rewrite <- Hcomp in Hst. destruct (lookup_remote sp module_path code (template_folder sp a b c m)
    "workflow.json" (dumps false (Some 4%nat) (wt_data v)) config worker) as (config' & worker' & Ef & _ & Hun);
    [done|done|done|left|exact Hs|by apply declares_declared|].
  by exists config', worker'.
Qed.

(** A template whose code has not the expected form is kept all the same: the row
    is inserted, the file is not written, and the request fails. *)
Lemma malformed_template_kept w t st v code e : cur w = Some t →
  wt_user_code v = Some code → template_path code = Raise e →
  List.filter (same_code v) (rows (t_templates t)) = [] →
  ∃ wt w', create_template key v (w, st) = (Raise e, (w', st)) ∧
    (tb ← t_templates <$> cur w'; last (rows tb)) = Some wt ∧ wt_user_code wt = Some code.
Proof.
  intros Hw Hc Hp Hn. pose proof (insert_run v w t Hw) as Hi. cbn zeta in Hi.
  set (wt := with_created _ _) in Hi. set (w' := with_tenant _ _) in Hi.
  exists wt, w'. split_and!; [| |exact Hc].
  - unfold create_template. rewrite (bind_ok _ _ _ wt (w', st)).
    2:{ unfold on_world, insert_template. cbn [fst].
        rewrite (bind_ok _ _ _ _ _ (filter_run (same_code v) w t Hw)). unfold ordered.
        cbn [newest_first template_model get_table]. rewrite Hn. by rewrite Hi. }
    unfold save_to_storage. change (wt_user_code wt) with (wt_user_code v). rewrite Hc.
    unfold mbind, ST_bind, lift. by rewrite Hp.
  - unfold w'. rewrite cur_with_tenant. cbn. by rewrite last_snoc.
Qed.
End Created.

(** Codes that differ after the third component share their file. *)
Example long_codes_collide :
  template_path "com.finmars.std.a:run" = template_path "com.finmars.std.b:run".
Proof. reflexivity. Qed.

(** ** A template and a worker *)

Definition std_template : template_row :=
  TemplateRow 0 None (Some "com.finmars.std:run") None
    (PDict [("workflow", PDict [("user_code", PStr "com.finmars.std:run")]); ("version", PStr "2")]) 1 1 0 0.
Lemma std_creatable : creatable (demo_tenant PNone [] []) std_template demo_space "com" "finmars" "std" "run".
Proof. split; [done|by split_and!| |done|done]. repeat constructor; done. Qed.
Lemma created_template_found_witness : ∃ st' config worker', let B := std_tree (λ path,
    match (@read_file file_store (toy_crypto false "") demo_key path "rb" st').1 with
    | Ok (Bytes content) => decode content
    | Ok (Text content) => Ok content
    | Raise e => Raise e
    end) in
  @find_by_user_code demo_platform B "space00000.com.finmars.std:run" true std_world = (Ok config, worker').
Proof.
  destruct (@created_template_found file_store file_store_ok (toy_crypto false "") (toy_crypto_ok _ _) demo_key
    demo_platform std_world (demo_tenant PNone [] []) (files []) std_template demo_space
    "com" "finmars" "std" "run") as (wt & w' & st' & config & _ & _ & Hf).
  - reflexivity.
  - exact std_creatable.
  - split; [reflexivity|]. do 2 eexists. by repeat split.
  - right. exists "0123456789abcdef". split; [reflexivity|left].
  - exists st'. destruct (Hf (std_tree (λ path,
      match (@read_file file_store (toy_crypto false "") demo_key path "rb" st').1 with
      | Ok (Bytes content) => decode content
      | Ok (Text content) => Ok content
      | Raise e => Raise e
      end)) std_world) as (config' & worker' & E & _).
    + exact std_looks_up.
    + done.
    + by apply std_stored.
    + done.
    + by exists config', worker'.
Defined.
