(* ===== verification/Editing.v ===== *)
(** * Editing through the API (workflow/serializers.py, workflow/views.py)

    The four model view sets let clients create, change and delete templates,
    workflows, tasks and schedules.  What the REST framework does with a
    serializer is documented: it validates the data of the writable fields, adds
    the values of the hidden ones, and sets the attributes of the object before
    it is saved.  Validation is a parameter; the fields of the serializers, the
    attributes they set and what saving and deleting does are the code's.  A null
    status, which the columns allow, is not represented. *)
From Stdlib Require Import Ascii String.
From stdpp Require Import base list strings numbers gmap sets.
From S2P Require Import Prelude PyStr PyVal Json Paths World Demo Graph Finmars Models Manager System.
From S2P Require Import Builder Launch Tasks Engine Views Monitoring Storage Serializers.
Local Open Scope string_scope.
Local Open Scope Z_scope.
Local Open Scope list_scope.

(** ** Attributes of the rows *)

Definition set_wt_name (v : option string) (r : template_row) : template_row :=
  TemplateRow (wt_id r) v (wt_user_code r) (wt_notes r) (wt_data r) (wt_space r) (wt_owner r)
    (wt_created_at r) (wt_modified_at r).
Definition set_wt_user_code (v : option string) (r : template_row) : template_row :=
  TemplateRow (wt_id r) (wt_name r) v (wt_notes r) (wt_data r) (wt_space r) (wt_owner r)
    (wt_created_at r) (wt_modified_at r).
Definition set_wt_notes (v : option string) (r : template_row) : template_row :=
  TemplateRow (wt_id r) (wt_name r) (wt_user_code r) v (wt_data r) (wt_space r) (wt_owner r)
    (wt_created_at r) (wt_modified_at r).
Definition set_wt_data (v : pyval) (r : template_row) : template_row :=
  TemplateRow (wt_id r) (wt_name r) (wt_user_code r) (wt_notes r) v (wt_space r) (wt_owner r)
    (wt_created_at r) (wt_modified_at r).
Definition set_wt_space (v : Z) (r : template_row) : template_row :=
  TemplateRow (wt_id r) (wt_name r) (wt_user_code r) (wt_notes r) (wt_data r) v (wt_owner r)
    (wt_created_at r) (wt_modified_at r).
Definition set_wt_owner (v : Z) (r : template_row) : template_row :=
  TemplateRow (wt_id r) (wt_name r) (wt_user_code r) (wt_notes r) (wt_data r) (wt_space r) v
    (wt_created_at r) (wt_modified_at r).
Definition set_wf_name (v : option string) (r : workflow_row) : workflow_row :=
  WorkflowRow (wf_id r) v (wf_template r) (wf_current_node_id r) (wf_last_task_output r)
    (wf_node_id r) (wf_user_code r) (wf_status_ r) (wf_payload_data r) (wf_periodic r)
    (wf_is_manager r) (wf_platform_task_id r) (wf_space r) (wf_owner r) (wf_crontab r)
    (wf_finished_at r) (wf_parent r) (wf_created_at r) (wf_modified_at r).
Definition set_wf_user_code (v : option string) (r : workflow_row) : workflow_row :=
  WorkflowRow (wf_id r) (wf_name r) (wf_template r) (wf_current_node_id r)
    (wf_last_task_output r) (wf_node_id r) v (wf_status_ r) (wf_payload_data r) (wf_periodic r)
    (wf_is_manager r) (wf_platform_task_id r) (wf_space r) (wf_owner r) (wf_crontab r)
    (wf_finished_at r) (wf_parent r) (wf_created_at r) (wf_modified_at r).
Definition set_wf_owner (v : Z) (r : workflow_row) : workflow_row :=
  WorkflowRow (wf_id r) (wf_name r) (wf_template r) (wf_current_node_id r)
    (wf_last_task_output r) (wf_node_id r) (wf_user_code r) (wf_status_ r) (wf_payload_data r)
    (wf_periodic r) (wf_is_manager r) (wf_platform_task_id r) (wf_space r) v (wf_crontab r)
    (wf_finished_at r) (wf_parent r) (wf_created_at r) (wf_modified_at r).
Definition set_wf_space (v : Z) (r : workflow_row) : workflow_row :=
  WorkflowRow (wf_id r) (wf_name r) (wf_template r) (wf_current_node_id r)
    (wf_last_task_output r) (wf_node_id r) (wf_user_code r) (wf_status_ r) (wf_payload_data r)
    (wf_periodic r) (wf_is_manager r) (wf_platform_task_id r) v (wf_owner r) (wf_crontab r)
    (wf_finished_at r) (wf_parent r) (wf_created_at r) (wf_modified_at r).
Definition set_wf_node_id (v : option string) (r : workflow_row) : workflow_row :=
  WorkflowRow (wf_id r) (wf_name r) (wf_template r) (wf_current_node_id r)
    (wf_last_task_output r) v (wf_user_code r) (wf_status_ r) (wf_payload_data r) (wf_periodic
    r) (wf_is_manager r) (wf_platform_task_id r) (wf_space r) (wf_owner r) (wf_crontab r)
    (wf_finished_at r) (wf_parent r) (wf_created_at r) (wf_modified_at r).
Definition set_wf_template (v : option Z) (r : workflow_row) : workflow_row :=
  WorkflowRow (wf_id r) (wf_name r) v (wf_current_node_id r) (wf_last_task_output r)
    (wf_node_id r) (wf_user_code r) (wf_status_ r) (wf_payload_data r) (wf_periodic r)
    (wf_is_manager r) (wf_platform_task_id r) (wf_space r) (wf_owner r) (wf_crontab r)
    (wf_finished_at r) (wf_parent r) (wf_created_at r) (wf_modified_at r).
Definition set_wf_periodic (v : bool) (r : workflow_row) : workflow_row :=
  WorkflowRow (wf_id r) (wf_name r) (wf_template r) (wf_current_node_id r)
    (wf_last_task_output r) (wf_node_id r) (wf_user_code r) (wf_status_ r) (wf_payload_data r) v
    (wf_is_manager r) (wf_platform_task_id r) (wf_space r) (wf_owner r) (wf_crontab r)
    (wf_finished_at r) (wf_parent r) (wf_created_at r) (wf_modified_at r).
Definition set_wf_is_manager (v : bool) (r : workflow_row) : workflow_row :=
  WorkflowRow (wf_id r) (wf_name r) (wf_template r) (wf_current_node_id r)
    (wf_last_task_output r) (wf_node_id r) (wf_user_code r) (wf_status_ r) (wf_payload_data r)
    (wf_periodic r) v (wf_platform_task_id r) (wf_space r) (wf_owner r) (wf_crontab r)
    (wf_finished_at r) (wf_parent r) (wf_created_at r) (wf_modified_at r).
Definition set_tk_space (v : option Z) (r : task_row) : task_row :=
  TaskRow (tk_id r) (tk_workflow r) (tk_node_id r) (tk_celery_task_id r) (tk_name r)
    (tk_source_code r) (tk_status r) (tk_worker_name r) (tk_type r) (tk_payload_data r)
    (tk_result_data r) (tk_progress_data r) (tk_log r) (tk_notes r) (tk_error_message r)
    (tk_verbose_name r) (tk_verbose_result r) (tk_previous_data r) (tk_is_hook r)
    (tk_finished_at r) v (tk_created_at r) (tk_modified_at r).
Definition set_tk_name (v : option string) (r : task_row) : task_row :=
  TaskRow (tk_id r) (tk_workflow r) (tk_node_id r) (tk_celery_task_id r) v (tk_source_code r)
    (tk_status r) (tk_worker_name r) (tk_type r) (tk_payload_data r) (tk_result_data r)
    (tk_progress_data r) (tk_log r) (tk_notes r) (tk_error_message r) (tk_verbose_name r)
    (tk_verbose_result r) (tk_previous_data r) (tk_is_hook r) (tk_finished_at r) (tk_space r)
    (tk_created_at r) (tk_modified_at r).
Definition set_tk_node_id (v : option string) (r : task_row) : task_row :=
  TaskRow (tk_id r) (tk_workflow r) v (tk_celery_task_id r) (tk_name r) (tk_source_code r)
    (tk_status r) (tk_worker_name r) (tk_type r) (tk_payload_data r) (tk_result_data r)
    (tk_progress_data r) (tk_log r) (tk_notes r) (tk_error_message r) (tk_verbose_name r)
    (tk_verbose_result r) (tk_previous_data r) (tk_is_hook r) (tk_finished_at r) (tk_space r)
    (tk_created_at r) (tk_modified_at r).
Definition set_tk_workflow (v : Z) (r : task_row) : task_row :=
  TaskRow (tk_id r) v (tk_node_id r) (tk_celery_task_id r) (tk_name r) (tk_source_code r)
    (tk_status r) (tk_worker_name r) (tk_type r) (tk_payload_data r) (tk_result_data r)
    (tk_progress_data r) (tk_log r) (tk_notes r) (tk_error_message r) (tk_verbose_name r)
    (tk_verbose_result r) (tk_previous_data r) (tk_is_hook r) (tk_finished_at r) (tk_space r)
    (tk_created_at r) (tk_modified_at r).
Definition set_tk_celery_task_id (v : option string) (r : task_row) : task_row :=
  TaskRow (tk_id r) (tk_workflow r) (tk_node_id r) v (tk_name r) (tk_source_code r) (tk_status
    r) (tk_worker_name r) (tk_type r) (tk_payload_data r) (tk_result_data r) (tk_progress_data
    r) (tk_log r) (tk_notes r) (tk_error_message r) (tk_verbose_name r) (tk_verbose_result r)
    (tk_previous_data r) (tk_is_hook r) (tk_finished_at r) (tk_space r) (tk_created_at r)
    (tk_modified_at r).
Definition set_tk_is_hook (v : bool) (r : task_row) : task_row :=
  TaskRow (tk_id r) (tk_workflow r) (tk_node_id r) (tk_celery_task_id r) (tk_name r)
    (tk_source_code r) (tk_status r) (tk_worker_name r) (tk_type r) (tk_payload_data r)
    (tk_result_data r) (tk_progress_data r) (tk_log r) (tk_notes r) (tk_error_message r)
    (tk_verbose_name r) (tk_verbose_result r) (tk_previous_data r) v (tk_finished_at r)
    (tk_space r) (tk_created_at r) (tk_modified_at r).
Definition set_sc_user_code (v : string) (r : schedule_row) : schedule_row :=
  ScheduleRow (sc_id r) (sc_name r) v (sc_notes r) (sc_payload r) (sc_is_manager r) (sc_space
    r) (sc_owner r) (sc_workflow_user_code r) (sc_crontab r) (sc_enabled r) (sc_queue r)
    (sc_task r) (sc_args r) (sc_kwargs r) (sc_last_run_at r) (sc_created_at r) (sc_modified_at
    r).
Definition set_sc_space (v : Z) (r : schedule_row) : schedule_row :=
  ScheduleRow (sc_id r) (sc_name r) (sc_user_code r) (sc_notes r) (sc_payload r)
    (sc_is_manager r) v (sc_owner r) (sc_workflow_user_code r) (sc_crontab r) (sc_enabled r)
    (sc_queue r) (sc_task r) (sc_args r) (sc_kwargs r) (sc_last_run_at r) (sc_created_at r)
    (sc_modified_at r).
Definition set_sc_owner (v : Z) (r : schedule_row) : schedule_row :=
  ScheduleRow (sc_id r) (sc_name r) (sc_user_code r) (sc_notes r) (sc_payload r)
    (sc_is_manager r) (sc_space r) v (sc_workflow_user_code r) (sc_crontab r) (sc_enabled r)
    (sc_queue r) (sc_task r) (sc_args r) (sc_kwargs r) (sc_last_run_at r) (sc_created_at r)
    (sc_modified_at r).
Definition set_sc_payload (v : pyval) (r : schedule_row) : schedule_row :=
  ScheduleRow (sc_id r) (sc_name r) (sc_user_code r) (sc_notes r) v (sc_is_manager r)
    (sc_space r) (sc_owner r) (sc_workflow_user_code r) (sc_crontab r) (sc_enabled r) (sc_queue
    r) (sc_task r) (sc_args r) (sc_kwargs r) (sc_last_run_at r) (sc_created_at r)
    (sc_modified_at r).
Definition set_sc_is_manager (v : bool) (r : schedule_row) : schedule_row :=
  ScheduleRow (sc_id r) (sc_name r) (sc_user_code r) (sc_notes r) (sc_payload r) v (sc_space
    r) (sc_owner r) (sc_workflow_user_code r) (sc_crontab r) (sc_enabled r) (sc_queue r)
    (sc_task r) (sc_args r) (sc_kwargs r) (sc_last_run_at r) (sc_created_at r) (sc_modified_at
    r).
Definition set_sc_workflow_user_code (v : string) (r : schedule_row) : schedule_row :=
  ScheduleRow (sc_id r) (sc_name r) (sc_user_code r) (sc_notes r) (sc_payload r)
    (sc_is_manager r) (sc_space r) (sc_owner r) v (sc_crontab r) (sc_enabled r) (sc_queue r)
    (sc_task r) (sc_args r) (sc_kwargs r) (sc_last_run_at r) (sc_created_at r) (sc_modified_at
    r).
Definition set_sc_notes (v : option string) (r : schedule_row) : schedule_row :=
  ScheduleRow (sc_id r) (sc_name r) (sc_user_code r) v (sc_payload r) (sc_is_manager r)
    (sc_space r) (sc_owner r) (sc_workflow_user_code r) (sc_crontab r) (sc_enabled r) (sc_queue
    r) (sc_task r) (sc_args r) (sc_kwargs r) (sc_last_run_at r) (sc_created_at r)
    (sc_modified_at r).
Definition set_sc_enabled (v : bool) (r : schedule_row) : schedule_row :=
  ScheduleRow (sc_id r) (sc_name r) (sc_user_code r) (sc_notes r) (sc_payload r)
    (sc_is_manager r) (sc_space r) (sc_owner r) (sc_workflow_user_code r) (sc_crontab r) v
    (sc_queue r) (sc_task r) (sc_args r) (sc_kwargs r) (sc_last_run_at r) (sc_created_at r)
    (sc_modified_at r).

(** ** The fields of the serializers *)

(** What a client can do with a field; a hidden field takes its default
    ([SpaceField], [OwnerField]). *)
Inductive field_kind : Type := ReadOnly | Writable | HiddenSpace | HiddenOwner.
Definition serializer : Type := list (string * field_kind).
Definition TaskSerializer : serializer :=
  [("id", ReadOnly); ("space", HiddenSpace); ("name", Writable); ("source_code", Writable);
   ("node_id", Writable); ("workflow", Writable); ("status", Writable); ("celery_task_id", Writable);
   ("previous", Writable); ("is_hook", Writable); ("payload", Writable); ("result", Writable);
   ("progress", Writable); ("created_at", ReadOnly); ("modified_at", ReadOnly); ("log", Writable);
   ("worker_name", Writable); ("error_message", Writable); ("finished_at", Writable)].
Definition WorkflowTemplateSerializer : serializer :=
  [("id", ReadOnly); ("name", Writable); ("user_code", Writable); ("notes", Writable);
   ("owner", HiddenOwner); ("space", HiddenSpace); ("created_at", ReadOnly); ("modified_at", ReadOnly);
   ("data", Writable)].
Definition SimpleWorkflowSerializer : serializer :=
  [("id", ReadOnly); ("name", Writable); ("user_code", Writable); ("owner", Writable);
   ("space", HiddenSpace); ("node_id", Writable); ("current_node_id", Writable); ("status", Writable);
   ("workflow_template", Writable); ("workflow_template_object", ReadOnly); ("payload", Writable);
   ("created_at", ReadOnly); ("modified_at", ReadOnly); ("tasks", ReadOnly); ("periodic", Writable);
   ("finished_at", Writable); ("is_manager", Writable)].
Definition WorkflowSerializer : serializer :=
  [("id", ReadOnly); ("name", Writable); ("user_code", Writable); ("owner", Writable);
   ("space", HiddenSpace); ("node_id", Writable); ("current_node_id", Writable); ("status", Writable);
   ("workflow_template", Writable); ("workflow_template_object", ReadOnly); ("payload", Writable);
   ("created_at", ReadOnly); ("modified_at", ReadOnly); ("tasks", ReadOnly); ("periodic", Writable);
   ("finished_at", Writable); ("parent", ReadOnly); ("workflow_version", ReadOnly); ("is_manager", Writable)].
Definition ScheduleSerializer : serializer :=
  [("id", ReadOnly); ("user_code", Writable); ("name", Writable); ("space", HiddenSpace);
   ("owner", HiddenOwner); ("created_at", ReadOnly); ("modified_at", ReadOnly); ("payload", Writable);
   ("crontab_line", Writable); ("is_manager", Writable); ("workflow_user_code", Writable);
   ("notes", Writable); ("next_run_at", ReadOnly); ("last_run_at", ReadOnly); ("enabled", Writable);
   ("owner_id", ReadOnly); ("owner_username", ReadOnly)].

(** The model view sets, by their routes *)
Inductive resource : Type := RTemplate | RWorkflow | RTask | RSchedule.
Definition serializer_class (r : resource) : serializer :=
  match r with
  | RTemplate => WorkflowTemplateSerializer
  | RWorkflow => WorkflowSerializer
  | RTask => TaskSerializer
  | RSchedule => ScheduleSerializer
  end.

(** [serializer.is_valid(raise_exception=True)]: the validated values of the
    writable fields, for a new object or an object with a key; related objects
    are given by their keys, times by their microseconds. *)
Class Validation : Type := {
  run_validation : resource → option Z → bool → pyval → M (list (string * pyval))
}.
(** What the framework documents: validation reads; the validated data are a
    dictionary of JSON values for writable fields; a required field is there
    unless the update is partial; a related field holds the key of a row. *)
Class ValidationOk `{Validation} : Prop := {
  validation_reads r pk partial data w : (run_validation r pk partial data w).2 = w;
  validation_dict r pk partial data w vs : (run_validation r pk partial data w).1 = Ok vs →
    NoDup (dict_keys vs) ∧ Forall (λ kv, wf_val kv.2 = true) vs ∧
    ∀ k, k ∈ dict_keys vs → (k, Writable) ∈ serializer_class r;
  validation_workflow pk partial data w t vs : cur w = Some t →
    (run_validation RTask pk partial data w).1 = Ok vs →
    match dict_get vs "workflow" with
    | Some v => ∃ wf, wf ∈ rows (t_workflows t) ∧ v = PInt (wf_id wf)
    | None => partial = true
    end;
  validation_template pk partial data w t vs v : cur w = Some t →
    (run_validation RWorkflow pk partial data w).1 = Ok vs → dict_get vs "workflow_template" = Some v →
    v = PNone ∨ ∃ wt, wt ∈ rows (t_templates t) ∧ v = PInt (wt_id wt)
}.

(** ** Setting attributes *)

Definition str_value (v : pyval) : res string := as_str v.
Definition null_str (v : pyval) : res (option string) :=
  match v with PNone => Ok None | PStr s => Ok (Some s) | _ => Raise TypeError end.
Definition bool_value (v : pyval) : res bool := match v with PBool b => Ok b | _ => Raise TypeError end.
Definition key_value (v : pyval) : res Z := match v with PInt i => Ok i | _ => Raise TypeError end.
Definition null_int (v : pyval) : res (option Z) :=
  match v with PNone => Ok None | PInt i => Ok (Some i) | _ => Raise TypeError end.
Definition choice_value {A} (choices : list A) (str : A → string) (v : pyval) : res A :=
  match v with
  | PStr s => match List.find (λ a, String.eqb (str a) s) choices with Some a => Ok a | None => Raise ValueError end
  | _ => Raise TypeError
  end.
Definition wf_statuses : list wf_status := [WInit; WProgress; WWait; WSuccess; WError; WTimeout; WCanceled].
Definition task_statuses : list task_status :=
  [TInit; TProgress; TNestedProgress; TSuccess; TError; TTimeout; TCanceled].

(** [setattr(instance, attr, value)], an attribute the object does not know of
    being no column *)
Definition setters (R : Type) : Type := list (string * (pyval → R → res R)).
Definition column {A R} (value : pyval → res A) (f : A → R → R) : pyval → R → res R :=
  λ v r, a ← value v; Ok (f a r).
Definition setattr {R} (l : setters R) (r : R) (kv : string * pyval) : res R :=
  match dict_get l kv.1 with Some f => f kv.2 r | None => Ok r end.
Definition set_attributes {R} (l : setters R) (vs : list (string * pyval)) (r : R) : res R :=
  fold_res (setattr l) vs r.

Definition template_setters : setters template_row :=
  [("name", column null_str set_wt_name); ("user_code", column null_str set_wt_user_code);
   ("notes", column null_str set_wt_notes); ("data", column Ok set_wt_data);
   ("space", column key_value set_wt_space); ("owner", column key_value set_wt_owner)].
Definition workflow_setters : setters workflow_row :=
  [("name", column null_str set_wf_name); ("user_code", column null_str set_wf_user_code);
   ("owner", column key_value set_wf_owner); ("space", column key_value set_wf_space);
   ("node_id", column null_str set_wf_node_id); ("current_node_id", column null_str set_wf_current_node_id);
   ("status", column (choice_value wf_statuses wf_status_str) set_wf_status_);
   ("workflow_template", column null_int set_wf_template); ("payload", column Ok set_wf_payload);
   ("periodic", column bool_value set_wf_periodic); ("finished_at", column null_int set_wf_finished_at);
   ("is_manager", column bool_value set_wf_is_manager)].
Definition task_setters : setters task_row :=
  [("space", column null_int set_tk_space); ("name", column null_str set_tk_name);
   ("source_code", column null_str set_tk_source_code); ("node_id", column null_str set_tk_node_id);
   ("workflow", column key_value set_tk_workflow);
   ("status", column (choice_value task_statuses task_status_str) set_tk_status);
   ("celery_task_id", column null_str set_tk_celery_task_id); ("previous", column Ok set_tk_previous);
   ("is_hook", column bool_value set_tk_is_hook); ("payload", column Ok set_tk_payload);
   ("result", column Ok set_tk_result); ("progress", column Ok set_tk_progress);
   ("log", column null_str set_tk_log); ("worker_name", column null_str set_tk_worker_name);
   ("error_message", column null_str set_tk_error_message); ("finished_at", column null_int set_tk_finished_at)].
(** Of a schedule the object is changed: its crontab is an object of its own. *)
Definition schedule_column {A} (value : pyval → res A) (f : A → schedule_row → schedule_row)
    : pyval → schedule_obj → res schedule_obj :=
  column value (λ a s, ScheduleObj (f a (so_row s)) (so_crontab s) (so_saved s)).
Definition schedule_setters `{Cron} : setters schedule_obj :=
  [("user_code", schedule_column str_value set_sc_user_code); ("name", schedule_column str_value set_sc_name);
   ("space", schedule_column key_value set_sc_space); ("owner", schedule_column key_value set_sc_owner);
   ("payload", schedule_column Ok set_sc_payload);
   ("crontab_line", λ v s, line ← str_value v; set_crontab_line line s);
   ("is_manager", schedule_column bool_value set_sc_is_manager);
   ("workflow_user_code", schedule_column str_value set_sc_workflow_user_code);
   ("notes", schedule_column null_str set_sc_notes); ("enabled", schedule_column bool_value set_sc_enabled)].

(** ** Reading attributes *)

Definition opt_int (o : option Z) : pyval := match o with Some i => PInt i | None => PNone end.
(** The fields that show a column, or a property of the columns; the codec of
    the property may raise. *)
Definition readers (R : Type) : Type := list (string * (R → res pyval)).
Definition shows {R} (f : R → pyval) : R → res pyval := λ r, Ok (f r).

Definition template_readers : readers template_row :=
  [("id", shows (λ r, PInt (wt_id r))); ("name", shows (λ r, opt_str (wt_name r)));
   ("user_code", shows (λ r, opt_str (wt_user_code r))); ("notes", shows (λ r, opt_str (wt_notes r)));
   ("created_at", shows (λ r, PInt (wt_created_at r))); ("modified_at", shows (λ r, PInt (wt_modified_at r)));
   ("data", shows wt_data)].
Definition workflow_readers : readers workflow_row :=
  [("id", shows (λ r, PInt (wf_id r))); ("name", shows (λ r, opt_str (wf_name r)));
   ("user_code", shows (λ r, opt_str (wf_user_code r))); ("owner", shows (λ r, PInt (wf_owner r)));
   ("node_id", shows (λ r, opt_str (wf_node_id r)));
   ("current_node_id", shows (λ r, opt_str (wf_current_node_id r)));
   ("status", shows (λ r, PStr (wf_status_str (wf_status_ r))));
   ("workflow_template", shows (λ r, opt_int (wf_template r))); ("payload", shows wf_payload);
   ("created_at", shows (λ r, PInt (wf_created_at r))); ("modified_at", shows (λ r, PInt (wf_modified_at r)));
   ("periodic", shows (λ r, PBool (wf_periodic r))); ("finished_at", shows (λ r, opt_int (wf_finished_at r)));
   ("is_manager", shows (λ r, PBool (wf_is_manager r)))].
(** [TaskSerializer.to_representation] changes the name of the worker. *)
Definition task_readers : readers task_row :=
  [("id", shows (λ r, PInt (tk_id r))); ("name", shows (λ r, opt_str (tk_name r)));
   ("source_code", shows (λ r, opt_str (tk_source_code r))); ("node_id", shows (λ r, opt_str (tk_node_id r)));
   ("workflow", shows (λ r, PInt (tk_workflow r)));
   ("status", shows (λ r, PStr (task_status_str (tk_status r))));
   ("celery_task_id", shows (λ r, opt_str (tk_celery_task_id r))); ("previous", tk_previous);
   ("is_hook", shows (λ r, PBool (tk_is_hook r))); ("payload", tk_payload); ("result", tk_result);
   ("progress", tk_progress); ("created_at", shows (λ r, PInt (tk_created_at r)));
   ("modified_at", shows (λ r, PInt (tk_modified_at r))); ("log", shows (λ r, opt_str (tk_log r)));
   ("worker_name", shows (λ r, opt_str (shown_worker_name (tk_worker_name r))));
   ("error_message", shows (λ r, opt_str (tk_error_message r)));
   ("finished_at", shows (λ r, opt_int (tk_finished_at r)))].
Definition schedule_readers : readers schedule_obj :=
  [("id", shows (λ s, PInt (sc_id (so_row s)))); ("user_code", shows (λ s, PStr (sc_user_code (so_row s))));
   ("name", shows (λ s, PStr (sc_name (so_row s)))); ("created_at", shows (λ s, PInt (sc_created_at (so_row s))));
   ("modified_at", shows (λ s, PInt (sc_modified_at (so_row s)))); ("payload", shows (λ s, sc_payload (so_row s)));
   ("crontab_line", shows (λ s, opt_str (crontab_line (so_crontab s))));
   ("is_manager", shows (λ s, PBool (sc_is_manager (so_row s))));
   ("workflow_user_code", shows (λ s, PStr (sc_workflow_user_code (so_row s))));
   ("notes", shows (λ s, opt_str (sc_notes (so_row s)))); ("last_run_at", shows (λ s, opt_int (sc_last_run_at (so_row s))));
   ("enabled", shows (λ s, PBool (sc_enabled (so_row s)))); ("owner_id", shows (λ s, PInt (sc_owner (so_row s))))].

(** The fields that follow a relation *)
Definition relations (O : Type) : Type := list (string * (O → M pyval)).

Definition shown_kind (k : field_kind) : bool :=
  match k with ReadOnly | Writable => true | HiddenSpace | HiddenOwner => false end.
Definition attribute {O} (cols : readers O) (rels : relations O) (o : O) (name : string) : M pyval :=
  match dict_get cols name with
  | Some f => lift (f o)
  | None => match dict_get rels name with Some f => f o | None => raise AttributeError end
  end.
(** [Serializer.to_representation] *)
Definition to_representation {O} (ser : serializer) (cols : readers O) (rels : relations O) (o : O) : M pyval :=
  items ← map_each (List.filter (λ f, shown_kind f.2) ser)
    (λ f, v ← attribute cols rels o f.1; mret (f.1, v));
  mret (PDict items).

(** A nested serializer of a nullable relation *)
Definition nested_object {R} `{Model R} (repr : R → M pyval) (key : option Z) : M pyval :=
  o ← fetch_fk key; match o with Some r => repr r | None => mret PNone end.
Definition template_representation : template_row → M pyval :=
  to_representation WorkflowTemplateSerializer template_readers [].
Definition task_object_representation : task_row → M pyval :=
  to_representation TaskSerializer task_readers [].
Definition simple_relations : relations workflow_row :=
  [("workflow_template_object", λ wf, nested_object template_representation (wf_template wf));
   ("tasks", λ wf, ts ← tasks_of wf; l ← map_each ts task_object_representation; mret (PList l))].
Definition simple_representation : workflow_row → M pyval :=
  to_representation SimpleWorkflowSerializer workflow_readers simple_relations.
Definition workflow_relations : relations workflow_row :=
  simple_relations ++
  [("parent", λ wf, nested_object simple_representation (wf_parent wf));
   ("workflow_version", λ wf, wt ← fetch_fk (wf_template wf); n ← lift (get_workflow_version wt); mret (PInt n))].
Definition schedule_relations `{Cron} : relations schedule_obj :=
  [("next_run_at", λ s, n ← get_next_run_at s; mret (opt_int n));
   ("owner_username", λ s, n ← get_owner_username (so_row s); mret (PStr n))].

(** ** The generic view sets *)

(** [template.delete()] takes its workflows with it, and their tasks. *)
Definition delete_template (wt : template_row) : M unit :=
  wfs ← objects_filter (λ wf : workflow_row, bool_decide (wf_template wf = Some (wt_id wt)));
  _ ← for_each wfs delete_workflow;
  delete_rows (λ r : template_row, wt_id r =? wt_id wt).
(** [save] of a task that has a primary key *)
Definition save_task (t : task_row) : M task_row :=
  match tk_space t with Some _ => save_row t | None => raise IntegrityError end.
(** A schedule and its crontab ([select_related("owner", "crontab")]) *)
Definition get_schedule (pk : Z) : M schedule_obj :=
  r ← get_object pk; c ← fetch_fk (sc_crontab r); mret (ScheduleObj r c true).

Section Resources.
Context `{Platform} `{RawStorage} `{Crypto} `{Cron} `{Validation} (key : option string).

(** What the generic views need of a resource *)
Record model_view (O : Type) : Type := ModelView {
  mv_resource : resource;
  mv_setters : setters O;
  mv_readers : readers O;
  mv_relations : relations O;
  mv_new : O;
  mv_find : Z → M O;
  mv_create : O → ST (world * store) O;
  mv_update : O → O → ST (world * store) O;
  mv_delete : O → M unit
}.
Arguments mv_resource {O}.
Arguments mv_setters {O}.
Arguments mv_readers {O}.
Arguments mv_relations {O}.
Arguments mv_new {O}.
Arguments mv_find {O}.
Arguments mv_create {O}.
Arguments mv_update {O}.
Arguments mv_delete {O}.

(** [WorkflowTemplateViewSet], [WorkflowViewSet], [TaskViewSet] and
    [ScheduleViewSet]; the new object has the defaults of its model. *)
Definition WorkflowTemplateViewSet : model_view template_row := {|
  mv_resource := RTemplate; mv_setters := template_setters;
  mv_readers := template_readers; mv_relations := [];
  mv_new := TemplateRow 0 None None None PNone 0 0 0 0;
  mv_find := get_object;
  mv_create := create_template key;
  mv_update := λ o o', update_template key (λ _, o') o;
  mv_delete := delete_template |}.
Definition WorkflowViewSet : model_view workflow_row := {|
  mv_resource := RWorkflow; mv_setters := workflow_setters;
  mv_readers := workflow_readers; mv_relations := workflow_relations;
  mv_new := new_workflow_row 0 0 None None None false None None None;
  mv_find := get_object;
  mv_create := λ o, on_world (create_workflow o);
  mv_update := λ _ o', on_world (save_workflow o');
  mv_delete := delete_workflow |}.
Definition TaskViewSet : model_view task_row := {|
  mv_resource := RTask; mv_setters := task_setters;
  mv_readers := task_readers; mv_relations := [];
  mv_new := set_tk_celery_task_id None (new_task_row "" None 0 None None false);
  mv_find := get_object;
  mv_create := λ o, on_world (insert_task o);
  mv_update := λ _ o', on_world (save_task o');
  mv_delete := λ o, delete_rows (λ r : task_row, tk_id r =? tk_id o) |}.
Definition ScheduleViewSet : model_view schedule_obj := {|
  mv_resource := RSchedule; mv_setters := schedule_setters;
  mv_readers := schedule_readers; mv_relations := schedule_relations;
  mv_new := ScheduleObj (ScheduleRow 0 "" "" None PNone false 0 0 "" None true None "" "[]" "{}" None 0 0) None false;
  mv_find := get_schedule;
  mv_create := λ o, on_world (save_schedule o);
  mv_update := λ _ o', on_world (save_schedule o');
  mv_delete := λ o, delete_rows (λ r : schedule_row, sc_id r =? sc_id (so_row o)) |}.

(** The default of a hidden field *)
Definition hidden_default (user : user_row) (k : field_kind) : M (option pyval) :=
  match k with
  | HiddenSpace =>
      sp ← current_space_default;
      mret (Some (match sp with Some s => PInt (sp_id s) | None => PNone end))
  | HiddenOwner => mret (Some (PInt (us_id (current_owner_default user))))
  | ReadOnly | Writable => mret None
  end.
Fixpoint hidden_values (user : user_row) (ser : serializer) : M (list (string * pyval)) :=
  match ser with
  | [] => mret []
  | f :: ser' =>
      v ← hidden_default user f.2;
      vs ← hidden_values user ser';
      mret (match v with Some v => (f.1, v) :: vs | None => vs end)
  end.
(** [serializer.validated_data]: a partial update leaves the hidden fields. *)
Definition validated_data (r : resource) (user : user_row) (pk : option Z) (partial : bool) (data : pyval)
    : M (list (string * pyval)) :=
  vs ← run_validation r pk partial data;
  hidden ← (if partial then mret [] else hidden_values user (serializer_class r));
  mret (vs ++ hidden).

Section Generic.
Context {O : Type} (mv : model_view O).

Definition representation (o : O) : M pyval :=
  to_representation (serializer_class (mv_resource mv)) (mv_readers mv) (mv_relations mv) o.
(** [CreateModelMixin.create] *)
Definition api_create (user : user_row) (data : pyval) : ST (world * store) view_response :=
  vs ← on_world (validated_data (mv_resource mv) user None false data);
  o ← lift (set_attributes (mv_setters mv) vs (mv_new mv));
  o ← mv_create mv o;
  d ← on_world (representation o);
  mret (Resp 201 d).
(** [RetrieveModelMixin.retrieve] *)
Definition api_retrieve (pk : Z) : ST (world * store) view_response :=
  o ← on_world (mv_find mv pk);
  d ← on_world (representation o);
  mret (Resp 200 d).
(** [UpdateModelMixin.update] and [partial_update] *)
Definition api_update (user : user_row) (partial : bool) (pk : Z) (data : pyval)
    : ST (world * store) view_response :=
  o ← on_world (mv_find mv pk);
  vs ← on_world (validated_data (mv_resource mv) user (Some pk) partial data);
  o' ← lift (set_attributes (mv_setters mv) vs o);
  o' ← mv_update mv o o';
  d ← on_world (representation o');
  mret (Resp 200 d).
(** [DestroyModelMixin.destroy] *)
Definition api_destroy (pk : Z) : ST (world * store) view_response :=
  o ← on_world (mv_find mv pk);
  _ ← on_world (mv_delete mv o);
  mret (Resp 204 PNone).
End Generic.

(** The requests to a view set *)
Inductive edit : Type :=
  | Create (data : pyval)
  | Retrieve (pk : Z)
  | Update (partial : bool) (pk : Z) (data : pyval)
  | Destroy (pk : Z).
Definition run_edit {O} (mv : model_view O) (user : user_row) (e : edit) : ST (world * store) view_response :=
  match e with
  | Create data => api_create mv user data
  | Retrieve pk => api_retrieve mv pk
  | Update partial pk data => api_update mv user partial pk data
  | Destroy pk => api_destroy mv pk
  end.
Definition api (r : resource) (user : user_row) (e : edit) : ST (world * store) view_response :=
  match r with
  | RTemplate => run_edit WorkflowTemplateViewSet user e
  | RWorkflow => run_edit WorkflowViewSet user e
  | RTask => run_edit TaskViewSet user e
  | RSchedule => run_edit ScheduleViewSet user e
  end.
End Resources.
Arguments model_view {_} O.
Arguments mv_resource {_ O}.
Arguments mv_setters {_ O}.
Arguments mv_readers {_ O}.
Arguments mv_relations {_ O}.
Arguments mv_new {_ O}.
Arguments mv_find {_ O}.
Arguments mv_create {_ O}.
Arguments mv_update {_ O}.
Arguments mv_delete {_ O}.

(** ** What a client reads back *)

(** The value a field shows after it was set to [v] *)
Definition shown_value (r : resource) (name : string) (v : pyval) : pyval :=
  match r with
  | RTask =>
      if bool_decide (name ∈ ["payload"; "result"; "progress"; "previous"]) then sort_val v
      else if String.eqb name "worker_name"
      then match v with PStr s => opt_str (shown_worker_name (Some s)) | _ => v end
      else v
  | RWorkflow =>
      if String.eqb name "payload" then (if truthy v then sort_val v else PDict []) else v
  | RTemplate | RSchedule => v
  end.

(** What setting an attribute does to the fields *)
Record FieldLaws {O} (r : resource) (l : setters O) (cols : readers O) : Prop := {
  fl_shown n f v o o' g : dict_get l n = Some f → f v o = Ok o' → dict_get cols n = Some g →
    wf_val v = true → g o' = Ok (shown_value r n v);
  fl_frame n f v o o' n' g : dict_get l n = Some f → f v o = Ok o' → n' ≠ n → n' ≠ "owner_id" →
    dict_get cols n' = Some g → g o' = g o;
  fl_writable n : (n, Writable) ∈ serializer_class r → dict_get l n ≠ None;
  fl_listed n g : dict_get cols n = Some g → n ∈ dict_keys (serializer_class r) ∧
    ∀ k, (n, k) ∈ serializer_class r → shown_kind k = true
}.
(** The names of a serializer's fields are distinct. *)
Lemma serializer_names r : NoDup (dict_keys (serializer_class r)).
Proof. by destruct r; apply (bool_decide_unpack _). Qed.

(** [by_key H] splits a lookup in a dictionary that is written out. *)
Lemma dict_get_cons {V} k (v : V) d n f : dict_get ((k, v) :: d) n = Some f →
  (n = k ∧ f = v) ∨ (n ≠ k ∧ dict_get d n = Some f).
Proof.
  cbn [dict_get]. case_decide as E; [intros [= ->]; by left|intros H; right]. by split; [intros ->|].
Qed.
Ltac by_key H :=
  repeat match type of H with
  | dict_get [] _ = Some _ => discriminate H
  | dict_get (_ :: _) _ = Some _ =>
      let E := fresh "E" in apply dict_get_cons in H as [[E H]|[E H]]; [subst|]
  end.

Lemma choice_value_inv {A} (choices : list A) (str : A → string) v a :
  choice_value choices str v = Ok a → v = PStr (str a).
Proof.
  destruct v; try done. cbn. destruct (List.find _ _) as [b|] eqn:E; [|done]. intros [= <-].
  apply find_some in E as [_ E]. by apply String.eqb_eq in E as <-.
Qed.
Lemma column_inv {A R} (value : pyval → res A) (f : A → R → R) v r r' :
  column value f v r = Ok r' → ∃ a, value v = Ok a ∧ r' = f a r.
Proof. unfold column. destruct (value v) as [a|]; [|done]. intros [= <-]. eauto. Qed.
Lemma str_value_inv v a : str_value v = Ok a → v = PStr a.
Proof. destruct v; try done. by intros [= ->]. Qed.
Lemma null_str_inv v a : null_str v = Ok a → v = opt_str a.
Proof. destruct v; try done; by intros [= <-]. Qed.
Lemma bool_value_inv v a : bool_value v = Ok a → v = PBool a.
Proof. destruct v; try done; by intros [= <-]. Qed.
Lemma key_value_inv v a : key_value v = Ok a → v = PInt a.
Proof. destruct v; try done; by intros [= <-]. Qed.
Lemma null_int_inv v a : null_int v = Ok a → v = opt_int a.
Proof. destruct v; try done; by intros [= <-]. Qed.
Ltac value_inv H :=
  first [ apply str_value_inv in H | apply null_str_inv in H | apply bool_value_inv in H
        | apply key_value_inv in H | apply null_int_inv in H | apply choice_value_inv in H
        | injection H as <- ].
Ltac setter_inv H :=
  let a := fresh "a" in let Ha := fresh "Ha" in
  unfold schedule_column in H; apply column_inv in H as (a & Ha & ->); value_inv Ha.

Lemma set_line_inv `{Cron} v (s s' : schedule_obj) : (line ← str_value v; set_crontab_line line s) = Ok s' →
  ∃ c, s' = ScheduleObj (so_row s) c (so_saved s) ∧ v = opt_str (crontab_line c).
Proof.
  destruct v; try done. cbn. intros Hs. pose proof (proj1 (crontab_line_roundtrip s) _ _ Hs) as Hl.
  unfold set_crontab_line in Hs. destruct (split _ _) as [|? [|? [|? [|? [|? [|]]]]]]; try done.
  destruct (crontab_valid _ _ _ _ _); [|done]. injection Hs as <-. eexists. split; [done|]. cbn [so_crontab] in Hl. by rewrite Hl.
Qed.
(** The two cases of the laws, one setter at a time *)
Ltac setter H :=
  first [ setter_inv H
        | let c := fresh "c" in apply set_line_inv in H as (c & -> & ->) ].
Ltac shown_case Hf Hs Hg Hv :=
  by_key Hf; setter Hs; try subst; try discriminate Hg; injection Hg as <-;
  first [ reflexivity
        | match goal with a : option string |- _ => by destruct a end
        | apply json_column_roundtrip, Hv
        | apply (f_equal Ok), workflow_payload_roundtrip, Hv ].
Ltac frame_case Hf Hs Hg :=
  by_key Hf; setter Hs; try subst; by_key Hg; congruence || reflexivity.
Ltac writable_case H :=
  repeat (apply elem_of_cons in H as [H|H]; [discriminate H || (injection H as ->; done)|]);
  by apply elem_of_nil in H.
Lemma listed_names (names : list string) (ser : serializer) :
  forallb (λ n, bool_decide (n ∈ dict_keys ser) && forallb (λ f, negb (String.eqb f.1 n) || shown_kind f.2) ser) names
    = true →
  ∀ n, n ∈ names → n ∈ dict_keys ser ∧ ∀ k, (n, k) ∈ ser → shown_kind k = true.
Proof.
  rewrite forallb_forall. intros Ha n Hn. apply list_elem_of_In, Ha in Hn. apply andb_true_iff in Hn as [H1 H2].
  apply bool_decide_eq_true in H1. split; [done|]. rewrite forallb_forall in H2. intros k Hk.
  apply list_elem_of_In, H2 in Hk. cbn in Hk. by rewrite String.eqb_refl in Hk.
Qed.
Ltac listed_case H := apply dict_get_Some_keys in H; revert H; by apply listed_names.

Lemma template_fields : FieldLaws RTemplate template_setters template_readers.
Proof.
  split; unfold template_setters, template_readers.
  - intros n f v o o' g Hf Hs Hg Hv. shown_case Hf Hs Hg Hv.
  - intros n f v o o' n' g Hf Hs Hn Hid Hg. frame_case Hf Hs Hg.
  - intros n Hn. writable_case Hn.
  - intros n g Hg. listed_case Hg.
Qed.
Lemma workflow_fields : FieldLaws RWorkflow workflow_setters workflow_readers.
Proof.
  split; unfold workflow_setters, workflow_readers.
  - intros n f v o o' g Hf Hs Hg Hv. shown_case Hf Hs Hg Hv.
  - intros n f v o o' n' g Hf Hs Hn Hid Hg. frame_case Hf Hs Hg.
  - intros n Hn. writable_case Hn.
  - intros n g Hg. listed_case Hg.
Qed.
Lemma task_fields_ : FieldLaws RTask task_setters task_readers.
Proof.
  split; unfold task_setters, task_readers.
  - intros n f v o o' g Hf Hs Hg Hv. shown_case Hf Hs Hg Hv.
  - intros n f v o o' n' g Hf Hs Hn Hid Hg. frame_case Hf Hs Hg.
  - intros n Hn. writable_case Hn.
  - intros n g Hg. listed_case Hg.
Qed.
Lemma schedule_fields `{Cron} : FieldLaws RSchedule schedule_setters schedule_readers.
Proof.
  split; unfold schedule_setters, schedule_readers.
  - intros n f v o o' g Hf Hs Hg Hv. shown_case Hf Hs Hg Hv.
  - intros n f v o o' n' g Hf Hs Hn Hid Hg. frame_case Hf Hs Hg.
  - intros n Hn. writable_case Hn.
  - intros n g Hg. listed_case Hg.
Qed.
