(* ===== verification/Edited.v ===== *)
(** * What edits leave behind (workflow/serializers.py, workflow/views.py)

    What a client reads after it changed an object, what a request to the model
    view sets can touch, and the references between the tables. *)
From Stdlib Require Import Ascii String.
From stdpp Require Import base list strings numbers gmap sets.
From S2P Require Import Prelude PyStr PyVal Json Paths World Demo Graph Finmars Models Manager System.
From S2P Require Import Builder Launch Tasks Engine Views Monitoring Storage Serializers Editing Fixture.
Local Open Scope string_scope.
Local Open Scope Z_scope.
Local Open Scope list_scope.

(** ** Setting the validated attributes *)

Section Attributes.
Context {O : Type} (r : resource) (l : setters O) (cols : readers O) (L : FieldLaws r l cols).

Lemma setattr_frame n g k v o o' : dict_get cols n = Some g → n ≠ "owner_id" → k ≠ n →
  setattr l o (k, v) = Ok o' → g o' = g o.
Proof using L.
  intros Hg Hid Hk. unfold setattr. cbn. destruct (dict_get l k) as [f|] eqn:Hf; [|by intros [= ->]].
  intros Hs. by eapply (fl_frame _ _ _ L).
Qed.
Lemma set_attributes_frame n g vs : ∀ o o', dict_get cols n = Some g → n ≠ "owner_id" →
  set_attributes l vs o = Ok o' → n ∉ dict_keys vs → g o' = g o.
Proof using L.
  induction vs as [|[k v] vs IH]; intros o o' Hg Hid Hs Hn; [by injection Hs as ->|].
  unfold set_attributes in Hs. cbn [fold_res] in Hs. destruct (setattr l o (k, v)) as [o1|] eqn:H1; [|done].
  apply not_elem_of_cons in Hn as [Hk Hn]. rewrite (IH o1 o') by done.
  eapply setattr_frame; [done|done| |exact H1]. by intros ->.
Qed.
Lemma set_attributes_shown n g vs v : ∀ o o', dict_get cols n = Some g → n ≠ "owner_id" →
  (n, Writable) ∈ serializer_class r → NoDup (dict_keys vs) → wf_val v = true →
  set_attributes l vs o = Ok o' → dict_get vs n = Some v → g o' = Ok (shown_value r n v).
Proof using L.
  induction vs as [|[k u] vs IH]; intros o o' Hg Hid Hw Hnd Hv Hs Hn; [done|].
  unfold set_attributes in Hs. cbn [fold_res] in Hs. destruct (setattr l o (k, u)) as [o1|] eqn:H1; [|done].
  apply NoDup_cons in Hnd as [Hk Hnd]. apply dict_get_cons in Hn as [[-> ->]|[Hne Hn]]; [|by eapply IH].
  rewrite (set_attributes_frame k g vs o1 o') by done. unfold setattr in H1. cbn in H1.
  pose proof (fl_writable _ _ _ L k Hw) as Hf. destruct (dict_get l k) as [f|] eqn:Hl; [|done].
  by eapply (fl_shown _ _ _ L).
Qed.
End Attributes.

(** ** Representations *)

Lemma map_each_shown {O} (cols : readers O) (rels : relations O) (o : O) n g ser : ∀ w w' items,
  dict_get cols n = Some g → n ∈ dict_keys ser →
  map_each ser (λ f : string * field_kind, v ← attribute cols rels o f.1; mret (f.1, v)) w = (Ok items, w') →
  ∃ v, g o = Ok v ∧ dict_get items n = Some v.
Proof.
  induction ser as [|[k kind] ser IH]; intros w w' items Hg Hn Hm; [by apply elem_of_nil in Hn|].
  cbn [map_each] in Hm. apply bind_inv in Hm as (kv & w1 & H1 & Hm). apply bind_inv in H1 as (v & w0 & Ha & [= <- <-]).
  apply bind_inv in Hm as (items' & w2 & H2 & [= <- <-]). cbn [fst] in *.
  destruct (decide (k = n)) as [->|Hne].
  - exists v. unfold attribute in Ha. rewrite Hg in Ha. injection Ha as Ha _.
    split; [done|]. cbn. by rewrite decide_True.
  - apply elem_of_cons in Hn as [->|Hn]; [done|]. destruct (IH _ _ _ Hg Hn H2) as (v' & Hv & Hd).
    exists v'. split; [done|]. cbn. by rewrite decide_False.
Qed.
Lemma representation_shows {O} ser (cols : readers O) rels o w d w' n g kind :
  to_representation ser cols rels o w = (Ok d, w') → dict_get cols n = Some g →
  (n, kind) ∈ ser → shown_kind kind = true → ∃ v, g o = Ok v ∧ getitem d n = Ok v.
Proof.
  intros Hr Hg Hs Hk. apply bind_inv in Hr as (items & w1 & Hm & [= <- <-]).
  assert (n ∈ dict_keys (List.filter (λ f : string * field_kind, shown_kind f.2) ser)) as Hin.
  { apply list_elem_of_fmap. exists (n, kind). split; [done|].
    rewrite list_elem_of_In, filter_In, <- list_elem_of_In. done. }
  destruct (map_each_shown _ _ _ _ _ _ _ _ _ Hg Hin Hm) as (v & Hv & Hd).
  exists v. split; [done|]. by apply getitem_ok.
Qed.

(** ** Finding a saved object again *)

Lemma get_object_inv {R} `{Model R} pk w (o : R) w' : get_object pk w = (Ok o, w') → get_by_id pk w = (Ok o, w').
Proof.
  unfold get_object. intros E. apply try_inv in E as [E|(e & w1 & _ & E)]; [done|]. by destruct e.
Qed.
Lemma get_object_reads {R} `{Model R} pk w : (get_object (R:=R) pk w).2 = w.
Proof.
  unfold get_object, get_by_id, objects_get, objects_filter, current_tenant, try_except, mbind, ST_bind.
  destruct (w_tenants w !! w_path w) as [t|]; [|done]. cbn. by destruct (ordered _) as [|? [|]].
Qed.

(** [get] succeeds for one row only. *)
Lemma get_unique {R} `{ModelOk R} (P : R → bool) w r w' t r2 : objects_get P w = (Ok r, w') → cur w = Some t →
  r2 ∈ rows (get_table t) → P r2 = true → r2 = r.
Proof.
  intros Hg Hw Hin HP. unfold objects_get in Hg. rewrite (bind_ok _ _ _ _ _ (filter_run P w t Hw)) in Hg.
  assert (r2 ∈ ordered (List.filter P (rows (get_table t)))) as Hf.
  { apply list_elem_of_In in Hin. unfold ordered.
    destruct newest_first; apply list_elem_of_In; rewrite <- ?in_rev; by apply filter_In. }
  destruct (ordered _) as [|x [|]]; try done. injection Hg as -> _.
  by apply list_elem_of_singleton in Hf.
Qed.

(** The row [get] finds after a save is the one that was saved. *)
Lemma saved_found_in {R} `{ModelOk R} (o' o2 o3 : R) w w1 w2 w3 t : cur w = Some t →
  existsb (λ r, row_id r =? row_id o') (rows (get_table t)) = true →
  save_row o' w = (Ok o2, w1) → (get_table <$> cur w2) = (get_table <$> cur w1) →
  get_by_id (row_id o') w2 = (Ok o3, w3) → o3 = o2 ∧ o2 = with_modified (w_clock w) o'.
Proof.
  intros Hw He Hs Hc Hf. rewrite (save_run o' w t Hw) in Hs. injection Hs as <- <-. split; [|done].
  destruct (get_inv _ _ _ _ Hf) as (_ & t2 & Hw2 & Hin2 & Hp2). apply Z.eqb_eq in Hp2.
  rewrite Hw2, cur_with_tenant in Hc. injection Hc as Hc. rewrite Hc, get_put in Hin2. cbn [rows] in Hin2.
  rewrite write_row_present, id_with_modified in Hin2 by by rewrite id_with_modified.
  apply list_elem_of_fmap in Hin2 as (r & -> & _).
  destruct (row_id r =? row_id o') eqn:E; [done|]. by apply Z.eqb_neq in E.
Qed.
Lemma saved_found {R} `{ModelOk R} (o o' o2 o3 : R) pk w w1 w2 w3 :
  get_by_id pk w = (Ok o, w) → row_id o' = row_id o → save_row o' w = (Ok o2, w1) → cur w2 = cur w1 →
  get_by_id pk w2 = (Ok o3, w3) → o3 = o2 ∧ o2 = with_modified (w_clock w) o'.
Proof.
  intros Hg Hid Hs Hc. destruct (get_inv _ _ _ _ Hg) as (_ & t & Hw & Hin & Hp). apply Z.eqb_eq in Hp.
  rewrite <- Hp, <- Hid. apply (saved_found_in o' o2 o3 w w1 w2 w3 t Hw); [|done|by rewrite Hc].
  apply existsb_exists. exists o. split; [by apply list_elem_of_In|]. by rewrite Hid, Z.eqb_refl.
Qed.

Section Saving.
Context `{Platform} `{RawStorage} `{Crypto} `{Cron} `{Validation} (key : option string).

(** What the views of a resource promise: an update saves the columns it was
    given, and the object is found again; [kept] says that an object is still the
    same one. *)
Record SaveLaws {O} (mv : model_view O) (kept : O → O → Prop) : Prop := {
  sv_kept_refl o : kept o o;
  sv_kept_trans o1 o2 o3 : kept o1 o2 → kept o2 o3 → kept o1 o3;
  sv_set n f v o o' : dict_get (mv_setters mv) n = Some f → f v o = Ok o' → kept o o';
  sv_fields : FieldLaws (mv_resource mv) (mv_setters mv) (mv_readers mv);
  sv_reads pk w : (mv_find mv pk w).2 = w;
  sv_update pk o o' w st o2 w1 st1 : mv_find mv pk w = (Ok o, w) →
    kept o o' →
    mv_update mv o o' (w, st) = (Ok o2, (w1, st1)) →
    (∀ n g, dict_get (mv_readers mv) n = Some g → n ≠ "modified_at" →
       g o2 = g o' ∨ (mv_resource mv = RSchedule ∧ n = "name" ∧ g o' = Ok (PStr ""))) ∧
    (∀ w2 o3 w3, cur w2 = cur w1 → mv_find mv pk w2 = (Ok o3, w3) → o3 = o2)
}.

Lemma on_world_inv {A} (m : M A) (w : world) (st : store) a s : on_world m (w, st) = (Ok a, s) →
  ∃ w', m w = (Ok a, w') ∧ s = (w', st).
Proof. unfold on_world. cbn. destruct (m w) as [r w']. intros [= -> <-]. eauto. Qed.

Lemma get_space_reads w : (get_space w).2 = w.
Proof.
  unfold get_space, objects_filter, current_tenant, mbind, ST_bind. by destruct (w_tenants w !! w_path w) as [t|].
Qed.
Lemma save_to_storage_world i w st : (save_to_storage key i (w, st)).2.1 = w.
Proof.
  unfold save_to_storage, mbind, ST_bind, lift, on_world, on_store.
  destruct (wt_user_code i); [|done]. destruct (template_path _); [|done]. cbn [fst].
  pose proof (get_space_reads w) as Hg. destruct (get_space w) as [[sp|] w0]; cbn [fst snd] in *; [|done].
  destruct (storage_save_text _ _ _ _ _) as [[] ?]; done.
Qed.

Definition same_row {R} `{Model R} (o o' : R) : Prop := row_id o' = row_id o.
Ltac same_case Hf Hs :=
  unfold WorkflowTemplateViewSet, WorkflowViewSet, TaskViewSet, ScheduleViewSet, mv_setters, template_setters,
    workflow_setters, task_setters, schedule_setters in Hf;
  by_key Hf; setter Hs; done.

Lemma template_saves : SaveLaws (WorkflowTemplateViewSet key) same_row.
Proof.
  split; [done|unfold same_row; congruence| |exact template_fields|intros; apply get_object_reads|].
  { intros n f v o o' Hf Hs. cbn [mv_setters] in Hf. same_case Hf Hs. }
  intros pk o o' w st o2 w1 st1 Hf Hid Hu.
  apply bind_inv in Hu as (o1 & s1 & E1 & Hu). apply on_world_inv in E1 as (w0 & E1 & ->).
  apply bind_inv in Hu as ([] & s2 & E2 & [= <- ->]).
  pose proof (save_to_storage_world o1 w0 st) as Hw. rewrite E2 in Hw. cbn in Hw. subst w0.
  apply get_object_inv in Hf. split.
  - intros n g Hg Hn. left. destruct (get_inv _ _ _ _ Hf) as (_ & t & Hw & _).
    rewrite (save_run o' w t Hw) in E1. injection E1 as <- _. clear -Hg Hn.
    unfold WorkflowTemplateViewSet, mv_readers, template_readers in Hg. by_key Hg; done.
  - intros w2 o3 w3 Hc E3. apply get_object_inv in E3. by eapply saved_found.
Qed.
Lemma workflow_saves : SaveLaws WorkflowViewSet same_row.
Proof.
  split; [done|unfold same_row; congruence| |exact workflow_fields|intros; apply get_object_reads|].
  { intros n f v o o' Hf Hs. cbn [mv_setters] in Hf. same_case Hf Hs. }
  intros pk o o' w st o2 w1 st1 Hf Hid Hu.
  apply on_world_inv in Hu as (w0 & E1 & [= <- <-]). apply get_object_inv in Hf.
  destruct (get_inv _ _ _ _ Hf) as (_ & t & Hw & _).
  destruct (save_workflow_spec o' w t Hw) as (w0 & Hs & Hc0 & _). rewrite Hs in E1. injection E1 as <- <-. split.
  - intros n g Hg Hn. left. clear -Hg Hn.
    unfold WorkflowViewSet, mv_readers, workflow_readers in Hg. by_key Hg; done.
  - intros w2 o3 w3 Hc E3. apply get_object_inv in E3. pose proof (save_run o' w t Hw) as Hr.
    eapply saved_found; [exact Hf|exact Hid|exact Hr| |exact E3].
    by rewrite Hc, Hc0, cur_with_tenant.
Qed.
Lemma task_saves : SaveLaws TaskViewSet same_row.
Proof.
  split; [done|unfold same_row; congruence| |exact task_fields_|intros; apply get_object_reads|].
  { intros n f v o o' Hf Hs. cbn [mv_setters] in Hf. same_case Hf Hs. }
  intros pk o o' w st o2 w1 st1 Hf Hid Hu.
  apply on_world_inv in Hu as (w0 & E1 & [= <- <-]). apply get_object_inv in Hf.
  unfold save_task in E1. destruct (tk_space o') eqn:Hsp; [|done]. split.
  - intros n g Hg Hn. left. destruct (get_inv _ _ _ _ Hf) as (_ & t & Hw & _).
    rewrite (save_run o' w t Hw) in E1. injection E1 as <- _. clear -Hg Hn.
    unfold TaskViewSet, mv_readers, task_readers in Hg. by_key Hg; done.
  - intros w2 o3 w3 Hc E3. apply get_object_inv in E3. by eapply saved_found.
Qed.

(** The crontab a save settles on *)
Lemma get_or_create_inv c c' w w1 : get_or_create_crontab c w = (Ok c', w1) →
  ∃ t t1, cur w = Some t ∧ cur w1 = Some t1 ∧ t1 = set_t_crontabs (t_crontabs t1) t ∧
    c' ∈ rows (t_crontabs t1) ∧ same_crontab c c' = true.
Proof.
  intros Hg. pose proof Hg as Hg'. unfold get_or_create_crontab in Hg'.
  apply bind_inv in Hg' as (l & w0 & Hl & Hg'). destruct (cur w) as [t|] eqn:Hw.
  2:{ unfold objects_filter, current_tenant, mbind, ST_bind in Hl. unfold cur in Hw. by rewrite Hw in Hl. }
  rewrite (filter_run (same_crontab c) w t Hw) in Hl. injection Hl as <- <-.
  destruct (get_or_create_run c w t Hw) as (c2 & w2 & t2 & E & H2' & H3' & H4').
  { unfold ordered in Hg'. cbn [newest_first crontab_model get_table] in Hg'.
    destruct (List.filter _ _) as [|? [|]]; cbn; [lia|lia|done]. }
  rewrite E in Hg. injection Hg as -> ->. by exists t, t2.
Qed.

Lemma named_shows code o : ∃ name q tk,
  named_schedule code o = set_sc_name name (set_sc_task tk (set_sc_queue q (so_row o))) ∧
  (sc_name (so_row o) ≠ "" → name = sc_name (so_row o)).
Proof.
  unfold named_schedule. cbn zeta. set (r := set_sc_task _ _). destruct (String.eqb_spec (sc_name r) "") as [E|E].
  - do 3 eexists. split; [reflexivity|]. intros Hn. by rewrite <- E in Hn.
  - exists (sc_name (so_row o)), (Some "workflow"), "workflow.tasks.workflows.execute". split; [|done].
    by subst r; destruct (so_row o).
Qed.
Lemma same_crontab_line c c' : same_crontab c c' = true → crontab_line (Some c') = crontab_line (Some c).
Proof.
  unfold same_crontab. rewrite !andb_true_iff, !String.eqb_eq. intros ((((H1' & H2') & H3') & H4') & H5').
  cbn. by rewrite H1', H2', H3', H4', H5'.
Qed.

(** Saving a schedule that has a row: the columns set, and nothing lost. *)
Lemma save_schedule_inv r c w o2 w1 : save_schedule (ScheduleObj r c true) w = (Ok o2, w1) →
  ∃ c0 c' r' wb, c = Some c0 ∧ get_or_create_crontab c0 w = (Ok c', wb) ∧
    (∃ q tk args kw name, r' = set_sc_kwargs kw (set_sc_crontab (Some (ct_id c')) (set_sc_args args
      (set_sc_name name (set_sc_task tk (set_sc_queue q r))))) ∧ (sc_name r ≠ "" → name = sc_name r)) ∧
    save_row r' wb = (Ok (so_row o2), w1) ∧ o2 = ScheduleObj (so_row o2) (Some c') true.
Proof.
  intros E. unfold save_schedule in E. cbn [so_row so_crontab so_saved] in E.
  apply bind_inv in E as (sp & wa & Hsp & E).
  destruct (named_shows (sp_space_code sp +:+ "." +:+ sc_workflow_user_code r) (ScheduleObj r c true))
    as (name & q & tk & Hr & Hn). rewrite Hr in E. cbn [so_row] in *.
  apply bind_inv in E as (c0 & w0 & Hc & E). destruct c as [c1|]; [|done]. injection Hc as <- <-.
  apply bind_inv in E as (c' & wb & Hc & E). apply bind_inv in E as (r2 & w2 & Hs & [= <- <-]).
  destruct (get_inv _ _ _ _ Hsp) as (-> & _).
  do 4 eexists. split; [done|]. split; [exact Hc|]. split; [|split; [exact Hs|done]].
  do 5 eexists. split; [reflexivity|exact Hn].
Qed.
Definition same_schedule (o o' : schedule_obj) : Prop :=
  sc_id (so_row o') = sc_id (so_row o) ∧ so_saved o' = so_saved o.
Lemma get_reads {R} `{ModelOk R} (P : R → bool) w : (objects_get P w).2 = w.
Proof.
  unfold objects_get, objects_filter, current_tenant, mbind, ST_bind.
  destruct (w_tenants w !! w_path w) as [t|]; [|done]. cbn. by destruct (ordered _) as [|? [|]].
Qed.
Lemma schedule_saves : SaveLaws ScheduleViewSet same_schedule.
Proof.
  split; [done|unfold same_schedule; intuition congruence| |exact schedule_fields| |].
  { intros n f v o o' Hf Hs. same_case Hf Hs. }
  { intros pk w. cbn [mv_find ScheduleViewSet]. unfold get_schedule, mbind, ST_bind.
    pose proof (get_object_reads (R:=schedule_row) pk w) as Hr. destruct (get_object pk w) as [[r|] w']; [|done].
    cbn in Hr. subst w'. destruct (sc_crontab r) as [i|]; [|done]. unfold fetch_fk, mbind, ST_bind.
    pose proof (get_reads (λ c : crontab_row, row_id c =? i) w) as Hc. unfold get_by_id.
    by destruct (objects_get _ w) as [[c|] w']. }
  intros pk o o' w st o2 w1 st1 Hf [Hid Hb] Hu.
  apply on_world_inv in Hu as (w0 & E1 & [= <- <-]). cbn [mv_find ScheduleViewSet] in *.
  apply bind_inv in Hf as (r0 & w0 & Hf & Hc). apply get_object_inv in Hf. destruct (get_inv _ _ _ _ Hf) as (-> & _).
  apply bind_inv in Hc as (c & w0 & Hc & [= <- ->]).
  destruct o' as [r' c0 b]. cbn [so_saved so_row] in *. subst b.
  destruct (save_schedule_inv _ _ _ _ _ E1) as (c1 & c' & r1 & wb & -> & Hg & (q & tk & args & kw & name & -> & Hn) & Hs & Ho2).
  destruct (get_or_create_inv _ _ _ _ Hg) as (t & t1 & Hw & Hw1 & Ht1 & Hin & Hsame).
  destruct (get_inv _ _ _ _ Hf) as (_ & t' & Hw' & Hin0 & Hp). rewrite Hw in Hw'. injection Hw' as <-.
  change (get_table t) with (t_schedules t) in Hin0. apply Z.eqb_eq in Hp. change (row_id r0) with (sc_id r0) in Hp.
  set (r1 := set_sc_kwargs _ _) in Hs.
  assert (existsb (λ r, row_id r =? row_id r1) (rows (t_schedules t1)) = true) as He.
  { apply existsb_exists. exists r0. split; [rewrite Ht1; by apply list_elem_of_In|]. apply Z.eqb_eq. by symmetry. }
  pose proof (save_run r1 wb t1 Hw1) as Hr. cbn zeta in Hr. pose proof Hs as Hs'. rewrite Hr in Hs'.
  injection Hs' as Hrow Hw1'. split.
  - intros n g Hg' Hn'. rewrite Ho2, <- Hrow. clear -Hg' Hn' Hn Hsame.
    unfold ScheduleViewSet, mv_readers, schedule_readers in Hg'.
    destruct (String.eqb_spec (sc_name r') "") as [Hname|Hname].
    + by_key Hg'; try (left; done); [right; by split_and!; [..|unfold shows; cbn; rewrite Hname]|].
      left. unfold shows. cbn [so_crontab]. by rewrite (same_crontab_line _ _ Hsame).
    + specialize (Hn Hname); subst name. by_key Hg'; left; try done. unfold shows. cbn [so_crontab].
      by rewrite (same_crontab_line _ _ Hsame).
  - intros w2 o3 w3 Hc2 E3. apply bind_inv in E3 as (r3 & w4 & Hf3 & E3). apply get_object_inv in Hf3.
    apply bind_inv in E3 as (c3 & w5 & Hc3 & [= <- <-]).
    rewrite <- Hp, <- Hid in Hf3. change (sc_id r') with (row_id r1) in Hf3.
    destruct (saved_found_in r1 (so_row o2) r3 wb w1 w2 w4 t1 Hw1 He Hs) as [-> Hr1]; [by rewrite Hc2|exact Hf3|].
    rewrite Ho2. f_equal. rewrite Hr1 in Hc3. apply bind_inv in Hc3 as (c4 & w6 & Hc4 & [= <- <-]).
    f_equal. symmetry. destruct (get_inv _ _ _ _ Hf3) as (-> & t3 & Hw3 & _).
    eapply (get_unique (R:=crontab_row)); [exact Hc4|exact Hw3| |apply Z.eqb_refl].
    rewrite <- Hw1' in Hc2. rewrite Hc2, cur_with_tenant in Hw3. injection Hw3 as <-. exact Hin.
Qed.
End Saving.
Arguments SaveLaws {_ O} _ _.
Arguments sv_kept_refl {_ O mv kept}.
Arguments sv_kept_trans {_ O mv kept}.
Arguments sv_set {_ O mv kept}.
Arguments sv_fields {_ O mv kept}.
Arguments sv_reads {_ O mv kept}.
Arguments sv_update {_ O mv kept}.

(** ** Updating, then reading *)

(** The fields that show columns *)
Definition column_fields (r : resource) : list string :=
  match r with
  | RTemplate => dict_keys template_readers
  | RWorkflow => dict_keys workflow_readers
  | RTask => dict_keys task_readers
  | RSchedule => dict_keys (schedule_readers)
  end.

Lemma filter_sublist {A} (P : A → bool) (l : list A) : List.filter P l `sublist_of` l.
Proof. induction l as [|x l IH]; [done|]. cbn. destruct (P x); by constructor. Qed.
Lemma dict_get_app {V} (d e : list (string * V)) n :
  dict_get (d ++ e) n = match dict_get d n with Some v => Some v | None => dict_get e n end.
Proof. induction d as [|[k v] d IH]; [done|]. cbn. by case_decide. Qed.

Section Reading.
Context `{Platform} `{RawStorage} `{Crypto} `{Cron} `{ValidationOk} (key : option string).

Lemma hidden_default_reads user k w : (hidden_default user k w).2 = w.
Proof using.
  destruct k; try done. unfold hidden_default, current_space_default, mbind, ST_bind.
  pose proof (get_space_reads w) as Hg. by destruct (get_space w) as [[sp|] w'].
Qed.
Lemma hidden_values_inv user ser : ∀ w hs w', hidden_values user ser w = (Ok hs, w') →
  w' = w ∧ dict_keys hs `sublist_of` dict_keys (List.filter (λ f, negb (shown_kind f.2)) ser).
Proof using.
  induction ser as [|[n k] ser IH]; intros w hs w' Hh; [by injection Hh as <- <-|].
  cbn [hidden_values] in Hh. apply bind_inv in Hh as (v & w1 & E1 & Hh).
  pose proof (hidden_default_reads user k w) as Hr. cbn [snd] in E1. rewrite E1 in Hr. cbn in Hr. subst w1.
  apply bind_inv in Hh as (vs & w1 & E2 & [= <- <-]). destruct (IH _ _ _ E2) as [-> Hs]. split; [done|].
  destruct k; cbn in E1 |- *; try (injection E1 as <-; done).
  - apply bind_inv in E1 as (sp & w1 & _ & [= <- _]). by apply sublist_skip.
  - injection E1 as <-. by apply sublist_skip.
Qed.
Lemma validated_data_inv r user pk partial data w vs w' : validated_data r user pk partial data w = (Ok vs, w') →
  w' = w ∧ NoDup (dict_keys vs) ∧
  ∀ n v, dict_get vs n = Some v → (∀ k, (n, k) ∈ serializer_class r → shown_kind k = true) →
    (n, Writable) ∈ serializer_class r ∧ wf_val v = true.
Proof.
  intros Hv. apply bind_inv in Hv as (vs0 & w1 & E1 & Hv). apply bind_inv in Hv as (hs & w2 & E2 & [= <- <-]).
  pose proof (validation_reads r pk partial data w) as Hr. rewrite E1 in Hr. cbn in Hr. subst w1.
  destruct (validation_dict r pk partial data w vs0) as (Hnd & Hj & Hw); [by rewrite E1|].
  assert (w2 = w ∧ dict_keys hs `sublist_of` dict_keys (List.filter (λ f, negb (shown_kind f.2)) (serializer_class r)))
    as [-> Hh].
  { destruct partial; [injection E2 as <- <-; split; [done|apply sublist_nil_l]|by eapply hidden_values_inv]. }
  assert (∀ n, n ∈ dict_keys hs → ∃ k, (n, k) ∈ serializer_class r ∧ shown_kind k = false) as Hk.
  { intros n Hn. apply (elem_of_sublist _ _ _ Hn) in Hh. apply list_elem_of_fmap in Hh as ([n' k] & -> & Hin).
    apply list_elem_of_In, filter_In in Hin as [Hin Hs]. exists k. split; [by apply list_elem_of_In|].
    by apply negb_true_iff. }
  split; [done|]. split.
  - unfold dict_keys. rewrite fmap_app. apply NoDup_app. split_and!; [done| |].
    + intros n Hn Hn'. destruct (Hk n Hn') as (k & Hin & Hs). apply Hw in Hn.
      pose proof (dict_elem_get _ _ _ (serializer_names r) Hin) as G1.
      rewrite (dict_elem_get _ _ _ (serializer_names r) Hn) in G1. by injection G1 as <-.
    + eapply sublist_NoDup; [|exact Hh]. eapply sublist_NoDup; [apply serializer_names|].
      apply fmap_sublist, filter_sublist.
  - intros n v Hn Hshown. destruct (dict_get vs0 n) as [u|] eqn:Hu.
    + assert (u = v) as ->. { rewrite dict_get_app, Hu in Hn. by injection Hn. }
      split; [apply Hw; by eapply dict_get_Some_keys|]. apply dict_get_elem in Hu.
      rewrite Forall_forall in Hj. exact (Hj _ Hu).
    + rewrite dict_get_app, Hu in Hn. destruct (Hk n) as (k & Hin & Hs); [by eapply dict_get_Some_keys|].
      by rewrite (Hshown _ Hin) in Hs.
Qed.

(** Representing an object writes nothing but the clock. *)
Definition Same_tables (t : option tenant) (w : world) : Prop := cur w = t.
Definition quiet {O} (rels : relations O) : Prop :=
  ∀ t o, Forall (λ nf, Keeps (Same_tables t) (nf.2 o) anything) rels.
Lemma quiet_now t : Keeps (Same_tables t) now anything.
Proof using. by apply frame_now. Qed.
Lemma quiet_filter {R} `{Model R} t (P : R → bool) : Keeps (Same_tables t) (objects_filter P) anything.
Proof using. apply frame_filter. Qed.
Lemma quiet_get {R} `{Model R} t i : Keeps (Same_tables t) (get_by_id (R:=R) i) anything.
Proof using. apply frame_get. Qed.
Lemma quiet_fetch {R} `{Model R} t o : Keeps (Same_tables t) (fetch_fk (R:=R) o) anything.
Proof using.
  destruct o; [|by apply keeps_ret]. eapply keeps_bind; [apply quiet_get|]. intros. by apply keeps_ret.
Qed.
#[local] Hint Resolve quiet_now quiet_filter quiet_get quiet_fetch : keeps.
Lemma quiet_representation {O} ser (cols : readers O) rels t o : quiet rels →
  Keeps (Same_tables t) (to_representation ser cols rels o) anything.
Proof using.
  intros Hq. specialize (Hq t o). rewrite Forall_forall in Hq.
  assert (∀ n, Keeps (Same_tables t) (attribute cols rels o n) anything) as Ha.
  { intros n. unfold attribute. destruct (dict_get cols n); [solve_keeps|].
    destruct (dict_get rels n) as [f|] eqn:Hf; [|apply keeps_raise]. exact (Hq _ (dict_get_elem _ _ _ Hf)). }
  unfold to_representation. solve_keeps.
Qed.
Lemma quiet_nil {O} : quiet (@nil (string * (O → M pyval))).
Proof using. intros t o. constructor. Qed.
#[local] Hint Resolve quiet_representation quiet_nil : keeps.
Lemma quiet_tasks_of t wf : Keeps (Same_tables t) (tasks_of wf) anything.
Proof using. unfold tasks_of. solve_keeps. Qed.
#[local] Hint Resolve quiet_tasks_of : keeps.
Lemma quiet_simple : quiet simple_relations.
Proof using.
  intros t wf. repeat (apply Forall_cons; split); try (by apply Forall_nil); cbn [snd];
    unfold nested_object, template_representation, task_object_representation; solve_keeps.
Qed.
#[local] Hint Resolve quiet_simple : keeps.
Lemma quiet_workflow : quiet workflow_relations.
Proof using.
  intros t wf. apply Forall_app. split; [apply quiet_simple|].
  repeat (apply Forall_cons; split); try (by apply Forall_nil); cbn [snd]; unfold nested_object, simple_representation; solve_keeps.
Qed.
Lemma quiet_schedule : quiet schedule_relations.
Proof using.
  intros t o. repeat (apply Forall_cons; split); try (by apply Forall_nil); cbn [snd]; unfold get_next_run_at, get_owner_username; solve_keeps.
Qed.

Section Generic.
Context {O : Type} (mv : model_view O) (kept : O → O → Prop).
Context (L : SaveLaws mv kept) (Q : quiet (mv_relations mv)).

Lemma set_attributes_kept vs : ∀ o o', set_attributes (mv_setters mv) vs o = Ok o' → kept o o'.
Proof using L.
  induction vs as [|[n v] vs IH]; intros o o' Hs; [injection Hs as ->; apply (sv_kept_refl L)|].
  unfold set_attributes in Hs. cbn [fold_res] in Hs. destruct (setattr _ o (n, v)) as [o1|] eqn:E1; [|done].
  eapply (sv_kept_trans L); [|by apply IH]. unfold setattr in E1. cbn in E1.
  destruct (dict_get (mv_setters mv) n) as [f|] eqn:Hf; [by eapply (sv_set L)|].
  injection E1 as <-. apply (sv_kept_refl L).
Qed.
Lemma retrieve_inv pk w st resp s : api_retrieve mv pk (w, st) = (Ok resp, s) → ∃ o,
  mv_find mv pk w = (Ok o, w) ∧ ∀ n g, dict_get (mv_readers mv) n = Some g →
    g o = getitem (vs_data resp) n.
Proof using L.
  intros Hr. apply bind_inv in Hr as (o & s1 & E1 & Hr). apply on_world_inv in E1 as (w1 & E1 & ->).
  pose proof (sv_reads L pk w) as Hw. rewrite E1 in Hw. cbn in Hw. subst w1. exists o. split; [done|].
  intros n g Hg. apply bind_inv in Hr as (d & s2 & E2 & [= <- <-]). apply on_world_inv in E2 as (w2 & E2 & ->).
  destruct (fl_listed _ _ _ (sv_fields L) n g Hg) as [Hn Hs]. apply list_elem_of_fmap in Hn as ([n' k] & -> & Hk).
  destruct (representation_shows _ _ _ _ _ _ _ _ _ _ E2 Hg Hk (Hs _ Hk)) as (v & -> & Hv). by symmetry.
Qed.
Lemma update_then_retrieve user partial pk data w st resp1 w1 st1 :
  api_update mv user partial pk data (w, st) = (Ok resp1, (w1, st1)) → ∃ vs,
  validated_data (mv_resource mv) user (Some pk) partial data w = (Ok vs, w) ∧
  ∀ resp0 s0 resp2 s2, api_retrieve mv pk (w, st) = (Ok resp0, s0) →
    api_retrieve mv pk (w1, st1) = (Ok resp2, s2) →
    ∀ n, n ∈ dict_keys (mv_readers mv) → n ∉ ["modified_at"; "owner_id"] →
    let expected := match dict_get vs n with
                    | Some v => Ok (shown_value (mv_resource mv) n v)
                    | None => getitem (vs_data resp0) n
                    end in
    getitem (vs_data resp2) n = expected ∨
    (mv_resource mv = RSchedule ∧ n = "name" ∧ expected = Ok (PStr "")).
Proof.
  intros Hu. apply bind_inv in Hu as (o & s1 & E1 & Hu). apply on_world_inv in E1 as (w0 & E1 & ->).
  pose proof (sv_reads L pk w) as Hw. rewrite E1 in Hw. cbn in Hw. subst w0.
  apply bind_inv in Hu as (vs & s2 & E2 & Hu). apply on_world_inv in E2 as (w0 & E2 & ->).
  destruct (validated_data_inv _ _ _ _ _ _ _ _ E2) as (-> & Hnd & Hvs). exists vs. split; [done|].
  apply bind_inv in Hu as (o' & s3 & E3 & Hu). injection E3 as E3 <-.
  apply bind_inv in Hu as (o2 & [w4 st4] & E4 & Hu). apply bind_inv in Hu as (d & s5 & E5 & [= <- ->]).
  apply on_world_inv in E5 as (w5 & E5 & [= -> ->]).
  destruct (sv_update L pk o o' w st o2 w4 st4 E1 (set_attributes_kept _ _ _ E3) E4) as [Hsame Hfind].
  intros resp0 s0 resp2 s2 Hr0 Hr2 n Hn Hex. apply dict_keys_get in Hn as (g & Hg).
  destruct (retrieve_inv _ _ _ _ _ Hr0) as (o0 & F0 & H0'). rewrite E1 in F0. injection F0 as <-.
  destruct (retrieve_inv _ _ _ _ _ Hr2) as (o3 & F3 & H3').
  destruct (quiet_representation (serializer_class (mv_resource mv)) (mv_readers mv) (mv_relations mv)
    (cur w4) o2 Q w4 eq_refl) as [Hq _].
  unfold representation in E5. rewrite E5 in Hq. rewrite (Hfind w5 o3 w5 Hq F3) in H3'.
  rewrite <- (H3' n g Hg), <- (H0' n g Hg). apply not_elem_of_cons in Hex as [Hm Ho].
  apply not_elem_of_cons in Ho as [Ho _].
  assert (g o' = match dict_get vs n with Some v => Ok (shown_value (mv_resource mv) n v) | None => g o end) as Hexp.
  { destruct (dict_get vs n) as [v|] eqn:Hv.
    - destruct (fl_listed _ _ _ (sv_fields L) n g Hg) as [_ Hs]. destruct (Hvs n v Hv Hs) as [Hwr Hwf].
      by eapply (set_attributes_shown _ _ _ (sv_fields L)).
    - eapply (set_attributes_frame _ _ _ (sv_fields L)); [done|done|exact E3|]. by apply dict_get_None. }
  cbn zeta. rewrite <- Hexp. destruct (Hsame n g Hg Hm) as [->|H']; [by left|by right].
Qed.
End Generic.

(** C20: what a client writes it reads.  After an update, whole or partial, that the
    API accepts, every field that shows a column gives the validated value it was
    set to (JSON values sorted by key, a false payload of a workflow as an empty
    object), and every other field what it showed before, the time of the change,
    and the owner of a schedule, apart; only the empty name of a schedule is
    replaced by the generated one. *)
Theorem update_then_get r user partial pk data w st resp1 w1 st1 :
  api key r user (Update partial pk data) (w, st) = (Ok resp1, (w1, st1)) → ∃ vs,
  validated_data r user (Some pk) partial data w = (Ok vs, w) ∧
  ∀ resp0 s0 resp2 s2, api key r user (Retrieve pk) (w, st) = (Ok resp0, s0) →
    api key r user (Retrieve pk) (w1, st1) = (Ok resp2, s2) →
    ∀ n, n ∈ column_fields r → n ∉ ["modified_at"; "owner_id"] →
    let expected := match dict_get vs n with
                    | Some v => Ok (shown_value r n v)
                    | None => getitem (vs_data resp0) n
                    end in
    getitem (vs_data resp2) n = expected ∨ (r = RSchedule ∧ n = "name" ∧ expected = Ok (PStr "")).
Proof.
  destruct r.
  - exact (update_then_retrieve _ _ (template_saves key) quiet_nil user partial pk data w st resp1 w1 st1).
  - exact (update_then_retrieve _ _ workflow_saves quiet_workflow user partial pk data w st resp1 w1 st1).
  - exact (update_then_retrieve _ _ task_saves quiet_nil user partial pk data w st resp1 w1 st1).
  - exact (update_then_retrieve _ _ schedule_saves quiet_schedule user partial pk data w st resp1 w1 st1).
Qed.
End Reading.

(** ** A validation *)

#[export] Instance field_kind_eq_dec : EqDecision field_kind.
Proof. solve_decision. Defined.
(** A validation that accepts what the documentation asks for *)
Definition accepted (r : resource) (partial : bool) (t : tenant) (vs : list (string * pyval)) : bool :=
  forallb (λ kv, bool_decide ((kv.1, Writable) ∈ serializer_class r)) vs && wf_val (PDict vs) &&
  match r with
  | RTask =>
      match dict_get vs "workflow" with
      | Some (PInt i) => existsb (λ wf, wf_id wf =? i) (rows (t_workflows t))
      | Some _ => false
      | None => partial
      end
  | RWorkflow =>
      match dict_get vs "workflow_template" with
      | Some (PInt i) => existsb (λ wt, wt_id wt =? i) (rows (t_templates t))
      | Some PNone | None => true
      | Some _ => false
      end
  | _ => true
  end.
Definition demo_validation : Validation := {|
  run_validation r pk partial data :=
    t ← current_tenant;
    match data with
    | PDict vs => if accepted r partial t vs then mret vs else raise (ValidationError "invalid")
    | _ => raise (ValidationError "invalid")
    end |}.
Lemma demo_validation_run r pk partial data w : cur w = None ∨ ∃ t, cur w = Some t ∧
  (@run_validation demo_validation r pk partial data w
   = (match data with PDict vs => if accepted r partial t vs then Ok vs else Raise (ValidationError "invalid")
                 | _ => Raise (ValidationError "invalid") end, w)).
Proof.
  destruct (cur w) as [t|] eqn:Hw; [right|by left]. exists t. split; [done|]. cbn. unfold current_tenant, mbind, ST_bind.
  unfold cur in Hw. rewrite Hw. destruct data; try done. by destruct (accepted _ _ _ _).
Qed.
Lemma demo_validation_inv r pk partial data w vs : (@run_validation demo_validation r pk partial data w).1 = Ok vs →
  ∃ t, cur w = Some t ∧ accepted r partial t vs = true.
Proof.
  intros Hr. destruct (demo_validation_run r pk partial data w) as [Hw|(t & Hw & E)].
  - cbn in Hr. unfold current_tenant, mbind, ST_bind in Hr. unfold cur in Hw. by rewrite Hw in Hr.
  - rewrite E in Hr. cbn in Hr. exists t. split; [done|]. destruct data as [| | | | |vs']; try done.
    destruct (accepted r partial t vs') eqn:Ha; [|done]. by injection Hr as <-.
Qed.
Lemma demo_validation_ok : @ValidationOk demo_validation.
Proof.
  split.
  - intros r pk partial data w. destruct (demo_validation_run r pk partial data w) as [Hw|(t & Hw & ->)]; [|done].
    cbn. unfold current_tenant, mbind, ST_bind. unfold cur in Hw. by rewrite Hw.
  - intros r pk partial data w vs Hr. apply demo_validation_inv in Hr as (t & _ & Ha). unfold accepted in Ha.
    apply andb_true_iff in Ha as [Ha _]. apply andb_true_iff in Ha as [Hw Hv]. cbn in Hv.
    apply andb_true_iff in Hv as [Hnd Hv]. apply bool_decide_eq_true in Hnd.
    rewrite forallb_forall in Hw, Hv. split_and!; [done| |].
    + apply Forall_forall. intros kv Hkv. by apply Hv, list_elem_of_In.
    + intros k Hk. apply list_elem_of_fmap in Hk as ([k' v] & -> & Hkv). apply list_elem_of_In, Hw in Hkv.
      by apply bool_decide_eq_true in Hkv.
  - intros pk partial data w t vs Hw Hr. apply demo_validation_inv in Hr as (t' & Hw' & Ha). rewrite Hw in Hw'.
    injection Hw' as <-. unfold accepted in Ha. apply andb_true_iff in Ha as [_ Ha].
    destruct (dict_get vs "workflow") as [[]|]; try done. apply existsb_exists in Ha as (wf & Hin & Ha).
    apply Z.eqb_eq in Ha as <-. exists wf. by rewrite list_elem_of_In.
  - intros pk partial data w t vs v Hw Hr Hd. apply demo_validation_inv in Hr as (t' & Hw' & Ha). rewrite Hw in Hw'.
    injection Hw' as <-. unfold accepted in Ha. apply andb_true_iff in Ha as [_ Ha]. rewrite Hd in Ha.
    destruct v; try done; [by left|right]. apply existsb_exists in Ha as (wt & Hin & Ha).
    apply Z.eqb_eq in Ha as <-. exists wt. by rewrite list_elem_of_In.
Qed.

(** A tenant with a workflow of the template and a task of the workflow *)
Definition edit_task : task_row :=
  set_tk_id 7 (set_tk_status TProgress (new_task_row "uuid-7" (Some "demo") 1 (Some "a") (Some 1) false)).
Definition edit_tenant : tenant := demo_tenant PNone [demo_workflow WProgress] [edit_task].
Definition edit_world : world := set_w_path "space00000" (demo_world edit_tenant).
Definition edit_api : resource → user_row → edit → ST (world * store) view_response :=
  @api demo_platform file_store (toy_crypto false "") demo_cron demo_validation demo_key.
Definition task_patch : edit :=
  Update true 7 (PDict [("status", PStr "success"); ("payload", PDict [("b", PInt 1); ("a", PInt 2)])]).

Lemma update_then_get_witness : let s1 := (edit_api RTask demo_user task_patch (edit_world, files [])).2 in
  ∃ resp2 s2, edit_api RTask demo_user (Retrieve 7) s1 = (Ok resp2, s2) ∧
    getitem (vs_data resp2) "status" = Ok (PStr "success") ∧
    getitem (vs_data resp2) "payload" = Ok (PDict [("a", PInt 2); ("b", PInt 1)]) ∧
    getitem (vs_data resp2) "name" = Ok (PStr "demo").
Proof.
  destruct (edit_api RTask demo_user task_patch (edit_world, files [])) as [r1 [w1 st1]] eqn:E.
  assert (∃ resp1, r1 = Ok resp1) as [resp1 ->].
  { assert (is_ok r1 = true) as Hok by (replace r1 with (edit_api RTask demo_user task_patch (edit_world, files [])).1
      by (by rewrite E); vm_compute; reflexivity). destruct r1; [eauto|done]. }
  destruct (@update_then_get demo_platform file_store (toy_crypto false "") demo_cron demo_validation
    demo_validation_ok demo_key RTask demo_user true 7 _ edit_world (files []) resp1 w1 st1 E) as (vs & Hv & Hg).
  cbn [snd]. destruct (edit_api RTask demo_user (Retrieve 7) (w1, st1)) as [r2 s2] eqn:E2.
  assert (∃ resp2, r2 = Ok resp2) as [resp2 ->].
  { assert (is_ok r2 = true) as Hok.
    { replace r2 with (edit_api RTask demo_user (Retrieve 7) (edit_api RTask demo_user task_patch (edit_world, files [])).2).1
        by (by rewrite E; cbn [snd]; rewrite E2). vm_compute. reflexivity. }
    destruct r2; [eauto|done]. }
  destruct (edit_api RTask demo_user (Retrieve 7) (edit_world, files [])) as [r0 s0] eqn:E0.
  assert (∃ resp0, r0 = Ok resp0 ∧ getitem (vs_data resp0) "name" = Ok (PStr "demo")) as (resp0 & -> & Hname).
  { vm_compute in E0. injection E0 as <- _. eexists. split; reflexivity. }
  assert (vs = [("status", PStr "success"); ("payload", PDict [("b", PInt 1); ("a", PInt 2)])]) as ->.
  { vm_compute in Hv. injection Hv as <-. reflexivity. }
  exists resp2, s2. split; [reflexivity|].
  split; [|split].
  - destruct (Hg resp0 s0 resp2 s2 E0 E2 "status") as [H|(H & _)];
      [by apply (bool_decide_unpack _)|by apply (bool_decide_unpack _)|exact H|discriminate H].
  - destruct (Hg resp0 s0 resp2 s2 E0 E2 "payload") as [H|(H & _)];
      [by apply (bool_decide_unpack _)|by apply (bool_decide_unpack _)|exact H|discriminate H].
  - destruct (Hg resp0 s0 resp2 s2 E0 E2 "name") as [H|(H & _)];
      [by apply (bool_decide_unpack _)|by apply (bool_decide_unpack _)|by rewrite H|discriminate H].
Defined.
