(* ===== verification/References.v ===== *)
(** * References between the tables under edits (workflow/models.py, workflow/views.py)

    The foreign keys of workflow/models.py between tasks, workflows, templates
    and the crontabs of schedules, and what the model view sets do to them:
    creating, changing and deleting through the API never leaves a row that
    refers to a row that is not there, and touches the tables of the resource
    only. *)
From Stdlib Require Import Ascii String.
From stdpp Require Import base list strings numbers gmap sets.
From S2P Require Import Prelude PyStr PyVal Json Paths World Demo Graph Finmars Models Manager System.
From S2P Require Import Builder Launch Tasks Engine Views Monitoring Storage Serializers Editing Edited.
Local Open Scope string_scope.
Local Open Scope Z_scope.
Local Open Scope list_scope.

(** ** The tables a resource may touch *)

(** Which tables requests to the resource [r] write *)
Definition touches (r : resource) : resource → bool := λ table,
  match r, table with
  | RTemplate, (RTemplate | RWorkflow | RTask) => true
  | RWorkflow, (RWorkflow | RTask) => true
  | RTask, RTask => true
  | RSchedule, RSchedule => true
  | _, _ => false
  end.
Record Touched (r : resource) (t t' : tenant) : Prop := {
  to_spaces : t_spaces t' = t_spaces t;
  to_users : t_users t' = t_users t;
  to_errors : t_errors t' = t_errors t;
  to_templates : touches r RTemplate = false → t_templates t' = t_templates t;
  to_workflows : touches r RWorkflow = false → t_workflows t' = t_workflows t;
  to_tasks : touches r RTask = false → t_tasks t' = t_tasks t;
  to_schedules : touches r RSchedule = false → t_schedules t' = t_schedules t ∧ t_crontabs t' = t_crontabs t
}.
(** [w] is [w0] but for those tables of the current tenant, the clock and the
    requests sent. *)
Record Confined (r : resource) (w0 w : world) : Prop := {
  cf_path : w_path w = w_path w0;
  cf_rest : w_catalog w = w_catalog w0 ∧ w_uuids w = w_uuids w0 ∧ w_broker w = w_broker w0 ∧
    w_revoked w = w_revoked w0 ∧ w_registry w = w_registry w0 ∧ w_local w = w_local w0 ∧
    w_registered w = w_registered w0;
  cf_others : ∀ s, s ≠ w_path w0 → w_tenants w !! s = w_tenants w0 !! s;
  cf_tenant : match cur w0, cur w with
              | Some t, Some t' => Touched r t t'
              | None, None => True
              | _, _ => False
              end
}.

Section Confined.
Context (r : resource) (w0 : world).
Abbreviation I := (Confined r w0).

Lemma confined_tick w : I w → I (tick w).
Proof. intros []. by split. Qed.
Lemma confined_send w l : I w → I (set_w_requests l w).
Proof. intros []. by split. Qed.
Lemma confined_refl : I w0.
Proof. split; try done. destruct (cur w0) as [t|]; [|done]. by split. Qed.

(** The models of the resource *)
Class Within (R : Type) `{Model R} : Prop :=
  within tb t t' : Touched r t t' → Touched r t (put_table tb t').

Lemma confined_tenant : Keeps I current_tenant (λ t', ∃ t, cur w0 = Some t ∧ Touched r t t').
Proof.
  intros w HI. unfold current_tenant. pose proof (cf_tenant _ _ _ HI) as Ht. unfold cur in *.
  destruct (w_tenants w !! w_path w) as [t'|]; [|by split]. split; [done|]. intros ? [= <-].
  destruct (w_tenants w0 !! w_path w0) as [t|]; [|done]. by exists t.
Qed.
Lemma confined_put t t' : cur w0 = Some t → Touched r t t' → Keeps I (put_tenant t') anything.
Proof.
  intros Hc Ht. apply keeps_modify; [|done]. intros w [Hp Hr Ho _]. split; [done|done| |].
  - intros s Hs. cbn. rewrite lookup_insert_ne by congruence. by apply Ho.
  - rewrite Hc. unfold cur. cbn. by rewrite lookup_insert_eq.
Qed.
Section Models.
Context {R : Type} `{Model R}.
Lemma confined_now : Keeps I now anything.
Proof. apply frame_now. by apply confined_tick. Qed.
Lemma confined_filter (P : R → bool) : Keeps I (objects_filter P) anything.
Proof. apply frame_filter. Qed.
Lemma confined_get i : Keeps I (get_by_id (R:=R) i) anything.
Proof. apply frame_get. Qed.
Lemma confined_objects_get (P : R → bool) : Keeps I (objects_get P) anything.
Proof. apply frame_get. Qed.
Lemma confined_fetch o : Keeps I (fetch_fk (R:=R) o) anything.
Proof. destruct o; [|by apply keeps_ret]. eapply keeps_bind; [apply confined_get|]. intros. by apply keeps_ret. Qed.
Context `{!Within R}.
Lemma confined_write (f : table R → table R) :
  Keeps I (t ← current_tenant; put_tenant (put_table (f (get_table t)) t)) anything.
Proof.
  eapply keeps_bind; [apply confined_tenant|]. intros t' (t & Hc & Ht). eapply confined_put; [exact Hc|by apply within].
Qed.
Lemma confined_insert (x : R) : Keeps I (insert_row x) anything.
Proof.
  eapply keeps_bind; [apply confined_now|]. intros n _. eapply keeps_bind; [apply confined_tenant|].
  intros t' (t & Hc & Ht). eapply keeps_bind; [eapply confined_put; [exact Hc|by apply within]|].
  intros. by apply keeps_ret.
Qed.
Lemma confined_save (x : R) : Keeps I (save_row x) anything.
Proof.
  eapply keeps_bind; [apply confined_now|]. intros n _. eapply keeps_bind; [apply confined_tenant|].
  intros t' (t & Hc & Ht). eapply keeps_bind; [eapply confined_put; [exact Hc|by apply within]|].
  intros. by apply keeps_ret.
Qed.
Lemma confined_update (P : R → bool) f : Keeps I (update_rows P f) anything.
Proof. apply (confined_write (λ tb, Table (map (λ r, if P r then f r else r) (rows tb)) (next_id tb))). Qed.
Lemma confined_delete (P : R → bool) : Keeps I (delete_rows P) anything.
Proof. apply (confined_write (λ tb, Table (List.filter (λ r, negb (P r)) (rows tb)) (next_id tb))). Qed.
End Models.
End Confined.
#[export] Hint Resolve confined_now confined_filter confined_get confined_objects_get confined_fetch : keeps.
#[export] Hint Extern 1 (Keeps (Confined _ _) (insert_row _) _) => eapply confined_insert; apply _ : keeps.
#[export] Hint Extern 1 (Keeps (Confined _ _) (save_row _) _) => eapply confined_save; apply _ : keeps.
#[export] Hint Extern 1 (Keeps (Confined _ _) (update_rows _ _) _) => eapply confined_update; apply _ : keeps.
#[export] Hint Extern 1 (Keeps (Confined _ _) (delete_rows _) _) => eapply confined_delete; apply _ : keeps.

#[export] Instance template_within : Within RTemplate template_row.
Proof. intros tb t t' []. by split. Qed.
#[export] Instance template_workflows_within : Within RTemplate workflow_row.
Proof. intros tb t t' []. by split. Qed.
#[export] Instance template_tasks_within : Within RTemplate task_row.
Proof. intros tb t t' []. by split. Qed.
#[export] Instance workflow_within : Within RWorkflow workflow_row.
Proof. intros tb t t' []. by split. Qed.
#[export] Instance workflow_tasks_within : Within RWorkflow task_row.
Proof. intros tb t t' []. by split. Qed.
#[export] Instance task_within : Within RTask task_row.
Proof. intros tb t t' []. by split. Qed.
#[export] Instance schedule_within : Within RSchedule schedule_row.
Proof. intros tb t t' []. by split. Qed.
#[export] Instance schedule_crontabs_within : Within RSchedule crontab_row.
Proof. intros tb t t' []. by split. Qed.

Lemma keeps_on_world `{RawStorage} {A} (I : world → Prop) (m : M A) φ :
  Keeps I m φ → Keeps (λ s : world * store, I s.1) (on_world m) φ.
Proof. intros Hm [w st] HI. unfold on_world. cbn in *. specialize (Hm w HI). by destruct (m w). Qed.
Lemma keeps_on_store `{RawStorage} {A} (I : world → Prop) (m : ST store A) :
  Keeps (λ s : world * store, I s.1) (on_store m) anything.
Proof. intros [w st] HI. unfold on_store. cbn in *. by destruct (m st). Qed.

Section Requests.
Context `{Platform} `{RawStorage} `{Crypto} `{Cron} `{ValidationOk} (key : option string) (w0 : world).

Lemma confined_representation {O} r ser (cols : readers O) rels o :
  (∀ nf, nf ∈ rels → Keeps (Confined r w0) (nf.2 o) anything) →
  Keeps (Confined r w0) (to_representation ser cols rels o) anything.
Proof using.
  intros Hq. assert (∀ n, Keeps (Confined r w0) (attribute cols rels o n) anything) as Ha.
  { intros n. unfold attribute. destruct (dict_get cols n); [solve_keeps|].
    destruct (dict_get rels n) as [f|] eqn:Hf; [|apply keeps_raise]. exact (Hq _ (dict_get_elem _ _ _ Hf)). }
  unfold to_representation. solve_keeps.
Qed.
Lemma confined_no_relations {O} r ser (cols : readers O) o :
  Keeps (Confined r w0) (to_representation ser cols [] o) anything.
Proof using. apply confined_representation. by intros ? ?%elem_of_nil. Qed.
#[local] Hint Resolve confined_no_relations : keeps.
Lemma confined_tasks_of r wf : Keeps (Confined r w0) (tasks_of wf) anything.
Proof using. unfold tasks_of. solve_keeps. Qed.
#[local] Hint Resolve confined_tasks_of : keeps.
Lemma confined_simple r wf : ∀ nf, nf ∈ simple_relations → Keeps (Confined r w0) (nf.2 wf) anything.
Proof using.
  apply Forall_forall. repeat (apply Forall_cons; split); try (by apply Forall_nil); cbn [snd];
    unfold nested_object, template_representation, task_object_representation; solve_keeps.
Qed.
Lemma confined_workflow r wf : ∀ nf, nf ∈ workflow_relations → Keeps (Confined r w0) (nf.2 wf) anything.
Proof using.
  apply Forall_forall, Forall_app. split; [apply Forall_forall, confined_simple|].
  assert (∀ wf, Keeps (Confined r w0) (simple_representation wf) anything) as Hs.
  { intros. apply confined_representation, confined_simple. }
  repeat (apply Forall_cons; split); try (by apply Forall_nil); cbn [snd]; unfold nested_object; solve_keeps; apply Hs.
Qed.
Lemma confined_schedule r o : ∀ nf, nf ∈ schedule_relations → Keeps (Confined r w0) (nf.2 o) anything.
Proof using.
  apply Forall_forall. repeat (apply Forall_cons; split); try (by apply Forall_nil); cbn [snd];
    unfold get_next_run_at, get_owner_username; solve_keeps.
Qed.

(** What the operations of each resource touch *)
Lemma confined_after_save r wf : Keeps (Confined r w0) (after_save wf) anything.
Proof using. eapply keeps_any, frame_after_save; [apply confined_tick|intros; by apply confined_send]. Qed.
#[local] Hint Resolve confined_after_save : keeps.
Lemma confined_create_workflow wf : Keeps (Confined RWorkflow w0) (create_workflow wf) anything.
Proof using. unfold create_workflow. solve_keeps. Qed.
Lemma confined_save_workflow wf : Keeps (Confined RWorkflow w0) (save_workflow wf) anything.
Proof using. unfold save_workflow. solve_keeps. Qed.
Lemma confined_delete_workflow wf : Keeps (Confined RWorkflow w0) (delete_workflow wf) anything.
Proof using. unfold delete_workflow. solve_keeps. Qed.
Lemma confined_delete_template wt : Keeps (Confined RTemplate w0) (delete_template wt) anything.
Proof using. unfold delete_template, delete_workflow. solve_keeps. Qed.
Lemma confined_insert_task t : Keeps (Confined RTask w0) (insert_task t) anything.
Proof using. unfold insert_task. solve_keeps. Qed.
Lemma confined_save_task t : Keeps (Confined RTask w0) (save_task t) anything.
Proof using. unfold save_task. solve_keeps. Qed.
Lemma confined_save_schedule o : Keeps (Confined RSchedule w0) (save_schedule o) anything.
Proof using.
  unfold save_schedule, get_or_create_crontab. solve_keeps; apply frame_require.
Qed.
Lemma confined_insert_template v : Keeps (Confined RTemplate w0) (insert_template v) anything.
Proof using. unfold insert_template. solve_keeps. Qed.
#[local] Hint Resolve confined_create_workflow confined_save_workflow confined_delete_workflow
  confined_delete_template confined_insert_task confined_save_task confined_save_schedule
  confined_insert_template : keeps.
Lemma confined_storage i : Keeps (λ s, Confined RTemplate w0 s.1) (save_to_storage key i) anything.
Proof using. intros [w st] HI. split; [by rewrite save_to_storage_world|done]. Qed.

Section View.
Context {O : Type} (mv : model_view O).
Abbreviation I := (Confined (mv_resource mv) w0).

Lemma confined_hidden r user ser : Keeps (Confined r w0) (hidden_values user ser) anything.
Proof using.
  induction ser as [|[n k] ser IH]; [by apply keeps_ret|]. cbn [hidden_values].
  eapply keeps_bind with (φ := anything); [|intros v _; eapply keeps_bind; [exact IH|]; intros; by apply keeps_ret].
  intros w HI. by rewrite hidden_default_reads.
Qed.
Lemma confined_validated r r' user pk partial data :
  Keeps (Confined r w0) (validated_data r' user pk partial data) anything.
Proof.
  unfold validated_data. eapply keeps_bind with (φ := anything).
  { intros w HI. by rewrite validation_reads. }
  intros vs _. eapply keeps_bind with (φ := anything); [destruct partial; [by apply keeps_ret|apply confined_hidden]|].
  intros. by apply keeps_ret.
Qed.

Context (Hrels : ∀ o nf, nf ∈ mv_relations mv → Keeps I (nf.2 o) anything).
Context (Hfind : ∀ pk, Keeps I (mv_find mv pk) anything) (Hdelete : ∀ o, Keeps I (mv_delete mv o) anything).
Context (Hcreate : ∀ o, Keeps (λ s, I s.1) (mv_create mv o) anything).
Context (Hupdate : ∀ o o', Keeps (λ s, I s.1) (mv_update mv o o') anything).

Lemma confined_edit user e : Keeps (λ s, I s.1) (run_edit mv user e) anything.
Proof.
  assert (∀ o, Keeps (λ s : world * store, I s.1) (on_world (representation mv o)) anything) as Hrep.
  { intros o. apply keeps_on_world, confined_representation, Hrels. }
  assert (∀ pk, Keeps (λ s : world * store, I s.1) (on_world (mv_find mv pk)) anything) as Hf.
  { intros pk. apply keeps_on_world, Hfind. }
  assert (∀ pk partial data, Keeps (λ s : world * store, I s.1)
    (on_world (validated_data (mv_resource mv) user pk partial data)) anything) as Hv.
  { intros. apply keeps_on_world, confined_validated. }
  assert (∀ o, Keeps (λ s : world * store, I s.1) (on_world (mv_delete mv o)) anything) as Hd.
  { intros o. apply keeps_on_world, Hdelete. }
  destruct e; cbn [run_edit]; unfold api_create, api_retrieve, api_update, api_destroy; solve_keeps; auto.
Qed.
End View.

Lemma confined_get_object {R} `{Model R} r pk : Keeps (Confined r w0) (get_object (R:=R) pk) anything.
Proof using.
  apply keeps_try; [apply confined_get|]. intros []; apply keeps_raise.
Qed.
#[local] Hint Resolve confined_get_object : keeps.

Lemma api_confined r user e : Keeps (λ s, Confined r w0 s.1) (api key r user e) anything.
Proof.
  destruct r; cbn [api].
  - apply (confined_edit (WorkflowTemplateViewSet key)); cbn; intros.
    + by apply elem_of_nil in H5.
    + solve_keeps.
    + solve_keeps.
    + unfold create_template. eapply keeps_bind; [apply keeps_on_world, confined_insert_template|]. intros i _.
      eapply keeps_bind; [apply confined_storage|]. intros. by apply keeps_ret.
    + unfold update_template. eapply keeps_bind; [apply keeps_on_world; solve_keeps|]. intros i _.
      eapply keeps_bind; [apply confined_storage|]. intros. by apply keeps_ret.
  - apply (confined_edit WorkflowViewSet); cbn; intros;
      try (apply keeps_on_world); [by eapply confined_workflow|solve_keeps..].
  - apply (confined_edit TaskViewSet); cbn; intros;
      try (apply keeps_on_world); [by apply elem_of_nil in H5|solve_keeps..].
  - apply (confined_edit ScheduleViewSet); cbn; intros;
      try (apply keeps_on_world); [by eapply confined_schedule|unfold get_schedule; solve_keeps|solve_keeps..].
Qed.

(** A request to a model view set is confined.  Whatever it is given and however
    it ends, it writes the tables of its resource only (deleting a template or a
    workflow, those of the rows that go with it), in the current tenant only;
    it publishes no message, revokes no task, and leaves the registry, the local
    files and the search path. *)
Theorem edits_confined r user e st : Confined r w0 (api key r user e (w0, st)).2.1.
Proof. apply (api_confined r user e (w0, st)), confined_refl. Qed.
End Requests.

(** ** Referential integrity *)

(** The keys of a table *)
Definition keys {R} `{Model R} (tb : table R) : list Z := row_id <$> rows tb.
Definition has_key {R} `{Model R} (tb : table R) (o : option Z) : Prop :=
  match o with Some i => i ∈ keys tb | None => True end.
Definition workflow_fits (t : tenant) (wf : workflow_row) : Prop :=
  has_key (t_templates t) (wf_template wf) ∧ has_key (t_workflows t) (wf_parent wf).
Definition task_fits (t : tenant) (tk : task_row) : Prop := tk_workflow tk ∈ keys (t_workflows t).
Definition schedule_fits (t : tenant) (sc : schedule_row) : Prop := has_key (t_crontabs t) (sc_crontab sc).
(** Every row refers to rows that are there. *)
Record Refs (t : tenant) : Prop := {
  rf_workflows : Forall (workflow_fits t) (rows (t_workflows t));
  rf_tasks : Forall (task_fits t) (rows (t_tasks t));
  rf_schedules : Forall (schedule_fits t) (rows (t_schedules t))
}.

Section Tables.
Context {R : Type} `{ModelOk R}.
Lemma has_key_sub (tb tb' : table R) o : (∀ i, i ∈ keys tb → i ∈ keys tb') → has_key tb o → has_key tb' o.
Proof. destruct o; [cbn|done]. auto. Qed.
Lemma elem_key (r : R) (tb : table R) : r ∈ rows tb → row_id r ∈ keys tb.
Proof. intros Hr. apply list_elem_of_fmap. eauto. Qed.
Lemma write_row_keys (r : R) (l : list R) i : row_id r ∈ row_id <$> l → (i ∈ row_id <$> write_row r l ↔ i ∈ row_id <$> l).
Proof.
  intros (r0 & Hr0 & Hin)%list_elem_of_fmap. rewrite write_row_present.
  2:{ apply existsb_exists. exists r0. split; [by apply list_elem_of_In|]. by rewrite Hr0, Z.eqb_refl. }
  replace (row_id <$> map _ l) with (row_id <$> l); [done|]. clear. induction l as [|x l IH]; [done|].
  cbn. rewrite IH. f_equal. destruct (row_id x =? row_id r) eqn:E; [by apply Z.eqb_eq in E|done].
Qed.
Lemma elem_write_row (r x : R) (l : list R) : x ∈ write_row r l → x = r ∨ x ∈ l.
Proof.
  unfold write_row. destruct (existsb _ l).
  - intros (y & -> & Hy)%list_elem_of_fmap. destruct (row_id y =? row_id r); [by left|by right].
  - intros [Hx|Hx]%elem_of_app; [by right|]. apply list_elem_of_singleton in Hx as ->. by left.
Qed.
Lemma Forall_write_row (P : R → Prop) (r : R) l : P r → Forall P l → Forall P (write_row r l).
Proof.
  intros Hr Hl. rewrite Forall_forall in *. intros x [->|Hx]%elem_write_row; auto.
Qed.
Lemma Forall_filter_rows (P : R → Prop) (p : R → bool) l : Forall P l → Forall P (List.filter p l).
Proof. rewrite !Forall_forall. intros Hl x Hx. apply list_elem_of_In, filter_In in Hx as [Hx _]. by apply Hl, list_elem_of_In. Qed.
Lemma filter_rows_keys (p : R → bool) (l : list R) i :
  i ∈ row_id <$> List.filter p l → ∃ r, row_id r = i ∧ r ∈ l ∧ p r = true.
Proof. intros (r & -> & Hr)%list_elem_of_fmap. apply list_elem_of_In, filter_In in Hr as [Hr ?]. exists r. split_and!; [done|by apply list_elem_of_In|done]. Qed.
End Tables.

(** Writes that keep the references *)
Lemma refs_templates t tb : Refs t → (∀ i, i ∈ keys (t_templates t) → i ∈ keys tb) → Refs (set_t_templates tb t).
Proof.
  intros [Hw Ht Hs] Hk. split; [|done|done]. eapply Forall_impl; [exact Hw|]. intros wf [H1 H2]. split; [|done].
  by eapply has_key_sub.
Qed.
Lemma refs_workflows t tb : Refs t → (∀ i, i ∈ keys (t_workflows t) → i ∈ keys tb) →
  Forall (λ wf, has_key (t_templates t) (wf_template wf) ∧ has_key tb (wf_parent wf)) (rows tb) →
  Refs (set_t_workflows tb t).
Proof.
  intros [Hw Ht Hs] Hk Hf. split; [exact Hf| |done]. eapply Forall_impl; [exact Ht|]. intros tk Htk. by apply Hk.
Qed.
Lemma refs_tasks t tb : Refs t → Forall (task_fits t) (rows tb) → Refs (set_t_tasks tb t).
Proof. intros [Hw Ht Hs] Hf. by split. Qed.
Lemma refs_schedules t tb : Refs t → Forall (schedule_fits t) (rows tb) → Refs (set_t_schedules tb t).
Proof. intros [Hw Ht Hs] Hf. by split. Qed.
Lemma refs_crontabs t tb : Refs t → (∀ i, i ∈ keys (t_crontabs t) → i ∈ keys tb) → Refs (set_t_crontabs tb t).
Proof.
  intros [Hw Ht Hs] Hk. split; [done|done|]. eapply Forall_impl; [exact Hs|]. intros sc Hsc. by eapply has_key_sub.
Qed.
Lemma refs_new_workflow t wf n : Refs t → workflow_fits t wf →
  Refs (set_t_workflows (Table (rows (t_workflows t) ++ [wf]) n) t).
Proof.
  intros HR [H1 H2]. assert (∀ i, i ∈ keys (t_workflows t) → i ∈ keys (Table (rows (t_workflows t) ++ [wf]) n)) as Hk.
  { intros i Hi. unfold keys. cbn. rewrite fmap_app. apply elem_of_app. by left. }
  apply refs_workflows; [done|exact Hk|]. apply Forall_app. split.
  - eapply Forall_impl; [exact (rf_workflows _ HR)|]. intros x [? ?]. split; [done|]. by eapply has_key_sub.
  - apply Forall_singleton. split; [done|]. by eapply has_key_sub.
Qed.
Lemma refs_write_workflow t wf : Refs t → workflow_fits t wf → wf_id wf ∈ keys (t_workflows t) →
  Refs (set_t_workflows (Table (write_row wf (rows (t_workflows t))) (next_id (t_workflows t))) t).
Proof.
  intros HR [H1 H2] Hid. assert (∀ i, i ∈ keys (t_workflows t) →
    i ∈ keys (Table (write_row wf (rows (t_workflows t))) (next_id (t_workflows t)))) as Hk.
  { intros i Hi. by apply (write_row_keys wf). }
  apply refs_workflows; [done|exact Hk|]. apply Forall_write_row.
  - split; [done|]. by eapply has_key_sub.
  - eapply Forall_impl; [exact (rf_workflows _ HR)|]. intros x [? ?]. split; [done|]. by eapply has_key_sub.
Qed.

(** ** Deleting *)

(** The tenant without some workflows: their tasks go with them, their children
    lose their parent. *)
Definition among (ids : list Z) (i : Z) : bool := bool_decide (i ∈ ids).
Definition orphan (ids : list Z) (c : workflow_row) : workflow_row :=
  match wf_parent c with Some p => if among ids p then set_wf_parent None c else c | None => c end.
Definition without_workflows (ids : list Z) (t : tenant) : tenant :=
  set_t_workflows (Table (orphan ids <$> List.filter (λ wf, negb (among ids (wf_id wf))) (rows (t_workflows t)))
                     (next_id (t_workflows t)))
    (set_t_tasks (Table (List.filter (λ tk, negb (among ids (tk_workflow tk))) (rows (t_tasks t)))
                    (next_id (t_tasks t))) t).
Definition without_template (i : Z) (t : tenant) : tenant :=
  set_t_templates (Table (List.filter (λ wt, negb (wt_id wt =? i)) (rows (t_templates t))) (next_id (t_templates t))) t.

Lemma among_spec ids i : among ids i = true ↔ i ∈ ids.
Proof. apply bool_decide_eq_true. Qed.
Lemma among_cons i ids j : among (i :: ids) j = (j =? i) || among ids j.
Proof.
  apply eq_bool_prop_intro. rewrite !Is_true_true, orb_true_iff, !among_spec, elem_of_cons, Z.eqb_eq. done.
Qed.
Lemma orphan_id ids c : wf_id (orphan ids c) = wf_id c ∧ wf_template (orphan ids c) = wf_template c.
Proof. unfold orphan. destruct (wf_parent c); [|done]. by destruct (among ids _). Qed.
Lemma orphan_cons i ids c : orphan [i] (orphan ids c) = orphan (i :: ids) c.
Proof.
  unfold orphan at 2 3. destruct (wf_parent c) as [p|] eqn:Hp.
  - rewrite among_cons. destruct (among ids p); [by rewrite orb_true_r|]. rewrite orb_false_r.
    unfold orphan. rewrite Hp, among_cons. by rewrite orb_false_r.
  - unfold orphan. by rewrite Hp.
Qed.
Lemma filter_twice {A} (p q : A → bool) l : List.filter p (List.filter q l) = List.filter (λ x, p x && q x) l.
Proof.
  induction l as [|x l IH]; [done|]. cbn. destruct (q x); cbn; [by rewrite andb_true_r, IH|by rewrite andb_false_r].
Qed.
Lemma filter_fmap_rows {A B} (f : A → B) (p : B → bool) l :
  List.filter p (f <$> l) = f <$> List.filter (λ x, p (f x)) l.
Proof. induction l as [|x l IH]; [done|]. cbn. rewrite IH. by destruct (p (f x)). Qed.
Lemma without_workflows_cons i ids t : without_workflows [i] (without_workflows ids t) = without_workflows (i :: ids) t.
Proof.
  unfold without_workflows, set_t_workflows, set_t_tasks. cbn. rewrite filter_fmap_rows, !filter_twice. f_equal; f_equal.
  - rewrite <- list_fmap_compose. rewrite (filter_ext _ (λ x, negb (among (i :: ids) (wf_id x)))).
    + apply list_fmap_ext. intros _ c _. apply orphan_cons.
    + intros x. rewrite (proj1 (orphan_id ids x)), !among_cons, orb_false_r. by rewrite negb_orb.
  - apply filter_ext. intros x. rewrite !among_cons, orb_false_r. by rewrite negb_orb.
Qed.

Lemma delete_rows_run {R} `{ModelOk R} (P : R → bool) w t : cur w = Some t →
  delete_rows P w = (Ok tt, with_tenant
    (put_table (Table (List.filter (λ r, negb (P r)) (rows (get_table t))) (next_id (get_table t))) t) w).
Proof.
  intros Hw. unfold delete_rows, current_tenant, put_tenant, modify, mbind, ST_bind. unfold cur in Hw. by rewrite Hw.
Qed.
Lemma delete_workflow_run wf w t : cur w = Some t →
  delete_workflow wf w = (Ok tt, with_tenant (without_workflows [wf_id wf] t) w).
Proof.
  intros Hw. unfold delete_workflow. rewrite (bind_ok _ _ _ _ _ (delete_rows_run _ w t Hw)).
  rewrite (bind_ok _ _ _ _ _ (update_run _ _ _ _ (cur_with_tenant _ _))).
  rewrite (delete_rows_run _ _ _ (cur_with_tenant _ _)), !with_tenant_twice. do 2 f_equal.
  unfold without_workflows. cbn. unfold set_t_workflows, set_t_tasks. cbn. f_equal; f_equal.
  - change (map ?f ?l) with (f <$> l). rewrite filter_fmap_rows.
    assert (∀ c, wf_id (if bool_decide (wf_parent c = Some (wf_id wf)) then set_wf_parent None c else c) = wf_id c) as Hid.
    { intros c. by case_bool_decide. }
    rewrite (filter_ext _ (λ x, negb (among [wf_id wf] (wf_id x)))).
    + apply list_fmap_ext. intros _ c _. unfold orphan. destruct (wf_parent c) as [p|] eqn:Hp; [|by case_bool_decide].
      rewrite among_cons, orb_false_r. destruct (Z.eqb_spec p (wf_id wf)) as [->|Hne]; [by rewrite bool_decide_eq_true_2|].
      rewrite bool_decide_eq_false_2; [done|]. congruence.
    + intros x. by rewrite Hid, among_cons, orb_false_r.
  - apply filter_ext. intros x. by rewrite among_cons, orb_false_r.
Qed.
Lemma delete_workflows_run wfs : ∀ w t ids, cur w = Some (without_workflows ids t) →
  for_each wfs delete_workflow w
  = (Ok tt, match wfs with [] => w | _ => with_tenant (without_workflows (rev (wf_id <$> wfs) ++ ids) t) w end).
Proof.
  induction wfs as [|wf wfs IH]; intros w t ids Hw; [done|]. cbn [for_each].
  rewrite (bind_ok _ _ _ _ _ (delete_workflow_run wf w _ Hw)), without_workflows_cons.
  rewrite (IH _ t (wf_id wf :: ids)) by by rewrite cur_with_tenant. rewrite with_tenant_twice.
  cbn [fmap list_fmap rev]. rewrite <- app_assoc. by destruct wfs.
Qed.
Lemma filter_run_elem {R} `{ModelOk R} (P : R → bool) (x : R) t :
  x ∈ ordered (List.filter P (rows (get_table t))) ↔ P x = true ∧ x ∈ rows (get_table t).
Proof.
  unfold ordered. destruct newest_first; rewrite !list_elem_of_In, <- ?in_rev, filter_In; tauto.
Qed.
Lemma without_workflows_perm ids ids' t : (∀ i, i ∈ ids ↔ i ∈ ids') →
  without_workflows ids t = without_workflows ids' t.
Proof.
  intros Hi. assert (∀ i, among ids i = among ids' i) as Ha.
  { intros i. apply bool_decide_ext, Hi. }
  unfold without_workflows. f_equal.
  - f_equal. rewrite (filter_ext _ (λ wf, negb (among ids' (wf_id wf)))) by (intros; by rewrite Ha).
    apply list_fmap_ext. intros _ c _. unfold orphan. destruct (wf_parent c); [|done]. by rewrite Ha.
  - do 2 f_equal. apply filter_ext. intros x. by rewrite Ha.
Qed.
(** The workflows that run a template *)
Definition workflows_of (i : Z) (t : tenant) : list Z :=
  wf_id <$> List.filter (λ wf, bool_decide (wf_template wf = Some i)) (rows (t_workflows t)).
Lemma without_none t : without_workflows [] t = t.
Proof.
  unfold without_workflows. assert (∀ {A} (f : A → Z) l, List.filter (λ x, negb (among [] (f x))) l = l) as Hf.
  { intros A f l. by induction l as [|x l IH]; [|cbn; rewrite IH]. }
  rewrite !Hf. destruct t as [? ? ? [] [] ? ? ?]. unfold set_t_workflows, set_t_tasks. cbn. do 2 f_equal.
  rewrite (list_fmap_ext _ id), list_fmap_id; [done|]. intros _ c _. unfold orphan. by destruct (wf_parent c).
Qed.
Lemma delete_template_run wt w t : cur w = Some t →
  delete_template wt w
  = (Ok tt, with_tenant (without_template (wt_id wt) (without_workflows (workflows_of (wt_id wt) t) t)) w).
Proof.
  intros Hw. unfold delete_template. rewrite (bind_ok _ _ _ _ _ (filter_run _ w t Hw)).
  set (l := ordered _). assert (cur w = Some (without_workflows [] t)) as Hw0 by by rewrite without_none.
  pose proof (delete_workflows_run l w t [] Hw0) as Hr. set (w1 := match l with [] => w | _ => _ end) in Hr.
  rewrite (bind_ok _ _ _ _ _ Hr).
  assert (cur w1 = Some (without_workflows (workflows_of (wt_id wt) t) t) ∧ ∀ t', with_tenant t' w1 = with_tenant t' w)
    as [Hc Ht].
  { rewrite <- (without_workflows_perm (rev (wf_id <$> l) ++ [])).
    - subst w1. destruct l; [done|]. split; [apply cur_with_tenant|]. intros. apply with_tenant_twice.
    - intros i. rewrite app_nil_r, list_elem_of_In, <- in_rev, <- list_elem_of_In. unfold workflows_of.
      rewrite !list_elem_of_fmap. subst l. setoid_rewrite filter_run_elem.
      setoid_rewrite (list_elem_of_In (List.filter _ _)). setoid_rewrite filter_In.
      setoid_rewrite <- list_elem_of_In. naive_solver. }
  rewrite (delete_rows_run _ w1 _ Hc). by rewrite Ht.
Qed.

Lemma refs_without_workflows ids t : Refs t → Refs (without_workflows ids t).
Proof.
  intros [Hw Ht Hs]. unfold without_workflows. split; [| |exact Hs].
  - cbn. rewrite Forall_forall in *. intros c (c0 & -> & Hc)%list_elem_of_fmap.
    apply list_elem_of_In, filter_In in Hc as [Hc _]. apply list_elem_of_In in Hc.
    destruct (Hw c0 Hc) as [H1 H2]. destruct (orphan_id ids c0) as [_ Htmp].
    split; [by rewrite Htmp|]. unfold orphan. destruct (wf_parent c0) as [p|] eqn:Hp; [|by rewrite Hp].
    destruct (among ids p) eqn:Ha; [done|]. rewrite Hp. cbn in *. unfold keys in *. cbn.
    apply list_elem_of_fmap in H2 as (x & -> & Hx). rewrite <- list_fmap_compose. apply list_elem_of_fmap.
    exists x. split; [symmetry; apply orphan_id|]. apply list_elem_of_In, filter_In.
    split; [by apply list_elem_of_In|]. change (row_id x) with (wf_id x) in Ha. by rewrite Ha.
  - cbn. rewrite Forall_forall in *. intros tk Htk. apply list_elem_of_In, filter_In in Htk as [Htk Ha].
    apply list_elem_of_In in Htk. specialize (Ht tk Htk). unfold task_fits, keys in *. cbn.
    apply list_elem_of_fmap in Ht as (x & Hx & Hin). rewrite <- list_fmap_compose. apply list_elem_of_fmap.
    exists x. split; [rewrite Hx; symmetry; apply orphan_id|]. apply list_elem_of_In, filter_In.
    split; [by apply list_elem_of_In|]. change (row_id x) with (wf_id x) in Hx. by rewrite <- Hx.
Qed.
Lemma refs_without_template i t : Refs t → (∀ wf, wf ∈ rows (t_workflows t) → wf_template wf ≠ Some i) →
  Refs (without_template i t).
Proof.
  intros [Hw Ht Hs] Hn. split; [|done|done]. cbn. rewrite Forall_forall in *. intros wf Hwf.
  destruct (Hw wf Hwf) as [H1 H2]. split; [|done]. specialize (Hn wf Hwf).
  destruct (wf_template wf) as [j|]; [|done]. cbn in *. unfold keys in *. cbn.
  apply list_elem_of_fmap in H1 as (x & -> & Hx). apply list_elem_of_fmap. exists x. split; [done|].
  apply list_elem_of_In, filter_In. split; [by apply list_elem_of_In|]. apply negb_true_iff, Z.eqb_neq.
  intros E. apply Hn. by rewrite <- E.
Qed.
Lemma no_workflows_of i t wf : wf ∈ rows (t_workflows (without_workflows (workflows_of i t) t)) →
  wf_template wf ≠ Some i.
Proof.
  cbn. intros (c & -> & Hc)%list_elem_of_fmap Ht. rewrite (proj2 (orphan_id _ _)) in Ht.
  apply list_elem_of_In, filter_In in Hc as [Hc Ha]. apply negb_true_iff in Ha.
  assert (wf_id c ∈ workflows_of i t) as Hin.
  { apply list_elem_of_fmap. exists c. split; [done|]. apply list_elem_of_In, filter_In.
    split; [done|]. by apply bool_decide_eq_true. }
  apply among_spec in Hin. congruence.
Qed.

(** ** Requests keep the references *)

Lemma leads_then {S A B} (P Q : S → Prop) (m : ST S A) (f : A → ST S B) :
  Leads P m Q → (∀ a, Leads Q (f a) Q) → Leads P (m ≫= f) Q.
Proof.
  intros Hm Hf s HP. specialize (Hm s HP). unfold mbind, ST_bind. destruct (m s) as [[a|] s']; [|done].
  by apply Hf.
Qed.

(** A projection that only one setter changes *)
Lemma set_attributes_one {O A} (l : setters O) (p : O → A) name vs :
  (∀ n f v o o', n ≠ name → dict_get l n = Some f → f v o = Ok o' → p o' = p o) →
  NoDup (dict_keys vs) → ∀ o o', set_attributes l vs o = Ok o' →
  match dict_get vs name, dict_get l name with
  | Some v, Some f => ∃ o1 o2, f v o1 = Ok o2 ∧ p o' = p o2
  | _, _ => p o' = p o
  end.
Proof.
  intros Hp. induction vs as [|[n v] vs IH]; intros Hnd o o' Hs; [by injection Hs as ->|].
  unfold set_attributes in Hs. cbn [fold_res] in Hs. destruct (setattr l o (n, v)) as [o1|] eqn:E1; [|done].
  apply NoDup_cons in Hnd as [Hn Hnd]. specialize (IH Hnd o1 o' Hs). unfold setattr in E1. cbn in E1. cbn [dict_get].
  case_decide as E.
  - subst n. rewrite (proj2 (dict_get_None vs name) Hn) in IH. destruct (dict_get l name) as [f|]; [eauto|].
    by injection E1 as <-.
  - assert (p o1 = p o) as Ho.
    { destruct (dict_get l n) as [f|] eqn:Hf; [by eapply Hp|by injection E1 as <-]. }
    by rewrite <- Ho.
Qed.

(** The current tenant's references hold. *)
Definition RefsNow (w : world) : Prop := ∀ t, cur w = Some t → Refs t.

Section Rows.
Context {R : Type} `{ModelOk R} (t : tenant).
Lemma leads_insert (r : R) :
  (∀ n m, let r' := with_created m (with_modified m (with_id n r)) in
     Refs (put_table (Table (rows (get_table t) ++ [r']) (n + 1)) t)) →
  Leads (λ w, cur w = Some t) (insert_row r) RefsNow.
Proof.
  intros Hr w Hw. rewrite (insert_run r w t Hw). cbn [snd]. intros t'. rewrite cur_with_tenant. intros [= <-]. apply Hr.
Qed.
Lemma leads_save (r : R) :
  (∀ m, Refs (put_table (Table (write_row (with_modified m r) (rows (get_table t))) (next_id (get_table t))) t)) →
  Leads (λ w, cur w = Some t) (save_row r) RefsNow.
Proof.
  intros Hr w Hw. rewrite (save_run r w t Hw). cbn [snd]. intros t'. rewrite cur_with_tenant. intros [= <-]. apply Hr.
Qed.
End Rows.
Lemma leads_raise {S A} (P Q : S → Prop) e : (∀ s, P s → Q s) → Leads P (raise e : ST S A) Q.
Proof. intros Hq s HP. by apply Hq. Qed.
Lemma leads_world `{RawStorage} {A} (P Q : world → Prop) (m : M A) :
  Leads P m Q → Leads (λ s : world * store, P s.1) (on_world m) (λ s, Q s.1).
Proof. intros Hm [w st] HP. unfold on_world. cbn in *. specialize (Hm w HP). by destruct (m w). Qed.

Section RefRequests.
Context `{Platform} `{RawStorage} `{Crypto} `{Cron} `{ValidationOk} (key : option string).

(** What validation promises about references, for the tables of [t] *)
Record valid_refs (r : resource) (partial : bool) (t : tenant) (vs : list (string * pyval)) : Prop := {
  vr_keys : NoDup (dict_keys vs);
  vr_workflow : r = RTask → match dict_get vs "workflow" with
    | Some v => ∃ wf, wf ∈ rows (t_workflows t) ∧ v = PInt (wf_id wf)
    | None => partial = true
    end;
  vr_template : r = RWorkflow → ∀ v, dict_get vs "workflow_template" = Some v →
    v = PNone ∨ ∃ wt, wt ∈ rows (t_templates t) ∧ v = PInt (wt_id wt)
}.
Lemma validated_refs r user pk partial data w t vs w' : cur w = Some t →
  validated_data r user pk partial data w = (Ok vs, w') → valid_refs r partial t vs.
Proof.
  intros Hw Hv. destruct (validated_data_inv _ _ _ _ _ _ _ _ Hv) as (-> & Hnd & _). split; [done| |];
    intros ->; apply bind_inv in Hv as (vs0 & w1 & E1 & Hv); apply bind_inv in Hv as (hs & w2 & E2 & [= <- _]).
  - pose proof (validation_reads RTask pk partial data w) as Hr. rewrite E1 in Hr. cbn in Hr. subst w1. rewrite dict_get_app.
    pose proof (validation_workflow pk partial data w t vs0 Hw) as Hl. rewrite E1 in Hl. specialize (Hl eq_refl).
    destruct (dict_get vs0 "workflow"); [done|]. subst partial. by injection E2 as <- _.
  - intros v Hd. pose proof (validation_reads RWorkflow pk partial data w) as Hr.
    rewrite E1 in Hr. cbn in Hr. subst w1. apply (validation_template pk partial data w t vs0 v Hw); [by rewrite E1|].
    rewrite dict_get_app in Hd. destruct (dict_get vs0 "workflow_template"); [done|].
    destruct partial; [by injection E2 as <- _|]. apply hidden_values_inv in E2 as [_ E2].
    apply dict_get_Some_keys in Hd. pose proof (elem_of_sublist _ _ _ Hd E2) as Hin.
    apply (bool_decide_pack _) in Hin. done.
Qed.

(** What the views of a resource do to the references: [fits] says that what an
    object refers to is there, [found] that it also has its own row. *)
Record RefLaws {O} (mv : model_view O) (fits found : tenant → O → Prop) : Prop := {
  rl_reads pk w : (mv_find mv pk w).2 = w;
  rl_find pk w o t : cur w = Some t → Refs t → mv_find mv pk w = (Ok o, w) → found t o;
  rl_new t vs o : valid_refs (mv_resource mv) false t vs →
    set_attributes (mv_setters mv) vs (mv_new mv) = Ok o → fits t o;
  rl_set t partial vs o o' : valid_refs (mv_resource mv) partial t vs → found t o →
    set_attributes (mv_setters mv) vs o = Ok o' → found t o';
  rl_create t o : Refs t → fits t o → Leads (λ s, cur s.1 = Some t) (mv_create mv o) (λ s, RefsNow s.1);
  rl_update t o o' : Refs t → found t o' → Leads (λ s, cur s.1 = Some t) (mv_update mv o o') (λ s, RefsNow s.1);
  rl_delete t o : Refs t → found t o → Leads (λ w, cur w = Some t) (mv_delete mv o) RefsNow
}.

Lemma refs_now t w : Refs t → cur w = Some t → RefsNow w.
Proof using. intros HR Hw t'. rewrite Hw. by intros [= <-]. Qed.
Lemma leads_storage i : Leads (λ s, RefsNow s.1) (save_to_storage key i) (λ s, RefsNow s.1).
Proof using. intros [w st] HR. by rewrite save_to_storage_world. Qed.
Lemma template_rows_grow t (r : template_row) n : Refs t →
  Refs (set_t_templates (Table (rows (t_templates t) ++ [r]) n) t).
Proof using.
  intros HR. apply refs_templates; [done|]. intros i Hi. unfold keys. cbn. rewrite fmap_app. apply elem_of_app. by left.
Qed.
Lemma template_refs : RefLaws (WorkflowTemplateViewSet key) (λ _ _, True) (λ t o, wt_id o ∈ keys (t_templates t)).
Proof.
  split; cbn [mv_find mv_create mv_update mv_delete mv_resource mv_setters mv_new WorkflowTemplateViewSet].
  - apply get_object_reads.
  - intros pk w o t Hw _ Hf. apply get_object_inv in Hf. destruct (get_inv _ _ _ _ Hf) as (_ & t' & Hw' & Hin & _).
    rewrite Hw in Hw'. injection Hw' as <-.
    exact (elem_key (R:=template_row) o _ Hin).
  - done.
  - intros t partial vs o o' Hv Hf Hs. pose proof (set_attributes_kept _ _ (template_saves key) vs o o' Hs) as Hk.
    unfold same_row in Hk. cbn in Hk. by rewrite Hk.
  - intros t o HR _. unfold create_template. apply leads_then with (Q := λ s, RefsNow s.1).
    + apply (leads_world (λ w, cur w = Some t) RefsNow). intros w Hw. unfold insert_template.
      rewrite (bind_ok _ _ _ _ _ (filter_run _ w t Hw)).
      destruct (ordered _); [|by eapply refs_now]. apply (leads_insert t); [|done]. intros. by apply template_rows_grow.
    + intros i. apply leads_then; [apply leads_storage|]. intros _ s HR'. exact HR'.
  - intros t o o' HR Hid. unfold update_template. apply leads_then with (Q := λ s, RefsNow s.1).
    + apply (leads_world (λ w, cur w = Some t) RefsNow), leads_save. intros m. apply refs_templates; [done|]. intros i Hi.
      by apply (write_row_keys (R:=template_row)).
    + intros i. apply leads_then; [apply leads_storage|]. intros _ s HR'. exact HR'.
  - intros t o HR _ w Hw. rewrite (delete_template_run o w t Hw). eapply refs_now; [|apply cur_with_tenant].
    apply refs_without_template; [by apply refs_without_workflows|apply no_workflows_of].
Qed.

Lemma workflow_set t partial vs o o' : valid_refs RWorkflow partial t vs → workflow_fits t o →
  set_attributes workflow_setters vs o = Ok o' → workflow_fits t o'.
Proof using.
  intros [Hnd _ Hv] [H1' H2'] Hs. split.
  - pose proof (set_attributes_one workflow_setters wf_template "workflow_template" vs) as Ht.
    specialize (Ht ltac:(intros n f v x x' Hn Hf Hx; unfold workflow_setters in Hf; by_key Hf; setter Hx; done) Hnd o o' Hs).
    destruct (dict_get vs "workflow_template") as [v|] eqn:Hd; [|by rewrite Ht].
    destruct Ht as (o1 & o2 & Hx & ->). cbn in Hx. apply column_inv in Hx as (a & Ha & ->). cbn.
    destruct (Hv eq_refl v eq_refl) as [->|(wt & Hin & ->)]; [by injection Ha as <-|].
    injection Ha as <-. exact (elem_key (R:=template_row) wt _ Hin).
  - pose proof (set_attributes_one workflow_setters wf_parent "" vs) as Hp.
    specialize (Hp ltac:(intros n f v x x' Hn Hf Hx; unfold workflow_setters in Hf; by_key Hf; setter Hx; done) Hnd o o' Hs).
    cbn [dict_get workflow_setters] in Hp. destruct (dict_get vs ""); by rewrite Hp.
Qed.
Lemma workflow_refs : RefLaws WorkflowViewSet workflow_fits
  (λ t o, wf_id o ∈ keys (t_workflows t) ∧ workflow_fits t o).
Proof.
  split; cbn [mv_find mv_create mv_update mv_delete mv_resource mv_setters mv_new WorkflowViewSet].
  - apply get_object_reads.
  - intros pk w o t Hw HR Hf. apply get_object_inv in Hf. destruct (get_inv _ _ _ _ Hf) as (_ & t' & Hw' & Hin & _).
    rewrite Hw in Hw'. injection Hw' as <-. split; [exact (elem_key (R:=workflow_row) o _ Hin)|].
    pose proof (rf_workflows _ HR) as Hall. rewrite Forall_forall in Hall. by apply Hall.
  - intros t vs o Hv Hs. eapply workflow_set; [exact Hv| |exact Hs]. by split.
  - intros t partial vs o o' Hv [Hid Hf] Hs. pose proof (set_attributes_kept _ _ workflow_saves vs o o' Hs) as Hk.
    unfold same_row in Hk. cbn in Hk. split; [by rewrite Hk|by eapply workflow_set].
  - intros t o HR Hf. apply (leads_world (λ w, cur w = Some t) RefsNow). unfold create_workflow. apply leads_then with (Q := RefsNow).
    + apply leads_insert. intros. by apply refs_new_workflow; [|exact Hf].
    + intros wf. eapply leads_keeps; [|apply frame_after_save]; [done| |]; intros w; done.
  - intros t _ o HR [Hid Hf]. apply (leads_world (λ w, cur w = Some t) RefsNow). unfold save_workflow. apply leads_then with (Q := RefsNow).
    + apply leads_save. intros m. by apply refs_write_workflow.
    + intros wf. eapply leads_keeps; [|apply frame_after_save]; [done| |]; intros w; done.
  - intros t o HR _ w Hw. rewrite (delete_workflow_run o w t Hw). eapply refs_now; [|apply cur_with_tenant].
    by apply refs_without_workflows.
Qed.
Lemma task_set t partial vs o o' : valid_refs RTask partial t vs → partial = false ∨ task_fits t o →
  set_attributes task_setters vs o = Ok o' → task_fits t o'.
Proof using.
  intros [Hnd Hv _] Ho Hs. pose proof (set_attributes_one task_setters tk_workflow "workflow" vs) as Ht.
  specialize (Ht ltac:(intros n f v x x' Hn Hf Hx; unfold task_setters in Hf; by_key Hf; setter Hx; done) Hnd o o' Hs).
  specialize (Hv eq_refl). unfold task_fits. destruct (dict_get vs "workflow") as [v|].
  - destruct Ht as (o1 & o2 & Hx & ->). cbn in Hx. apply column_inv in Hx as (a & Ha & ->). cbn.
    destruct Hv as (wf & Hin & ->). injection Ha as <-. exact (elem_key (R:=workflow_row) wf _ Hin).
  - rewrite Ht. by destruct Ho as [->|].
Qed.
Lemma task_refs : RefLaws TaskViewSet task_fits task_fits.
Proof.
  split; cbn [mv_find mv_create mv_update mv_delete mv_resource mv_setters mv_new TaskViewSet].
  - apply get_object_reads.
  - intros pk w o t Hw HR Hf. apply get_object_inv in Hf. destruct (get_inv _ _ _ _ Hf) as (_ & t' & Hw' & Hin & _).
    rewrite Hw in Hw'. injection Hw' as <-. pose proof (rf_tasks _ HR) as Hall. rewrite Forall_forall in Hall. by apply Hall.
  - intros t vs o Hv Hs. eapply task_set; [exact Hv|by left|exact Hs].
  - intros t partial vs o o' Hv Hf Hs. eapply task_set; [exact Hv|by right|exact Hs].
  - intros t o HR Hf. apply (leads_world (λ w, cur w = Some t) RefsNow). unfold insert_task. destruct (tk_space o); [|apply leads_raise; intros; by eapply refs_now].
    apply leads_insert. intros. apply refs_tasks; [done|]. apply Forall_app. split; [apply HR|]. by apply Forall_singleton.
  - intros t _ o HR Hf. apply (leads_world (λ w, cur w = Some t) RefsNow). unfold save_task. destruct (tk_space o); [|apply leads_raise; intros; by eapply refs_now].
    apply leads_save. intros m. apply refs_tasks; [done|]. apply Forall_write_row; [done|apply HR].
  - intros t o HR _ w Hw. rewrite (delete_rows_run _ w t Hw). eapply refs_now; [|apply cur_with_tenant].
    apply refs_tasks; [done|]. apply Forall_filter_rows, HR.
Qed.
Lemma leads_crontab t c : Refs t → Leads (λ w, cur w = Some t) (get_or_create_crontab c) RefsNow.
Proof using.
  intros HR w Hw. unfold get_or_create_crontab. rewrite (bind_ok _ _ _ _ _ (filter_run _ w t Hw)).
  destruct (ordered _) as [|c' [|]]; [|by eapply refs_now..]. apply (leads_insert t); [|done]. intros.
  apply refs_crontabs; [done|]. intros i Hi. unfold keys. cbn. rewrite fmap_app. apply elem_of_app. by left.
Qed.
Lemma leads_kwargs P kw : Leads RefsNow (update_rows P (set_sc_kwargs kw)) RefsNow.
Proof using.
  intros w HR. destruct (cur w) as [t|] eqn:Hw.
  - rewrite (update_run _ _ w t Hw). eapply refs_now; [|apply cur_with_tenant]. specialize (HR t Hw).
    apply refs_schedules; [done|]. cbn. apply Forall_map. eapply Forall_impl; [exact (rf_schedules _ HR)|].
    intros r Hr. by destruct (P r).
  - unfold update_rows, current_tenant, mbind, ST_bind. unfold cur in Hw. by rewrite Hw.
Qed.
Lemma leads_save_schedule t o : Refs t → Leads (λ w, cur w = Some t) (save_schedule o) RefsNow.
Proof using.
  intros HR. assert (∀ w, cur w = Some t → RefsNow w) as Hnow by (intros; by eapply refs_now).
  unfold save_schedule. apply (leads_bind _ _ Hnow) with (φ := anything); [apply quiet_get|]. intros sp _.
  apply (leads_bind _ _ Hnow) with (φ := anything); [apply frame_require|]. intros c _ w Hw.
  pose proof (leads_crontab t c HR w Hw) as Hc. unfold mbind at 1, ST_bind at 1.
  destruct (get_or_create_crontab c w) as [[c'|e] w1] eqn:E; [|done].
  destruct (get_or_create_inv _ _ _ _ E) as (t0 & t1 & Hw0 & Hw1 & Ht1 & Hin & _). specialize (Hc t1 Hw1).
  assert (∀ r, sc_crontab r = Some (ct_id c') → schedule_fits t1 r) as Hfit.
  { intros r Hr. unfold schedule_fits. rewrite Hr. exact (elem_key (R:=crontab_row) c' _ Hin). }
  destruct (so_saved o).
  - apply (leads_then (λ w, cur w = Some t1) RefsNow); [|by intros ? ?|exact Hw1].
    apply leads_save. intros m. apply refs_schedules; [done|].
    apply Forall_write_row; [by apply Hfit|apply Hc].
  - apply (leads_then (λ w, cur w = Some t1) RefsNow); [| |exact Hw1].
    + apply leads_insert. intros. apply refs_schedules; [done|]. apply Forall_app. split; [apply Hc|].
      apply Forall_singleton. by apply Hfit.
    + intros r. apply leads_then with (Q := RefsNow); [apply leads_kwargs|]. by intros _ ? ?.
Qed.
Lemma schedule_refs : RefLaws ScheduleViewSet (λ _ _, True) (λ _ _, True).
Proof.
  split; cbn [mv_find mv_create mv_update mv_delete mv_resource mv_setters mv_new ScheduleViewSet]; try done.
  - apply (sv_reads schedule_saves).
  - intros t o HR _. by apply (leads_world (λ w, cur w = Some t) RefsNow), leads_save_schedule.
  - intros t _ o HR _. by apply (leads_world (λ w, cur w = Some t) RefsNow), leads_save_schedule.
  - intros t o HR _ w Hw. rewrite (delete_rows_run _ w t Hw). eapply refs_now; [|apply cur_with_tenant].
    apply refs_schedules; [done|]. apply Forall_filter_rows, HR.
Qed.

Lemma hidden_values_reads user ser w : Keeps (λ w', w' = w) (hidden_values user ser) anything.
Proof using.
  induction ser as [|[n k] ser IH]; [by apply keeps_ret|]. cbn [hidden_values].
  eapply keeps_bind with (φ := anything); [intros ? ->; by rewrite hidden_default_reads|].
  intros v _. eapply keeps_bind; [exact IH|]. intros. by apply keeps_ret.
Qed.
Lemma validated_data_reads r user pk partial data w : (validated_data r user pk partial data w).2 = w.
Proof.
  assert (Keeps (λ w', w' = w) (validated_data r user pk partial data) anything) as Hk.
  { unfold validated_data. eapply keeps_bind with (φ := anything); [intros ? ->; by rewrite validation_reads|].
    intros vs _. eapply keeps_bind with (φ := anything); [destruct partial; [by apply keeps_ret|apply hidden_values_reads]|].
    intros. by apply keeps_ret. }
  by apply Hk.
Qed.

Section View.
Context {O : Type} (mv : model_view O) (fits found : tenant → O → Prop).
Context (L : RefLaws mv fits found) (Q : quiet (mv_relations mv)) (t : tenant) (HR : Refs t).
Abbreviation P := (λ s : world * store, cur s.1 = Some t).
Abbreviation Now := (λ s : world * store, RefsNow s.1).

Lemma refs_p s : P s → Now s.
Proof using HR. intros Hs. by eapply refs_now. Qed.
Lemma leads_shown (o : O) status : Leads Now
  (d ← on_world (representation mv o); mret (Resp status d) : ST (world * store) view_response) Now.
Proof using Q.
  intros [w st] Hw. unfold on_world, mbind, ST_bind. cbn in *.
  destruct (quiet_representation (serializer_class (mv_resource mv)) (mv_readers mv) (mv_relations mv) (cur w) o Q w eq_refl)
    as [Hq _]. unfold representation.
  destruct (to_representation _ _ _ _ _) as [[d|] w']; cbn in *; intros t' Ht'; apply Hw; by rewrite <- Hq.
Qed.
Lemma found_keeps pk : Keeps P (on_world (mv_find mv pk)) (found t).
Proof using L HR.
  intros [w st] Hw. unfold on_world. cbn in *. pose proof (L.(rl_reads _ _ _) pk w) as Hr.
  destruct (mv_find mv pk w) as [r w'] eqn:E. cbn in *. subst w'. split; [done|]. intros o ->.
  by eapply (rl_find _ _ _ L).
Qed.
Lemma validated_keeps user pk partial data :
  Keeps P (on_world (validated_data (mv_resource mv) user pk partial data)) (valid_refs (mv_resource mv) partial t).
Proof.
  intros [w st] Hw. unfold on_world. cbn in *.
  assert ((validated_data (mv_resource mv) user pk partial data w).2 = w) as Hr.
  { apply validated_data_reads. }
  destruct (validated_data _ _ _ _ _ w) as [r w'] eqn:E. cbn in *. subst w'. split; [done|]. intros vs ->.
  by eapply validated_refs.
Qed.
Lemma leads_edit user e : Leads P (run_edit mv user e) Now.
Proof.
  destruct e as [data|pk|partial pk data|pk]; cbn [run_edit].
  - apply (leads_bind _ _ refs_p) with (φ := valid_refs (mv_resource mv) false t); [apply validated_keeps|].
    intros vs Hv. apply (leads_bind _ _ refs_p) with (φ := λ o, fits t o).
    { apply keeps_lift. intros o Ho. by eapply (rl_new _ _ _ L). }
    intros o Ho. apply leads_then with (Q := Now); [by apply (rl_create _ _ _ L)|]. intros. apply leads_shown.
  - apply (leads_bind _ _ refs_p) with (φ := found t); [apply found_keeps|]. intros o _ s Hs.
    apply leads_shown. by apply refs_p.
  - apply (leads_bind _ _ refs_p) with (φ := found t); [apply found_keeps|]. intros o Ho.
    apply (leads_bind _ _ refs_p) with (φ := valid_refs (mv_resource mv) partial t); [apply validated_keeps|].
    intros vs Hv. apply (leads_bind _ _ refs_p) with (φ := found t).
    { apply keeps_lift. intros o' Ho'. by eapply (rl_set _ _ _ L). }
    intros o' Ho'. apply leads_then with (Q := Now); [by apply (rl_update _ _ _ L)|]. intros. apply leads_shown.
  - apply (leads_bind _ _ refs_p) with (φ := found t); [apply found_keeps|]. intros o Ho.
    apply leads_then with (Q := Now); [|by intros _ s Hs].
    by apply (leads_world (λ w, cur w = Some t) RefsNow), (rl_delete _ _ _ L).
Qed.
End View.

(** C21: edits keep the references.  Where every task has its workflow, every
    workflow its template and its parent, and every schedule its crontab, they
    still do after any request to the model view sets, whether it returns or
    raises: validation accepts the keys of rows only, and deleting a template or a
    workflow takes the rows that refer to it along, or clears what refers to it. *)
Theorem edits_keep_references r user e w st : RefsNow w → RefsNow (api key r user e (w, st)).2.1.
Proof.
  intros HR. destruct (cur w) as [t|] eqn:Hw.
  - specialize (HR t Hw). destruct r; cbn [api].
    + exact (leads_edit _ _ _ template_refs quiet_nil t HR user e (w, st) Hw).
    + exact (leads_edit _ _ _ workflow_refs quiet_workflow t HR user e (w, st) Hw).
    + exact (leads_edit _ _ _ task_refs quiet_nil t HR user e (w, st) Hw).
    + exact (leads_edit _ _ _ schedule_refs quiet_schedule t HR user e (w, st) Hw).
  - intros t' Ht'. destruct (api_confined key w r user e (w, st) (confined_refl _ _)) as [Hc _].
    pose proof (cf_tenant _ _ _ Hc) as Ht. by rewrite Hw, Ht' in Ht.
Qed.

Lemma destroy_template_run user wt w st t : cur w = Some t → the_row wt (rows (t_templates t)) →
  api key RTemplate user (Destroy (wt_id wt)) (w, st)
  = (Ok (Resp 204 PNone),
     (with_tenant (without_template (wt_id wt) (without_workflows (workflows_of (wt_id wt) t) t)) w, st)).
Proof using.
  intros Hw Hwt. cbn [api run_edit]. unfold api_destroy.
  rewrite (bind_ok _ _ _ wt (w, st)).
  2:{ unfold on_world. cbn. unfold get_object. by rewrite (try_ok _ _ _ _ _ (get_template_run wt w t Hw Hwt)). }
  rewrite (bind_ok _ _ _ tt (with_tenant (without_template (wt_id wt) (without_workflows (workflows_of (wt_id wt) t) t)) w, st)); [reflexivity|]. unfold on_world. cbn. by rewrite (delete_template_run wt w t Hw).
Qed.
Lemma destroy_workflow_run user wf w st t : cur w = Some t → the_row wf (rows (t_workflows t)) →
  api key RWorkflow user (Destroy (wf_id wf)) (w, st)
  = (Ok (Resp 204 PNone), (with_tenant (without_workflows [wf_id wf] t) w, st)).
Proof using.
  intros Hw Hwf. cbn [api run_edit]. unfold api_destroy.
  rewrite (bind_ok _ _ _ wf (w, st)).
  2:{ unfold on_world. cbn. unfold get_object. by rewrite (try_ok _ _ _ _ _ (get_workflow_run wf w t Hw Hwf)). }
  rewrite (bind_ok _ _ _ tt (with_tenant (without_workflows [wf_id wf] t) w, st)); [reflexivity|]. unfold on_world. cbn. by rewrite (delete_workflow_run wf w t Hw).
Qed.

(** C22: what deleting takes along.  Deleting a template removes it, the workflows
    that were made from it and their tasks, and nothing else; deleting a workflow
    removes it and its tasks; the workflows that one of the removed started lose
    their parent.  The request succeeds, and leaves the storage: the file of a
    deleted template stays there. *)
Theorem destroy_cascades user pk w st t : cur w = Some t →
  (∀ wt : template_row, the_row wt (rows (t_templates t)) → wt_id wt = pk →
     api key RTemplate user (Destroy pk) (w, st)
     = (Ok (Resp 204 PNone),
        (with_tenant (without_template pk (without_workflows (workflows_of pk t) t)) w, st))) ∧
  (∀ wf : workflow_row, the_row wf (rows (t_workflows t)) → wf_id wf = pk →
     api key RWorkflow user (Destroy pk) (w, st)
     = (Ok (Resp 204 PNone), (with_tenant (without_workflows [pk] t) w, st))).
Proof using.
  intros Hw. split.
  - intros wt Hwt <-. by apply destroy_template_run.
  - intros wf Hwf <-. by apply destroy_workflow_run.
Qed.
End RefRequests.

(** ** The requests of a concrete tenant *)

Lemma edit_refs : RefsNow edit_world.
Proof.
  intros t [= <-]. split; cbn; [| |by constructor].
  - apply Forall_singleton. split; cbn; [|done]. unfold keys. cbn. by left.
  - apply Forall_singleton. unfold task_fits, keys. cbn. by left.
Qed.
Lemma edits_confined_witness : Confined RTask edit_world (edit_api RTask demo_user task_patch (edit_world, files [])).2.1.
Proof.
  exact (@edits_confined demo_platform file_store (toy_crypto false "") demo_cron demo_validation demo_validation_ok
    demo_key edit_world RTask demo_user task_patch (files [])).
Defined.
Lemma edits_keep_references_witness :
  RefsNow (edit_api RTemplate demo_user (Destroy 1) (edit_world, files [])).2.1.
Proof.
  exact (@edits_keep_references demo_platform file_store (toy_crypto false "") demo_cron demo_validation demo_validation_ok
    demo_key RTemplate demo_user (Destroy 1) edit_world (files []) edit_refs).
Defined.
Lemma destroy_cascades_witness : let s := edit_api RTemplate demo_user (Destroy 1) (edit_world, files []) in
  s.1 = Ok (Resp 204 PNone) ∧ ∃ t, cur s.2.1 = Some t ∧ rows (t_templates t) = [] ∧ rows (t_workflows t) = []
    ∧ rows (t_tasks t) = [].
Proof.
  destruct (@destroy_cascades demo_platform file_store (toy_crypto false "") demo_cron demo_validation
    demo_key demo_user 1 edit_world (files []) edit_tenant eq_refl) as [Ht _].
  specialize (Ht (demo_template PNone) eq_refl eq_refl).
  unfold edit_api. rewrite Ht. split; [done|]. eexists. split; [apply cur_with_tenant|]. by split_and!.
Defined.

(** A whole update of a template makes the requester its owner: the hidden owner
    is given on every update that is not partial. *)
Definition bot_put : edit := Update false 1 (PDict [("user_code", PStr "com.demo.std:wf")]).
Example put_changes_owner :
  (t ← cur (edit_api RTemplate demo_bot bot_put (edit_world, files [])).2.1; wt_owner <$> head (rows (t_templates t)))
    = Some 2
  ∧ wt_owner (demo_template PNone) = 1.
Proof. split; vm_compute; reflexivity. Qed.
