(* ===== verification/Migrations.v ===== *)
(** * The migrations that carry code (workflow/migrations)

    The migration 0020 removes the templates that repeat the user code of another
    one, before 0021 makes the pair of user code and space unique; the migration
    0022 schedules the daily export.  The other migrations are in Evolution.v. *)
From Stdlib Require Import Ascii String.
From stdpp Require Import base list strings numbers gmap sets.
From S2P Require Import Prelude PyStr PyVal World Demo Finmars Models Manager Views Storage Serializers Editing.
From S2P Require Import Fixture Edited References.
Local Open Scope string_scope.
Local Open Scope Z_scope.
Local Open Scope list_scope.

(** ** Repeated templates *)

(** [.values("user_code", "space_id")] *)
Definition code_key (r : template_row) : option string * Z := (wt_user_code r, wt_space r).
Definition has_code (k : option string * Z) (r : template_row) : bool := bool_decide (code_key r = k).
(** [.annotate(count=Count("id")).filter(count__gt=1)]; null codes are grouped
    like the others. *)
Definition repeated (l : list template_row) : list (option string * Z) :=
  List.filter (λ k, bool_decide (1 < length (List.filter (has_code k) l))%nat) (remove_dups (code_key <$> l)).
(** [.order_by("-created_at")] *)
Fixpoint insert_newest (r : template_row) (l : list template_row) : list template_row :=
  match l with
  | [] => [r]
  | x :: l' => if wt_created_at x <=? wt_created_at r then r :: l else x :: insert_newest r l'
  end.
Definition newest_first_rows (l : list template_row) : list template_row := foldr insert_newest [] l.
(** [remove_duplicates]; [filter(user_code=None)] is IS NULL. *)
Definition remove_duplicates : M unit :=
  l ← objects_filter (λ _ : template_row, true);
  for_each (repeated l) (λ duplicate,
    rows ← objects_filter (has_code duplicate);
    for_each (tail (newest_first_rows rows)) delete_template).

(** ** The daily export *)

(** [PeriodicTask] of django-celery-beat, in the migrations' state *)
Record periodic_task : Type := PeriodicTask { pt_name : string; pt_crontab : Z; pt_task : string }.
Definition export_name : string := "Call backend historical records everyday".
Definition export_crontab : crontab_row := CrontabRow 0 "0" "5" "*" "*" "*".
(** [objects.update_or_create(name=..., defaults=...)]: names are unique. *)
Fixpoint update_or_create (t : periodic_task) (l : list periodic_task) : list periodic_task :=
  match l with
  | [] => [t]
  | x :: l' => if String.eqb (pt_name x) (pt_name t) then t :: l' else x :: update_or_create t l'
  end.
(** [create_crontab_task] and [remove_crontab_task], on the world and the table of
    the periodic tasks *)
Definition create_crontab_task : ST (world * list periodic_task) unit := λ s,
  match get_or_create_crontab export_crontab s.1 with
  | (Ok schedule, w) =>
      (Ok tt, (w, update_or_create (PeriodicTask export_name (ct_id schedule)
        "workflow.tasks.export_backend_historical_records.call_export_backend_historical_records") s.2))
  | (Raise e, w) => (Raise e, (w, s.2))
  end.
Definition remove_crontab_task : ST (world * list periodic_task) unit :=
  modify (λ s, (s.1, List.filter (λ t, negb (String.eqb (pt_name t) export_name)) s.2)).

(** ** What is removed *)

(** A tenant without some templates, and what goes with them *)
Definition made_from (ids : list Z) (wf : workflow_row) : bool :=
  match wf_template wf with Some i => among ids i | None => false end.
Definition workflows_with (ids : list Z) (t : tenant) : list Z :=
  wf_id <$> List.filter (made_from ids) (rows (t_workflows t)).
Definition without_templates (ids : list Z) (t : tenant) : tenant :=
  let t' := without_workflows (workflows_with ids t) t in
  set_t_templates (Table (List.filter (λ wt, negb (among ids (wt_id wt))) (rows (t_templates t)))
    (next_id (t_templates t))) t'.

Lemma without_workflows_app ids ids' t :
  without_workflows ids' (without_workflows ids t) = without_workflows (ids' ++ ids) t.
Proof.
  induction ids' as [|i ids' IH]; [apply without_none|].
  rewrite <- without_workflows_cons, IH, without_workflows_cons. done.
Qed.
Lemma without_template_cons i ids t :
  without_template i (without_workflows (workflows_of i (without_templates ids t)) (without_templates ids t))
  = without_templates (i :: ids) t.
Proof.
  set (t1 := without_workflows (workflows_with ids t) t).
  assert (workflows_of i (without_templates ids t) = workflows_of i t1) as -> by done.
  assert (without_workflows (workflows_of i t1) t1 = without_workflows (workflows_with (i :: ids) t) t) as E.
  { unfold t1. rewrite without_workflows_app. apply without_workflows_perm. intros j. rewrite elem_of_app.
    unfold workflows_of, workflows_with, without_workflows. cbn [t_workflows set_t_workflows rows set_t_tasks].
    rewrite filter_fmap_rows, filter_twice, !list_elem_of_fmap.
    setoid_rewrite list_elem_of_In. setoid_rewrite filter_In. split.
    - intros [(x & -> & Hx)|(x & -> & Hin & Hx)].
      + apply in_map_iff in Hx as (y & <- & Hy). apply filter_In in Hy as [Hin Hy]. exists y.
        rewrite (proj1 (orphan_id _ _)), (proj2 (orphan_id _ _)) in *. split; [done|]. split; [done|].
        apply andb_true_iff in Hy as [Hy _]. apply bool_decide_eq_true in Hy. unfold made_from. rewrite Hy, among_cons.
        by rewrite Z.eqb_refl.
      + exists x. split; [done|]. split; [done|]. unfold made_from in *. destruct (wf_template x) as [k|]; [|done].
        by rewrite among_cons, Hx, orb_true_r.
    - intros (x & -> & Hin & Hx). unfold made_from in Hx. destruct (wf_template x) as [k|] eqn:Hk; [|done].
      rewrite among_cons in Hx. apply orb_true_iff in Hx as [Hx|Hx].
      + apply Z.eqb_eq in Hx as ->. destruct (among (workflows_with ids t) (wf_id x)) eqn:Ha.
        * right. apply among_spec in Ha. unfold workflows_with in Ha. apply list_elem_of_fmap in Ha as (y & Hy & Hyin).
          apply list_elem_of_In, filter_In in Hyin. by exists y.
        * left. exists (orphan (workflows_with ids t) x). split; [symmetry; apply orphan_id|].
          apply in_map_iff. exists x. split; [done|]. apply filter_In. split; [done|].
          rewrite (proj2 (orphan_id _ _)), Hk. unfold workflows_with in Ha. rewrite Ha. by rewrite bool_decide_eq_true_2.
      + right. exists x. split; [done|]. split; [done|]. unfold made_from. by rewrite Hk. }
  unfold without_template, without_templates. cbn zeta. fold t1. rewrite <- E.
  unfold without_workflows, set_t_templates, set_t_workflows, set_t_tasks. cbn. do 2 f_equal.
  rewrite filter_twice. apply filter_ext. intros x. rewrite among_cons. by rewrite negb_orb.
Qed.

(** Deleting templates one after the other *)
Lemma delete_templates_run l : ∀ w t ids, cur w = Some (without_templates ids t) →
  ∃ w', for_each l delete_template w = (Ok tt, w') ∧
    cur w' = Some (without_templates (rev (wt_id <$> l) ++ ids) t).
Proof.
  induction l as [|wt l IH]; intros w t ids Hw; [by exists w|]. cbn [for_each].
  rewrite (bind_ok _ _ _ _ _ (delete_template_run wt w _ Hw)), without_template_cons.
  destruct (IH (with_tenant (without_templates (wt_id wt :: ids) t) w) t (wt_id wt :: ids) (cur_with_tenant _ _))
    as (w' & E & Hw'). exists w'. split; [done|].
  cbn [fmap list_fmap rev]. by rewrite <- app_assoc.
Qed.
Lemma templates_left ids t : rows (t_templates (without_templates ids t))
  = List.filter (λ wt, negb (among ids (wt_id wt))) (rows (t_templates t)).
Proof. done. Qed.

(** ** The order of creation *)

Lemma insert_newest_perm r l : insert_newest r l ≡ₚ r :: l.
Proof.
  induction l as [|x l IH]; [done|]. cbn. destruct (_ <=? _); [done|]. by rewrite IH, Permutation_swap.
Qed.
Lemma newest_first_perm l : newest_first_rows l ≡ₚ l.
Proof. induction l as [|r l IH]; [done|]. cbn. by rewrite insert_newest_perm, IH. Qed.
Lemma newest_head l r rest : newest_first_rows l = r :: rest → ∀ x, x ∈ l → wt_created_at x ≤ wt_created_at r.
Proof.
  revert r rest. induction l as [|y l IH]; intros r rest E x Hx; [by apply elem_of_nil in Hx|].
  change (newest_first_rows (y :: l)) with (insert_newest y (newest_first_rows l)) in E.
  pose proof (newest_first_perm l) as Hp. destruct (newest_first_rows l) as [|z k] eqn:El; cbn in E.
  - apply Permutation_nil_l in Hp. subst l. injection E as <- <-. by apply list_elem_of_singleton in Hx as ->.
  - destruct (Z.leb_spec (wt_created_at z) (wt_created_at y)) as [Hle|Hlt]; injection E as <- <-.
    + apply elem_of_cons in Hx as [->|Hx]; [lia|]. specialize (IH z k eq_refl x Hx). lia.
    + apply elem_of_cons in Hx as [->|Hx]; [lia|]. by apply (IH z k eq_refl).
Qed.

(** ** Counting *)

Lemma NoDup_by_groups {A} (f : A → option string * Z) (l : list A) :
  (∀ k, (length (List.filter (λ x, bool_decide (f x = k)) l) ≤ 1)%nat) → NoDup (f <$> l).
Proof.
  induction l as [|x l IH]; intros Hk; [constructor|]. cbn. constructor.
  - intros (y & Hy & Hin)%list_elem_of_fmap. specialize (Hk (f x)). cbn in Hk.
    rewrite bool_decide_eq_true_2 in Hk by done. cbn in Hk.
    assert (In y (List.filter (λ z, bool_decide (f z = f x)) l)) as Hf.
    { apply filter_In. split; [by apply list_elem_of_In|]. by apply bool_decide_eq_true. }
    destruct (List.filter _ l); [done|]. cbn in Hk. lia.
  - apply IH. intros k. specialize (Hk k). cbn in Hk. destruct (bool_decide _); cbn in Hk; lia.
Qed.
Lemma filter_rows_perm {A} (p : A → bool) l l' : l ≡ₚ l' → List.filter p l ≡ₚ List.filter p l'.
Proof.
  induction 1 as [|x l l' _ IH|x y l|l l' l'' _ IH1 _ IH2]; cbn; [done| | |by rewrite IH1].
  - destruct (p x); by rewrite IH.
  - destruct (p x), (p y); try done. apply Permutation_swap.
Qed.
Lemma filter_rows_nil {A} (p : A → bool) l : (∀ x, x ∈ l → p x = false) → List.filter p l = [].
Proof.
  induction l as [|x l IH]; intros Hp; [done|]. cbn. rewrite (Hp x) by left. apply IH. intros y Hy. apply Hp. by right.
Qed.
Lemma filter_rows_all {A} (p : A → bool) l : (∀ x, x ∈ l → p x = true) → List.filter p l = l.
Proof.
  induction l as [|x l IH]; intros Hp; [done|]. cbn. rewrite (Hp x) by left. f_equal. apply IH. intros y Hy. apply Hp. by right.
Qed.
Lemma filter_swap {A} (p q : A → bool) l : List.filter p (List.filter q l) = List.filter q (List.filter p l).
Proof. rewrite !filter_twice. apply filter_ext. intros. apply andb_comm. Qed.

(** ** The migration *)

Section Repeated.
Context (t : tenant) (Hids : NoDup (wt_id <$> rows (t_templates t))).
Abbreviation templates := (rows (t_templates t)).

(** The templates with a code, and those of them that go *)
Definition group (k : option string * Z) : list template_row := List.filter (has_code k) templates.
Definition older (k : option string * Z) : list template_row := tail (newest_first_rows (group k)).

Lemma group_spec k r : r ∈ group k ↔ code_key r = k ∧ r ∈ templates.
Proof using. unfold group. rewrite !list_elem_of_In, filter_In. unfold has_code. rewrite bool_decide_eq_true. tauto. Qed.
Lemma older_group k r : r ∈ older k → r ∈ group k.
Proof using.
  intros Hr. rewrite <- newest_first_perm. unfold older in Hr. destruct (newest_first_rows _); [done|]. by right.
Qed.
Lemma same_id r r' : r ∈ templates → r' ∈ templates → wt_id r = wt_id r' → r = r'.
Proof using Hids.
  intros Hr Hr' E. apply list_elem_of_lookup in Hr as [i Hi]. apply list_elem_of_lookup in Hr' as [j Hj].
  assert (i = j) as ->; [|congruence]. eapply (NoDup_lookup _ _ _ (wt_id r) Hids); rewrite list_lookup_fmap, ?Hi, ?Hj; cbn; congruence.
Qed.
(** The group of a code that has not been cleaned *)
Lemma group_left ids k : (∀ i, i ∈ ids → ∃ r k', wt_id r = i ∧ r ∈ group k' ∧ k' ≠ k) →
  List.filter (has_code k) (rows (t_templates (without_templates ids t))) = group k.
Proof using Hids.
  intros Hi. rewrite templates_left, filter_swap. apply filter_rows_all. intros r Hr. apply negb_true_iff, not_true_iff_false.
  intros Ha%among_spec. destruct (Hi _ Ha) as (r' & k' & E & Hr' & Hk). apply group_spec in Hr' as [Hk' Hr'].
  apply group_spec in Hr as [Hk'' Hr]. apply Hk. rewrite <- Hk', <- Hk''. by rewrite (same_id r' r).
Qed.

Lemma remove_groups_run ks : ∀ w ids, NoDup ks → cur w = Some (without_templates ids t) →
  (∀ i, i ∈ ids → ∃ r k', wt_id r = i ∧ r ∈ group k' ∧ k' ∉ ks) →
  ∃ w' ids', for_each ks (λ duplicate,
      rows ← objects_filter (has_code duplicate);
      for_each (tail (newest_first_rows rows)) delete_template) w = (Ok tt, w') ∧
    cur w' = Some (without_templates ids' t) ∧
    ∀ i, i ∈ ids' ↔ i ∈ ids ∨ ∃ k, k ∈ ks ∧ i ∈ wt_id <$> older k.
Proof using Hids.
  induction ks as [|k ks IH]; intros w ids Hnd Hw Hi.
  { exists w, ids. split_and!; [done|done|]. intros i. split; [by left|]. intros [?|(? & []%elem_of_nil & _)]. done. }
  apply NoDup_cons in Hnd as [Hk Hnd]. cbn [for_each].
  destruct (delete_templates_run (older k) w t ids Hw) as (w1 & E1 & Hw1).
  destruct (IH w1 _ Hnd Hw1) as (w' & ids' & E & Hw' & Hids').
  { intros i [Hi'|Hi']%elem_of_app.
    - rewrite list_elem_of_In, <- in_rev, <- list_elem_of_In in Hi'. apply list_elem_of_fmap in Hi' as (r & -> & Hr).
      exists r, k. split_and!; [done|by apply older_group|done].
    - destruct (Hi i Hi') as (r & k' & Hr & Hg & Hk'). exists r, k'. split_and!; [done|done|]. set_solver. }
  exists w', ids'. split_and!; [|done|].
  - rewrite (bind_ok _ _ _ tt w1); [exact E|]. rewrite (bind_ok _ _ _ _ _ (filter_run _ w _ Hw)).
    unfold ordered. cbn [newest_first template_model get_table]. rewrite group_left; [exact E1|].
    intros i Hi'. destruct (Hi i Hi') as (r & k' & Hr & Hg & Hk'). exists r, k'. split_and!; [done|done|]. intros ->. apply Hk'. left.
  - intros i. rewrite Hids', elem_of_app, list_elem_of_In, <- in_rev, <- list_elem_of_In. setoid_rewrite elem_of_cons. naive_solver.
Qed.

Lemma repeated_spec k : k ∈ repeated templates ↔ (1 < length (group k))%nat.
Proof using.
  unfold repeated. rewrite list_elem_of_In, filter_In, <- list_elem_of_In, elem_of_remove_dups, bool_decide_eq_true.
  split; [by intros [_ ?]|]. intros Hl. split; [|done]. unfold group in Hl.
  destruct (group k) as [|r l] eqn:E; [unfold group in E; rewrite E in Hl; cbn in Hl; lia|].
  assert (r ∈ group k) as Hr by (rewrite E; left). apply group_spec in Hr as [<- Hr].
  apply list_elem_of_fmap. by exists r.
Qed.
Lemma newest_NoDup k : NoDup (newest_first_rows (group k)).
Proof using Hids.
  rewrite newest_first_perm. apply NoDup_ListNoDup, List.NoDup_filter, NoDup_ListNoDup. by eapply NoDup_fmap_1.
Qed.

(** C33: the migration makes the user codes unique, and keeps the newest.  On every
    schema whose templates have distinct keys it succeeds, and what it leaves is
    the schema without some templates, the workflows made from them and their
    tasks: no two templates that are left have the same user code and space, and
    for each one removed a template that was created no earlier, with the same
    user code and space, is left. *)
Theorem duplicates_removed w : cur w = Some t → ∃ w' ids,
  remove_duplicates w = (Ok tt, w') ∧ cur w' = Some (without_templates ids t) ∧
  let left := rows (t_templates (without_templates ids t)) in
  NoDup (code_key <$> left) ∧
  ∀ i, i ∈ ids → ∃ r r', r ∈ templates ∧ wt_id r = i ∧ r' ∈ left ∧ code_key r' = code_key r ∧
    wt_created_at r ≤ wt_created_at r'.
Proof using Hids.
  intros Hw. assert (NoDup (repeated templates)) as Hnd.
  { apply NoDup_ListNoDup, List.NoDup_filter, NoDup_ListNoDup, NoDup_remove_dups. }
  assert (without_templates [] t = t) as Hnone.
  { unfold without_templates. assert (workflows_with [] t = []) as ->.
    { unfold workflows_with. rewrite filter_rows_nil; [done|]. intros x _. unfold made_from. by destruct (wf_template x). }
    rewrite without_none, (filter_rows_all _ (rows (t_templates t))) by done. by destruct t as [? ? [] ? ? ? ? ?]. }
  destruct (remove_groups_run (repeated templates) w [] Hnd) as (w' & ids & E & Hw' & Hin);
    [by rewrite Hnone|by intros i Hi%elem_of_nil|].
  exists w', ids. split; [|split; [done|]].
  { unfold remove_duplicates. rewrite (bind_ok _ _ _ _ _ (filter_run _ w t Hw)). unfold ordered.
    cbn [newest_first template_model get_table]. by rewrite (filter_rows_all _ templates). }
  assert (∀ r k, r ∈ group k → wt_id r ∈ ids → r ∈ older k) as Holder.
  { intros r k Hr Hi. apply Hin in Hi as [Hi|(k' & _ & Hi)]; [by apply elem_of_nil in Hi|].
    apply list_elem_of_fmap in Hi as (r' & Hid & Hr'). pose proof (older_group k' r' Hr') as Hg.
    apply group_spec in Hr as [<- Hr], Hg as [<- Hg]. by rewrite (same_id r r'). }
  cbn zeta. split.
  - apply NoDup_by_groups. intros k. rewrite templates_left, filter_swap. change (List.filter _ templates) with (group k).
    destruct (decide (1 < length (group k))%nat) as [Hl|Hl]; [|].
    + rewrite (Permutation_length (filter_rows_perm _ _ _ (symmetry (newest_first_perm (group k))))).
      destruct (newest_first_rows (group k)) as [|h rest] eqn:En; [cbn; lia|]. cbn.
      assert (List.filter (λ wt, negb (among ids (wt_id wt))) rest = []) as ->.
      { apply filter_rows_nil. intros r Hr. apply negb_false_iff, among_spec, Hin. right. exists k.
        split; [by apply repeated_spec|]. apply list_elem_of_fmap. exists r. split; [done|]. unfold older. by rewrite En. }
      destruct (negb _); cbn; lia.
    + pose proof (List.filter_length_le (λ wt, negb (among ids (wt_id wt))) (group k)). lia.
  - intros i Hi. destruct (proj1 (Hin i) Hi) as [Hi'|(k & Hk & Hi')]; [by apply elem_of_nil in Hi'|].
    apply list_elem_of_fmap in Hi' as (r & -> & Hr). pose proof (older_group k r Hr) as Hg.
    pose proof (newest_NoDup k) as Hnd'. unfold older in Hr.
    destruct (newest_first_rows (group k)) as [|h rest] eqn:En; [by apply elem_of_nil in Hr|]. cbn in Hr.
    assert (h ∈ group k) as Hh by (rewrite <- newest_first_perm, En; left).
    exists r, h. pose proof (proj1 (group_spec k r) Hg) as [Hkr Hrt]. pose proof (proj1 (group_spec k h) Hh) as [Hkh Hht].
    split_and!; [done|done| |congruence|by eapply newest_head; [exact En|]].
    rewrite templates_left, list_elem_of_In, filter_In, <- list_elem_of_In. split; [done|].
    apply negb_true_iff, not_true_iff_false. intros Ha%among_spec. pose proof (Holder h k Hh Ha) as Ho.
    unfold older in Ho. rewrite En in Ho. apply NoDup_cons in Hnd' as [Hn _]. done.
Qed.
End Repeated.

(** The migration keeps the references. *)
Lemma refs_without_templates ids t : Refs t → Refs (without_templates ids t).
Proof.
  intros HR. pose proof (refs_without_workflows (workflows_with ids t) t HR) as [Hw Ht Hs]. split; [|done|done].
  cbn. cbn in Hw. rewrite Forall_forall in *. intros wf Hwf. destruct (Hw wf Hwf) as [H1 H2]. split; [|done].
  apply list_elem_of_fmap in Hwf as (c & -> & Hc). rewrite (proj2 (orphan_id _ _)) in H1 |- *.
  apply list_elem_of_In, filter_In in Hc as [Hc Ha]. destruct (wf_template c) as [j|] eqn:Hj; [|done].
  cbn in *. unfold keys in *. apply list_elem_of_fmap in H1 as (x & -> & Hx). cbn. apply list_elem_of_fmap.
  exists x. split; [done|]. rewrite list_elem_of_In, filter_In, <- list_elem_of_In. split; [done|].
  apply negb_true_iff, not_true_iff_false. intros Hi. apply negb_true_iff, not_true_iff_false in Ha. apply Ha, among_spec.
  apply list_elem_of_fmap. exists c. split; [done|]. rewrite list_elem_of_In, filter_In. split; [done|].
  unfold made_from. by rewrite Hj.
Qed.

(** ** The daily export is scheduled once *)

Definition named (t : periodic_task) : bool := String.eqb (pt_name t) export_name.
Lemma update_or_create_named t l : pt_name t = export_name → (length (List.filter named l) ≤ 1)%nat →
  List.filter named (update_or_create t l) = [t].
Proof.
  intros Ht. induction l as [|x l IH]; intros Hl; cbn.
  - unfold named. by rewrite Ht, String.eqb_refl.
  - rewrite Ht. cbn in Hl. unfold named at 1 in Hl. destruct (String.eqb (pt_name x) export_name) eqn:Hx; cbn.
    + unfold named at 1. rewrite Ht, String.eqb_refl. cbn in Hl. destruct (List.filter named l); [done|cbn in Hl; lia].
    + unfold named at 1. rewrite Hx. by apply IH.
Qed.
(** Migrating, once or again, leaves one periodic task for the export, at five
    o'clock; migrating back removes it. *)
Lemma export_scheduled w l w' l' : (length (List.filter named l) ≤ 1)%nat →
  create_crontab_task (w, l) = (Ok tt, (w', l')) →
  (∃ c t', cur w' = Some t' ∧ c ∈ rows (t_crontabs t') ∧ crontab_line (Some c) = Some "0 5 * * *" ∧
     ∃ t, List.filter named l' = [t] ∧ pt_crontab t = ct_id c) ∧
  List.filter named (remove_crontab_task (w', l')).2.2 = [].
Proof.
  intros Hl E. unfold create_crontab_task in E. cbn [fst snd] in E.
  destruct (get_or_create_crontab export_crontab w) as [[c|e] w1] eqn:Eg; [|done]. injection E as <- <-. split.
  - destruct (get_or_create_inv _ _ _ _ Eg) as (t & t1 & _ & Hw1 & _ & Hin & Hs). exists c, t1.
    split_and!; [done|done|by rewrite (same_crontab_line _ _ Hs)|]. eexists. split; [by apply update_or_create_named|done].
  - cbn. apply filter_rows_nil. intros x Hx. rewrite list_elem_of_In, filter_In in Hx. unfold named.
    destruct Hx as [_ Hx]. by apply negb_true_iff.
Qed.

(** ** A tenant with repeated templates *)

Definition copy (i created : Z) (code : option string) : template_row :=
  set_wt_created_at created (set_wt_id i (set_wt_user_code code (demo_template PNone))).
Definition copies : tenant :=
  set_t_templates (Table [copy 1 10 (Some "com.demo:wf"); copy 2 30 (Some "com.demo:wf"); copy 3 20 (Some "com.demo:wf");
    copy 4 40 None; copy 5 50 None] 6) edit_tenant.
Definition copies_world : world := set_w_path "space00000" (demo_world copies).
Lemma duplicates_removed_witness : ∃ w' t', remove_duplicates copies_world = (Ok tt, w') ∧ cur w' = Some t' ∧
  NoDup (code_key <$> rows (t_templates t')).
Proof.
  destruct (duplicates_removed copies) with (w := copies_world) as (w' & ids & E & Hw & Hn & _).
  - by apply (bool_decide_unpack _).
  - reflexivity.
  - exists w', (without_templates ids copies). split_and!; [exact E|exact Hw|exact Hn].
Defined.
(** The runs of an older copy go with it, and templates without a code, which
    nothing forbids, count as copies of each other. *)
Example history_removed :
  (t ← cur (remove_duplicates copies_world).2;
   Some (wt_id <$> rows (t_templates t), length (rows (t_workflows t)), length (rows (t_tasks t))))
  = Some ([2; 5], 0%nat, 0%nat).
Proof. vm_compute. reflexivity. Qed.
