(* ===== verification/Evolution.v ===== *)
(** * The schema the migrations build (workflow/migrations, workflow/models.py)

    Every schema of a tenant gets its tables from the migrations; the code reads
    and writes them as workflow/models.py declares them.  Here the migrations are
    run on Django's model state, operation by operation, and the result is compared
    with the declarations: the columns, their types and constraints, the options
    that matter to queries, and the choices of the statuses are the same.  The same
    is done for the error records and the health check.  The two migrations that
    carry code are in Migrations.v. *)
From Stdlib Require Import Ascii String.
From stdpp Require Import base list strings numbers gmap sets.
From S2P Require Import Prelude PyStr PyVal Json World Editing.
Local Open Scope string_scope.
Local Open Scope Z_scope.
Local Open Scope list_scope.

(** ** Fields *)

(** A field: its class and the keyword arguments it is declared with *)
Record field : Type := Field { f_class : string; f_kwargs : list (string * pyval) }.
(** The keyword arguments that come up most *)
Definition null : string * pyval := ("null", PBool true).
Definition blank : string * pyval := ("blank", PBool true).
Definition indexed : string * pyval := ("db_index", PBool true).
Definition cascade : string * pyval := ("on_delete", PStr "CASCADE").
Definition set_null : string * pyval := ("on_delete", PStr "SET_NULL").
Definition auto_now : string * pyval := ("auto_now", PBool true).
Definition auto_now_add : string * pyval := ("auto_now_add", PBool true).
Definition off : string * pyval := ("default", PBool false).
Definition on : string * pyval := ("default", PBool true).
Definition max_length (n : Z) : string * pyval := ("max_length", PInt n).
Definition verbose (s : string) : string * pyval := ("verbose_name", PStr s).
Definition related (s : string) : string * pyval := ("related_name", PStr s).
Definition help (s : string) : string * pyval := ("help_text", PStr s).
Definition to (s : string) : string * pyval := ("to", PStr s).
Definition choices (l : list (string * string)) : string * pyval :=
  ("choices", PList ((λ c, PList [PStr c.1; PStr c.2]) <$> l)).
(** The primary key Django adds, of the class DEFAULT_AUTO_FIELD *)
Definition auto_id : field :=
  Field "AutoField" [("auto_created", PBool true); ("primary_key", PBool true); ("serialize", PBool false); verbose "ID"].
(** Settings of the project and constants of workflow/models.py *)
Definition AUTH_USER_MODEL : string := "workflow.User".
Definition LANGUAGE_CODE : string := "en".
Definition TIME_ZONE : string := "UTC".
Definition LANGUAGE_MAX_LENGTH : Z := 5.
Definition TIMEZONE_MAX_LENGTH : Z := 20.

(** ** Migrations *)

(** The operations of django.db.migrations; [AddField] says whether the default is
    kept, [RunPython] leaves the state. *)
Inductive operation : Type :=
  | CreateModel (name : string) (fields : list (string * field)) (options : list (string * pyval)) (bases : list string)
  | DeleteModel (name : string)
  | AddField (model_name name : string) (f : field) (preserve_default : bool)
  | RemoveField (model_name name : string)
  | AlterField (model_name name : string) (f : field)
  | RenameField (model_name old_name new_name : string)
  | AlterModelOptions (name : string) (options : list (string * pyval))
  | AlterUniqueTogether (name : string) (unique_together : pyval)
  | RunPython.
Record migration : Type := Migration {
  mg_name : string; mg_dependencies : list (string * string); mg_operations : list operation }.

(** [ModelState] and [ProjectState] (one application) *)
Record model_state : Type := ModelState {
  ms_fields : list (string * field); ms_options : list (string * pyval); ms_bases : list string }.
Abbreviation project_state := (list (string * model_state)).

(** Changing the fields or the options of a model *)
Definition change_model (name : string) (f : model_state → res model_state) (s : project_state) : res project_state :=
  match dict_get s (lower name) with
  | Some m => m' ← f m; Ok (dict_set s (lower name) m')
  | None => Raise (KeyError name)
  end.
Definition with_fields (f : list (string * field) → res (list (string * field))) (m : model_state) : res model_state :=
  fs ← f (ms_fields m); Ok (ModelState fs (ms_options m) (ms_bases m)).
Definition with_options (f : list (string * pyval) → list (string * pyval)) (m : model_state) : res model_state :=
  Ok (ModelState (ms_fields m) (f (ms_options m)) (ms_bases m)).
(** [AlterModelOptions.ALTER_OPTION_KEYS]: the options that are not given again
    are dropped. *)
Definition option_keys : list string :=
  ["base_manager_name"; "default_manager_name"; "default_related_name"; "get_latest_by"; "managed"; "ordering";
   "permissions"; "default_permissions"; "select_on_save"; "verbose_name"; "verbose_name_plural"].
Definition alter_options (options old : list (string * pyval)) : list (string * pyval) :=
  List.filter (λ kv, negb (bool_decide (kv.1 ∈ option_keys)) || dict_has options kv.1) (dict_update old options).
Definition rename_field (old_name new_name : string) (fs : list (string * field)) : res (list (string * field)) :=
  if dict_has fs new_name then Raise ValueError
  else if dict_has fs old_name
  then Ok ((λ kv, (if String.eqb kv.1 old_name then new_name else kv.1, kv.2)) <$> fs)
  else Raise (KeyError old_name).

(** [state_forwards] *)
Definition state_forwards (o : operation) (s : project_state) : res project_state :=
  match o with
  | CreateModel name fields options bases =>
      if dict_has s (lower name) then Raise ValueError
      else Ok (s ++ [(lower name, ModelState fields options bases)])
  | DeleteModel name => if dict_has s (lower name) then Ok (dict_del s (lower name)) else Raise (KeyError name)
  | AddField model_name name f preserve_default =>
      change_model model_name (with_fields (λ fs,
        if dict_has fs name then Raise ValueError
        else Ok (fs ++ [(name, if preserve_default then f else Field (f_class f) (dict_del (f_kwargs f) "default"))]))) s
  | RemoveField model_name name =>
      change_model model_name (with_fields (λ fs,
        if dict_has fs name then Ok (dict_del fs name) else Raise (KeyError name))) s
  | AlterField model_name name f =>
      change_model model_name (with_fields (λ fs,
        if dict_has fs name then Ok (dict_set fs name f) else Raise (KeyError name))) s
  | RenameField model_name old_name new_name => change_model model_name (with_fields (rename_field old_name new_name)) s
  | AlterModelOptions name options => change_model name (with_options (alter_options options)) s
  | AlterUniqueTogether name u => change_model name (with_options (λ l, dict_set l "unique_together" u)) s
  | RunPython => Ok s
  end.
(** A migration runs when those it depends on have run. *)
Definition applied : Type := list (string * string).
Definition apply_migration (app : string) (st : applied * project_state) (m : migration) : res (applied * project_state) :=
  if forallb (λ d, bool_decide (d ∈ st.1)) (mg_dependencies m) then
    s ← fold_res (λ s o, state_forwards o s) (mg_operations m) st.2;
    Ok (st.1 ++ [(app, mg_name m)], s)
  else Raise (KeyError (mg_name m)).
Definition built_state (app : string) (others : applied) (l : list migration) : res project_state :=
  st ← fold_res (apply_migration app) l (others, []); Ok st.2.

(** ** The migrations of the repository *)

Definition migration_0001 : migration := Migration "0001_initial" [("auth",
  "0012_alter_user_first_name_max_length")] [
  CreateModel "User" [
      ("id", auto_id);
      ("last_login", Field "DateTimeField" [blank; null; verbose "last login"]);
      ("is_superuser", Field "BooleanField" [off; help
        "Designates that this user has all permissions without explicitly assigning them."; verbose
        "superuser status"]);
      ("username", Field "CharField" [("error_messages", PDict [("unique", PStr
        "A user with that username already exists.")]); help
        "Required. 150 characters or fewer. Letters, digits and @/./+/-/_ only."; max_length 150; ("unique",
        PBool true); ("validators", PList [PStr "UnicodeUsernameValidator"]); verbose "username"]);
      ("first_name", Field "CharField" [blank; max_length 150; verbose "first name"]);
      ("last_name", Field "CharField" [blank; max_length 150; verbose "last name"]);
      ("email", Field "EmailField" [blank; max_length 254; verbose "email address"]);
      ("is_staff", Field "BooleanField" [off; help
        "Designates whether the user can log into this admin site."; verbose "staff status"]);
      ("is_active", Field "BooleanField" [on; help
        "Designates whether this user should be treated as active. Unselect this instead of deleting accounts.";
        verbose "active"]);
      ("date_joined", Field "DateTimeField" [("default", PStr "now"); verbose "date joined"]);
      ("language", Field "CharField" [("default", PStr "en"); max_length 5; verbose "language"]);
      ("timezone", Field "CharField" [("default", PStr "UTC"); max_length 20; verbose "timezone"]);
      ("two_factor_verification", Field "BooleanField" [off; verbose "two factor verification"]);
      ("json_data", Field "TextField" [blank; null; verbose "json data"]);
      ("is_verified", Field "BooleanField" [off; verbose "is verified"]);
      ("password", Field "CharField" [max_length 256; verbose "password"]);
      ("is_bot", Field "BooleanField" [off; verbose "is bot"]);
      ("groups", Field "ManyToManyField" [blank; help
        "The groups this user belongs to. A user will get all permissions granted to each of their groups.";
        related "user_set"; ("related_query_name", PStr "user"); to "auth.group"; verbose "groups"]);
      ("user_permissions", Field "ManyToManyField" [blank; help "Specific permissions for this user."; related
        "user_set"; ("related_query_name", PStr "user"); to "auth.permission"; verbose "user permissions"])]
    [verbose "user"; ("verbose_name_plural", PStr "users"); ("abstract", PBool false)] [];
  CreateModel "Space" [
      ("id", auto_id);
      ("created", Field "DateTimeField" [auto_now_add; indexed; verbose "created"]);
      ("modified", Field "DateTimeField" [auto_now; indexed; verbose "modified"]);
      ("name", Field "CharField" [blank; max_length 255; null; verbose "name"]);
      ("realm_code", Field "CharField" [blank; max_length 255; null; verbose "realm_code"]);
      ("space_code", Field "CharField" [max_length 255; verbose "space_code"])]
    [("ordering", PList [PStr "created"]); ("get_latest_by", PStr "modified"); ("abstract", PBool false)] [];
  CreateModel "Workflow" [
      ("id", auto_id);
      ("created", Field "DateTimeField" [auto_now_add; indexed; verbose "created"]);
      ("modified", Field "DateTimeField" [auto_now; indexed; verbose "modified"]);
      ("name", Field "CharField" [blank; max_length 255; null; verbose "name"]);
      ("user_code", Field "CharField" [blank; max_length 1024; null; verbose "user_code"]);
      ("status", Field "CharField" [choices [("init", "INIT"); ("pending", "PENDING"); ("progress",
        "PROGRESS"); ("success", "SUCCESS"); ("error", "ERROR"); ("timeout", "TIMEOUT"); ("canceled",
        "CANCELED")]; ("default", PStr "init"); max_length 255; null; verbose "status"]);
      ("payload_data", Field "TextField" [blank; null; verbose "payload data"]);
      ("periodic", Field "BooleanField" [off; verbose "periodic"]);
      ("is_manager", Field "BooleanField" [off; verbose "is manager"]);
      ("owner", Field "ForeignKey" [cascade; related "workflows"; to AUTH_USER_MODEL; verbose "owner"]);
      ("space", Field "ForeignKey" [cascade; related "workflows"; to "workflow.space"; verbose "space"])]
    [("ordering", PList [PStr "-created"; PStr "id"]); ("get_latest_by", PStr "modified")] [];
  CreateModel "Task" [
      ("id", auto_id);
      ("created", Field "DateTimeField" [auto_now_add; indexed; verbose "created"]);
      ("modified", Field "DateTimeField" [auto_now; indexed; verbose "modified"]);
      ("celery_task_id", Field "CharField" [max_length 255; null]);
      ("name", Field "CharField" [max_length 255; null]);
      ("source_code", Field "CharField" [max_length 255; null]);
      ("status", Field "CharField" [choices [("init", "INIT"); ("pending", "PENDING"); ("progress",
        "PROGRESS"); ("success", "SUCCESS"); ("error", "ERROR"); ("timeout", "TIMEOUT"); ("canceled",
        "CANCELED")]; ("default", PStr "init"); max_length 255; null; verbose "status"]);
      ("type", Field "CharField" [blank; max_length 50; null]);
      ("payload_data", Field "TextField" [blank; null; verbose "payload data"]);
      ("result_data", Field "TextField" [blank; null; verbose "result data"]);
      ("progress_data", Field "TextField" [blank; null; verbose "progress data"]);
      ("log", Field "TextField" [blank; null; verbose "log"]);
      ("notes", Field "TextField" [blank; null; verbose "notes"]);
      ("error_message", Field "TextField" [blank; null; verbose "error message"]);
      ("verbose_name", Field "CharField" [max_length 255; null]);
      ("verbose_result", Field "TextField" [blank; null; verbose "verbose result"]);
      ("previous_data", Field "TextField" [blank; null; verbose "previous data"]);
      ("is_hook", Field "BooleanField" [off; verbose "is hook"]);
      ("finished_at", Field "DateTimeField" [indexed; null; verbose "finished at"]);
      ("space", Field "ForeignKey" [cascade; related "tasks"; to "workflow.space"; verbose "space"]);
      ("workflow", Field "ForeignKey" [cascade; related "tasks"; to "workflow.workflow"; verbose "workflow"])]
    [("ordering", PList [PStr "-created"])] []].

Definition migration_0002 : migration := Migration "0002_celeryworker" [("workflow", "0001_initial")] [
  CreateModel "CeleryWorker" [
      ("id", auto_id);
      ("created", Field "DateTimeField" [auto_now_add; indexed; verbose "created"]);
      ("modified", Field "DateTimeField" [auto_now; indexed; verbose "modified"]);
      ("worker_name", Field "CharField" [help "Name that will be used in celery worker command"; max_length
        255; ("unique", PBool true); verbose "worker name"]);
      ("worker_type", Field "CharField" [("default", PStr "worker"); help "worker or scheduler"; max_length
        255; verbose "worker type"]);
      ("status", Field "TextField" [blank; ("default", PStr "unknown"); help "Status of worker container";
        null; verbose "status"]);
      ("notes", Field "TextField" [blank; null; verbose "notes"]);
      ("memory_limit", Field "CharField" [help "Memory limit for celery worker e.g. 2Gi"; max_length 255;
        null; verbose "Memory Limit"]);
      ("queue", Field "TextField" [blank; ("default", PStr "workflow"); help
        "Comma separated list of queues that worker will listen to"; null; verbose "Queue"])]
    [("ordering", PList [PStr "created"]); ("get_latest_by", PStr "modified"); ("abstract", PBool false)] []].

Definition migration_0003 : migration := Migration "0003_task_worker_name" [("workflow", "0002_celeryworker")]
  [
  AddField "task" "worker_name" (Field "CharField" [max_length 255; null; verbose "worker name"]) true].

Definition migration_0004 : migration := Migration "0004_workflow_platform_task_id" [("workflow",
  "0003_task_worker_name")] [
  AddField "workflow" "platform_task_id" (Field "IntegerField" [help
    "Platform Task ID in case if Platform initiated some pipeline"; null]) true].

Definition migration_0005 : migration := Migration
  "0005_schedule_delete_celeryworker_alter_task_status_and_more" [("django_celery_beat",
  "0018_improve_crontab_helptext"); ("workflow", "0004_workflow_platform_task_id")] [
  CreateModel "Schedule" [
      ("periodictask_ptr", Field "OneToOneField" [("auto_created", PBool true); cascade; ("parent_link", PBool
        true); ("primary_key", PBool true); ("serialize", PBool false); to "django_celery_beat.periodictask"]);
      ("created", Field "DateTimeField" [auto_now_add; indexed; verbose "created"]);
      ("modified", Field "DateTimeField" [auto_now; indexed; verbose "modified"]);
      ("user_code", Field "TextField" [verbose "user_code"]);
      ("payload", Field "JSONField" [blank; null; verbose "payload"]);
      ("is_manager", Field "BooleanField" [off; verbose "is manager"]);
      ("owner", Field "ForeignKey" [cascade; related "schedules"; to AUTH_USER_MODEL; verbose "owner"]);
      ("space", Field "ForeignKey" [cascade; related "schedules"; to "workflow.space"; verbose "space"])]
    [("ordering", PList [PStr "created"]); ("get_latest_by", PStr "modified"); ("abstract", PBool false)]
      ["django_celery_beat.periodictask"; "models.Model"];
  DeleteModel "CeleryWorker";
  AlterField "task" "status" (Field "CharField" [choices [("init", "INIT"); ("progress", "PROGRESS");
    ("success", "SUCCESS"); ("error", "ERROR"); ("timeout", "TIMEOUT"); ("canceled", "CANCELED")]; ("default",
    PStr "init"); max_length 255; null; verbose "status"]);
  AlterField "workflow" "status" (Field "CharField" [choices [("init", "INIT"); ("progress", "PROGRESS");
    ("success", "SUCCESS"); ("error", "ERROR"); ("timeout", "TIMEOUT"); ("canceled", "CANCELED")]; ("default",
    PStr "init"); max_length 255; null; verbose "status"])].

Definition migration_0006 : migration := Migration "0006_workflow_crontab" [("django_celery_beat",
  "0018_improve_crontab_helptext"); ("workflow",
  "0005_schedule_delete_celeryworker_alter_task_status_and_more")] [
  AddField "workflow" "crontab" (Field "ForeignKey" [null; set_null; related "workflows"; to
    "django_celery_beat.crontabschedule"; verbose "crontab"]) true].

Definition migration_0007 : migration := Migration "0007_workflowtemplate" [("workflow",
  "0006_workflow_crontab")] [
  CreateModel "WorkflowTemplate" [
      ("id", auto_id);
      ("created", Field "DateTimeField" [auto_now_add; indexed; verbose "created"]);
      ("modified", Field "DateTimeField" [auto_now; indexed; verbose "modified"]);
      ("name", Field "CharField" [blank; max_length 255; null; verbose "name"]);
      ("user_code", Field "CharField" [blank; max_length 1024; null; verbose "user_code"]);
      ("notes", Field "TextField" [blank; null; verbose "notes"]);
      ("data", Field "JSONField" [blank; null; verbose "data"]);
      ("owner", Field "ForeignKey" [cascade; related "workflow_templates"; to AUTH_USER_MODEL; verbose
        "owner"]);
      ("space", Field "ForeignKey" [cascade; related "workflow_templates"; to "workflow.space"; verbose
        "space"])]
    [("ordering", PList [PStr "created"]); ("get_latest_by", PStr "modified"); ("abstract", PBool false)] []].

Definition migration_0008 : migration := Migration "0008_workflow_workflow_template" [("workflow",
  "0007_workflowtemplate")] [
  AddField "workflow" "workflow_template" (Field "ForeignKey" [null; cascade; related "workflows"; to
    "workflow.workflowtemplate"; verbose "template"]) true].

Definition migration_0009 : migration := Migration "0009_workflow_node_id" [("workflow",
  "0008_workflow_workflow_template")] [
  AddField "workflow" "node_id" (Field "CharField" [blank; help "Node ID from the workflow JSON structure";
    max_length 255; null]) true].

Definition migration_0010 : migration := Migration "0010_task_node_id" [("workflow", "0009_workflow_node_id")]
  [
  AddField "task" "node_id" (Field "CharField" [blank; help "Node ID from the workflow JSON structure";
    max_length 255; null]) true].

Definition migration_0011 : migration := Migration "0011_alter_task_source_code" [("workflow",
  "0010_task_node_id")] [
  AlterField "task" "source_code" (Field "TextField" [blank; null; verbose "source code"])].

Definition migration_0012 : migration := Migration
  "0012_workflow_current_node_id_workflow_last_task_output_and_more" [("workflow",
  "0011_alter_task_source_code")] [
  AddField "workflow" "current_node_id" (Field "CharField" [blank; max_length 255; null]) true;
  AddField "workflow" "last_task_output" (Field "JSONField" [blank; null]) true;
  AlterField "workflow" "status" (Field "CharField" [choices [("init", "init"); ("progress", "progress");
    ("wait", "wait"); ("success", "success"); ("error", "error"); ("timeout", "timeout"); ("canceled",
    "canceled")]; ("default", PStr "init"); max_length 255; null; verbose "status"])].

Definition migration_0013 : migration := Migration "0013_schedule_notes_schedule_workflow_user_code"
  [("workflow", "0012_workflow_current_node_id_workflow_last_task_output_and_more")] [
  AddField "schedule" "notes" (Field "TextField" [blank; null; verbose "notes"]) true;
  AddField "schedule" "workflow_user_code" (Field "TextField" [("default", PStr "-"); verbose
    "workflow_user_code"]) false].

Definition migration_0014 : migration := Migration "0014_workflow_execution_status" [("workflow",
  "0013_schedule_notes_schedule_workflow_user_code")] [
  AddField "workflow" "execution_status" (Field "JSONField" [blank; ("default", PStr "dict"); help
    "Store all graph of nodes and status of its execution"]) true].

Definition migration_0015 : migration := Migration "0015_remove_workflow_execution_status" [("workflow",
  "0014_workflow_execution_status")] [
  RemoveField "workflow" "execution_status"].

Definition migration_0016 : migration := Migration "0016_alter_schedule_options_alter_space_options_and_more"
  [("workflow", "0015_remove_workflow_execution_status")] [
  AlterModelOptions "schedule" [("get_latest_by", PStr "modified_at"); ("ordering", PList [PStr
    "created_at"])];
  AlterModelOptions "space" [("get_latest_by", PStr "modified_at"); ("ordering", PList [PStr "created_at"])];
  AlterModelOptions "task" [("ordering", PList [PStr "-created_at"])];
  AlterModelOptions "workflow" [("get_latest_by", PStr "modified"); ("ordering", PList [PStr "-created_at";
    PStr "id"])];
  AlterModelOptions "workflowtemplate" [("get_latest_by", PStr "modified_at"); ("ordering", PList [PStr
    "created_at"])];
  RenameField "schedule" "created" "created_at";
  RenameField "schedule" "modified" "modified_at";
  RenameField "space" "created" "created_at";
  RenameField "space" "modified" "modified_at";
  RenameField "task" "created" "created_at";
  RenameField "task" "modified" "modified_at";
  RenameField "workflow" "created" "created_at";
  RenameField "workflow" "modified" "modified_at";
  RenameField "workflowtemplate" "created" "created_at";
  RenameField "workflowtemplate" "modified" "modified_at"].

Definition migration_0017 : migration := Migration "0017_workflow_finished_at" [("workflow",
  "0016_alter_schedule_options_alter_space_options_and_more")] [
  AddField "workflow" "finished_at" (Field "DateTimeField" [indexed; null; verbose "finished at"]) true].

Definition migration_0018 : migration := Migration "0018_workflow_parent" [("workflow",
  "0017_workflow_finished_at")] [
  AddField "workflow" "parent" (Field "ForeignKey" [blank; null; set_null; related "children"; to
    "workflow.workflow"; verbose "parent"]) true].

Definition migration_0019 : migration := Migration "0019_alter_task_status" [("workflow",
  "0018_workflow_parent")] [
  AlterField "task" "status" (Field "CharField" [choices [("init", "INIT"); ("progress", "PROGRESS");
    ("nested-progress", "nested-progress"); ("success", "SUCCESS"); ("error", "ERROR"); ("timeout",
    "TIMEOUT"); ("canceled", "CANCELED")]; ("default", PStr "init"); max_length 255; null; verbose "status"])].

Definition migration_0020 : migration := Migration "0020_delete_repeated_workflow_templates" [("workflow",
  "0019_alter_task_status")] [
  RunPython].

Definition migration_0021 : migration := Migration "0021_alter_workflowtemplate_options_and_more"
  [("workflow", "0020_delete_repeated_workflow_templates")] [
  AlterModelOptions "workflowtemplate" [];
  AlterUniqueTogether "workflowtemplate" (PList [PList [PStr "user_code"; PStr "space"]])].

Definition migration_0022 : migration := Migration "0022_add_export_backend_historical_records_crontab_task"
  [("workflow", "0021_alter_workflowtemplate_options_and_more"); ("django_celery_beat",
  "0018_improve_crontab_helptext")] [
  RunPython].

(** The migrations of workflow *)
Definition migrations : list migration :=
  [migration_0001; migration_0002; migration_0003; migration_0004; migration_0005; migration_0006;
    migration_0007; migration_0008; migration_0009; migration_0010; migration_0011; migration_0012;
    migration_0013; migration_0014; migration_0015; migration_0016; migration_0017; migration_0018;
    migration_0019; migration_0020; migration_0021; migration_0022].

Definition errors_migration_0001 : migration := Migration "0001_initial" [] [
  CreateModel "ErrorRecord" [
      ("id", auto_id);
      ("url", Field "CharField" [blank; max_length 255; null; verbose "url"]);
      ("username", Field "CharField" [blank; max_length 255; null; verbose "username"]);
      ("message", Field "TextField" [blank; ("default", PStr ""); verbose "message"]);
      ("status_code", Field "IntegerField" [verbose "integer"]);
      ("notes", Field "TextField" [blank; ("default", PStr ""); verbose "notes"]);
      ("details_data", Field "TextField" [blank; null; verbose "details data"]);
      ("created", Field "DateTimeField" [auto_now_add])]
    [] []].

Definition errors_migration_0002 : migration := Migration "0002_alter_errorrecord_options"
  [("finmars_standardized_errors", "0001_initial")] [
  AlterModelOptions "errorrecord" [("ordering", PList [PStr "-created"])]].

(** The migrations of finmars_standardized_errors *)
Definition errors_migrations : list migration :=
  [errors_migration_0001; errors_migration_0002].

Definition healthcheck_migration_0001 : migration := Migration "0001_initial" [] [
  CreateModel "HealthcheckTestModel" [
      ("id", auto_id);
      ("name", Field "CharField" [max_length 128])]
    [] []].

(** The migrations of healthcheck *)
Definition healthcheck_migrations : list migration :=
  [healthcheck_migration_0001].

(** ** The declarations of the models *)

(** A class of a models.py: its bases, the fields it declares, its [Meta] *)
Record declared : Type := Declared {
  dc_name : string; dc_bases : list string; dc_fields : list (string * field); dc_meta : option (list (string * pyval)) }.

(** [Workflow.STATUS_CHOICES] and [Task.STATUS_CHOICES] *)
Definition workflow_choices : list (string * string) := (λ s, (wf_status_str s, wf_status_str s)) <$> wf_statuses.
Definition task_label (s : task_status) : string :=
  match s with
  | TInit => "INIT" | TProgress => "PROGRESS" | TNestedProgress => "nested-progress" | TSuccess => "SUCCESS"
  | TError => "ERROR" | TTimeout => "TIMEOUT" | TCanceled => "CANCELED"
  end.
Definition task_choices : list (string * string) := (λ s, (task_status_str s, task_label s)) <$> task_statuses.

Definition declared_User : declared := Declared "User" ["AbstractUser"] [
    ("language", Field "CharField" [max_length LANGUAGE_MAX_LENGTH; ("default", PStr LANGUAGE_CODE); verbose
      "language"]);
    ("timezone", Field "CharField" [max_length TIMEZONE_MAX_LENGTH; ("default", PStr TIME_ZONE); verbose
      "timezone"]);
    ("two_factor_verification", Field "BooleanField" [off; verbose "two factor verification"]);
    ("json_data", Field "TextField" [null; blank; verbose "json data"]);
    ("is_verified", Field "BooleanField" [off; verbose "is verified"]);
    ("password", Field "CharField" [verbose "password"; max_length 256]);
    ("is_bot", Field "BooleanField" [off; verbose "is bot"])]
  None.

Definition declared_TimeStampedModel : declared := Declared "TimeStampedModel" ["Model"] [
    ("created_at", Field "DateTimeField" [auto_now_add; ("editable", PBool false); indexed; verbose
      "created"]);
    ("modified_at", Field "DateTimeField" [auto_now; ("editable", PBool false); indexed; verbose "modified"])]
  (Some [("abstract", PBool true); ("get_latest_by", PStr "modified_at"); ("ordering", PList [PStr "created_at"])]).

Definition declared_Space : declared := Declared "Space" ["TimeStampedModel"] [
    ("name", Field "CharField" [max_length 255; null; blank; verbose "name"]);
    ("realm_code", Field "CharField" [max_length 255; null; blank; verbose "realm_code"]);
    ("space_code", Field "CharField" [max_length 255; verbose "space_code"])]
  None.

Definition declared_WorkflowTemplate : declared := Declared "WorkflowTemplate" ["TimeStampedModel"] [
    ("name", Field "CharField" [max_length 255; null; blank; verbose "name"]);
    ("user_code", Field "CharField" [max_length 1024; null; blank; verbose "user_code"]);
    ("notes", Field "TextField" [null; blank; verbose "notes"]);
    ("data", Field "JSONField" [null; blank; verbose "data"]);
    ("space", Field "ForeignKey" [to "Space"; verbose "space"; cascade; related "workflow_templates"]);
    ("owner", Field "ForeignKey" [to "User"; verbose "owner"; cascade; related "workflow_templates"])]
  (Some [("unique_together", PList [PList [PStr "user_code"; PStr "space"]])]).

Definition declared_Workflow : declared := Declared "Workflow" ["TimeStampedModel"] [
    ("name", Field "CharField" [max_length 255; null; blank; verbose "name"]);
    ("workflow_template", Field "ForeignKey" [to "WorkflowTemplate"; null; verbose "template"; cascade;
      related "workflows"]);
    ("current_node_id", Field "CharField" [max_length 255; null; blank]);
    ("last_task_output", Field "JSONField" [null; blank]);
    ("node_id", Field "CharField" [max_length 255; blank; null; help
      "Node ID from the workflow JSON structure"]);
    ("user_code", Field "CharField" [max_length 1024; null; blank; verbose "user_code"]);
    ("status", Field "CharField" [null; max_length 255; ("default", PStr (wf_status_str WInit)); choices
      workflow_choices; verbose "status"]);
    ("payload_data", Field "TextField" [null; blank; verbose "payload data"]);
    ("periodic", Field "BooleanField" [off; verbose "periodic"]);
    ("is_manager", Field "BooleanField" [off; verbose "is manager"]);
    ("platform_task_id", Field "IntegerField" [null; help
      "Platform Task ID in case if Platform initiated some pipeline"]);
    ("space", Field "ForeignKey" [to "Space"; verbose "space"; cascade; related "workflows"]);
    ("owner", Field "ForeignKey" [to "User"; verbose "owner"; cascade; related "workflows"]);
    ("crontab", Field "ForeignKey" [to "CrontabSchedule"; verbose "crontab"; null; set_null; related
      "workflows"]);
    ("finished_at", Field "DateTimeField" [null; indexed; verbose "finished at"]);
    ("parent", Field "ForeignKey" [to "self"; null; blank; related "children"; verbose "parent"; set_null])]
  (Some [("get_latest_by", PStr "modified"); ("ordering", PList [PStr "-created_at"; PStr "id"])]).

Definition declared_Task : declared := Declared "Task" ["TimeStampedModel"] [
    ("workflow", Field "ForeignKey" [to "Workflow"; verbose "workflow"; cascade; related "tasks"]);
    ("node_id", Field "CharField" [max_length 255; blank; null; help
      "Node ID from the workflow JSON structure"]);
    ("celery_task_id", Field "CharField" [null; max_length 255]);
    ("name", Field "CharField" [null; max_length 255]);
    ("source_code", Field "TextField" [null; blank; verbose "source code"]);
    ("status", Field "CharField" [null; max_length 255; ("default", PStr (task_status_str TInit)); choices
      task_choices; verbose "status"]);
    ("worker_name", Field "CharField" [null; max_length 255; verbose "worker name"]);
    ("type", Field "CharField" [max_length 50; blank; null]);
    ("payload_data", Field "TextField" [null; blank; verbose "payload data"]);
    ("result_data", Field "TextField" [null; blank; verbose "result data"]);
    ("progress_data", Field "TextField" [null; blank; verbose "progress data"]);
    ("log", Field "TextField" [null; blank; verbose "log"]);
    ("notes", Field "TextField" [null; blank; verbose "notes"]);
    ("error_message", Field "TextField" [null; blank; verbose "error message"]);
    ("verbose_name", Field "CharField" [null; max_length 255]);
    ("verbose_result", Field "TextField" [null; blank; verbose "verbose result"]);
    ("previous_data", Field "TextField" [null; blank; verbose "previous data"]);
    ("is_hook", Field "BooleanField" [off; verbose "is hook"]);
    ("finished_at", Field "DateTimeField" [null; indexed; verbose "finished at"]);
    ("space", Field "ForeignKey" [to "Space"; verbose "space"; cascade; related "tasks"])]
  (Some [("ordering", PList [PStr "-created_at"])]).

Definition declared_Schedule : declared := Declared "Schedule" ["PeriodicTask"; "TimeStampedModel"] [
    ("user_code", Field "TextField" [verbose "user_code"]);
    ("notes", Field "TextField" [null; blank; verbose "notes"]);
    ("payload", Field "JSONField" [null; blank; verbose "payload"]);
    ("is_manager", Field "BooleanField" [off; verbose "is manager"]);
    ("space", Field "ForeignKey" [to "Space"; verbose "space"; cascade; related "schedules"]);
    ("owner", Field "ForeignKey" [to "User"; verbose "owner"; cascade; related "schedules"]);
    ("workflow_user_code", Field "TextField" [verbose "workflow_user_code"])]
  None.

Definition declared_ErrorRecord : declared := Declared "ErrorRecord" ["Model"] [
    ("url", Field "CharField" [max_length 255; null; blank; verbose "url"]);
    ("username", Field "CharField" [max_length 255; null; blank; verbose "username"]);
    ("message", Field "TextField" [blank; ("default", PStr ""); verbose "message"]);
    ("status_code", Field "IntegerField" [verbose "integer"]);
    ("notes", Field "TextField" [blank; ("default", PStr ""); verbose "notes"]);
    ("details_data", Field "TextField" [null; blank; verbose "details data"]);
    ("created", Field "DateTimeField" [auto_now_add])]
  (Some [("ordering", PList [PStr "-created"])]).

Definition declared_HealthcheckTestModel : declared := Declared "HealthcheckTestModel" ["Model"] [
    ("name", Field "CharField" [max_length 128])]
  None.
(** The classes of each application's models.py *)
Definition workflow_models : list declared :=
  [declared_User; declared_TimeStampedModel; declared_Space; declared_WorkflowTemplate; declared_Workflow;
   declared_Task; declared_Schedule].
Definition errors_models : list declared := [declared_ErrorRecord].
Definition healthcheck_models : list declared := [declared_HealthcheckTestModel].

(** ** What Django makes of a declaration *)

(** Models of other applications workflow/models.py imports *)
Definition imported : list (string * string) :=
  [("CrontabSchedule", "django_celery_beat.crontabschedule"); ("PeriodicTask", "django_celery_beat.periodictask")].
(** The label of a related model *)
Definition label (app self name : string) : string :=
  if String.eqb name "self" then app +:+ "." +:+ lower self
  else if has_char "."%char name then lower name
  else match dict_get imported name with Some l => l | None => app +:+ "." +:+ lower name end.
(** [Field.deconstruct]: a time set by Django is not editable and may be blank. *)
Definition deconstruct (app self : string) (f : field) : pyval :=
  let auto := dict_has (f_kwargs f) "auto_now" || dict_has (f_kwargs f) "auto_now_add" in
  let kwargs := List.filter (λ kv, negb (auto && bool_decide (kv.1 ∈ ["editable"; "blank"]))) (f_kwargs f) in
  PList [PStr (f_class f); PDict ((λ kv,
    (kv.1, match kv.2 with PStr v => if String.eqb kv.1 "to" then PStr (label app self v) else kv.2 | v => v end)) <$> kwargs)].
(** The columns, with the names of fields and arguments in order *)
Definition columns_of (app self : string) (fs : list (string * field)) : pyval :=
  sort_val (PDict ((λ nf, (nf.1, deconstruct app self nf.2)) <$> fs)).

(** A state is well formed when no two models, and no two fields of a model, have one
    name; an operation is when the fields it creates have different names. *)
Definition fields_ok (m : model_state) : Prop := NoDup (dict_keys (ms_fields m)).
Definition state_ok (s : project_state) : Prop := NoDup (dict_keys s) ∧ Forall (λ nm, fields_ok nm.2) s.
Definition operation_ok (o : operation) : Prop :=
  match o with CreateModel _ fs _ _ => NoDup (dict_keys fs) | _ => True end.
#[export] Instance operation_ok_dec o : Decision (operation_ok o).
Proof. destruct o; cbn; apply _. Defined.

Section Declarations.
Context (app : string) (models : list declared).

Definition find_class (name : string) : option declared := List.find (λ d, String.eqb (dc_name d) name) models.
Definition is_abstract (d : declared) : bool :=
  match dc_meta d with Some m => match dict_get m "abstract" with Some (PBool b) => b | _ => false end | None => false end.
(** The abstract bases of a class that are declared here *)
Definition abstract_bases (d : declared) : list declared := omap find_class (dc_bases d).
(** The primary key: the link to the parent's table, or an [id] *)
Definition primary_key (d : declared) : string * field :=
  if bool_decide ("PeriodicTask" ∈ dc_bases d)
  then ("periodictask_ptr", Field "OneToOneField" [("auto_created", PBool true); cascade; ("parent_link", PBool true);
          ("primary_key", PBool true); ("serialize", PBool false); to "PeriodicTask"])
  else ("id", auto_id).
Definition declared_fields (d : declared) : list (string * field) :=
  primary_key d :: flat_map dc_fields (abstract_bases d) ++ dc_fields d.
(** [Meta], which a class without one takes from its abstract base *)
Definition meta (d : declared) : list (string * pyval) :=
  match dc_meta d with
  | Some m => m
  | None => match abstract_bases d with b :: _ => default [] (dc_meta b) | [] => [] end
  end.
Definition tables : list declared := List.filter (λ d, negb (is_abstract d)) models.

(** Model and state agree: the columns, except those a class of Django's own adds
    ([AbstractUser]), and the options queries depend on. *)
Definition own_fields (d : declared) (fs : list (string * field)) : list (string * field) :=
  if bool_decide ("AbstractUser" ∈ dc_bases d)
  then List.filter (λ nf, bool_decide (nf.1 ∈ dict_keys (declared_fields d))) fs else fs.
Definition agrees (m : model_state) (d : declared) : Prop :=
  columns_of app (dc_name d) (own_fields d (ms_fields m)) = columns_of app (dc_name d) (declared_fields d) ∧
  Forall (λ k, dict_get (ms_options m) k = dict_get (meta d) k) ["ordering"; "get_latest_by"; "unique_together"].
Definition builds (s : project_state) : Prop :=
  state_ok s ∧ length s = length tables ∧
  Forall (λ d, ∃ m, dict_get s (lower (dc_name d)) = Some m ∧ agrees m d) tables.
End Declarations.

(** ** Every operation keeps a state well formed *)
Lemma dict_del_sub {V} (d : list (string * V)) k : dict_keys (dict_del d k) `sublist_of` dict_keys d.
Proof.
  induction d as [|[k' v] d IH]; [done|]. cbn. case_decide; [by apply sublist_cons|by apply sublist_skip].
Qed.
Lemma dict_has_false {V} (d : list (string * V)) k : dict_has d k = false → k ∉ dict_keys d.
Proof. unfold dict_has. destruct (dict_get d k) eqn:E; [done|]. intros _. by apply dict_get_None. Qed.
Lemma dict_snoc_NoDup {V} (d : list (string * V)) k v : dict_has d k = false → NoDup (dict_keys d) →
  NoDup (dict_keys (d ++ [(k, v)])).
Proof.
  intros Hk Hd. unfold dict_keys. rewrite fmap_app. apply NoDup_app. split_and!; [done| |apply NoDup_singleton].
  intros x Hx ->%list_elem_of_singleton. by apply (dict_has_false d k).
Qed.
Lemma rename_NoDup old_name new_name fs fs' : rename_field old_name new_name fs = Ok fs' → NoDup (dict_keys fs) →
  NoDup (dict_keys fs').
Proof.
  unfold rename_field. destruct (dict_has fs new_name) eqn:Hn; [done|]. destruct (dict_has fs old_name); [|done].
  intros [= <-]. apply dict_has_false in Hn. revert Hn. induction fs as [|[k f] fs IH]; [done|]. cbn. intros Hn.
  apply not_elem_of_cons in Hn as [Hkn Hn]. intros [Hk Hd]%NoDup_cons. constructor; [|by apply IH].
  intros Hin. apply list_elem_of_fmap in Hin as ([k' f'] & E & Hin). apply list_elem_of_fmap in Hin as ([k2 f2] & [= -> ->] & Hin).
  assert (k2 ∈ dict_keys fs) as Hk2 by (apply list_elem_of_fmap; by exists (k2, f2)). cbn in E.
  destruct (String.eqb_spec k old_name), (String.eqb_spec k2 old_name); by simplify_eq.
Qed.
Lemma change_model_ok name f s s' : change_model name f s = Ok s' → state_ok s →
  (∀ m m', f m = Ok m' → fields_ok m → fields_ok m') → state_ok s'.
Proof.
  unfold change_model. destruct (dict_get s (lower name)) as [m|] eqn:Hm; [|done]. destruct (f m) as [m'|] eqn:Hf; [|done].
  intros [= <-] [Hd Hs] Hok. split; [by apply dict_set_NoDup|]. apply dict_get_elem in Hm. rewrite Forall_forall in Hs.
  specialize (Hok m m' Hf (Hs _ Hm)). clear Hm Hd. induction s as [|[k x] s IH]; cbn.
  - by apply Forall_singleton.
  - case_decide; constructor; try done; [apply Forall_forall; intros y Hy; apply Hs; by right|apply Hs; by left|].
    apply IH. intros y Hy. apply Hs. by right.
Qed.
Lemma with_fields_ok f m m' : with_fields f m = Ok m' → fields_ok m →
  (∀ fs fs', f fs = Ok fs' → NoDup (dict_keys fs) → NoDup (dict_keys fs')) → fields_ok m'.
Proof. unfold with_fields. destruct (f (ms_fields m)) as [fs|] eqn:E; [|done]. intros [= <-] Hm Hf. by eapply Hf. Qed.
(** Every operation keeps the names of models, and of the fields of each, distinct. *)
Lemma forwards_ok o s s' : state_forwards o s = Ok s' → operation_ok o → state_ok s → state_ok s'.
Proof.
  destruct o as [name fs opts bs|name|mn n f p|mn n|mn n f|mn a b|n opts|n u|]; cbn; intros E Ho Hs.
  - destruct (dict_has s (lower name)) eqn:Hn; [done|]. injection E as <-. destruct Hs as [Hd Hs].
    split; [by apply dict_snoc_NoDup|]. apply Forall_app. split; [done|]. by apply Forall_singleton.
  - destruct (dict_has s (lower name)); [|done]. injection E as <-. destruct Hs as [Hd Hs].
    split; [by eapply sublist_NoDup, dict_del_sub|]. clear Hd. induction s as [|[k x] s IH]; [done|]. cbn.
    apply Forall_cons in Hs as [Hx Hs]. case_decide; [done|]. constructor; [done|by apply IH].
  - eapply change_model_ok; [exact E|done|]. intros m m' Hm Hok. eapply with_fields_ok; [exact Hm|done|].
    intros l l' Hl Hd. cbn in Hl. destruct (dict_has l n) eqn:Hh; [done|]. injection Hl as <-. by apply dict_snoc_NoDup.
  - eapply change_model_ok; [exact E|done|]. intros m m' Hm Hok. eapply with_fields_ok; [exact Hm|done|].
    intros l l' Hl Hd. cbn in Hl. destruct (dict_has l n); [|done]. injection Hl as <-. by eapply sublist_NoDup, dict_del_sub.
  - eapply change_model_ok; [exact E|done|]. intros m m' Hm Hok. eapply with_fields_ok; [exact Hm|done|].
    intros l l' Hl Hd. cbn in Hl. destruct (dict_has l n); [|done]. injection Hl as <-. by apply dict_set_NoDup.
  - eapply change_model_ok; [exact E|done|]. intros m m' Hm Hok. eapply with_fields_ok; [exact Hm|done|].
    intros l l' Hl. by eapply rename_NoDup.
  - eapply change_model_ok; [exact E|done|]. by intros m m' [= <-].
  - eapply change_model_ok; [exact E|done|]. by intros m m' [= <-].
  - by injection E as <-.
Qed.
Lemma built_state_ok app others l s : built_state app others l = Ok s → Forall operation_ok (flat_map mg_operations l) → state_ok s.
Proof.
  unfold built_state. destruct (fold_res _ l _) as [[ap s']|] eqn:E; [|done]. intros [= <-]. cbn.
  assert (state_ok []) as H0 by (split; constructor). revert E H0. generalize (@nil (string * model_state)) as s0.
  revert others. induction l as [|m l IH]; intros ap0 s0 E H0 Hops; [by injection E as <- <-|].
  cbn in Hops. apply Forall_app in Hops as [Hm Hl]. cbn [fold_res] in E.
  destruct (apply_migration app (ap0, s0) m) as [[ap1 s1]|] eqn:E1; [|done]. eapply IH; [exact E| |exact Hl].
  unfold apply_migration in E1. cbn in E1. destruct (forallb _ _); [|done].
  destruct (fold_res _ (mg_operations m) s0) as [s2|] eqn:E2; [|done]. injection E1 as <- <-.
  clear E IH. revert s0 H0 E2. induction (mg_operations m) as [|o os IHo]; intros s0 H0 E2; [by injection E2 as ->|].
  apply Forall_cons in Hm as [Ho Hos]. cbn [fold_res] in E2. destruct (state_forwards o s0) as [s3|] eqn:E3; [|done].
  eapply IHo; [done|by eapply forwards_ok|done].
Qed.

Definition other_migrations : applied :=
  [("auth", "0012_alter_user_first_name_max_length"); ("django_celery_beat", "0018_improve_crontab_helptext")].

Ltac by_computing := vm_compute; reflexivity.
Ltac each_of := repeat (apply Forall_cons; split); try (by apply Forall_nil).
Lemma built_by app others l models s : built_state app others l = Ok s → Forall operation_ok (flat_map mg_operations l) →
  length s = length (tables models) →
  Forall (λ d, ∃ m, dict_get s (lower (dc_name d)) = Some m ∧ agrees app models m d) (tables models) →
  ∃ s, built_state app others l = Ok s ∧ builds app models s.
Proof. intros E Hops Hlen Hall. exists s. split; [done|]. split; [by eapply built_state_ok|by split]. Qed.
(** The end state, its models, and each model's columns and options *)
Ltac run_migrations l :=
  eapply built_by; [by_computing|apply (bool_decide_unpack _); vm_compute; exact I|by_computing|];
  match goal with |- Forall ?P ?ts => replace ts with l by reflexivity end; each_of;
  (eexists; split; [by_computing|]; split; [by_computing|each_of; by_computing]).
(** C36: the migrations build the models.  On an empty schema the migrations of each
    application run in their order, every operation finding the model and the field
    it needs, and end in a well-formed state (no two models, and no two fields of a model,
    with one name) with exactly the models that its models.py declares: the same
    columns with the same types, lengths, defaults, indices, foreign keys and
    choices (of [User], those that are not Django's own), and the same ordering and
    unique keys. *)
Theorem migrations_build_models :
  (∃ s, built_state "workflow" other_migrations migrations = Ok s ∧ builds "workflow" workflow_models s) ∧
  (∃ s, built_state "finmars_standardized_errors" [] errors_migrations = Ok s ∧
     builds "finmars_standardized_errors" errors_models s) ∧
  (∃ s, built_state "healthcheck" [] healthcheck_migrations = Ok s ∧ builds "healthcheck" healthcheck_models s).
Proof.
  split; [|split].
  - run_migrations [declared_User; declared_Space; declared_WorkflowTemplate; declared_Workflow; declared_Task; declared_Schedule].
  - run_migrations errors_models.
  - run_migrations healthcheck_models.
Qed.

(** [Workflow] names a column for [latest()] that was renamed: there is none. *)
Example latest_by_missing :
  dict_get (meta workflow_models declared_Workflow) "get_latest_by" = Some (PStr "modified") ∧
  dict_has (declared_fields workflow_models declared_Workflow) "modified" = false.
Proof. split; reflexivity. Qed.
(** The [Meta] of a template does not extend that of [TimeStampedModel]: templates
    have no order, and 0021 took it from the state. *)
Example templates_unordered :
  dict_get (meta workflow_models declared_Space) "ordering" = Some (PList [PStr "created_at"]) ∧
  dict_get (meta workflow_models declared_WorkflowTemplate) "ordering" = None.
Proof. split; reflexivity. Qed.
