(* ===== verification/Filters.v ===== *)
(** * The filters of the list views (workflow/filters.py)

    A filter narrows a queryset, here a list of rows.  What PostgreSQL shows of a
    column and how it matches a regular expression are parameters. *)
From Stdlib Require Import Ascii String.
From stdpp Require Import base list strings numbers gmap sets.
From S2P Require Import Prelude PyStr PyVal World Demo Finmars Models Dates.
Local Open Scope string_scope.
Local Open Scope Z_scope.
Local Open Scope list_scope.

(** The text of a column ([column::text]) and [text ~ pattern] *)
Class Postgres : Type := {
  timestamp_text : Z → string;
  json_text : pyval → string;
  regex_matches : string → string → bool
}.
(** A model as the filters see it: the text of a field, [None] when the model has
    no such field *)
Class Filterable (R : Type) `{Model R} `{Postgres} : Type := {
  column : string → option (R → option string);
  manager_flag : option (R → bool)
}.

#[export] Instance filterable_workflow `{Postgres} : Filterable workflow_row := {|
  column := λ f,
    if String.eqb f "id" then Some (λ r, Some (str_of_Z (wf_id r)))
    else if String.eqb f "name" then Some wf_name
    else if String.eqb f "user_code" then Some wf_user_code
    else if String.eqb f "created_at" then Some (λ r, Some (timestamp_text (wf_created_at r)))
    else if String.eqb f "status" then Some (λ r, Some (wf_status_str (wf_status_ r)))
    else if String.eqb f "payload_data" then Some wf_payload_data
    else None;
  manager_flag := Some wf_is_manager |}.
#[export] Instance filterable_template `{Postgres} : Filterable template_row := {|
  column := λ f,
    if String.eqb f "id" then Some (λ r, Some (str_of_Z (wt_id r)))
    else if String.eqb f "name" then Some wt_name
    else if String.eqb f "user_code" then Some wt_user_code
    else if String.eqb f "created_at" then Some (λ r, Some (timestamp_text (wt_created_at r)))
    else if String.eqb f "data" then
      Some (λ r, match wt_data r with PNone => None | v => Some (json_text v) end)
    else None;
  manager_flag := None |}.

(** The parameters of the query string the filters read *)
Record query_params : Type := QueryParams {
  qp_query : option string;
  qp_date_from : option string;
  qp_date_to : option string;
  qp_status : option string;
  qp_is_manager : option string
}.

Section Filters.
Context `{Filterable R}.

(** Django's [FieldError] for a name the model does not have *)
Definition field_error : exn := PyException "Cannot resolve keyword into field".
Definition field (name : string) : res (R → option string) :=
  match column name with Some c => Ok c | None => Raise field_error end.
(** The rows whose column satisfies [p]; a null column satisfies nothing. *)
Definition column_is (p : string → bool) (c : R → option string) (r : R) : bool :=
  match c r with Some v => p v | None => false end.
(** [__icontains] *)
Definition icontains (piece v : string) : bool := contains (lower v) (lower piece).

(** [WorkflowQueryFilter.filter_queryset] *)
Definition query_fields : list string := ["id"; "name"; "user_code"; "created_at"; "status"].
Definition query_filter (query : option string) (queryset : list R) : res (list R) :=
  match truthy_str query with
  | None => Ok queryset
  | Some query =>
      let pieces := split c_space query in
      columns ← map_res query_fields field;
      Ok (List.filter (λ r, existsb (λ c,
        forallb (λ piece, column_is (icontains piece) c r) pieces) columns) queryset)
  end.

(** [WholeWordsSearchFilter.filter_queryset], for the terms the framework reads
    from the request: no term, or no field, restricts nothing. *)
Definition words_filter (search_fields search_terms : list string) (queryset : list R)
    : res (list R) :=
  match search_terms, search_fields with
  | [], _ | _, [] => Ok queryset
  | _, _ =>
      columns ← map_res search_fields field;
      Ok (List.filter (λ r, forallb (λ term, existsb (λ c,
        column_is (regex_matches ("\m" +:+ term +:+ "\M")) c r) columns) search_terms) queryset)
  end.

(** Midnight of a date, in microseconds since the epoch *)
Definition midnight (d : date) : Z := (toordinal d - epoch_ordinal) * day_us.
(** [BooleanField.to_python] of a text *)
Definition bool_param (v : string) : res bool :=
  if bool_decide (v ∈ ["t"; "True"; "1"]) then Ok true
  else if bool_decide (v ∈ ["f"; "False"; "0"]) then Ok false
  else Raise (ValidationError "value must be either True or False").

(** [WorkflowSearchParamFilter.filter_queryset] *)
Definition from_filter (date_from : option string) (queryset : list R) : res (list R) :=
  match truthy_str date_from with
  | None => Ok queryset
  | Some s => date ← strptime s; Ok (List.filter (λ r, midnight date <=? created r) queryset)
  end.
Definition to_filter (date_to : option string) (queryset : list R) : res (list R) :=
  match truthy_str date_to with
  | None => Ok queryset
  | Some s =>
      date ← strptime s;
      Ok (List.filter (λ r, created r <=? midnight date + day_us - 1) queryset)
  end.
Definition status_filter (status : option string) (queryset : list R) : res (list R) :=
  match truthy_str status with
  | None => Ok queryset
  | Some s =>
      c ← field "status";
      Ok (List.filter (column_is (λ v, bool_decide (v ∈ split c_comma s)) c) queryset)
  end.
Definition manager_filter (is_manager : option string) (queryset : list R) : res (list R) :=
  match truthy_str is_manager with
  | None => Ok queryset
  | Some s =>
      match manager_flag with
      | None => Raise field_error
      | Some flag => b ← bool_param s; Ok (List.filter (λ r, Bool.eqb (flag r) b) queryset)
      end
  end.
Definition search_param_filter (p : query_params) (queryset : list R) : res (list R) :=
  queryset ← from_filter (qp_date_from p) queryset;
  queryset ← to_filter (qp_date_to p) queryset;
  queryset ← status_filter (qp_status p) queryset;
  manager_filter (qp_is_manager p) queryset.

(** [filter_queryset] of the views that have these filters *)
Definition filter_queryset (search_fields search_terms : list string) (p : query_params)
    (queryset : list R) : res (list R) :=
  queryset ← search_param_filter p queryset;
  queryset ← query_filter (qp_query p) queryset;
  words_filter search_fields search_terms queryset.
End Filters.

(** ** What the filters keep *)

Section Laws.
Context `{Postgres}.

(** The day a row was created, as an ordinal *)
Definition created_ordinal (wf : workflow_row) : Z := ordinal_of_time (wf_created_at wf).
(** A row the search parameters describe *)
Definition in_search (d1 d2 : date) (statuses : list wf_status) (flag : bool) (wf : workflow_row) : bool :=
  (toordinal d1 <=? created_ordinal wf) && (created_ordinal wf <=? toordinal d2)
  && bool_decide (wf_status_ wf ∈ statuses) && Bool.eqb (wf_is_manager wf) flag.

Lemma filter_filter {A} (p q : A → bool) (l : list A) :
  List.filter p (List.filter q l) = List.filter (λ x, q x && p x) l.
Proof. induction l as [|x l IH]; [done|]. simpl. destruct (q x); simpl; by rewrite IH. Qed.
Lemma from_day d wf : (midnight d <=? wf_created_at wf) = (toordinal d <=? created_ordinal wf).
Proof.
  unfold midnight, created_ordinal, ordinal_of_time, epoch_ordinal, day_us. apply eq_true_iff_eq. rewrite !Z.leb_le.
  Z.to_euclidean_division_equations. lia.
Qed.
Lemma to_day d wf : (wf_created_at wf <=? midnight d + day_us - 1) = (created_ordinal wf <=? toordinal d).
Proof.
  unfold midnight, created_ordinal, ordinal_of_time, epoch_ordinal, day_us. apply eq_true_iff_eq. rewrite !Z.leb_le.
  Z.to_euclidean_division_equations. lia.
Qed.
Lemma str_of_date_truthy d : truthy_str (Some (str_of_date d)) = Some (str_of_date d).
Proof. done. Qed.
Lemma status_comma st : has_char c_comma (wf_status_str st) = false.
Proof. by destruct st. Qed.
Lemma status_str_in st (l : list wf_status) : bool_decide (wf_status_str st ∈ wf_status_str <$> l) = bool_decide (st ∈ l).
Proof.
  apply bool_decide_ext. rewrite list_elem_of_fmap. split; [|by exists st].
  intros (st' & E & Hin). replace st with st'; [done|]. by destruct st, st'.
Qed.

(** C39: the search parameters of the workflow list select by calendar day.  For two
    dates, any non-empty choice of statuses and a flag, the filter keeps, in
    order, exactly the workflows created on a day from the one date to the other,
    both days whole, whose status is among those chosen and whose flag is that
    asked for. *)
Theorem search_keeps_days query d1 d2 statuses flag (queryset : list workflow_row) :
  valid_date d1 = true → valid_date d2 = true → statuses ≠ [] →
  search_param_filter (QueryParams query (Some (str_of_date d1)) (Some (str_of_date d2))
    (Some (join "," (wf_status_str <$> statuses))) (Some (if (flag : bool) then "True" else "False"))) queryset
  = Ok (List.filter (in_search d1 d2 statuses flag) queryset).
Proof.
  intros H1 H2 Hne. unfold search_param_filter, from_filter, to_filter. cbn [qp_date_from qp_date_to].
  rewrite !str_of_date_truthy, !strptime_str_of_date by done. cbn [mbind res_bind].
  unfold status_filter. cbn [qp_status].
  assert (truthy_str (Some (join "," (wf_status_str <$> statuses)))
    = Some (join "," (wf_status_str <$> statuses))) as ->.
  { unfold truthy_str. destruct statuses as [|st [|st' l]]; [done| |]; by destruct st. }
  change (join "," _) with (join (String c_comma "") (wf_status_str <$> statuses)).
  rewrite split_join; [|by destruct statuses|by apply Forall_fmap, Forall_true; intros; apply status_comma].
  cbn [field column filterable_workflow mbind res_bind String.eqb Ascii.eqb Bool.eqb].
  unfold manager_filter. cbn [qp_is_manager manager_flag filterable_workflow].
  assert (truthy_str (Some (if (flag : bool) then "True" else "False")) = Some (if flag then "True" else "False")) as ->
    by (by destruct flag).
  assert (bool_param (if (flag : bool) then "True" else "False") = Ok flag) as -> by (by destruct flag).
  cbn [mbind res_bind]. f_equal. rewrite !filter_filter. apply List.filter_ext. intros wf.
  unfold in_search. cbn [created workflow_model]. rewrite from_day, to_day. unfold column_is.
  rewrite status_str_in. by rewrite !andb_assoc.
Qed.

(** The list of templates has no statuses and no flag: a query, a status or a flag
    makes the request fail, whatever the templates. *)
Lemma template_query_fails q (queryset : list template_row) : q ≠ "" →
  query_filter (Some q) queryset = Raise field_error ∧
  status_filter (Some q) queryset = Raise field_error ∧
  manager_filter (Some q) queryset = Raise field_error.
Proof.
  intros Hq. unfold query_filter, status_filter, manager_filter. cbn [truthy_str].
  by rewrite (proj2 (String.eqb_neq q "")).
Qed.
End Laws.

#[export] Instance plain_postgres : Postgres := {|
  timestamp_text := str_of_Z; json_text := λ _, ""; regex_matches := λ _ _, false |}.
(** Created one microsecond before and at the midnight that starts 2024-03-01 *)
Definition listed_at (us : Z) : workflow_row :=
  set_wf_created_at us (set_wf_status_ WError (new_workflow_row 1 1 None None None false None None None)).
Definition march_first : Z := 1709251200 * 1000000.
Lemma search_keeps_days_witness :
  search_param_filter (QueryParams None (Some "2024-02-29") (Some "2024-02-29") (Some "error,timeout")
      (Some "False")) [listed_at (march_first - 1); listed_at march_first]
  = Ok [listed_at (march_first - 1)].
Proof.
  exact (search_keeps_days None (Date 2024 2 29) (Date 2024 2 29) [WError; WTimeout] false
    [listed_at (march_first - 1); listed_at march_first] eq_refl eq_refl ltac:(done)).
Defined.
