(* ===== verification/Listing.v ===== *)
(** * The lists of the API (workflow/views.py, workflow/pagination.py)

    A list view narrows the rows of a table with its filters, orders them, and
    shows one page of them.  What the REST framework does is documented: its own
    filters keep some of the rows, an order is a permutation, and the paginator
    cuts the list into pages.  The filters, the page sizes and what a row shows
    are the code's. *)
From Stdlib Require Import Ascii String.
From stdpp Require Import base list strings numbers gmap sets.
From S2P Require Import Prelude PyStr PyVal Json World Demo Graph Finmars Models Views Serializers Editing.
From S2P Require Import Filters Fixture Edited References.
Local Open Scope string_scope.
Local Open Scope Z_scope.
Local Open Scope list_scope.

(** ** Requests and pages *)

(** The query string: the page, the size of the pages, and the other parameters *)
Record list_request : Type := ListRequest {
  lr_page : option string; lr_page_size : option string; lr_query : list (string * string) }.
(** The parameters of workflow/filters.py *)
Definition params (q : list (string * string)) : query_params :=
  QueryParams (dict_get q "query") (dict_get q "date_from") (dict_get q "date_to") (dict_get q "status")
    (dict_get q "is_manager").
(** [PageNumberPaginationExt] *)
Record page_settings : Type := PageSettings { page_size : nat; page_size_query_param : string; max_page_size : nat }.
Definition PAGE_SIZE : nat := 40.
Definition PageNumberPaginationExt : page_settings := PageSettings PAGE_SIZE "page_size" (PAGE_SIZE * 10).

(** The size asked for, and the rows of a page, from 1; the first page of an empty
    list is empty. *)
Definition size_of (s : page_settings) (size : option nat) : nat :=
  match size with None => page_size s | Some n => Nat.min n (max_page_size s) end.
Definition page_of {R} (n p : nat) (l : list R) : res (list R) :=
  if bool_decide (p = 1)%nat || bool_decide (n * (p - 1) < length l)%nat
  then Ok (take n (drop (n * (p - 1)) l)) else Raise Http404.
(** A number in the query string *)
Definition text (n : nat) : string := dumps false None (PInt (Z.of_nat n)).

(** The REST framework: [DjangoFilterBackend] with the filter set of a view, the
    words of [SearchFilter], [OrderingFilter], the paginator and its responses *)
Class ListFramework : Type := {
  filterset_rows : ∀ R : Type, string → list (string * string) → list R → res (list R);
  search_terms : list (string * string) → list string;
  order_rows : ∀ R : Type, list string → list (string * string) → list R → list R;
  paginate_queryset : ∀ R : Type, page_settings → list_request → list R → res (list R);
  paginated_response : list_request → nat → list pyval → pyval
}.
Class ListFrameworkOk `{ListFramework} : Prop := {
  filterset_keeps R view q (l l' : list R) : filterset_rows R view q l = Ok l' → l' `sublist_of` l;
  order_permutes R fields q (l : list R) : order_rows R fields q l ≡ₚ l;
  order_default R fields q (l : list R) : dict_get q "ordering" = None → order_rows R fields q l = l;
  pages R s size p q (l : list R) : (1 ≤ p)%nat → size ≠ Some 0%nat →
    paginate_queryset R s (ListRequest (Some (text p)) (text <$> size) q) l = page_of (size_of s size) p l;
  response_results q n l : getitem (paginated_response q n l) "results" = Ok (PList l);
  response_count q n l : getitem (paginated_response q n l) "count" = Ok (PInt (Z.of_nat n))
}.
(** What django-celery-beat says of a crontab in words *)
Class Readable : Type := { human_readable : crontab_row → string }.

(** ** The views *)

Section Lists.
Context `{ListFramework} `{Postgres} `{Readable} `{Cron}.

(** [list]: the generic view's and [list_light] are the same; [post_paginate_queryset]
    calls the framework's. *)
Definition list_view {R O} (queryset : M (list R)) (filter : list (string * string) → list R → res (list R))
    (load : R → M O) (repr : O → M pyval) (q : list_request) : M view_response :=
  l ← queryset;
  l ← lift (filter (lr_query q) l);
  page ← lift (paginate_queryset R PageNumberPaginationExt q l);
  data ← map_each page (λ r, o ← load r; repr o);
  mret (Resp 200 (paginated_response q (length l) data)).
(** [Model.objects.all()] *)
Definition all_rows {R} `{Model R} : M (list R) := objects_filter (λ _, true).

(** [filter_queryset] with the backends of the view sets *)
Definition filter_workflows (q : list (string * string)) (l : list workflow_row) : res (list workflow_row) :=
  l ← filterset_rows workflow_row "WorkflowFilterSet" q l;
  l ← filter_queryset ["payload_data"] (search_terms q) (params q) l;
  Ok (order_rows workflow_row ["name"; "user_code"; "created_at"; "modified_at"; "status"; "owner"; "is_manager"] q l).
Definition filter_templates (q : list (string * string)) (l : list template_row) : res (list template_row) :=
  l ← filterset_rows template_row "WorkflowTemplateFilterSet" q l;
  l ← filter_queryset ["data"] (search_terms q) (params q) l;
  Ok (order_rows template_row ["name"; "user_code"; "created_at"; "modified_at"; "owner"] q l).
Definition filter_tasks (q : list (string * string)) (l : list task_row) : res (list task_row) :=
  filterset_rows task_row "TaskViewSet" q l.
Definition filter_schedules (q : list (string * string)) (l : list schedule_row) : res (list schedule_row) :=
  filterset_rows schedule_row "ScheduleViewSet" q l.

(** [WorkflowLightSerializer] *)
Definition WorkflowLightSerializer : serializer :=
  [("id", ReadOnly); ("name", Writable); ("user_code", Writable); ("owner", Writable); ("status", Writable);
   ("created_at", ReadOnly); ("modified_at", ReadOnly); ("periodic", Writable); ("is_manager", Writable);
   ("crontab_line", ReadOnly)].
(** [get_crontab_line] *)
Definition readable (c : option crontab_row) : pyval :=
  match c with Some c => PStr (human_readable c) | None => PNone end.
Definition light_relations : relations workflow_row :=
  [("crontab_line", λ wf, c ← fetch_fk (wf_crontab wf); mret (readable c))].
Definition light_representation : workflow_row → M pyval :=
  to_representation WorkflowLightSerializer workflow_readers light_relations.

Definition list_light : list_request → M view_response :=
  list_view all_rows filter_workflows mret light_representation.
Definition list_workflows : list_request → M view_response :=
  list_view all_rows filter_workflows mret (to_representation WorkflowSerializer workflow_readers workflow_relations).
Definition list_templates : list_request → M view_response :=
  list_view all_rows filter_templates mret template_representation.
Definition list_tasks : list_request → M view_response :=
  list_view all_rows filter_tasks mret task_object_representation.
(** The crontab of a schedule comes with it ([select_related]). *)
Definition list_schedules : list_request → M view_response :=
  list_view all_rows filter_schedules (λ r, c ← fetch_fk (sc_crontab r); mret (ScheduleObj r c true))
    (to_representation ScheduleSerializer schedule_readers schedule_relations).
End Lists.

(** ** Pages *)

(** The pages of a list, and how many there are *)
Definition page_count (n : nat) {R} (l : list R) : nat := Nat.max 1 ((length l + (n - 1)) / n).
Definition page_list {R} (n : nat) (l : list R) : list (list R) :=
  (λ i, take n (drop (n * i) l)) <$> seq 0 (page_count n l).

Lemma concat_slices {R} n k : ∀ i (l : list R),
  concat ((λ j, take n (drop (n * j) l)) <$> seq i k) = take (n * k) (drop (n * i) l).
Proof.
  induction k as [|k IH]; intros i l; [by rewrite Nat.mul_0_r|]. cbn [seq fmap list_fmap concat].
  rewrite IH. replace (n * S k)%nat with (n + n * k)%nat by lia. rewrite <- take_take_drop, drop_drop.
  do 3 f_equal. lia.
Qed.
Lemma page_count_enough {R} n (l : list R) : (1 ≤ n)%nat → (length l ≤ n * page_count n l)%nat.
Proof.
  intros Hn. unfold page_count. pose proof (Nat.div_mod_eq (length l + (n - 1)) n). pose proof (Nat.mod_upper_bound (length l + (n - 1)) n).
  nia.
Qed.
(** Together the pages are the list. *)
Lemma page_list_concat {R} n (l : list R) : (1 ≤ n)%nat → concat (page_list n l) = l.
Proof.
  intros Hn. unfold page_list. rewrite concat_slices, Nat.mul_0_r, drop_0. apply take_ge. by apply page_count_enough.
Qed.
Lemma page_list_lookup {R} n i page (l : list R) : (1 ≤ n)%nat → page_list n l !! i = Some page →
  page_of n (S i) l = Ok page ∧ (length page ≤ n)%nat.
Proof.
  intros Hn Hi. unfold page_list in Hi. apply list_lookup_fmap_Some in Hi as (j & -> & Hj).
  apply lookup_seq in Hj as [-> Hi]. cbn [Nat.add]. split; [|rewrite length_take; lia]. unfold page_of.
  replace (S i - 1)%nat with i by lia. destruct (decide (i = 0)%nat) as [->|Hne]; [done|].
  rewrite (bool_decide_eq_true_2 (n * i < _)%nat), orb_true_r; [done|]. unfold page_count in Hi.
  pose proof (Nat.div_mod_eq (length l + (n - 1)) n). pose proof (Nat.mod_upper_bound (length l + (n - 1)) n). nia.
Qed.
Lemma page_after {R} n p (l : list R) : (1 ≤ n)%nat → (page_count n l < p)%nat → page_of n p l = Raise Http404.
Proof.
  intros Hn Hp. unfold page_of. pose proof (page_count_enough n l Hn). unfold page_count in *.
  rewrite !bool_decide_eq_false_2; [done|nia|lia].
Qed.
Lemma length_page_list {R} n (l : list R) : length (page_list n l) = page_count n l.
Proof. unfold page_list. by rewrite length_fmap, length_seq. Qed.

(** ** What the filters keep *)

Lemma filter_rows_true {R} (l : list R) : List.filter (λ _, true) l = l.
Proof. induction l as [|x l IH]; [done|]. cbn. by rewrite IH. Qed.

Section Kept.
Context `{Filterable R}.

Lemma filter_sub (p : R → bool) (l : list R) : List.filter p l `sublist_of` l.
Proof. induction l as [|x l IH]; [done|]. cbn. destruct (p x); by constructor. Qed.
Lemma query_filter_sub query (l l' : list R) : query_filter query l = Ok l' → l' `sublist_of` l.
Proof.
  unfold query_filter. destruct (truthy_str query); [|by intros [= ->]].
  destruct (map_res query_fields field); [|done]. intros [= <-]. apply filter_sub.
Qed.
Lemma words_filter_sub fields terms (l l' : list R) : words_filter fields terms l = Ok l' → l' `sublist_of` l.
Proof.
  unfold words_filter. destruct terms as [|t ts]; [by intros [= ->]|]. destruct fields as [|f fs]; [by intros [= ->]|].
  destruct (map_res _ field); [|done]. intros [= <-]. apply filter_sub.
Qed.
Lemma search_param_sub p (l l' : list R) : search_param_filter p l = Ok l' → l' `sublist_of` l.
Proof.
  unfold search_param_filter. destruct (from_filter _ l) as [l1|] eqn:E1; [|done]. cbn [mbind res_bind].
  destruct (to_filter _ l1) as [l2|] eqn:E2; [|done]. cbn [mbind res_bind].
  destruct (status_filter _ l2) as [l3|] eqn:E3; [|done]. cbn [mbind res_bind]. intros E4.
  transitivity l3; [|transitivity l2; [|transitivity l1]].
  - unfold manager_filter in E4. destruct (truthy_str _); [|by injection E4 as ->]. destruct manager_flag; [|done].
    destruct (bool_param _); [|done]. injection E4 as <-. apply filter_sub.
  - unfold status_filter in E3. destruct (truthy_str _); [|by injection E3 as ->]. destruct (field _); [|done].
    injection E3 as <-. apply filter_sub.
  - unfold to_filter in E2. destruct (truthy_str _); [|by injection E2 as ->]. destruct (Dates.strptime _); [|done].
    injection E2 as <-. apply filter_sub.
  - unfold from_filter in E1. destruct (truthy_str _); [|by injection E1 as ->]. destruct (Dates.strptime _); [|done].
    injection E1 as <-. apply filter_sub.
Qed.
Lemma filter_queryset_sub fields terms p (l l' : list R) : filter_queryset fields terms p l = Ok l' → l' `sublist_of` l.
Proof.
  unfold filter_queryset. destruct (search_param_filter p l) as [l1|] eqn:E1; [|done]. cbn [mbind res_bind].
  destruct (query_filter _ l1) as [l2|] eqn:E2; [|done]. cbn [mbind res_bind]. intros E3.
  transitivity l2; [by eapply words_filter_sub|]. transitivity l1; [by eapply query_filter_sub|]. by eapply search_param_sub.
Qed.
End Kept.

(** ** Every page together *)

(** The crontab of a workflow, and its row in the light list *)
Definition crontab_of (t : tenant) (wf : workflow_row) : option crontab_row :=
  match wf_crontab wf with
  | Some i => List.find (λ c, ct_id c =? i) (rows (t_crontabs t))
  | None => None
  end.
Definition has_crontab (t : tenant) (wf : workflow_row) : Prop :=
  match wf_crontab wf with
  | Some i => ∃ c, ct_id c = i ∧ the_row c (rows (t_crontabs t))
  | None => True
  end.
Definition light_row `{Readable} (t : tenant) (wf : workflow_row) : pyval :=
  PDict [("id", PInt (wf_id wf)); ("name", opt_str (wf_name wf)); ("user_code", opt_str (wf_user_code wf));
    ("owner", PInt (wf_owner wf)); ("status", PStr (wf_status_str (wf_status_ wf)));
    ("created_at", PInt (wf_created_at wf)); ("modified_at", PInt (wf_modified_at wf));
    ("periodic", PBool (wf_periodic wf)); ("is_manager", PBool (wf_is_manager wf));
    ("crontab_line", readable (crontab_of t wf))].

Lemma find_the_row {R} `{Model R} (r : R) l : the_row r l → List.find (λ r', row_id r' =? row_id r) l = Some r.
Proof.
  unfold the_row. intros Hr. induction l as [|x l IH]; [done|]. cbn in *. destruct (row_id x =? row_id r).
  - by injection Hr as ->.
  - by apply IH.
Qed.
Lemma map_each_run {S A B} (f : A → ST S B) (g : A → B) l s : (∀ x, x ∈ l → f x s = (Ok (g x), s)) →
  map_each l f s = (Ok (g <$> l), s).
Proof.
  induction l as [|x l IH]; intros Hf; [done|]. cbn [map_each]. rewrite (bind_ok _ _ s (g x) s) by (apply Hf; by left).
  rewrite (bind_ok _ _ s (g <$> l) s); [done|]. apply IH. intros y Hy. apply Hf. by right.
Qed.

Section Covered.
Context `{ListFrameworkOk} `{Postgres} `{Readable}.

Lemma light_run w t wf : cur w = Some t → has_crontab t wf → light_representation wf w = (Ok (light_row t wf), w).
Proof using.
  intros Hw Hc. unfold light_representation, to_representation.
  assert (∃ c, fetch_fk (wf_crontab wf) w = (Ok c, w) ∧ crontab_of t wf = c) as (c & Ec & Hcr).
  { unfold has_crontab, crontab_of in *. destruct (wf_crontab wf) as [i|]; [|by exists None].
    destruct Hc as (c & <- & Hc). exists (Some c). unfold fetch_fk. split.
    - change (ct_id c) with (row_id c). by rewrite (bind_ok _ _ _ _ _ (the_row_get c w t Hw Hc)).
    - exact (find_the_row c (rows (t_crontabs t)) Hc). }
  unfold light_row. rewrite Hcr.
  set (show := λ f : string * field_kind, (f.1, match dict_get workflow_readers f.1 with
    | Some g => match g wf with Ok v => v | Raise _ => PNone end | None => readable c end)).
  rewrite (bind_ok _ _ w (show <$> WorkflowLightSerializer) w); [reflexivity|]. apply map_each_run.
  intros f Hf. do 9 (apply elem_of_cons in Hf as [->|Hf]; [reflexivity|]). apply list_elem_of_singleton in Hf as ->.
  transitivity ((v ← (c ← fetch_fk (wf_crontab wf); mret (readable c)); mret ("crontab_line", v)) w); [reflexivity|].
  rewrite (bind_ok _ _ w (readable c) w); [reflexivity|]. by rewrite (bind_ok _ _ _ _ _ Ec).
Qed.

(** The pages of a list view, for rows that can all be shown *)
Lemma list_pages {R O} queryset filter (load : R → M O) (repr : O → M pyval) (shown : R → pyval) q size n w all l :
  queryset w = (Ok all, w) → filter q all = Ok l → (∀ r, r ∈ l → (o ← load r; repr o) w = (Ok (shown r), w)) →
  size ≠ Some 0%nat → n = size_of PageNumberPaginationExt size →
  concat (page_list n (shown <$> l)) = shown <$> l ∧
  (∀ i page, page_list n (shown <$> l) !! i = Some page → (length page ≤ n)%nat ∧ ∃ d,
     list_view queryset filter load repr (ListRequest (Some (text (S i))) (text <$> size) q) w = (Ok (Resp 200 d), w) ∧
     getitem d "results" = Ok (PList page) ∧ getitem d "count" = Ok (PInt (Z.of_nat (length l)))) ∧
  ∀ p, (page_count n l < p)%nat →
    list_view queryset filter load repr (ListRequest (Some (text p)) (text <$> size) q) w = (Raise Http404, w).
Proof using All.
  intros Hq Hf Hs Hsize Hn.
  assert (1 ≤ n)%nat as Hn1.
  { subst n. unfold size_of, PageNumberPaginationExt, PAGE_SIZE, page_size, max_page_size. destruct size as [k|]; [|lia].
    assert (k ≠ 0%nat) by congruence. lia. }
  assert (∀ p, (1 ≤ p)%nat → list_view queryset filter load repr (ListRequest (Some (text p)) (text <$> size) q) w =
    (page ← lift (page_of n p l); data ← map_each page (λ r, o ← load r; repr o);
     mret (Resp 200 (paginated_response (ListRequest (Some (text p)) (text <$> size) q) (length l) data))) w) as Hview.
  { intros p Hp. unfold list_view. rewrite (bind_ok _ _ _ _ _ Hq). cbn [lr_query].
    rewrite (bind_ok (lift (filter q all)) _ w l w) by (by rewrite Hf). by rewrite pages, <- Hn. }
  split; [by apply page_list_concat|]. split.
  - intros i page Hi. unfold page_list in Hi. apply list_lookup_fmap_Some in Hi as (j & -> & Hj).
    replace (page_count n (shown <$> l)) with (page_count n l) in Hj by (unfold page_count; by rewrite length_fmap).
    destruct (page_list_lookup n i (take n (drop (n * j) l)) l Hn1) as [Hp Hlen].
    { unfold page_list. by rewrite list_lookup_fmap, Hj. }
    change (take n (drop (n * j) (shown <$> l))) with (firstn n (skipn (n * j) (map shown l))).
    rewrite skipn_map, firstn_map. split; [by rewrite length_map|].
    set (rows := take n (drop (n * j) l)) in *.
    assert (map_each rows (λ r, o ← load r; repr o) w = (Ok (shown <$> rows), w)) as Hrows.
    { apply map_each_run. subst rows. intros r Hr. apply Hs.
      rewrite <- (take_drop (n * j) l), <- (take_drop n (drop (n * j) l)), !elem_of_app. tauto. }
    eexists. rewrite Hview by lia. rewrite Hp, (bind_ok (lift (Ok rows)) _ w rows w), (bind_ok _ _ _ _ _ Hrows) by done.
    split; [reflexivity|]. by rewrite response_results, response_count.
  - intros p Hp. rewrite Hview by lia. by rewrite page_after.
Qed.

(** The filters keep some of the workflows, newest first unless the client asks
    for another order. *)
Lemma filter_workflows_keeps q (l l' : list workflow_row) : filter_workflows q l = Ok l' →
  l' ⊆+ l ∧ (dict_get q "ordering" = None → l' `sublist_of` l).
Proof using H0.
  unfold filter_workflows. destruct (filterset_rows _ _ q l) as [l1|] eqn:E1; [|done]. cbn [mbind res_bind].
  destruct (filter_queryset _ _ _ l1) as [l2|] eqn:E2; [|done]. cbn [mbind res_bind]. intros [= <-].
  assert (l2 `sublist_of` l) as Hl.
  { transitivity l1; [by eapply filter_queryset_sub|by eapply filterset_keeps]. }
  split; [|by intros Hq; rewrite order_default]. rewrite order_permutes. by apply sublist_submseteq.
Qed.

End Covered.

(** A framework without filters of its own and without other orders *)
Definition read_number (s : string) : option nat :=
  match loads s with Ok (PInt z) => Some (Z.to_nat z) | _ => None end.
#[export] Instance plain_framework : ListFramework := {|
  filterset_rows := λ R _ _ l, Ok l;
  search_terms := λ _, [];
  order_rows := λ R _ _ l, l;
  paginate_queryset := λ R s q l,
    page_of (size_of s (s ← lr_page_size q; read_number s)) (default 1%nat (s ← lr_page q; read_number s)) l;
  paginated_response := λ _ n l, PDict [("count", PInt (Z.of_nat n)); ("results", PList l)] |}.
Lemma read_number_text n : read_number (text n) = Some n.
Proof.
  unfold read_number, text. rewrite loads_dumps by done. cbn. by rewrite Nat2Z.id.
Qed.
#[export] Instance plain_framework_ok : ListFrameworkOk.
Proof.
  split; try done.
  - by intros R view q l l' [= ->].
  - intros R s size p q l _ _. cbn [paginate_queryset plain_framework lr_page lr_page_size mbind option_bind].
    change (page_of (size_of s (t ← text <$> size; read_number t)) (default 1%nat (read_number (text p))) l = page_of (size_of s size) p l).
    rewrite read_number_text. destruct size as [k|]; [|done].
    change (page_of (size_of s (read_number (text k))) p l = page_of (size_of s (Some k)) p l). by rewrite read_number_text.
Qed.
#[export] Instance plain_readable : Readable := {| human_readable := ct_minute |}.
Definition two_workflows : tenant :=
  set_t_workflows (Table [demo_workflow WSuccess; set_wf_id 2 (demo_workflow WProgress)] 3) edit_tenant.
Definition two_world : world := set_w_path "space00000" (demo_world two_workflows).
