(* ===== verification/Withdrawn.v ===== *)
(** * Workflows withdrawn while their messages wait (workflow/views.py and
    workflow/tasks)

    The broker knows nothing of a deletion: the messages of a deleted workflow are
    still taken by the workers.  Here the API and the engine meet: whatever is
    left of a deleted workflow, or of the workflows of a deleted template, changes
    no table and sends nothing when it is taken. *)
From Stdlib Require Import Ascii String.
From stdpp Require Import base list strings numbers gmap sets.
From S2P Require Import Prelude PyStr PyVal Json World Demo Graph Finmars Models Manager Builder Launch Tasks Engine.
From S2P Require Import Views Storage Serializers Editing Fixture Edited References.
Local Open Scope string_scope.
Local Open Scope Z_scope.
Local Open Scope list_scope.

(** ** What stays *)

(** Everything but the search path, the clock, the identifiers drawn and the
    function a worker has registered *)
Record Same (w0 w : world) : Prop := {
  sa_tenants : w_tenants w = w_tenants w0;
  sa_catalog : w_catalog w = w_catalog w0;
  sa_broker : w_broker w = w_broker w0;
  sa_revoked : w_revoked w = w_revoked w0;
  sa_requests : w_requests w = w_requests w0;
  sa_registry : w_registry w = w_registry w0;
  sa_local : w_local w = w_local w0
}.
Lemma nothing_refl w : Same w w.
Proof. by split. Qed.
Lemma nothing_trans w0 w1 w2 : Same w0 w1 → Same w1 w2 → Same w0 w2.
Proof. intros [] []. split; congruence. Qed.
Lemma same_path w0 w p : Same w0 w → Same w0 (set_w_path p w).
Proof. intros []. by split. Qed.

(** A tenant without some workflows and their tasks, and without a task of the
    message [task_id] *)
Record Gone (ids : list Z) (task_id : string) (t : tenant) : Prop := {
  go_workflows wf : wf ∈ rows (t_workflows t) → wf_id wf ∉ ids;
  go_tasks tk : tk ∈ rows (t_tasks t) → tk_workflow tk ∉ ids;
  go_message tk : tk ∈ rows (t_tasks t) → tk_celery_task_id tk ≠ Some task_id
}.

(** The messages of a workflow: the task a message names takes its identifier, or
    is a step, which is found by the identifier of the message. *)
Definition task_name (n : string) : string := "workflow.tasks.workflows." +:+ n.
Definition of_workflow (ids : list Z) (m : message) : Prop :=
  (∃ i, i ∈ ids ∧
    ((msg_task m ∈ task_name <$> ["process_next_node"; "execute_workflow_v2"] ∧ kwint (msg_kwargs m) "workflow_id" = Ok i) ∨
     (msg_task m ∈ task_name <$> ["start"; "end"; "mark_as_canceled_init_tasks"] ∧ workflow_arg m = Ok i)))
  ∨ msg_task m = task_name "execute_workflow_step".

Section Withdrawn.
Context `{Platform} `{Manager} `{UserCode} `{CeleryFrame}.
Context (w0 : world) (s task_id : string) (ids : list Z)
  (Hgone : ∀ t, w_tenants w0 !! s = Some t → Gone ids task_id t).
Abbreviation I := (Same w0).

(** The schema of the context, then a computation in it *)
Lemma enter_then {A} context (m : M A) φ : names_schema s context →
  (∀ w, I w → w_path w = s → I (m w).2 ∧ ∀ a, (m w).1 = Ok a → φ a) →
  Keeps I (_ ← set_schema_from_context context; m) φ.
Proof using.
  intros Hc Hm w HI. unfold mbind, ST_bind. destruct (set_schema_from_context context w) as [[u|e] w1] eqn:E; cbn.
  - destruct (set_schema_names context w) as [c Hsc]; [by rewrite E; destruct u|].
    destruct (set_schema_enters context c w Hsc) as [Hw1 _]; [by rewrite E; destruct u|]. rewrite E in Hw1. cbn in Hw1. subst w1.
    apply Hm; [by apply same_path|]. cbn. by apply Hc.
  - by rewrite (set_schema_raises _ _ _ _ E).
Qed.
Lemma objects_absent {R} `{ModelOk R} (P : R → bool) w : I w → w_path w = s →
  (∀ t r, w_tenants w0 !! s = Some t → r ∈ rows (get_table t) → P r = false) →
  (objects_get P w).2 = w ∧ ∀ r, (objects_get P w).1 ≠ Ok r.
Proof using.
  intros HI Hp Hno. destruct (cur w) as [t|] eqn:Hw.
  - rewrite (get_none P w t Hw); [done|]. unfold cur in Hw. rewrite Hp, (sa_tenants _ _ HI) in Hw.
    specialize (Hno t). induction (rows (get_table t)) as [|x l IH]; [done|]. cbn. rewrite (Hno x Hw) by left.
    apply IH. intros r Hr Hin. apply Hno; [done|by right].
  - unfold objects_get, objects_filter, current_tenant, mbind, ST_bind. unfold cur in Hw. by rewrite Hw.
Qed.
Lemma workflow_absent {A} i (f : workflow_row → M A) φ w : i ∈ ids → I w → w_path w = s →
  I ((get_by_id i ≫= f) w).2 ∧ ∀ a, ((get_by_id i ≫= f) w).1 = Ok a → φ a.
Proof using Hgone.
  intros Hi HI Hp. destruct (objects_absent (R:=workflow_row) (λ r, row_id r =? i) w HI Hp) as [Hw Hr].
  { intros t r Ht Hin. apply Z.eqb_neq. intros <-. by apply (go_workflows _ _ _ (Hgone t Ht) r Hin). }
  unfold get_by_id, mbind, ST_bind. destruct (objects_get _ w) as [[r|e] w'] eqn:E; cbn in *; [by destruct (Hr r)|].
  by subst w'.
Qed.
Lemma task_absent {A} (f : task_row → M A) φ w : I w → w_path w = s →
  I ((get_task_by_celery_id (Some task_id) ≫= f) w).2 ∧
  ∀ a, ((get_task_by_celery_id (Some task_id) ≫= f) w).1 = Ok a → φ a.
Proof using Hgone.
  intros HI Hp. unfold get_task_by_celery_id.
  destruct (objects_absent (R:=task_row) (λ t, bool_decide (tk_celery_task_id t = Some task_id)) w HI Hp) as [Hw Hr].
  { intros t r Ht Hin. apply bool_decide_eq_false. by apply (go_message _ _ _ (Hgone t Ht)). }
  unfold mbind, ST_bind. destruct (objects_get _ w) as [[r|e] w'] eqn:E; cbn in *; [by destruct (Hr r)|]. by subst w'.
Qed.

(** ** The handlers *)

Section Handlers.
Context (fuel : nat) (kw : list (string * pyval)) (i : Z) (Hkw : names_schema s (kwget kw "context")) (Hi : i ∈ ids).

Lemma failure_inert f e : Keeps I (on_failure f kw (Some task_id) e) anything.
Proof using Hgone Hkw.
  destruct f as [|f]; [apply keeps_raise|]. apply enter_then; [done|]. intros w HI Hp. by apply task_absent.
Qed.
Lemma next_node_inert node nodes : Keeps I (process_next_node fuel node i nodes kw) anything.
Proof using Hgone Hkw Hi.
  apply enter_then; [done|]. intros w HI Hp. split; [|done]. unfold try_except.
  destruct (workflow_absent i (λ workflow,
    current_node ← lift (getitem nodes node);
    if bool_decide (wf_status_ workflow = WWait) then
      _ ← save_workflow (set_wf_current_node_id (Some node) workflow); mret tt
    else
      ready ← are_inputs_ready workflow node (kwget kw "connections");
      if (ready : bool) then execute_node fuel workflow node current_node (kwget kw "connections") else mret tt)
    anything w Hi HI Hp) as [HI' _].
  unfold process_node. by destruct ((get_by_id i ≫= _) w) as [[u|e] w'].
Qed.
Lemma launch_inert : Keeps I (execute_workflow_v2 i kw) anything.
Proof using Hgone Hkw Hi. apply enter_then; [done|]. intros w HI Hp. by apply workflow_absent. Qed.
Lemma start_inert : Keeps I (start i kw) anything.
Proof using Hgone Hkw Hi. apply enter_then; [done|]. intros w HI Hp. by apply workflow_absent. Qed.
Lemma end_inert : Keeps I (end_ i kw) anything.
Proof using Hgone Hkw Hi.
  apply keeps_bind with (φ := anything).
  - apply keeps_modify; [|done]. intros w []. by split.
  - intros _ _. apply enter_then; [done|]. intros w HI Hp. by apply workflow_absent.
Qed.
Lemma cancel_inert : Keeps I (mark_as_canceled_init_tasks i kw) anything.
Proof using Hgone Hkw Hi.
  apply enter_then; [done|]. intros w HI Hp. split; [|done].
  set (P := λ t : task_row, (tk_workflow t =? i) && bool_decide (tk_status t = TInit)).
  destruct (cur w) as [t|] eqn:Hw.
  - rewrite (bind_ok _ _ _ _ _ (filter_run P w t Hw)).
    assert (List.filter P (rows (get_table t)) = []) as ->; [|exact HI].
    assert (w_tenants w0 !! s = Some t) as Ht by (rewrite <- (sa_tenants _ _ HI), <- Hp; exact Hw).
    pose proof (go_tasks _ _ _ (Hgone t Ht)) as Hno. change (rows (get_table t)) with (rows (t_tasks t)).
    induction (rows (t_tasks t)) as [|x l IH]; [done|]. cbn. unfold P at 1.
    rewrite (proj2 (Z.eqb_neq (tk_workflow x) i)); cbn.
    + apply IH. intros tk Htk. apply Hno. by right.
    + intros <-. apply (Hno x); [by left|done].
  - unfold mbind, ST_bind, objects_filter, current_tenant. unfold cur in Hw. unfold mbind, ST_bind. by rewrite Hw.
Qed.
Lemma step_inert args : Leads I (run_step fuel task_id args kw) I.
Proof using H3 Hgone Hkw.
  apply apply_frame with (φ := λ _, False); [done| |done| | |].
  - apply enter_then; [done|]. intros w HI Hp. by apply task_absent.
  - intros v. apply enter_then; [done|]. intros w HI Hp. by apply task_absent.
  - intros e. apply failure_inert.
  - intros w HI. by apply same_path.
Qed.
End Handlers.

(** Taking a message of a workflow that is gone *)
Lemma message_inert fuel m : names_schema s (kwget (msg_kwargs m) "context") → of_workflow ids m →
  Leads I (run_message fuel task_id m) I.
Proof using All.
  intros Hc [(i & Hi & Hm)|Hm]; unfold run_message.
  2:{ rewrite Hm. by apply step_inert. }
  assert (Keeps I (task_body fuel m) anything) as Hb.
  { unfold task_body. destruct Hm as [[Hin Ha]|[Hin Ha]];
      repeat (apply elem_of_cons in Hin as [->|Hin]); try (by apply elem_of_nil in Hin); rewrite Ha.
    - cbn. apply keeps_bind with (φ := anything); [by apply keeps_lift|]. intros node _. by apply next_node_inert.
    - by apply launch_inert.
    - by apply start_inert.
    - by apply end_inert.
    - by apply cancel_inert. }
  assert (String.eqb (msg_task m) "workflow.tasks.workflows.execute_workflow_step" = false) as ->.
  { destruct Hm as [[Hin _]|[Hin _]]; repeat (apply elem_of_cons in Hin as [->|Hin]); try done; by apply elem_of_nil in Hin. }
  apply leads_bind with (φ := anything); [done| |].
  - apply keeps_try; [done|]. intros e. apply keeps_try; [by apply failure_inert|]. intros e'. by apply keeps_ret.
  - intros _ _ w HI. by apply same_path.
Qed.
End Withdrawn.

(** ** Deleting a workflow whose messages wait *)

(** A worker takes messages one after the other; each is a message of one of the
    workflows, in the tenant's schema, and its identifier is that of a task of
    theirs or of none. *)
Definition take_all `{Platform} `{Manager} `{UserCode} `{Celery} (fuel : nat) (l : list (string * message)) (w : world) : world :=
  fold_left (λ w tm, (run_message fuel tm.1 tm.2 w).2) l w.
Record message_of (s : string) (ids : list Z) (t : tenant) (tm : string * message) : Prop := {
  mo_schema : names_schema s (kwget (msg_kwargs tm.2) "context");
  mo_workflow : of_workflow ids tm.2;
  mo_task tk : tk ∈ rows (t_tasks t) → tk_celery_task_id tk = Some tm.1 → tk_workflow tk ∈ ids
}.

Lemma without_gone s ids t tm : message_of s ids t tm → Gone ids tm.1 (without_workflows ids t).
Proof.
  intros Hm. split; cbn.
  - intros wf (c & -> & Hc)%list_elem_of_fmap. rewrite (proj1 (orphan_id _ _)).
    apply list_elem_of_In, filter_In in Hc as [_ Hc]. by rewrite negb_true_iff, <- not_true_iff_false, among_spec in Hc.
  - intros tk [_ Htk]%list_elem_of_In%filter_In. by rewrite negb_true_iff, <- not_true_iff_false, among_spec in Htk.
  - intros tk [Hin Htk]%list_elem_of_In%filter_In E. rewrite negb_true_iff, <- not_true_iff_false, among_spec in Htk.
    apply Htk, (mo_task _ _ _ _ Hm); [by apply list_elem_of_In|done].
Qed.
Lemma gone_template i ids tid t : Gone ids tid t → Gone ids tid (without_template i t).
Proof. by intros []. Qed.

Section Deleted.
Context `{Platform} `{RawStorage} `{Crypto} `{Cron} `{Validation} `{Manager} `{UserCode} `{CeleryFrame} (key : option string).

Lemma taken_inert fuel ids w t t' l : w_tenants w !! w_path w = Some t' →
  Forall (message_of (w_path w) ids t) l → (∀ tm, message_of (w_path w) ids t tm → Gone ids tm.1 t') →
  ∀ w1, Same w w1 → Same w (take_all fuel l w1).
Proof using All.
  intros Hw Hl Hg. induction l as [|tm l IH]; intros w1 Hs; [done|]. apply Forall_cons in Hl as [Hm Hl].
  cbn. apply IH; [done|]. apply (message_inert w (w_path w) tm.1 ids); [|apply (mo_schema _ _ _ _ Hm)|apply (mo_workflow _ _ _ _ Hm)|done].
  intros t1 Ht1. rewrite Hw in Ht1. injection Ht1 as <-. by apply Hg.
Qed.
Lemma taken_deleted fuel ids w t f l : cur w = Some t → Forall (message_of (w_path w) ids t) l →
  (∀ tid, Gone ids tid (without_workflows ids t) → Gone ids tid (f (without_workflows ids t))) →
  let w1 := with_tenant (f (without_workflows ids t)) w in Same w1 (take_all fuel l w1).
Proof using All.
  intros Hw Hl Hf w1. apply (taken_inert fuel ids w1 t (f (without_workflows ids t)) l); [apply cur_with_tenant|done| |apply nothing_refl].
  intros tm Hm. by eapply Hf, without_gone.
Qed.

(** C23: a deleted workflow does nothing more.  When a client deletes a workflow, or a
    template with the workflows made from it, while messages of these workflows wait
    (starts, ends, nodes of graphs, steps of chains), the request succeeds, and the
    workers can take any of the messages, in any order and however often: they find
    nothing, and leave the tables of every tenant, the broker, the requests, the
    registry and the files as they were. *)
Theorem deleted_workflow_inert fuel user pk w st t l : cur w = Some t →
  (∀ wf, the_row wf (rows (t_workflows t)) → wf_id wf = pk → Forall (message_of (w_path w) [pk] t) l →
     ∃ w1, api key RWorkflow user (Destroy pk) (w, st) = (Ok (Resp 204 PNone), (w1, st)) ∧
       Same w1 (take_all fuel l w1)) ∧
  (∀ wt, the_row wt (rows (t_templates t)) → wt_id wt = pk → Forall (message_of (w_path w) (workflows_of pk t) t) l →
     ∃ w1, api key RTemplate user (Destroy pk) (w, st) = (Ok (Resp 204 PNone), (w1, st)) ∧
       Same w1 (take_all fuel l w1)).
Proof using All.
  intros Hw. split.
  - intros wf Hwf <- Hl. eexists. split; [exact (destroy_workflow_run key user wf w st t Hw Hwf)|].
    by apply (taken_deleted fuel [wf_id wf] w t (λ t, t) l).
  - intros wt Hwt <- Hl. eexists. split; [exact (destroy_template_run key user wt w st t Hw Hwt)|].
    apply (taken_deleted fuel _ w t (without_template (wt_id wt)) l); [done|done|]. intros tid. apply gone_template.
Qed.
End Deleted.

(** The start of a graph and the step of a task, waiting when their workflow goes *)
Definition demo_waiting : list (string * message) :=
  [("start", Msg (task_name "execute_workflow_v2") [] [("workflow_id", PInt 1); ("context", demo_context)] (PStr "workflow"));
   ("uuid-7", Msg (task_name "execute_workflow_step") [] [("context", demo_context)] (PStr "workflow"))].
Lemma demo_waiting_ok : Forall (message_of "space00000" [1] edit_tenant) demo_waiting.
Proof.
  apply Forall_cons. split; [|apply Forall_singleton]; split.
  - by intros c [= <-].
  - left. exists 1. split; [by left|]. left. split; [by apply (bool_decide_unpack _)|reflexivity].
  - intros tk ->%list_elem_of_singleton. discriminate.
  - by intros c [= <-].
  - by right.
  - intros tk ->%list_elem_of_singleton _. by left.
Qed.
Lemma deleted_workflow_inert_witness : ∃ w1 : world,
  edit_api RWorkflow demo_user (Destroy 1) (edit_world, files []) = (Ok (Resp 204 PNone), (w1, files [])) ∧
  Same w1 (@take_all demo_platform (demo_manager PNone) demo_user_code demo_celery 9 demo_waiting w1).
Proof.
  destruct (@deleted_workflow_inert demo_platform file_store (toy_crypto false "") demo_cron demo_validation
    (demo_manager PNone) demo_user_code demo_celery eager_celery_frame demo_key 9 demo_user 1 edit_world (files []) edit_tenant demo_waiting eq_refl)
    as [Hd _].
  exact (Hd (demo_workflow WProgress) eq_refl eq_refl demo_waiting_ok).
Defined.
