(* ===== verification/Logging.v ===== *)
(** * Log records, error reports and settings (logstash/, workflow_app/utils.py)

    What the formatter makes of a log record, which error reports are dropped,
    how the settings read the environment, and the variables of the templates
    (workflow/context_processors.py). *)
From Stdlib Require Import Ascii String.
From stdpp Require Import base list strings numbers gmap sets.
From S2P Require Import Prelude PyStr PyVal Json Dates World Finmars Middleware.
Local Open Scope string_scope.
Local Open Scope Z_scope.
Local Open Scope list_scope.

(** ** logstash/formatter.py *)

(** An attribute of a record: a value of one of the [easy_types], or anything
    else by its [repr] *)
Inductive attribute : Type := Easy (v : pyval) | Other (repr : string).
(** A [LogRecord]: [__dict__] in order, the time, the text of [getMessage], and
    the traceback [exc_info] renders to *)
Record log_record : Type := LogRecord {
  lr_dict : list (string * attribute);
  lr_created : Z;
  lr_message : string;
  lr_exc_info : option string
}.
(** The settings of the formatter *)
Record formatter : Type := Formatter {
  fm_message_type : string;
  fm_tags : list pyval;
  fm_host : string;
  fm_host_location : string
}.
Definition attribute_value (a : attribute) : pyval :=
  match a with Easy v => v | Other repr => PStr repr end.
(** [record.<name>] *)
Definition attr (r : log_record) (name : string) : res pyval :=
  match dict_get (lr_dict r) name with
  | Some a => Ok (attribute_value a)
  | None => Raise AttributeError
  end.
Definition skip_list : list string :=
  ["args"; "asctime"; "created"; "exc_info"; "exc_text"; "filename"; "funcName"; "id"; "levelname";
   "levelno"; "lineno"; "module"; "msecs"; "msecs"; "message"; "msg"; "name"; "pathname"; "process";
   "processName"; "relativeCreated"; "thread"; "threadName"; "extra"].
(** [get_extra_fields] *)
Definition get_extra_fields (r : log_record) : list (string * pyval) :=
  dict_of ((λ kv, (kv.1, attribute_value kv.2))
    <$> List.filter (λ kv, negb (bool_decide (kv.1 ∈ skip_list))) (lr_dict r)).
(** A field that is set when the attribute is absent or falsy, as the source has it *)
Definition missing_field (r : log_record) (name : string) : res (list (string * pyval)) :=
  match dict_get (lr_dict r) name with
  | Some a => Ok (if truthy (attribute_value a) then [] else [(name, attribute_value a)])
  | None => Raise AttributeError
  end.
(** [format_exception] *)
Definition stack_trace (exc_info : option string) : string := default "" exc_info.
(** [get_debug_fields] *)
Definition get_debug_fields (r : log_record) : res (list (string * pyval)) :=
  lineno ← attr r "lineno"; process ← attr r "process"; thread_name ← attr r "threadName";
  func ← missing_field r "funcName"; proc ← missing_field r "processName";
  Ok ([("stack_trace", PStr (stack_trace (lr_exc_info r))); ("lineno", lineno); ("process", process);
       ("thread_name", thread_name)] ++ func ++ proc).
(** [f"{microsecond / 1000}"]: a float with at most three decimals *)
Definition strip_zeros (s : string) : string :=
  String.string_of_list_ascii (rev ((fix go l := match l with
    | "0"%char :: l' => go l' | _ => l end) (rev (String.list_ascii_of_string s)))).
Definition three_digits (n : Z) : string :=
  drop_str 1 (str_of_Z (1000 + n)).
Definition thousandths (n : Z) : string :=
  str_of_Z (n / 1000) +:+ "." +:+
  (let d := strip_zeros (three_digits (n mod 1000)) in if String.eqb d "" then "0" else d).
(** [format_timestamp] *)
Definition format_timestamp (time : Z) : string :=
  let s := time mod day_us / 1000000 in
  str_of_date (fromordinal (ordinal_of_time time)) +:+ "T" +:+ two_digits (s / 3600) +:+ ":"
  +:+ two_digits (s mod 3600 / 60) +:+ ":" +:+ two_digits (s mod 60) +:+ "."
  +:+ thousandths (time mod 1000000) +:+ "Z".
Definition format_source (message_type host path : string) : string :=
  message_type +:+ "://" +:+ host +:+ "/" +:+ path.

(** [LogstashFormatterVersion.format] before [serialize] *)
Definition format_message (f : formatter) (r : log_record) : res (list (string * pyval)) :=
  pathname ← attr r "pathname"; levelname ← attr r "levelname"; name ← attr r "name";
  module ← attr r "module"; lineno ← attr r "lineno";
  let message := [("@timestamp", PStr (format_timestamp (lr_created r))); ("@version", PStr "1");
    ("message", PStr (lr_message r)); ("host", PStr (fm_host f)); ("path", pathname);
    ("tags", PList (fm_tags f)); ("type", PStr (fm_message_type f));
    ("host_location", PStr (fm_host_location f)); ("level", levelname); ("logger_name", name);
    ("module", module); ("lineno", lineno)] in
  let message := dict_update message (get_extra_fields r) in
  match lr_exc_info r with
  | Some _ => debug ← get_debug_fields r; Ok (dict_update message debug)
  | None => Ok message
  end.
Definition serialize (message : list (string * pyval)) : string := encode (dumps false None (PDict message)).
Definition format (f : formatter) (r : log_record) : res string :=
  message ← format_message f r; Ok (serialize message).
(** [TCPLogstashHandler.makePickle] *)
Definition make_pickle (f : formatter) (r : log_record) : res string :=
  s ← format f r; Ok (s +:+ String newline "").

(** ** workflow_app/utils.py *)

(** [os.environ.get(name, default)]: a string, or the default of the setting *)
Definition environ (env : list (string * string)) (name : string) (def : pyval) : pyval :=
  match dict_get env name with Some v => PStr v | None => def end.
(** [ENV_BOOL]: [warnings.warn] takes the name for a category and raises. *)
Definition ENV_BOOL (env : list (string * string)) (name : string) (def : pyval) : res pyval :=
  let val := environ env name def in
  if negb (truthy val) then Ok def
  else match val with
       | PStr "True" | PBool true => Ok (PBool true)
       | PStr "False" | PBool false => Ok (PBool false)
       | _ => Raise TypeError
       end.
Definition ENV_STR (env : list (string * string)) (name : string) (def : pyval) : pyval :=
  let val := environ env name def in if truthy val then val else def.
(** [ENV_INT], for what [int] makes of a value *)
Definition ENV_INT (int : pyval → res Z) (env : list (string * string)) (name : string) (def : pyval)
    : res pyval :=
  let val := environ env name def in
  if truthy val then i ← int val; Ok (PInt i) else Ok def.

(** The loop of [filter_sentry_events]: whether some frame of the engine has a
    frame after it *)
Fixpoint engine_frame (frames : list pyval) : res bool :=
  match frames with
  | [] => Ok false
  | frame :: rest =>
      f ← getitem frame "function";
      if py_eqb f (PStr "execute_workflow_step") && negb (bool_decide (rest = [])) then Ok true
      else engine_frame rest
  end.
(** [v[i]] of a list *)
Definition list_get (v : pyval) (i : nat) : res pyval :=
  match v with
  | PList l => match l !! i with Some x => Ok x | None => Raise IndexError end
  | _ => Raise TypeError
  end.
Definition event_frames (event : pyval) : res (list pyval) :=
  exception ← getitem event "exception"; values ← getitem exception "values";
  value ← list_get values 0; stacktrace ← getitem value "stacktrace";
  frames ← getitem stacktrace "frames";
  match frames with PList l => Ok l | _ => Raise TypeError end.
(** [filter_sentry_events]: errors are suppressed, and the event is kept. *)
Definition filter_sentry_events (event : pyval) : option pyval :=
  match (frames ← event_frames event; engine_frame frames) with
  | Ok true => None
  | _ => Some event
  end.

(** ** workflow/context_processors.py *)

Definition url_prefix (attrs : tenant_attrs) : string :=
  match truthy_str (ra_realm_code attrs) with
  | Some realm => "/" +:+ realm +:+ "/" +:+ ra_space_code attrs
  | None => "/" +:+ ra_space_code attrs
  end.
Definition workflow_context `{Platform} (flower_url static_url : string) (attrs : tenant_attrs) : pyval :=
  PDict [("FLOWER_URL", PStr flower_url); ("SPACE_CODE", PStr (ra_space_code attrs));
         ("REALM_CODE", opt_str (ra_realm_code attrs));
         ("DOCUMENTATION_LINK", PStr (static_url +:+ "documentation/index.html"));
         ("API_DOCUMENTATION_LINK", PStr (url_prefix attrs +:+ "/workflow/docs/api/"));
         ("LOG_LINK", PStr (url_prefix attrs +:+ "/workflow/api/log"));
         ("DOMAIN_NAME", PStr domain_name)].

(** ** What they do *)

(** A record is formatted whatever its extra attributes, if it has the standard
    ones; the text is JSON for the message. *)
Lemma format_parses f r message : format_message f r = Ok message →
  ∃ s text, format f r = Ok s ∧ decode s = Ok text ∧ loads text = Ok (clean (PDict message)).
Proof.
  intros E. unfold format. rewrite E. eexists _, _. split; [reflexivity|]. split; [apply decode_encode|].
  apply loads_dumps_clean.
Qed.
(** An error report is dropped exactly when user code runs below the engine's step:
    a frame of the engine comes before the last frame. *)
Lemma sentry_dropped event frames : event_frames event = Ok frames →
  Forall (λ fr, ∃ d s, fr = PDict d ∧ dict_get d "function" = Some (PStr s)) frames →
  filter_sentry_events event = None ↔
  ∃ l1 fr l2, frames = l1 ++ fr :: l2 ∧ l2 ≠ [] ∧
    getitem fr "function" = Ok (PStr "execute_workflow_step").
Proof.
  intros E Hf. unfold filter_sentry_events. rewrite E. cbn [mbind res_bind]. clear E.
  assert (∃ b, engine_frame frames = Ok b ∧ (b = true ↔ ∃ l1 fr l2, frames = l1 ++ fr :: l2 ∧ l2 ≠ [] ∧
    getitem fr "function" = Ok (PStr "execute_workflow_step"))) as (b & -> & Hb).
  { induction Hf as [|fr frames (d & s & -> & Hs) Hf IH].
    - exists false. split; [done|]. split; [done|].
      intros (l1 & ? & ? & El & _). by destruct l1.
    - cbn [engine_frame]. rewrite (getitem_ok _ _ _ Hs). cbn [mbind res_bind].
      destruct IH as (b & -> & Hb). rewrite py_eqb_str.
      destruct (String.eqb_spec s "execute_workflow_step") as [->|Hne]; cbn [andb].
      + destruct (decide (frames = [])) as [->|Hn].
        * exists b. split; [done|]. rewrite Hb. split; [intros (l1 & ? & ? & El & _); by destruct l1|].
          intros (l1 & fr & l2 & El & Hl & _). destruct l1 as [|? [|]]; simplify_eq/=.
        * exists true. rewrite (bool_decide_eq_false_2 _ Hn). split; [done|]. split; [|done]. intros _.
          exists [], (PDict d), frames. split; [done|]. split; [done|]. by apply getitem_ok.
      + exists b. split; [by rewrite bool_decide_eq_false_2|]. rewrite Hb. split.
        * intros (l1 & fr & l2 & -> & H). by exists (PDict d :: l1), fr, l2.
        * intros ([|x l1] & fr & l2 & [= <- El] & Hl & Hg).
          -- rewrite (getitem_ok _ _ _ Hs) in Hg. congruence.
          -- by exists l1, fr, l2. }
  destruct b; split; naive_solver.
Qed.
(** Half past midnight, 250.5 milliseconds later: two points in the seconds *)
Example timestamp_two_points : format_timestamp (1709251200 * 1000000 + 1800250500) = "2024-03-01T00:30:00.250.5Z".
Proof. reflexivity. Qed.
(** A value that is not a boolean does not warn: it raises. *)
Example env_bool_raises : ENV_BOOL [("DEBUG", "yes")] "DEBUG" (PBool false) = Raise TypeError.
Proof. reflexivity. Qed.
