(* ===== verification/Bootstrap.v ===== *)
(** * Start-up and management commands (workflow/apps.py, workflow/management/commands)

    [bootstrap] runs after the migrations of every schema and gives it its
    [Space] and its bot: the fact the tenant isolation starts from.  The commands
    visit the schemas one after the other. *)
From Stdlib Require Import Ascii String.
From stdpp Require Import base list strings numbers gmap sets.
From S2P Require Import Prelude PyStr PyVal Json World Demo Graph Finmars Models Manager System Auth.
Local Open Scope string_scope.
Local Open Scope Z_scope.
Local Open Scope list_scope.

Section Bootstrap.
Context `{AuthPlatform} (realm_code_setting : string).

(** ** workflow/apps.py *)

(** The part of the default search path that names the user's own schema *)
Definition own_schema : string := String quote ("$user" +:+ String quote ", ").
(** [get_current_search_path]: [SHOW search_path] prints the path set. *)
Definition get_current_search_path : M string := gets (λ w, replace (w_path w) own_schema "").
(** [create_space_if_not_exist] *)
Definition create_space_if_not_exist : M unit :=
  path ← get_current_search_path;
  let space_code := if String.eqb path "public" then "space00000" else path in
  space ← get_space;
  match space with
  | Some sp =>
      let sp := set_sp_name (Some space_code) (set_sp_space_code space_code sp) in
      _ ← save_row (set_sp_realm_code (Some realm_code_setting) sp);
      mret tt
  | None =>
      _ ← insert_row (SpaceRow 0 (Some space_code) (Some realm_code_setting) space_code 0 0);
      mret tt
  end.
(** [User.objects.create(username=username, is_bot=True)]: the username is unique. *)
Definition create_bot (username : string) : M user_row :=
  l ← objects_filter (λ u, String.eqb (us_username u) username);
  match l with
  | _ :: _ => raise IntegrityError
  | [] => insert_row (UserRow 0 username "" false false true None)
  end.
(** [create_finmars_bot] *)
Definition create_finmars_bot : M unit :=
  _ ← try_except (objects_get (λ u, String.eqb (us_username u) "finmars_bot"))
        (λ _, create_bot "finmars_bot");
  mret tt.
(** [WorkflowConfig.bootstrap]: every error is logged. *)
Definition bootstrap : M unit :=
  try_except (_ ← create_space_if_not_exist; create_finmars_bot) (λ _, mret tt).

(** [WorkflowConfig.ready], for the words of the command line *)
Definition ready `{Platform} `{Backend} (argv : list string) : M unit :=
  if existsb (λ c, bool_decide (c ∈ argv)) ["makemigrations"; "migrate"; "migrate_all_schemes"]
  then mret tt else register_workflows None.

(** ** Management commands *)

(** [migrate --space-code]: Django's migrations, then the receivers of
    [post_migrate] *)
Definition migrate (apply_migrations : M unit) (space_code : option string) : M unit :=
  _ ← match truthy_str space_code with Some c => set_search_path c | None => mret tt end;
  _ ← apply_migrations;
  bootstrap.
(** [migrate_all_schemes] *)
Definition migrate_all_schemes (apply_migrations : M unit) : M unit :=
  schemas ← get_all_tenant_schemas;
  for_each schemas (λ schema,
    _ ← set_search_path schema;
    _ ← migrate apply_migrations None;
    set_search_path "public").
(** [cancel_existing_tasks]: an error ends the loop and is printed. *)
Definition cancel_existing_tasks `{Platform} (worker_name : string) : M unit :=
  try_except
    (schemas ← get_all_tenant_schemas;
     _ ← for_each schemas (λ schema,
       _ ← set_search_path schema; cancel_all_existing_tasks worker_name);
     set_search_path "public")
    (λ _, mret tt).
(** [generate_super_user], for the environment variables ADMIN_USERNAME and
    ADMIN_PASSWORD: only a missing user is created. *)
Definition generate_super_user (username password : option string) : M unit :=
  match truthy_str username, truthy_str password with
  | Some username, Some password =>
      try_except (_ ← objects_get (λ u, String.eqb (us_username u) username); mret tt)
        (λ e, match e with
              | DoesNotExist _ => _ ← create_user username password true true; mret tt
              | _ => raise e
              end)
  | _, _ => mret tt
  end.
(** [sync_remote_storage_to_local_storage_all_spaces] *)
Definition sync_all_spaces `{Platform} `{Backend} : M unit := sync_remote_storage None.

(** [update_sequences] on one table: [last_value] of a sequence is the last
    value it gave, or, when it has given none since it was set, the next one. *)
Definition max_id {R} `{Model R} (l : list R) : Z := fold_right Z.max 0 (row_id <$> l).
Definition update_sequence {R} `{Model R} (is_called : bool) (tb : table R) : table R :=
  let last_id := if is_called then next_id tb - 1 else next_id tb in
  if max_id (rows tb) >=? last_id then Table (rows tb) (max_id (rows tb) + 1) else tb.
(** ... and on the tables of a schema *)
Definition update_sequences (is_called : string → bool) (t : tenant) : tenant :=
  Tenant (update_sequence (is_called "Space") (t_spaces t))
    (update_sequence (is_called "User") (t_users t))
    (update_sequence (is_called "WorkflowTemplate") (t_templates t))
    (update_sequence (is_called "Workflow") (t_workflows t))
    (update_sequence (is_called "Task") (t_tasks t))
    (update_sequence (is_called "Schedule") (t_schedules t))
    (update_sequence (is_called "CrontabSchedule") (t_crontabs t))
    (update_sequence (is_called "ErrorRecord") (t_errors t)).
End Bootstrap.

(** ** What a schema has after its start-up *)

Section Established.
Context `{AuthPlatform} (realm_code_setting : string).
Abbreviation bootstrap := (bootstrap realm_code_setting).
Abbreviation is_bot := (λ u : user_row, String.eqb (us_username u) "finmars_bot").

Definition code_of_schema (s : string) : string := if String.eqb s "public" then "space00000" else s.
(** A schema ready for its tenant: its one space names it, and it has one bot. *)
Record ready_tenant (s : string) (t : tenant) : Prop := {
  rt_space : ∃ sp, rows (t_spaces t) = [sp] ∧ sp_space_code sp = code_of_schema s ∧
               sp_realm_code sp = Some realm_code_setting;
  rt_bot : ∃ bot, List.filter is_bot (rows (t_users t)) = [bot]
}.
(** What [bootstrap] needs: tables with at most one space and one bot *)
Record bootable (t : tenant) : Prop := {
  bt_spaces : (length (rows (t_spaces t)) ≤ 1)%nat;
  bt_bots : (length (List.filter is_bot (rows (t_users t))) ≤ 1)%nat
}.
Lemma ready_spaces_ok s t w : lower s = s → s ≠ "public" → w_tenants w !! s = Some t → ready_tenant s t → spaces_ok s w.
Proof using.
  intros Hs Hp Ht [(sp & Hsp & Hc & _) _] t' Ht'. rewrite Ht in Ht'. injection Ht' as <-.
  rewrite Hsp. apply Forall_singleton. rewrite Hc. unfold code_of_schema.
  by rewrite (proj2 (String.eqb_neq _ _) Hp).
Qed.

(** Only the spaces and the users of the schema are written. *)
Definition only_start (t t' : tenant) : Prop := t' = set_t_spaces (t_spaces t') (set_t_users (t_users t') t).

Lemma current_path_run w : has_char quote (w_path w) = false →
  get_current_search_path w = (Ok (w_path w), w).
Proof using. intros Hq. unfold get_current_search_path, gets, own_schema. by rewrite replace_absent. Qed.
Lemma create_space_run s w t : w_path w = s → has_char quote s = false →
  cur w = Some t → (length (rows (t_spaces t)) ≤ 1)%nat →
  ∃ sp n, create_space_if_not_exist realm_code_setting w
      = (Ok tt, with_tenant (set_t_spaces (Table [sp] n) t) (tick w)) ∧
    sp_space_code sp = code_of_schema s ∧ sp_realm_code sp = Some realm_code_setting.
Proof using.
  intros <- Hq Hw Hl. unfold create_space_if_not_exist.
  rewrite (bind_ok _ _ _ _ _ (current_path_run w Hq)). fold (code_of_schema (w_path w)).
  rewrite (bind_ok _ _ _ _ _ (get_space_first w t Hw)).
  destruct (rows (t_spaces t)) as [|sp [|]] eqn:E; [..|simpl in Hl; lia]; cbn [qs_first head].
  - rewrite (bind_ok _ _ _ _ _ (insert_run _ w t Hw)). cbn [get_table space_model]. rewrite E.
    do 2 eexists. split; [reflexivity|done].
  - rewrite (bind_ok _ _ _ _ _ (save_run _ w t Hw)). cbn [get_table space_model]. rewrite E.
    unfold write_row. cbn [existsb map]. rewrite Z.eqb_refl. cbn [orb].
    do 2 eexists. split; [reflexivity|done].
Qed.
Lemma create_bot_run w t : cur w = Some t → (length (List.filter is_bot (rows (t_users t))) ≤ 1)%nat →
  ∃ us n k, create_finmars_bot w = (Ok tt, with_tenant (set_t_users (Table us n) t) (set_w_clock k w)) ∧
    ∃ bot, List.filter is_bot us = [bot].
Proof using.
  intros Hw Hl. unfold create_finmars_bot.
  destruct (List.filter is_bot (rows (t_users t))) as [|u [|]] eqn:E; [..|simpl in Hl; lia].
  - erewrite bind_ok.
    2:{ erewrite try_raise; [|by eapply (get_none (R:=user_row) is_bot w t)].
        unfold create_bot. rewrite (bind_ok _ _ _ _ _ (filter_run is_bot w t Hw)).
        unfold ordered. cbn [newest_first user_model get_table]. rewrite E.
        by rewrite (insert_run _ w t Hw). }
    do 3 eexists. split; [reflexivity|]. cbn [rows get_table user_model]. rewrite List.filter_app, E.
    by eexists.
  - erewrite bind_ok by (apply try_ok; by apply (get_run (R:=user_row) is_bot w t u)).
    exists (rows (t_users t)), (next_id (t_users t)), (w_clock w).
    split; [|by exists u]. unfold with_tenant, cur in *. destruct w; simpl in *.
    unfold set_w_tenants, set_w_clock. simpl. do 3 f_equal.
    rewrite insert_id; [done|]. rewrite Hw. f_equal. by destruct t as [? [] ? ? ? ? ? ?].
Qed.

(** [bootstrap] makes a tenant ready, and writes nothing else. *)
Lemma bootstrap_run s w t : w_path w = s → has_char quote s = false →
  cur w = Some t → bootable t →
  ∃ t' w', bootstrap w = (Ok tt, w') ∧ w_path w' = s ∧ w_catalog w' = w_catalog w ∧
    w_tenants w' = <[s := t']> (w_tenants w) ∧ ready_tenant s t' ∧ only_start t t'.
Proof using.
  intros Hs Hq Hw [Hl1 Hl2].
  destruct (create_space_run s w t Hs Hq Hw Hl1) as (sp & n & E1 & Hc & Hr).
  set (w1 := with_tenant _ (tick w)) in E1. set (t1 := set_t_spaces _ t) in *.
  assert (cur w1 = Some t1) as Hw1 by apply cur_with_tenant.
  destruct (create_bot_run w1 t1 Hw1 Hl2) as (us & m & k & E2 & bot & Hbot).
  exists (set_t_users (Table us m) t1). eexists. unfold Bootstrap.bootstrap. split.
  - apply try_ok. rewrite (bind_ok _ _ _ _ _ E1). exact E2.
  - split; [exact Hs|]. split; [done|]. split.
    + unfold w1, with_tenant. simpl. rewrite Hs. by rewrite insert_insert_eq.
    + split; [|done]. split; [by exists sp|by exists bot].
Qed.

(** ** Every schema after [migrate_all_schemes] *)

(** What Django's migrations promise: they complete, keep the search path and
    the list of schemas, and leave in the current schema tables that can be
    bootstrapped if those it had could be. *)
Definition bootable_schema (s : string) (w : world) : Prop :=
  ∀ t, w_tenants w !! s = Some t → bootable t.
Definition migrates (m : M unit) : Prop := ∀ w, bootable_schema (w_path w) w →
  ∃ w' t, m w = (Ok tt, w') ∧ w_path w' = w_path w ∧ w_catalog w' = w_catalog w ∧
    w_tenants w' = <[w_path w := t]> (w_tenants w) ∧ bootable t.
(** A name that SQL keeps as it is *)
Definition plain_name (s : string) : Prop := lower s = s ∧ has_char quote s = false.
Definition ready_in (w : world) (s : string) : Prop :=
  ∃ t, w_tenants w !! s = Some t ∧ ready_tenant s t.

Lemma migrate_run m s w : migrates m → plain_name s → bootable_schema s w →
  ∃ w', (_ ← set_search_path s; _ ← migrate realm_code_setting m None; set_search_path "public") w
      = (Ok tt, w') ∧
    w_path w' = "public" ∧ w_catalog w' = w_catalog w ∧ ready_in w' s ∧
    (∀ s', s' ≠ s → w_tenants w' !! s' = w_tenants w !! s').
Proof using.
  intros Hm [Hlow Hq] Hb. set (w0 := set_w_path s w).
  destruct (Hm w0 Hb) as (w1 & t & E1 & Hp1 & Hc1 & Ht1 & Hbt).
  destruct (bootstrap_run s w1 t) as (t' & w2 & E2 & Hp2 & Hc2 & Ht2 & Hr & _); [done|done| |done|].
  { unfold cur. rewrite Hp1, Ht1. apply lookup_insert_eq. }
  exists (set_w_path "public" w2). split_and!; [| done | | |].
  - rewrite (bind_ok _ _ w tt w0) by (unfold set_search_path; by rewrite Hlow).
    rewrite (bind_ok _ _ w0 tt w2); [done|]. unfold migrate. cbn [truthy_str].
    rewrite (bind_ok _ _ w0 tt w0) by done. by rewrite (bind_ok _ _ _ _ _ E1).
  - cbn. by rewrite Hc2, Hc1.
  - exists t'. split; [|done]. cbn. rewrite Ht2. apply lookup_insert_eq.
  - intros s' Hs'. cbn. rewrite Ht2, Ht1. cbn. by rewrite !lookup_insert_ne.
Qed.

End Established.

(** ** Sequences *)

(** [update_sequence] writes no row, never moves a sequence back, and leaves
    every identifier below the next one, however the sequence was read. *)
Lemma update_sequence_ok {R} `{Model R} b (tb : table R) :
  rows (update_sequence b tb) = rows tb ∧ next_id tb ≤ next_id (update_sequence b tb) ∧
  Forall (λ r, row_id r < next_id (update_sequence b tb)) (rows tb).
Proof.
  assert (∀ (l : list R), Forall (λ r, row_id r ≤ max_id l) l) as Hmax.
  { induction l as [|r l IH]; constructor; change (max_id (r :: l)) with (Z.max (row_id r) (max_id l)); [lia|].
    eapply Forall_impl; [exact IH|]. intros x Hx. cbn in Hx. lia. }
  specialize (Hmax (rows tb)). unfold update_sequence.
  destruct (max_id (rows tb) >=? _) eqn:E; rewrite Z.geb_leb in E.
  - apply Z.leb_le in E. cbn. split_and!; [done|destruct b; lia|].
    eapply Forall_impl; [exact Hmax|]. intros x Hx. cbn in Hx |- *. lia.
  - apply Z.leb_gt in E. split_and!; [done|lia|].
    eapply Forall_impl; [exact Hmax|]. intros x Hx. cbn in Hx |- *. destruct b; lia.
Qed.

(** ** A new realm *)

(** The witness: a schema without tables yet and one whose space has another code *)
Definition empty_tenant : tenant := Tenant no_rows no_rows no_rows no_rows no_rows no_rows no_rows no_rows.
Definition demo_migrations : M unit := λ w,
  (Ok tt, set_w_tenants (<[w_path w := default empty_tenant (w_tenants w !! w_path w)]> (w_tenants w)) w).
Lemma demo_migrates : migrates demo_migrations.
Proof.
  intros w Hw. do 2 eexists. split; [reflexivity|]. split_and!; [done..|].
  destruct (w_tenants w !! w_path w) as [t|] eqn:E; [by apply Hw|]. split; simpl; lia.
Qed.
Definition new_realm : world :=
  World {["space00001" := demo_tenant PNone [] []]} ["space00000"; "space00001"; "pg_catalog"]
    "public" 1000 0 [] [] [] [] [] None.
