(* ===== verification/Endpoints.v ===== *)
(** * The endpoints beside the workflows (workflow/views.py)

    The ping, the execution of a file, the migration of the schema of the request,
    and the two monitoring pages. *)
From Stdlib Require Import Ascii String.
From stdpp Require Import base list strings numbers gmap sets.
From S2P Require Import Prelude PyStr PyVal Json World Demo Finmars Models Views Monitoring Sessions Auth Serializers Bootstrap.
Local Open Scope string_scope.
Local Open Scope Z_scope.
Local Open Scope list_scope.

Section Endpoints.
Context `{Platform}.

(** [PingViewSet.get_bearer_token], on the words of the header *)
Definition get_bearer_token (auth : list string) : res pyval :=
  match auth with
  | [] => Ok PNone
  | [_] => Raise IndexError
  | _ :: token :: _ => t ← decode token; Ok (PStr t)
  end.
(** [PingViewSet.list]: the fields the instance has no value for are left out. *)
Definition ping (version : pyval) (now : Z) : view_response :=
  Resp 200 (PDict [("message", PStr "pong"); ("version", version); ("now", PInt now)]).

(** [FileExecutionViewSet.create], for the storage and the identifier of the run;
    [SystemExit] is no [Exception]. *)
Definition file_request (request_data : pyval) : res (pyval * pyval) :=
  data ← get_default request_data "data" (PDict []);
  file_path ← get request_data "file_path";
  Ok (data, file_path).
Definition create_file `{Interpreter} (read_storage : string → res string) (space_code execution_id : string)
    (user : user_row) (request_data : pyval) : ST process view_response :=
  '(data, file_path) ← lift (file_request request_data);
  p ← gets (λ p, session_of (sessions p) (us_id user));
  _ ← when (bool_decide (p = None)) (create_session (us_id user));
  try_except
    (file_path ← lift (as_str file_path);
     output ← execute_file read_storage space_code execution_id (us_id user) file_path data;
     mret (Resp 200 output))
    (λ e, match e with
          | PyException "SystemExit" => raise e
          | _ => mret (Resp 400 (PDict [("error", PStr (exn_text e))]))
          end).

(** [RealmMigrateSchemeView.create], in the schema the middleware has set: an
    error is an answer too. *)
Definition create_migration (realm_code_setting : string) (apply_migrations : M unit) : M view_response :=
  try_except (_ ← migrate realm_code_setting apply_migrations None; mret (Resp 200 (PDict [("status", PStr "ok")])))
    (λ e, mret (Resp 200 (PDict [("status", PStr "error"); ("message", PStr (exn_text e))]))).

(** [CeleryMonitoringViewSet.list] and [RabbitMQMonitoringViewSet.list], on what the
    workers and the management API answer *)
Definition monitoring_response (r : res pyval) : view_response :=
  match r with Ok data => Resp 200 data | Raise e => message_response 500 (exn_text e) end.
Definition list_celery `{Rest} `{Inspect} : view_response := monitoring_response (celery_representation get_tasks_data).
Definition list_rabbitmq `{Rest} (answer : res response) : view_response :=
  monitoring_response (queues_info ← get_main_queues_info answer; rabbitmq_representation queues_info).
End Endpoints.

(** ** A file runs in a fresh context *)

Section Fresh.
Context `{Platform} `{Interpreter} (read_storage : string → res string) (space_code execution_id : string).

(** The output of a file depends on the file and the data alone: not on the
    variables of any session, and it leaves them all. *)
Theorem files_run_fresh user request_data p p' :
  let run := create_file read_storage space_code execution_id user request_data in
  (run p).1 = (run p').1 ∧ ∀ i f, variables (run p).2 i f = variables p i f.
Proof using.
  unfold create_file. destruct (file_request request_data) as [[data file_path]|e]; [|by split].
  assert (∀ q, ∃ q1, (o ← gets (λ p, session_of (sessions p) (us_id user));
      when (bool_decide (o = None)) (create_session (us_id user))) q = (Ok tt, q1) ∧
    is_Some (session_of (sessions q1) (us_id user)) ∧ ∀ i f, variables q1 i f = variables q i f) as Hs.
  { intros q. unfold mbind, ST_bind, gets, when, create_session, modify.
    destruct (session_of (sessions q) (us_id user)) as [s|] eqn:E; cbn.
    - exists q. by rewrite E.
    - eexists. split; [reflexivity|]. cbn. rewrite session_set, Z.eqb_refl. split; [by eexists|].
      intros i f. unfold variables. cbn [sessions]. rewrite session_set. destruct (Z.eqb_spec i (us_id user)) as [->|]; [|done].
      by rewrite E. }
  destruct (Hs p) as (q & Eq & [s Hq] & Hv), (Hs p') as (q' & Eq' & [s' Hq'] & _).
  unfold mbind, ST_bind, gets, lift, try_except in *. rewrite Eq, Eq'.
  destruct (as_str file_path) as [path|e]; cbn.
  - unfold execute_file. rewrite Hq, Hq'. destruct (read_storage _) as [content|e]; cbn.
    + destruct data as [| | | | |d]; cbn; try (by split).
      destruct (file_code path content) as [code|e]; cbn.
      * destruct (run_file _ _) as [v|e]; cbn; [by split|]. destruct e; by repeat case_match; split.
      * destruct e; by repeat case_match; split.
    + destruct e; by repeat case_match; split.
  - destruct e; by repeat case_match; split.
Qed.
End Fresh.

(** ** Migrating through the API *)

Section Migration.
Context `{Platform} (realm_code_setting : string).

(** Anyone may ask for it, and it always answers 200; with migrations that work
    the schema of the request is ready for its tenant, and no other is touched. *)
Theorem migration_answers m w s : w_path w = s → plain_name s → bootable_schema s w → migrates m →
  ∃ w', create_migration realm_code_setting m w = (Ok (Resp 200 (PDict [("status", PStr "ok")])), w') ∧
    w_path w' = s ∧ ready_in realm_code_setting w' s ∧ ∀ s', s' ≠ s → w_tenants w' !! s' = w_tenants w !! s'.
Proof using.
  intros Hp [Hlow Hq] Hb Hm. subst s. destruct (Hm w Hb) as (w1 & t & E1 & Hp1 & Hc1 & Ht1 & Hbt).
  destruct (bootstrap_run realm_code_setting (w_path w) w1 t) as (t' & w2 & E2 & Hp2 & _ & Ht2 & Hr & _); [done|done| |done|].
  { unfold cur. rewrite Hp1, Ht1. apply lookup_insert_eq. }
  exists w2. split_and!; [|done| |].
  - unfold create_migration. apply try_ok. rewrite (bind_ok _ _ w tt w2); [done|]. unfold migrate. cbn [truthy_str].
    rewrite (bind_ok _ _ w tt w) by done. by rewrite (bind_ok _ _ _ _ _ E1).
  - exists t'. split; [|done]. rewrite Ht2. apply lookup_insert_eq.
  - intros s' Hs'. rewrite Ht2, Ht1. by rewrite !lookup_insert_ne.
Qed.
Lemma migration_always_200 m w : ∃ data, (create_migration realm_code_setting m w).1 = Ok (Resp 200 data).
Proof using.
  unfold create_migration, try_except, mbind, ST_bind. destruct (migrate _ m None w) as [[[]|e] w']; by eexists.
Qed.
End Migration.
