(* ===== verification/Serving.v ===== *)
(** * From a request to its answer (workflow/views.py, workflow_app/settings.py)

    The authenticators, then the permissions of the view, then the view: who the
    model view sets and the code execution serve. *)
From Stdlib Require Import Ascii String.
From stdpp Require Import base list strings numbers gmap sets.
From S2P Require Import Prelude PyStr PyVal Json World Demo Finmars Models Storage Serializers.
From S2P Require Import Views Sessions Auth Scheduler Editing Edited References.
Local Open Scope string_scope.
Local Open Scope Z_scope.
Local Open Scope list_scope.

(** What the views use of the framework: the permission classes, its own setting
    of [DEFAULT_PERMISSION_CLASSES], the user of a request that no authenticator
    has answered (its id stands for [None]), and the error for a request that is not permitted. *)
Class RestFramework : Type := {
  permission : Type;
  AllowAny : permission;
  IsAuthenticated : permission;
  has_permission : permission → option user_row → bool;
  framework_permission_classes : list permission;
  anonymous_user : user_row;
  not_permitted : exn
}.
(** As documented: [AllowAny] lets every request pass and is the default,
    [IsAuthenticated] those with a user. *)
Class RestFrameworkOk `{RestFramework} : Prop := {
  allow_any o : has_permission AllowAny o = true;
  is_authenticated o : has_permission IsAuthenticated o = bool_decide (is_Some o);
  default_allows : framework_permission_classes = [AllowAny]
}.

Section Serving.
Context `{Platform} `{AuthPlatform} `{RestFramework}.

(** [REST_FRAMEWORK]: [DEFAULT_PERMISSION_CLASSES] is commented out. *)
Definition DEFAULT_PERMISSION_CLASSES : option (list permission) := None.
(** [ModelViewSet.permission_classes] *)
Definition base_permission_classes : list permission :=
  default framework_permission_classes DEFAULT_PERMISSION_CLASSES.
(** [permission_classes] of the four model view sets *)
Definition permission_classes : list permission := base_permission_classes ++ [].
(** [CodeExecutionViewSet] declares none. *)
Definition code_permission_classes : list permission := base_permission_classes.
(** [permission_classes] of [ErrorRecordViewSet] *)
Definition error_permission_classes : list permission := [IsAuthenticated].

(** A request to a view whose state is [X]: the authenticators run in the tenant's
    schema, every permission class is asked, and the view gets the request's user. *)
Definition dispatch_request {X} (classes : list permission) (head : http_head)
    (view : option user_row → ST (world * X) view_response) : ST (world * X) view_response := λ s,
  match authenticate head s.1 with
  | (Raise e, w) => (Raise e, (w, s.2))
  | (Ok o, w) =>
      let user := fst <$> o in
      if forallb (λ p, has_permission p user) classes then view user (w, s.2)
      else (Raise not_permitted, (w, s.2))
  end.

(** ** The model view sets *)

Section Api.
Context `{RawStorage} `{Crypto} `{Cron} `{Validation} (key : option string).

(** The requests that assign the owner *)
Definition needs_owner (r : resource) (e : edit) : bool :=
  match e with
  | Create _ | Update false _ _ =>
      existsb (λ f, match f.2 with HiddenOwner => true | _ => false end) (serializer_class r)
  | Retrieve _ | Update true _ _ | Destroy _ => false
  end.
(** Such a request of the anonymous user: the foreign key takes no
    [AnonymousUser]. *)
Definition assign_anonymous (r : resource) (e : edit) : ST (world * store) view_response :=
  let find {O} (mv : model_view O) (pk : Z) := _ ← on_world (mv_find mv pk); mret tt in
  pk ← (match e with
        | Update _ pk _ =>
            _ ← (match r with
                 | RTemplate => find (WorkflowTemplateViewSet key) pk
                 | RWorkflow => find WorkflowViewSet pk
                 | RTask => find TaskViewSet pk
                 | RSchedule => find ScheduleViewSet pk
                 end);
            mret (Some pk)
        | _ => mret None
        end);
  _ ← (match e with
       | Create data | Update _ _ data => on_world (validated_data r anonymous_user pk false data)
       | _ => mret []
       end);
  raise ValueError.
(** The view set for the request's user *)
Definition view_set (r : resource) (e : edit) (user : option user_row) : ST (world * store) view_response :=
  match user with
  | Some u => api key r u e
  | None => if needs_owner r e then assign_anonymous r e else api key r anonymous_user e
  end.
Definition serve (head : http_head) (r : resource) (e : edit) : ST (world * store) view_response :=
  dispatch_request permission_classes head (view_set r e).
End Api.

(** ** Code execution *)

Definition serve_code `{Interpreter} (head : http_head) (code file_path : string)
    : ST (world * process) view_response :=
  dispatch_request code_permission_classes head
    (λ user s, let '(a, p) := create_code (default anonymous_user user) code file_path s.2 in (a, (s.1, p))).
(** ** The records of errors, for whatever the view does *)
Definition serve_errors {X} (head : http_head) (view : option user_row → ST (world * X) view_response)
    : ST (world * X) view_response := dispatch_request error_permission_classes head view.
End Serving.

(** ** Who is served *)

(** A request with no token: neither a header nor the cookie *)
Definition tokenless (head : http_head) : Prop :=
  hd_method head ≠ "OPTIONS" ∧ split_ws (hd_authorization head) = [] ∧
  dict_get (hd_cookies head) "access_token" = None.

Section Served.
Context `{Platform} `{AuthPlatform} `{RestFramework} `{!RestFrameworkOk}.

Lemma tokenless_anonymous head w : tokenless head → authenticate head w = (Ok None, w).
Proof using.
  intros (Hm & Ha & Hc). unfold authenticate, jwt_authenticate, keycloak_authenticate, jwt_token, keycloak_token.
  rewrite (proj2 (String.eqb_neq _ _) Hm), Ha, Hc. reflexivity.
Qed.
Lemma base_allows user : forallb (λ p, has_permission p user) base_permission_classes = true.
Proof. unfold base_permission_classes. cbn. rewrite default_allows. cbn. by rewrite allow_any. Qed.
Lemma dispatched {X} classes head view w (x : X) o w1 : authenticate head w = (Ok o, w1) →
  forallb (λ p, has_permission p (fst <$> o)) classes = true →
  dispatch_request classes head view (w, x) = view (fst <$> o) (w1, x).
Proof using. intros Ha Hp. unfold dispatch_request. cbn [fst snd]. by rewrite Ha, Hp. Qed.

Context `{RawStorage} `{Crypto} `{Cron} `{Validation} `{!ValidationOk} (key : option string).

(** A request that does not assign the owner is answered alike for every user. *)
Lemma api_any r user user' e s : needs_owner r e = false → api key r user e s = api key r user' e s.
Proof using. intros Hn. by destruct r, e as [data|pk|[] pk data|pk]. Qed.

Lemma find_reads {O} (mv : model_view O) pk (w : world) (st : store) : (∀ w, (mv_find mv pk w).2 = w) →
  ∃ r : res unit, (_ ← on_world (mv_find mv pk); mret tt) (w, st) = (r, (w, st)).
Proof using.
  intros Hr. specialize (Hr w). unfold on_world, mbind, ST_bind. cbn [fst snd].
  destruct (mv_find mv pk w) as [[o|ex] w1]; cbn in Hr; subst w1; by eexists.
Qed.
Lemma get_schedule_reads pk w : (get_schedule pk w).2 = w.
Proof using.
  assert (Keeps (λ w', w' = w) (get_schedule pk) anything) as Hk; [|by apply Hk].
  unfold get_schedule. eapply keeps_bind with (φ := anything).
  { intros w' ->. by rewrite get_object_reads. }
  intros o _. eapply keeps_bind with (φ := anything); [|by intros; apply keeps_ret].
  destruct (sc_crontab o) as [i|]; cbn [fetch_fk]; [|by apply keeps_ret].
  eapply keeps_bind with (φ := anything); [|by intros; apply keeps_ret].
  intros w' ->. unfold get_by_id. by rewrite get_reads.
Qed.
Lemma assign_anonymous_reads r e w st : ∃ ex, assign_anonymous key r e (w, st) = (Raise ex, (w, st)).
Proof using Type*.
  assert (∀ pk data, ∃ ex, (_ ← (on_world (validated_data r anonymous_user pk false data)
      : ST (world * store) (list (string * pyval))); (raise ValueError : ST _ view_response)) (w, st) = (Raise ex, (w, st))) as Hv.
  { intros pk data. unfold on_world, mbind, ST_bind. cbn [fst snd].
    pose proof (validated_data_reads r anonymous_user pk false data w) as Hr.
    destruct (validated_data _ _ _ _ _ w) as [[vs|ex] w1]; cbn in Hr; subst w1; by eexists. }
  destruct e as [data|pk|partial pk data|pk]; unfold assign_anonymous; [exact (Hv None data)|by eexists| |by eexists].
  assert (∃ o : res unit, (match r with
     | RTemplate => _ ← on_world (mv_find (WorkflowTemplateViewSet key) pk); mret tt
     | RWorkflow => _ ← on_world (mv_find WorkflowViewSet pk); mret tt
     | RTask => _ ← on_world (mv_find TaskViewSet pk); mret tt
     | RSchedule => _ ← on_world (mv_find ScheduleViewSet pk); mret tt
     end) (w, st) = (o, (w, st))) as [o Ho].
  { destruct r; apply find_reads; intros w'; [apply get_object_reads..|apply get_schedule_reads]. }
  unfold mbind at 1, ST_bind at 1. unfold mbind at 1, ST_bind at 1. cbv zeta. rewrite Ho.
  destruct o as [[]|ex]; [|by eexists]. exact (Hv (Some pk) data).
Qed.

(** C32: who is served without a token.  A request with neither the header nor the
    cookie is answered by the model view sets as a request of any user is, its
    deletions included; only where the owner is to be assigned it fails, and
    nothing is written.  It executes code as the one anonymous user, and the
    records of errors, whose view asks for a user, refuse it. *)
Theorem anonymous_served head r e w st : tokenless head →
  (if needs_owner r e then ∃ ex, serve key head r e (w, st) = (Raise ex, (w, st))
   else ∀ u, serve key head r e (w, st) = api key r u e (w, st)) ∧
  (∀ `{Interpreter} code file_path p, serve_code head code file_path (w, p)
     = let '(a, p') := create_code anonymous_user code file_path p in (a, (w, p'))) ∧
  ∀ X view (x : X), serve_errors head view (w, x) = (Raise not_permitted, (w, x)).
Proof using Type*.
  intros Ht. pose proof (tokenless_anonymous head w Ht) as Ha. split_and!.
  - unfold serve. rewrite (dispatched _ _ _ _ _ _ _ Ha).
    2:{ unfold permission_classes. rewrite app_nil_r. apply base_allows. }
    unfold view_set. cbn [fmap option_fmap option_map]. destruct (needs_owner r e) eqn:Hn; [apply assign_anonymous_reads|].
    intros u. by apply api_any.
  - intros I code file_path p. unfold serve_code. rewrite (dispatched _ _ _ _ _ _ _ Ha) by apply base_allows. done.
  - intros X view x. unfold serve_errors, dispatch_request, error_permission_classes. cbn [fst snd]. rewrite Ha. cbn.
    by rewrite is_authenticated.
Qed.
(** A request with a user is that user's. *)
Lemma authenticated_served head r e w st u k w1 : authenticate head w = (Ok (Some (u, k)), w1) →
  serve key head r e (w, st) = api key r u e (w1, st) ∧
  ∀ X view (x : X), serve_errors head view (w, x) = view (Some u) (w1, x).
Proof using Type*.
  intros Ha. split.
  - unfold serve. rewrite (dispatched _ _ _ _ _ _ _ Ha); [done|].
    unfold permission_classes. rewrite app_nil_r. apply base_allows.
  - intros X view x. unfold serve_errors. rewrite (dispatched _ _ _ _ _ _ _ Ha); [done|]. cbn.
    by rewrite is_authenticated.
Qed.
End Served.

(** ** A request without a token deletes a template *)

Definition demo_framework : RestFramework := {|
  permission := bool;
  AllowAny := false; IsAuthenticated := true;
  has_permission p o := negb p || bool_decide (is_Some o);
  framework_permission_classes := [false];
  anonymous_user := UserRow 0 "" "" false false false None;
  not_permitted := AuthenticationFailed "Authentication credentials were not provided." |}.
Lemma demo_framework_ok : @RestFrameworkOk demo_framework.
Proof. by split. Qed.
Definition no_token : http_head := HttpHead "DELETE" "" [].
Lemma anonymous_served_witness : let '(a, s) :=
    @serve demo_platform demo_auth demo_framework file_store (toy_crypto false "") demo_cron demo_validation
      demo_key no_token RTemplate (Destroy 1) (edit_world, files []) in
  a = Ok (Resp 204 PNone) ∧ ∃ t, cur s.1 = Some t ∧ rows (t_templates t) = [].
Proof.
  destruct (@anonymous_served demo_platform demo_auth demo_framework demo_framework_ok file_store
    (toy_crypto false "") demo_cron demo_validation demo_validation_ok demo_key no_token RTemplate (Destroy 1)
    edit_world (files []) ltac:(by split_and!)) as [Hs _].
  cbn [needs_owner] in Hs. rewrite (Hs demo_user).
  pose proof (@destroy_template_run demo_platform file_store (toy_crypto false "") demo_cron demo_validation
    demo_key demo_user (demo_template PNone) edit_world (files []) edit_tenant eq_refl eq_refl) as Hd.
  change (wt_id (demo_template PNone)) with 1 in Hd. rewrite Hd.
  split; [done|]. eexists. split; [apply cur_with_tenant|]. done.
Defined.
